(* ===== verification/_CoqProject ===== *)
-Q . S2P
Prelude.v
AesTables.v
Aes.v
AesInverse.v
AesCbc.v
Gcm.v
GcmStream.v
AesGcm.v
Sha256.v
Uefi.v
RamDisk.v
Sim.v
RawPrt.v
Crypto.v
PrintLib.v
PrintSpec.v
Log.v
Report.v
BaseAnswer.v
Ecc.v
FileCtrl.v
Base64.v
BootImage.v
Dice.v
Verify.v
SystemControl.v
Ssbl.v
SsblFrame.v
Fsbl.v
