(* ===== verification/Prelude.v ===== *)
(** * SBC secure boot loaders (SBCPkg): verification development

    ** The program

    SBCPkg/Application holds two UEFI applications that boot a machine in a
    measured way.  The first-stage loader (FSBL/FSBL.c) verifies its own image,
    derives a device identity and hands over to the second-stage loader
    (SSBL/SSBL.c).  The SSBL verifies an image, derives the DICE identities of the
    firmware and of the operating system, acts on the boot mode kept on a raw
    partition (normal, update, recovery, factory), and starts GRUB, resets or
    shuts down.  Both share a library: raw partition and files (SBC_FileCtrl.c),
    base answer, identities and image verification (SBC_AntiTampering.c),
    cryptography (SBC_CryptAES.c, SBC_Hashing.c, SBC_X509.c,
    SBC_EccSignVeriify.c), image loading (SBC_LoadKernelImage.c) and mode control
    (SBC_SystemControl.c).  What they report is a log line on the console
    (SBC_Log.c, over the formatted printing of BasePrintLib).  Below it are
    BaseCryptLib and OpenSSL, the UEFI protocols, and in this tree the RAM disk
    driver that implements one of them.

    ** Effects

    A C function that can fail in the C sense is a function [M W A] from machine
    states to an outcome: a value, [Fault] (a null dereference, an access outside
    a buffer, a use of an uninitialised or freed object) or [Reset] (the machine
    restarts or shuts down).  [W] is abstract.  What the loaders call of the
    firmware are type classes over it (Uefi.v), each with a class of laws that
    states documented behaviour; Sim.v is a concrete machine that satisfies all
    of them and on which every example is evaluated.  Block handles can share a
    medium, as a partition and the disk it is on do: the laws of the block interface
    place each handle at an origin of a medium, and a write shows through every
    handle of its medium.  OpenSSL is a class
    ([OpenSSL] in Crypto.v, [EcOps] in Ecc.v) with laws.  Its SHA-256, and its AES
    with CBC, GCM and the path through EVP and the provider, are modelled from
    source: [with_sha256] and [with_aes_gcm] put them in the place of the
    parameters, and Crypto.v calls CBC directly.  Printing and logging have no
    firmware state, and use a smaller effect, [outcome] (PrintLib.v): a value,
    [Undef] (undefined behaviour in C, such as a write past a buffer) or [NoFuel].
    Integers are [Z], with the truncation of each C type written out.

    ** Files

    - Prelude.v: machine integers, buffers ([rd], [wr]), the effect [M], tactics.
    - Sha256.v: sha256.c and md32_common.h of OpenSSL, CryptSha256.c; the reference
      definition of FIPS 180-4 in module [Fips].
    - AesTables.v, Aes.v: aes_core.c of OpenSSL, and FIPS 197 as reference;
      AesInverse.v: the inverse cipher; AesCbc.v: cbc128.c and CryptAes.c.
    - Gcm.v: gcm128.c, the field multiplication, and SP 800-38D as reference;
      GcmStream.v: the incremental calls, however the data is cut.
    - AesGcm.v: the provider's cipher, EVP, and CryptAeadAesGcm.c.
    - Uefi.v: status codes, [LV_t], the firmware interface and its laws.
    - RamDisk.v: RamDiskBlockIo.c (BlockIo and BlockIo2) as an implementation of
      the block interface.
    - Sim.v: the concrete machine.
    - RawPrt.v: the raw partition of SBC_FileCtrl.c: layout, header, block access,
      search for the partition, system settings.
    - Crypto.v: BaseCryptLib wrappers and the loaders' layer over them.
    - PrintLib.v: PrintLibInternal.c, the formatted printing; PrintSpec.v: what a
      format string stands for ([render]) and that the code writes it.
    - Log.v: SBC_Log.c and the console output of UefiLib; Report.v: the log calls
      of the loaders that print a base answer.
    - BaseAnswer.v: the encrypted base answer of SBC_AntiTampering.c.
    - Ecc.v: CryptEc.c and SBC_EccSignVeriify.c: key generation, ECDSA, ECDH, the
      key pair of a DICE seed, the check of the device certificate.
    - FileCtrl.v: the file operations and the boot-mode file of SBC_FileCtrl.c.
    - Base64.v: Base64 of BaseLib and the PEM writer.
    - BootImage.v: SBC_LoadKernelImage.c.
    - Dice.v: serial numbers, device id, firmware id, OS id, migration key.
    - Verify.v: SBC_SSBL_Verify and SBC_FSBL_Verify.
    - SystemControl.v: SBC_SystemControl.c.
    - Ssbl.v, Fsbl.v: the two [UefiMain]s.
    - SsblFrame.v: what a run of the SSBL can change.

    ** Theorems

    - Boot: the SSBL refines an abstract boot machine ([ssbl_refines]); an update
      completes in three boots, a chain of reboots ends, a failed verification
      shuts down without touching a disk; no run writes outside the header block and
      the settings area ([ssbl_contained]); the FSBL does what the header says
      ([fsbl_dispatch]); the current bank is the one the boot preference names.
    - Verification: an image is accepted exactly when its signature verifies under
      the key of the certificate it carries; short images fault.
    - Storage: what every block request does, in the RAM disk driver (for all 64-bit
      requests, with the one that wraps round) and on the raw partition over it;
      asynchronous writes signal the token they are given; a mode change stores
      exactly the new modes and zeros behind the header; the search finds the first
      partition; file reads deliver the content; a stored base answer is its
      ciphertext and validates, when it can be reported, and what storing it does
      to the records beside it.
    - Identities: what enters each identity and the migration key, serial numbers.
    - Cryptography: incremental SHA-256 equals FIPS 180-4, its contexts stay well
      formed, and it implements the interface the loaders use; the table-driven
      AES equals FIPS 197 and decryption inverts it; CBC equals SP 800-38A; GCM
      equals SP 800-38D however the data is cut, an IV serves one message, and the
      AEAD calls of BaseCryptLib equal the standard, or fail without output when
      memory or the cipher is missing; ECDSA signatures verify, the shared key and
      the private keys for which it is not computed, the key pair of a seed; Base64
      decodes what it encodes.
    - Printing and logging: a format string prints as its reference text, cut to
      the buffer, and nothing is written outside it; the text of a log line; the
      two ways the log code overruns its buffers; the hex dump.
    - Several theorems state a defect of the code exactly: the firmware id that
      does not depend on the image, the copied SSBL that is not the one started,
      checks that can never accept.

    ** Bounds

    Most loops run over lists or counters and terminate structurally. Fuel is used
    where the code's own measure is not one of them, and each time the theorems
    show it is enough: [InitBlockSize] (RamDisk.v) has 11 rounds, for the block
    sizes 512, 256, ..., 1 and the exit; the block loops of AES, CBC and GCM have
    the number of rounds or blocks that the length gives; the digit loop of the
    printer has 64 rounds, for a 64-bit value in base 2 or above; the loops over a
    format string have its length plus one, the hex dump the length of its data
    plus one; printing nests at most one level, as the format string of a GUID, a
    time or a status is fixed. Lengths are bounded by the width of the C type that
    holds them, and a theorem that needs a tighter bound has it as a hypothesis.

    ** Not modelled

    DEBUG output and SBC_external_mem_print_bin, which only writes to the debug
    port; SBC_InternalPrint, which no compiled code calls. The value-to-string
    functions and the ASCII and BASE_LIST entry points of BasePrintLib: the
    loaders do not call them. Functions without a caller in the build:
    SBC_BootModeFactory, SBC_BootModeNormal and SBC_BootModeNormalAndpUdate of
    SSBL.c, SSBL_Load, Load_Kernel and LoadAndStartMemoryImage,
    SBC_FindPrtoSWAndProcessing, SBC_EcCtxSetPrivKey and its siblings, the
    *TestMain functions. OpenSSL other than SHA-256, AES, CBC, GCM and the EVP
    cipher path: vendored, a parameter with laws (HMAC, elliptic curves, X.509,
    the random generator).
    The rest of EDK II: the firmware, seen through the classes of Uefi.v. Older
    copies of the loaders (fsbl_main.c, FSBL_PKG, SSBLFactory) that the .inf files
    do not build. *)
From stdpp Require Import base list gmap strings.
From Stdlib Require Import ZArith Lia.

#[global] Open Scope Z_scope.

(** ** Machine integers

    A [w]-bit unsigned C integer is a [Z] in [0, 2^w); the truncation that a
    cast or an assignment performs is written out with the functions below. *)
Definition u8 (z : Z) : Z := z mod 2 ^ 8.
Definition u16 (z : Z) : Z := z mod 2 ^ 16.
Definition u32 (z : Z) : Z := z mod 2 ^ 32.
Definition u64 (z : Z) : Z := z mod 2 ^ 64.

(** ** Buffers

    A C buffer is the list of its bytes; [rd] and [wr] are the accesses to the
    bytes [off .. off+len-1], [None] when the access leaves the buffer. *)
Abbreviation bytes := (list Z).
Abbreviation zlen l := (Z.of_nat (length l)).

Definition rd (b : bytes) (off len : Z) : option bytes :=
  if (0 <=? off) && (0 <=? len) && (off + len <=? zlen b)
  then Some (take (Z.to_nat len) (drop (Z.to_nat off) b)) else None.

Definition wr (b : bytes) (off : Z) (d : bytes) : option bytes :=
  if (0 <=? off) && (off + zlen d <=? zlen b)
  then Some (take (Z.to_nat off) b ++ d ++ drop (Z.to_nat off + length d) b) else None.

Definition zeros (n : Z) : bytes := replicate (Z.to_nat n) 0.

(** Little-endian integers: the byte image of a [UINT16]/[UINT32]/[UINTN]. *)
Fixpoint le_bytes (n : nat) (z : Z) : bytes :=
  match n with
  | O => []
  | S n => u8 z :: le_bytes n (z / 2 ^ 8)
  end.

Fixpoint le_val (b : bytes) : Z :=
  match b with
  | [] => 0
  | x :: b => x + 2 ^ 8 * le_val b
  end.

Definition is_byte (z : Z) : Prop := 0 <= z < 2 ^ 8.
Definition all_bytes (b : bytes) : Prop := Forall is_byte b.

(** [ALIGN_VALUE (Value, Alignment)] of MdePkg/Include/Base.h on a 32-bit
    value: [Value + ((Alignment - Value) & (Alignment - 1))]. *)
Definition ALIGN_VALUE32 (v a : Z) : Z := u32 (v + Z.land (u32 (a - v)) (a - 1)).

(** ** The effect of a C function

    A call returns a value, or performs an undefined access ([Fault]: a null
    dereference, a read or write outside a buffer, a read of an uninitialised
    variable), or never returns because the machine was reset. *)
Inductive reset_t := ResetCold | ResetShutdown.

Inductive out (A : Type) :=
| Ret (a : A)
| Fault
| Reset (r : reset_t).
Arguments Ret {A} a.
Arguments Fault {A}.
Arguments Reset {A} r.

Definition M (W A : Type) : Type := W -> out A * W.

Definition ret {W A} (a : A) : M W A := fun w => (Ret a, w).
Definition fault {W A} : M W A := fun w => (Fault, w).
Definition reset {W A} (r : reset_t) : M W A := fun w => (Reset r, w).

Definition bind {W A B} (m : M W A) (k : A -> M W B) : M W B :=
  fun w => match m w with
           | (Ret a, w) => k a w
           | (Fault, w) => (Fault, w)
           | (Reset r, w) => (Reset r, w)
           end.

Declare Scope c_scope.
Delimit Scope c_scope with c.
#[global] Open Scope c_scope.
Notation "'let!' x ':=' m 'in' k" := (bind m (fun x => k))
  (at level 10, x pattern, m at level 100, k at level 200,
   format "'[v' 'let!'  x  ':='  m  'in' '/' k ']'") : c_scope.
Notation "m ';!' k" := (bind m (fun _ => k))
  (at level 199, right associativity, format "'[v' m  ';!' '/' k ']'") : c_scope.

(** [p != NULL]. *)
Definition notnull {A} (p : option A) : bool := match p with Some _ => true | None => false end.

(** The largest [int]. *)
Definition INT_MAX : Z := 2147483647.

(** The bytes at a pointer: a null pointer serves only the empty access. *)
Definition rdp (p : option bytes) (n : Z) : option bytes :=
  match p with
  | Some b => rd b 0 n
  | None => if n =? 0 then Some [] else None
  end.
(** Writing at a pointer. *)
Definition wrp (p : option bytes) (d : bytes) : option (option bytes) :=
  match p with
  | Some b => match wr b 0 d with Some b' => Some (Some b') | None => None end
  | None => match d with [] => Some None | _ => None end
  end.

(** An access that may leave its buffer. *)
Definition access {W A} (o : option A) : M W A :=
  match o with Some a => ret a | None => fault end.

(** [SBC_RET_VALIDATE_ERRCODE(MSG)]: go to [errdone] with [code] unless [c]. *)
Notation "'validate' c 'else' code 'in' k" := (if c then k else ret code)
  (at level 10, c at level 100, code at level 100, k at level 200,
   format "'[v' 'validate'  c  'else'  code  'in' '/' k ']'") : c_scope.

(** What every returning run of an effect returns. *)
Section Post.
Context {W : Type}.
Definition post {A} (m : M W A) (Q : A -> Prop) : Prop :=
  forall w a w', m w = (Ret a, w') -> Q a.

Lemma post_ret {A} (a : A) (Q : A -> Prop) : Q a -> post (ret a) Q.
Proof. by intros HQ w b w' [= <- <-]. Qed.
Lemma post_any {A} (m : M W A) : post m (fun _ => True).
Proof. by intros w a w'. Qed.
Lemma post_access {A} (x : option A) : post (access x) (fun a => x = Some a).
Proof. destruct x; intros w b w'; [by intros [= <- <-]|done]. Qed.
Lemma post_bind {A B} (m : M W A) (k : A -> M W B) (P : A -> Prop) (Q : B -> Prop) :
  post m P -> (forall a, P a -> post (k a) Q) -> post (bind m k) Q.
Proof.
  intros Hm Hk w b w'. unfold bind. destruct (m w) as [[a| |r] w1] eqn:Em; [|done..].
  intros HE. by eapply Hk, HE; eapply Hm.
Qed.
Lemma post_if {A} (c : bool) (m1 m2 : M W A) (Q : A -> Prop) :
  (c = true -> post m1 Q) -> (c = false -> post m2 Q) -> post (if c then m1 else m2) Q.
Proof. destruct c; auto. Qed.
Lemma post_weaken {A} (m : M W A) (P Q : A -> Prop) :
  post m P -> (forall a, P a -> Q a) -> post m Q.
Proof. intros HP HQ w a w' HE. by eapply HQ, HP. Qed.
End Post.

(** A [UINT8[n]]. *)
Definition typed (n : nat) (b : bytes) : Prop := length b = n /\ all_bytes b.

(** ** Tactics *)
Ltac bool_hyp :=
  repeat match goal with
  | H : _ && _ = true |- _ => apply andb_prop in H; destruct H
  | H : (_ <=? _) = true |- _ => apply Z.leb_le in H
  | H : (_ <=? _) = false |- _ => apply Z.leb_gt in H
  | H : (_ <? _) = true |- _ => apply Z.ltb_lt in H
  | H : (_ <? _) = false |- _ => apply Z.ltb_ge in H
  | H : (_ =? _) = true |- _ => apply Z.eqb_eq in H
  | H : (_ =? _) = false |- _ => apply Z.eqb_neq in H
  | H : negb _ = true |- _ => apply negb_true_iff in H
  | H : negb _ = false |- _ => apply negb_false_iff in H
  | H : _ && _ = false |- _ => apply andb_false_iff in H; destruct H
  | H : _ || _ = false |- _ => apply orb_false_iff in H; destruct H
  end.

(** Decides a guard whose truth follows from the context by [lia]. *)
Ltac guard_true :=
  match goal with
  | |- context [if ?c then _ else _] =>
      let E := fresh "E" in
      destruct c eqn:E; [ | exfalso; bool_hyp; lia ]
  end.
Ltac guard_false :=
  match goal with
  | |- context [if ?c then _ else _] =>
      let E := fresh "E" in
      destruct c eqn:E; [ exfalso; bool_hyp; lia | ]
  end.

(** Splits the guards of an executed definition one after the other. *)
Ltac split_if :=
  match goal with
  | |- context [if ?c then _ else _] => let E := fresh "E" in destruct c eqn:E
  | H : context [if ?c then _ else _] |- _ => let E := fresh "E" in destruct c eqn:E
  end.

Create HintDb sbc.
Create Rewrite HintDb buf.

(** ** Buffers: laws *)
Section BufferLaws.
Implicit Types b d : bytes.

Lemma rd_inv b off len r :
  rd b off len = Some r ->
  0 <= off /\ 0 <= len /\ off + len <= zlen b /\
  r = take (Z.to_nat len) (drop (Z.to_nat off) b).
Proof. unfold rd. intros H. split_if; [|done]. bool_hyp. by simplify_eq. Qed.

Lemma rd_some b off len :
  0 <= off -> 0 <= len -> off + len <= zlen b ->
  rd b off len = Some (take (Z.to_nat len) (drop (Z.to_nat off) b)).
Proof. intros. unfold rd. by guard_true. Qed.

Lemma rd_none b off len : zlen b < off + len -> rd b off len = None.
Proof. intros. unfold rd. by guard_false. Qed.

Lemma rd_length b off len r : rd b off len = Some r -> zlen r = len.
Proof.
  intros H. apply rd_inv in H as (? & ? & ? & ->).
  rewrite length_take, length_drop. lia.
Qed.

Lemma rd_all b : rd b 0 (zlen b) = Some b.
Proof.
  rewrite rd_some by lia. change (Z.to_nat 0) with 0%nat.
  by rewrite drop_0, Nat2Z.id, firstn_all.
Qed.

Lemma rd_app_l b d off len :
  0 <= off -> 0 <= len -> off + len <= zlen b -> rd (b ++ d) off len = rd b off len.
Proof.
  intros. rewrite !rd_some by (rewrite ?length_app; lia). f_equal.
  rewrite drop_app_le by lia. rewrite take_app_le; [done|]. rewrite length_drop. lia.
Qed.

Lemma rd_app_r b d off len :
  zlen b <= off -> 0 <= len -> rd (b ++ d) off len = rd d (off - zlen b) len.
Proof.
  intros. destruct (decide (off + len <= zlen (b ++ d))) as [Hin|Hout];
    rewrite length_app in *.
  - rewrite !rd_some by (rewrite ?length_app; lia). f_equal.
    rewrite drop_app_ge by lia. do 2 f_equal. lia.
  - rewrite !rd_none by (rewrite ?length_app; lia). done.
Qed.

Lemma wr_inv b off d b' :
  wr b off d = Some b' ->
  0 <= off /\ off + zlen d <= zlen b /\
  b' = take (Z.to_nat off) b ++ d ++ drop (Z.to_nat off + length d) b.
Proof. unfold wr. intros H. split_if; [|done]. bool_hyp. by simplify_eq. Qed.

Lemma wr_some b off d :
  0 <= off -> off + zlen d <= zlen b ->
  wr b off d = Some (take (Z.to_nat off) b ++ d ++ drop (Z.to_nat off + length d) b).
Proof. intros. unfold wr. by guard_true. Qed.

Lemma wr_none b off d : zlen b < off + zlen d -> wr b off d = None.
Proof. intros. unfold wr. by guard_false. Qed.

Lemma wr_length b off d b' : wr b off d = Some b' -> length b' = length b.
Proof.
  intros H. apply wr_inv in H as (? & ? & ->).
  rewrite !length_app, length_take, length_drop. lia.
Qed.

Lemma wr_zlen b off d b' : wr b off d = Some b' -> zlen b' = zlen b.
Proof. intros H. by rewrite (wr_length _ _ _ _ H). Qed.

Lemma rd_wr_same b off d b' : wr b off d = Some b' -> rd b' off (zlen d) = Some d.
Proof.
  intros H. pose proof (wr_length _ _ _ _ H) as L.
  apply wr_inv in H as (? & ? & ->).
  rewrite rd_app_r; rewrite ?length_take; [|lia..].
  replace (off - Z.of_nat (Z.to_nat off `min` length b)) with 0 by lia.
  rewrite rd_app_l by lia. apply rd_all.
Qed.

Lemma rd_wr_before b off d b' off2 len2 :
  wr b off d = Some b' -> 0 <= off2 -> 0 <= len2 -> off2 + len2 <= off ->
  rd b' off2 len2 = rd b off2 len2.
Proof.
  intros H ???. apply wr_inv in H as (? & ? & ->).
  rewrite rd_app_l by (rewrite ?length_take; lia).
  rewrite !rd_some by (rewrite ?length_take; lia). f_equal.
  rewrite <-(take_drop (Z.to_nat off) b) at 2.
  rewrite drop_app_le by (rewrite length_take; lia).
  rewrite take_app_le; [done|]. rewrite length_drop, length_take. lia.
Qed.

Lemma rd_wr_after b off d b' off2 len2 :
  wr b off d = Some b' -> 0 <= len2 -> off + zlen d <= off2 ->
  rd b' off2 len2 = rd b off2 len2.
Proof.
  intros H ??. apply wr_inv in H as (? & ? & ->).
  rewrite rd_app_r by (rewrite ?length_take; lia).
  rewrite rd_app_r by (rewrite ?length_take; lia).
  rewrite length_take. destruct (decide (off2 + len2 <= zlen b)).
  - rewrite !rd_some by (rewrite ?length_drop; lia). f_equal.
    rewrite drop_drop. do 2 f_equal. lia.
  - rewrite !rd_none by (rewrite ?length_drop; lia). done.
Qed.

Lemma wr_ok b off d :
  0 <= off -> off + zlen d <= zlen b -> exists b', wr b off d = Some b' /\ zlen b' = zlen b.
Proof. intros. eexists. split; [by apply wr_some|]. eapply wr_zlen. by apply wr_some. Qed.

(** Two adjacent writes are one. *)
Lemma wr_adjacent b off d1 d2 :
  0 <= off -> off + zlen d1 + zlen d2 <= zlen b ->
  match wr b off d1 with Some b1 => wr b1 (off + zlen d1) d2 | None => None end
  = wr b off (d1 ++ d2).
Proof.
  intros. rewrite (wr_some b off d1) by lia. rewrite wr_some.
  2:{ lia. } 2:{ rewrite !length_app, length_take, length_drop. lia. }
  rewrite wr_some by (rewrite ?length_app; lia). f_equal.
  rewrite take_app_ge by (rewrite length_take; lia). rewrite length_take.
  rewrite drop_app_ge by (rewrite length_take; lia). rewrite length_take.
  rewrite take_app_le by lia. rewrite drop_app_ge by lia. rewrite drop_drop, length_app.
  rewrite (firstn_all2 d1) by lia. rewrite <-!app_assoc. do 4 f_equal. lia.
Qed.

(** A part of what was written. *)
Lemma rd_wr_part b off x y z b' :
  wr b off (x ++ y ++ z) = Some b' -> rd b' (off + zlen x) (zlen y) = Some y.
Proof.
  intros HW. pose proof (wr_zlen _ _ _ _ HW) as HL. apply wr_inv in HW as (? & Hfit & ->).
  rewrite !length_app in *.
  rewrite rd_app_r by (rewrite ?length_take; lia). rewrite length_take.
  replace (off + zlen x - _) with (zlen x) by lia.
  rewrite <-!app_assoc, rd_app_r by lia. replace (zlen x - zlen x) with 0 by lia.
  rewrite rd_app_l by lia. apply rd_all.
Qed.

Lemma length_zeros n : 0 <= n -> zlen (zeros n) = n.
Proof. intros. unfold zeros. rewrite length_replicate. lia. Qed.

Lemma rdp_length p n m : rdp p n = Some m -> n = zlen m.
Proof.
  destruct p as [b|]; cbn [rdp]; [intros H; symmetry; exact (rd_length _ _ _ _ H)|].
  intros H. split_if; [|done]. bool_hyp. by injection H as <-.
Qed.

Lemma rdp_some b n : 0 <= n -> n <= zlen b -> rdp (Some b) n = Some (take (Z.to_nat n) b).
Proof.
  intros. cbn. rewrite rd_some by lia. change (Z.to_nat 0) with 0%nat. by rewrite drop_0.
Qed.

Lemma rdp_exact b : rdp (Some b) (zlen b) = Some b.
Proof. apply rd_all. Qed.

Lemma wrp_some b d :
  zlen d <= zlen b -> wrp (Some b) d = Some (Some (d ++ drop (length d) b)).
Proof. intros. cbn. by rewrite wr_some by lia. Qed.
End BufferLaws.

(** ** Little-endian images *)
Section LittleEndian.
Lemma length_le_bytes n z : length (le_bytes n z) = n.
Proof. revert z. induction n; intros; cbn [le_bytes length]; auto. Qed.

Lemma le_val_bytes n z :
  le_val (le_bytes n z) = z mod 2 ^ (8 * Z.of_nat n).
Proof.
  revert z. induction n as [|n IH]; intros z.
  - cbn. by rewrite Z.mod_1_r.
  - cbn [le_bytes le_val]. rewrite IH. unfold u8.
    replace (8 * Z.of_nat (S n)) with (8 + 8 * Z.of_nat n) by lia.
    rewrite Z.pow_add_r, Z.rem_mul_r by (try apply Z.pow_pos_nonneg; lia).
    lia.
Qed.

Lemma le_val_bytes_small n z :
  0 <= z < 2 ^ (8 * Z.of_nat n) -> le_val (le_bytes n z) = z.
Proof. intros. rewrite le_val_bytes. by apply Z.mod_small. Qed.

Lemma le_val_bound b : all_bytes b -> 0 <= le_val b < 2 ^ (8 * zlen b).
Proof.
  induction 1 as [|x b Hx Hb IH]; cbn [le_val length]; [done|].
  unfold is_byte in Hx.
  replace (8 * Z.of_nat (S (length b))) with (8 + 8 * zlen b) by lia.
  rewrite Z.pow_add_r by lia. nia.
Qed.

Lemma le_bytes_val b : all_bytes b -> le_bytes (length b) (le_val b) = b.
Proof.
  induction 1 as [|x b Hx Hb IH]; cbn [le_val le_bytes length]; [done|].
  unfold is_byte, u8 in *. f_equal.
  - rewrite Z.mul_comm, Z_mod_plus_full. apply Z.mod_small. lia.
  - rewrite Z.mul_comm, Z.div_add by lia. rewrite Z.div_small by lia. done.
Qed.

Lemma le_val_app (a b : bytes) : le_val (a ++ b) = le_val a + 2 ^ (8 * zlen a) * le_val b.
Proof.
  induction a as [|x a IH]; cbn [le_val app length]; [rewrite Z.mul_1_l; lia|].
  rewrite IH. replace (8 * Z.of_nat (S (length a))) with (8 + 8 * zlen a) by lia.
  rewrite Z.pow_add_r by lia. lia.
Qed.
Lemma byte_lxor a b : is_byte a -> is_byte b -> is_byte (Z.lxor a b).
Proof.
  unfold is_byte. intros Ha Hb. split; [apply Z.lxor_nonneg; lia|].
  destruct (decide (Z.lxor a b = 0)) as [->|Hn]; [lia|].
  apply Z.log2_lt_pow2; [pose proof (proj2 (Z.lxor_nonneg a b)); lia|].
  eapply Z.le_lt_trans; [apply Z.log2_lxor; lia|].
  apply Z.max_lub_lt; destruct (decide (a = 0)), (decide (b = 0)); subst;
    try (cbn; lia); apply Z.log2_lt_pow2; lia.
Qed.
Lemma le_bytes_all n z : all_bytes (le_bytes n z).
Proof.
  revert z. induction n; intros z; cbn; constructor; try apply IHn.
  unfold is_byte, u8. apply Z.mod_pos_bound. lia.
Qed.

Lemma le_bytes_mod n z : le_bytes n z = le_bytes n (z mod 2 ^ (8 * Z.of_nat n)).
Proof.
  pose proof (le_bytes_val (le_bytes n z) (le_bytes_all n z)) as HE.
  rewrite length_le_bytes, le_val_bytes in HE. done.
Qed.

Lemma le_bytes_app a b z :
  le_bytes (a + b) z = (le_bytes a z ++ le_bytes b (z / 2 ^ (8 * Z.of_nat a)))%list.
Proof.
  revert z. induction a as [|a IH]; intros z.
  - cbn [le_bytes Nat.add app]. by rewrite Z.div_1_r.
  - cbn [le_bytes Nat.add app]. rewrite IH. do 3 f_equal.
    replace (8 * Z.of_nat (S a)) with (8 + 8 * Z.of_nat a) by lia.
    by rewrite Z.pow_add_r, Zdiv.Zdiv_Zdiv by lia.
Qed.
End LittleEndian.

Section IntegerLaws.
Lemma u8_range z : 0 <= u8 z < 2 ^ 8. Proof. apply Z.mod_pos_bound; lia. Qed.
Lemma u16_range z : 0 <= u16 z < 2 ^ 16. Proof. apply Z.mod_pos_bound; lia. Qed.
Lemma u32_range z : 0 <= u32 z < 2 ^ 32. Proof. apply Z.mod_pos_bound; lia. Qed.
Lemma u64_range z : 0 <= u64 z < 2 ^ 64. Proof. apply Z.mod_pos_bound; lia. Qed.
Lemma u16_small z : 0 <= z < 2 ^ 16 -> u16 z = z. Proof. apply Z.mod_small. Qed.
Lemma u32_small z : 0 <= z < 2 ^ 32 -> u32 z = z. Proof. apply Z.mod_small. Qed.
Lemma u64_small z : 0 <= z < 2 ^ 64 -> u64 z = z. Proof. apply Z.mod_small. Qed.
End IntegerLaws.
#[export] Hint Rewrite length_le_bytes : buf.

(** [ALIGN_VALUE] rounds up to the next multiple of a power of two. *)
Lemma align_value_spec v k :
  0 <= v < 2 ^ 31 -> 0 <= k <= 30 ->
  ALIGN_VALUE32 v (2 ^ k) mod 2 ^ k = 0 /\
  v <= ALIGN_VALUE32 v (2 ^ k) < v + 2 ^ k.
Proof.
  intros Hv Hk. assert (Hp : 0 < 2 ^ k) by (apply Z.pow_pos_nonneg; lia).
  assert (Hp' : 2 ^ k <= 2 ^ 30) by (apply Z.pow_le_mono_r; lia).
  assert (Hm : Z.land (u32 (2 ^ k - v)) (2 ^ k - 1) = (- v) mod 2 ^ k).
  { rewrite Z.sub_1_r, <-Z.ones_equiv, Z.land_ones by lia. unfold u32.
    replace (2 ^ 32) with (2 ^ (32 - k) * 2 ^ k) by (rewrite <-Z.pow_add_r by lia; f_equal; lia).
    rewrite Z.mul_comm, Z.rem_mul_r by (try apply Z.pow_nonzero; lia).
    rewrite Z.mul_comm, Z.mod_add, Z.mod_mod by lia.
    replace (2 ^ k - v) with (- v + 1 * 2 ^ k) by lia. by rewrite Z.mod_add by lia. }
  unfold ALIGN_VALUE32. rewrite Hm. pose proof (Z.mod_pos_bound (- v) (2 ^ k) Hp).
  rewrite u32_small by lia. split; [|lia].
  rewrite Zplus_mod_idemp_r. by replace (v + - v) with 0 by lia.
Qed.

(** ** Monad laws *)
Section MonadLaws.
Context {W : Type}.
Lemma bind_ret {A B} (a : A) (k : A -> M W B) w : bind (ret a) k w = k a w.
Proof. done. Qed.
Lemma bind_eq {A B} (m : M W A) (k : A -> M W B) w a w' :
  m w = (Ret a, w') -> bind m k w = k a w'.
Proof. intros H. unfold bind. by rewrite H. Qed.
(** The same as a step of a run towards a known result. *)
Lemma bind_run {A B} (m : M W A) (k : A -> M W B) w a w' r :
  m w = (Ret a, w') -> k a w' = r -> bind m k w = r.
Proof. intros H. unfold bind. by rewrite H. Qed.
Lemma bind_reset {A B} (m : M W A) (k : A -> M W B) w r w' :
  m w = (Reset r, w') -> bind m k w = (Reset r, w').
Proof. intros H. unfold bind. by rewrite H. Qed.
Lemma bind_fault {A B} (m : M W A) (k : A -> M W B) w w' :
  m w = (Fault, w') -> bind m k w = (Fault, w').
Proof. intros H. unfold bind. by rewrite H. Qed.
(** What a bind that returned went through. *)
Lemma bind_inv {A B} (m : M W A) (k : A -> M W B) w b w' :
  bind m k w = (Ret b, w') -> exists a w1, m w = (Ret a, w1) /\ k a w1 = (Ret b, w').
Proof. unfold bind. destruct (m w) as [[a| |r] w1]; [eauto|done|done]. Qed.
End MonadLaws.

(** Runs the effects whose outcome is known from the context. *)
Ltac mstep :=
  match goal with
  | |- context [bind (ret ?a) ?k ?w] => change (bind (ret a) k w) with (k a w); cbv beta iota
  | |- context [bind (access (Some ?a)) ?k ?w] =>
      change (bind (access (Some a)) k w) with (k a w); cbv beta iota
  | |- context [bind (access None) ?k ?w] =>
      change (bind (access None) k w) with (@Fault _, w)
  | H : ?m ?w = (Ret ?a, ?w') |- context [bind ?m ?k ?w] =>
      rewrite (bind_eq m k w a w' H); cbv beta iota
  | H : ?m ?w = (Fault, ?w') |- context [bind ?m ?k ?w] => rewrite (bind_fault m k w w' H)
  | H : ?m ?w = (Reset ?r, ?w') |- context [bind ?m ?k ?w] => rewrite (bind_reset m k w r w' H)
  end.
Ltac mrun := repeat mstep.
(** One step of a run, by the outcome of its first effect. *)
Ltac mgo H := eapply bind_run; [exact H|cbv beta iota].

(** ** Bytes of a word *)
(** One byte of a word. *)
Definition byte_of (v k : Z) : Z := (v / 2 ^ k) mod 2 ^ 8.

Lemma land_byte v k : 0 <= k -> Z.land v (Z.shiftl 255 k) = byte_of v k * 2 ^ k.
Proof.
  intros Hk. unfold byte_of. rewrite <-Z.shiftl_mul_pow2 by lia.
  rewrite <-(Z.shiftr_div_pow2 v k), <-Z.land_ones by lia. change 255 with (Z.ones 8).
  apply Z.bits_inj'. intros n Hn. rewrite Z.land_spec, !Z.shiftl_spec by lia.
  destruct (decide (n < k)) as [Hlt|Hge].
  - rewrite !(Z.testbit_neg_r _ (n - k)) by lia. apply andb_false_r.
  - rewrite Z.land_spec, Z.shiftr_spec by lia. by replace (n - k + k) with n by lia.
Qed.

Lemma lor_low x y k : 0 <= k -> 0 <= x < 2 ^ k -> Z.lor x (y * 2 ^ k) = x + y * 2 ^ k.
Proof.
  intros Hk Hx. symmetry. apply Z.add_nocarry_lor. rewrite <-Z.shiftl_mul_pow2 by lia.
  apply Z.bits_inj'. intros n Hn. rewrite Z.land_spec, Z.bits_0, Z.shiftl_spec by lia.
  destruct (decide (n < k)) as [Hlt|Hge].
  - rewrite (Z.testbit_neg_r _ (n - k)) by lia. apply andb_false_r.
  - rewrite <-(Z.mod_small x (2 ^ k)) by lia. by rewrite Z.mod_pow2_bits_high by lia.
Qed.

Lemma byte_range v k : 0 <= byte_of v k < 256.
Proof. apply Z.mod_pos_bound. lia. Qed.
