(* ===== verification/Aes.v ===== *)
(** * The AES block cipher (openssl/crypto/aes/aes_core.c)

    The key schedules and the two block functions of the branch the firmware is
    built with (no assembler, no [FULL_UNROLL], no [OPENSSL_AES_CONST_TIME]): a
    cipher on four 32-bit columns driven by lookup tables.  [Fips197] is the
    standard, on bytes and without tables: the S-box as inversion in GF(2^8)
    followed by the affine map, the rounds as their four steps, the key expansion
    word by word.  The theorems show that the code computes the standard's cipher
    for the three key sizes, and that decryption inverts encryption. *)
From stdpp Require Import base list.
From Stdlib Require Import ZArith Lia Btauto.
From S2P Require Import Prelude AesTables.
#[local] Open Scope Z_scope.

(** ** The code *)

(** [t[i]] for an index the code keeps in range. *)
Definition idx (t : list Z) (i : Z) : Z := nth (Z.to_nat i) t 0.

(** [GETU32 (pt)] and [PUTU32 (ct, st)] of aes_local.h, the latter as the four
    bytes it stores. *)
Definition GETU32 (pt : bytes) : Z :=
  Z.lxor (Z.lxor (Z.lxor (Z.shiftl (idx pt 0) 24) (Z.shiftl (idx pt 1) 16))
                 (Z.shiftl (idx pt 2) 8)) (idx pt 3).
Definition PUTU32 (st : Z) : bytes :=
  [u8 (Z.shiftr st 24); u8 (Z.shiftr st 16); u8 (Z.shiftr st 8); u8 st].

(** [struct aes_key_st]: sixty 32-bit words and the number of rounds. *)
Record AES_KEY := mkAesKey { rd_key : list Z; rounds : Z }.

(** The four lookups of the key schedule: the bytes of [temp] through the S-box,
    rotated by one byte, and in place. *)
Definition sub_rot_word (temp : Z) : Z :=
  Z.lxor (Z.lxor (Z.lxor
    (Z.land (idx Te2 (Z.land (Z.shiftr temp 16) 255)) 4278190080)
    (Z.land (idx Te3 (Z.land (Z.shiftr temp 8) 255)) 16711680))
    (Z.land (idx Te0 (Z.land temp 255)) 65280))
    (Z.land (idx Te1 (Z.shiftr temp 24)) 255).
Definition sub_word (temp : Z) : Z :=
  Z.lxor (Z.lxor (Z.lxor
    (Z.land (idx Te2 (Z.shiftr temp 24)) 4278190080)
    (Z.land (idx Te3 (Z.land (Z.shiftr temp 16) 255)) 16711680))
    (Z.land (idx Te0 (Z.land (Z.shiftr temp 8) 255)) 65280))
    (Z.land (idx Te1 (Z.land temp 255)) 255).

(** [rk[d] = rk[a] ^ v], the pointer [rk] being the offset [o]. *)
Definition rk_get (rk : list Z) (i : nat) : Z := nth i rk 0.
Definition rk_xor (rk : list Z) (d a : nat) (v : Z) : list Z :=
  <[d := Z.lxor (rk_get rk a) v]> rk.

(** The three [while (1)] loops; [fuel] counts the iterations left. *)
Fixpoint expand128 (fuel : nat) (i o : nat) (rk : list Z) : list Z :=
  match fuel with
  | O => rk
  | S fuel =>
      let temp := rk_get rk (o + 3) in
      let rk := rk_xor rk (o + 4) o (Z.lxor (sub_rot_word temp) (nth i rcon 0)) in
      let rk := rk_xor rk (o + 5) (o + 1) (rk_get rk (o + 4)) in
      let rk := rk_xor rk (o + 6) (o + 2) (rk_get rk (o + 5)) in
      let rk := rk_xor rk (o + 7) (o + 3) (rk_get rk (o + 6)) in
      if Nat.eqb (S i) 10 then rk else expand128 fuel (S i) (o + 4) rk
  end.

Fixpoint expand192 (fuel : nat) (i o : nat) (rk : list Z) : list Z :=
  match fuel with
  | O => rk
  | S fuel =>
      let temp := rk_get rk (o + 5) in
      let rk := rk_xor rk (o + 6) o (Z.lxor (sub_rot_word temp) (nth i rcon 0)) in
      let rk := rk_xor rk (o + 7) (o + 1) (rk_get rk (o + 6)) in
      let rk := rk_xor rk (o + 8) (o + 2) (rk_get rk (o + 7)) in
      let rk := rk_xor rk (o + 9) (o + 3) (rk_get rk (o + 8)) in
      if Nat.eqb (S i) 8 then rk else
      let rk := rk_xor rk (o + 10) (o + 4) (rk_get rk (o + 9)) in
      let rk := rk_xor rk (o + 11) (o + 5) (rk_get rk (o + 10)) in
      expand192 fuel (S i) (o + 6) rk
  end.

Fixpoint expand256 (fuel : nat) (i o : nat) (rk : list Z) : list Z :=
  match fuel with
  | O => rk
  | S fuel =>
      let temp := rk_get rk (o + 7) in
      let rk := rk_xor rk (o + 8) o (Z.lxor (sub_rot_word temp) (nth i rcon 0)) in
      let rk := rk_xor rk (o + 9) (o + 1) (rk_get rk (o + 8)) in
      let rk := rk_xor rk (o + 10) (o + 2) (rk_get rk (o + 9)) in
      let rk := rk_xor rk (o + 11) (o + 3) (rk_get rk (o + 10)) in
      if Nat.eqb (S i) 7 then rk else
      let temp := rk_get rk (o + 11) in
      let rk := rk_xor rk (o + 12) (o + 4) (sub_word temp) in
      let rk := rk_xor rk (o + 13) (o + 5) (rk_get rk (o + 12)) in
      let rk := rk_xor rk (o + 14) (o + 6) (rk_get rk (o + 13)) in
      let rk := rk_xor rk (o + 15) (o + 7) (rk_get rk (o + 14)) in
      expand256 fuel (S i) (o + 8) rk
  end.

(** [rk[i] = GETU32 (userKey + 4 * i)] for [i] from [a] below [a + n]. *)
Fixpoint load_words (userKey : bytes) (a n : nat) (rk : list Z) : list Z :=
  match n with
  | O => rk
  | S n => load_words userKey (S a) n (<[a := GETU32 (drop (4 * a) userKey)]> rk)
  end.

(** [AES_set_encrypt_key (userKey, bits, key)]: result and [*key]; [userKey]
    points to [bits / 8] bytes. *)
Definition AES_set_encrypt_key (userKey : option bytes) (bits : Z) (key : option AES_KEY)
  : Z * option AES_KEY :=
  match userKey, key with
  | Some uk, Some k =>
      if negb (bits =? 128) && negb (bits =? 192) && negb (bits =? 256) then (-2, key)
      else
      let nr := if bits =? 128 then 10 else if bits =? 192 then 12 else 14 in
      let rk := load_words uk 0 4 (rd_key k) in
      if bits =? 128 then (0, Some (mkAesKey (expand128 10 0 0 rk) nr))
      else
      let rk := load_words uk 4 2 rk in
      if bits =? 192 then (0, Some (mkAesKey (expand192 8 0 0 rk) nr))
      else
      let rk := load_words uk 6 2 rk in
      (0, Some (mkAesKey (expand256 7 0 0 rk) nr))
  | _, _ => (-1, key)
  end.

(** The four columns [s0] to [s3]. *)
Definition columns : Type := Z * Z * Z * Z.

(** One column of a full round, and of the last round. *)
Definition te_column (a b c d k : Z) : Z :=
  Z.lxor (Z.lxor (Z.lxor (Z.lxor
    (idx Te0 (Z.shiftr a 24))
    (idx Te1 (Z.land (Z.shiftr b 16) 255)))
    (idx Te2 (Z.land (Z.shiftr c 8) 255)))
    (idx Te3 (Z.land d 255))) k.
Definition te_last_column (a b c d k : Z) : Z :=
  Z.lxor (Z.lxor (Z.lxor (Z.lxor
    (Z.land (idx Te2 (Z.shiftr a 24)) 4278190080)
    (Z.land (idx Te3 (Z.land (Z.shiftr b 16) 255)) 16711680))
    (Z.land (idx Te0 (Z.land (Z.shiftr c 8) 255)) 65280))
    (Z.land (idx Te1 (Z.land d 255)) 255)) k.

(** The assignments of a round, the round key starting at [rk[o]]. *)
Definition enc_round (col : Z -> Z -> Z -> Z -> Z -> Z) (s : columns) (rk : list Z) (o : nat)
  : columns :=
  let '(s0, s1, s2, s3) := s in
  (col s0 s1 s2 s3 (rk_get rk o), col s1 s2 s3 s0 (rk_get rk (o + 1)),
   col s2 s3 s0 s1 (rk_get rk (o + 2)), col s3 s0 s1 s2 (rk_get rk (o + 3))).

(** The [for (;;)] loop from the pointer [rk + o]: two rounds at a time, with the
    exit after the first.  The columns and the offset of [rk] it leaves. *)
Fixpoint enc_rounds (r : nat) (s : columns) (rk : list Z) (o : nat) : columns * nat :=
  match r with
  | O => (s, o)
  | S r =>
      let t := enc_round te_column s rk (o + 4) in
      let o := (o + 8)%nat in
      match r with
      | O => (t, o)
      | S _ => enc_rounds r (enc_round te_column t rk o) rk o
      end
  end.

(** [s0 = GETU32 (in) ^ rk[0]] and the other three. *)
Definition load_columns (inp : bytes) (rk : list Z) : columns :=
  (Z.lxor (GETU32 inp) (rk_get rk 0), Z.lxor (GETU32 (drop 4 inp)) (rk_get rk 1),
   Z.lxor (GETU32 (drop 8 inp)) (rk_get rk 2), Z.lxor (GETU32 (drop 12 inp)) (rk_get rk 3)).
Definition store_columns (s : columns) : bytes :=
  let '(s0, s1, s2, s3) := s in PUTU32 s0 ++ PUTU32 s1 ++ PUTU32 s2 ++ PUTU32 s3.

(** [AES_encrypt (in, out, key)]: the 16 bytes stored at [out]. *)
Definition AES_encrypt (inp : bytes) (key : AES_KEY) : bytes :=
  let rk := rd_key key in
  let r := Z.to_nat (Z.shiftr (rounds key) 1) in
  let '(t, o) := enc_rounds r (load_columns inp rk) rk 0 in
  store_columns (enc_round te_last_column t rk o).

(** [temp = rk[i]; rk[i] = rk[j]; rk[j] = temp]. *)
Definition rk_swap (rk : list Z) (i j : nat) : list Z :=
  let temp := rk_get rk i in
  let rk := <[i := rk_get rk j]> rk in
  <[j := temp]> rk.

(** The loop that inverts the order of the round keys; [i] grows and [j] shrinks
    until they meet, which takes at most [fuel = rounds] iterations. *)
Fixpoint invert_order (fuel : nat) (i j : nat) (rk : list Z) : list Z :=
  match fuel with
  | O => rk
  | S fuel =>
      if Nat.ltb i j then
        let rk := rk_swap rk i j in
        let rk := rk_swap rk (i + 1) (j + 1) in
        let rk := rk_swap rk (i + 2) (j + 2) in
        let rk := rk_swap rk (i + 3) (j + 3) in
        invert_order fuel (i + 4) (j - 4) rk
      else rk
  end.

(** The inverse column mix of a word of the schedule. *)
Definition inv_mix_word (v : Z) : Z :=
  Z.lxor (Z.lxor (Z.lxor
    (idx Td0 (Z.land (idx Te1 (Z.shiftr v 24)) 255))
    (idx Td1 (Z.land (idx Te1 (Z.land (Z.shiftr v 16) 255)) 255)))
    (idx Td2 (Z.land (idx Te1 (Z.land (Z.shiftr v 8) 255)) 255)))
    (idx Td3 (Z.land (idx Te1 (Z.land v 255)) 255)).

(** The [n] iterations of [for (i = 1; i < key->rounds; i++)], [rk] at [o]. *)
Fixpoint inv_mix_keys (n o : nat) (rk : list Z) : list Z :=
  match n with
  | O => rk
  | S n =>
      let o := (o + 4)%nat in
      let rk := <[o := inv_mix_word (rk_get rk o)]> rk in
      let rk := <[(o + 1)%nat := inv_mix_word (rk_get rk (o + 1))]> rk in
      let rk := <[(o + 2)%nat := inv_mix_word (rk_get rk (o + 2))]> rk in
      let rk := <[(o + 3)%nat := inv_mix_word (rk_get rk (o + 3))]> rk in
      inv_mix_keys n o rk
  end.

(** [AES_set_decrypt_key (userKey, bits, key)]. *)
Definition AES_set_decrypt_key (userKey : option bytes) (bits : Z) (key : option AES_KEY)
  : Z * option AES_KEY :=
  let '(status, key) := AES_set_encrypt_key userKey bits key in
  if status <? 0 then (status, key)
  else match key with
  | None => (status, key)
  | Some k =>
      let n := Z.to_nat (rounds k) in
      let rk := invert_order n 0 (4 * n) (rd_key k) in
      (0, Some (mkAesKey (inv_mix_keys (n - 1) 0 rk) (rounds k)))
  end.

(** One column of a full round of the decryption, and of its last round. *)
Definition td_column (a b c d k : Z) : Z :=
  Z.lxor (Z.lxor (Z.lxor (Z.lxor
    (idx Td0 (Z.shiftr a 24))
    (idx Td1 (Z.land (Z.shiftr b 16) 255)))
    (idx Td2 (Z.land (Z.shiftr c 8) 255)))
    (idx Td3 (Z.land d 255))) k.
Definition td_last_column (a b c d k : Z) : Z :=
  Z.lxor (Z.lxor (Z.lxor (Z.lxor
    (Z.shiftl (idx Td4 (Z.shiftr a 24)) 24)
    (Z.shiftl (idx Td4 (Z.land (Z.shiftr b 16) 255)) 16))
    (Z.shiftl (idx Td4 (Z.land (Z.shiftr c 8) 255)) 8))
    (idx Td4 (Z.land d 255))) k.

Definition dec_round (col : Z -> Z -> Z -> Z -> Z -> Z) (s : columns) (rk : list Z) (o : nat)
  : columns :=
  let '(s0, s1, s2, s3) := s in
  (col s0 s3 s2 s1 (rk_get rk o), col s1 s0 s3 s2 (rk_get rk (o + 1)),
   col s2 s1 s0 s3 (rk_get rk (o + 2)), col s3 s2 s1 s0 (rk_get rk (o + 3))).

Fixpoint dec_rounds (r : nat) (s : columns) (rk : list Z) (o : nat) : columns * nat :=
  match r with
  | O => (s, o)
  | S r =>
      let t := dec_round td_column s rk (o + 4) in
      let o := (o + 8)%nat in
      match r with
      | O => (t, o)
      | S _ => dec_rounds r (dec_round td_column t rk o) rk o
      end
  end.

(** [AES_decrypt (in, out, key)]: the 16 bytes stored at [out]. *)
Definition AES_decrypt (inp : bytes) (key : AES_KEY) : bytes :=
  let rk := rd_key key in
  let r := Z.to_nat (Z.shiftr (rounds key) 1) in
  let '(t, o) := dec_rounds r (load_columns inp rk) rk 0 in
  store_columns (dec_round td_last_column t rk o).

(** ** The standard *)
Module Fips197.
(** Arithmetic of GF(2^8), section 4: multiplication by x modulo
    x^8 + x^4 + x^3 + x + 1, multiplication, and inversion as the 254th power. *)
Definition xtime (b : Z) : Z :=
  Z.lxor (Z.land (Z.shiftl b 1) 255) (if Z.testbit b 7 then 27 else 0).

Fixpoint mul_bits (n : nat) (a b : Z) : Z :=
  match n with
  | O => 0
  | S n => Z.lxor (if Z.odd a then b else 0) (mul_bits n (Z.div2 a) (xtime b))
  end.
Definition mul (a b : Z) : Z := mul_bits 8 a b.

Definition square (b : Z) : Z := mul b b.
Fixpoint pow2m2 (n : nat) (b : Z) : Z :=
  match n with O => 1 | S n => let s := square b in mul s (pow2m2 n s) end.
(** b^2 b^4 ... b^128. *)
Definition inverse (b : Z) : Z := pow2m2 7 b.

Definition rotl (b : Z) (k : Z) : Z := Z.land (Z.lor (Z.shiftl b k) (Z.shiftr b (8 - k))) 255.

(** Section 5.1.1: the inverse followed by the affine map. *)
Definition sbox (b : Z) : Z :=
  let i := inverse b in
  Z.lxor i (Z.lxor (rotl i 1) (Z.lxor (rotl i 2) (Z.lxor (rotl i 3) (Z.lxor (rotl i 4) 99)))).
(** Section 5.3.2. *)
Definition inv_sbox (b : Z) : Z :=
  inverse (Z.lxor (rotl b 1) (Z.lxor (rotl b 3) (Z.lxor (rotl b 6) 5))).

(** The state: 16 bytes, column after column. *)
Definition SubBytes (st : bytes) : bytes := map sbox st.
Definition InvSubBytes (st : bytes) : bytes := map inv_sbox st.

(** Row r, column c of the new state is row r, column c + r (c - r) of the old. *)
Definition row_col (st : bytes) (r c : nat) : Z := nth (r + 4 * (c mod 4)) st 0.
Definition by_columns (f : nat -> nat -> Z) : bytes :=
  [f 0 0; f 1 0; f 2 0; f 3 0; f 0 1; f 1 1; f 2 1; f 3 1;
   f 0 2; f 1 2; f 2 2; f 3 2; f 0 3; f 1 3; f 2 3; f 3 3]%nat.
Definition ShiftRows (st : bytes) : bytes := by_columns (fun r c => row_col st r (c + r)).
Definition InvShiftRows (st : bytes) : bytes := by_columns (fun r c => row_col st r (c + 4 - r)).

(** A column times the matrix with the first row [m0 m1 m2 m3]. *)
Definition mix (m0 m1 m2 m3 a b c d : Z) : Z :=
  Z.lxor (Z.lxor (Z.lxor (mul m0 a) (mul m1 b)) (mul m2 c)) (mul m3 d).
Fixpoint mix_columns (m0 m1 m2 m3 : Z) (st : bytes) : bytes :=
  match st with
  | a :: b :: c :: d :: st =>
      mix m0 m1 m2 m3 a b c d :: mix m3 m0 m1 m2 a b c d :: mix m2 m3 m0 m1 a b c d ::
      mix m1 m2 m3 m0 a b c d :: mix_columns m0 m1 m2 m3 st
  | _ => []
  end.
Definition MixColumns : bytes -> bytes := mix_columns 2 3 1 1.
Definition InvMixColumns : bytes -> bytes := mix_columns 14 11 13 9.

Fixpoint xor_bytes (a b : bytes) : bytes :=
  match a, b with
  | x :: a, y :: b => Z.lxor x y :: xor_bytes a b
  | _, _ => []
  end.
Definition AddRoundKey (st k : bytes) : bytes := xor_bytes st k.

(** Section 5.2: words are lists of four bytes. *)
Definition RotWord (w : bytes) : bytes := drop 1 w ++ take 1 w.
Definition SubWord (w : bytes) : bytes := map sbox w.
Fixpoint power (n : nat) : Z := match n with O => 1 | S n => xtime (power n) end.
Definition Rcon (i : nat) : bytes := [power (i - 1); 0; 0; 0].

(** The word after [ws]. *)
Definition next_word (Nk : nat) (ws : list bytes) : bytes :=
  let i := length ws in
  let temp := nth (i - 1) ws [] in
  let temp :=
    if Nat.eqb (i mod Nk) 0 then xor_bytes (SubWord (RotWord temp)) (Rcon (i / Nk))
    else if Nat.ltb 6 Nk && Nat.eqb (i mod Nk) 4 then SubWord temp else temp in
  xor_bytes (nth (i - Nk) ws []) temp.
Fixpoint expand (Nk n : nat) (ws : list bytes) : list bytes :=
  match n with O => ws | S n => expand Nk n (ws ++ [next_word Nk ws]) end.
Fixpoint key_words (n : nat) (k : bytes) : list bytes :=
  match n with O => [] | S n => take 4 k :: key_words n (drop 4 k) end.
(** [Nk] words of key, [Nr = Nk + 6] rounds, [4 (Nr + 1)] words of schedule. *)
Definition KeyExpansion (Nk : nat) (k : bytes) : list bytes :=
  expand Nk (4 * (Nk + 6 + 1) - Nk) (key_words Nk k).

Definition round_key (ws : list bytes) (r : nat) : bytes := concat (take 4 (drop (4 * r) ws)).

(** Section 5.1: rounds [r], [r + 1], ..., [r + n - 1]. *)
Fixpoint cipher_rounds (n r : nat) (ws : list bytes) (st : bytes) : bytes :=
  match n with
  | O => st
  | S n => cipher_rounds n (S r) ws
             (AddRoundKey (MixColumns (ShiftRows (SubBytes st))) (round_key ws r))
  end.
Definition Cipher (Nr : nat) (ws : list bytes) (inp : bytes) : bytes :=
  let st := cipher_rounds (Nr - 1) 1 ws (AddRoundKey inp (round_key ws 0)) in
  AddRoundKey (ShiftRows (SubBytes st)) (round_key ws Nr).

(** Section 5.3: the same steps undone, from the last round to the first. *)
Fixpoint inv_cipher_rounds (r : nat) (ws : list bytes) (st : bytes) : bytes :=
  match r with
  | O => st
  | S r' => inv_cipher_rounds r' ws
              (InvMixColumns (AddRoundKey (InvSubBytes (InvShiftRows st)) (round_key ws r)))
  end.
Definition InvCipher (Nr : nat) (ws : list bytes) (inp : bytes) : bytes :=
  let st := inv_cipher_rounds (Nr - 1) ws (AddRoundKey inp (round_key ws Nr)) in
  AddRoundKey (InvSubBytes (InvShiftRows st)) (round_key ws 0).

(** A key of 16, 24 or 32 bytes. *)
Definition encrypt (k inp : bytes) : bytes :=
  let Nk := (length k / 4)%nat in Cipher (Nk + 6) (KeyExpansion Nk k) inp.
Definition decrypt (k inp : bytes) : bytes :=
  let Nk := (length k / 4)%nat in InvCipher (Nk + 6) (KeyExpansion Nk k) inp.
End Fips197.

(** ** Words and bytes *)
Section Words.
(** The word of four bytes. *)
Definition w4 (a b c d : Z) : Z :=
  Z.lxor (Z.lxor (Z.lxor (Z.shiftl a 24) (Z.shiftl b 16)) (Z.shiftl c 8)) d.

Lemma w4_fold a b c d :
  Z.lxor (Z.lxor (Z.lxor (Z.shiftl a 24) (Z.shiftl b 16)) (Z.shiftl c 8)) d = w4 a b c d.
Proof. reflexivity. Qed.

Lemma lxor_w4 a b c d a' b' c' d' :
  Z.lxor (w4 a b c d) (w4 a' b' c' d')
  = w4 (Z.lxor a a') (Z.lxor b b') (Z.lxor c c') (Z.lxor d d').
Proof.
  unfold w4. rewrite !Z.shiftl_lxor. apply Z.bits_inj'. intros n _. rewrite !Z.lxor_spec. btauto.
Qed.

Lemma lxor_low x y k : 0 <= k -> 0 <= x < 2 ^ k -> Z.lxor (Z.shiftl y k) x = y * 2 ^ k + x.
Proof.
  intros Hk Hx. rewrite <-Z.shiftl_mul_pow2 by lia. symmetry. apply Z.add_nocarry_lxor.
  apply Z.bits_inj'. intros n Hn. rewrite Z.land_spec, Z.bits_0, Z.shiftl_spec by lia.
  destruct (decide (n < k)) as [Hlt|Hge].
  - by rewrite (Z.testbit_neg_r _ (n - k)) by lia.
  - rewrite <-(Z.mod_small x (2 ^ k)) by lia. rewrite Z.mod_pow2_bits_high by lia. apply andb_false_r.
Qed.

Lemma w4_sum a b c d :
  is_byte b -> is_byte c -> is_byte d ->
  w4 a b c d = a * 2 ^ 24 + b * 2 ^ 16 + c * 2 ^ 8 + d.
Proof.
  unfold is_byte, w4. intros Hb Hc Hd.
  replace (Z.shiftl a 24) with (Z.shiftl (Z.shiftl a 8) 16) by (rewrite Z.shiftl_shiftl; [done|lia]).
  rewrite <-Z.shiftl_lxor, (lxor_low b) by lia. set (x := a * 2 ^ 8 + b).
  replace (Z.shiftl x 16) with (Z.shiftl (Z.shiftl x 8) 8) by (rewrite Z.shiftl_shiftl; [done|lia]).
  rewrite <-Z.shiftl_lxor, (lxor_low c) by lia. unfold x.
  rewrite lxor_low by lia. lia.
Qed.


Lemma w4_byte_of a b c d :
  is_byte a -> is_byte b -> is_byte c -> is_byte d ->
  byte_of (w4 a b c d) 24 = a /\ byte_of (w4 a b c d) 16 = b /\
  byte_of (w4 a b c d) 8 = c /\ byte_of (w4 a b c d) 0 = d.
Proof.
  intros Ha Hb Hc Hd. rewrite w4_sum by done. unfold is_byte, byte_of in *.
  change (2 ^ 24) with 16777216. change (2 ^ 16) with 65536. change (2 ^ 8) with 256 in *.
  change (2 ^ 0) with 1. rewrite Z.div_1_r. repeat split; Z.div_mod_to_equations; lia.
Qed.

(** The accesses of the code to the bytes of a word. *)
Lemma land_255 x : Z.land x 255 = byte_of x 0.
Proof. change 255 with (Z.shiftl 255 0). rewrite land_byte by lia. lia. Qed.
Lemma shiftr_land_255 x k : 0 <= k -> Z.land (Z.shiftr x k) 255 = byte_of x k.
Proof.
  intros Hk. rewrite land_255. unfold byte_of. by rewrite Z.div_1_r, Z.shiftr_div_pow2.
Qed.

Section Bytes4.
Context (a b c d : Z) (Ha : is_byte a) (Hb : is_byte b) (Hc : is_byte c) (Hd : is_byte d).
Lemma w4_24 : Z.shiftr (w4 a b c d) 24 = a.
Proof using Ha Hb Hc Hd.
  rewrite w4_sum, Z.shiftr_div_pow2 by done || lia. unfold is_byte in *.
  change (2 ^ 24) with 16777216. change (2 ^ 16) with 65536. change (2 ^ 8) with 256 in *.
  Z.div_mod_to_equations. lia.
Qed.
Lemma w4_16 : Z.land (Z.shiftr (w4 a b c d) 16) 255 = b.
Proof using Ha Hb Hc Hd. rewrite shiftr_land_255 by lia. by apply w4_byte_of. Qed.
Lemma w4_8 : Z.land (Z.shiftr (w4 a b c d) 8) 255 = c.
Proof using Ha Hb Hc Hd. rewrite shiftr_land_255 by lia. by apply w4_byte_of. Qed.
Lemma w4_0 : Z.land (w4 a b c d) 255 = d.
Proof using Ha Hb Hc Hd. rewrite land_255. by apply w4_byte_of. Qed.

Lemma zero_byte : is_byte 0. Proof. unfold is_byte. lia. Qed.

Lemma w4_mask24 : Z.land (w4 a b c d) 4278190080 = w4 a 0 0 0.
Proof using Ha Hb Hc Hd.
  change 4278190080 with (Z.shiftl 255 24). rewrite land_byte by lia.
  destruct (w4_byte_of a b c d) as (-> & _); [done..|]. rewrite w4_sum by apply zero_byte. lia.
Qed.
Lemma w4_mask16 : Z.land (w4 a b c d) 16711680 = w4 0 b 0 0.
Proof using Ha Hb Hc Hd.
  change 16711680 with (Z.shiftl 255 16). rewrite land_byte by lia.
  destruct (w4_byte_of a b c d) as (_ & -> & _); [done..|]. rewrite w4_sum by (done || apply zero_byte). lia.
Qed.
Lemma w4_mask8 : Z.land (w4 a b c d) 65280 = w4 0 0 c 0.
Proof using Ha Hb Hc Hd.
  change 65280 with (Z.shiftl 255 8). rewrite land_byte by lia.
  destruct (w4_byte_of a b c d) as (_ & _ & -> & _); [done..|]. rewrite w4_sum by (done || apply zero_byte). lia.
Qed.
Lemma w4_mask0 : Z.land (w4 a b c d) 255 = w4 0 0 0 d.
Proof using Ha Hb Hc Hd. rewrite w4_0. done. Qed.

Lemma PUTU32_w4 : PUTU32 (w4 a b c d) = [a; b; c; d].
Proof using Ha Hb Hc Hd.
  destruct (w4_byte_of a b c d) as (E1 & E2 & E3 & E4); [done..|].
  unfold PUTU32, u8. rewrite !Z.shiftr_div_pow2 by lia. unfold byte_of in E1, E2, E3, E4.
  rewrite Z.div_1_r in E4. by rewrite E1, E2, E3, E4.
Qed.
End Bytes4.
End Words.

(** A property of the 256 bytes, checked on each. *)
Definition all256 (P : Z -> bool) : bool := forallb P (map Z.of_nat (seq 0 256)).
Lemma all256_spec P : all256 P = true -> forall x, is_byte x -> P x = true.
Proof.
  intros HP x Hx. unfold all256 in HP. rewrite forallb_forall in HP. apply HP.
  apply in_map_iff. exists (Z.to_nat x). unfold is_byte in Hx. split; [lia|]. apply in_seq. lia.
Qed.

(** ** The tables are the products of the standard *)
Section Tables.
Import Fips197.

Definition te_check (x : Z) : bool :=
  let s := sbox x in
  (idx Te0 x =? w4 (mul 2 s) (mul 1 s) (mul 1 s) (mul 3 s)) &&
  (idx Te1 x =? w4 (mul 3 s) (mul 2 s) (mul 1 s) (mul 1 s)) &&
  (idx Te2 x =? w4 (mul 1 s) (mul 3 s) (mul 2 s) (mul 1 s)) &&
  (idx Te3 x =? w4 (mul 1 s) (mul 1 s) (mul 3 s) (mul 2 s)) && (mul 1 s =? s).

Lemma te_tables x :
  is_byte x -> let s := sbox x in
  idx Te0 x = w4 (mul 2 s) (mul 1 s) (mul 1 s) (mul 3 s) /\
  idx Te1 x = w4 (mul 3 s) (mul 2 s) (mul 1 s) (mul 1 s) /\
  idx Te2 x = w4 (mul 1 s) (mul 3 s) (mul 2 s) (mul 1 s) /\
  idx Te3 x = w4 (mul 1 s) (mul 1 s) (mul 3 s) (mul 2 s) /\ mul 1 s = s.
Proof.
  intros Hx s. assert (HC : all256 te_check = true) by (vm_compute; reflexivity).
  apply (all256_spec _ HC) in Hx. unfold te_check in Hx. fold s in Hx. bool_hyp. repeat split; assumption.
Qed.

Lemma byte_xtime b : is_byte (xtime b).
Proof.
  unfold xtime. apply byte_lxor; [|destruct (Z.testbit b 7); unfold is_byte; lia].
  rewrite land_255. apply byte_range.
Qed.
Lemma byte_mul_bits n a b : is_byte b -> is_byte (mul_bits n a b).
Proof.
  revert a b. induction n as [|n IH]; intros a b Hb; cbn [mul_bits]; [apply zero_byte|].
  apply byte_lxor; [destruct (Z.odd a); [done|apply zero_byte]|]. apply IH, byte_xtime.
Qed.
Lemma byte_mul a b : is_byte b -> is_byte (mul a b).
Proof. apply byte_mul_bits. Qed.
Lemma byte_inverse b : is_byte b -> is_byte (inverse b).
Proof.
  assert (HP : forall n x, is_byte x -> is_byte (pow2m2 n x)).
  { induction n as [|n IH]; intros x Hx; cbn [pow2m2]; [unfold is_byte; lia|].
    apply byte_mul, IH, byte_mul, Hx. }
  apply HP.
Qed.
Lemma byte_rotl b k : is_byte (rotl b k).
Proof. unfold rotl. rewrite land_255. apply byte_range. Qed.
Lemma byte_sbox b : is_byte b -> is_byte (sbox b).
Proof.
  intros Hb. unfold sbox. apply byte_lxor; [by apply byte_inverse|].
  repeat apply byte_lxor; try apply byte_rotl. unfold is_byte. lia.
Qed.
Lemma byte_inv_sbox b : is_byte (inv_sbox b).
Proof.
  unfold inv_sbox. apply byte_inverse. repeat apply byte_lxor; try apply byte_rotl. unfold is_byte. lia.
Qed.
End Tables.
Create HintDb aes_bytes.
#[export] Hint Resolve byte_lxor byte_xtime byte_mul byte_sbox byte_inv_sbox zero_byte : aes_bytes.

(** Reads the tables, the bytes and the masks of words with known bytes. *)
Ltac byte_side := solve [eauto 8 with aes_bytes].
Ltac word_step :=
  first [rewrite w4_24 by byte_side|rewrite w4_16 by byte_side|rewrite w4_8 by byte_side
        |rewrite w4_0 by byte_side].

(** ** Rounds *)
Section Rounds.
Import Fips197.

Lemma te_column_w4 a0 a1 a2 a3 b0 b1 b2 b3 c0 c1 c2 c3 d0 d1 d2 d3 k0 k1 k2 k3 :
  all_bytes [a0; a1; a2; a3] -> all_bytes [b0; b1; b2; b3] ->
  all_bytes [c0; c1; c2; c3] -> all_bytes [d0; d1; d2; d3] ->
  te_column (w4 a0 a1 a2 a3) (w4 b0 b1 b2 b3) (w4 c0 c1 c2 c3) (w4 d0 d1 d2 d3) (w4 k0 k1 k2 k3)
  = let m x y z t := mix x y z t (sbox a0) (sbox b1) (sbox c2) (sbox d3) in
    w4 (Z.lxor (m 2 3 1 1) k0) (Z.lxor (m 1 2 3 1) k1) (Z.lxor (m 1 1 2 3) k2) (Z.lxor (m 3 1 1 2) k3).
Proof.
  unfold all_bytes. rewrite !Forall_cons, !Forall_nil.
  intros (?&?&?&?&_) (?&?&?&?&_) (?&?&?&?&_) (?&?&?&?&_). unfold te_column.
  rewrite w4_24, w4_16, w4_8, w4_0 by done.
  destruct (te_tables a0) as (-> & _); [done|]. destruct (te_tables b1) as (_ & -> & _); [done|].
  destruct (te_tables c2) as (_ & _ & -> & _); [done|].
  destruct (te_tables d3) as (_ & _ & _ & -> & _); [done|]. rewrite !lxor_w4. cbv zeta.
  unfold mix. reflexivity.
Qed.

Lemma te_masks x :
  is_byte x ->
  Z.land (idx Te2 x) 4278190080 = w4 (sbox x) 0 0 0 /\ Z.land (idx Te3 x) 16711680 = w4 0 (sbox x) 0 0 /\
  Z.land (idx Te0 x) 65280 = w4 0 0 (sbox x) 0 /\ Z.land (idx Te1 x) 255 = w4 0 0 0 (sbox x).
Proof.
  intros Hx. destruct (te_tables x Hx) as (-> & -> & -> & -> & E1). pose proof (byte_sbox x Hx).
  rewrite w4_mask24, w4_mask16, w4_mask8, w4_mask0 by byte_side. by rewrite !E1.
Qed.

Lemma te_last_w4 a0 a1 a2 a3 b0 b1 b2 b3 c0 c1 c2 c3 d0 d1 d2 d3 k0 k1 k2 k3 :
  all_bytes [a0; a1; a2; a3] -> all_bytes [b0; b1; b2; b3] ->
  all_bytes [c0; c1; c2; c3] -> all_bytes [d0; d1; d2; d3] ->
  te_last_column (w4 a0 a1 a2 a3) (w4 b0 b1 b2 b3) (w4 c0 c1 c2 c3) (w4 d0 d1 d2 d3) (w4 k0 k1 k2 k3)
  = w4 (Z.lxor (sbox a0) k0) (Z.lxor (sbox b1) k1) (Z.lxor (sbox c2) k2) (Z.lxor (sbox d3) k3).
Proof.
  unfold all_bytes. rewrite !Forall_cons, !Forall_nil.
  intros (?&?&?&?&_) (?&?&?&?&_) (?&?&?&?&_) (?&?&?&?&_). unfold te_last_column.
  rewrite w4_24, w4_16, w4_8, w4_0 by done.
  destruct (te_masks a0) as (-> & _); [done|]. destruct (te_masks b1) as (_ & -> & _); [done|].
  destruct (te_masks c2) as (_ & _ & -> & _); [done|].
  destruct (te_masks d3) as (_ & _ & _ & ->); [done|]. rewrite !lxor_w4. by rewrite !Z.lxor_0_r, !Z.lxor_0_l.
Qed.

(** The columns of a state of 16 bytes. *)
Definition cols (st : bytes) : columns :=
  (GETU32 st, GETU32 (drop 4 st), GETU32 (drop 8 st), GETU32 (drop 12 st)).

(** [rk + o] is the round key [k]. *)
Definition key_at (rk : list Z) (o : nat) (k : bytes) : Prop :=
  rk_get rk o = GETU32 k /\ rk_get rk (o + 1) = GETU32 (drop 4 k) /\
  rk_get rk (o + 2) = GETU32 (drop 8 k) /\ rk_get rk (o + 3) = GETU32 (drop 12 k).
End Rounds.

(** Names the bytes of a block. *)
Ltac block16 st H :=
  let Hl := fresh in let Hb := fresh in
  destruct H as [Hl Hb]; unfold all_bytes in Hb;
  do 16 (destruct st as [|? st]; [discriminate Hl|]); destruct st; [|discriminate Hl]; clear Hl.

Section RoundLaws.
Import Fips197.

Lemma all_bytes_4 a b c d : is_byte a -> is_byte b -> is_byte c -> is_byte d -> all_bytes [a; b; c; d].
Proof. intros. unfold all_bytes. by rewrite !Forall_cons, Forall_nil. Qed.

Lemma GETU32_w4 a b c d l : GETU32 (a :: b :: c :: d :: l) = w4 a b c d.
Proof. reflexivity. Qed.

Lemma round_ok st rk o k :
  typed 16 st -> typed 16 k -> key_at rk o k ->
  enc_round te_column (cols st) rk o = cols (AddRoundKey (MixColumns (ShiftRows (SubBytes st))) k).
Proof.
  intros Hst Hk HK. block16 st Hst. block16 k Hk. rewrite !Forall_cons in *. decompose [and] H0.
  unfold cols, key_at in *. cbn [drop] in *. rewrite !GETU32_w4 in *. destruct HK as (K0 & K1 & K2 & K3).
  cbn [enc_round]. rewrite K0, K1, K2, K3, !te_column_w4 by (by apply all_bytes_4).
  cbv -[mix sbox w4 Z.lxor GETU32]. by rewrite !GETU32_w4.
Qed.

Lemma last_round_ok st rk o k :
  typed 16 st -> typed 16 k -> key_at rk o k ->
  enc_round te_last_column (cols st) rk o = cols (AddRoundKey (ShiftRows (SubBytes st)) k).
Proof.
  intros Hst Hk HK. block16 st Hst. block16 k Hk. rewrite !Forall_cons in *. decompose [and] H0.
  unfold cols, key_at in *. cbn [drop] in *. rewrite !GETU32_w4 in *. destruct HK as (K0 & K1 & K2 & K3).
  cbn [enc_round]. rewrite K0, K1, K2, K3, !te_last_w4 by (by apply all_bytes_4).
  cbv -[mix sbox w4 Z.lxor GETU32]. by rewrite !GETU32_w4.
Qed.

Lemma load_columns_ok inp rk k :
  typed 16 inp -> typed 16 k -> key_at rk 0 k -> load_columns inp rk = cols (AddRoundKey inp k).
Proof.
  intros Hi Hk HK. block16 inp Hi. block16 k Hk.
  unfold cols, key_at, load_columns in *. cbn [drop Nat.add] in *. destruct HK as (-> & -> & -> & ->).
  rewrite !GETU32_w4, !lxor_w4.
  cbv -[w4 Z.lxor GETU32]. by rewrite !GETU32_w4.
Qed.

Lemma store_columns_ok st : typed 16 st -> store_columns (cols st) = st.
Proof.
  intros Hst. block16 st Hst. rewrite !Forall_cons in *. decompose [and] H0.
  unfold cols, store_columns. cbn [drop].
  rewrite !GETU32_w4, !PUTU32_w4 by done. done.
Qed.
End RoundLaws.

(** ** Types of the steps *)
Section StepTypes.
Import Fips197.

Lemma typed_map f n b : (forall x, is_byte x -> is_byte (f x)) -> typed n b -> typed n (map f b).
Proof.
  intros Hf [Hl Hb]. split; [by rewrite length_map|]. unfold all_bytes in *. rewrite Forall_map.
  eapply Forall_impl; [exact Hb|exact Hf].
Qed.

Lemma typed_nth n b i : typed n b -> is_byte (nth i b 0).
Proof.
  intros [_ Hb]. destruct (nth_in_or_default i b 0) as [Hi| ->]; [|apply zero_byte].
  unfold all_bytes in Hb. rewrite List.Forall_forall in Hb. auto.
Qed.

Lemma typed_xor n a b : typed n a -> typed n b -> typed n (xor_bytes a b).
Proof.
  revert a b. induction n as [|n IH]; intros a b [Ha Hab] [Hb Hbb]; destruct a as [|x a], b as [|y b];
    try done. unfold all_bytes in *. rewrite !Forall_cons in *. destruct Hab, Hbb.
  destruct (IH a b) as [Hl Hf]; [by split; [injection Ha|]|by split; [injection Hb|]|].
  cbn [xor_bytes]. split; [cbn; by rewrite Hl|]. apply Forall_cons. split; [by apply byte_lxor|done].
Qed.

Lemma typed_by_columns f : (forall r c, is_byte (f r c)) -> typed 16 (by_columns f).
Proof. intros Hf. split; [done|]. unfold by_columns, all_bytes. rewrite !Forall_cons. auto 20. Qed.

Lemma byte_mix m0 m1 m2 m3 a b c d :
  is_byte a -> is_byte b -> is_byte c -> is_byte d -> is_byte (mix m0 m1 m2 m3 a b c d).
Proof. intros. unfold mix. auto 8 with aes_bytes. Qed.

Lemma typed_mix m0 m1 m2 m3 st : typed 16 st -> typed 16 (mix_columns m0 m1 m2 m3 st).
Proof.
  intros Hst. block16 st Hst. rewrite !Forall_cons in *. decompose [and] H0. split; [done|].
  cbn [mix_columns]. unfold all_bytes. rewrite !Forall_cons. auto 40 using byte_mix.
Qed.

Lemma typed_shift st : typed 16 st -> typed 16 (ShiftRows st) /\ typed 16 (InvShiftRows st).
Proof. intros Hst. split; apply typed_by_columns; intros r c; by eapply typed_nth. Qed.

Lemma typed_sub n st : typed n st -> typed n (SubBytes st) /\ typed n (InvSubBytes st).
Proof. intros Hst. split; apply typed_map; auto with aes_bytes. Qed.

(** Schedules of four-byte words. *)
Definition words (ws : list bytes) : Prop := Forall (typed 4) ws.

Lemma words_nth ws i : words ws -> (i < length ws)%nat -> typed 4 (nth i ws []).
Proof. intros Hw Hi. unfold words in Hw. rewrite List.Forall_forall in Hw. by apply Hw, nth_In. Qed.

Lemma typed_round_key ws r : words ws -> (4 * r + 4 <= length ws)%nat -> typed 16 (round_key ws r).
Proof.
  intros Hw Hr. unfold round_key.
  assert (HT : words (take 4 (drop (4 * r) ws))) by (by apply Forall_take, Forall_drop).
  assert (HL : length (take 4 (drop (4 * r) ws)) = 4%nat) by (rewrite length_take, length_drop; lia).
  destruct (take 4 (drop (4 * r) ws)) as [|a [|b [|c [|d [|]]]]]; try discriminate HL.
  unfold words in HT. rewrite !Forall_cons in HT. destruct HT as ([La Ha] & [Lb Hb] & [Lc Hc] & [Ld Hd] & _).
  cbn [concat]. rewrite app_nil_r. split; [rewrite !length_app; lia|].
  unfold all_bytes. rewrite !Forall_app. done.
Qed.
End StepTypes.

(** ** The key schedule *)
Section Schedule.
Import Fips197.

(** The array holds the words [ws], then [rest]. *)
Definition holds (ws : list bytes) (rest : list Z) : list Z := map GETU32 ws ++ rest.

Lemma holds_get ws rest i : (i < length ws)%nat -> rk_get (holds ws rest) i = GETU32 (nth i ws []).
Proof.
  intros Hi. unfold rk_get, holds. rewrite app_nth1 by (rewrite length_map; lia).
  change 0 with (GETU32 []). apply map_nth.
Qed.

Lemma holds_put ws rest w :
  (0 < length rest)%nat -> <[length ws := GETU32 w]> (holds ws rest) = holds (ws ++ [w]) (drop 1 rest).
Proof.
  intros Hr. unfold holds. destruct rest as [|x rest]; [cbn in Hr; lia|].
  replace (length ws) with (length (map GETU32 ws) + 0)%nat by (rewrite length_map; lia).
  rewrite insert_app_r, map_app. cbn [map drop list_insert]. by rewrite <-app_assoc.
Qed.

Lemma GETU32_xor a b : typed 4 a -> typed 4 b -> GETU32 (xor_bytes a b) = Z.lxor (GETU32 a) (GETU32 b).
Proof.
  intros [La _] [Lb _]. destruct a as [|a0 [|a1 [|a2 [|a3 [|]]]]]; try discriminate La.
  destruct b as [|b0 [|b1 [|b2 [|b3 [|]]]]]; try discriminate Lb.
  cbn [xor_bytes]. by rewrite !GETU32_w4, lxor_w4.
Qed.

Lemma sub_rot_ok w : typed 4 w -> sub_rot_word (GETU32 w) = GETU32 (SubWord (RotWord w)).
Proof.
  intros [Lw Hw]. destruct w as [|a [|b [|c [|d [|]]]]]; try discriminate Lw.
  unfold all_bytes in Hw. rewrite !Forall_cons in Hw. destruct Hw as (?&?&?&?&_).
  rewrite GETU32_w4. unfold sub_rot_word. rewrite w4_24, w4_16, w4_8, w4_0 by done.
  destruct (te_masks b) as (-> & _); [done|]. destruct (te_masks c) as (_ & -> & _); [done|].
  destruct (te_masks d) as (_ & _ & -> & _); [done|]. destruct (te_masks a) as (_ & _ & _ & ->); [done|].
  rewrite !lxor_w4, !Z.lxor_0_r, !Z.lxor_0_l. unfold SubWord, RotWord. cbn [drop take app map].
  by rewrite GETU32_w4.
Qed.

Lemma sub_word_ok w : typed 4 w -> sub_word (GETU32 w) = GETU32 (SubWord w).
Proof.
  intros [Lw Hw]. destruct w as [|a [|b [|c [|d [|]]]]]; try discriminate Lw.
  unfold all_bytes in Hw. rewrite !Forall_cons in Hw. destruct Hw as (?&?&?&?&_).
  rewrite GETU32_w4. unfold sub_word. rewrite w4_24, w4_16, w4_8, w4_0 by done.
  destruct (te_masks a) as (-> & _); [done|]. destruct (te_masks b) as (_ & -> & _); [done|].
  destruct (te_masks c) as (_ & _ & -> & _); [done|]. destruct (te_masks d) as (_ & _ & _ & ->); [done|].
  rewrite !lxor_w4, !Z.lxor_0_r, !Z.lxor_0_l. unfold SubWord, RotWord. cbn [drop take app map].
  by rewrite GETU32_w4.
Qed.

Lemma typed_rot w : typed 4 w -> typed 4 (SubWord (RotWord w)).
Proof.
  intros [Lw Hw]. apply typed_map; [auto with aes_bytes|]. unfold RotWord.
  split; [rewrite length_app, length_drop, length_take; lia|].
  apply Forall_app. split; [by apply Forall_drop|by apply Forall_take].
Qed.

Lemma typed_rcon i : typed 4 (Rcon i).
Proof.
  split; [done|]. unfold Rcon, all_bytes. rewrite !Forall_cons.
  split; [|auto using zero_byte]. generalize (i - 1)%nat as n. intros [|n]; [unfold is_byte; cbn; lia|].
  cbn [power]. apply byte_xtime.
Qed.

Lemma next_word_typed Nk ws :
  words ws -> (0 < Nk <= length ws)%nat -> typed 4 (next_word Nk ws).
Proof.
  intros Hw Hn. unfold next_word. cbv zeta. apply typed_xor; [apply words_nth; [done|lia]|].
  assert (HT : typed 4 (nth (length ws - 1) ws [])) by (apply words_nth; [done|lia]).
  destruct (Nat.eqb _ _); [apply typed_xor; [by apply typed_rot|apply typed_rcon]|].
  destruct (_ && _); [by apply typed_sub|done].
Qed.

Lemma words_snoc Nk ws : words ws -> (0 < Nk <= length ws)%nat -> words (ws ++ [next_word Nk ws]).
Proof.
  intros Hw Hn. apply Forall_app. split; [done|]. apply Forall_cons.
  split; [by apply next_word_typed|apply Forall_nil_2].
Qed.

(** One assignment of the loops is one word of the expansion. *)
Section Assign.
Context (Nk : nat) (ws : list bytes) (rest : list Z) (d a p : nat).
Context (Hw : words ws) (Hn : (0 < Nk <= length ws)%nat) (Hr : (0 < length rest)%nat).
Context (Hd : d = length ws) (Ha : a = (length ws - Nk)%nat) (Hp : p = (length ws - 1)%nat).

Lemma assign_temp t :
  typed 4 t -> next_word Nk ws = xor_bytes (nth a ws []) t ->
  rk_xor (holds ws rest) d a (GETU32 t) = holds (ws ++ [next_word Nk ws]) (drop 1 rest).
Proof using Hw Hn Hr Hd Ha.
  clear Hp p. intros Ht ->. unfold rk_xor. rewrite holds_get by lia.
  rewrite <-GETU32_xor by (done || (apply words_nth; [done|lia])). rewrite Hd. by apply holds_put.
Qed.

Lemma assign_plain :
  (length ws mod Nk <> 0)%nat -> (Nk <= 6 \/ length ws mod Nk <> 4)%nat ->
  rk_xor (holds ws rest) d a (rk_get (holds ws rest) p)
  = holds (ws ++ [next_word Nk ws]) (drop 1 rest).
Proof using Hw Hn Hr Hd Ha Hp.
  intros H0 H4. rewrite holds_get by lia. apply assign_temp; [apply words_nth; [done|lia]|].
  unfold next_word. cbv zeta. rewrite (proj2 (Nat.eqb_neq _ _)) by done.
  replace (Nat.ltb 6 Nk && Nat.eqb (length ws mod Nk) 4)%bool with false; [by subst|].
  symmetry. apply andb_false_iff. rewrite Nat.ltb_ge, Nat.eqb_neq. tauto.
Qed.

Lemma assign_sub :
  (6 < Nk)%nat -> (length ws mod Nk = 4)%nat ->
  rk_xor (holds ws rest) d a (sub_word (rk_get (holds ws rest) p))
  = holds (ws ++ [next_word Nk ws]) (drop 1 rest).
Proof using Hw Hn Hr Hd Ha Hp.
  intros H6 H4. rewrite holds_get by lia.
  assert (HT : typed 4 (nth p ws [])) by (apply words_nth; [done|lia]).
  rewrite sub_word_ok by done. apply assign_temp; [by apply typed_sub|].
  unfold next_word. cbv zeta. rewrite H4, (proj2 (Nat.ltb_lt _ _)) by done. by subst.
Qed.

Lemma assign_rot i :
  (length ws mod Nk = 0)%nat -> (length ws / Nk)%nat = S i -> nth i rcon 0 = GETU32 (Rcon (S i)) ->
  rk_xor (holds ws rest) d a (Z.lxor (sub_rot_word (rk_get (holds ws rest) p)) (nth i rcon 0))
  = holds (ws ++ [next_word Nk ws]) (drop 1 rest).
Proof using Hw Hn Hr Hd Ha Hp.
  intros H0 Hi HR. rewrite holds_get by lia.
  assert (HT : typed 4 (nth p ws [])) by (apply words_nth; [done|lia]).
  rewrite sub_rot_ok, HR, <-GETU32_xor by (done || apply typed_rcon || by apply typed_rot).
  apply assign_temp; [apply typed_xor; [by apply typed_rot|apply typed_rcon]|].
  unfold next_word. cbv zeta. rewrite H0, Hi. by subst.
Qed.
End Assign.

Lemma rcon_ok i : (i < 10)%nat -> nth i rcon 0 = GETU32 (Rcon (S i)).
Proof. intros Hi. do 10 (destruct i as [|i]; [vm_compute; reflexivity|]). lia. Qed.

Lemma position Nk q j : (j < Nk)%nat -> ((Nk * q + j) mod Nk = j)%nat /\ ((Nk * q + j) / Nk = q)%nat.
Proof.
  intros Hj. rewrite Nat.mul_comm, Nat.add_comm, Nat.Div0.mod_add, Nat.div_add by lia.
  rewrite Nat.mod_small, Nat.div_small by lia. lia.
Qed.

(** The schedule has come to word [Nk * q + j]: the words, and room for [m] more. *)
Record at_word (Nk q j m : nat) (ws : list bytes) (rest : list Z) : Prop := {
  aw_words : words ws;
  aw_len : length ws = (Nk * q + j)%nat;
  aw_room : (m <= length rest)%nat
}.

Lemma at_word_next Nk q j m ws rest :
  (0 < Nk)%nat -> (0 < q)%nat -> at_word Nk q j (S m) ws rest ->
  at_word Nk q (S j) m (ws ++ [next_word Nk ws]) (drop 1 rest).
Proof.
  intros Hn Hq [Hw Hl Hr]. split.
  - apply words_snoc; [done|]. rewrite Hl. nia.
  - rewrite length_app, Hl. cbn. lia.
  - rewrite length_drop. lia.
Qed.

Lemma at_word_wrap Nk q m ws rest : at_word Nk q Nk m ws rest -> at_word Nk (S q) 0 m ws rest.
Proof. intros [Hw Hl Hr]. split; [done|rewrite Hl; lia|done]. Qed.

Section Step.
Context (Nk q j m : nat) (ws : list bytes) (rest : list Z) (d a p : nat).
Context (HA : at_word Nk q j (S m) ws rest) (Hq : (0 < q)%nat) (Hj : (j < Nk)%nat).
Context (Hd : d = (Nk * q + j)%nat) (Ha : a = (Nk * q + j - Nk)%nat) (Hp : p = (Nk * q + j - 1)%nat).

Lemma step_plain :
  (0 < j)%nat -> (Nk <= 6 \/ j <> 4)%nat ->
  rk_xor (holds ws rest) d a (rk_get (holds ws rest) p) = holds (ws ++ [next_word Nk ws]) (drop 1 rest).
Proof using HA Hq Hj Hd Ha Hp.
  intros H0 H4. destruct HA as [Hw Hl Hr]. destruct (position Nk q j Hj) as [Hm _].
  apply assign_plain; rewrite ?Hl, ?Hm; try done; try lia; nia.
Qed.

Lemma step_sub :
  (6 < Nk)%nat -> j = 4%nat ->
  rk_xor (holds ws rest) d a (sub_word (rk_get (holds ws rest) p))
  = holds (ws ++ [next_word Nk ws]) (drop 1 rest).
Proof using HA Hq Hj Hd Ha Hp.
  intros H6 H4. destruct HA as [Hw Hl Hr]. destruct (position Nk q j Hj) as [Hm _].
  apply assign_sub; rewrite ?Hl, ?Hm; try done; try lia; nia.
Qed.

Lemma step_rot i :
  j = 0%nat -> q = S i -> (i < 10)%nat ->
  rk_xor (holds ws rest) d a (Z.lxor (sub_rot_word (rk_get (holds ws rest) p)) (nth i rcon 0))
  = holds (ws ++ [next_word Nk ws]) (drop 1 rest).
Proof using HA Hq Hj Hd Ha Hp.
  intros H0 Hi Hi10. destruct HA as [Hw Hl Hr]. destruct (position Nk q j Hj) as [Hm Hv].
  apply assign_rot; rewrite ?Hl, ?Hm, ?Hv; try done; try lia; try nia. by apply rcon_ok.
Qed.
End Step.

Lemma expand_add Nk n m ws : expand Nk (n + m) ws = expand Nk m (expand Nk n ws).
Proof. revert ws. induction n as [|n IH]; intros ws; [done|]. cbn [expand Nat.add]. apply IH. Qed.

End Schedule.

(** One assignment, from the state [H] of the schedule; [H] becomes the next one. *)
Ltac sched L H := erewrite L by first [exact H|lia]; apply at_word_next in H; [|lia|lia].

Ltac drops := rewrite !drop_drop; f_equal; f_equal; lia.

Section Loops.
Import Fips197.

Lemma expand_S Nk n ws : expand Nk (S n) ws = expand Nk n (ws ++ [next_word Nk ws]).
Proof. reflexivity. Qed.

Lemma expand128_ok fuel i ws rest :
  (i + fuel = 10)%nat -> at_word 4 (S i) 0 (4 * fuel) ws rest ->
  expand128 fuel i (4 * i) (holds ws rest) = holds (expand 4 (4 * fuel) ws) (drop (4 * fuel) rest).
Proof.
  revert i ws rest. induction fuel as [|fuel IH]; intros i ws rest Hi HA; [done|].
  replace (4 * S fuel)%nat with (S (S (S (S (4 * fuel))))) in * by lia.
  cbn [expand128]; cbv zeta. rewrite !expand_S.
  sched step_rot HA. sched step_plain HA. sched step_plain HA. sched step_plain HA.
  apply at_word_wrap in HA. destruct (Nat.eqb (S i) 10) eqn:E.
  - apply Nat.eqb_eq in E. replace fuel with 0%nat by lia. by drops.
  - replace (4 * i + 4)%nat with (4 * S i)%nat by lia. rewrite IH by (lia || exact HA). by drops.
Qed.

Lemma expand192_ok fuel i ws rest :
  (i + S fuel = 8)%nat -> at_word 6 (S i) 0 (6 * fuel + 4) ws rest ->
  expand192 (S fuel) i (6 * i) (holds ws rest)
  = holds (expand 6 (6 * fuel + 4) ws) (drop (6 * fuel + 4) rest).
Proof.
  revert i ws rest. induction fuel as [|fuel IH]; intros i ws rest Hi HA.
  - assert (i = 7%nat) as -> by lia. cbn [expand192 Nat.eqb]. cbv zeta.
    change (6 * 0 + 4)%nat with 4%nat in *. rewrite !expand_S.
    sched step_rot HA. sched step_plain HA. sched step_plain HA. sched step_plain HA. by drops.
  - replace (6 * S fuel + 4)%nat with (S (S (S (S (S (S (6 * fuel + 4))))))) in * by lia.
    remember (S fuel) as f eqn:Ef. cbn [expand192]. cbv zeta. rewrite !expand_S.
    rewrite (proj2 (Nat.eqb_neq (S i) 8)) by lia.
    sched step_rot HA. do 5 sched step_plain HA. apply at_word_wrap in HA. subst f.
    replace (6 * i + 6)%nat with (6 * S i)%nat by lia. rewrite IH by (lia || exact HA). by drops.
Qed.

Lemma expand256_ok fuel i ws rest :
  (i + S fuel = 7)%nat -> at_word 8 (S i) 0 (8 * fuel + 4) ws rest ->
  expand256 (S fuel) i (8 * i) (holds ws rest)
  = holds (expand 8 (8 * fuel + 4) ws) (drop (8 * fuel + 4) rest).
Proof.
  revert i ws rest. induction fuel as [|fuel IH]; intros i ws rest Hi HA.
  - assert (i = 6%nat) as -> by lia. cbn [expand256 Nat.eqb]. cbv zeta.
    change (8 * 0 + 4)%nat with 4%nat in *. rewrite !expand_S.
    sched step_rot HA. sched step_plain HA. sched step_plain HA. sched step_plain HA. by drops.
  - replace (8 * S fuel + 4)%nat with (S (S (S (S (S (S (S (S (8 * fuel + 4))))))))) in * by lia.
    remember (S fuel) as f eqn:Ef. cbn [expand256]. cbv zeta. rewrite !expand_S.
    rewrite (proj2 (Nat.eqb_neq (S i) 7)) by lia.
    sched step_rot HA. do 3 sched step_plain HA. sched step_sub HA. do 3 sched step_plain HA.
    apply at_word_wrap in HA. subst f.
    replace (8 * i + 8)%nat with (8 * S i)%nat by lia. rewrite IH by (lia || exact HA). by drops.
Qed.
End Loops.

(** ** The cipher *)
Section Cipher.
Import Fips197.

Lemma expand_words Nk n ws :
  words ws -> (0 < Nk <= length ws)%nat ->
  words (expand Nk n ws) /\ length (expand Nk n ws) = (length ws + n)%nat.
Proof.
  revert ws. induction n as [|n IH]; intros ws Hw Hn; cbn [expand]; [split; [done|lia]|].
  destruct (IH (ws ++ [next_word Nk ws])) as [HW HL].
  - by apply words_snoc.
  - rewrite length_app. cbn. lia.
  - split; [done|]. rewrite HL, length_app. cbn. lia.
Qed.

Lemma key_words_typed n k :
  all_bytes k -> (4 * n <= length k)%nat -> words (key_words n k) /\ length (key_words n k) = n.
Proof.
  revert k. induction n as [|n IH]; intros k Hb Hl; cbn [key_words]; [by split; [apply Forall_nil_2|]|].
  destruct (IH (drop 4 k)) as [HW HL]; [by apply Forall_drop|rewrite length_drop; lia|].
  split; [|cbn; by rewrite HL]. apply Forall_cons. split; [|done].
  split; [rewrite length_take; lia|by apply Forall_take].
Qed.

Lemma GETU32_take k : (4 <= length k)%nat -> GETU32 (take 4 k) = GETU32 k.
Proof. intros Hl. do 4 (destruct k as [|? k]; [cbn in Hl; lia|]). done. Qed.

Lemma load_words_ok k n ws rest :
  (4 * (length ws + n) <= length k)%nat -> (n <= length rest)%nat ->
  load_words k (length ws) n (holds ws rest)
  = holds (ws ++ key_words n (drop (4 * length ws) k)) (drop n rest).
Proof.
  revert ws rest. induction n as [|n IH]; intros ws rest Hk Hr; cbn [load_words key_words].
  - by rewrite app_nil_r.
  - rewrite <-GETU32_take by (rewrite length_drop; lia). rewrite holds_put by lia.
    set (x := take 4 (drop (4 * length ws) k)).
    replace (S (length ws)) with (length (ws ++ [x])) by (rewrite length_app; cbn [length]; lia).
    rewrite IH; [|rewrite length_app; cbn [length]; lia|rewrite length_drop; lia].
    rewrite !drop_drop, <-app_assoc, length_app. cbn [app length].
    by replace (4 * (length ws + 1))%nat with (4 * length ws + 4)%nat by lia.
Qed.

Lemma key_words_app n m k : key_words (n + m) k = key_words n k ++ key_words m (drop (4 * n) k).
Proof.
  revert k. induction n as [|n IH]; intros k; [done|]. cbn [key_words Nat.add app]. f_equal.
  rewrite IH, drop_drop. by replace (4 * S n)%nat with (4 + 4 * n)%nat by lia.
Qed.

(** The schedule of a key. *)
Definition key_size (k : bytes) : Prop := length k = 16%nat \/ length k = 24%nat \/ length k = 32%nat.

Lemma holds_nil rest : holds [] rest = rest.
Proof. reflexivity. Qed.

Lemma set_encrypt_key_ok k key0 :
  all_bytes k -> key_size k -> length (rd_key key0) = 60%nat ->
  exists rest, let Nk := (length k / 4)%nat in
    AES_set_encrypt_key (Some k) (8 * zlen k) (Some key0)
    = (0, Some (mkAesKey (holds (KeyExpansion Nk k) rest) (Z.of_nat (Nk + 6)))) /\
    words (KeyExpansion Nk k) /\ length (KeyExpansion Nk k) = (4 * (Nk + 7))%nat /\
    length (holds (KeyExpansion Nk k) rest) = 60%nat.
Proof.
  intros Hb Hk H60.
  assert (HX : forall Nk, (4 * Nk <= length k)%nat -> (0 < Nk <= 8)%nat ->
    words (KeyExpansion Nk k) /\ length (KeyExpansion Nk k) = (4 * (Nk + 7))%nat).
  { intros Nk Hn H8. destruct (key_words_typed Nk k Hb Hn) as [HW HL].
    destruct (expand_words Nk (4 * (Nk + 6 + 1) - Nk) _ HW) as [HE HEl]; [lia|].
    split; [exact HE|]. unfold KeyExpansion. rewrite HEl, HL. lia. }
  assert (HA : forall Nk m, (4 * Nk <= length k)%nat -> (m + Nk <= 60)%nat ->
    at_word Nk 1 0 m (key_words Nk k) (drop Nk (rd_key key0))).
  { intros Nk m Hn Hm. destruct (key_words_typed Nk k Hb Hn) as [HW HL].
    split; [done|rewrite HL; lia|rewrite length_drop; lia]. }
  assert (HL : forall Nk, (4 * Nk <= length k)%nat -> (Nk <= 60)%nat ->
    load_words k 0 Nk (rd_key key0) = holds (key_words Nk k) (drop Nk (rd_key key0))).
  { intros Nk Hn H6. apply (load_words_ok k Nk [] (rd_key key0)); cbn [length]; lia. }
  assert (HM : forall n m, (4 * (n + m) <= length k)%nat -> (n + m <= 60)%nat ->
    load_words k n m (holds (key_words n k) (drop n (rd_key key0)))
    = holds (key_words (n + m) k) (drop (n + m) (rd_key key0))).
  { intros n m Hn Hm. destruct (key_words_typed n k Hb) as [_ HN]; [lia|].
    pose proof (load_words_ok k m (key_words n k) (drop n (rd_key key0))) as HQ. rewrite HN in HQ.
    rewrite HQ by (rewrite ?length_drop; lia). by rewrite key_words_app, drop_drop. }
  unfold AES_set_encrypt_key. destruct Hk as [Hk|[Hk|Hk]]; rewrite Hk in *; eexists; cbv zeta;
    (split; [|split; [apply HX; vm_compute; lia|split; [apply HX; vm_compute; lia|]]]).
  - rewrite HL by lia. change (8 * Z.of_nat 16 =? 128) with true. cbv iota.
    change 0%nat with (4 * 0)%nat at 2. rewrite expand128_ok by (done || (apply HA; lia)).
    change (16 / 4)%nat with 4%nat. unfold KeyExpansion.
    change (4 * (4 + 6 + 1) - 4)%nat with (4 * 10)%nat. reflexivity.
  - unfold holds. rewrite length_app, length_map, (proj2 (HX (16 / 4)%nat ltac:(vm_compute; lia) ltac:(vm_compute; lia))).
    rewrite !length_drop, H60. reflexivity.
  - change (8 * Z.of_nat 24 =? 128) with false. change (8 * Z.of_nat 24 =? 192) with true. cbv iota.
    rewrite HL, HM by lia. change 0%nat with (6 * 0)%nat at 2.
    rewrite expand192_ok by (done || (apply HA; lia)).
    change (24 / 4)%nat with 6%nat. unfold KeyExpansion.
    change (4 * (6 + 6 + 1) - 6)%nat with (6 * 7 + 4)%nat. reflexivity.
  - unfold holds. rewrite length_app, length_map, (proj2 (HX (24 / 4)%nat ltac:(vm_compute; lia) ltac:(vm_compute; lia))).
    rewrite !length_drop, H60. reflexivity.
  - change (8 * Z.of_nat 32 =? 128) with false. change (8 * Z.of_nat 32 =? 192) with false. cbv iota.
    rewrite HL, !HM by lia. change 0%nat with (8 * 0)%nat at 2.
    rewrite expand256_ok by (done || (apply HA; lia)).
    change (32 / 4)%nat with 8%nat. unfold KeyExpansion.
    change (4 * (8 + 6 + 1) - 8)%nat with (8 * 6 + 4)%nat. reflexivity.
  - unfold holds. rewrite length_app, length_map, (proj2 (HX (32 / 4)%nat ltac:(vm_compute; lia) ltac:(vm_compute; lia))).
    rewrite !length_drop, H60. reflexivity.
Qed.
End Cipher.

(** ** Encryption *)
Section Encryption.
Import Fips197.

Lemma round_key_at ws rest r :
  words ws -> (4 * r + 4 <= length ws)%nat -> key_at (holds ws rest) (4 * r) (round_key ws r).
Proof.
  intros Hw Hr. unfold key_at, round_key. rewrite !holds_get by lia.
  assert (HN : forall i, (i < 4)%nat -> nth (4 * r + i) ws [] = nth i (take 4 (drop (4 * r) ws)) []).
  { intros i Hi. rewrite nth_firstn. destruct (Nat.ltb_spec i 4); [|lia]. by rewrite nth_skipn. }
  replace (4 * r)%nat with (4 * r + 0)%nat at 1 by lia. rewrite !HN by lia.
  assert (HT : words (take 4 (drop (4 * r) ws))) by (by apply Forall_take, Forall_drop).
  assert (HL : length (take 4 (drop (4 * r) ws)) = 4%nat) by (rewrite length_take, length_drop; lia).
  destruct (take 4 (drop (4 * r) ws)) as [|a [|b [|c [|d [|]]]]]; try discriminate HL.
  unfold words in HT. rewrite !Forall_cons in HT. destruct HT as ([La _] & [Lb _] & [Lc _] & [Ld _] & _).
  destruct a as [|? [|? [|? [|? [|]]]]]; try discriminate La.
  destruct b as [|? [|? [|? [|? [|]]]]]; try discriminate Lb.
  destruct c as [|? [|? [|? [|? [|]]]]]; try discriminate Lc.
  destruct d as [|? [|? [|? [|? [|]]]]]; try discriminate Ld.
  cbn [concat app drop nth]. rewrite !GETU32_w4. done.
Qed.

Lemma typed_round st k : typed 16 st -> typed 16 k ->
  typed 16 (AddRoundKey (MixColumns (ShiftRows (SubBytes st))) k).
Proof.
  intros Hs Hk. apply typed_xor; [|done]. apply typed_mix. apply typed_shift. by apply typed_sub.
Qed.

Lemma cipher_rounds_typed n r ws st :
  words ws -> typed 16 st -> (4 * (r + n) <= length ws)%nat -> typed 16 (cipher_rounds n r ws st).
Proof.
  revert r st. induction n as [|n IH]; intros r st Hw Hs Hl; cbn [cipher_rounds]; [done|].
  apply IH; [done| |lia]. apply typed_round; [done|]. apply typed_round_key; [done|lia].
Qed.

Lemma enc_loop_ok R r ws rest st :
  words ws -> typed 16 st -> (4 * (r + 2 * R + 2) <= length ws)%nat ->
  enc_rounds (S R) (cols st) (holds ws rest) (4 * r)
  = (cols (cipher_rounds (2 * R + 1) (S r) ws st), (4 * (r + 2 * R + 2))%nat).
Proof.
  revert r st. induction R as [|R IH]; intros r st Hw Hs Hl; cbn [enc_rounds].
  - replace (4 * r + 4)%nat with (4 * S r)%nat by lia.
    rewrite (round_ok st _ _ (round_key ws (S r))) by
      (done || (apply typed_round_key; [done|lia]) || (apply round_key_at; [done|lia])).
    cbn [cipher_rounds Nat.mul Nat.add]. f_equal. lia.
  - replace (4 * r + 4)%nat with (4 * S r)%nat by lia.
    assert (T1 : typed 16 (round_key ws (S r))) by (apply typed_round_key; [done|lia]).
    assert (T2 : typed 16 (round_key ws (S (S r)))) by (apply typed_round_key; [done|lia]).
    rewrite (round_ok st _ _ (round_key ws (S r))) by (done || (apply round_key_at; [done|lia])).
    replace (4 * r + 8)%nat with (4 * S (S r))%nat by lia.
    rewrite (round_ok _ _ _ (round_key ws (S (S r)))) by
      (done || (by apply typed_round) || (apply round_key_at; [done|lia])).
    cbn [enc_rounds] in IH. rewrite IH by (done || lia || (repeat apply typed_round; done)).
    replace (2 * S R + 1)%nat with (S (S (2 * R + 1))) by lia. cbn [cipher_rounds]. f_equal. lia.
Qed.

Lemma encrypt_schedule ws rest R inp :
  words ws -> typed 16 inp -> length ws = (4 * (2 * R + 3))%nat ->
  AES_encrypt inp (mkAesKey (holds ws rest) (Z.of_nat (2 * R + 2))) = Cipher (2 * R + 2) ws inp.
Proof.
  intros Hw Hi Hl. unfold AES_encrypt, Cipher. cbn [rd_key rounds].
  rewrite Z.shiftr_div_pow2 by lia. change (2 ^ 1) with 2.
  replace (Z.to_nat (Z.of_nat (2 * R + 2) / 2)) with (S R) by (Z.div_mod_to_equations; lia).
  assert (T0 : typed 16 (round_key ws 0)) by (apply typed_round_key; [done|lia]).
  rewrite (load_columns_ok inp _ (round_key ws 0)) by
    (done || (apply (round_key_at ws rest 0); [done|lia])).
  pose proof (enc_loop_ok R 0 ws rest (AddRoundKey inp (round_key ws 0)) Hw) as HE.
  change (4 * 0)%nat with 0%nat in HE. rewrite HE by (lia || (by apply typed_xor)). replace (2 * R + 2 - 1)%nat with (2 * R + 1)%nat by lia.
  set (st := cipher_rounds _ _ _ _).
  assert (TS : typed 16 st) by (apply cipher_rounds_typed; [done|by apply typed_xor|lia]).
  assert (TN : typed 16 (round_key ws (2 * R + 2))) by (apply typed_round_key; [done|lia]).
  replace (0 + 2 * R + 2)%nat with (2 * R + 2)%nat by lia.
  rewrite (last_round_ok st _ _ (round_key ws (2 * R + 2))) by (done || (apply round_key_at; [done|lia])).
  apply store_columns_ok. apply typed_xor; [|done]. apply typed_shift. by apply typed_sub.
Qed.

(** The key schedule and the block function as the callers use them. *)
Lemma aes_encrypt_run k key0 :
  all_bytes k -> key_size k -> length (rd_key key0) = 60%nat ->
  exists key, AES_set_encrypt_key (Some k) (8 * zlen k) (Some key0) = (0, Some key) /\
    forall inp, typed 16 inp -> AES_encrypt inp key = Fips197.encrypt k inp.
Proof.
  intros Hb Hk H60. destruct (set_encrypt_key_ok k key0 Hb Hk H60) as (rest & HS & HW & HL & _).
  eexists. split; [exact HS|]. intros inp Hi. unfold Fips197.encrypt. cbv zeta.
  assert (HR : exists R, (length k / 4 + 6 = 2 * R + 2)%nat).
  { destruct Hk as [-> |[-> | ->]]; [by exists 4%nat|by exists 5%nat|by exists 6%nat]. }
  destruct HR as [R HR]. rewrite HR. apply encrypt_schedule; [done..|].
  rewrite HL. lia.
Qed.

Lemma encrypt_typed k inp : all_bytes k -> key_size k -> typed 16 inp -> typed 16 (Fips197.encrypt k inp).
Proof.
  intros Hb Hk Hi. destruct (set_encrypt_key_ok k (mkAesKey (replicate 60 0) 0) Hb Hk) as (rest & _ & HW & HL & _);
    [done|]. unfold Fips197.encrypt, Cipher. cbv zeta. apply typed_xor; [|apply typed_round_key; [done|lia]].
  apply typed_shift, typed_sub, cipher_rounds_typed; [done| |lia].
  apply typed_xor; [done|apply typed_round_key; [done|lia]].
Qed.
End Encryption.

(** ** The claim *)
Section EncryptClaim.
Import Fips197.

(** C16: (equivalence) The table-driven cipher is AES: for every key of 128, 192 or
    256 bits [AES_set_encrypt_key] succeeds, whatever the key structure held
    before, and with the schedule it leaves [AES_encrypt] maps every block to the
    ciphertext of FIPS 197, computed there byte by byte with the S-box as inversion
    in GF(2^8).  Any other key length is refused with -2 and the key structure is
    left alone. *)
Theorem aes_encrypt_fips197 k key0 :
  all_bytes k -> length (rd_key key0) = 60%nat ->
  (key_size k ->
   exists key, AES_set_encrypt_key (Some k) (8 * zlen k) (Some key0) = (0, Some key) /\
     forall inp, typed 16 inp -> AES_encrypt inp key = Fips197.encrypt k inp) /\
  (~ key_size k -> AES_set_encrypt_key (Some k) (8 * zlen k) (Some key0) = (-2, Some key0)).
Proof.
  intros Hb H60. split; [intros Hk; by apply aes_encrypt_run|].
  intros Hn. unfold AES_set_encrypt_key, key_size in *.
  rewrite (proj2 (Z.eqb_neq (8 * zlen k) 128)), (proj2 (Z.eqb_neq (8 * zlen k) 192)),
    (proj2 (Z.eqb_neq (8 * zlen k) 256)) by lia. done.
Qed.

(** The 256-bit example of the standard (appendix C.3). *)
Definition ex_key : bytes := map Z.of_nat (seq 0 32).
Definition ex_block : bytes := map (fun i => 17 * Z.of_nat i) (seq 0 16).
Definition blank_key : AES_KEY := mkAesKey (replicate 60 0) 0.
Lemma ex_key_bytes : all_bytes ex_key.
Proof. unfold all_bytes, is_byte. apply Forall_map, Forall_seq. cbn. lia. Qed.
Lemma ex_block_typed : typed 16 ex_block.
Proof.
  split; [done|]. unfold all_bytes, is_byte. apply Forall_map, Forall_seq. cbn. lia.
Qed.

Lemma aes_encrypt_fips197_witness :
  exists key, AES_set_encrypt_key (Some ex_key) 256 (Some blank_key) = (0, Some key) /\
    AES_encrypt ex_block key
    = [142; 162; 183; 202; 81; 103; 69; 191; 234; 252; 73; 144; 75; 73; 96; 137].
Proof.
  destruct (aes_encrypt_fips197 ex_key blank_key) as [HE _].
  - exact ex_key_bytes.
  - reflexivity.
  - destruct HE as (key & HS & HK).
    + right. right. reflexivity.
    + exists key. split; [exact HS|]. rewrite (HK ex_block ex_block_typed). vm_compute. reflexivity.
Defined.
End EncryptClaim.
