(* ===== verification/AesInverse.v ===== *)
(** * AES decryption (openssl/crypto/aes/aes_core.c)

    The steps of FIPS 197 and their inverses, the decryption schedule of
    [AES_set_decrypt_key] and the rounds of [AES_decrypt]: the code computes the
    inverse cipher of the standard, and undoes [AES_encrypt]. *)
From stdpp Require Import base list.
From Stdlib Require Import ZArith Lia Btauto.
From S2P Require Import Prelude AesTables Aes.
#[local] Open Scope Z_scope.

(** ** The steps undone *)
Section Inverses.
Import Fips197.

Definition td_check (x : Z) : bool :=
  let s := inv_sbox x in
  (idx Td0 x =? w4 (mul 14 s) (mul 9 s) (mul 13 s) (mul 11 s)) &&
  (idx Td1 x =? w4 (mul 11 s) (mul 14 s) (mul 9 s) (mul 13 s)) &&
  (idx Td2 x =? w4 (mul 13 s) (mul 11 s) (mul 14 s) (mul 9 s)) &&
  (idx Td3 x =? w4 (mul 9 s) (mul 13 s) (mul 11 s) (mul 14 s)) && (idx Td4 x =? s).

Lemma td_tables x :
  is_byte x -> let s := inv_sbox x in
  idx Td0 x = w4 (mul 14 s) (mul 9 s) (mul 13 s) (mul 11 s) /\
  idx Td1 x = w4 (mul 11 s) (mul 14 s) (mul 9 s) (mul 13 s) /\
  idx Td2 x = w4 (mul 13 s) (mul 11 s) (mul 14 s) (mul 9 s) /\
  idx Td3 x = w4 (mul 9 s) (mul 13 s) (mul 11 s) (mul 14 s) /\ idx Td4 x = s.
Proof.
  intros Hx s. assert (HC : all256 td_check = true) by (vm_compute; reflexivity).
  apply (all256_spec _ HC) in Hx. unfold td_check in Hx. fold s in Hx. bool_hyp. repeat split; assumption.
Qed.

Lemma inv_sbox_sbox x : is_byte x -> inv_sbox (sbox x) = x.
Proof.
  intros Hx. assert (HC : all256 (fun x => inv_sbox (sbox x) =? x) = true) by (vm_compute; reflexivity).
  apply (all256_spec _ HC) in Hx. by bool_hyp.
Qed.

(** Multiplication is linear. *)
Lemma xtime_lxor a b : xtime (Z.lxor a b) = Z.lxor (xtime a) (xtime b).
Proof.
  unfold xtime. rewrite Z.shiftl_lxor, Z.lxor_spec.
  apply Z.bits_inj'. intros n _. rewrite !Z.lxor_spec, !Z.land_spec, !Z.lxor_spec.
  destruct (Z.testbit a 7), (Z.testbit b 7); cbn [xorb]; rewrite ?Z.bits_0; btauto.
Qed.
Lemma mul_lxor c a b : mul c (Z.lxor a b) = Z.lxor (mul c a) (mul c b).
Proof.
  unfold mul. generalize 8%nat as n. intros n. revert c a b.
  induction n as [|n IH]; intros c a b; cbn [mul_bits]; [done|]. rewrite xtime_lxor, IH.
  apply Z.bits_inj'. intros i _. rewrite !Z.lxor_spec. destruct (Z.odd c); rewrite ?Z.lxor_spec, ?Z.bits_0; btauto.
Qed.

(** The two matrices are inverse: the sixteen entries of the product. *)
Definition entry (m0 m1 m2 m3 p q r s x : Z) : Z :=
  Z.lxor (Z.lxor (Z.lxor (mul m0 (mul p x)) (mul m1 (mul q x))) (mul m2 (mul r x))) (mul m3 (mul s x)).
Definition entries_check (m0 m1 m2 m3 : Z) (e0 e1 e2 e3 : bool) (x : Z) : bool :=
  (entry m0 m1 m2 m3 2 1 1 3 x =? (if e0 then x else 0)) &&
  (entry m0 m1 m2 m3 3 2 1 1 x =? (if e1 then x else 0)) &&
  (entry m0 m1 m2 m3 1 3 2 1 x =? (if e2 then x else 0)) &&
  (entry m0 m1 m2 m3 1 1 3 2 x =? (if e3 then x else 0)).

Lemma mix_mix m0 m1 m2 m3 a b c d :
  mix m0 m1 m2 m3 (mix 2 3 1 1 a b c d) (mix 1 2 3 1 a b c d) (mix 1 1 2 3 a b c d) (mix 3 1 1 2 a b c d)
  = Z.lxor (Z.lxor (Z.lxor (entry m0 m1 m2 m3 2 1 1 3 a) (entry m0 m1 m2 m3 3 2 1 1 b))
      (entry m0 m1 m2 m3 1 3 2 1 c)) (entry m0 m1 m2 m3 1 1 3 2 d).
Proof.
  unfold mix, entry. rewrite !mul_lxor. apply Z.bits_inj'. intros n _. rewrite !Z.lxor_spec. btauto.
Qed.

Lemma mix_inverse m0 m1 m2 m3 e0 e1 e2 e3 a b c d :
  all256 (entries_check m0 m1 m2 m3 e0 e1 e2 e3) = true ->
  is_byte a -> is_byte b -> is_byte c -> is_byte d ->
  mix m0 m1 m2 m3 (mix 2 3 1 1 a b c d) (mix 1 2 3 1 a b c d) (mix 1 1 2 3 a b c d) (mix 3 1 1 2 a b c d)
  = Z.lxor (Z.lxor (Z.lxor (if e0 then a else 0) (if e1 then b else 0)) (if e2 then c else 0))
      (if e3 then d else 0).
Proof.
  intros HC Ha Hb Hc Hd. rewrite mix_mix. pose proof (all256_spec _ HC) as HX. unfold entries_check in HX.
  pose proof (HX a Ha) as Xa. pose proof (HX b Hb) as Xb. pose proof (HX c Hc) as Xc.
  pose proof (HX d Hd) as Xd. clear HX HC. bool_hyp. congruence.
Qed.

Lemma inverse_entries :
  all256 (entries_check 14 11 13 9 true false false false) = true /\
  all256 (entries_check 9 14 11 13 false true false false) = true /\
  all256 (entries_check 13 9 14 11 false false true false) = true /\
  all256 (entries_check 11 13 9 14 false false false true) = true.
Proof. vm_compute. repeat split. Qed.

Lemma inv_mix_mix st : typed 16 st -> InvMixColumns (MixColumns st) = st.
Proof.
  intros Hst. block16 st Hst. rewrite !Forall_cons in *. decompose [and] H0.
  unfold MixColumns, InvMixColumns. cbn [mix_columns].
  destruct inverse_entries as (E0 & E1 & E2 & E3).
  rewrite !(mix_inverse _ _ _ _ _ _ _ _ _ _ _ _ E0), !(mix_inverse _ _ _ _ _ _ _ _ _ _ _ _ E1),
    !(mix_inverse _ _ _ _ _ _ _ _ _ _ _ _ E2), !(mix_inverse _ _ _ _ _ _ _ _ _ _ _ _ E3) by done.
  by rewrite !Z.lxor_0_l, !Z.lxor_0_r.
Qed.

Lemma mix_lxor m0 m1 m2 m3 a b c d a' b' c' d' :
  mix m0 m1 m2 m3 (Z.lxor a a') (Z.lxor b b') (Z.lxor c c') (Z.lxor d d')
  = Z.lxor (mix m0 m1 m2 m3 a b c d) (mix m0 m1 m2 m3 a' b' c' d').
Proof.
  unfold mix. rewrite !mul_lxor. apply Z.bits_inj'. intros n _. rewrite !Z.lxor_spec. btauto.
Qed.

Lemma inv_mix_key st k :
  typed 16 st -> typed 16 k ->
  InvMixColumns (AddRoundKey st k) = AddRoundKey (InvMixColumns st) (InvMixColumns k).
Proof.
  intros Hst Hk. block16 st Hst. block16 k Hk. unfold InvMixColumns, AddRoundKey.
  cbn [xor_bytes mix_columns]. by rewrite !mix_lxor.
Qed.

Lemma xor_cancel n a b : typed n a -> typed n b -> xor_bytes (xor_bytes a b) b = a.
Proof.
  revert a b. induction n as [|n IH]; intros a b [Ha Hab] [Hb Hbb]; destruct a as [|x a], b as [|y b];
    try done. unfold all_bytes in *. rewrite !Forall_cons in *. destruct Hab, Hbb.
  cbn [xor_bytes]. rewrite Z.lxor_assoc, Z.lxor_nilpotent, Z.lxor_0_r. f_equal.
  apply IH; split; first [by injection Ha|by injection Hb|done].
Qed.

Lemma inv_sub_sub st : all_bytes st -> InvSubBytes (SubBytes st) = st.
Proof.
  intros Hb. unfold InvSubBytes, SubBytes. rewrite map_map. induction Hb as [|x l Hx Hl IH]; [done|].
  cbn [map]. by rewrite inv_sbox_sbox, IH.
Qed.

Lemma inv_shift_shift st : typed 16 st -> InvShiftRows (ShiftRows st) = st.
Proof. intros Hst. block16 st Hst. reflexivity. Qed.

Lemma inv_shift_sub st : InvShiftRows (InvSubBytes st) = InvSubBytes (InvShiftRows st) \/ length st <> 16%nat.
Proof.
  destruct (decide (length st = 16%nat)) as [Hl|]; [left|by right].
  do 16 (destruct st as [|? st]; [discriminate Hl|]). destruct st; [|discriminate Hl].
  unfold InvSubBytes, InvShiftRows. cbv -[inv_sbox]. reflexivity.
Qed.
End Inverses.

(** ** Decryption *)
Section Decryption.
Import Fips197.

Lemma td_column_w4 a0 a1 a2 a3 b0 b1 b2 b3 c0 c1 c2 c3 d0 d1 d2 d3 k0 k1 k2 k3 :
  all_bytes [a0; a1; a2; a3] -> all_bytes [b0; b1; b2; b3] ->
  all_bytes [c0; c1; c2; c3] -> all_bytes [d0; d1; d2; d3] ->
  td_column (w4 a0 a1 a2 a3) (w4 b0 b1 b2 b3) (w4 c0 c1 c2 c3) (w4 d0 d1 d2 d3) (w4 k0 k1 k2 k3)
  = let m x y z t := mix x y z t (inv_sbox a0) (inv_sbox b1) (inv_sbox c2) (inv_sbox d3) in
    w4 (Z.lxor (m 14 11 13 9) k0) (Z.lxor (m 9 14 11 13) k1) (Z.lxor (m 13 9 14 11) k2)
       (Z.lxor (m 11 13 9 14) k3).
Proof.
  unfold all_bytes. rewrite !Forall_cons, !Forall_nil.
  intros (?&?&?&?&_) (?&?&?&?&_) (?&?&?&?&_) (?&?&?&?&_). unfold td_column.
  rewrite w4_24, w4_16, w4_8, w4_0 by done.
  destruct (td_tables a0) as (-> & _); [done|]. destruct (td_tables b1) as (_ & -> & _); [done|].
  destruct (td_tables c2) as (_ & _ & -> & _); [done|].
  destruct (td_tables d3) as (_ & _ & _ & -> & _); [done|]. rewrite !lxor_w4. cbv zeta.
  unfold mix. reflexivity.
Qed.

Lemma td_last_w4 a0 a1 a2 a3 b0 b1 b2 b3 c0 c1 c2 c3 d0 d1 d2 d3 k0 k1 k2 k3 :
  all_bytes [a0; a1; a2; a3] -> all_bytes [b0; b1; b2; b3] ->
  all_bytes [c0; c1; c2; c3] -> all_bytes [d0; d1; d2; d3] ->
  td_last_column (w4 a0 a1 a2 a3) (w4 b0 b1 b2 b3) (w4 c0 c1 c2 c3) (w4 d0 d1 d2 d3) (w4 k0 k1 k2 k3)
  = w4 (Z.lxor (inv_sbox a0) k0) (Z.lxor (inv_sbox b1) k1) (Z.lxor (inv_sbox c2) k2)
       (Z.lxor (inv_sbox d3) k3).
Proof.
  unfold all_bytes. rewrite !Forall_cons, !Forall_nil.
  intros (?&?&?&?&_) (?&?&?&?&_) (?&?&?&?&_) (?&?&?&?&_). unfold td_last_column.
  rewrite w4_24, w4_16, w4_8, w4_0 by done.
  destruct (td_tables a0) as (_ & _ & _ & _ & ->); [done|].
  destruct (td_tables b1) as (_ & _ & _ & _ & ->); [done|].
  destruct (td_tables c2) as (_ & _ & _ & _ & ->); [done|].
  destruct (td_tables d3) as (_ & _ & _ & _ & ->); [done|].
  by rewrite w4_fold, lxor_w4.
Qed.

(** One round of the equivalent inverse cipher (section 5.3.5). *)
Definition eq_inv_round (st k : bytes) : bytes :=
  AddRoundKey (InvMixColumns (InvSubBytes (InvShiftRows st))) k.

Lemma dec_round_ok st rk o k :
  typed 16 st -> typed 16 k -> key_at rk o k ->
  dec_round td_column (cols st) rk o = cols (eq_inv_round st k).
Proof.
  intros Hst Hk HK. block16 st Hst. block16 k Hk. rewrite !Forall_cons in *. decompose [and] H0.
  unfold cols, key_at in *. cbn [drop] in *. rewrite !GETU32_w4 in *. destruct HK as (K0 & K1 & K2 & K3).
  cbn [dec_round]. rewrite K0, K1, K2, K3, !td_column_w4 by (by apply all_bytes_4).
  cbv -[mix inv_sbox w4 Z.lxor GETU32]. by rewrite !GETU32_w4.
Qed.

Lemma dec_last_ok st rk o k :
  typed 16 st -> typed 16 k -> key_at rk o k ->
  dec_round td_last_column (cols st) rk o = cols (AddRoundKey (InvSubBytes (InvShiftRows st)) k).
Proof.
  intros Hst Hk HK. block16 st Hst. block16 k Hk. rewrite !Forall_cons in *. decompose [and] H0.
  unfold cols, key_at in *. cbn [drop] in *. rewrite !GETU32_w4 in *. destruct HK as (K0 & K1 & K2 & K3).
  cbn [dec_round]. rewrite K0, K1, K2, K3, !td_last_w4 by (by apply all_bytes_4).
  cbv -[mix inv_sbox w4 Z.lxor GETU32]. by rewrite !GETU32_w4.
Qed.

(** The rounds with the round keys [K r], [K (r + 1)], ... *)
Fixpoint eq_inv_rounds (n r : nat) (K : nat -> bytes) (st : bytes) : bytes :=
  match n with O => st | S n => eq_inv_rounds n (S r) K (eq_inv_round st (K r)) end.

(** A schedule that holds the round keys [K 0], ..., [K n]. *)
Definition holds_keys (rk : list Z) (n : nat) (K : nat -> bytes) : Prop :=
  forall r, (r <= n)%nat -> typed 16 (K r) /\ key_at rk (4 * r) (K r).

Lemma typed_eq_inv st k : typed 16 st -> typed 16 k -> typed 16 (eq_inv_round st k).
Proof. intros Hs Hk. apply typed_xor; [|done]. apply typed_mix, typed_sub, typed_shift, Hs. Qed.

Lemma dec_loop_ok R r K n rk st :
  holds_keys rk n K -> typed 16 st -> (r + 2 * R + 1 <= n)%nat ->
  dec_rounds (S R) (cols st) rk (4 * r)
  = (cols (eq_inv_rounds (2 * R + 1) (S r) K st), (4 * (r + 2 * R + 2))%nat).
Proof.
  intros HK. revert r st. induction R as [|R IH]; intros r st Hs Hl; cbn [dec_rounds];
    replace (4 * r + 4)%nat with (4 * S r)%nat by lia;
    destruct (HK (S r)) as [T1 K1]; [lia| |lia|]; rewrite (dec_round_ok st _ _ _ Hs T1 K1).
  - cbn [eq_inv_rounds Nat.mul Nat.add]. f_equal. lia.
  - replace (4 * r + 8)%nat with (4 * S (S r))%nat by lia.
    destruct (HK (S (S r))) as [T2 K2]; [lia|].
    pose proof (typed_eq_inv _ _ Hs T1) as Hs1. rewrite (dec_round_ok _ _ _ _ Hs1 T2 K2).
    cbn [dec_rounds] in IH. rewrite IH by (lia || by apply typed_eq_inv).
    replace (2 * S R + 1)%nat with (S (S (2 * R + 1))) by lia. cbn [eq_inv_rounds]. f_equal. lia.
Qed.

Lemma eq_inv_typed n r K rk m st :
  holds_keys rk m K -> typed 16 st -> (r + n <= S m)%nat -> typed 16 (eq_inv_rounds n r K st).
Proof.
  intros HK. revert r st. induction n as [|n IH]; intros r st Hs Hn; cbn [eq_inv_rounds]; [done|].
  apply IH; [|lia]. apply typed_eq_inv; [done|]. apply HK. lia.
Qed.

Lemma decrypt_keys K rk R inp :
  holds_keys rk (2 * R + 2) K -> typed 16 inp ->
  AES_decrypt inp (mkAesKey rk (Z.of_nat (2 * R + 2)))
  = AddRoundKey (InvSubBytes (InvShiftRows (eq_inv_rounds (2 * R + 1) 1 K (AddRoundKey inp (K 0%nat)))))
      (K (2 * R + 2)%nat).
Proof.
  intros HK Hi. unfold AES_decrypt. cbn [rd_key rounds].
  rewrite Z.shiftr_div_pow2 by lia. change (2 ^ 1) with 2.
  replace (Z.to_nat (Z.of_nat (2 * R + 2) / 2)) with (S R) by (Z.div_mod_to_equations; lia).
  destruct (HK 0%nat) as [T0 K0]; [lia|]. rewrite (load_columns_ok inp _ _ Hi T0 K0).
  assert (Hs : typed 16 (AddRoundKey inp (K 0%nat))) by (by apply typed_xor).
  pose proof (dec_loop_ok R 0 K _ rk _ HK Hs) as HE. change (4 * 0)%nat with 0%nat in HE.
  rewrite HE by lia. replace (0 + 2 * R + 2)%nat with (2 * R + 2)%nat by lia.
  destruct (HK (2 * R + 2)%nat) as [TN KN]; [lia|].
  assert (TS : typed 16 (eq_inv_rounds (2 * R + 1) 1 K (AddRoundKey inp (K 0%nat))))
    by (eapply eq_inv_typed; [exact HK|done|lia]).
  rewrite (dec_last_ok _ _ _ _ TS TN KN). apply store_columns_ok. apply typed_xor; [|done].
  apply typed_sub, typed_shift, TS.
Qed.
End Decryption.

(** ** The decryption schedule *)
Section DecSchedule.
Import Fips197.

Lemma inv_mix_word_ok w : typed 4 w -> inv_mix_word (GETU32 w) = GETU32 (InvMixColumns w).
Proof.
  intros [Lw Hw]. destruct w as [|a [|b [|c [|d [|]]]]]; try discriminate Lw.
  unfold all_bytes in Hw. rewrite !Forall_cons in Hw. destruct Hw as (Ha&Hb&Hc&Hd&_).
  rewrite GETU32_w4. unfold inv_mix_word. rewrite w4_24, w4_16, w4_8, w4_0 by done.
  assert (HT : forall x, is_byte x -> Z.land (idx Te1 x) 255 = sbox x).
  { intros x Hx. destruct (te_tables x Hx) as (_ & -> & _ & _ & ->). rewrite w4_0 by byte_side. done. }
  rewrite !HT by done.
  destruct (td_tables (sbox a)) as (-> & _); [byte_side|].
  destruct (td_tables (sbox b)) as (_ & -> & _); [byte_side|].
  destruct (td_tables (sbox c)) as (_ & _ & -> & _); [byte_side|].
  destruct (td_tables (sbox d)) as (_ & _ & _ & -> & _); [byte_side|].
  rewrite !inv_sbox_sbox, !lxor_w4 by done. unfold InvMixColumns. cbn [mix_columns].
  rewrite GETU32_w4. unfold mix. reflexivity.
Qed.

(** What the two loops do to a schedule of [n] rounds, word by word. *)
Definition dec_words (n : nat) (rk : list Z) : list Z :=
  inv_mix_keys (n - 1) 0 (invert_order n 0 (4 * n) rk).
Definition dec_words_ok (n : nat) : Prop :=
  forall rk r t, length rk = 60%nat -> (r <= n)%nat -> (t < 4)%nat ->
  rk_get (dec_words n rk) (4 * r + t)
  = (if Nat.eqb r 0 || Nat.eqb r n then fun x => x else inv_mix_word) (rk_get rk (4 * (n - r) + t)).

Ltac each_word rk Hl t :=
  do 60 (destruct rk as [|? rk]; [discriminate Hl|]);
  do 4 (destruct t as [|t]; [cbv -[inv_mix_word]; reflexivity|]); lia.
Lemma dec_words_10 : dec_words_ok 10.
Proof. intros rk r t Hl Hr Ht. do 11 (destruct r as [|r]; [each_word rk Hl t|]). lia. Qed.
Lemma dec_words_12 : dec_words_ok 12.
Proof. intros rk r t Hl Hr Ht. do 13 (destruct r as [|r]; [each_word rk Hl t|]). lia. Qed.
Lemma dec_words_14 : dec_words_ok 14.
Proof. intros rk r t Hl Hr Ht. do 15 (destruct r as [|r]; [each_word rk Hl t|]). lia. Qed.

(** The round keys of the decryption. *)
Definition dec_key (n : nat) (ws : list bytes) (r : nat) : bytes :=
  if Nat.eqb r 0 || Nat.eqb r n then round_key ws (n - r) else InvMixColumns (round_key ws (n - r)).

Lemma dec_key_first n ws : dec_key n ws 0 = round_key ws n.
Proof. unfold dec_key. cbn [Nat.eqb orb]. by rewrite Nat.sub_0_r. Qed.
Lemma dec_key_last n ws : dec_key n ws n = round_key ws 0.
Proof. unfold dec_key. by rewrite Nat.eqb_refl, orb_true_r, Nat.sub_diag. Qed.

Lemma dec_key_at n ws rest :
  dec_words_ok n -> words ws -> length ws = (4 * (n + 1))%nat -> length (holds ws rest) = 60%nat ->
  holds_keys (dec_words n (holds ws rest)) n (dec_key n ws).
Proof.
  intros HD Hw Hl H60 r Hr. unfold dec_key.
  assert (TK : typed 16 (round_key ws (n - r))) by (apply typed_round_key; [done|lia]).
  destruct (round_key_at ws rest (n - r) Hw ltac:(lia)) as (K0 & K1 & K2 & K3).
  pose proof (HD (holds ws rest) r 0%nat H60 Hr ltac:(lia)) as D0.
  pose proof (HD (holds ws rest) r 1%nat H60 Hr ltac:(lia)) as D1.
  pose proof (HD (holds ws rest) r 2%nat H60 Hr ltac:(lia)) as D2.
  pose proof (HD (holds ws rest) r 3%nat H60 Hr ltac:(lia)) as D3.
  rewrite !Nat.add_0_r in D0. rewrite K0 in D0. rewrite K1 in D1. rewrite K2 in D2. rewrite K3 in D3.
  unfold key_at. rewrite D0, D1, D2, D3. destruct (_ || _); [by split|].
  split; [by apply typed_mix|]. clear - TK. set (k := round_key ws (n - r)) in *. clearbody k.
  block16 k TK. rewrite !Forall_cons in *. decompose [and] H0. cbn [drop].
  rewrite !GETU32_w4, <-!(GETU32_w4 _ _ _ _ []).
  rewrite !inv_mix_word_ok by (split; [done|by apply all_bytes_4]).
  unfold InvMixColumns. cbn [mix_columns drop]. by rewrite !GETU32_w4.
Qed.
End DecSchedule.

(** ** Decryption inverts encryption *)
Section RoundTrip.
Import Fips197.

Lemma cipher_rounds_snoc n r ws st :
  cipher_rounds (S n) r ws st
  = AddRoundKey (MixColumns (ShiftRows (SubBytes (cipher_rounds n r ws st)))) (round_key ws (r + n)).
Proof.
  revert r st. induction n as [|n IH]; intros r st.
  - cbn [cipher_rounds]. by rewrite Nat.add_0_r.
  - change (cipher_rounds (S (S n)) r ws st)
      with (cipher_rounds (S n) (S r) ws (AddRoundKey (MixColumns (ShiftRows (SubBytes st))) (round_key ws r))).
    rewrite IH. cbn [cipher_rounds]. by replace (S r + n)%nat with (r + S n)%nat by lia.
Qed.

Lemma undo_sub_shift st : typed 16 st -> InvSubBytes (InvShiftRows (ShiftRows (SubBytes st))) = st.
Proof.
  intros Hs. rewrite inv_shift_shift by (by apply typed_sub). apply inv_sub_sub, Hs.
Qed.

Lemma inv_rounds_undo n ws st :
  words ws -> typed 16 st -> (4 * (n + 1) <= length ws)%nat ->
  inv_cipher_rounds n ws (ShiftRows (SubBytes (cipher_rounds n 1 ws st))) = ShiftRows (SubBytes st).
Proof.
  intros Hw Hs. induction n as [|n IH]; intros Hl; [done|].
  rewrite cipher_rounds_snoc. set (x := cipher_rounds n 1 ws st) in *.
  assert (Hx : typed 16 x) by (apply cipher_rounds_typed; [done..|lia]).
  assert (Hk : typed 16 (round_key ws (S n))) by (apply typed_round_key; [done|lia]).
  assert (Hm : typed 16 (MixColumns (ShiftRows (SubBytes x))))
    by (apply typed_mix, typed_shift, typed_sub, Hx).
  cbn [inv_cipher_rounds Nat.add]. rewrite undo_sub_shift by (by apply typed_xor).
  unfold AddRoundKey at 1. unfold AddRoundKey. rewrite (xor_cancel 16) by done.
  rewrite inv_mix_mix by (by apply typed_shift, typed_sub). apply IH. lia.
Qed.

Lemma InvCipher_Cipher Nr ws inp :
  words ws -> typed 16 inp -> (0 < Nr)%nat -> length ws = (4 * (Nr + 1))%nat ->
  InvCipher Nr ws (Cipher Nr ws inp) = inp.
Proof.
  intros Hw Hi Hr Hl. unfold InvCipher, Cipher.
  assert (T0 : typed 16 (round_key ws 0)) by (apply typed_round_key; [done|lia]).
  assert (TN : typed 16 (round_key ws Nr)) by (apply typed_round_key; [done|lia]).
  assert (TA : typed 16 (AddRoundKey inp (round_key ws 0))) by (by apply typed_xor).
  assert (TC : typed 16 (cipher_rounds (Nr - 1) 1 ws (AddRoundKey inp (round_key ws 0))))
    by (apply cipher_rounds_typed; [done..|lia]).
  assert (TS : typed 16 (ShiftRows (SubBytes (cipher_rounds (Nr - 1) 1 ws (AddRoundKey inp (round_key ws 0))))))
    by (apply typed_shift, typed_sub, TC).
  unfold AddRoundKey in *. rewrite (xor_cancel 16) by done.
  rewrite inv_rounds_undo by (done || lia). rewrite undo_sub_shift by done. by apply (xor_cancel 16).
Qed.

(** The equivalent inverse cipher is the inverse cipher. *)
Lemma eq_inv_is_inv n Nr ws st :
  words ws -> typed 16 st -> (n < Nr)%nat -> length ws = (4 * (Nr + 1))%nat ->
  eq_inv_rounds n (Nr - n) (dec_key Nr ws) st = inv_cipher_rounds n ws st.
Proof.
  intros Hw Hs Hn Hl. revert st Hs. induction n as [|n IH]; intros st Hs; [done|].
  assert (HE : eq_inv_round st (dec_key Nr ws (Nr - S n))
    = InvMixColumns (AddRoundKey (InvSubBytes (InvShiftRows st)) (round_key ws (S n)))).
  { unfold eq_inv_round, dec_key.
    rewrite (proj2 (Nat.eqb_neq (Nr - S n) 0)), (proj2 (Nat.eqb_neq (Nr - S n) Nr)) by lia.
    cbn [orb]. replace (Nr - (Nr - S n))%nat with (S n) by lia.
    rewrite inv_mix_key; [done|apply typed_sub, typed_shift, Hs|apply typed_round_key; [done|lia]]. }
  cbn [eq_inv_rounds inv_cipher_rounds]. rewrite HE.
  replace (S (Nr - S n)) with (Nr - n)%nat by lia. apply IH; [lia|].
  apply typed_mix, typed_xor; [apply typed_sub, typed_shift, Hs|apply typed_round_key; [done|lia]].
Qed.

Lemma aes_decrypt_run k key0 :
  all_bytes k -> key_size k -> length (rd_key key0) = 60%nat ->
  exists key, AES_set_decrypt_key (Some k) (8 * zlen k) (Some key0) = (0, Some key) /\
    forall inp, typed 16 inp -> AES_decrypt inp key = Fips197.decrypt k inp.
Proof.
  intros Hb Hk H60. destruct (set_encrypt_key_ok k key0 Hb Hk H60) as (rest & HS & HW & HL & HA).
  unfold AES_set_decrypt_key. rewrite HS. change (0 <? 0) with false. cbv iota. cbn [rounds rd_key].
  rewrite Nat2Z.id. eexists. split; [reflexivity|]. intros inp Hi. unfold Fips197.decrypt. cbv zeta.
  set (ws := KeyExpansion _ k) in *. set (n := (length k / 4 + 6)%nat) in *.
  assert (HN : exists R, n = (2 * R + 2)%nat /\ dec_words_ok n).
  { unfold n. destruct Hk as [E|[E|E]]; rewrite E.
    - exists 4%nat. split; [reflexivity|exact dec_words_10].
    - exists 5%nat. split; [reflexivity|exact dec_words_12].
    - exists 6%nat. split; [reflexivity|exact dec_words_14]. }
  destruct HN as (R & HR & HD). fold (dec_words n (holds ws rest)).
  assert (HL' : length ws = (4 * (n + 1))%nat) by lia.
  pose proof (dec_key_at n ws rest HD HW HL' HA) as HK. clearbody n. subst n.
  rewrite (decrypt_keys _ _ R inp HK Hi). unfold InvCipher.
  replace (2 * R + 2 - 1)%nat with (2 * R + 1)%nat by lia.
  assert (TN : typed 16 (round_key ws (2 * R + 2))) by (apply typed_round_key; [done|lia]).
  rewrite <-(eq_inv_is_inv (2 * R + 1) (2 * R + 2)) by (done || lia || (by apply typed_xor)).
  replace (2 * R + 2 - (2 * R + 1))%nat with 1%nat by lia.
  by rewrite dec_key_first, dec_key_last.
Qed.

Lemma decrypt_encrypt k inp :
  all_bytes k -> key_size k -> typed 16 inp -> Fips197.decrypt k (Fips197.encrypt k inp) = inp.
Proof.
  intros Hb Hk Hi. destruct (set_encrypt_key_ok k (mkAesKey (replicate 60 0) 0) Hb Hk) as (rest & _ & HW & HL & _);
    [done|]. apply InvCipher_Cipher; [done..|lia|lia].
Qed.
End RoundTrip.

(** ** The claim *)
Section DecryptClaim.
Import Fips197.

(** The schedule [dk] decrypts what the schedule [ek] encrypted. *)
Definition inverts (dk ek : AES_KEY) : Prop :=
  forall inp, typed 16 inp -> AES_decrypt (AES_encrypt inp ek) dk = inp.

(** C17: (round trip) Decryption inverts encryption: for every key of 128, 192 or 256
    bits and every block, [AES_decrypt] under the schedule of [AES_set_decrypt_key]
    (round keys in inverse order and mixed) restores what [AES_encrypt] under the
    schedule of [AES_set_encrypt_key] produced, and it computes the inverse cipher
    of FIPS 197 on every block. *)
Theorem aes_decrypt_encrypt k key0 key1 :
  all_bytes k -> key_size k -> length (rd_key key0) = 60%nat -> length (rd_key key1) = 60%nat ->
  exists ek dk, AES_set_encrypt_key (Some k) (8 * zlen k) (Some key0) = (0, Some ek) /\
    AES_set_decrypt_key (Some k) (8 * zlen k) (Some key1) = (0, Some dk) /\
    inverts dk ek /\
    forall inp, typed 16 inp -> AES_decrypt inp dk = Fips197.decrypt k inp.
Proof.
  intros Hb Hk H0 H1. destruct (aes_encrypt_run k key0 Hb Hk H0) as (ek & HE & He).
  destruct (aes_decrypt_run k key1 Hb Hk H1) as (dk & HD & Hd). exists ek, dk.
  split; [done|]. split; [done|]. split; [|exact Hd]. intros inp Hi.
  rewrite He by done. rewrite Hd by (by apply encrypt_typed). by apply decrypt_encrypt.
Qed.

Lemma aes_decrypt_encrypt_witness :
  exists ek dk, AES_set_encrypt_key (Some ex_key) 256 (Some blank_key) = (0, Some ek) /\
    AES_set_decrypt_key (Some ex_key) 256 (Some blank_key) = (0, Some dk) /\
    AES_decrypt (AES_encrypt ex_block ek) dk = ex_block.
Proof.
  destruct (aes_decrypt_encrypt ex_key blank_key blank_key) as (ek & dk & HE & HD & HR & _).
  - exact ex_key_bytes.
  - right. right. reflexivity.
  - reflexivity.
  - reflexivity.
  - exists ek, dk. split; [exact HE|]. split; [exact HD|]. apply (HR ex_block ex_block_typed).
Defined.
End DecryptClaim.
