(* ===== verification/AesCbc.v ===== *)
(** * AES in CBC mode

    crypto/modes/cbc128.c (compiled with OPENSSL_SMALL_FOOTPRINT, so that the word
    loops are left out), crypto/aes/aes_cbc.c and the wrappers of
    BaseCryptLib/Cipher/CryptAes.c, against the mode of SP 800-38A over the cipher
    of FIPS 197.

    Both loops read a block of the input before they write the block of the output
    at the same place, so a call in place gives the same bytes as one between two
    buffers; the definitions return the bytes written. *)
From stdpp Require Import base list.
From Stdlib Require Import ZArith Lia.
From S2P Require Import Prelude Aes AesInverse.
#[local] Open Scope Z_scope.

(** ** cbc128.c *)

(** The [while (len)] loop of [CRYPTO_cbc128_encrypt]: the bytes written to [out]
    (16 for a last block of fewer) and the block [iv] points at. *)
Fixpoint cbc_encrypt_loop (fuel : nat) (block : bytes -> bytes) (inp : bytes) (len : nat) (iv : bytes)
  : bytes * bytes :=
  match fuel with
  | O => ([], iv)
  | S fuel =>
      if Nat.eqb len 0 then ([], iv)
      else
      let n := Nat.min 16 len in
      let out := block (zip_with Z.lxor (take n inp) iv ++ drop n iv) in
      if Nat.leb len 16 then (out, out)
      else let '(rest, iv) := cbc_encrypt_loop fuel block (drop 16 inp) (len - 16) out in
           (out ++ rest, iv)
  end.
Definition CRYPTO_cbc128_encrypt (inp : bytes) (len : nat) (ivec : bytes) (block : bytes -> bytes)
  : bytes * bytes :=
  if Nat.eqb len 0 then ([], ivec) else cbc_encrypt_loop len block inp len ivec.

(** The loop of [CRYPTO_cbc128_decrypt]: the bytes written to [out] and [ivec];
    a last block of fewer than 16 bytes is read whole. *)
Fixpoint cbc_decrypt_loop (fuel : nat) (block : bytes -> bytes) (inp : bytes) (len : nat) (ivec : bytes)
  : bytes * bytes :=
  match fuel with
  | O => ([], ivec)
  | S fuel =>
      if Nat.eqb len 0 then ([], ivec)
      else
      let tmp := block (take 16 inp) in
      let n := Nat.min 16 len in
      let out := zip_with Z.lxor (take n tmp) ivec in
      let ivec := take n inp ++ drop n ivec in
      if Nat.leb len 16 then (out, take n ivec ++ drop n (take 16 inp))
      else let '(rest, ivec) := cbc_decrypt_loop fuel block (drop 16 inp) (len - 16) ivec in
           (out ++ rest, ivec)
  end.
Definition CRYPTO_cbc128_decrypt (inp : bytes) (len : nat) (ivec : bytes) (block : bytes -> bytes)
  : bytes * bytes :=
  if Nat.eqb len 0 then ([], ivec) else cbc_decrypt_loop len block inp len ivec.

(** [AES_cbc_encrypt (in, out, len, key, ivec, enc)]. *)
Definition AES_cbc_encrypt (inp : bytes) (len : nat) (key : AES_KEY) (ivec : bytes) (enc : bool)
  : bytes * bytes :=
  if enc then CRYPTO_cbc128_encrypt inp len ivec (fun b => AES_encrypt b key)
  else CRYPTO_cbc128_decrypt inp len ivec (fun b => AES_decrypt b key).

(** ** CryptAes.c *)

(** The context is two key schedules, for encryption and for decryption. *)
Abbreviation AES_CONTEXT := (AES_KEY * AES_KEY)%type.
Definition zero_schedule : AES_KEY := mkAesKey (replicate 60 0) 0.
Definition AesGetContextSize : Z := 2 * (4 * (4 * (14 + 1)) + 4).

(** [AesInit (AesContext, Key, KeyLength)]: result and context; [None] is a read
    outside the key. *)
Definition AesInit (AesContext : option AES_CONTEXT) (Key : option bytes) (KeyLength : Z)
  : option (bool * option AES_CONTEXT) :=
  match AesContext with
  | None => Some (false, None)
  | Some (ek, dk) =>
      if negb (notnull Key) ||
         (negb (KeyLength =? 128) && negb (KeyLength =? 192) && negb (KeyLength =? 256))
      then Some (false, AesContext)
      else
      match rdp Key (KeyLength / 8) with
      | None => None
      | Some k =>
          let '(r, ek') := AES_set_encrypt_key (Some k) (u32 KeyLength) (Some ek) in
          if negb (r =? 0) then Some (false, Some (default ek ek', dk))
          else
          let '(r, dk') := AES_set_decrypt_key (Some k) (u32 KeyLength) (Some dk) in
          Some (r =? 0, Some (default ek ek', default dk dk'))
      end
  end.

(** [AesCbcEncrypt] and [AesCbcDecrypt] ([enc] is false): result and [Output];
    [None] is an access outside one of the buffers. *)
Definition AesCbc (enc : bool) (AesContext : option AES_CONTEXT) (Input : option bytes)
    (InputSize : Z) (Ivec Output : option bytes) : option (bool * option bytes) :=
  if negb (notnull AesContext) || negb (notnull Input) || negb (InputSize mod 16 =? 0)
  then Some (false, Output)
  else if negb (notnull Ivec) || negb (notnull Output) || (INT_MAX <? InputSize)
  then Some (false, Output)
  else match AesContext, rdp Ivec 16, rdp Input InputSize with
       | Some (ek, dk), Some iv, Some m =>
           let '(out, _) := AES_cbc_encrypt m (Z.to_nat (u32 InputSize)) (if enc then ek else dk) iv enc in
           match wrp Output out with
           | Some o => Some (true, o)
           | None => None
           end
       | _, _, _ => None
       end.

(** ** SP 800-38A, section 6.2 *)
Module Sp800_38a.
Import Fips197.
Fixpoint blocks (n : nat) (b : bytes) : list bytes :=
  match n with O => [] | S n => take 16 b :: blocks n (drop 16 b) end.
Fixpoint cbc_encrypt (CIPH : bytes -> bytes) (C : bytes) (ps : list bytes) : bytes :=
  match ps with
  | [] => []
  | P :: ps => let C := CIPH (xor_bytes P C) in C ++ cbc_encrypt CIPH C ps
  end.
Fixpoint cbc_decrypt (CIPH_inv : bytes -> bytes) (C : bytes) (cs : list bytes) : bytes :=
  match cs with
  | [] => []
  | C' :: cs => xor_bytes (CIPH_inv C') C ++ cbc_decrypt CIPH_inv C' cs
  end.
(** The two functions on strings of whole blocks. *)
Definition CBC_Encrypt (CIPH : bytes -> bytes) (IV P : bytes) : bytes :=
  cbc_encrypt CIPH IV (blocks (length P / 16) P).
Definition CBC_Decrypt (CIPH_inv : bytes -> bytes) (IV C : bytes) : bytes :=
  cbc_decrypt CIPH_inv IV (blocks (length C / 16) C).
End Sp800_38a.

(** ** The loops compute the mode *)
Section Modes.
Import Fips197 Sp800_38a.

Lemma zip_xor a b : zip_with Z.lxor a b = xor_bytes a b.
Proof. revert b. induction a as [|x a IH]; intros [|y b]; cbn; [done..|]. by rewrite IH. Qed.
Lemma typed_head n b : typed (16 * S n) b -> typed 16 (take 16 b) /\ typed (16 * n) (drop 16 b).
Proof.
  intros [HL HB]. split; (split; [rewrite ?length_take, ?length_drop; lia|]).
  - by apply Forall_take.
  - by apply Forall_drop.
Qed.

(** One direction of the cipher as the code has it, [f], and as the standard
    has it, [g]. *)
Context (f g : bytes -> bytes) (Hfg : forall b, typed 16 b -> f b = g b)
        (Hg : forall b, typed 16 b -> typed 16 (g b)).

Lemma cbc_encrypt_loop_spec n fuel inp iv :
  typed (16 * n) inp -> typed 16 iv -> (16 * n <= fuel)%nat ->
  (cbc_encrypt_loop fuel f inp (16 * n) iv).1 = cbc_encrypt g iv (blocks n inp).
Proof using Hfg Hg.
  revert fuel inp iv. induction n as [|n IH]; intros fuel inp iv Hi Hv Hf.
  - by destruct fuel.
  - destruct fuel as [|fuel]; [lia|]. destruct (typed_head _ _ Hi) as [Hh Ht].
    pose proof (typed_xor 16 _ _ Hh Hv) as Hx. cbn [cbc_encrypt_loop blocks cbc_encrypt].
    replace (Nat.eqb _ 0) with false by (symmetry; apply Nat.eqb_neq; lia).
    replace (Nat.min 16 _) with 16%nat by lia. rewrite (drop_ge iv) by (destruct Hv; lia).
    rewrite app_nil_r, zip_xor, Hfg by done. destruct (Nat.leb _ 16) eqn:E.
    + apply Nat.leb_le in E. assert (n = 0)%nat as -> by lia. cbn [fst blocks cbc_encrypt].
      by rewrite app_nil_r.
    + replace (16 * S n - 16)%nat with (16 * n)%nat by lia.
      specialize (IH fuel (drop 16 inp) (g (xor_bytes (take 16 inp) iv)) Ht (Hg _ Hx) ltac:(lia)).
      destruct (cbc_encrypt_loop _ _ _ _ _). cbn [fst] in *. by rewrite IH.
Qed.

Lemma cbc_decrypt_loop_spec n fuel inp iv :
  typed (16 * n) inp -> typed 16 iv -> (16 * n <= fuel)%nat ->
  (cbc_decrypt_loop fuel f inp (16 * n) iv).1 = cbc_decrypt g iv (blocks n inp).
Proof using Hfg Hg.
  revert fuel inp iv. induction n as [|n IH]; intros fuel inp iv Hi Hv Hf.
  - by destruct fuel.
  - destruct fuel as [|fuel]; [lia|]. destruct (typed_head _ _ Hi) as [Hh Ht].
    pose proof (Hg _ Hh) as Hd. cbn [cbc_decrypt_loop blocks cbc_decrypt].
    replace (Nat.eqb _ 0) with false by (symmetry; apply Nat.eqb_neq; lia).
    replace (Nat.min 16 _) with 16%nat by lia. rewrite (drop_ge iv) by (destruct Hv; lia).
    rewrite app_nil_r, zip_xor, Hfg by done. rewrite (firstn_all2 (g _)) by (destruct Hd; lia).
    destruct (Nat.leb _ 16) eqn:E.
    + apply Nat.leb_le in E. assert (n = 0)%nat as -> by lia. cbn [fst blocks cbc_decrypt].
      by rewrite app_nil_r.
    + replace (16 * S n - 16)%nat with (16 * n)%nat by lia.
      specialize (IH fuel (drop 16 inp) (take 16 inp) Ht Hh ltac:(lia)).
      destruct (cbc_decrypt_loop _ _ _ _ _). cbn [fst] in *. by rewrite IH.
Qed.

Lemma cbc_encrypt_typed n inp iv : typed (16 * n) inp -> typed 16 iv ->
  typed (16 * n) (cbc_encrypt g iv (blocks n inp)).
Proof using Hg.
  revert inp iv. induction n as [|n IH]; intros inp iv Hi Hv; [split; [done|constructor]|].
  destruct (typed_head _ _ Hi) as [Hh Ht]. cbn [blocks cbc_encrypt].
  pose proof (Hg _ (typed_xor 16 _ _ Hh Hv)) as Hc. pose proof (IH _ _ Ht Hc) as [HL HB].
  destruct Hc as [HcL HcB]. split; [rewrite length_app, HcL, HL; lia|by apply Forall_app].
Qed.

(** Decryption of the mode inverts encryption. *)
Lemma cbc_decrypt_encrypt inv n inp iv : (forall b, typed 16 b -> inv (g b) = b) ->
  typed (16 * n) inp -> typed 16 iv ->
  cbc_decrypt inv iv (blocks n (cbc_encrypt g iv (blocks n inp))) = inp.
Proof using Hg.
  intros Hinv. revert inp iv. induction n as [|n IH]; intros inp iv Hi Hv.
  - destruct Hi as [HL _]. destruct inp; [done|discriminate HL].
  - destruct (typed_head _ _ Hi) as [Hh Ht]. cbn [blocks cbc_encrypt].
    pose proof (typed_xor 16 _ _ Hh Hv) as Hx. pose proof (Hg _ Hx) as Hc.
    set (C := g (xor_bytes (take 16 inp) iv)) in *.
    rewrite take_app_length', drop_app_length' by (symmetry; apply Hc). cbn [cbc_decrypt].
    unfold C at 1. rewrite Hinv, (xor_cancel 16), IH by done. apply take_drop.
Qed.
End Modes.

(** ** The wrappers *)
Section Wrappers.
Import Fips197 Sp800_38a.

Lemma store_columns_typed s : typed 16 (store_columns s).
Proof.
  destruct s as [[[s0 s1] s2] s3]. split; [done|]. unfold store_columns, PUTU32, all_bytes.
  cbn [app]. repeat (apply Forall_cons; split; [apply u8_range|]). constructor.
Qed.
Lemma decrypt_typed k b : all_bytes k -> key_size k -> typed 16 b -> typed 16 (Fips197.decrypt k b).
Proof.
  intros Hb Hk Ht. destruct (aes_decrypt_run k zero_schedule Hb Hk) as (key & _ & HR); [done|].
  rewrite <-HR by done. unfold AES_decrypt. destruct (dec_rounds _ _ _ _). apply store_columns_typed.
Qed.

(** A successful [AesInit] sets up the two schedules. *)
Lemma AesInit_run k ek dk :
  all_bytes k -> key_size k -> length (rd_key ek) = 60%nat -> length (rd_key dk) = 60%nat ->
  exists ek' dk', AesInit (Some (ek, dk)) (Some k) (8 * zlen k) = Some (true, Some (ek', dk')) /\
    (forall b, typed 16 b -> AES_encrypt b ek' = Fips197.encrypt k b) /\
    (forall b, typed 16 b -> AES_decrypt b dk' = Fips197.decrypt k b).
Proof.
  intros Hb Hk He Hd. destruct (aes_encrypt_run k ek Hb Hk He) as (ek' & HE & HEr).
  destruct (aes_decrypt_run k dk Hb Hk Hd) as (dk' & HD & HDr). exists ek', dk'.
  split; [|done]. unfold AesInit. cbn [notnull negb orb].
  replace (negb _ && _ && _) with false by (destruct Hk as [E|[E|E]]; rewrite E; reflexivity).
  replace (8 * zlen k / 8) with (zlen k) by (rewrite Z.mul_comm, Z.div_mul; lia).
  rewrite rdp_exact, u32_small by (destruct Hk as [E|[E|E]]; lia).
  rewrite HE, HD. done.
Qed.

(** The checks pass and the buffers hold what is read and written. *)
Lemma AesCbc_run (enc : bool) ek dk (m iv out : bytes) :
  length iv = 16%nat -> (length m mod 16 = 0)%nat -> zlen m <= INT_MAX -> zlen m <= zlen out ->
  let o := (AES_cbc_encrypt m (length m) (if enc then ek else dk) iv enc).1 in
  length o = length m ->
  AesCbc enc (Some (ek, dk)) (Some m) (zlen m) (Some iv) (Some out)
  = Some (true, Some (o ++ drop (length m) out)).
Proof.
  intros Hv Hm HI Ho o HL. unfold AesCbc. cbn [notnull negb orb].
  replace (zlen m mod 16) with 0 by (change 16 with (Z.of_nat 16); rewrite <-Nat2Z.inj_mod, Hm; done).
  change (negb (0 =? 0)) with false. cbv iota. rewrite (proj2 (Z.ltb_ge INT_MAX (zlen m))) by lia.
  replace (rdp (Some iv) 16) with (Some iv) by (symmetry; replace 16 with (zlen iv) by lia; apply rdp_exact).
  unfold INT_MAX in HI. rewrite rdp_exact, u32_small, Nat2Z.id by lia. unfold o in *.
  destruct (AES_cbc_encrypt _ _ _ _ _) as [c v]. cbn [fst] in *. by rewrite wrp_some, HL by lia.
Qed.

Context (k iv : bytes) (Hkb : all_bytes k) (Hks : key_size k) (Hiv : typed 16 iv).

Lemma cbc_calls ek dk m :
  (forall b, typed 16 b -> AES_encrypt b ek = Fips197.encrypt k b) ->
  (forall b, typed 16 b -> AES_decrypt b dk = Fips197.decrypt k b) ->
  all_bytes m -> (length m mod 16 = 0)%nat ->
  (AES_cbc_encrypt m (length m) ek iv true).1 = CBC_Encrypt (Fips197.encrypt k) iv m /\
  (AES_cbc_encrypt m (length m) dk iv false).1 = CBC_Decrypt (Fips197.decrypt k) iv m.
Proof using Hkb Hks Hiv.
  intros He Hd Hb Hm. unfold AES_cbc_encrypt, CRYPTO_cbc128_encrypt, CRYPTO_cbc128_decrypt,
    CBC_Encrypt, CBC_Decrypt. set (n := (length m / 16)%nat).
  assert (Hn : length m = (16 * n)%nat) by (pose proof (Nat.div_mod_eq (length m) 16); lia).
  assert (Ht : typed (16 * n) m) by (split; [lia|done]). rewrite Hn. clearbody n.
  destruct (Nat.eqb (16 * n) 0) eqn:E.
  - apply Nat.eqb_eq in E. assert (n = 0)%nat as -> by lia. done.
  - split.
    + apply cbc_encrypt_loop_spec; [done| |done..|lia]. intros. by apply encrypt_typed.
    + apply cbc_decrypt_loop_spec; [done| |done..|lia]. intros. by apply decrypt_typed.
Qed.

Lemma cbc_decrypt_length n g v c : (forall b, typed 16 b -> typed 16 (g b)) ->
  typed (16 * n) c -> typed 16 v -> length (cbc_decrypt g v (blocks n c)) = (16 * n)%nat.
Proof.
  intros Hg. revert c v. induction n as [|n IH]; intros c v Hc Hv; [done|].
  destruct (typed_head _ _ Hc) as [Hh Ht]. cbn [blocks cbc_decrypt].
  rewrite length_app, IH by done. destruct (typed_xor 16 _ _ (Hg _ Hh) Hv) as [-> _]. lia.
Qed.
Lemma cbc_inverse m : all_bytes m -> (length m mod 16 = 0)%nat ->
  let C := CBC_Encrypt (Fips197.encrypt k) iv m in
  length C = length m /\ length (CBC_Decrypt (Fips197.decrypt k) iv m) = length m /\ all_bytes C /\
  CBC_Decrypt (Fips197.decrypt k) iv C = m.
Proof using Hkb Hks Hiv.
  intros Hb Hm. unfold CBC_Encrypt, CBC_Decrypt. set (n := (length m / 16)%nat).
  assert (Hn : length m = (16 * n)%nat) by (pose proof (Nat.div_mod_eq (length m) 16); lia).
  assert (Ht : typed (16 * n) m) by (split; [lia|done]).
  destruct (cbc_encrypt_typed (Fips197.encrypt k) ltac:(intros; by apply encrypt_typed) n m iv Ht Hiv)
    as [HL HB].
  split; [lia|]. split; [|split; [exact HB|]].
  - rewrite cbc_decrypt_length by (done || intros; by apply decrypt_typed). lia.
  - rewrite HL. replace (16 * n / 16)%nat with n by (rewrite Nat.mul_comm, Nat.div_mul; lia).
    apply cbc_decrypt_encrypt; [intros; by apply encrypt_typed|intros; by apply decrypt_encrypt|done..].
Qed.
End Wrappers.

(** C21: (equivalence) The CBC calls of BaseCryptLib are the mode of SP 800-38A:
    for a key of 128, 192 or 256 bits [AesInit] succeeds whatever the context
    held, and then, for data of whole blocks, [AesCbcEncrypt] and [AesCbcDecrypt]
    write CBC encryption and decryption under AES to the start of the output; the
    second undoes the first.  Data that is not whole blocks is refused and the
    output is left alone. *)
Theorem aes_cbc_sp800_38a k iv m ek dk out :
  all_bytes k -> key_size k -> typed 16 iv -> all_bytes m -> zlen m <= INT_MAX -> zlen m <= zlen out ->
  length (rd_key ek) = 60%nat -> length (rd_key dk) = 60%nat ->
  let C := Sp800_38a.CBC_Encrypt (Fips197.encrypt k) iv m in
  exists ctx, AesInit (Some (ek, dk)) (Some k) (8 * zlen k) = Some (true, Some ctx) /\
    ((length m mod 16 = 0)%nat ->
     AesCbc true (Some ctx) (Some m) (zlen m) (Some iv) (Some out)
     = Some (true, Some (C ++ drop (length m) out)) /\
     AesCbc false (Some ctx) (Some m) (zlen m) (Some iv) (Some out)
     = Some (true, Some (Sp800_38a.CBC_Decrypt (Fips197.decrypt k) iv m ++ drop (length m) out)) /\
     AesCbc false (Some ctx) (Some C) (zlen m) (Some iv) (Some out)
     = Some (true, Some (m ++ drop (length m) out))) /\
    ((length m mod 16 <> 0)%nat -> forall e,
     AesCbc e (Some ctx) (Some m) (zlen m) (Some iv) (Some out) = Some (false, Some out)).
Proof.
  intros Hkb Hks Hiv Hb HI Ho He Hd C.
  destruct (AesInit_run k ek dk Hkb Hks He Hd) as (ek' & dk' & HA & HE & HD).
  exists (ek', dk'). split; [exact HA|]. split; intros Hm.
  - destruct (cbc_inverse k iv Hkb Hks Hiv m Hb Hm) as (HLe & HLd & HCb & HR).
    fold C in HLe, HCb, HR.
    destruct (cbc_calls k iv Hkb Hks Hiv ek' dk' m HE HD Hb Hm) as [C1 C2].
    fold C in C1. clearbody C.
    destruct (cbc_calls k iv Hkb Hks Hiv ek' dk' C HE HD HCb ltac:(by rewrite HLe)) as [_ C3].
    pose proof (proj1 Hiv) as Hv. split; [|split].
    + rewrite (AesCbc_run true) by (done || by rewrite C1). by rewrite C1.
    + rewrite (AesCbc_run false) by (done || by rewrite C2). by rewrite C2.
    + rewrite <-HLe. rewrite (AesCbc_run false); rewrite ?C3, ?HR, ?HLe; done.
  - intros e. unfold AesCbc. cbn [notnull negb orb].
    replace (zlen m mod 16 =? 0) with false; [done|]. symmetry. apply Z.eqb_neq.
    change 16 with (Z.of_nat 16). rewrite <-Nat2Z.inj_mod. lia.
Qed.

(** The first block of the example F.2.5 of SP 800-38A has this shape: a 256-bit
    key, an IV and whole blocks. *)
Lemma aes_cbc_sp800_38a_witness :
  let C := Sp800_38a.CBC_Encrypt (Fips197.encrypt ex_key) ex_block (ex_block ++ ex_block) in
  exists ctx, AesInit (Some (zero_schedule, zero_schedule)) (Some ex_key) 256 = Some (true, Some ctx) /\
    AesCbc true (Some ctx) (Some (ex_block ++ ex_block)) 32 (Some ex_block) (Some (zeros 40))
    = Some (true, Some (C ++ zeros 8)) /\
    AesCbc false (Some ctx) (Some C) 32 (Some ex_block) (Some (zeros 40))
    = Some (true, Some (ex_block ++ ex_block ++ zeros 8)).
Proof.
  destruct (aes_cbc_sp800_38a ex_key ex_block (ex_block ++ ex_block) zero_schedule zero_schedule (zeros 40))
    as (ctx & HI & HC & _).
  - exact ex_key_bytes.
  - right. right. reflexivity.
  - exact ex_block_typed.
  - apply Forall_app. split; apply ex_block_typed.
  - done.
  - done.
  - done.
  - done.
  - destruct (HC eq_refl) as (HE & _ & HD). exists ctx. rewrite <-app_assoc in HD. done.
Defined.
