(* ===== verification/Gcm.v ===== *)
(** * Galois/counter mode (openssl/crypto/modes/gcm128.c)

    The mode as the firmware is built: [OPENSSL_SMALL_FOOTPRINT] and
    [OPENSSL_NO_ASM], so that the hash multiplies one block at a time through
    [gcm_gmult_4bit] and a message is processed byte by byte.  [Sp800_38d] is the
    standard: multiplication in GF(2^128) bit by bit, GHASH and GCTR on whole
    blocks.  This file holds the code, the standard and the proof that the
    multiplication with 4-bit tables is the product of the field; GcmStream.v
    shows that the incremental interface computes the standard's functions. *)
From stdpp Require Import base list.
From Stdlib Require Import ZArith Lia.
From S2P Require Import Prelude.
#[local] Open Scope Z_scope.

(** ** The code *)

(** [GETU32] and [PUTU32] of crypto/modes.h. *)
Definition be_get32 (p : bytes) : Z :=
  Z.lor (Z.lor (Z.lor (Z.shiftl (nth 0 p 0) 24) (Z.shiftl (nth 1 p 0) 16))
               (Z.shiftl (nth 2 p 0) 8)) (nth 3 p 0).
Definition be_put32 (v : Z) : bytes :=
  [u8 (Z.shiftr v 24); u8 (Z.shiftr v 16); u8 (Z.shiftr v 8); u8 v].

(** [u128]. *)
Record u128 := mkU128 { hi : Z; lo : Z }.
Definition xor128 (a b : u128) : u128 := mkU128 (Z.lxor (hi a) (hi b)) (Z.lxor (lo a) (lo b)).

Definition REDUCE1BIT (V : u128) : u128 :=
  let T := Z.land 16212958658533785600 (u64 (0 - Z.land (lo V) 1)) in
  let l := Z.lor (u64 (Z.shiftl (hi V) 63)) (Z.shiftr (lo V) 1) in
  mkU128 (Z.lxor (Z.shiftr (hi V) 1) T) l.

(** [Htable[i]]. *)
Definition zero128 : u128 := mkU128 0 0.
Definition tbl (Htable : list u128) (i : nat) : u128 := nth i Htable zero128.

(** [for (Htable[8] = V, i = 4; i > 0; i >>= 1)]; [i] halves, so [fuel = i] is
    enough. *)
Fixpoint init_powers (fuel i : nat) (V : u128) (Htable : list u128) : list u128 :=
  match fuel with
  | O => Htable
  | S fuel =>
      if Nat.eqb i 0 then Htable
      else let V := REDUCE1BIT V in init_powers fuel (i / 2) V (<[i := V]> Htable)
  end.

(** [for (V = *Hi, j = 1; j < i; ++j)], with [n] iterations left. *)
Fixpoint init_sums (n i j : nat) (V : u128) (Htable : list u128) : list u128 :=
  match n with
  | O => Htable
  | S n => init_sums n i (S j) V (<[(i + j)%nat := xor128 V (tbl Htable j)]> Htable)
  end.
(** [for (i = 2; i < 16; i <<= 1)]; three rounds. *)
Fixpoint init_rows (fuel i : nat) (Htable : list u128) : list u128 :=
  match fuel with
  | O => Htable
  | S fuel =>
      if Nat.ltb i 16
      then init_rows fuel (2 * i) (init_sums (i - 1) i 1 (tbl Htable i) Htable)
      else Htable
  end.

Definition gcm_init_4bit (Htable : list u128) (H : u128) : list u128 :=
  let Htable := <[0%nat := zero128]> Htable in
  let V := H in
  let Htable := init_powers 4 4 V (<[8%nat := V]> Htable) in
  init_rows 4 2 Htable.

(** [PACK (s)] with an 8-byte [size_t]. *)
Definition PACK (s : Z) : Z := u64 (Z.shiftl s 48).
Definition rem_4bit : list Z :=
  map PACK [0; 7200; 14400; 9312; 28800; 27808; 18624; 21728;
            57600; 64800; 55616; 50528; 37248; 36256; 43456; 46560].

(** The reduction by four bits that both halves of the loop of
    [gcm_gmult_4bit] begin with. *)
Definition shift_4bit (z : u128) : u128 :=
  let rem := Z.land (lo z) 15 in
  let l := Z.lor (u64 (Z.shiftl (hi z) 60)) (Z.shiftr (lo z) 4) in
  mkU128 (Z.lxor (Z.shiftr (hi z) 4) (nth (Z.to_nat rem) rem_4bit 0)) l.

(** The [while (1)] loop; [cnt] bytes of [Xi] are left. *)
Fixpoint gmult_loop (cnt : nat) (nhi : Z) (z : u128) (Xi : bytes) (Htable : list u128) : u128 :=
  let z := xor128 (shift_4bit z) (tbl Htable (Z.to_nat nhi)) in
  match cnt with
  | O => z
  | S cnt =>
      let nlo := nth cnt Xi 0 in
      let nhi := Z.shiftr nlo 4 in
      let nlo := Z.land nlo 15 in
      let z := xor128 (shift_4bit z) (tbl Htable (Z.to_nat nlo)) in
      gmult_loop cnt nhi z Xi Htable
  end.

Definition gcm_gmult_4bit (Xi : bytes) (Htable : list u128) : bytes :=
  let nlo := nth 15 Xi 0 in
  let nhi := Z.shiftr nlo 4 in
  let nlo := Z.land nlo 15 in
  let z := gmult_loop 15 nhi (tbl Htable (Z.to_nat nlo)) Xi Htable in
  be_put32 (u32 (Z.shiftr (hi z) 32)) ++ be_put32 (u32 (hi z)) ++
  be_put32 (u32 (Z.shiftr (lo z) 32)) ++ be_put32 (u32 (lo z)).

(** [GCM128_CONTEXT]: the 16-byte unions as bytes, [len] as its two integers,
    [mres] and [ares] as positions in a block; [block] is the block cipher
    applied to [key].  [Htable] is zeroed by [CRYPTO_gcm128_init]. *)
Record GCM128_CONTEXT := mkGcm128 {
  Yi : bytes; EKi : bytes; EK0 : bytes; len0 : Z; len1 : Z; Xi : bytes; Hu : u128;
  Htable : list u128; mres : nat; ares : nat; block : bytes -> bytes }.

Definition set_stream (c : GCM128_CONTEXT) (yi eki : bytes) : GCM128_CONTEXT :=
  mkGcm128 yi eki (EK0 c) (len0 c) (len1 c) (Xi c) (Hu c) (Htable c) (mres c) (ares c) (block c).
Definition set_EK0 (c : GCM128_CONTEXT) (ek0 : bytes) : GCM128_CONTEXT :=
  mkGcm128 (Yi c) (EKi c) ek0 (len0 c) (len1 c) (Xi c) (Hu c) (Htable c) (mres c) (ares c) (block c).
Definition set_len (c : GCM128_CONTEXT) (a m : Z) : GCM128_CONTEXT :=
  mkGcm128 (Yi c) (EKi c) (EK0 c) a m (Xi c) (Hu c) (Htable c) (mres c) (ares c) (block c).
Definition set_Xi (c : GCM128_CONTEXT) (x : bytes) : GCM128_CONTEXT :=
  mkGcm128 (Yi c) (EKi c) (EK0 c) (len0 c) (len1 c) x (Hu c) (Htable c) (mres c) (ares c) (block c).
Definition set_res (c : GCM128_CONTEXT) (m a : nat) : GCM128_CONTEXT :=
  mkGcm128 (Yi c) (EKi c) (EK0 c) (len0 c) (len1 c) (Xi c) (Hu c) (Htable c) m a (block c).

Definition GCM_MUL (c : GCM128_CONTEXT) : GCM128_CONTEXT :=
  set_Xi c (gcm_gmult_4bit (Xi c) (Htable c)).

(** [CRYPTO_gcm128_init (ctx, key, block)]. *)
Definition CRYPTO_gcm128_init (blk : bytes -> bytes) : GCM128_CONTEXT :=
  let z := replicate 16 0 in
  let p := blk z in
  let H := mkU128 (Z.lor (Z.shiftl (be_get32 p) 32) (be_get32 (drop 4 p)))
                  (Z.lor (Z.shiftl (be_get32 (drop 8 p)) 32) (be_get32 (drop 12 p))) in
  mkGcm128 z z z 0 0 z H (gcm_init_4bit (replicate 16 zero128) H) 0 0 blk.

(** [Xi.c[n] ^= v], and the loop over the bytes of [src] from [Xi.c[i]] on. *)
Definition xor_at (X : bytes) (n : nat) (v : Z) : bytes := <[n := Z.lxor (nth n X 0) v]> X.
Fixpoint xor_into (i : nat) (src X : bytes) : bytes :=
  match src with
  | [] => X
  | v :: src => xor_into (S i) src (xor_at X i v)
  end.

(** [while (len >= 16)]: absorbs whole blocks; the bytes left. *)
Fixpoint absorb_blocks (fuel : nat) (data : bytes) (c : GCM128_CONTEXT) : bytes * GCM128_CONTEXT :=
  match fuel with
  | O => (data, c)
  | S fuel =>
      if Nat.leb 16 (length data)
      then absorb_blocks fuel (drop 16 data)
             (GCM_MUL (set_Xi c (xor_into 0 (take 16 data) (Xi c))))
      else (data, c)
  end.

(** [++ctr; PUTU32 (ctx->Yi.c + 12, ctr)]. *)
Definition put_ctr (yi : bytes) (ctr : Z) : bytes := take 12 yi ++ be_put32 ctr.

(** [CRYPTO_gcm128_setiv (ctx, iv, len)]. *)
Definition CRYPTO_gcm128_setiv (c : GCM128_CONTEXT) (iv : bytes) : GCM128_CONTEXT :=
  let c := set_res (set_len c 0 0) 0 0 in
  let '(c, ctr) :=
    if Nat.eqb (length iv) 12 then (set_stream c (iv ++ [0; 0; 0; 1]) (EKi c), 1)
    else
      let c := set_Xi c (replicate 16 0) in
      let '(rest, c) := absorb_blocks (length iv) iv c in
      let c := if Nat.eqb (length rest) 0 then c
               else GCM_MUL (set_Xi c (xor_into 0 rest (Xi c))) in
      let len0 := u64 (Z.shiftl (zlen iv) 3) in
      let c := set_Xi c (xor_into 8
        [u8 (Z.shiftr len0 56); u8 (Z.shiftr len0 48); u8 (Z.shiftr len0 40); u8 (Z.shiftr len0 32);
         u8 (Z.shiftr len0 24); u8 (Z.shiftr len0 16); u8 (Z.shiftr len0 8); u8 len0] (Xi c)) in
      let c := GCM_MUL c in
      (set_stream c (Xi c) (EKi c), be_get32 (drop 12 (Xi c))) in
  let c := set_Xi c (replicate 16 0) in
  let c := set_EK0 c (block c (Yi c)) in
  set_stream c (put_ctr (Yi c) (u32 (ctr + 1))) (EKi c).

(** [while (n && len)] of [CRYPTO_gcm128_aad]: fills a block that was begun;
    the position, the bytes left and [Xi]. *)
Fixpoint aad_fill (n : nat) (aad X : bytes) : nat * bytes * bytes :=
  match aad with
  | [] => (n, aad, X)
  | v :: rest => if Nat.eqb n 0 then (n, aad, X) else aad_fill ((n + 1) mod 16) rest (xor_at X n v)
  end.

(** [CRYPTO_gcm128_aad (ctx, aad, len)]: result and context. *)
Definition CRYPTO_gcm128_aad (c : GCM128_CONTEXT) (aad : bytes) : Z * GCM128_CONTEXT :=
  if negb (len1 c =? 0) then (-2, c)
  else
  let alen := u64 (len0 c + zlen aad) in
  if (2 ^ 61 <? alen) || (alen <? zlen aad) then (-1, c)
  else
  let c := set_len c alen (len1 c) in
  let '(n, rest, X) := aad_fill (ares c) aad (Xi c) in
  let c1 := set_Xi c X in
  if negb (Nat.eqb (ares c) 0) && negb (Nat.eqb n 0) then (0, set_res c1 (mres c) n)
  else
  let c := if negb (Nat.eqb (ares c) 0) then GCM_MUL c1 else c in
  let '(rest, c) := absorb_blocks (length rest) rest c in
  let '(n, c) := if Nat.eqb (length rest) 0 then (0%nat, c)
                 else (length rest, set_Xi c (xor_into 0 rest (Xi c))) in
  (0, set_res c (mres c) n).

(** [block (ctx->Yi.c, ctx->EKi.c, key); ++ctr; PUTU32 (ctx->Yi.c + 12, ctr)]. *)
Definition next_block (c : GCM128_CONTEXT) (ctr : Z) : GCM128_CONTEXT * Z :=
  let ctr := u32 (ctr + 1) in
  (set_stream c (put_ctr (Yi c) ctr) (block c (Yi c)), ctr).

(** The loops over the bytes of a message: output, [mres] and context. *)
Fixpoint encrypt_bytes (inp : bytes) (n : nat) (ctr : Z) (m : nat) (c : GCM128_CONTEXT)
  : bytes * nat * GCM128_CONTEXT :=
  match inp with
  | [] => ([], m, c)
  | x :: inp =>
      let '(c, ctr) := if Nat.eqb n 0 then next_block c ctr else (c, ctr) in
      let o := Z.lxor x (nth n (EKi c) 0) in
      let c := set_Xi c (xor_at (Xi c) n o) in
      let n := ((n + 1) mod 16)%nat in
      let c := if Nat.eqb n 0 then GCM_MUL c else c in
      let '(out, m, c) := encrypt_bytes inp n ctr n c in
      (o :: out, m, c)
  end.

Fixpoint decrypt_bytes (inp : bytes) (n : nat) (ctr : Z) (m : nat) (c : GCM128_CONTEXT)
  : bytes * nat * GCM128_CONTEXT :=
  match inp with
  | [] => ([], m, c)
  | x :: inp =>
      let '(c, ctr) := if Nat.eqb n 0 then next_block c ctr else (c, ctr) in
      let o := Z.lxor x (nth n (EKi c) 0) in
      let c := set_Xi c (xor_at (Xi c) n x) in
      let n := ((n + 1) mod 16)%nat in
      let c := if Nat.eqb n 0 then GCM_MUL c else c in
      let '(out, m, c) := decrypt_bytes inp n ctr n c in
      (o :: out, m, c)
  end.

(** The code before the loop, the same in both directions: the length check, the
    end of the additional data, and the counter. *)
Definition crypt_start (c : GCM128_CONTEXT) (inp : bytes) : option GCM128_CONTEXT :=
  let mlen := u64 (len1 c + zlen inp) in
  if (2 ^ 36 - 32 <? mlen) || (mlen <? zlen inp) then None
  else
  let c := set_len c (len0 c) mlen in
  Some (if Nat.eqb (ares c) 0 then c else set_res (GCM_MUL c) (mres c) 0).

(** [CRYPTO_gcm128_encrypt] and [CRYPTO_gcm128_decrypt]: result, output, context. *)
Definition CRYPTO_gcm128_encrypt (c : GCM128_CONTEXT) (inp : bytes) : Z * bytes * GCM128_CONTEXT :=
  match crypt_start c inp with
  | None => (-1, [], c)
  | Some c =>
      let ctr := be_get32 (drop 12 (Yi c)) in
      let '(out, m, c) := encrypt_bytes inp (mres c mod 16) ctr (mres c) c in
      (0, out, set_res c m (ares c))
  end.
Definition CRYPTO_gcm128_decrypt (c : GCM128_CONTEXT) (inp : bytes) : Z * bytes * GCM128_CONTEXT :=
  match crypt_start c inp with
  | None => (-1, [], c)
  | Some c =>
      let ctr := be_get32 (drop 12 (Yi c)) in
      let '(out, m, c) := decrypt_bytes inp (mres c mod 16) ctr (mres c) c in
      (0, out, set_res c m (ares c))
  end.

(** [CRYPTO_memcmp (a, b, len)] of crypto/cpuid.c. *)
Fixpoint CRYPTO_memcmp (a b : bytes) (len : nat) : Z :=
  match len, a, b with
  | S len, x :: a, y :: b => Z.lor (Z.lxor x y) (CRYPTO_memcmp a b len)
  | _, _, _ => 0
  end.

(** [CRYPTO_gcm128_finish (ctx, tag, len)]: the integers of [len] are stored
    little-endian, read back big-endian and added to [Xi] little-endian. *)
Definition CRYPTO_gcm128_finish (c : GCM128_CONTEXT) (tag : option bytes) (len : nat)
  : Z * GCM128_CONTEXT :=
  let alen := u64 (Z.shiftl (len0 c) 3) in
  let clen := u64 (Z.shiftl (len1 c) 3) in
  let c := if negb (Nat.eqb (mres c) 0) || negb (Nat.eqb (ares c) 0) then GCM_MUL c else c in
  let c := set_len c alen clen in
  let p := le_bytes 8 (len0 c) ++ le_bytes 8 (len1 c) in
  let alen := Z.lor (Z.shiftl (be_get32 p) 32) (be_get32 (drop 4 p)) in
  let clen := Z.lor (Z.shiftl (be_get32 (drop 8 p)) 32) (be_get32 (drop 12 p)) in
  let c := set_Xi c (xor_into 0 (le_bytes 8 alen ++ le_bytes 8 clen) (Xi c)) in
  let c := GCM_MUL c in
  let c := set_Xi c (xor_into 0 (EK0 c) (Xi c)) in
  match tag with
  | Some t => if Nat.leb len 16 then (CRYPTO_memcmp (Xi c) t len, c) else (-1, c)
  | None => (-1, c)
  end.

(** [CRYPTO_gcm128_tag (ctx, tag, len)]: the bytes stored at [tag]. *)
Definition CRYPTO_gcm128_tag (c : GCM128_CONTEXT) (len : nat) : bytes * GCM128_CONTEXT :=
  let '(_, c) := CRYPTO_gcm128_finish c None 0 in
  (take (if Nat.leb len 16 then len else 16%nat) (Xi c), c).

(** ** The standard *)
Module Sp800_38d.
(** A string of bytes as an integer, its first bit the most significant. *)
Definition int (b : bytes) : Z := le_val (rev b).
Definition str (n : nat) (z : Z) : bytes := rev (le_bytes n z).

(** Section 6.3: the blocks as elements of GF(2^128), bit 0 the coefficient of 1. *)
Definition R : Z := Z.shiftl 225 120.
Definition mulx (V : Z) : Z := Z.lxor (Z.shiftr V 1) (if Z.odd V then R else 0).
(** Algorithm 1, the [n] last bits of [X] left. *)
Fixpoint product (n : nat) (X V Acc : Z) : Z :=
  match n with
  | O => Acc
  | S n => product n X (mulx V) (if Z.testbit X (Z.of_nat n) then Z.lxor Acc V else Acc)
  end.
Definition gmul (X Y : Z) : Z := product 128 X Y 0.

Fixpoint xor (a b : bytes) : bytes :=
  match a, b with
  | x :: a, y :: b => Z.lxor x y :: xor a b
  | _, _ => []
  end.

(** The blocks of a string, the last one possibly shorter. *)
Fixpoint chunks (fuel : nat) (b : bytes) : list bytes :=
  match fuel, b with
  | S fuel, _ :: _ => take 16 b :: chunks fuel (drop 16 b)
  | _, _ => []
  end.
Definition blocks (b : bytes) : list bytes := chunks (length b) b.
(** Zeros up to the next multiple of 16 bytes. *)
Definition pad16 (b : bytes) : bytes := b ++ replicate ((16 - length b mod 16) mod 16) 0.

(** Algorithm 2 from a start value. *)
Definition mul_block (H X : bytes) : bytes := str 16 (gmul (int X) (int H)).
Definition GHASH_from (H Y : bytes) (xs : list bytes) : bytes :=
  fold_left (fun Y X => mul_block H (xor Y X)) xs Y.
Definition GHASH (H X : bytes) : bytes := GHASH_from H (replicate 16 0) (blocks X).

(** Section 6.2 and algorithm 3. *)
Definition inc32 (b : bytes) : bytes := take 12 b ++ str 4 ((int (drop 12 b) + 1) mod 2 ^ 32).
Fixpoint gctr (CIPH : bytes -> bytes) (CB : bytes) (xs : list bytes) : bytes :=
  match xs with
  | [] => []
  | X :: xs => xor X (CIPH CB) ++ gctr CIPH (inc32 CB) xs
  end.
Definition GCTR (CIPH : bytes -> bytes) (ICB X : bytes) : bytes := gctr CIPH ICB (blocks X).

(** Algorithms 4 and 5. *)
Section Mode.
Context (CIPH : bytes -> bytes).
Definition subkey : bytes := CIPH (replicate 16 0).
Definition J0 (IV : bytes) : bytes :=
  if Nat.eqb (length IV) 12 then IV ++ [0; 0; 0; 1]
  else GHASH subkey (pad16 IV ++ replicate 8 0 ++ str 8 (8 * zlen IV)).
Definition auth (A C : bytes) : bytes :=
  GHASH subkey (pad16 A ++ pad16 C ++ str 8 (8 * zlen A) ++ str 8 (8 * zlen C)).
Definition tag_of (t : nat) (IV A C : bytes) : bytes :=
  take t (GCTR CIPH (J0 IV) (auth A C)).
Definition GCM_AE (t : nat) (IV P A : bytes) : bytes * bytes :=
  let C := GCTR CIPH (inc32 (J0 IV)) P in (C, tag_of t IV A C).
Definition decrypted (IV C : bytes) : bytes := GCTR CIPH (inc32 (J0 IV)) C.
Definition GCM_AD (t : nat) (IV C A T : bytes) : option bytes :=
  if decide (tag_of t IV A C = T) then Some (decrypted IV C) else None.
End Mode.
End Sp800_38d.
Import Sp800_38d.

(** ** The field *)
Section Field.
Lemma mulx_lxor a b : mulx (Z.lxor a b) = Z.lxor (mulx a) (mulx b).
Proof.
  unfold mulx. rewrite Z.shiftr_lxor, <-!Z.bit0_odd, Z.lxor_spec.
  apply Z.bits_inj'. intros n Hn. rewrite !Z.lxor_spec.
  destruct (Z.testbit a 0), (Z.testbit b 0); cbn [xorb]; rewrite ?Z.bits_0;
    destruct (Z.testbit (Z.shiftr a 1) n), (Z.testbit (Z.shiftr b 1) n), (Z.testbit R n); done.
Qed.
Lemma mulx_0 : mulx 0 = 0. Proof. done. Qed.

Definition mulx4 (v : Z) : Z := mulx (mulx (mulx (mulx v))).
Lemma mulx4_lxor a b : mulx4 (Z.lxor a b) = Z.lxor (mulx4 a) (mulx4 b).
Proof. unfold mulx4. by rewrite !mulx_lxor. Qed.

Lemma mulx_even q : mulx (2 * q) = q.
Proof.
  unfold mulx. rewrite Z.odd_mul, andb_false_l, Z.lxor_0_r.
  by rewrite Z.shiftr_div_pow2, Z.mul_comm, Z.div_mul by lia.
Qed.
Lemma mulx4_16 q : mulx4 (16 * q) = q.
Proof.
  unfold mulx4. replace (16 * q) with (2 * (2 * (2 * (2 * q)))) by lia. by rewrite !mulx_even.
Qed.

Lemma product_acc n X V Acc : product n X V Acc = Z.lxor Acc (product n X V 0).
Proof.
  revert V Acc. induction n as [|n IH]; intros V Acc; cbn [product]; [by rewrite Z.lxor_0_r|].
  case_match; [|apply IH]. rewrite IH, (IH _ (Z.lxor 0 V)). by rewrite Z.lxor_0_l, Z.lxor_assoc.
Qed.
Lemma product_S n X V :
  product (S n) X V 0
  = Z.lxor (if Z.testbit X (Z.of_nat n) then V else 0) (product n X (mulx V) 0).
Proof. cbn [product]. rewrite product_acc. case_match; by rewrite ?Z.lxor_0_l. Qed.
Lemma product_mulx n X V : product n X (mulx V) 0 = mulx (product n X V 0).
Proof.
  revert V. induction n as [|n IH]; intros V; [done|].
  rewrite !product_S, mulx_lxor, IH. f_equal. case_match; [done|by rewrite mulx_0].
Qed.
(** Only the last [n] bits matter. *)
Lemma product_ext n X X' V :
  (forall i, 0 <= i < Z.of_nat n -> Z.testbit X i = Z.testbit X' i) ->
  product n X V 0 = product n X' V 0.
Proof.
  revert V. induction n as [|n IH]; intros V HX; [done|].
  rewrite !product_S, HX by lia. f_equal. apply IH. intros i Hi. apply HX. lia.
Qed.
(** Horner's step over a digit of four bits. *)
Lemma product_digit n X V :
  product (n + 4) X V 0
  = Z.lxor (mulx4 (product n X V 0)) (product 4 (Z.land (Z.shiftr X (Z.of_nat n)) 15) V 0).
Proof.
  replace (n + 4)%nat with (S (S (S (S n)))) by lia. rewrite !product_S, !product_mulx.
  assert (Hb : forall j, 0 <= j < 4 ->
    Z.testbit (Z.land (Z.shiftr X (Z.of_nat n)) 15) j = Z.testbit X (Z.of_nat n + j)).
  { intros j Hj. change 15 with (Z.ones 4). rewrite Z.land_ones by lia.
    rewrite Z.mod_pow2_bits_low, Z.shiftr_spec by lia. f_equal. lia. }
  rewrite !Hb by lia. cbn [product].
  replace (Z.of_nat (S (S (S n)))) with (Z.of_nat n + Z.of_nat 3) by lia.
  replace (Z.of_nat (S (S n))) with (Z.of_nat n + Z.of_nat 2) by lia.
  replace (Z.of_nat (S n)) with (Z.of_nat n + Z.of_nat 1) by lia.
  replace (Z.of_nat n) with (Z.of_nat n + Z.of_nat 0) at 4 by lia.
  unfold mulx4. rewrite Z.lxor_0_r, (Z.lxor_comm (mulx _)), <-!Z.lxor_assoc. done.
Qed.
End Field.

(** ** The tables *)
Definition val (z : u128) : Z := Z.lxor (Z.shiftl (hi z) 64) (lo z).
Definition wf128 (z : u128) : Prop := 0 <= hi z < 2 ^ 64 /\ 0 <= lo z < 2 ^ 64.

Section Tables.
Lemma bits_high x n i : 0 <= n -> 0 <= x < 2 ^ n -> n <= i -> Z.testbit x i = false.
Proof.
  intros Hn Hx Hi. rewrite <-(Z.mod_small x (2 ^ n)) by lia. by rewrite Z.mod_pow2_bits_high by lia.
Qed.
Lemma bits_range x n : 0 <= n -> (forall i, n <= i -> Z.testbit x i = false) -> 0 <= x < 2 ^ n.
Proof.
  intros Hn Hb. replace x with (x mod 2 ^ n); [apply Z.mod_pos_bound; lia|].
  apply Z.bits_inj'. intros i Hi. destruct (decide (i < n)).
  - by rewrite Z.mod_pow2_bits_low by lia.
  - by rewrite Z.mod_pow2_bits_high, Hb by lia.
Qed.
Lemma lxor_range a b n : 0 <= n -> 0 <= a < 2 ^ n -> 0 <= b < 2 ^ n -> 0 <= Z.lxor a b < 2 ^ n.
Proof.
  intros Hn Ha Hb. apply bits_range; [done|]. intros i Hi.
  by rewrite Z.lxor_spec, (bits_high a n), (bits_high b n).
Qed.
Lemma lor_range a b n : 0 <= n -> 0 <= a < 2 ^ n -> 0 <= b < 2 ^ n -> 0 <= Z.lor a b < 2 ^ n.
Proof.
  intros Hn Ha Hb. apply bits_range; [done|]. intros i Hi.
  by rewrite Z.lor_spec, (bits_high a n), (bits_high b n).
Qed.
Lemma shiftr_range a n k : 0 <= n -> 0 <= k -> 0 <= a < 2 ^ n -> 0 <= Z.shiftr a k < 2 ^ n.
Proof.
  intros Hn Hk Ha. apply bits_range; [done|]. intros i Hi.
  rewrite Z.shiftr_spec by lia. by apply (bits_high a n); [done..|lia].
Qed.

Lemma val_xor a b : val (xor128 a b) = Z.lxor (val a) (val b).
Proof.
  unfold val, xor128. cbn [hi lo]. rewrite Z.shiftl_lxor.
  rewrite !Z.lxor_assoc. f_equal. rewrite <-!Z.lxor_assoc. f_equal. apply Z.lxor_comm.
Qed.
Lemma wf_xor a b : wf128 a -> wf128 b -> wf128 (xor128 a b).
Proof. intros [] []. split; by apply lxor_range. Qed.

(** Bits of the pair. *)
Lemma val_bits z i : wf128 z -> 0 <= i ->
  Z.testbit (val z) i = if i <? 64 then Z.testbit (lo z) i else Z.testbit (hi z) (i - 64).
Proof.
  intros [Hh Hl] Hi. unfold val. rewrite Z.lxor_spec, Z.shiftl_spec by lia.
  destruct (i <? 64) eqn:E; bool_hyp.
  - by rewrite (Z.testbit_neg_r (hi z)) by lia.
  - rewrite (bits_high (lo z) 64) by lia. apply xorb_false_r.
Qed.

(** The shift to the right over both words. *)
Lemma shift_pair z k : wf128 z -> 0 < k < 64 ->
  Z.lxor (Z.shiftl (Z.shiftr (hi z) k) 64) (Z.lor (u64 (Z.shiftl (hi z) (64 - k))) (Z.shiftr (lo z) k))
  = Z.shiftr (val z) k.
Proof.
  intros Hz Hk. pose proof Hz as [Hh Hl]. apply Z.bits_inj'. intros i Hi. unfold u64.
  rewrite Z.shiftr_spec, val_bits by (done || lia).
  rewrite Z.lxor_spec, Z.lor_spec, Z.shiftl_spec, (Z.shiftr_spec (lo z)) by lia.
  destruct (decide (i < 64)) as [Hlt|Hge].
  - rewrite (Z.testbit_neg_r _ (i - 64)), Z.mod_pow2_bits_low, Z.shiftl_spec by lia. cbn [xorb].
    destruct (i + k <? 64) eqn:E; bool_hyp.
    + by rewrite (Z.testbit_neg_r (hi z)) by lia.
    + rewrite (bits_high (lo z) 64), orb_false_r by lia. f_equal. lia.
  - rewrite Z.mod_pow2_bits_high, (bits_high (lo z) 64), Z.shiftr_spec by lia. cbn [orb].
    rewrite xorb_false_r. destruct (i + k <? 64) eqn:E; bool_hyp; [lia|]. f_equal. lia.
Qed.
Lemma wf_shift_pair z k : wf128 z -> 0 < k < 64 ->
  wf128 (mkU128 (Z.shiftr (hi z) k) (Z.lor (u64 (Z.shiftl (hi z) (64 - k))) (Z.shiftr (lo z) k))).
Proof.
  intros [Hh Hl] Hk. split; cbn [hi lo]; [by apply shiftr_range; lia|].
  apply lor_range; [lia|apply u64_range|apply shiftr_range; lia].
Qed.

(** A shift followed by a correction of the high word. *)
Lemma shift_fix z k t : wf128 z -> 0 < k < 64 -> 0 <= t < 2 ^ 64 ->
  let z' := mkU128 (Z.lxor (Z.shiftr (hi z) k) t)
                   (Z.lor (u64 (Z.shiftl (hi z) (64 - k))) (Z.shiftr (lo z) k)) in
  wf128 z' /\ val z' = Z.lxor (Z.shiftr (val z) k) (Z.shiftl t 64).
Proof.
  intros Hz Hk Ht z'. pose proof (wf_shift_pair z k Hz Hk) as [W1 W2]. cbn [hi lo] in W1, W2.
  split; [split; [by apply lxor_range|done]|].
  rewrite <-shift_pair by done. unfold z', val. cbn [hi lo].
  rewrite Z.shiftl_lxor, !Z.lxor_assoc. f_equal. apply Z.lxor_comm.
Qed.

Lemma val_odd z : wf128 z -> Z.odd (val z) = Z.odd (lo z).
Proof. intros Hz. by rewrite <-!Z.bit0_odd, val_bits. Qed.

Lemma reduce1bit_ok z : wf128 z -> wf128 (REDUCE1BIT z) /\ val (REDUCE1BIT z) = mulx (val z).
Proof.
  intros Hz. unfold REDUCE1BIT, mulx. rewrite val_odd by done.
  assert (HT : Z.land 16212958658533785600 (u64 (0 - Z.land (lo z) 1))
               = if Z.odd (lo z) then 16212958658533785600 else 0).
  { change 1 with (Z.ones 1). rewrite Z.land_ones by lia. change (2 ^ 1) with 2.
    rewrite Zmod_odd. by destruct (Z.odd (lo z)). }
  rewrite HT. change 63 with (64 - 1).
  destruct (shift_fix z 1 (if Z.odd (lo z) then 16212958658533785600 else 0) Hz) as [W V];
    [lia|by case_match|]. split; [exact W|]. rewrite V. by case_match.
Qed.

(** The table of remainders, and the reduction by four bits. *)
Lemma nibble_range x : 0 <= Z.land x 15 < 16.
Proof. change 15 with (Z.ones 4). rewrite Z.land_ones by lia. apply Z.mod_pos_bound. lia. Qed.

Lemma nibble_case (P : Z -> Prop) (r : Z) :
  0 <= r < 16 -> Forall P (map Z.of_nat (seq 0 16)) -> P r.
Proof.
  intros Hr HP. rewrite Forall_forall in HP. apply HP, list_elem_of_In, in_map_iff.
  exists (Z.to_nat r). split; [lia|]. apply in_seq. lia.
Qed.
Lemma rem_table r : 0 <= r < 16 ->
  0 <= nth (Z.to_nat r) rem_4bit 0 < 2 ^ 64 /\
  Z.shiftl (nth (Z.to_nat r) rem_4bit 0) 64 = mulx4 r.
Proof.
  intros Hr. pattern r. apply (nibble_case _ r Hr).
  cbn [map seq]. repeat constructor; vm_compute; try discriminate; done.
Qed.

Lemma lxor_16 q r : 0 <= r < 16 -> 16 * q + r = Z.lxor (16 * q) r.
Proof.
  intros Hr. symmetry. rewrite Z.add_nocarry_lxor; [done|].
  replace (16 * q) with (Z.shiftl q 4) by (rewrite Z.shiftl_mul_pow2; lia).
  apply Z.bits_inj'. intros i Hi. rewrite Z.land_spec, Z.bits_0, Z.shiftl_spec by lia.
  destruct (decide (i < 4)); [by rewrite Z.testbit_neg_r by lia|].
  by rewrite (bits_high r 4), andb_false_r by lia.
Qed.

Lemma mulx4_split v : mulx4 v = Z.lxor (Z.shiftr v 4) (mulx4 (Z.land v 15)).
Proof.
  change 15 with (Z.ones 4). rewrite Z.land_ones, Z.shiftr_div_pow2 by lia. change (2 ^ 4) with 16.
  rewrite (Z.div_mod v 16) at 1 by lia.
  rewrite lxor_16 by (apply Z.mod_pos_bound; lia). by rewrite mulx4_lxor, mulx4_16.
Qed.

Lemma shift_4bit_ok z : wf128 z -> wf128 (shift_4bit z) /\ val (shift_4bit z) = mulx4 (val z).
Proof.
  intros Hz. unfold shift_4bit. pose proof (nibble_range (lo z)) as Hr.
  destruct (rem_table _ Hr) as [HT HM]. change 60 with (64 - 4).
  destruct (shift_fix z 4 _ Hz ltac:(lia) HT) as [W V]. split; [exact W|].
  rewrite V, HM, (mulx4_split (val z)). do 2 f_equal. apply Z.bits_inj'. intros i Hi. rewrite !Z.land_spec.
  destruct (decide (i < 64)) as [Hlt|Hge].
  - rewrite val_bits by done. by rewrite (proj2 (Z.ltb_lt i 64) Hlt).
  - by rewrite (bits_high 15 64), !andb_false_r by lia.
Qed.

(** Entry [n] of the table is the product of the digit [n] with [H]. *)
Definition table_ok (T : list u128) (H : Z) : Prop :=
  forall n, 0 <= n < 16 ->
    wf128 (tbl T (Z.to_nat n)) /\ val (tbl T (Z.to_nat n)) = product 4 n H 0.

Lemma init_table T H : length T = 16%nat -> wf128 H -> table_ok (gcm_init_4bit T H) (val H).
Proof.
  intros HT Hw n Hn. do 16 (destruct T as [|? T]; [discriminate HT|]).
  destruct T; [|discriminate HT]. unfold gcm_init_4bit.
  destruct (reduce1bit_ok H Hw) as [W1 V1]. destruct (reduce1bit_ok _ W1) as [W2 V2].
  destruct (reduce1bit_ok _ W2) as [W3 V3].
  pattern n. apply (nibble_case _ n Hn). cbn [map seq].
  rewrite !Forall_cons, Forall_nil, !Nat2Z.id. repeat split_and; try exact I;
    cbn -[REDUCE1BIT xor128 val Z.lxor mulx wf128].
  all: repeat lazymatch goal with |- wf128 (xor128 _ _) => apply wf_xor end;
    try assumption; try (split; cbn [hi lo zero128]; lia).
  all: repeat match goal with |- context [Z.testbit ?a ?b] =>
         let v := eval vm_compute in (Z.testbit a b) in change (Z.testbit a b) with v end; cbv iota.
  all: rewrite ?val_xor, ?V3, ?V2, ?V1, ?Z.lxor_0_l, ?Z.lxor_assoc; reflexivity.
Qed.
End Tables.

(** ** Strings and integers *)
Section Strings.
Lemma length_str n z : length (str n z) = n.
Proof. unfold str. by rewrite length_rev, length_le_bytes. Qed.
Lemma str_typed n z : typed n (str n z).
Proof.
  split; [apply length_str|]. unfold all_bytes, str. apply Forall_rev, le_bytes_all.
Qed.
Lemma int_str n z : 0 <= z < 2 ^ (8 * Z.of_nat n) -> int (str n z) = z.
Proof. intros. unfold int, str. rewrite rev_involutive. by apply le_val_bytes_small. Qed.
Lemma str_int b : all_bytes b -> str (length b) (int b) = b.
Proof.
  intros Hb. unfold int, str. rewrite <-length_rev, le_bytes_val, rev_involutive; [done|].
  by apply Forall_rev.
Qed.
Lemma str_mod n z : str n (z mod 2 ^ (8 * Z.of_nat n)) = str n z.
Proof. unfold str. by rewrite <-le_bytes_mod. Qed.
Lemma str_app a b z : str (a + b) z = str b (z / 2 ^ (8 * Z.of_nat a)) ++ str a z.
Proof. unfold str. by rewrite le_bytes_app, rev_app_distr. Qed.
Lemma int_range b : all_bytes b -> 0 <= int b < 2 ^ (8 * zlen b).
Proof. intros. unfold int. rewrite <-length_rev. by apply le_val_bound, Forall_rev. Qed.
Lemma int_app a b : int (a ++ b) = int a * 2 ^ (8 * zlen b) + int b.
Proof. unfold int. rewrite rev_app_distr, le_val_app, length_rev. lia. Qed.

(** The first bytes of a string. *)
Lemma int_take n b : all_bytes b -> (n <= length b)%nat ->
  int b / 2 ^ (8 * (zlen b - Z.of_nat n)) = int (take n b).
Proof.
  intros Hb Hn. pose proof (int_range (drop n b) (Forall_drop _ _ _ Hb)) as Hr.
  rewrite <-(take_drop n b) at 1. rewrite int_app. rewrite length_drop in *.
  replace (zlen b - Z.of_nat n) with (Z.of_nat (length b - n)) by lia.
  rewrite Z.div_add_l, Z.div_small by lia. lia.
Qed.

Lemma be_put32_str v : be_put32 v = str 4 v.
Proof.
  unfold be_put32, str. cbn [le_bytes rev app]. rewrite !Z.shiftr_div_pow2 by lia.
  by rewrite !Zdiv.Zdiv_Zdiv by lia.
Qed.
Lemma str_u32 v : str 4 (u32 v) = str 4 v.
Proof. exact (str_mod 4 v). Qed.

Lemma lor_high x y k : 0 <= k -> 0 <= y < 2 ^ k -> Z.lor (Z.shiftl x k) y = x * 2 ^ k + y.
Proof.
  intros. rewrite Z.shiftl_mul_pow2, Z.lor_comm, lor_low by lia. lia.
Qed.
Lemma be_get32_int p : (4 <= length p)%nat -> all_bytes p -> be_get32 p = int (take 4 p).
Proof.
  intros HL Hp. do 4 (destruct p as [|? p]; [cbn in HL; lia|]).
  unfold all_bytes in Hp. rewrite !Forall_cons in Hp. destruct Hp as (H0 & H1 & H2 & H3 & _).
  unfold is_byte, be_get32, int in *. cbn [nth take rev app le_val].
  rewrite <-!Z.lor_assoc, (lor_high z1 z2 8), (lor_high z0 _ 16), (lor_high z _ 24) by lia.
  change (take 0 p) with (@nil Z). cbn [rev app le_val]. lia.
Qed.
End Strings.

(** ** The product of a block with the subkey *)
Section Product.
(** The two digits of a byte are digits of the integer. *)
Lemma int_prefix b k : typed 16 b -> (k < 16)%nat ->
  Z.shiftr (int b) (8 * (15 - Z.of_nat k)) = int (take k b) * 256 + nth k b 0 /\ is_byte (nth k b 0).
Proof.
  intros [HL Hb] Hk. split; [|apply Forall_nth; [done|lia]].
  rewrite Z.shiftr_div_pow2 by lia.
  replace (15 - Z.of_nat k) with (zlen b - Z.of_nat (S k)) by lia.
  rewrite int_take by (done || lia). rewrite (take_S_r b k (nth k b 0)).
  - rewrite int_app. unfold int at 2. cbn [length rev app le_val]. lia.
  - destruct (nth_lookup_or_length b k 0) as [Hn|]; [exact Hn|lia].
Qed.
Lemma land_15 x : Z.land x 15 = x mod 16.
Proof. change 15 with (Z.ones 4). by rewrite Z.land_ones by lia. Qed.
Lemma digit_low b k : typed 16 b -> (k < 16)%nat ->
  Z.land (nth k b 0) 15 = Z.land (Z.shiftr (int b) (8 * (15 - Z.of_nat k))) 15.
Proof.
  intros Hb Hk. destruct (int_prefix b k Hb Hk) as [-> _]. rewrite !land_15.
  replace (int (take k b) * 256) with (int (take k b) * 16 * 16) by lia.
  by rewrite Z.add_comm, Z.mod_add by lia.
Qed.
Lemma digit_high b k : typed 16 b -> (k < 16)%nat ->
  Z.shiftr (nth k b 0) 4 = Z.land (Z.shiftr (int b) (8 * (15 - Z.of_nat k) + 4)) 15.
Proof.
  intros Hb Hk. rewrite <-Z.shiftr_shiftr by lia.
  destruct (int_prefix b k Hb Hk) as [-> Hr]. unfold is_byte in Hr.
  rewrite land_15, !Z.shiftr_div_pow2 by lia. change (2 ^ 4) with 16.
  replace (int (take k b) * 256) with (int (take k b) * 16 * 16) by lia.
  rewrite Z.div_add_l, Z.add_comm, Z.mod_add by lia. rewrite Z.mod_small; [done|].
  split; [apply Z.div_pos; lia|apply Z.div_lt_upper_bound; lia].
Qed.

Context (X : bytes) (T : list u128) (H : Z) (HX : typed 16 X) (HT : table_ok T H).

(** One digit: shift and add the entry of the table. *)
Lemma digit_step n z d :
  wf128 z -> val z = product n (int X) H 0 ->
  d = Z.land (Z.shiftr (int X) (Z.of_nat n)) 15 ->
  let z' := xor128 (shift_4bit z) (tbl T (Z.to_nat d)) in
  wf128 z' /\ val z' = product (n + 4) (int X) H 0.
Proof using HT.
  intros Hz Hv -> z'. destruct (shift_4bit_ok z Hz) as [W V].
  destruct (HT _ (nibble_range (Z.shiftr (int X) (Z.of_nat n)))) as [WT VT].
  split; [by apply wf_xor|]. unfold z'. by rewrite val_xor, V, VT, Hv, product_digit.
Qed.

Lemma high_digit cnt : (cnt <= 15)%nat ->
  Z.shiftr (nth cnt X 0) 4 = Z.land (Z.shiftr (int X) (Z.of_nat (8 * (15 - cnt) + 4))) 15.
Proof using HX. intros. rewrite digit_high by (assumption || lia). do 2 f_equal. lia. Qed.
Lemma gmult_loop_ok cnt z :
  (cnt <= 15)%nat -> wf128 z -> val z = product (8 * (15 - cnt) + 4) (int X) H 0 ->
  let z' := gmult_loop cnt (Z.shiftr (nth cnt X 0) 4) z X T in
  wf128 z' /\ val z' = gmul (int X) H.
Proof using HX HT.
  revert z. induction cnt as [|cnt IH]; intros z Hc Hz Hv; cbn [gmult_loop];
    destruct (digit_step _ z _ Hz Hv (high_digit _ Hc)) as [W V].
  - split; [exact W|]. exact V.
  - destruct (digit_step _ _ (Z.land (nth cnt X 0) 15) W V) as [W2 V2];
      [rewrite digit_low by (assumption || lia); do 2 f_equal; lia|].
    apply IH; [lia|exact W2|]. rewrite V2. f_equal. lia.
Qed.

Lemma val_sum z : wf128 z -> val z = hi z * 2 ^ 64 + lo z.
Proof.
  intros [Hh Hl]. unfold val. rewrite <-Z.shiftl_mul_pow2 by lia. rewrite Z.add_nocarry_lxor; [done|].
  apply Z.bits_inj'. intros i Hi. rewrite Z.land_spec, Z.bits_0, Z.shiftl_spec by lia.
  destruct (decide (i < 64)); [by rewrite Z.testbit_neg_r by lia|].
  by rewrite (bits_high (lo z) 64), andb_false_r by lia.
Qed.
Lemma val_words z : wf128 z -> hi z = val z / 2 ^ 64 /\ lo z = val z mod 2 ^ 64.
Proof.
  intros Hz. rewrite val_sum by done. destruct Hz as [Hh Hl].
  split; [rewrite Z.div_add_l, Z.div_small by lia; lia|].
  by rewrite Z.add_comm, Z.mod_add, Z.mod_small by lia.
Qed.

Lemma str_8 x : str 4 (x / 2 ^ 32) ++ str 4 x = str 8 x.
Proof. symmetry. exact (str_app 4 4 x). Qed.
Lemma gmult_ok : gcm_gmult_4bit X T = str 16 (gmul (int X) H).
Proof using HX HT.
  unfold gcm_gmult_4bit.
  destruct (HT _ (nibble_range (nth 15 X 0))) as [W V].
  assert (HV0 : val (tbl T (Z.to_nat (Z.land (nth 15 X 0) 15))) = product 4 (int X) H 0).
  { pose proof (product_digit 0 (int X) H) as HD. change (product 0 (int X) H 0) with 0 in HD.
    change (mulx4 0) with 0 in HD. rewrite Z.lxor_0_l in HD.
    rewrite V, digit_low by (assumption || lia). symmetry. exact HD. }
  destruct (gmult_loop_ok 15 _ (le_n _) W HV0) as [W' V']. cbv zeta in W', V'.
  set (z := gmult_loop _ _ _ _ _) in *. destruct (val_words z W') as [-> ->].
  rewrite !be_put32_str, !str_u32, V', !Z.shiftr_div_pow2 by lia.
  set (v := gmul _ _). rewrite app_assoc, !str_8. change (2 ^ 64) with (2 ^ (8 * Z.of_nat 8)) at 2.
  rewrite str_mod. symmetry. exact (str_app 8 8 v).
Qed.
End Product.

(** Two 32-bit reads. *)
Lemma be_get64 p : (8 <= length p)%nat -> all_bytes p ->
  Z.lor (Z.shiftl (be_get32 p) 32) (be_get32 (drop 4 p)) = int (take 8 p) /\
  0 <= int (take 8 p) < 2 ^ 64.
Proof.
  intros HL Hp. pose proof (Forall_drop _ 4 _ Hp) as Hd.
  pose proof (int_range _ (Forall_take _ 4 _ Hd)) as R4.
  pose proof (int_range _ (Forall_take _ 8 _ Hp)) as R8.
  rewrite length_take in R4, R8. rewrite length_drop in R4.
  replace (8 * _) with 32 in R4 by lia. replace (8 * _) with 64 in R8 by lia.
  split; [|exact R8].
  rewrite !be_get32_int by (rewrite ?length_drop; (exact Hp || exact Hd || lia)).
  rewrite lor_high by lia. change 8%nat with (4 + 4)%nat. rewrite <-take_take_drop, int_app.
  rewrite length_take, length_drop. do 3 f_equal. lia.
Qed.

(** The subkey of a context. *)
Lemma init_subkey b : typed 16 b ->
  let H := mkU128 (Z.lor (Z.shiftl (be_get32 b) 32) (be_get32 (drop 4 b)))
                  (Z.lor (Z.shiftl (be_get32 (drop 8 b)) 32) (be_get32 (drop 12 b))) in
  wf128 H /\ val H = int b.
Proof.
  intros [HL Hb] H. pose proof (Forall_drop _ 8 _ Hb) as Hd.
  destruct (be_get64 b) as [E1 R1]; [lia|exact Hb|].
  destruct (be_get64 (drop 8 b)) as [E2 R2]; [rewrite length_drop; lia|exact Hd|].
  rewrite drop_drop in E2. change (8 + 4)%nat with 12%nat in E2.
  assert (W : wf128 H) by (split; cbn [hi lo H]; [rewrite E1; exact R1|rewrite E2; exact R2]).
  split; [exact W|]. rewrite (val_sum H W). cbn [hi lo H]. rewrite E1, E2.
  rewrite (firstn_all2 (drop 8 b)) by (rewrite length_drop; lia).
  rewrite <-(take_drop 8 b) at 3. rewrite int_app, length_drop. do 3 f_equal. lia.
Qed.

(** The multiplication in a context whose subkey is the cipher of the zero block. *)
Lemma gmult_subkey blk X :
  typed 16 (blk (replicate 16 0)) -> typed 16 X ->
  gcm_gmult_4bit X (Htable (CRYPTO_gcm128_init blk)) = mul_block (subkey blk) X.
Proof.
  intros Hb HX. destruct (init_subkey _ Hb) as [W V].
  unfold mul_block, subkey. rewrite <-V. apply gmult_ok; [exact HX|].
  apply init_table; [reflexivity|exact W].
Qed.

(** (equivalence) The multiplication with 4-bit tables is the product of the
    field: whatever the table held before, [gcm_init_4bit] fills it from [H] so
    that [gcm_gmult_4bit] maps every block X to X times H in GF(2^128), as
    algorithm 1 of SP 800-38D computes it bit by bit. *)
Theorem gmult_4bit_product X T H :
  typed 16 X -> length T = 16%nat -> wf128 H ->
  gcm_gmult_4bit X (gcm_init_4bit T H) = str 16 (gmul (int X) (val H)).
Proof. intros HX HT HH. apply gmult_ok; [exact HX|]. by apply init_table. Qed.

(** A small cipher for the witnesses. *)
Definition ex_cipher (b : bytes) : bytes := map (fun x => Z.lxor (u8 x) 102) (take 16 b).
Lemma ex_cipher_typed b : typed 16 b -> typed 16 (ex_cipher b).
Proof.
  intros [HL Hb]. unfold ex_cipher. rewrite firstn_all2 by lia. split; [by rewrite length_map|].
  apply Forall_map, Forall_true. intros x. unfold compose, is_byte.
  apply (lxor_range _ _ 8); [lia|apply u8_range|lia].
Qed.
Definition ex_X : bytes := map Z.of_nat (seq 1 16).

Definition ex_H : u128 := mkU128 (2 ^ 63 + 17) 81985529216486895.

Lemma gmult_4bit_product_witness :
  typed 16 ex_X /\ wf128 ex_H /\
  gcm_gmult_4bit ex_X (gcm_init_4bit (replicate 16 zero128) ex_H) = str 16 (gmul (int ex_X) (val ex_H)).
Proof.
  assert (HX : typed 16 ex_X) by (split; [done|repeat constructor; lia]).
  assert (HH : wf128 ex_H) by (split; cbn [hi lo ex_H]; lia).
  split; [exact HX|]. split; [exact HH|].
  exact (gmult_4bit_product ex_X (replicate 16 zero128) ex_H HX eq_refl HH).
Defined.
