(* ===== verification/GcmStream.v ===== *)
(** * The incremental interface of Galois/counter mode

    [CRYPTO_gcm128_setiv], [CRYPTO_gcm128_aad], [CRYPTO_gcm128_encrypt],
    [CRYPTO_gcm128_decrypt], [CRYPTO_gcm128_finish] and [CRYPTO_gcm128_tag] against
    the functions of SP 800-38D, for any block cipher and any way of cutting the
    additional data and the message into pieces.  [feed] is the hash one byte at a
    time, which both the block loop over the additional data and the byte loop
    over the message reduce to; [ks] is the key stream by position. *)
From stdpp Require Import base list.
From Stdlib Require Import ZArith Lia Zify ZifyNat.
From S2P Require Import Prelude Gcm.
Import Sp800_38d.
#[local] Open Scope Z_scope.
#[local] Ltac Zify.zify_post_hook ::= Z.to_euclidean_division_equations.

(** ** Strings *)
Section Xor.
Lemma length_xor a b : length (xor a b) = (length a `min` length b)%nat.
Proof. revert b. induction a as [|x a IH]; intros [|y b]; cbn [xor length]; [done..|]. by rewrite IH. Qed.
Lemma xor_bytes_all a b : all_bytes a -> all_bytes b -> all_bytes (xor a b).
Proof.
  intros Ha. revert b. induction Ha as [|x a Hx Ha IH]; intros b Hb; [constructor|].
  destruct Hb as [|y b Hy Hb]; cbn [xor]; [constructor|]. constructor; [by apply byte_lxor|by apply IH].
Qed.
Lemma typed_block_xor n a b : typed n a -> typed n b -> typed n (xor a b).
Proof. intros [L1 H1] [L2 H2]. split; [rewrite length_xor; lia|by apply xor_bytes_all]. Qed.
Lemma xor_app a a' b b' : length a = length b -> xor (a ++ a') (b ++ b') = xor a b ++ xor a' b'.
Proof.
  revert b. induction a as [|x a IH]; intros [|y b] HL; cbn in HL; [done|lia|lia|].
  cbn [app xor]. by rewrite IH by lia.
Qed.
Lemma xor_zeros a n : (length a <= n)%nat -> xor a (replicate n 0) = a.
Proof.
  revert n. induction a as [|x a IH]; intros [|n] HL; cbn in HL; [done|done|lia|].
  cbn [replicate xor]. by rewrite Z.lxor_0_r, IH by lia.
Qed.

Lemma length_xor_at X n v : length (xor_at X n v) = length X.
Proof. apply length_insert. Qed.
Lemma byte_nth X n : all_bytes X -> is_byte (nth n X 0).
Proof.
  intros HX. destruct (nth_in_or_default n X 0) as [Hin| ->]; [|unfold is_byte; lia].
  rewrite <-list_elem_of_In in Hin. by eapply (proj1 (Forall_forall _ _) HX).
Qed.
Lemma typed_xor_at m X n v : typed m X -> is_byte v -> typed m (xor_at X n v).
Proof.
  intros [HL HX] Hv. split; [by rewrite length_xor_at|].
  apply Forall_insert; [done|]. apply byte_lxor; [by apply byte_nth|done].
Qed.

(** The loop over [src] is the sum with the bytes from [i] on. *)
Lemma xor_into_app i src X : (i + length src <= length X)%nat ->
  xor_into i src X = take i X ++ xor (take (length src) (drop i X)) src ++ drop (i + length src) X.
Proof.
  revert i X. induction src as [|v src IH]; intros i X HL.
  - cbn [xor_into length]. rewrite Nat.add_0_r, take_0. cbn [xor app]. by rewrite take_drop.
  - cbn [xor_into length] in *. rewrite IH by (rewrite length_xor_at; lia).
    unfold xor_at. rewrite insert_take_drop by lia.
    assert (Ht : length (take i X) = i) by (rewrite length_take; lia).
    rewrite take_app_ge, drop_app_ge, drop_app_ge by lia.
    rewrite Ht. replace (S i - i)%nat with 1%nat by lia.
    replace (S i + length src - i)%nat with (S (length src)) by lia. cbn [take drop].
    rewrite take_0, drop_drop. rewrite <-app_assoc. cbn [app]. f_equal.
    assert (HD : drop i X = nth i X 0 :: drop (S i) X).
    { apply drop_S. destruct (nth_lookup_or_length X i 0) as [E|]; [exact E|lia]. }
    rewrite HD. cbn [take xor app]. rewrite Nat.add_0_r, drop_drop. do 3 f_equal. lia.
Qed.
Lemma xor_into_all src X : length src = length X -> xor_into 0 src X = xor X src.
Proof.
  intros HL. rewrite xor_into_app by lia. cbn [take app]. rewrite drop_0, HL.
  rewrite firstn_all, drop_ge by lia. apply app_nil_r.
Qed.
End Xor.

(** ** Blocks *)
Section Blocks.
Lemma chunks_fuel n m b : (length b <= n)%nat -> (length b <= m)%nat -> chunks n b = chunks m b.
Proof.
  revert m b. induction n as [|n IH]; intros [|m] [|x b] H1 H2; cbn in H1, H2; try lia; [done..|].
  cbn [chunks]. f_equal. apply IH; rewrite length_drop; cbn [length]; lia.
Qed.
Lemma blocks_step b : b <> [] -> blocks b = take 16 b :: blocks (drop 16 b).
Proof.
  intros Hb. destruct b as [|x b]; [done|]. unfold blocks. cbn [length chunks]. f_equal.
  apply chunks_fuel; rewrite length_drop; cbn [length]; lia.
Qed.

(** Induction over the blocks of a string. *)
Lemma block_ind (P : bytes -> Prop) :
  (forall b, (length b < 16)%nat -> P b) ->
  (forall a b, length a = 16%nat -> P b -> P (a ++ b)) -> forall b, P b.
Proof.
  intros H0 HS b. remember (length b) as n eqn:HL. revert b HL.
  induction n as [n IH] using lt_wf_ind; intros b ->.
  destruct (decide (length b < 16)%nat) as [Hlt|Hge]; [by apply H0|].
  rewrite <-(take_drop 16 b). apply HS; [rewrite length_take; lia|].
  apply (IH (length (drop 16 b))); [rewrite length_drop; lia|done].
Qed.

Lemma blocks_cons a b : length a = 16%nat -> blocks (a ++ b) = a :: blocks b.
Proof.
  intros HL. rewrite blocks_step by (destruct a; [discriminate HL|discriminate]).
  rewrite take_app_le, drop_app_ge, HL, Nat.sub_diag, drop_0 by lia.
  by rewrite firstn_all2 by lia.
Qed.
Lemma data_blocks_app a b : (length a mod 16 = 0)%nat -> blocks (a ++ b) = blocks a ++ blocks b.
Proof.
  induction a as [a Ha|a1 a2 H1 IH] using block_ind; intros HL.
  - rewrite Nat.mod_small in HL by lia. by apply nil_length_inv in HL as ->.
  - rewrite length_app, H1 in HL.
    assert (HL2 : (length a2 mod 16 = 0)%nat).
    { replace (16 + length a2)%nat with (length a2 + 1 * 16)%nat in HL by lia.
      by rewrite Nat.Div0.mod_add in HL. }
    rewrite <-app_assoc, (blocks_cons a1 a2 H1), (blocks_cons a1 _ H1), (IH HL2). reflexivity.
Qed.
Lemma data_blocks_one a : length a = 16%nat -> blocks a = [a].
Proof. intros HL. rewrite <-(app_nil_r a) at 1. by rewrite blocks_cons. Qed.
Lemma pad16_whole b : (length (pad16 b) mod 16 = 0)%nat.
Proof.
  unfold pad16. rewrite length_app, length_replicate.
  pose proof (Nat.mod_upper_bound (length b) 16). pose proof (Nat.div_mod_eq (length b) 16).
  destruct (decide (length b mod 16 = 0)%nat) as [Hz|Hz].
  - rewrite Hz. change ((16 - 0) mod 16)%nat with 0%nat. by rewrite Nat.add_0_r.
  - rewrite (Nat.mod_small (16 - _)) by lia.
    replace (length b + _)%nat with (0 + (length b / 16 + 1) * 16)%nat by lia.
    by rewrite Nat.Div0.mod_add.
Qed.
Lemma pad16_app a b : length a = 16%nat -> pad16 (a ++ b) = a ++ pad16 b.
Proof.
  intros HL. unfold pad16. rewrite length_app, HL, <-app_assoc. do 4 f_equal.
  replace (16 + length b)%nat with (length b + 1 * 16)%nat by lia. by rewrite Nat.Div0.mod_add.
Qed.
End Blocks.

(** ** The hash, byte by byte *)
Section Feed.
Context (h : bytes).

Definition feed_step (s : bytes * nat) (x : Z) : bytes * nat :=
  let X := xor_at (s.1) (s.2) x in
  let n := ((s.2 + 1) mod 16)%nat in
  (if Nat.eqb n 0 then mul_block h X else X, n).
Definition feed (s : bytes * nat) (d : bytes) : bytes * nat := fold_left feed_step d s.

Lemma feed_app s a b : feed s (a ++ b) = feed (feed s a) b.
Proof. apply fold_left_app. Qed.
Lemma feed_cons s x d : feed s (x :: d) = feed (feed_step s x) d.
Proof. done. Qed.

Lemma feed_pos X n d : (n < 16)%nat -> (feed (X, n) d).2 = ((n + length d) mod 16)%nat.
Proof.
  revert X n. induction d as [|x d IH]; intros X n Hn.
  - cbn [feed fold_left length snd]. by rewrite Nat.add_0_r, Nat.mod_small.
  - rewrite feed_cons. unfold feed_step. cbn [fst snd].
    rewrite IH by (apply Nat.mod_upper_bound; lia). cbn [length].
    rewrite Nat.Div0.add_mod_idemp_l. f_equal. lia.
Qed.

Lemma feed_typed X n d : typed 16 X -> all_bytes d -> typed 16 (feed (X, n) d).1.
Proof.
  intros HX Hd. revert X n HX. induction Hd as [|x d Hx Hd IH]; intros X n HX; [done|].
  rewrite feed_cons. apply IH. destruct (Nat.eqb _ 0); [apply str_typed|by apply typed_xor_at].
Qed.

(** Inside a block, and up to its end. *)
Lemma feed_part X n d : (n + length d < 16)%nat -> feed (X, n) d = (xor_into n d X, (n + length d)%nat).
Proof.
  revert X n. induction d as [|x d IH]; intros X n HL; cbn [length] in *.
  - cbn [feed fold_left xor_into]. by rewrite Nat.add_0_r.
  - rewrite feed_cons. unfold feed_step. cbn [fst snd].
    rewrite Nat.mod_small by lia. destruct (Nat.eqb (n + 1) 0) eqn:E; [apply Nat.eqb_eq in E; lia|].
    rewrite IH by lia. rewrite Nat.add_1_r. cbn [xor_into]. f_equal. lia.
Qed.
Lemma feed_end X n d : d <> [] -> (n + length d = 16)%nat ->
  feed (X, n) d = (mul_block h (xor_into n d X), 0%nat).
Proof.
  revert X n. induction d as [|x d IH]; intros X n Hd HL; [done|]. cbn [length] in HL.
  destruct d as [|y d].
  - cbn [length] in HL. rewrite feed_cons. unfold feed_step. cbn [fst snd].
    replace (n + 1)%nat with 16%nat by lia. change (16 mod 16)%nat with 0%nat. done.
  - rewrite feed_cons. unfold feed_step. cbn [fst snd].
    rewrite Nat.mod_small by (cbn [length] in HL; lia).
    destruct (Nat.eqb (n + 1) 0) eqn:E; [apply Nat.eqb_eq in E; lia|].
    rewrite IH by (done || lia). rewrite Nat.add_1_r. done.
Qed.
Lemma feed_block X d : length X = 16%nat -> length d = 16%nat ->
  feed (X, 0%nat) d = (mul_block h (xor X d), 0%nat).
Proof.
  intros HX Hd. rewrite feed_end by (lia || (destruct d; [discriminate Hd|discriminate])).
  by rewrite xor_into_all by lia.
Qed.

(** The hash of a padded string. *)
Definition close (s : bytes * nat) : bytes := if Nat.eqb s.2 0 then s.1 else mul_block h s.1.

Lemma ghash_pad Y d : typed 16 Y -> GHASH_from h Y (blocks (pad16 d)) = close (feed (Y, 0%nat) d).
Proof.
  revert Y. induction d as [d Hd|a d Ha IH] using block_ind; intros Y HY.
  - rewrite feed_part by lia. cbn [Nat.add]. unfold close. cbn [fst snd]. unfold pad16.
    destruct (Nat.eqb (length d) 0) eqn:E; [apply Nat.eqb_eq, nil_length_inv in E as ->; done|].
    apply Nat.eqb_neq in E. rewrite (Nat.mod_small (length d)), Nat.mod_small by lia.
    rewrite data_blocks_one by (rewrite length_app, length_replicate; lia).
    unfold GHASH_from. cbn [fold_left]. f_equal. destruct HY as [HL _].
    rewrite xor_into_app by lia. rewrite take_0, drop_0. cbn [app Nat.add].
    rewrite <-(take_drop (length d) Y) at 1. rewrite xor_app by (rewrite length_take; lia).
    f_equal. apply xor_zeros. rewrite length_drop. lia.
  - rewrite pad16_app, blocks_cons by done. unfold GHASH_from. cbn [fold_left].
    rewrite feed_app, feed_block by (done || apply HY). apply IH, str_typed.
Qed.
End Feed.

(** ** The key stream *)
Section KeyStream.
Context (blk : bytes -> bytes) (blk_typed : forall b, typed 16 b -> typed 16 (blk b)).

Definition counter (ICB : bytes) (i : nat) : bytes := Nat.iter i inc32 ICB.
Definition ks (ICB : bytes) (i : nat) : Z := nth (i mod 16) (blk (counter ICB (i / 16))) 0.

Lemma inc32_typed b : typed 16 b -> typed 16 (inc32 b).
Proof.
  intros [HL Hb]. unfold inc32. split.
  - rewrite length_app, length_take, length_str. lia.
  - apply Forall_app. split; [by apply Forall_take|apply str_typed].
Qed.
Lemma counter_typed b i : typed 16 b -> typed 16 (counter b i).
Proof. intros Hb. induction i as [|i IH]; [done|]. cbn. by apply inc32_typed. Qed.
Lemma counter_S b i : counter (inc32 b) i = counter b (S i).
Proof. unfold counter. by rewrite Nat.iter_succ_r. Qed.
Lemma ks_next ICB i : ks ICB (16 + i) = ks (inc32 ICB) i.
Proof.
  unfold ks. rewrite counter_S. f_equal; [lia|]. do 2 f_equal. lia.
Qed.

Lemma xor_imap X B : (length X <= length B)%nat ->
  xor X B = imap (fun i x => Z.lxor x (nth i B 0)) X.
Proof.
  revert B. induction X as [|x X IH]; intros [|y B] HL; cbn in HL; [done|done|lia|].
  cbn [xor imap]. f_equal. rewrite IH by lia. by apply imap_ext.
Qed.
Lemma xor_ks X ICB : typed 16 ICB -> (length X <= 16)%nat ->
  xor X (blk ICB) = imap (fun i x => Z.lxor x (ks ICB i)) X.
Proof using blk_typed.
  intros HI HL. destruct (blk_typed ICB HI) as [HB _]. rewrite xor_imap by lia.
  apply imap_ext. intros i x Hx. apply lookup_lt_Some in Hx. unfold ks.
  by rewrite Nat.mod_small, Nat.div_small by lia.
Qed.

Lemma gctr_ks X ICB : typed 16 ICB -> GCTR blk ICB X = imap (fun i x => Z.lxor x (ks ICB i)) X.
Proof using blk_typed.
  unfold GCTR. revert ICB. induction X as [X HX|A X HA IH] using block_ind; intros ICB HI.
  - destruct X as [|x X]; [done|]. rewrite blocks_step, take_ge, drop_ge by (done || lia).
    cbn [gctr blocks chunks length]. rewrite app_nil_r. apply xor_ks; [done|lia].
  - rewrite blocks_cons by done. cbn [gctr]. rewrite imap_app, IH by by apply inc32_typed.
    rewrite xor_ks by (done || lia). f_equal. apply imap_ext. intros i x _. cbn.
    by rewrite HA, ks_next.
Qed.
Lemma length_gctr X ICB : typed 16 ICB -> length (GCTR blk ICB X) = length X.
Proof using blk_typed. intros. by rewrite gctr_ks, length_imap. Qed.
(** Applying the key stream twice gives the message back. *)
Lemma gctr_involutive X ICB : typed 16 ICB -> GCTR blk ICB (GCTR blk ICB X) = X.
Proof using blk_typed.
  intros HI. rewrite !gctr_ks by done. apply list_eq. intros i.
  rewrite !list_lookup_imap. destruct (X !! i); [|done]. cbn.
  by rewrite Z.lxor_assoc, Z.lxor_nilpotent, Z.lxor_0_r.
Qed.
Lemma ks_byte ICB i : typed 16 ICB -> is_byte (ks ICB i).
Proof using blk_typed. intros. apply byte_nth, blk_typed. by apply counter_typed. Qed.
End KeyStream.

(** ** The code *)
Section Code.
Context (blk : bytes -> bytes) (blk_typed : forall b, typed 16 b -> typed 16 (blk b)).
Abbreviation h := (subkey blk).

(** A context made from the cipher. *)
Definition made (c : GCM128_CONTEXT) : Prop :=
  Htable c = Htable (CRYPTO_gcm128_init blk) /\ block c = blk.

Lemma zeros_typed : typed 16 (replicate 16 0).
Proof. split; [done|]. repeat constructor; lia. Qed.
Lemma GCM_MUL_ok c : made c -> typed 16 (Xi c) -> GCM_MUL c = set_Xi c (mul_block h (Xi c)).
Proof using blk_typed.
  intros [HT _] HX. unfold GCM_MUL. rewrite HT, gmult_subkey; [done|apply blk_typed, zeros_typed|done].
Qed.

Lemma set_Xi_id c : set_Xi c (Xi c) = c.
Proof. by destruct c. Qed.

(** The block loop feeds whole blocks. *)
Lemma absorb_ok d c fuel : (length d <= fuel)%nat -> made c -> typed 16 (Xi c) -> all_bytes d ->
  exists rest, absorb_blocks fuel d c = (rest, set_Xi c (feed h (Xi c, 0%nat) (take (16 * (length d / 16)) d)).1)
    /\ rest = drop (16 * (length d / 16)) d.
Proof using blk_typed.
  revert c fuel. induction d as [d Hd|a d Ha IH] using block_ind; intros c fuel HF Hm HX Hb.
  - exists d. rewrite Nat.div_small by done. cbn [Nat.mul]. rewrite take_0, drop_0.
    cbn [feed fold_left fst]. rewrite set_Xi_id.
    split; [|done]. destruct fuel; cbn [absorb_blocks]; [done|].
    destruct (Nat.leb 16 (length d)) eqn:E; [apply Nat.leb_le in E; lia|done].
  - apply Forall_app in Hb as [Hba Hbd].
    rewrite length_app, Ha in *. destruct fuel as [|fuel]; [lia|]. cbn [absorb_blocks].
    rewrite length_app, Ha. change (Nat.leb 16 (16 + length d)) with true. cbv iota.
    rewrite take_app_le, firstn_all2, drop_app_ge, Ha, Nat.sub_diag, drop_0 by lia.
    rewrite xor_into_all by (rewrite Ha; symmetry; apply HX).
    assert (HX2 : typed 16 (xor (Xi c) a)) by (by apply typed_block_xor).
    rewrite GCM_MUL_ok by done. cbn [Xi set_Xi].
    edestruct (IH (set_Xi (set_Xi c (xor (Xi c) a)) (mul_block h (xor (Xi c) a))) fuel)
      as (rest & HE & Hr); [lia|exact Hm|apply str_typed|done|].
    exists rest. rewrite HE. cbn [Xi set_Xi].
    replace (16 * ((16 + length d) / 16))%nat with (16 + 16 * (length d / 16))%nat by lia.
    rewrite take_app_ge, drop_app_ge, Ha by lia.
    replace (16 + 16 * (length d / 16) - 16)%nat with (16 * (length d / 16))%nat by lia. split; [|done].
    rewrite feed_app, (feed_block h (Xi c) a (proj1 HX) Ha). reflexivity.
Qed.

Lemma absorb_rest d c : made c -> typed 16 (Xi c) -> all_bytes d ->
  exists rest Y, absorb_blocks (length d) d c = (rest, set_Xi c Y) /\ typed 16 Y /\
    (length rest < 16)%nat /\ all_bytes rest /\ feed h (Xi c, 0%nat) d = (xor_into 0 rest Y, length rest).
Proof using blk_typed.
  intros Hm HX Hd. destruct (absorb_ok d c (length d)) as (rest & HE & Hr); [lia|done..|].
  assert (HL : (length rest < 16)%nat) by (rewrite Hr, length_drop; lia).
  eexists rest, _. split; [exact HE|]. split; [apply feed_typed; [done|by apply Forall_take]|].
  split; [done|]. split; [rewrite Hr; by apply Forall_drop|].
  rewrite <-(take_drop (16 * (length d / 16)) d) at 1. rewrite feed_app, <-Hr.
  set (d1 := take _ d). pose proof (feed_pos h (Xi c) 0 d1 ltac:(lia)) as HP.
  destruct (feed h (Xi c, 0%nat) d1) as [Y n]. cbn [fst snd] in *.
  assert (n = 0%nat) as -> by (rewrite HP; unfold d1; rewrite length_take; lia).
  rewrite feed_part by done. done.
Qed.

(** Filling a block that was begun. *)
Lemma fill_part n d X : (0 < n)%nat -> (n + length d < 16)%nat ->
  aad_fill n d X = ((n + length d)%nat, [], xor_into n d X).
Proof.
  revert n X. induction d as [|x d IH]; intros n X Hn HL; cbn [length aad_fill xor_into] in *.
  - by rewrite Nat.add_0_r.
  - destruct (Nat.eqb n 0) eqn:E; [apply Nat.eqb_eq in E; lia|].
    rewrite (Nat.mod_small (n + 1)), IH by lia. do 2 f_equal; [lia|]. by rewrite Nat.add_1_r.
Qed.
Lemma fill_end n d r X : (0 < n < 16)%nat -> (n + length d = 16)%nat ->
  aad_fill n (d ++ r) X = (0%nat, r, xor_into n d X).
Proof.
  revert n X. induction d as [|x d IH]; intros n X Hn HL; cbn [length app aad_fill xor_into] in *.
  - lia.
  - destruct (Nat.eqb n 0) eqn:E; [apply Nat.eqb_eq in E; lia|]. destruct d as [|y d].
    + cbn [length] in HL. replace n with 15%nat by lia. cbn [app xor_into].
      change ((15 + 1) mod 16)%nat with 0%nat. by destruct r.
    + rewrite (Nat.mod_small (n + 1)), IH by (cbn [length] in *; lia). by rewrite Nat.add_1_r.
Qed.

Lemma typed_xor_into m i d X : typed m X -> all_bytes d -> typed m (xor_into i d X).
Proof.
  intros HX Hd. revert i X HX. induction Hd as [|x d Hx Hd IH]; intros i X HX; [done|].
  cbn [xor_into]. by apply IH, typed_xor_at.
Qed.
Lemma fill_data_block n d X :
  (0 < n < 16)%nat -> (16 <= n + length d)%nat -> all_bytes d -> typed 16 X ->
  exists d2 X1, aad_fill n d X = (0%nat, d2, X1) /\
    feed h (X, n) d = feed h (mul_block h X1, 0%nat) d2 /\ all_bytes d2 /\ typed 16 X1.
Proof.
  intros Hn HL Hd HX. set (k := (16 - n)%nat).
  assert (HK : length (take k d) = k) by (rewrite length_take; lia).
  exists (drop k d), (xor_into n (take k d) X).
  assert (HN : take k d <> []) by (intros HE; rewrite HE in HK; cbn in HK; lia).
  assert (HD : d = take k d ++ drop k d) by (by rewrite take_drop).
  split; [rewrite HD at 1; rewrite fill_end by lia; done|].
  split; [rewrite HD at 1; rewrite feed_app, feed_end by (done || lia); done|].
  split; [by apply Forall_drop|].
  apply typed_xor_into; [done|by apply Forall_take].
Qed.

(** The additional data is fed to the hash. *)
Lemma aad_run c d :
  made c -> typed 16 (Xi c) -> all_bytes d -> (ares c < 16)%nat -> len1 c = 0 ->
  0 <= len0 c -> len0 c + zlen d <= 2 ^ 61 ->
  let '(X, n) := feed h (Xi c, ares c) d in
  CRYPTO_gcm128_aad c d = (0, set_res (set_Xi (set_len c (len0 c + zlen d) 0) X) (mres c) n).
Proof using blk_typed.
  intros Hm HX Hd Ha H1 H0 HB. unfold CRYPTO_gcm128_aad. rewrite H1, u64_small by lia.
  change (negb (0 =? 0)) with false. cbv iota.
  guard_false. cbn [ares set_len mres].
  destruct (Nat.eqb (ares c) 0) eqn:E0; cbn [negb andb].
  - apply Nat.eqb_eq in E0. rewrite E0.
    assert (HF : aad_fill 0 d (Xi c) = (0%nat, d, Xi c)) by (by destruct d).
    cbn [Xi set_len]. rewrite HF. cbv iota.
    destruct (absorb_rest d (set_len c (len0 c + zlen d) 0)) as (rest & Y & -> & HY & HL & Hr & HE);
      [done..|]. cbn [Xi set_len] in HE. rewrite HE.
    destruct rest as [|v rest]; [done|]. reflexivity.
  - apply Nat.eqb_neq in E0. cbn [Xi set_len].
    destruct (decide (ares c + length d < 16)%nat) as [Hlt|Hge].
    + rewrite feed_part, fill_part by lia. cbv iota.
      destruct (Nat.eqb (ares c + length d) 0) eqn:E1; [apply Nat.eqb_eq in E1; lia|]. reflexivity.
    + destruct (fill_data_block (ares c) d (Xi c)) as (d2 & X1 & HF & HE1 & H2 & HX1); [lia|lia|done|done|].
      rewrite HF, HE1. cbn [Nat.eqb negb andb]. rewrite GCM_MUL_ok by done. cbn [Xi set_Xi].
      edestruct (absorb_rest d2 (set_Xi (set_Xi (set_len c (len0 c + zlen d) 0) X1) (mul_block h X1)))
        as (rest & Y & -> & HY & HL & Hr & HE); [exact Hm|apply str_typed|done|].
      cbn [Xi set_len set_Xi] in HE. rewrite HE. destruct rest as [|v rest]; reflexivity.
Qed.

(** The end of a padded string, in the code. *)
Lemma close_ok d c : made c -> typed 16 (Xi c) -> all_bytes d ->
  exists rest c1, absorb_blocks (length d) d c = (rest, c1) /\
    (if Nat.eqb (length rest) 0 then c1 else GCM_MUL (set_Xi c1 (xor_into 0 rest (Xi c1))))
    = set_Xi c (GHASH_from h (Xi c) (blocks (pad16 d))).
Proof using blk_typed.
  intros Hm HX Hd. destruct (absorb_rest d c Hm HX Hd) as (rest & Y & HA & HY & HL & Hr & HE).
  eexists _, _. split; [exact HA|]. rewrite ghash_pad, HE by done. unfold close. cbn [fst snd].
  destruct rest as [|v rest]; [done|]. set (r := v :: rest) in *. cbn [Xi set_Xi].
  replace (Nat.eqb (length r) 0) with false by done.
  rewrite GCM_MUL_ok; [done|done|]. cbn [Xi set_Xi]. by apply typed_xor_into.
Qed.
Lemma ghash_from_typed Y d : typed 16 Y -> typed 16 (GHASH_from h Y d).
Proof.
  revert Y. induction d as [|x d IH]; intros Y HY; [done|]. apply IH, str_typed.
Qed.
Lemma ghash_last Y d b : length b = 16%nat -> typed 16 Y ->
  GHASH_from h Y (blocks (pad16 d ++ b)) = mul_block h (xor (GHASH_from h Y (blocks (pad16 d))) b).
Proof.
  intros HL HY. rewrite data_blocks_app by apply pad16_whole. unfold GHASH_from at 1.
  by rewrite fold_left_app, data_blocks_one by done.
Qed.

Lemma put_ctr_inc Y : put_ctr Y (u32 (int (drop 12 Y) + 1)) = inc32 Y.
Proof. unfold put_ctr, inc32. by rewrite be_put32_str. Qed.
Lemma put64_str v :
  [Prelude.u8 (Z.shiftr v 56); u8 (Z.shiftr v 48); u8 (Z.shiftr v 40); u8 (Z.shiftr v 32);
   u8 (Z.shiftr v 24); u8 (Z.shiftr v 16); u8 (Z.shiftr v 8); u8 v] = str 8 v.
Proof.
  unfold str. cbn [le_bytes rev app]. rewrite !Z.shiftr_div_pow2 by lia.
  by rewrite !Zdiv.Zdiv_Zdiv by lia.
Qed.
Lemma xor_upper X l : typed 16 X -> length l = 8%nat -> xor_into 8 l X = xor X (replicate 8 0 ++ l).
Proof.
  intros [HL _] Hl. rewrite xor_into_app, Hl by lia. rewrite (drop_ge X (8 + 8)) by lia. rewrite app_nil_r.
  rewrite <-(take_drop 8 X) at 3. rewrite xor_app by (rewrite length_take, length_replicate; lia).
  rewrite xor_zeros by (rewrite length_take; lia). f_equal. f_equal.
  apply firstn_all2. rewrite length_drop. lia.
Qed.
Lemma int_1 : int [0; 0; 0; 1] = 1. Proof. done. Qed.

Lemma J0_typed iv : all_bytes iv -> typed 16 (J0 blk iv).
Proof.
  intros Hiv. unfold J0. destruct (Nat.eqb (length iv) 12) eqn:E.
  - apply Nat.eqb_eq in E. split; [rewrite length_app, E; done|].
    apply Forall_app. split; [done|]. repeat constructor; lia.
  - apply ghash_from_typed, zeros_typed.
Qed.

(** The initial counter block of both kinds of IV. *)
Lemma setiv_run c iv : made c -> all_bytes iv -> zlen iv < 2 ^ 61 ->
  CRYPTO_gcm128_setiv c iv
  = mkGcm128 (inc32 (J0 blk iv)) (EKi c) (blk (J0 blk iv)) 0 0 (replicate 16 0) (Hu c) (Htable c) 0 0 blk.
Proof using blk_typed.
  intros Hm Hiv HB. pose proof Hm as [_ Hblk]. unfold CRYPTO_gcm128_setiv, J0.
  destruct (Nat.eqb (length iv) 12) eqn:E.
  - apply Nat.eqb_eq in E. cbn. rewrite Hblk. f_equal.
    rewrite <-put_ctr_inc. unfold put_ctr. rewrite drop_app_ge, E by lia.
    change (drop (12 - 12) [0; 0; 0; 1]) with [0; 0; 0; 1]. rewrite int_1, <-Hblk. reflexivity.
  - cbv zeta.
    destruct (close_ok iv (set_Xi (set_res (set_len c 0 0) 0 0) (replicate 16 0)))
      as (rest & c1 & -> & ->); [done|apply zeros_typed|done|].
    cbn [Xi set_Xi]. set (Y := GHASH_from _ _ _).
    assert (HY : typed 16 Y) by (apply ghash_from_typed, zeros_typed).
    rewrite put64_str, xor_upper by (done || apply length_str).
    assert (HX : typed 16 (xor Y (replicate 8 0 ++ str 8 (u64 (Z.shiftl (zlen iv) 3))))).
    { apply typed_block_xor; [done|]. split; [by rewrite length_app, length_str|].
      apply Forall_app. split; [repeat constructor; lia|apply str_typed]. }
    rewrite GCM_MUL_ok by done. cbn [Xi set_Xi Yi set_stream EKi block set_EK0].
    rewrite Z.shiftl_mul_pow2, u64_small by lia. unfold GHASH.
    rewrite ghash_last by (apply zeros_typed || (rewrite length_app, length_str; done)).
    fold Y. replace (8 * zlen iv) with (zlen iv * 2 ^ 3) by lia.
    set (m := mul_block _ _). assert (HM : typed 16 m) by apply str_typed. destruct HM as [M1 M2].
    rewrite be_get32_int; [|rewrite length_drop; lia|by apply Forall_drop].
    rewrite firstn_all2 by (rewrite length_drop; lia).
    rewrite put_ctr_inc, <-Hblk. reflexivity.
Qed.

(** Both directions at once: [f x o] is the byte that is hashed. *)
Fixpoint crypt_bytes (f : Z -> Z -> Z) (inp : bytes) (n : nat) (ctr : Z) (m : nat)
  (c : GCM128_CONTEXT) : bytes * nat * GCM128_CONTEXT :=
  match inp with
  | [] => ([], m, c)
  | x :: inp =>
      let '(c, ctr) := if Nat.eqb n 0 then next_block c ctr else (c, ctr) in
      let o := Z.lxor x (nth n (EKi c) 0) in
      let c := set_Xi c (xor_at (Xi c) n (f x o)) in
      let n := ((n + 1) mod 16)%nat in
      let c := if Nat.eqb n 0 then GCM_MUL c else c in
      let '(out, m, c) := crypt_bytes f inp n ctr n c in
      (o :: out, m, c)
  end.
Lemma encrypt_crypt inp n ctr m c : encrypt_bytes inp n ctr m c = crypt_bytes (fun _ o => o) inp n ctr m c.
Proof.
  revert n ctr m c. induction inp as [|x inp IH]; intros; [done|]. cbn [encrypt_bytes crypt_bytes].
  destruct (if Nat.eqb n 0 then _ else _). by rewrite IH.
Qed.
Lemma decrypt_crypt inp n ctr m c : decrypt_bytes inp n ctr m c = crypt_bytes (fun x _ => x) inp n ctr m c.
Proof.
  revert n ctr m c. induction inp as [|x inp IH]; intros; [done|]. cbn [decrypt_bytes crypt_bytes].
  destruct (if Nat.eqb n 0 then _ else _). by rewrite IH.
Qed.

(** The counter and the key stream after [p] bytes. *)
Definition stream_at (I : bytes) (p : nat) (c : GCM128_CONTEXT) : Prop :=
  Yi c = counter I ((p + 15) / 16) /\ ((p mod 16)%nat <> 0%nat -> EKi c = blk (counter I (p / 16))).
(** What a message does not change. *)
Definition framed (c c' : GCM128_CONTEXT) : Prop :=
  EK0 c' = EK0 c /\ len0 c' = len0 c /\ len1 c' = len1 c /\ Htable c' = Htable c /\ block c' = block c /\
  mres c' = mres c /\ ares c' = ares c.

Lemma next_block_ok c ctr I p :
  made c -> typed 16 I -> stream_at I p c -> (p mod 16 = 0)%nat -> ctr = int (drop 12 (Yi c)) ->
  next_block c ctr
  = (set_stream c (counter I (S (p / 16))) (blk (counter I (p / 16))),
     int (drop 12 (counter I (S (p / 16))))).
Proof.
  intros [_ Hb] HI [HY _] Hp ->. unfold next_block. rewrite put_ctr_inc, Hb.
  replace ((p + 15) / 16)%nat with (p / 16)%nat in HY by lia. rewrite HY.
  change (counter I (S (p / 16))) with (inc32 (counter I (p / 16))). do 2 f_equal.
  set (Y := counter _ _). pose proof (counter_typed I (p / 16) HI) as [HL _]. fold Y in HL.
  unfold inc32. rewrite drop_app_ge by (rewrite length_take; lia).
  rewrite length_take, HL. change (12 - 12 `min` 16)%nat with 0%nat.
  rewrite drop_0, int_str; [done|]. apply Z.mod_pos_bound. lia.
Qed.
(** One byte: the key stream is at hand after the refill. *)
Lemma refill_ok c I p :
  made c -> typed 16 I -> stream_at I p c ->
  let '(c1, ctr) := if Nat.eqb (p mod 16) 0 then next_block c (int (drop 12 (Yi c)))
                    else (c, int (drop 12 (Yi c))) in
  framed c c1 /\ Xi c1 = Xi c /\ nth (p mod 16) (EKi c1) 0 = ks blk I p /\
  stream_at I (S p) c1 /\ ctr = int (drop 12 (Yi c1)).
Proof.
  intros Hm HI Hs. destruct (Nat.eqb (p mod 16) 0) eqn:E.
  - apply Nat.eqb_eq in E. rewrite (next_block_ok c _ I p) by done.
    split; [done|]. cbn [Xi EKi Yi set_stream]. split; [done|]. split; [done|].
    split; [|done]. split; cbn [Yi EKi set_stream]; [f_equal; lia|].
    intros _. do 2 f_equal. lia.
  - apply Nat.eqb_neq in E. destruct Hs as [HY HE]. specialize (HE E).
    split; [done|]. split; [done|]. split; [unfold ks; by rewrite HE|]. split; [|done].
    split; [rewrite HY; f_equal; lia|]. intros Hn. rewrite HE. do 2 f_equal. lia.
Qed.

Lemma framed_trans c1 c2 c3 : framed c1 c2 -> framed c2 c3 -> framed c1 c3.
Proof.
  intros (A1 & A2 & A3 & A4 & A5 & A6 & A7) (B1 & B2 & B3 & B4 & B5 & B6 & B7).
  repeat split; congruence.
Qed.
Lemma framed_made c c' : framed c c' -> made c -> made c'.
Proof. intros (_ & _ & _ & HT & HB & _) [M1 M2]. split; congruence. Qed.

(** The rest of the step: the hash. *)
Lemma hash_byte c n v : made c -> typed 16 (Xi c) -> is_byte v ->
  let c1 := set_Xi c (xor_at (Xi c) n v) in
  let n' := ((n + 1) mod 16)%nat in
  (if Nat.eqb n' 0 then GCM_MUL c1 else c1) = set_Xi c (feed_step h (Xi c, n) v).1.
Proof using blk_typed.
  intros Hm HX Hv c1 n'. unfold feed_step. cbn [fst snd]. fold n'.
  destruct (Nat.eqb n' 0); [|done]. unfold c1. rewrite GCM_MUL_ok; [done|done|]. by apply typed_xor_at.
Qed.

Lemma crypt_bytes_ok f inp p c I :
  (forall x o, is_byte x -> is_byte o -> is_byte (f x o)) ->
  made c -> typed 16 (Xi c) -> typed 16 I -> all_bytes inp -> stream_at I p c ->
  let out := imap (fun i x => Z.lxor x (ks blk I (p + i))) inp in
  exists c', crypt_bytes f inp (p mod 16) (int (drop 12 (Yi c))) (p mod 16) c
               = (out, ((p + length inp) mod 16)%nat, c') /\
    framed c c' /\ stream_at I (p + length inp) c' /\
    feed h (Xi c, (p mod 16)%nat) (zip_with f inp out) = (Xi c', ((p + length inp) mod 16)%nat).
Proof using blk_typed.
  intros Hf Hm HX HI Hb. revert p c Hm HX. induction Hb as [|x inp Hx Hb IH]; intros p c Hm HX Hs.
  - exists c. cbn [length crypt_bytes]. rewrite Nat.add_0_r. done.
  - pose proof (refill_ok c I p Hm HI Hs) as HR. cbn [crypt_bytes].
    destruct (if Nat.eqb (p mod 16) 0 then _ else _) as [c1 ctr].
    destruct HR as (HF & HX1 & HK & Hs1 & ->). rewrite HK.
    set (o := Z.lxor x (ks blk I p)).
    assert (Ho : is_byte o) by (apply byte_lxor; [done|by apply ks_byte]).
    rewrite hash_byte by (rewrite ?HX1; eauto using framed_made). rewrite HX1.
    set (s1 := feed_step h (Xi c, (p mod 16)%nat) (f x o)).
    assert (Hs1t : typed 16 s1.1) by (apply (feed_typed h _ _ [f x o]); [done|by repeat constructor; apply Hf]).
    assert (Hn : ((p mod 16 + 1) mod 16 = S p mod 16)%nat) by lia. rewrite Hn.
    destruct (IH (S p) (set_Xi c1 s1.1)) as (c' & HE & HF' & Hs' & HFd); [|done|exact Hs1|].
    { by apply (framed_made c). }
    cbn [Yi set_Xi] in HE. rewrite HE. exists c'.
    replace (p + length (x :: inp))%nat with (S p + length inp)%nat by (cbn [length]; lia).
    assert (HO : imap (fun i y => Z.lxor y (ks blk I (p + i))) (x :: inp)
                 = o :: imap (fun i y => Z.lxor y (ks blk I (S p + i))) inp).
    { cbn [imap]. unfold o. rewrite Nat.add_0_r. f_equal. apply imap_ext. intros i y _. cbn.
      do 2 f_equal. lia. }
    cbv zeta. rewrite HO. split; [done|]. split; [by eapply framed_trans|]. split; [done|].
    cbn [zip_with]. rewrite feed_cons. fold s1. cbn [Xi set_Xi] in HFd.
    replace s1 with (s1.1, (S p mod 16)%nat) by (unfold s1, feed_step; cbn [fst snd]; by rewrite Hn).
    exact HFd.
Qed.

(** ** The states of a context

    After the IV whose initial counter block is [J]: while additional data [A] is
    taken in, and once ciphertext [C] has gone through, [l] bytes being counted. *)
Record at_aad (J A : bytes) (c : GCM128_CONTEXT) : Prop := {
  aad_made : made c; aad_bytes : all_bytes A;
  aad_hash : feed h (replicate 16 0, 0%nat) A = (Xi c, ares c);
  aad_len0 : len0 c = zlen A; aad_len1 : len1 c = 0; aad_mres : mres c = 0%nat;
  aad_Yi : Yi c = inc32 J; aad_EK0 : EK0 c = blk J }.
Record at_msg (J A C : bytes) (l : Z) (c : GCM128_CONTEXT) : Prop := {
  msg_made : made c; msg_abytes : all_bytes A; msg_cbytes : all_bytes C;
  msg_hash : feed h (GHASH_from h (replicate 16 0) (blocks (pad16 A)), 0%nat) C = (Xi c, mres c);
  msg_len0 : len0 c = zlen A; msg_len1 : len1 c = l; msg_ares : ares c = 0%nat;
  msg_stream : stream_at (inc32 J) (length C) c; msg_EK0 : EK0 c = blk J }.
Definition in_state (J A C : bytes) (c : GCM128_CONTEXT) : Prop :=
  (C = [] /\ at_aad J A c) \/ at_msg J A C (zlen C) c.

Lemma setiv_state c iv : made c -> all_bytes iv -> zlen iv < 2 ^ 61 ->
  at_aad (J0 blk iv) [] (CRYPTO_gcm128_setiv c iv).
Proof using blk_typed.
  intros Hm Hiv HB. rewrite setiv_run by done. destruct Hm as [HT HB'].
  constructor; try done. constructor.
Qed.

Lemma aad_Xi J A c : at_aad J A c -> typed 16 (Xi c) /\ ares c = (length A mod 16)%nat.
Proof.
  intros [Hm HA Hh _ _ _ _ _]. pose proof (feed_typed h _ 0 A zeros_typed HA) as HX.
  pose proof (feed_pos h (replicate 16 0) 0 A ltac:(lia)) as HP. rewrite Hh in HX, HP. done.
Qed.
Lemma aad_state J A d c : at_aad J A c -> all_bytes d -> zlen A + zlen d <= 2 ^ 61 ->
  exists c', CRYPTO_gcm128_aad c d = (0, c') /\ at_aad J (A ++ d) c'.
Proof using blk_typed.
  intros Ha Hd HB. destruct (aad_Xi J A c Ha) as [HX HP].
  destruct Ha as [Hm HA Hh H0 H1 Hr HY HE0].
  assert (Hlt : (ares c < 16)%nat) by (rewrite HP; lia).
  pose proof (aad_run c d Hm HX Hd Hlt H1) as HR. rewrite H0 in HR.
  specialize (HR ltac:(lia) HB). destruct (feed h (Xi c, ares c) d) as [X n] eqn:HE.
  eexists. split; [exact HR|]. constructor; try done.
  - by apply Forall_app.
  - by rewrite feed_app, Hh, HE.
  - cbn [len0 set_res set_Xi set_len]. rewrite length_app. lia.
Qed.

Lemma msg_Xi J A C l c : at_msg J A C l c -> typed 16 (Xi c) /\ mres c = (length C mod 16)%nat.
Proof.
  intros [Hm HA HC Hh _ _ _ _ _].
  pose proof (feed_typed h _ 0 C (ghash_from_typed _ (blocks (pad16 A)) zeros_typed) HC) as HX.
  pose proof (feed_pos h (GHASH_from h (replicate 16 0) (blocks (pad16 A))) 0 C ltac:(lia)) as HP.
  rewrite Hh in HX, HP. done.
Qed.

(** The end of the additional data. *)
Lemma aad_close J A c : at_aad J A c ->
  let c1 := if Nat.eqb (ares c) 0 then c else set_res (GCM_MUL c) (mres c) 0 in
  at_msg J A [] 0 c1.
Proof using blk_typed.
  intros Ha c1. destruct (aad_Xi J A c Ha) as [HX _]. destruct Ha as [Hm HA Hf H0 H1 Hr HY HE0].
  assert (Hh : GHASH_from h (replicate 16 0) (blocks (pad16 A)) = Xi c1).
  { rewrite ghash_pad, Hf by apply zeros_typed. unfold close. cbn [fst snd]. unfold c1.
    destruct (Nat.eqb (ares c) 0); [done|]. by rewrite GCM_MUL_ok. }
  assert (Hs : stream_at (inc32 J) 0 c1) by (split; [unfold c1; by destruct (Nat.eqb (ares c) 0)|done]).
  assert (Hc : made c1 /\ len0 c1 = zlen A /\ len1 c1 = 0 /\ ares c1 = 0%nat /\ mres c1 = 0%nat /\
               EK0 c1 = blk J).
  { unfold c1. destruct (Nat.eqb (ares c) 0) eqn:E; [apply Nat.eqb_eq in E|]; repeat split; try done;
      apply Hm. }
  destruct Hc as (M1 & M2 & M3 & M4 & M5 & M6).
  constructor; try done; [constructor|]. cbn [feed fold_left]. by rewrite Hh, M5.
Qed.

Lemma msg_set_len J A C l l' c : at_msg J A C l c -> at_msg J A C l' (set_len c (len0 c) l').
Proof. intros [? ? ? ? ? ? ? ? ?]. by constructor. Qed.

Lemma crypt_start_ok J A C c inp : in_state J A C c -> zlen C + zlen inp <= 2 ^ 36 - 32 ->
  exists c1, crypt_start c inp = Some c1 /\ at_msg J A C (zlen C + zlen inp) c1.
Proof using blk_typed.
  intros Hst HB. assert (H1 : len1 c = zlen C).
  { destruct Hst as [[-> Ha]|Hs]; [apply (aad_len1 _ _ _ Ha)|apply (msg_len1 _ _ _ _ _ Hs)]. }
  unfold crypt_start. rewrite H1, u64_small by lia. guard_false. eexists. split; [reflexivity|].
  destruct Hst as [[-> Ha]|Hs].
  - pose proof (aad_close J A c Ha) as Hc. apply (msg_set_len _ _ _ _ (zlen (@nil Z) + zlen inp)) in Hc.
    cbn [ares set_len]. by destruct (Nat.eqb (ares c) 0).
  - cbn [ares set_len]. rewrite (msg_ares _ _ _ _ _ Hs). by apply (msg_set_len _ _ _ (zlen C)).
Qed.

Lemma zip_bytes (f : Z -> Z -> Z) a b :
  (forall x o, is_byte x -> is_byte o -> is_byte (f x o)) ->
  all_bytes a -> all_bytes b -> all_bytes (zip_with f a b).
Proof.
  intros Hf Ha. revert b. induction Ha as [|x a Hx Ha IH]; intros b Hb; [constructor|].
  destruct Hb as [|y b Hy Hb]; cbn [zip_with]; constructor; [by apply Hf|by apply IH].
Qed.
Lemma out_bytes I p inp : typed 16 I -> all_bytes inp ->
  all_bytes (imap (fun i x => Z.lxor x (ks blk I (p + i))) inp).
Proof using blk_typed.
  intros HI Hb. apply Forall_lookup. intros i y. rewrite list_lookup_imap.
  destruct (inp !! i) as [x|] eqn:Ex; [|done]. cbn. intros [= <-].
  apply byte_lxor; [by eapply Forall_lookup_1|by apply ks_byte].
Qed.

(** A message goes through the loop. *)
Lemma crypt_state f J A C l c inp :
  (forall x o, is_byte x -> is_byte o -> is_byte (f x o)) -> typed 16 J ->
  at_msg J A C l c -> all_bytes inp -> l = zlen C + zlen inp ->
  let out := imap (fun i x => Z.lxor x (ks blk (inc32 J) (length C + i))) inp in
  exists m c', crypt_bytes f inp (mres c mod 16) (be_get32 (drop 12 (Yi c))) (mres c) c = (out, m, c') /\
    at_msg J A (C ++ zip_with f inp out) l (set_res c' m (ares c')).
Proof using blk_typed.
  intros Hf HJ Hs Hb Hl out. destruct (msg_Xi _ _ _ _ _ Hs) as [HX HM].
  pose proof Hs as [Hm HA HC Hh H0 H1 Har Hst HE0].
  pose proof (inc32_typed J HJ) as HI.
  assert (HYt : typed 16 (Yi c)) by (rewrite (proj1 Hst); by apply counter_typed).
  rewrite be_get32_int; [|rewrite length_drop, (proj1 HYt); lia|apply Forall_drop, HYt].
  rewrite firstn_all2 by (rewrite length_drop, (proj1 HYt); lia).
  rewrite HM, Nat.Div0.mod_mod.
  destruct (crypt_bytes_ok f inp (length C) c (inc32 J) Hf Hm HX HI Hb Hst)
    as (c' & HE & HF & Hs' & HFd).
  fold out in HE, HFd. eexists _, c'. split; [exact HE|].
  assert (HZ : all_bytes (zip_with f inp out)) by (apply zip_bytes; [done..|by apply out_bytes]).
  destruct HF as (F1 & F2 & F3 & F4 & F5 & F6 & F7). destruct Hm as [M1 M2].
  assert (HLz : length (zip_with f inp out) = length inp)
    by (rewrite length_zip_with; unfold out; rewrite length_imap; lia).
  constructor; cbn [Xi len0 len1 ares mres EK0 set_res]; try done.
  - split; cbn [Htable block set_res]; congruence.
  - by apply Forall_app.
  - rewrite feed_app, Hh, HM. by rewrite HFd.
  - congruence.
  - congruence.
  - congruence.
  - rewrite length_app, HLz. exact Hs'.
  - congruence.
Qed.

Lemma zip_snd (a b : bytes) : length a = length b -> zip_with (fun _ o => o) a b = b.
Proof. revert b. induction a as [|x a IH]; intros [|y b] HL; cbn in *; [done|lia|lia|]. by rewrite IH by lia. Qed.
Lemma zip_fst (a b : bytes) : length a = length b -> zip_with (fun x _ => x) a b = a.
Proof. revert b. induction a as [|x a IH]; intros [|y b] HL; cbn in *; [done|lia|lia|]. by rewrite IH by lia. Qed.

(** The part of the key stream from position [p] on, applied to a piece. *)
Definition stream_xor (J : bytes) (p : nat) (d : bytes) : bytes :=
  imap (fun i x => Z.lxor x (ks blk (inc32 J) (p + i))) d.
Lemma length_stream_xor J p d : length (stream_xor J p d) = length d.
Proof. apply length_imap. Qed.
Lemma stream_xor_app J p a b :
  stream_xor J p (a ++ b) = stream_xor J p a ++ stream_xor J (p + length a) b.
Proof.
  unfold stream_xor. rewrite imap_app. f_equal. apply imap_ext. intros i x _. cbn.
  do 2 f_equal. lia.
Qed.
Lemma stream_xor_gctr J d : typed 16 J -> stream_xor J 0 d = GCTR blk (inc32 J) d.
Proof using blk_typed. intros HJ. rewrite gctr_ks by (done || by apply inc32_typed). done. Qed.

Lemma encrypt_state J A C c inp :
  typed 16 J -> in_state J A C c -> all_bytes inp -> zlen C + zlen inp <= 2 ^ 36 - 32 ->
  let out := stream_xor J (length C) inp in
  exists c', CRYPTO_gcm128_encrypt c inp = (0, out, c') /\ in_state J A (C ++ out) c'.
Proof using blk_typed.
  intros HJ Hst Hb HB out. destruct (crypt_start_ok J A C c inp Hst HB) as (c1 & Hc & Hs).
  unfold CRYPTO_gcm128_encrypt. rewrite Hc, encrypt_crypt.
  destruct (crypt_state (fun _ o => o) J A C _ c1 inp ltac:(done) HJ Hs Hb eq_refl)
    as (m & c' & HE & HM). fold (stream_xor J (length C) inp) in HE, HM. fold out in HE, HM.
  rewrite HE. eexists. split; [done|]. right.
  rewrite zip_snd in HM by (unfold out; by rewrite length_stream_xor).
  rewrite length_app. unfold out at 2. rewrite length_stream_xor, Nat2Z.inj_add. exact HM.
Qed.
Lemma decrypt_state J A C c inp :
  typed 16 J -> in_state J A C c -> all_bytes inp -> zlen C + zlen inp <= 2 ^ 36 - 32 ->
  exists c', CRYPTO_gcm128_decrypt c inp = (0, stream_xor J (length C) inp, c') /\
    in_state J A (C ++ inp) c'.
Proof using blk_typed.
  intros HJ Hst Hb HB. destruct (crypt_start_ok J A C c inp Hst HB) as (c1 & Hc & Hs).
  unfold CRYPTO_gcm128_decrypt. rewrite Hc, decrypt_crypt.
  destruct (crypt_state (fun x _ => x) J A C _ c1 inp ltac:(done) HJ Hs Hb eq_refl)
    as (m & c' & HE & HM). fold (stream_xor J (length C) inp) in HE, HM.
  rewrite HE. eexists. split; [done|]. right.
  rewrite zip_fst in HM by (by rewrite length_stream_xor).
  rewrite length_app, Nat2Z.inj_add. exact HM.
Qed.

(** The hash of everything but the lengths. *)
Definition hashed (A C : bytes) : bytes :=
  GHASH_from h (GHASH_from h (replicate 16 0) (blocks (pad16 A))) (blocks (pad16 C)).
Lemma finish_close J A C c : in_state J A C c ->
  let c1 := if negb (Nat.eqb (mres c) 0) || negb (Nat.eqb (ares c) 0) then GCM_MUL c else c in
  made c1 /\ Xi c1 = hashed A C /\ len0 c = zlen A /\ len1 c = zlen C /\ EK0 c1 = blk J.
Proof using blk_typed.
  intros [[-> Ha]|Hs]; unfold hashed.
  - destruct (aad_Xi _ _ _ Ha) as [HX _]. destruct Ha as [Hm HA Hf H0 H1 Hr HY HE0].
    change (GHASH_from h ?Y (blocks (pad16 []))) with Y.
    rewrite Hr, ghash_pad, Hf by apply zeros_typed. cbn [Nat.eqb negb orb].
    unfold close. cbn [fst snd].
    destruct (Nat.eqb (ares c) 0); cbn [negb]; [done|]. by rewrite GCM_MUL_ok.
  - destruct (msg_Xi _ _ _ _ _ Hs) as [HX _]. destruct Hs as [Hm HA HC Hh H0 H1 Har Hst HE0].
    rewrite ghash_pad, Hh, Har by (apply ghash_from_typed, zeros_typed).
    cbn [Nat.eqb negb]. rewrite orb_false_r. unfold close. cbn [fst snd].
    destruct (Nat.eqb (mres c) 0); cbn [negb]; [done|]. by rewrite GCM_MUL_ok.
Qed.
Lemma swap64 v : 0 <= v < 2 ^ 64 -> le_bytes 8 (int (le_bytes 8 v)) = str 8 v.
Proof.
  intros Hv. unfold int, str. rewrite <-(length_le_bytes 8 v) at 1. rewrite <-length_rev.
  apply le_bytes_val, Forall_rev, le_bytes_all.
Qed.

(** The lengths, stored little-endian and read big-endian. *)
Lemma length_block a k : 0 <= a < 2 ^ 64 -> 0 <= k < 2 ^ 64 ->
  let p := le_bytes 8 a ++ le_bytes 8 k in
  le_bytes 8 (Z.lor (Z.shiftl (be_get32 p) 32) (be_get32 (drop 4 p))) ++
  le_bytes 8 (Z.lor (Z.shiftl (be_get32 (drop 8 p)) 32) (be_get32 (drop 12 p)))
  = str 8 a ++ str 8 k.
Proof.
  intros Ha Hk p. assert (Hpl : length p = 16%nat) by (unfold p; by rewrite length_app, !length_le_bytes).
  assert (Hpb : all_bytes p) by (apply Forall_app; split; apply le_bytes_all).
  rewrite (proj1 (be_get64 p ltac:(lia) Hpb)).
  pose proof (proj1 (be_get64 (drop 8 p) ltac:(rewrite length_drop; lia) (Forall_drop _ _ _ Hpb))) as HD.
  rewrite drop_drop in HD. change (8 + 4)%nat with 12%nat in HD. rewrite HD. unfold p.
  rewrite take_app_le, firstn_all2, drop_app_ge, length_le_bytes, Nat.sub_diag, drop_0
    by (rewrite length_le_bytes; lia).
  rewrite firstn_all2 by (rewrite length_le_bytes; lia). by rewrite !swap64.
Qed.
Lemma lens_typed a k : typed 16 (str 8 a ++ str 8 k).
Proof.
  split; [by rewrite length_app, !length_str|]. apply Forall_app. split; apply str_typed.
Qed.
Lemma hashed_typed A C : typed 16 (hashed A C).
Proof. apply ghash_from_typed, ghash_from_typed, zeros_typed. Qed.
Lemma auth_hashed A C :
  auth blk A C = mul_block h (xor (hashed A C) (str 8 (8 * zlen A) ++ str 8 (8 * zlen C))).
Proof.
  unfold auth, GHASH, hashed. rewrite !data_blocks_app by apply pad16_whole. unfold GHASH_from.
  rewrite !fold_left_app. rewrite (data_blocks_one (str 8 _ ++ str 8 _)) by apply lens_typed. done.
Qed.

Lemma finish_state J A C c tag len :
  in_state J A C c -> zlen A < 2 ^ 61 -> zlen C <= 2 ^ 36 - 32 -> typed 16 J ->
  exists c', CRYPTO_gcm128_finish c tag len
      = (match tag with
         | Some t => if Nat.leb len 16 then CRYPTO_memcmp (xor (auth blk A C) (blk J)) t len else -1
         | None => -1 end, c') /\ Xi c' = xor (auth blk A C) (blk J).
Proof using blk_typed.
  intros Hst HA HC HJ. destruct (finish_close J A C c Hst) as (Hm & HX & H0 & H1 & HE0).
  unfold CRYPTO_gcm128_finish. rewrite H0, H1. set (c1 := if _ || _ then _ else _) in *.
  rewrite (Z.shiftl_mul_pow2 (zlen A)), (Z.shiftl_mul_pow2 (zlen C)), !u64_small by lia.
  cbn [len0 len1 set_len]. rewrite length_block by lia.
  replace (zlen A * 2 ^ 3) with (8 * zlen A) by lia. replace (zlen C * 2 ^ 3) with (8 * zlen C) by lia.
  set (L := str 8 _ ++ str 8 _). assert (HL : typed 16 L) by apply lens_typed.
  pose proof (hashed_typed A C) as HH. cbn [Xi set_len].
  rewrite HX, xor_into_all by (rewrite (proj1 HL), (proj1 HH); done).
  rewrite GCM_MUL_ok; [|done|by apply typed_block_xor]. cbn [Xi set_Xi EK0 set_len].
  rewrite <-auth_hashed, HE0.
  assert (HT : typed 16 (auth blk A C)) by (rewrite auth_hashed; apply str_typed).
  rewrite xor_into_all by (rewrite (proj1 HT); apply blk_typed, HJ).
  eexists. destruct tag; [destruct (Nat.leb len 16)|]; done.
Qed.

Lemma memcmp_0 a b n : (n <= length a)%nat -> length b = n ->
  CRYPTO_memcmp a b n = 0 <-> take n a = b.
Proof.
  revert a b. induction n as [|n IH]; intros a b HL1 HL2.
  - apply nil_length_inv in HL2 as ->. rewrite take_0. by destruct a.
  - destruct a as [|x a]; [cbn in HL1; lia|]. destruct b as [|y b]; [cbn in HL2; lia|].
    cbn [CRYPTO_memcmp take length] in *. rewrite Z.lor_eq_0_iff, Z.lxor_eq_0_iff, IH by lia.
    split; [intros [-> ->]; done|by intros [= -> ->]].
Qed.
End Code.

(** ** Whole messages

    A message in pieces: the initialisation, the IV, the calls for the pieces of
    the additional data and of the message, and the tag; [None] when a call fails. *)
Fixpoint aad_all (c : GCM128_CONTEXT) (As : list bytes) : option GCM128_CONTEXT :=
  match As with
  | [] => Some c
  | a :: As => let '(r, c) := CRYPTO_gcm128_aad c a in if r =? 0 then aad_all c As else None
  end.
Fixpoint crypt_all (op : GCM128_CONTEXT -> bytes -> Z * bytes * GCM128_CONTEXT)
  (c : GCM128_CONTEXT) (ps : list bytes) : option (bytes * GCM128_CONTEXT) :=
  match ps with
  | [] => Some ([], c)
  | p :: ps =>
      let '(r, out, c) := op c p in
      if r =? 0
      then match crypt_all op c ps with Some (outs, c) => Some (out ++ outs, c) | None => None end
      else None
  end.

Definition gcm_seal (blk : bytes -> bytes) (iv : bytes) (As Ps : list bytes) (t : nat)
  : option (bytes * bytes) :=
  match aad_all (CRYPTO_gcm128_setiv (CRYPTO_gcm128_init blk) iv) As with
  | Some c => match crypt_all CRYPTO_gcm128_encrypt c Ps with
              | Some (out, c) => Some (out, (CRYPTO_gcm128_tag c t).1)
              | None => None
              end
  | None => None
  end.
Definition gcm_open (blk : bytes -> bytes) (iv : bytes) (As Cs : list bytes) (T : bytes)
  : option (bytes * Z) :=
  match aad_all (CRYPTO_gcm128_setiv (CRYPTO_gcm128_init blk) iv) As with
  | Some c => match crypt_all CRYPTO_gcm128_decrypt c Cs with
              | Some (out, c) => Some (out, (CRYPTO_gcm128_finish c (Some T) (length T)).1)
              | None => None
              end
  | None => None
  end.

Section Messages.
Context (blk : bytes -> bytes) (blk_typed : forall b, typed 16 b -> typed 16 (blk b)).

Lemma init_made : made blk (CRYPTO_gcm128_init blk).
Proof. done. Qed.

Lemma aad_all_ok J A As c :
  at_aad blk J A c -> Forall all_bytes As -> zlen A + zlen (concat As) <= 2 ^ 61 ->
  exists c', aad_all c As = Some c' /\ at_aad blk J (A ++ concat As) c'.
Proof using blk_typed.
  intros Ha HAs. revert A c Ha. induction HAs as [|a As Hb HAs IH]; intros A c Ha HB.
  - exists c. cbn [concat]. by rewrite app_nil_r.
  - cbn [concat aad_all] in *. rewrite length_app in HB.
    destruct (aad_state blk blk_typed J A a c Ha Hb) as (c1 & -> & Ha1); [lia|].
    destruct (IH (A ++ a) c1 Ha1) as (c' & HE & Ha'); [rewrite length_app; lia|].
    exists c'. change (0 =? 0) with true. cbv iota. by rewrite app_assoc.
Qed.

(** A sequence of calls in one direction; [fed] says what is hashed. *)
Lemma crypt_all_ok op (fed : bytes -> bytes -> bytes) J A C ps c :
  (forall C c d, in_state blk J A C c -> all_bytes d -> zlen C + zlen d <= 2 ^ 36 - 32 ->
    exists c', op c d = (0, stream_xor blk J (length C) d, c') /\
      in_state blk J A (C ++ fed d (stream_xor blk J (length C) d)) c') ->
  (forall d o, length o = length d -> length (fed d o) = length d) ->
  (forall d d' o o', length o = length d -> fed (d ++ d') (o ++ o') = fed d o ++ fed d' o') ->
  fed [] [] = [] ->
  in_state blk J A C c -> Forall all_bytes ps -> zlen C + zlen (concat ps) <= 2 ^ 36 - 32 ->
  let out := stream_xor blk J (length C) (concat ps) in
  exists c', crypt_all op c ps = Some (out, c') /\ in_state blk J A (C ++ fed (concat ps) out) c'.
Proof.
  intros Hop HL Happ H0 Hs Hps. revert C c Hs. induction Hps as [|d ps Hd Hps IH]; intros C c Hs HB.
  - exists c. split; [done|]. cbn [concat]. change (stream_xor blk J (length C) []) with (@nil Z).
    rewrite H0. by rewrite app_nil_r.
  - cbn [concat crypt_all] in *. rewrite length_app in HB.
    destruct (Hop C c d Hs Hd) as (c1 & -> & Hs1); [lia|]. change (0 =? 0) with true. cbv iota.
    set (o := stream_xor blk J (length C) d) in *.
    assert (Ho : length (fed d o) = length d) by (apply HL, length_stream_xor).
    destruct (IH (C ++ fed d o) c1 Hs1) as (c' & HE & Hs'); [rewrite length_app; lia|].
    rewrite length_app, Ho in HE, Hs'. cbv zeta in *. rewrite HE. exists c'.
    rewrite stream_xor_app. fold o. split; [done|].
    rewrite Happ by apply length_stream_xor. by rewrite app_assoc.
Qed.

Lemma opened iv As : all_bytes iv -> zlen iv < 2 ^ 61 -> Forall all_bytes As ->
  zlen (concat As) <= 2 ^ 61 ->
  exists c, aad_all (CRYPTO_gcm128_setiv (CRYPTO_gcm128_init blk) iv) As = Some c /\
    in_state blk (J0 blk iv) (concat As) [] c.
Proof using blk_typed.
  intros Hiv HBi HAs HBa.
  destruct (aad_all_ok (J0 blk iv) [] As _ (setiv_state blk blk_typed _ iv init_made Hiv HBi) HAs)
    as (c & HE & Ha); [done|]. exists c. split; [done|]. by left.
Qed.
Lemma tag_xor t iv A C : typed 16 (J0 blk iv) -> tag_of blk t iv A C = take t (xor (auth blk A C) (blk (J0 blk iv))).
Proof.
  intros HJ. unfold tag_of, GCTR. rewrite data_blocks_one by (rewrite auth_hashed; apply str_typed).
  cbn [gctr]. by rewrite app_nil_r.
Qed.
End Messages.

Lemma seal_spec blk iv As Ps t :
  (forall b, typed 16 b -> typed 16 (blk b)) -> all_bytes iv -> Forall all_bytes As ->
  Forall all_bytes Ps -> (t <= 16)%nat ->
  zlen iv < 2 ^ 61 -> zlen (concat As) < 2 ^ 61 -> zlen (concat Ps) <= 2 ^ 36 - 32 ->
  gcm_seal blk iv As Ps t = Some (GCM_AE blk t iv (concat Ps) (concat As)).
Proof.
  intros Hblk Hiv HAs HPs Ht HBi HBa HBp. unfold gcm_seal.
  destruct (opened blk Hblk iv As) as (c & -> & Hs); [done|done|done|lia|].
  pose proof (J0_typed blk iv Hiv) as HJ.
  destruct (crypt_all_ok blk CRYPTO_gcm128_encrypt (fun _ o => o) (J0 blk iv) (concat As) [] Ps c)
    as (c' & -> & Hs'); [|done..|].
  { intros C c0 d ???. by apply encrypt_state. }
  cbn [app length] in *. rewrite (stream_xor_gctr blk Hblk) in * by done.
  set (C := GCTR blk (inc32 (J0 blk iv)) (concat Ps)) in *.
  assert (HC : zlen C <= 2 ^ 36 - 32) by (unfold C; rewrite length_gctr; [done..|by apply inc32_typed]).
  destruct (finish_state blk Hblk _ _ _ c' None 0 Hs' HBa HC HJ) as (c2 & HE & HX).
  unfold CRYPTO_gcm128_tag. rewrite HE, HX. cbn [fst].
  rewrite (proj2 (Nat.leb_le t 16) Ht). unfold GCM_AE. fold C. by rewrite tag_xor.
Qed.

Lemma open_spec blk iv As Cs T :
  (forall b, typed 16 b -> typed 16 (blk b)) -> all_bytes iv -> Forall all_bytes As ->
  Forall all_bytes Cs -> all_bytes T -> (length T <= 16)%nat ->
  zlen iv < 2 ^ 61 -> zlen (concat As) < 2 ^ 61 -> zlen (concat Cs) <= 2 ^ 36 - 32 ->
  exists r, gcm_open blk iv As Cs T = Some (decrypted blk iv (concat Cs), r) /\
    (r = 0 <-> tag_of blk (length T) iv (concat As) (concat Cs) = T).
Proof.
  intros Hblk Hiv HAs HCs HT Ht HBi HBa HBc. unfold gcm_open.
  destruct (opened blk Hblk iv As) as (c & -> & Hs); [done|done|done|lia|].
  pose proof (J0_typed blk iv Hiv) as HJ. pose proof (inc32_typed _ HJ) as HI.
  destruct (crypt_all_ok blk CRYPTO_gcm128_decrypt (fun d _ => d) (J0 blk iv) (concat As) [] Cs c)
    as (c' & -> & Hs'); [|done..|].
  { intros C c0 d ???. by apply decrypt_state. }
  cbn [app length] in *. rewrite (stream_xor_gctr blk Hblk) in * by done.
  destruct (finish_state blk Hblk _ _ _ c' (Some T) (length T) Hs' HBa HBc HJ) as (c2 & HE & _).
  rewrite HE. cbn [fst]. eexists _. split; [done|]. rewrite (proj2 (Nat.leb_le _ 16) Ht).
  rewrite tag_xor by done. set (X := xor (auth _ _ _) _).
  assert (HX : typed 16 X) by (apply typed_block_xor; [rewrite auth_hashed; apply str_typed|by apply Hblk]).
  rewrite memcmp_0 by (done || (rewrite (proj1 HX); lia)). done.
Qed.

(** The two functions of the standard are inverse to each other. *)
Lemma GCM_AE_AD blk t iv P A C T :
  (forall b, typed 16 b -> typed 16 (blk b)) -> all_bytes iv ->
  GCM_AE blk t iv P A = (C, T) -> P = decrypted blk iv C /\ tag_of blk t iv A C = T.
Proof.
  intros Hblk Hiv HE. unfold GCM_AE in HE. injection HE as HC HT. rewrite HC in HT. split; [|done].
  unfold decrypted. rewrite <-HC, gctr_involutive; [done..|]. by apply inc32_typed, J0_typed.
Qed.

Lemma decrypted_length blk iv C : (forall b, typed 16 b -> typed 16 (blk b)) -> all_bytes iv ->
  length (decrypted blk iv C) = length C.
Proof. intros Hblk Hiv. unfold decrypted. apply length_gctr; [done|]. by apply inc32_typed, J0_typed. Qed.

(** C18: (equivalence) The incremental interface computes the authenticated
    encryption of SP 800-38D: for every block cipher on 16-byte blocks, every IV
    and every way of cutting the additional data and the message into pieces, all
    calls succeed and the output and tag are GCM-AE of the whole strings. *)
Theorem gcm_seal_sp800_38d blk iv As Ps t :
  (forall b, typed 16 b -> typed 16 (blk b)) -> all_bytes iv -> Forall all_bytes As ->
  Forall all_bytes Ps -> (t <= 16)%nat ->
  zlen iv < 2 ^ 61 -> zlen (concat As) < 2 ^ 61 -> zlen (concat Ps) <= 2 ^ 36 - 32 ->
  gcm_seal blk iv As Ps t = Some (GCM_AE blk t iv (concat Ps) (concat As)).
Proof. exact (seal_spec blk iv As Ps t). Qed.

(** C19: (roundtrip) Decryption in pieces returns the message and decides the tag.
    However the ciphertext and the additional data are cut, all calls succeed, the
    output is the ciphertext decrypted as SP 800-38D says, and
    [CRYPTO_gcm128_finish] returns 0 exactly when GCM-AD of the standard accepts
    the tag.  In particular, when the ciphertext and the tag are GCM-AE of a
    message, that message comes out and the tag is accepted. *)
Theorem gcm_open_sp800_38d blk iv As Cs T :
  (forall b, typed 16 b -> typed 16 (blk b)) -> all_bytes iv -> Forall all_bytes As ->
  Forall all_bytes Cs -> all_bytes T -> (length T <= 16)%nat ->
  zlen iv < 2 ^ 61 -> zlen (concat As) < 2 ^ 61 -> zlen (concat Cs) <= 2 ^ 36 - 32 ->
  exists r, gcm_open blk iv As Cs T = Some (decrypted blk iv (concat Cs), r) /\
    GCM_AD blk (length T) iv (concat Cs) (concat As) T
    = (if r =? 0 then Some (decrypted blk iv (concat Cs)) else None) /\
    forall P, GCM_AE blk (length T) iv P (concat As) = (concat Cs, T) ->
      gcm_open blk iv As Cs T = Some (P, 0).
Proof.
  intros Hblk Hiv HAs HCs HT Ht HBi HBa HBc.
  destruct (open_spec blk iv As Cs T Hblk Hiv HAs HCs HT Ht HBi HBa HBc) as (r & HO & HR).
  exists r. split; [done|]. split.
  - unfold GCM_AD. destruct (decide (tag_of _ _ _ _ _ = T)) as [E|E].
    + by rewrite (proj2 HR E).
    + destruct (r =? 0) eqn:Er; [|done]. by apply Z.eqb_eq, HR in Er.
  - intros P HP. destruct (GCM_AE_AD blk _ iv P _ _ _ Hblk Hiv HP) as [-> HQ].
    by rewrite HO, (proj2 HR HQ).
Qed.

(** A message in two pieces, with two pieces of additional data. *)
Definition ex_iv : bytes := replicate 12 7.
Definition ex_As : list bytes := [[1; 2; 3]; [4]].
Definition ex_Ps : list bytes := [replicate 17 200; [5; 6]].
Lemma ex_bytes : all_bytes ex_iv /\ Forall all_bytes ex_As /\ Forall all_bytes ex_Ps.
Proof. repeat split; repeat constructor; lia. Qed.

Lemma gcm_seal_sp800_38d_witness :
  gcm_seal ex_cipher ex_iv ex_As ex_Ps 16
  = Some (GCM_AE ex_cipher 16 ex_iv (concat ex_Ps) (concat ex_As)).
Proof.
  destruct ex_bytes as (H1 & H2 & H3).
  apply (gcm_seal_sp800_38d ex_cipher ex_iv ex_As ex_Ps 16 ex_cipher_typed H1 H2 H3); cbn; lia.
Defined.
(** The ciphertext of that message, cut elsewhere, and its tag. *)
Definition ex_sealed : bytes * bytes := GCM_AE ex_cipher 16 ex_iv (concat ex_Ps) (concat ex_As).
Definition ex_Cs : list bytes := [take 3 (fst ex_sealed); drop 3 (fst ex_sealed)].
Lemma gcm_open_sp800_38d_witness :
  gcm_open ex_cipher ex_iv [concat ex_As] ex_Cs (snd ex_sealed) = Some (concat ex_Ps, 0).
Proof.
  destruct ex_bytes as (H1 & H2 & H3).
  destruct (gcm_open_sp800_38d ex_cipher ex_iv [concat ex_As] ex_Cs (snd ex_sealed) ex_cipher_typed H1)
    as (r & _ & _ & HP).
  - repeat constructor; lia.
  - vm_compute. repeat constructor; congruence.
  - vm_compute. repeat constructor; congruence.
  - vm_compute. repeat constructor.
  - vm_compute. reflexivity.
  - vm_compute. reflexivity.
  - vm_compute. congruence.
  - apply HP. vm_compute. reflexivity.
Defined.
