(* ===== verification/AesGcm.v ===== *)
(** * AES-GCM in the provider and its use by BaseCryptLib

    The state machine of openssl/providers/implementations/ciphers/ciphercommon_gcm.c
    over [GCM128_CONTEXT], with the methods of ciphercommon_gcm_hw.c and
    cipher_aes_gcm_hw.c in a build without assembler ([ctr] is NULL), and the part
    of openssl/crypto/evp/evp_enc.c that leads to a provided cipher.  [evp_seal] and
    [evp_open] are the sequences of EVP calls of CryptAeadAesGcm.c.

    What the code takes from its surroundings is an argument: [RAND], the generator
    that is asked for an IV when none was given; [inplace], whether the caller's
    output pointer equals its input pointer, which only the records of TLS ask
    for; and [mem], which of the allocations and the fetch of the cipher succeed.
    The generator, [inplace] and [mem] are arbitrary in the theorems. *)
From stdpp Require Import base list.
From Stdlib Require Import ZArith Lia.
From S2P Require Import Prelude Aes Gcm GcmStream.
#[local] Open Scope Z_scope.

Definition UNINITIALISED_SIZET : Z := 2 ^ 64 - 1.
Definition IV_STATE_UNINITIALISED : Z := 0.
Definition IV_STATE_BUFFERED : Z := 1.
Definition IV_STATE_COPIED : Z := 2.
Definition IV_STATE_FINISHED : Z := 3.
Definition GCM_IV_DEFAULT_SIZE : Z := 12.
Definition GCM_IV_MAX_SIZE : Z := 128.
Definition GCM_TAG_MAX_SIZE : Z := 16.
Definition EVP_GCM_TLS_TAG_LEN : Z := 16.
Definition EVP_GCM_TLS_FIXED_IV_LEN : Z := 4.
Definition EVP_GCM_TLS_EXPLICIT_IV_LEN : Z := 8.
Definition EVP_AEAD_TLS1_AAD_LEN : Z := 13.

(** [PROV_GCM_CTX] and the key schedule of [PROV_AES_GCM_CTX]; the fields that
    the modelled code does not use ([mode], [pad], [num], ...) are left out.
    [stray] is no field of the code: it records that an access left [iv] or the
    data of a parameter, after which a run of the code has no meaning. *)
Record PROV_GCM_CTX := mkProv {
  keylen : Z; ivlen : Z; taglen : Z; tls_aad_len : Z; tls_aad_pad_sz : Z; tls_enc_records : Z;
  iv_state : Z; enc : bool; key_set : bool; iv_gen : bool; iv_gen_rand : bool; stray : bool;
  iv : bytes; buf : bytes; gcm : GCM128_CONTEXT; ks : AES_KEY }.

Definition with_enc (c : PROV_GCM_CTX) (e : bool) : PROV_GCM_CTX :=
  mkProv (keylen c) (ivlen c) (taglen c) (tls_aad_len c) (tls_aad_pad_sz c) (tls_enc_records c)
    (iv_state c) e (key_set c) (iv_gen c) (iv_gen_rand c) (stray c) (iv c) (buf c) (gcm c)
    (ks c).
Definition with_iv (c : PROV_GCM_CTX) (l st : Z) (v : bytes) : PROV_GCM_CTX :=
  mkProv (keylen c) l (taglen c) (tls_aad_len c) (tls_aad_pad_sz c) (tls_enc_records c) st (enc
    c) (key_set c) (iv_gen c) (iv_gen_rand c) (stray c) v (buf c) (gcm c) (ks c).
Definition with_iv_state (c : PROV_GCM_CTX) (st : Z) : PROV_GCM_CTX := with_iv c (ivlen c) st (iv c).
Definition with_tag (c : PROV_GCM_CTX) (l : Z) (b : bytes) : PROV_GCM_CTX :=
  mkProv (keylen c) (ivlen c) l (tls_aad_len c) (tls_aad_pad_sz c) (tls_enc_records c) (iv_state
    c) (enc c) (key_set c) (iv_gen c) (iv_gen_rand c) (stray c) (iv c) b (gcm c) (ks c).
Definition with_gcm (c : PROV_GCM_CTX) (g : GCM128_CONTEXT) : PROV_GCM_CTX :=
  mkProv (keylen c) (ivlen c) (taglen c) (tls_aad_len c) (tls_aad_pad_sz c) (tls_enc_records c)
    (iv_state c) (enc c) (key_set c) (iv_gen c) (iv_gen_rand c) (stray c) (iv c) (buf c) g
    (ks c).
Definition with_key (c : PROV_GCM_CTX) (k : AES_KEY) (g : GCM128_CONTEXT) : PROV_GCM_CTX :=
  mkProv (keylen c) (ivlen c) (taglen c) (tls_aad_len c) (tls_aad_pad_sz c) (tls_enc_records c)
    (iv_state c) (enc c) true (iv_gen c) (iv_gen_rand c) (stray c) (iv c) (buf c) g k.
Definition with_records (c : PROV_GCM_CTX) (n : Z) : PROV_GCM_CTX :=
  mkProv (keylen c) (ivlen c) (taglen c) (tls_aad_len c) (tls_aad_pad_sz c) n (iv_state c) (enc
    c) (key_set c) (iv_gen c) (iv_gen_rand c) (stray c) (iv c) (buf c) (gcm c) (ks c).
Definition with_iv_gen (c : PROV_GCM_CTX) (g r : bool) : PROV_GCM_CTX :=
  mkProv (keylen c) (ivlen c) (taglen c) (tls_aad_len c) (tls_aad_pad_sz c) (tls_enc_records c)
    (iv_state c) (enc c) (key_set c) g r (stray c) (iv c) (buf c) (gcm c) (ks c).
Definition with_tls (c : PROV_GCM_CTX) (n pad : Z) : PROV_GCM_CTX :=
  mkProv (keylen c) (ivlen c) (taglen c) n pad (tls_enc_records c) (iv_state c) (enc c) (key_set
    c) (iv_gen c) (iv_gen_rand c) (stray c) (iv c) (buf c) (gcm c) (ks c).
Definition with_stray (c : PROV_GCM_CTX) : PROV_GCM_CTX :=
  mkProv (keylen c) (ivlen c) (taglen c) (tls_aad_len c) (tls_aad_pad_sz c) (tls_enc_records c)
    (iv_state c) (enc c) (key_set c) (iv_gen c) (iv_gen_rand c) true (iv c) (buf c) (gcm c)
    (ks c).

(** [memcpy (b + off, d, |d|)] inside [b]. *)
Definition splice (b : bytes) (off : nat) (d : bytes) : bytes :=
  take off b ++ d ++ drop (off + length d) b.

(** [aes_gcm_newctx] and [ossl_gcm_initctx]; [gcm] is zeroed, its cipher is
    null until a key is set. *)
Definition zero_gcm : GCM128_CONTEXT :=
  mkGcm128 (replicate 16 0) (replicate 16 0) (replicate 16 0) 0 0 (replicate 16 0) zero128
    (replicate 16 zero128) 0 0 (fun b => b).
Definition aes_gcm_newctx (keybits : Z) : PROV_GCM_CTX :=
  mkProv (keybits / 8) (EVP_GCM_TLS_FIXED_IV_LEN + EVP_GCM_TLS_EXPLICIT_IV_LEN)
    UNINITIALISED_SIZET UNINITIALISED_SIZET 0 0
    IV_STATE_UNINITIALISED false false false false false (zeros GCM_IV_MAX_SIZE) (zeros 16) zero_gcm
    (mkAesKey (replicate 60 0) 0).

(** The methods: cipher_aes_gcm_hw.c and ciphercommon_gcm_hw.c. *)
Definition aes_gcm_initkey (c : PROV_GCM_CTX) (key : bytes) (kl : Z) : bool * PROV_GCM_CTX :=
  let '(_, k) := AES_set_encrypt_key (Some key) (kl * 8) (Some (ks c)) in
  let k := default (ks c) k in
  (true, with_key c k (CRYPTO_gcm128_init (fun b => AES_encrypt b k))).
Definition ossl_gcm_setiv (c : PROV_GCM_CTX) (v : bytes) (l : Z) : bool * PROV_GCM_CTX :=
  (true, with_gcm c (CRYPTO_gcm128_setiv (gcm c) (take (Z.to_nat l) v))).
Definition ossl_gcm_aad_update (c : PROV_GCM_CTX) (aad : bytes) : bool * PROV_GCM_CTX :=
  let '(r, g) := CRYPTO_gcm128_aad (gcm c) aad in (r =? 0, with_gcm c g).
Definition generic_aes_gcm_cipher_update (c : PROV_GCM_CTX) (inp : bytes)
  : bool * bytes * PROV_GCM_CTX :=
  let '(r, out, g) := if enc c then CRYPTO_gcm128_encrypt (gcm c) inp
                      else CRYPTO_gcm128_decrypt (gcm c) inp in
  (r =? 0, out, with_gcm c g).
(** [ossl_gcm_cipher_final (ctx, tag)] for the bytes at [tag]: result, the bytes
    there afterwards, context. *)
Definition ossl_gcm_cipher_final (c : PROV_GCM_CTX) (tag : bytes) : bool * bytes * PROV_GCM_CTX :=
  if enc c then
    let '(t, g) := CRYPTO_gcm128_tag (gcm c) (Z.to_nat GCM_TAG_MAX_SIZE) in
    (true, splice tag 0 t, with_tag (with_gcm c g) GCM_TAG_MAX_SIZE (buf c))
  else
    let '(r, g) := CRYPTO_gcm128_finish (gcm c) (Some tag) (Z.to_nat (taglen c)) in
    (r =? 0, tag, with_gcm c g).
(** [ossl_gcm_one_shot] for the bytes at [tag]: result, the bytes at [out], the
    bytes at [tag] afterwards, context. *)
Definition ossl_gcm_one_shot (c : PROV_GCM_CTX) (aad inp tag : bytes)
  : bool * bytes * bytes * PROV_GCM_CTX :=
  let '(ok, c) := ossl_gcm_aad_update c aad in
  if negb ok then (false, [], tag, c) else
  let '(ok, out, c) := generic_aes_gcm_cipher_update c inp in
  if negb ok then (false, out, tag, c) else
  let '(ok, tag, c) := ossl_gcm_cipher_final (with_tag c GCM_TAG_MAX_SIZE (buf c)) tag in
  (ok, out, tag, c).

(** The IV of TLS records: [ctr64_inc], whose loop starts at the last byte,
    [getivgen] and [setivinv]. *)
Fixpoint ctr_inc (r : bytes) : bytes :=
  match r with
  | [] => []
  | x :: r => let x := (x + 1) mod 256 in if 0 <? x then x :: r else x :: ctr_inc r
  end.
Definition ctr64_inc (counter : bytes) : bytes := rev (ctr_inc (rev counter)).
Definition getivgen (c : PROV_GCM_CTX) (olen : Z) : bool * bytes * PROV_GCM_CTX :=
  if negb (iv_gen c) || negb (key_set c) then (false, [], c)
  else
  let c := (ossl_gcm_setiv c (iv c) (ivlen c)).2 in
  let olen := if (olen =? 0) || (ivlen c <? olen) then ivlen c else olen in
  let out := take (Z.to_nat olen) (drop (Z.to_nat (ivlen c - olen)) (iv c)) in
  if ivlen c <? 8 then (false, out, with_stray c)
  else
  let at_ := Z.to_nat (ivlen c - 8) in
  (true, out, with_iv c (ivlen c) IV_STATE_COPIED
                (splice (iv c) at_ (ctr64_inc (take 8 (drop at_ (iv c)))))).
Definition setivinv (c : PROV_GCM_CTX) (inp : bytes) (inl : Z) : bool * PROV_GCM_CTX :=
  if negb (iv_gen c) || negb (key_set c) || enc c then (false, c)
  else if (ivlen c <? inl) || (zlen inp <? inl) then (false, with_stray c)
  else
  let v := splice (iv c) (Z.to_nat (ivlen c - inl)) (take (Z.to_nat inl) inp) in
  let c := (ossl_gcm_setiv (with_iv c (ivlen c) (iv_state c) v) v (ivlen c)).2 in
  (true, with_iv_state c IV_STATE_COPIED).

(** [gcm_tls_init (ctx, aad, aad_len)]: the padding, 0 for a refusal. *)
Definition gcm_tls_init (c : PROV_GCM_CTX) (aad : bytes) (aad_len : Z) : Z * PROV_GCM_CTX :=
  if negb (aad_len =? EVP_AEAD_TLS1_AAD_LEN) then (0, c)
  else if zlen aad <? aad_len then (0, with_stray c)
  else
  let b := splice (buf c) 0 (take (Z.to_nat aad_len) aad) in
  let c := with_tls (with_tag c (taglen c) b) aad_len (tls_aad_pad_sz c) in
  let len := Z.lor (Z.shiftl (nth (Z.to_nat (aad_len - 2)) b 0) 8) (nth (Z.to_nat (aad_len - 1)) b 0) in
  if len <? EVP_GCM_TLS_EXPLICIT_IV_LEN then (0, c)
  else
  let len := len - EVP_GCM_TLS_EXPLICIT_IV_LEN in
  if negb (enc c) && (len <? EVP_GCM_TLS_TAG_LEN) then (0, c)
  else
  let len := if enc c then len else len - EVP_GCM_TLS_TAG_LEN in
  (EVP_GCM_TLS_TAG_LEN, with_tag c (taglen c) (splice b (Z.to_nat (aad_len - 2)) 
                                                    [Z.shiftr len 8 mod 256; Z.land len 255])).

(** The parameters the code reads: the size and the bytes at the pointer of one;
    [UNREADABLE] is a parameter of one of these names whose type or value
    [OSSL_PARAM_get_size_t] or the test of [data_type] refuses, [UNKNOWN] one of
    another name. *)
Inductive OSSL_PARAM :=
| AEAD_TAG (sz : Z) (data : option bytes)
| AEAD_IVLEN (sz : Z)
| AEAD_TLS1_AAD (sz : Z) (data : bytes)
| AEAD_TLS1_IV_FIXED (sz : Z) (data : bytes)
| AEAD_TLS1_SET_IV_INV (sz : Z) (data : option bytes)
| UNREADABLE
| UNKNOWN.

(** [ossl_gcm_get_ctx_params] for the tag: the bytes copied out. *)
Definition get_tag (c : PROV_GCM_CTX) (sz : Z) : bool * bytes :=
  if (sz =? 0) || (EVP_GCM_TLS_TAG_LEN <? sz) || negb (enc c) || (taglen c =? UNINITIALISED_SIZET)
  then (false, [])
  else (true, take (Z.to_nat sz) (buf c)).

(** Which of [EVP_CIPHER_CTX_new], [EVP_CIPHER_fetch] and the [newctx] of the
    cipher succeed. *)
Record evp_mem := mkMem { ctx_mem : bool; fetch_ok : bool; algctx_mem : bool }.
Definition mem_ok (m : evp_mem) : bool := ctx_mem m && fetch_ok m && algctx_mem m.

Section Provider.
Context (RAND : Z -> option bytes) (inplace : bool) (mem : evp_mem).

(** The conversion of a [size_t] to an [int]. *)
Definition to_int (n : Z) : Z := (n + 2 ^ 31) mod 2 ^ 32 - 2 ^ 31.
(** [gcm_tls_iv_set_fixed (ctx, iv, len)]; a length of -1 restores a whole IV. *)
Definition gcm_tls_iv_set_fixed (c : PROV_GCM_CTX) (v : bytes) (len : Z) : bool * PROV_GCM_CTX :=
  if len =? UNINITIALISED_SIZET then
    if zlen v <? ivlen c then (false, with_stray c)
    else (true, with_iv_gen (with_iv c (ivlen c) IV_STATE_BUFFERED
                               (splice (iv c) 0 (take (Z.to_nat (ivlen c)) v))) true (iv_gen_rand c))
  else if (len <? EVP_GCM_TLS_FIXED_IV_LEN)
       || ((ivlen c - to_int len) mod 2 ^ 64 <? EVP_GCM_TLS_EXPLICIT_IV_LEN) then (false, c)
  else if (GCM_IV_MAX_SIZE <? len) || (zlen v <? len) then (false, with_stray c)
  else
  let c := with_iv c (ivlen c) (iv_state c) (splice (iv c) 0 (take (Z.to_nat len) v)) in
  let '(ok, c) :=
    if enc c then
      let sz := (ivlen c - len) mod 2 ^ 64 in
      match RAND sz with
      | None => (false, c)
      | Some r => if GCM_IV_MAX_SIZE <? len + sz then (false, with_stray c)
                  else (true, with_iv_gen (with_iv c (ivlen c) (iv_state c) (splice (iv c) (Z.to_nat len) r))
                           (iv_gen c) true)
      end
    else (true, c) in
  if negb ok then (false, c)
  else (true, with_iv_state (with_iv_gen c true (iv_gen_rand c)) IV_STATE_BUFFERED).

(** One round of the loop of [ossl_gcm_set_ctx_params]. *)
Definition set_param (c : PROV_GCM_CTX) (p : OSSL_PARAM) : bool * PROV_GCM_CTX :=
  match p with
  | AEAD_TAG sz None => (false, c)
  | AEAD_TAG sz (Some d) =>
      if EVP_GCM_TLS_TAG_LEN <? sz then (false, c)
      else if zlen d <? sz then (false, with_stray c)
      else
      let c := with_tag c (taglen c) (splice (buf c) 0 (take (Z.to_nat sz) d)) in
      if (sz =? 0) || enc c then (false, c) else (true, with_tag c sz (buf c))
  | AEAD_IVLEN sz =>
      if (sz =? 0) || (GCM_IV_MAX_SIZE <? sz) then (false, c)
      else if negb (ivlen c =? sz) then
        let st := if negb (iv_state c =? IV_STATE_UNINITIALISED)
                  then IV_STATE_FINISHED else iv_state c in
        (true, with_iv c sz st (iv c))
      else (true, c)
  | AEAD_TLS1_AAD sz d =>
      let '(pad, c) := gcm_tls_init c d sz in
      if pad =? 0 then (false, c) else (true, with_tls c (tls_aad_len c) pad)
  | AEAD_TLS1_IV_FIXED sz d => gcm_tls_iv_set_fixed c d sz
  | AEAD_TLS1_SET_IV_INV sz None => (false, c)
  | AEAD_TLS1_SET_IV_INV sz (Some d) => setivinv c d sz
  | UNREADABLE => (false, c)
  | UNKNOWN => (true, c)
  end.
Fixpoint ossl_gcm_set_ctx_params (c : PROV_GCM_CTX) (params : list OSSL_PARAM) : bool * PROV_GCM_CTX :=
  match params with
  | [] => (true, c)
  | p :: params =>
      let '(ok, c) := set_param c p in
      if ok then ossl_gcm_set_ctx_params c params else (false, c)
  end.

(** [gcm_init], with [ossl_gcm_einit] and [ossl_gcm_dinit] as its two uses. *)
Definition gcm_init (c : PROV_GCM_CTX) (key : option bytes) (kl : Z) (v : option bytes) (vl : Z)
    (params : list OSSL_PARAM) (e : bool) : bool * PROV_GCM_CTX :=
  let c := with_enc c e in
  let '(ok, c) :=
    match v with
    | Some d => if (vl =? 0) || (GCM_IV_MAX_SIZE <? vl) then (false, c)
                else (true, with_iv c vl IV_STATE_BUFFERED (splice (iv c) 0 (take (Z.to_nat vl) d)))
    | None => (true, c)
    end in
  if negb ok then (false, c)
  else
  let '(ok, c) :=
    match key with
    | Some k => if negb (kl =? keylen c) then (false, c)
                else let '(ok, c) := aes_gcm_initkey c k (keylen c) in
                     (ok, if ok then with_records c 0 else c)
    | None => (true, c)
    end in
  if negb ok then (false, c) else ossl_gcm_set_ctx_params c params.

(** [gcm_iv_generate (ctx, offset)]. *)
Definition gcm_iv_generate (c : PROV_GCM_CTX) (offset : Z) : bool * PROV_GCM_CTX :=
  let sz := ivlen c - offset in
  if (sz <=? 0) || (ivlen c <? GCM_IV_DEFAULT_SIZE) then (false, c)
  else match RAND sz with
       | None => (false, c)
       | Some r => (true, with_iv_gen (with_iv c (ivlen c) IV_STATE_BUFFERED
                                         (splice (iv c) (Z.to_nat offset) r)) (iv_gen c) true)
       end.

(** [gcm_tls_cipher (ctx, out, padlen, in, len)], in place: the explicit part of
    the IV, the payload and the tag; the bytes written to [out]. *)
Definition gcm_tls_record (c : PROV_GCM_CTX) (inp : bytes) : bool * bytes * PROV_GCM_CTX :=
  if negb (key_set c) then (false, [], c)
  else if negb inplace || (zlen inp <? EVP_GCM_TLS_EXPLICIT_IV_LEN + EVP_GCM_TLS_TAG_LEN) then (false, [], c)
  else
  let c := if enc c then with_records c ((tls_enc_records c + 1) mod 2 ^ 64) else c in
  if enc c && (tls_enc_records c =? 0) then (false, [], c)
  else
  let '(ok, v, c) :=
    if enc c then getivgen c EVP_GCM_TLS_EXPLICIT_IV_LEN
    else let '(ok, c) := setivinv c inp EVP_GCM_TLS_EXPLICIT_IV_LEN in (ok, take 8 inp, c) in
  if negb ok then (false, v, c)
  else
  let len := (length inp - 24)%nat in
  let '(ok, out, tag, c) :=
    ossl_gcm_one_shot c (take (Z.to_nat (tls_aad_len c)) (buf c)) (take len (drop 8 inp))
      (drop (8 + len) inp) in
  if negb ok then (false, v ++ (if enc c then out else replicate len 0), c)
  else (true, v ++ out ++ (if enc c then tag else []), c).
Definition gcm_tls_cipher (c : PROV_GCM_CTX) (out : bool) (inp : option bytes)
  : bool * bytes * PROV_GCM_CTX :=
  let '(ok, o, c) := match out, inp with
                     | true, Some d => gcm_tls_record c d
                     | _, _ => (false, [], c)
                     end in
  (ok, o, with_tls (with_iv_state c IV_STATE_FINISHED) UNINITIALISED_SIZET (tls_aad_pad_sz c)).

(** [gcm_cipher_internal (ctx, out, padlen, in, len)]; [out] says whether the
    pointer is not null.  Result, bytes written to [out], context. *)
Definition gcm_cipher_internal (c : PROV_GCM_CTX) (out : bool) (inp : option bytes)
  : bool * bytes * PROV_GCM_CTX :=
  if negb (tls_aad_len c =? UNINITIALISED_SIZET) then gcm_tls_cipher c out inp
  else if negb (key_set c) || (iv_state c =? IV_STATE_FINISHED) then (false, [], c)
  else
  let '(ok, c) :=
    if iv_state c =? IV_STATE_UNINITIALISED then
      if negb (enc c) then (false, c) else gcm_iv_generate c 0
    else (true, c) in
  if negb ok then (false, [], c)
  else
  let c := if iv_state c =? IV_STATE_BUFFERED
           then with_iv_state (ossl_gcm_setiv c (iv c) (ivlen c)).2 IV_STATE_COPIED else c in
  match inp with
  | Some d =>
      if negb out then let '(ok, c) := ossl_gcm_aad_update c d in (ok, [], c)
      else generic_aes_gcm_cipher_update c d
  | None =>
      if negb (enc c) && (taglen c =? UNINITIALISED_SIZET) then (false, [], c)
      else
      let '(ok, tag, c) := ossl_gcm_cipher_final c (buf c) in
      let c := with_tag c (taglen c) tag in
      if negb ok then (false, [], c)
      else (true, [], with_iv_state c IV_STATE_FINISHED)
  end.

(** [ossl_gcm_stream_update] and [ossl_gcm_stream_final]. *)
Definition ossl_gcm_stream_update (c : PROV_GCM_CTX) (out : bool) (outsize : Z) (inp : bytes)
  : bool * bytes * PROV_GCM_CTX :=
  if zlen inp =? 0 then (true, [], c)
  else if outsize <? zlen inp then (false, [], c)
  else gcm_cipher_internal c out (Some inp).
Definition ossl_gcm_stream_final (c : PROV_GCM_CTX) (out : bool) : bool * PROV_GCM_CTX :=
  let '(ok, _, c) := gcm_cipher_internal c out None in (ok, c).

(** [ossl_gcm_cipher]: one call that may be an update or the end. *)
Definition ossl_gcm_cipher (c : PROV_GCM_CTX) (out : bool) (outsize : Z) (inp : option bytes)
  : bool * bytes * PROV_GCM_CTX :=
  if outsize <? zlen (default [] inp) then (false, [], c) else gcm_cipher_internal c out inp.

(** ** EVP (evp_enc.c), for a cipher of a provider *)
Record EVP_CIPHER_CTX := mkEvp {
  encrypt : bool; cipher : option Z; algctx : option PROV_GCM_CTX; iv_len : Z; key_len : Z }.
Definition EVP_CIPHER_CTX_new : option EVP_CIPHER_CTX :=
  if ctx_mem mem then Some (mkEvp false None None (-1) 0) else None.

(** [EVP_CIPHER_CTX_get_iv_length] and [EVP_CIPHER_CTX_get_key_length]; a cipher
    is its key size in bits. *)
Definition EVP_CIPHER_CTX_get_iv_length (x : EVP_CIPHER_CTX) (c : PROV_GCM_CTX) : Z * EVP_CIPHER_CTX :=
  if iv_len x <? 0
  then (ivlen c, mkEvp (encrypt x) (cipher x) (algctx x) (ivlen c) (key_len x))
  else (iv_len x, x).
Definition EVP_CIPHER_CTX_get_key_length (x : EVP_CIPHER_CTX) (c : PROV_GCM_CTX) : Z * EVP_CIPHER_CTX :=
  if key_len x <=? 0
  then (keylen c, mkEvp (encrypt x) (cipher x) (algctx x) (iv_len x) (keylen c))
  else (key_len x, x).

(** [evp_cipher_init_internal] without an engine and without parameters.  The
    cipher of the caller has no provider and is fetched; the one of the context is. *)
Definition evp_cipher_init_internal (x : EVP_CIPHER_CTX) (ciph : option Z)
    (key v : option bytes) (e : bool) : bool * EVP_CIPHER_CTX :=
  let x := mkEvp e (cipher x) (algctx x) (iv_len x) (key_len x) in
  let x := match ciph, cipher x with
           | Some _, Some _ => mkEvp e None None (-1) 0
           | _, _ => x
           end in
  match (match ciph with Some k => Some k | None => cipher x end) with
  | None => (false, x)
  | Some k =>
      if notnull ciph && negb (fetch_ok mem) then (false, x) else
      let x := mkEvp e (Some k) (algctx x) (iv_len x) (key_len x) in
      match (match algctx x with
             | Some c => Some c
             | None => if algctx_mem mem then Some (aes_gcm_newctx k) else None
             end) with
      | None => (false, x)
      | Some c =>
      let '(kl, x) := if notnull key then EVP_CIPHER_CTX_get_key_length x c else (0, x) in
      let '(vl, x) := if notnull v then EVP_CIPHER_CTX_get_iv_length x c else (0, x) in
      let '(ok, c) := gcm_init c key kl v vl [] e in
      (ok, mkEvp (encrypt x) (cipher x) (Some c) (iv_len x) (key_len x))
      end
  end.

(** [EVP_CIPHER_CTX_ctrl] for the three requests of CryptAeadAesGcm.c. *)
Definition ctrl_set_ivlen (x : EVP_CIPHER_CTX) (arg : Z) : bool * EVP_CIPHER_CTX :=
  match algctx x with
  | None => (false, x)
  | Some c =>
      if arg <? 0 then (false, x)
      else if iv_len x =? arg then (true, x)
      else let '(ok, c) := ossl_gcm_set_ctx_params c [AEAD_IVLEN arg] in
           (ok, mkEvp (encrypt x) (cipher x) (Some c) (-1) (key_len x))
  end.
Definition ctrl_set_tag (x : EVP_CIPHER_CTX) (arg : Z) (ptr : option bytes) : bool * EVP_CIPHER_CTX :=
  match algctx x with
  | None => (false, x)
  | Some c => let '(ok, c) := ossl_gcm_set_ctx_params c [AEAD_TAG arg ptr] in
              (ok, mkEvp (encrypt x) (cipher x) (Some c) (iv_len x) (key_len x))
  end.
Definition ctrl_get_tag (x : EVP_CIPHER_CTX) (arg : Z) : bool * bytes :=
  match algctx x with None => (false, []) | Some c => get_tag c arg end.

(** [EVP_EncryptUpdate] ([e] true) and [EVP_DecryptUpdate]; the block size of a
    stream cipher is 1, so that [outsize] is [inl]. *)
Definition evp_update (e : bool) (x : EVP_CIPHER_CTX) (out : bool) (inp : bytes)
  : bool * bytes * EVP_CIPHER_CTX :=
  if negb (Bool.eqb (encrypt x) e) then (false, [], x)
  else match algctx x with
  | None => (false, [], x)
  | Some c =>
      let '(ok, o, c) := ossl_gcm_stream_update c out (zlen inp) inp in
      let x := mkEvp (encrypt x) (cipher x) (Some c) (iv_len x) (key_len x) in
      if ok && (2147483647 <? zlen inp) then (false, o, x) else (ok, o, x)
  end.
(** [EVP_EncryptFinal_ex] and [EVP_DecryptFinal_ex]. *)
Definition evp_final (e : bool) (x : EVP_CIPHER_CTX) (out : bool) : bool * EVP_CIPHER_CTX :=
  if negb (Bool.eqb (encrypt x) e) then (false, x)
  else match algctx x with
  | None => (false, x)
  | Some c =>
      let '(ok, c) := ossl_gcm_stream_final c out in
      (ok, mkEvp (encrypt x) (cipher x) (Some c) (iv_len x) (key_len x))
  end.

(** ** CryptAeadAesGcm.c, from [EVP_CIPHER_CTX_new] to [Done] *)

(** The first two calls, before an argument is read: the context with its cipher;
    [None] is the end of the function with FALSE. *)
Definition evp_begin (e : bool) (keysize : Z) : option EVP_CIPHER_CTX :=
  match EVP_CIPHER_CTX_new with
  | None => None
  | Some x =>
      let '(ok, x) := evp_cipher_init_internal x (Some (8 * keysize)) None None e in
      if ok then Some x else None
  end.
(** The calls both functions begin with: result, bytes at [DataOut], context.
    [out] says whether [DataOut] is not null. *)
Definition evp_start (e : bool) (key v a m : bytes) (out : bool)
  : bool * bytes * option EVP_CIPHER_CTX :=
  match evp_begin e (zlen key) with
  | None => (false, [], None)
  | Some x =>
      let '(ok, x) := ctrl_set_ivlen x (zlen v) in
      if negb ok then (false, [], Some x) else
      let '(ok, x) := evp_cipher_init_internal x None (Some key) (Some v) e in
      if negb ok then (false, [], Some x) else
      let '(ok, _, x) := evp_update e x false a in
      if negb ok then (false, [], Some x) else
      let '(ok, o, x) := evp_update e x out m in (ok, o, Some x)
  end.

(** [AeadAesGcmEncrypt]: result, the bytes at [DataOut] and at [TagOut]. *)
Definition evp_seal (key v a m : bytes) (out : bool) (tagsize : Z) : bool * bytes * bytes :=
  match evp_start true key v a m out with
  | (true, ct, Some x) =>
      let '(ok, x) := evp_final true x out in
      if negb ok then (false, ct, []) else
      let '(ok, tag) := ctrl_get_tag x tagsize in
      (ok, ct, tag)
  | (_, ct, _) => (false, ct, [])
  end.
(** [AeadAesGcmDecrypt]: result and the bytes at [DataOut]. *)
Definition evp_open (key v a ct : bytes) (out : bool) (tag : bytes) : bool * bytes :=
  match evp_start false key v a ct out with
  | (true, m, Some x) =>
      let '(ok, x) := ctrl_set_tag x (zlen tag) (Some tag) in
      if negb ok then (false, m) else
      let '(ok, x) := evp_final false x out in
      (ok, m)
  | (_, m, _) => (false, m)
  end.
End Provider.

(** ** What the calls compute *)
Definition aes_schedule (key : bytes) : AES_KEY :=
  default (mkAesKey (replicate 60 0) 0)
    (AES_set_encrypt_key (Some key) (8 * zlen key) (Some (mkAesKey (replicate 60 0) 0))).2.
Definition aes_cipher (key b : bytes) : bytes := AES_encrypt b (aes_schedule key).

(** The calls on the context of gcm128.c; the provider skips empty inputs. *)
Definition aad_call (g : GCM128_CONTEXT) (a : bytes) : GCM128_CONTEXT :=
  match a with [] => g | _ => (CRYPTO_gcm128_aad g a).2 end.
Definition crypt_call (e : bool) (g : GCM128_CONTEXT) (m : bytes) : bytes * GCM128_CONTEXT :=
  match m with
  | [] => ([], g)
  | _ => let '(_, o, g) := if e then CRYPTO_gcm128_encrypt g m else CRYPTO_gcm128_decrypt g m in (o, g)
  end.
Definition data_call (e out : bool) (g : GCM128_CONTEXT) (m : bytes) : bytes * GCM128_CONTEXT :=
  if out then crypt_call e g m else ([], aad_call g m).

(** ** The calls on the mode's context *)
(** Lengths that the mode's context counts. *)
Definition counts (g : GCM128_CONTEXT) (a m : Z) : Prop := len0 g = a /\ len1 g = m.
Lemma absorb_counts fuel d g a m : counts g a m -> counts (absorb_blocks fuel d g).2 a m.
Proof.
  revert d g. induction fuel as [|fuel IH]; intros d g Hc; [done|]. cbn [absorb_blocks].
  destruct (Nat.leb 16 (length d)); [|done]. by apply IH.
Qed.
Lemma setiv_counts g v : counts (CRYPTO_gcm128_setiv g v) 0 0.
Proof.
  unfold CRYPTO_gcm128_setiv. destruct (Nat.eqb (length v) 12); [done|].
  pose proof (absorb_counts (length v) v
    (set_Xi (set_res (set_len g 0 0) 0 0) (replicate 16 0)) 0 0 (conj eq_refl eq_refl)) as Hc.
  destruct (absorb_blocks _ _ _) as [rest g1]. cbn [snd] in Hc.
  by destruct (Nat.eqb (length rest) 0).
Qed.
Lemma aad_accepts g d a : counts g a 0 -> 0 <= a -> a + zlen d <= 2 ^ 61 ->
  exists g', CRYPTO_gcm128_aad g d = (0, g') /\ counts g' (a + zlen d) 0.
Proof.
  intros [H0 H1] Ha HB. unfold CRYPTO_gcm128_aad. rewrite H0, H1, u64_small by lia.
  change (negb (0 =? 0)) with false. cbv iota. guard_false.
  destruct (aad_fill _ _ _) as [[n rest] X].
  destruct (negb _ && negb _); [eexists; split; [reflexivity|]; done|].
  match goal with |- context [absorb_blocks ?f ?r ?g1] =>
    pose proof (absorb_counts f r g1 (a + zlen d) 0) as Hc; destruct (absorb_blocks f r g1) as [r1 g2]
  end.
  assert (Hc2 : counts g2 (a + zlen d) 0) by (apply Hc; by destruct (negb _)).
  destruct (Nat.eqb (length r1) 0); eexists; (split; [reflexivity|exact Hc2]).
Qed.

Lemma crypt_bytes_len0 (e : bool) inp n ctr m g :
  length (if e then encrypt_bytes inp n ctr m g else decrypt_bytes inp n ctr m g).1.1 = length inp.
Proof.
  revert n ctr m g. induction inp as [|x inp IH]; intros n ctr m g; [by destruct e|].
  destruct e; cbn [encrypt_bytes decrypt_bytes]; destruct (if Nat.eqb n 0 then _ else _) as [g1 ctr1].
  - match goal with |- context [encrypt_bytes ?i ?a ?b ?c ?d] =>
      pose proof (IH a b c d) as HL; destruct (encrypt_bytes i a b c d) as [[o k] g2] end.
    cbn [fst length] in *. by rewrite HL.
  - match goal with |- context [decrypt_bytes ?i ?a ?b ?c ?d] =>
      pose proof (IH a b c d) as HL; destruct (decrypt_bytes i a b c d) as [[o k] g2] end.
    cbn [fst length] in *. by rewrite HL.
Qed.
Lemma crypt_accepts (e : bool) g m l : len1 g = l -> 0 <= l -> l + zlen m <= 2 ^ 36 - 32 ->
  exists o g', (if e then CRYPTO_gcm128_encrypt g m else CRYPTO_gcm128_decrypt g m) = (0, o, g') /\
    length o = length m.
Proof.
  intros H1 Hl HB. unfold CRYPTO_gcm128_encrypt, CRYPTO_gcm128_decrypt, crypt_start.
  rewrite H1, u64_small by lia. guard_false.
  match goal with |- context [encrypt_bytes ?i ?a ?b ?c ?d] =>
    pose proof (crypt_bytes_len0 e i a b c d) as HL end.
  destruct e; [destruct (encrypt_bytes _ _ _ _ _) as [[o k] g2]
              |destruct (decrypt_bytes _ _ _ _ _) as [[o k] g2]]; eexists _, _; (split; [reflexivity|exact HL]).
Qed.

(** The tag of a context is 16 bytes long whatever it held. *)
Lemma length_xor_into i d X : length (xor_into i d X) = length X.
Proof.
  revert i X. induction d as [|v d IH]; intros i X; cbn [xor_into]; [done|]. rewrite IH. apply length_insert.
Qed.
Lemma finish_length g t n : length (Xi (CRYPTO_gcm128_finish g t n).2) = 16%nat.
Proof.
  unfold CRYPTO_gcm128_finish.
  match goal with |- context [GCM_MUL (set_Xi (set_len ?g ?a ?b) ?X)] => set (g1 := GCM_MUL (set_Xi (set_len g a b) X)) end.
  assert (HL : length (Xi g1) = 16%nat) by reflexivity. clearbody g1.
  destruct t as [t|]; [destruct (Nat.leb n 16)|]; cbn [snd Xi set_Xi]; by rewrite length_xor_into.
Qed.
Lemma tag_length g : length (CRYPTO_gcm128_tag g 16).1 = 16%nat.
Proof.
  unfold CRYPTO_gcm128_tag. pose proof (finish_length g None 0) as HL.
  destruct (CRYPTO_gcm128_finish g None 0) as [r g']. cbn [fst snd] in *.
  change (if Nat.leb 16 16 then 16 else 16)%nat with 16%nat. rewrite length_take, HL. done.
Qed.

Lemma memcmp_take a b n : CRYPTO_memcmp a b n = CRYPTO_memcmp a (take n b) n.
Proof. revert a b. induction n as [|n IH]; intros [|x a] [|y b]; cbn; try done. by rewrite IH. Qed.
Lemma finish_take g t n : (n <= 16)%nat ->
  CRYPTO_gcm128_finish g (Some t) n = CRYPTO_gcm128_finish g (Some (take n t)) n.
Proof.
  intros Hn. unfold CRYPTO_gcm128_finish. rewrite (proj2 (Nat.leb_le n 16) Hn).
  by rewrite <-memcmp_take.
Qed.

(** ** Encryption and decryption undo each other *)
Lemma encrypt_decrypt_bytes inp n ctr m g out k g' :
  encrypt_bytes inp n ctr m g = (out, k, g') -> decrypt_bytes out n ctr m g = (inp, k, g').
Proof.
  revert n ctr m g out k g'. induction inp as [|x inp IH]; intros n ctr m g out k g'.
  - cbn [encrypt_bytes]. by intros [= <- <- <-].
  - cbn [encrypt_bytes]. destruct (if Nat.eqb n 0 then _ else _) as [g1 ctr1] eqn:E.
    destruct (encrypt_bytes inp _ _ _ _) as [[o k1] g2] eqn:HE. intros [= <- <- <-].
    cbn [decrypt_bytes]. rewrite E, (IH _ _ _ _ _ _ _ HE).
    by rewrite Z.lxor_assoc, Z.lxor_nilpotent, Z.lxor_0_r.
Qed.
Lemma decrypt_encrypt_bytes inp n ctr m g out k g' :
  decrypt_bytes inp n ctr m g = (out, k, g') -> encrypt_bytes out n ctr m g = (inp, k, g').
Proof.
  revert n ctr m g out k g'. induction inp as [|x inp IH]; intros n ctr m g out k g'.
  - cbn [decrypt_bytes]. by intros [= <- <- <-].
  - cbn [decrypt_bytes]. destruct (if Nat.eqb n 0 then _ else _) as [g1 ctr1] eqn:E.
    destruct (decrypt_bytes inp _ _ _ _) as [[o k1] g2] eqn:HE. intros [= <- <- <-].
    cbn [encrypt_bytes]. rewrite E. rewrite Z.lxor_assoc, Z.lxor_nilpotent, Z.lxor_0_r.
    by rewrite (IH _ _ _ _ _ _ _ HE).
Qed.
Lemma crypt_start_ext g a b : length a = length b -> crypt_start g a = crypt_start g b.
Proof. intros HL. unfold crypt_start. by rewrite HL. Qed.
Lemma crypt_inverse e g m ct g' : len1 g = 0 -> zlen m <= 2147483647 ->
  crypt_call e g m = (ct, g') -> crypt_call (negb e) g ct = (m, g').
Proof.
  intros H1 Hm HE. destruct m as [|x m]; [by injection HE as <- <-|].
  set (d := x :: m) in *. destruct (crypt_accepts e g d 0 H1) as (o & g2 & HC & HL); [lia|lia|].
  assert (HD : crypt_call e g d = (o, g2)) by (unfold crypt_call, d; fold d; by rewrite HC).
  rewrite HD in HE. injection HE as -> ->.
  destruct ct as [|y ct]; [discriminate HL|]. set (d2 := y :: ct) in *. unfold crypt_call, d2. fold d2.
  assert (HR : (if negb e then CRYPTO_gcm128_encrypt g d2 else CRYPTO_gcm128_decrypt g d2) = (0, d, g'));
    [|by rewrite HR].
  destruct e; cbn [negb]; unfold CRYPTO_gcm128_encrypt, CRYPTO_gcm128_decrypt in *;
    rewrite (crypt_start_ext g d2 d HL); destruct (crypt_start g d) as [g3|]; try discriminate HC.
  - destruct (encrypt_bytes _ _ _ _ _) as [[o k] g4] eqn:EE. injection HC as -> <-.
    by rewrite (encrypt_decrypt_bytes _ _ _ _ _ _ _ _ EE).
  - destruct (decrypt_bytes _ _ _ _ _) as [[o k] g4] eqn:EE. injection HC as -> <-.
    by rewrite (decrypt_encrypt_bytes _ _ _ _ _ _ _ _ EE).
Qed.

Lemma finish_ctx g t n t' n' :
  Xi (CRYPTO_gcm128_finish g t n).2 = Xi (CRYPTO_gcm128_finish g t' n').2.
Proof.
  unfold CRYPTO_gcm128_finish.
  destruct t, t'; repeat match goal with |- context [Nat.leb ?a 16] => destruct (Nat.leb a 16) end; reflexivity.
Qed.
(** The tag is accepted when it is the tag of the context. *)
Lemma finish_tag g tag : (length tag <= 16)%nat ->
  (CRYPTO_gcm128_finish g (Some tag) (length tag)).1 = 0 <-> take (length tag) (CRYPTO_gcm128_tag g 16).1 = tag.
Proof.
  intros HT. assert (HF : (CRYPTO_gcm128_finish g (Some tag) (length tag)).1
    = CRYPTO_memcmp (Xi (CRYPTO_gcm128_finish g (Some tag) (length tag)).2) tag (length tag)).
  { unfold CRYPTO_gcm128_finish. by rewrite (proj2 (Nat.leb_le (length tag) 16) HT). }
  rewrite HF, memcmp_0 by (rewrite ?finish_length; lia).
  rewrite (finish_ctx g _ _ None 0). unfold CRYPTO_gcm128_tag.
  pose proof (finish_length g None 0) as HL. destruct (CRYPTO_gcm128_finish g None 0) as [r g'].
  cbn [fst snd] in *. change (if Nat.leb 16 16 then 16 else 16)%nat with 16%nat.
  assert (take 16 (Xi g') = Xi g') as -> by (apply firstn_all2; lia). done.
Qed.

Definition gcm_key_size (key : bytes) : Prop := zlen key = 16 \/ zlen key = 24 \/ zlen key = 32.
Definition keyed (key v : bytes) : GCM128_CONTEXT :=
  CRYPTO_gcm128_setiv (CRYPTO_gcm128_init (aes_cipher key)) v.

Lemma initkey_run c key : ks c = mkAesKey (replicate 60 0) 0 ->
  aes_gcm_initkey c key (zlen key)
  = (true, with_key c (aes_schedule key) (CRYPTO_gcm128_init (aes_cipher key))).
Proof.
  intros Hk. unfold aes_gcm_initkey. rewrite Hk, Z.mul_comm. unfold aes_cipher, aes_schedule.
  by destruct (AES_set_encrypt_key (Some key) (8 * zlen key) _) as [r k].
Qed.

Lemma gcm_init_run RAND c key v e : zlen key = keylen c -> ks c = mkAesKey (replicate 60 0) 0 ->
  gcm_init RAND c (Some key) (zlen key) (Some v) 12 [] e
  = (true, with_records (with_key (with_iv (with_enc c e) 12 IV_STATE_BUFFERED
                                     (splice (iv c) 0 (take 12 v)))
                           (aes_schedule key) (CRYPTO_gcm128_init (aes_cipher key))) 0).
Proof.
  intros Hk Hs. unfold gcm_init.
  change ((12 =? 0) || (GCM_IV_MAX_SIZE <? 12)) with false. cbn [negb].
  change (keylen (with_iv _ _ _ _)) with (keylen c).
  rewrite <-Hk, Z.eqb_refl. cbn [negb]. rewrite initkey_run by exact Hs. reflexivity.
Qed.

Lemma splice_take b d : (length d <= length b)%nat -> take (length d) (splice b 0 d) = d.
Proof.
  intros HL. unfold splice. rewrite take_0. cbn [app]. by rewrite take_app_length.
Qed.

Section Calls.
Context (RAND : Z -> option bytes) (inplace : bool) (mem : evp_mem).

(** A context of the provider after the key and the IV were set: [g] is what the
    mode's context is, or will be once the buffered IV is copied. *)
Definition ready (e : bool) (kl : Z) (c : PROV_GCM_CTX) (g : GCM128_CONTEXT) : Prop :=
  enc c = e /\ key_set c = true /\ tls_aad_len c = UNINITIALISED_SIZET /\
  length (buf c) = 16%nat /\ keylen c = kl /\
  (iv_state c = IV_STATE_COPIED /\ gcm c = g \/
   iv_state c = IV_STATE_BUFFERED /\ g = CRYPTO_gcm128_setiv (gcm c) (take (Z.to_nat (ivlen c)) (iv c))).

(** Decides the tests of the state of the IV. *)
Ltac iv_state_is Hs :=
  repeat (try rewrite Hs; match goal with
          | |- context [?a =? ?b] => let v := eval vm_compute in (a =? b) in
              match v with true => change (a =? b) with true | false => change (a =? b) with false end
          end; cbn [negb orb]; cbv beta iota zeta).

(** Entering a call copies the IV. *)
Lemma ready_enter e kl c g out inp : ready e kl c g ->
  exists c', gcm_cipher_internal RAND inplace c out inp
    = match inp with
      | Some d => if negb out then let '(ok, c) := ossl_gcm_aad_update c' d in (ok, [], c)
                  else generic_aes_gcm_cipher_update c' d
      | None => if negb (enc c') && (taglen c' =? UNINITIALISED_SIZET) then (false, [], c')
                else let '(ok, tag, c) := ossl_gcm_cipher_final c' (buf c') in
                     let c := with_tag c (taglen c) tag in
                     if negb ok then (false, [], c) else (true, [], with_iv_state c IV_STATE_FINISHED)
      end /\ ready e kl c' g /\ iv_state c' = IV_STATE_COPIED /\ gcm c' = g /\
    taglen c' = taglen c /\ buf c' = buf c.
Proof.
  intros (He & Hk & Ht & Hb & Hkl & [[Hs Hg]|[Hs Hg]]); unfold gcm_cipher_internal;
    rewrite Ht, Hk, Z.eqb_refl; iv_state_is Hs.
  - exists c. split; [reflexivity|]. split; [|done]. unfold ready. tauto.
  - eexists. split; [reflexivity|]. unfold ready, with_iv_state, ossl_gcm_setiv.
    cbn [with_iv with_gcm enc key_set tls_aad_len taglen buf keylen iv_state gcm snd].
    rewrite Hg. repeat split; try done. by left.
Qed.

(** The update calls of the provider. *)
Lemma update_aad e kl c g a la : ready e kl c g -> counts g la 0 -> 0 <= la -> la + zlen a <= 2 ^ 61 ->
  exists c', ossl_gcm_stream_update RAND inplace c false (zlen a) a = (true, [], c') /\
    ready e kl c' (aad_call g a) /\ counts (aad_call g a) (la + zlen a) 0.
Proof.
  intros Hr Hc Hla HB. unfold ossl_gcm_stream_update. destruct a as [|x a].
  - exists c. cbn [length aad_call]. by rewrite Z.add_0_r.
  - set (d := x :: a) in *. assert (0 < zlen d) by (unfold d; cbn [length]; lia). guard_false. guard_false.
    destruct (ready_enter e kl c g false (Some d) Hr) as (c' & -> & Hr' & Hs & Hg & Htl & Hbf).
    destruct (aad_accepts g d la Hc Hla HB) as (g' & HA & Hc').
    unfold ossl_gcm_aad_update. rewrite Hg, HA. cbn [negb]. eexists. split; [reflexivity|].
    change (aad_call g d) with (CRYPTO_gcm128_aad g d).2. rewrite HA. cbn [snd]. split; [|exact Hc'].
    destruct Hr' as (R1 & R2 & R3 & R5 & R6 & _). unfold ready. repeat split; try done. by left.
Qed.
Lemma update_data e kl c g m la : ready e kl c g -> counts g la 0 -> zlen m <= 2 ^ 36 - 32 ->
  exists c', ossl_gcm_stream_update RAND inplace c true (zlen m) m = (true, (crypt_call e g m).1, c') /\
    ready e kl c' (crypt_call e g m).2 /\ length (crypt_call e g m).1 = length m.
Proof.
  intros Hr Hc HB. unfold ossl_gcm_stream_update. destruct m as [|x m].
  - exists c. by cbn [length crypt_call].
  - set (d := x :: m) in *. assert (0 < zlen d) by (unfold d; cbn [length]; lia). guard_false. guard_false.
    destruct (ready_enter e kl c g true (Some d) Hr) as (c' & -> & Hr' & Hs & Hg & Htl & Hbf).
    destruct (crypt_accepts e g d 0 (proj2 Hc) ltac:(lia) ltac:(lia)) as (o & g' & HE & HL).
    unfold generic_aes_gcm_cipher_update. cbn [negb]. rewrite Hg, (proj1 Hr').
    assert (HCC : crypt_call e g d = (o, g')) by (unfold crypt_call, d; fold d; by rewrite HE).
    rewrite HE, HCC. eexists. split; [reflexivity|]. split; [|exact HL]. cbn [snd].
    destruct Hr' as (R1 & R2 & R3 & R5 & R6 & _). unfold ready. repeat split; try done. by left.
Qed.

(** The first two calls: they succeed exactly when the allocations and the fetch do. *)
Lemma evp_begin_run e n :
  evp_begin RAND mem e n
  = if mem_ok mem
    then Some (mkEvp e (Some (8 * n)) (Some (with_enc (aes_gcm_newctx (8 * n)) e)) (-1) 0)
    else None.
Proof. unfold evp_begin, EVP_CIPHER_CTX_new, mem_ok. by destruct mem as [[] [] []]. Qed.
Lemma evp_start_refused e key v a m out : mem_ok mem = false ->
  evp_start RAND inplace mem e key v a m out = (false, [], None).
Proof. intros HM. unfold evp_start. by rewrite evp_begin_run, HM. Qed.

(** The calls that set the cipher, the length of the IV, the key and the IV. *)
Lemma evp_init_run e key v : gcm_key_size key -> zlen v = 12 ->
  exists c,
    (let x := mkEvp e (Some (8 * zlen key)) (Some (with_enc (aes_gcm_newctx (8 * zlen key)) e)) (-1) 0 in
     let '(ok, x) := ctrl_set_ivlen RAND x (zlen v) in
     if negb ok then (false, x) else evp_cipher_init_internal RAND mem x None (Some key) (Some v) e)
    = (true, mkEvp e (Some (8 * zlen key)) (Some c) 12 (zlen key)) /\
    ready e (zlen key) c (keyed key v).
Proof.
  intros Hk Hv. rewrite Hv.
  assert (HD : 8 * zlen key / 8 = zlen key) by (rewrite Z.mul_comm; by apply Z.div_mul).
  set (c0 := with_enc (aes_gcm_newctx (8 * zlen key)) e). cbv zeta.
  assert (H2 : ctrl_set_ivlen RAND (mkEvp e (Some (8 * zlen key)) (Some c0) (-1) 0) 12
               = (true, mkEvp e (Some (8 * zlen key)) (Some c0) (-1) 0)) by reflexivity.
  rewrite H2. cbn [negb].
  set (c1 := with_iv c0 12 IV_STATE_BUFFERED (splice (zeros 128) 0 (take 12 v))).
  set (c2 := with_records (with_key c1 (aes_schedule key) (CRYPTO_gcm128_init (aes_cipher key))) 0).
  exists c2. split.
  - assert (HG : gcm_init RAND c0 (Some key) (zlen key) (Some v) 12 [] e = (true, c2)).
    { rewrite gcm_init_run; [reflexivity|symmetry; exact HD|reflexivity]. }
    assert (HL : keylen c0 = zlen key) by exact HD.
    unfold evp_cipher_init_internal, EVP_CIPHER_CTX_get_key_length, EVP_CIPHER_CTX_get_iv_length.
    cbn [cipher algctx iv_len key_len encrypt notnull andb].
    change (0 <=? 0) with true. change (-1 <? 0) with true. cbv iota.
    cbn [cipher algctx iv_len key_len encrypt]. change (-1 <? 0) with true. cbv iota.
    change (ivlen c0) with 12. rewrite HL, HG. reflexivity.
  - repeat split; try done. right. split; [done|]. unfold keyed. f_equal.
    change (take (Z.to_nat (ivlen c2)) (iv c2)) with (take 12 (splice (zeros 128) 0 (take 12 v))).
    rewrite (firstn_all2 v) by lia. replace 12%nat with (length v) by lia.
    rewrite splice_take; [done|]. change (length (zeros 128)) with 128%nat. lia.
Qed.

Lemma evp_update_run e x c out inp : encrypt x = e -> algctx x = Some c -> zlen inp <= 2147483647 ->
  evp_update RAND inplace e x out inp
  = let '(ok, o, c') := ossl_gcm_stream_update RAND inplace c out (zlen inp) inp in
    (ok, o, mkEvp e (cipher x) (Some c') (iv_len x) (key_len x)).
Proof.
  intros He Ha HB. unfold evp_update. rewrite He, Ha. rewrite Bool.eqb_reflx. cbn [negb].
  destruct (ossl_gcm_stream_update _ _ _ _ _ _) as [[ok o] c'].
  rewrite (proj2 (Z.ltb_ge 2147483647 (zlen inp))) by lia. by rewrite andb_false_r.
Qed.

(** Everything up to the last call. *)
Lemma evp_start_run e key v a m out : mem_ok mem = true ->
  gcm_key_size key -> zlen v = 12 -> zlen a <= 2147483647 -> zlen m <= 2147483647 ->
  let r := data_call e out (aad_call (keyed key v) a) m in
  exists x c, evp_start RAND inplace mem e key v a m out = (true, r.1, Some x) /\
    encrypt x = e /\ algctx x = Some c /\ ready e (zlen key) c r.2 /\
    length r.1 = if out then length m else 0%nat.
Proof.
  intros HM Hk Hv Ha Hm r. destruct (evp_init_run e key v Hk Hv) as (c0 & H3 & Hr0).
  unfold evp_start. rewrite evp_begin_run, HM. cbv zeta in H3.
  destruct (ctrl_set_ivlen RAND _ (zlen v)) as [[] x2]; [|done]. cbn [negb] in *.
  rewrite H3. cbn [negb]. rewrite (evp_update_run e _ c0 false a) by done.
  destruct (update_aad e (zlen key) c0 (keyed key v) a 0 Hr0 (setiv_counts _ _)) as (c1 & -> & Hr1 & Hc1);
    [lia|lia|]. cbn [negb cipher iv_len key_len]. rewrite (evp_update_run e _ c1 out m) by done.
  unfold r, data_call. destruct out.
  - destruct (update_data e (zlen key) c1 _ m _ Hr1 Hc1) as (c2 & -> & Hr2 & HL); [lia|].
    eexists _, c2. split; [reflexivity|]. done.
  - destruct (update_aad e (zlen key) c1 _ m _ Hr1 Hc1) as (c2 & -> & Hr2 & _); [lia|lia|].
    eexists _, c2. split; [reflexivity|]. done.
Qed.

Lemma evp_seal_run key v a m out tagsize : mem_ok mem = true ->
  gcm_key_size key -> zlen v = 12 -> zlen a <= 2147483647 -> zlen m <= 2147483647 ->
  1 <= tagsize <= 16 ->
  let r := data_call true out (aad_call (keyed key v) a) m in
  evp_seal RAND inplace mem key v a m out tagsize
  = (true, r.1, take (Z.to_nat tagsize) (CRYPTO_gcm128_tag r.2 16).1).
Proof.
  intros HM Hk Hv Ha Hm Ht r.
  destruct (evp_start_run true key v a m out HM Hk Hv Ha Hm) as (x & c & HE & Hx & Hc & Hr & _).
  unfold evp_seal. rewrite HE. unfold evp_final. rewrite Hx, Hc. cbn [Bool.eqb negb].
  unfold ossl_gcm_stream_final.
  destruct (ready_enter true _ c _ out None Hr) as (c' & -> & Hr' & Hs & Hg & Htl & Hbf).
  destruct Hr' as (R1 & R2 & R3 & R5 & R6 & _). rewrite R1. cbn [negb andb].
  unfold ossl_gcm_cipher_final. rewrite R1, Hg. change (Z.to_nat GCM_TAG_MAX_SIZE) with 16%nat.
  fold r. pose proof (tag_length r.2) as HL.
  destruct (CRYPTO_gcm128_tag r.2 16) as [tag g']. cbn [fst] in *. cbn [negb].
  unfold ctrl_get_tag, get_tag. cbn [algctx enc with_iv_state with_iv with_tag with_gcm taglen buf].
  rewrite R1. cbn [negb]. change (GCM_TAG_MAX_SIZE =? UNINITIALISED_SIZET) with false.
  unfold EVP_GCM_TLS_TAG_LEN. guard_false. do 2 f_equal.
  unfold splice. rewrite take_0, drop_ge by lia. cbn [app]. by rewrite app_nil_r.
Qed.

Lemma evp_open_run key v a ct out tag : mem_ok mem = true ->
  gcm_key_size key -> zlen v = 12 -> zlen a <= 2147483647 -> zlen ct <= 2147483647 ->
  1 <= zlen tag <= 16 ->
  let r := data_call false out (aad_call (keyed key v) a) ct in
  evp_open RAND inplace mem key v a ct out tag
  = ((CRYPTO_gcm128_finish r.2 (Some tag) (length tag)).1 =? 0, r.1).
Proof.
  intros HM Hk Hv Ha Hm Ht r.
  destruct (evp_start_run false key v a ct out HM Hk Hv Ha Hm) as (x & c & HE & Hx & Hc & Hr & _).
  unfold evp_open. rewrite HE. unfold ctrl_set_tag. rewrite Hc.
  pose proof Hr as (R1 & R2 & R3 & R5 & R6 & R7).
  cbn [ossl_gcm_set_ctx_params set_param]. unfold EVP_GCM_TLS_TAG_LEN.
  rewrite (proj2 (Z.ltb_ge 16 (zlen tag))), Z.ltb_irrefl by lia.
  set (b := splice (buf c) 0 (take (Z.to_nat (zlen tag)) tag)).
  change (enc (with_tag c (taglen c) b)) with (enc c). rewrite R1, (proj2 (Z.eqb_neq (zlen tag) 0)) by lia.
  cbn [orb]. change (with_tag (with_tag c (taglen c) b) (zlen tag) (buf _)) with (with_tag c (zlen tag) b).
  cbn [negb]. unfold evp_final. cbn [encrypt algctx]. rewrite Hx. cbn [Bool.eqb negb].
  unfold ossl_gcm_stream_final.
  assert (Hr2 : ready false (zlen key) (with_tag c (zlen tag) b) r.2).
  { repeat split; try done. unfold b. cbn [buf with_tag]. unfold splice.
    rewrite !length_app, length_take, length_drop, length_take. lia. }
  destruct (ready_enter false _ _ _ out None Hr2) as (c' & -> & Hr' & Hs & Hg & Htl & Hbf).
  destruct Hr' as (S1 & S2 & S3 & S5 & S6 & _).
  rewrite S1, Htl. change (taglen (with_tag c (zlen tag) b)) with (zlen tag). cbn [negb andb].
  rewrite (proj2 (Z.eqb_neq (zlen tag) UNINITIALISED_SIZET)) by (unfold UNINITIALISED_SIZET; lia).
  unfold ossl_gcm_cipher_final. rewrite S1, Hg, Htl, Hbf.
  change (buf (with_tag c (zlen tag) b)) with b. change (taglen (with_tag _ _ _)) with (zlen tag).
  rewrite Nat2Z.id, (finish_take r.2 b (length tag)) by lia.
  assert (HB : take (length tag) b = tag).
  { unfold b. rewrite Nat2Z.id, firstn_all. apply splice_take. lia. }
  rewrite HB. destruct (CRYPTO_gcm128_finish r.2 (Some tag) (length tag)) as [z g']. cbn [fst].
  by destruct (z =? 0).
Qed.

(** ** The interface the loaders use: a 16-byte tag *)
(** The context before the data, and the lengths of the outputs. *)
Lemma aad_call_len1 key v a : zlen a <= 2147483647 -> len1 (aad_call (keyed key v) a) = 0.
Proof.
  intros Ha. destruct a as [|x a]; [apply setiv_counts|]. set (d := x :: a) in *.
  destruct (aad_accepts (keyed key v) d 0) as (g' & HE & Hg); [apply setiv_counts|lia|lia|].
  change (aad_call (keyed key v) d) with (CRYPTO_gcm128_aad (keyed key v) d).2. rewrite HE. apply Hg.
Qed.
Lemma crypt_call_length e g d : len1 g = 0 -> zlen d <= 2147483647 -> length (crypt_call e g d).1 = length d.
Proof.
  intros H1 Hd. destruct d as [|x d]; [done|].
  destruct (crypt_accepts e g (x :: d) 0 H1) as (o & g2 & HC & HL); [lia|lia|].
  unfold crypt_call. by rewrite HC.
Qed.
Lemma evp_data_length e key v a d : zlen a <= 2147483647 -> zlen d <= 2147483647 ->
  length (data_call e true (aad_call (keyed key v) a) d).1 = length d.
Proof. intros. apply crypt_call_length; [by apply aad_call_len1|done]. Qed.

Lemma evp_seal_lengths key v a m t : mem_ok mem = true ->
  gcm_key_size key -> zlen v = 12 -> zlen a <= 2147483647 -> zlen m <= 2147483647 -> 1 <= t <= 16 ->
  let '(_, C, T) := evp_seal RAND inplace mem key v a m true t in zlen C = zlen m /\ zlen T = t.
Proof.
  intros HM Hk Hv Ha Hm Ht. rewrite evp_seal_run by (done || lia).
  rewrite evp_data_length, length_take, tag_length by done. lia.
Qed.

Lemma evp_open_seal key v a ct m tag : mem_ok mem = true ->
  gcm_key_size key -> zlen v = 12 -> zlen a <= 2147483647 -> zlen ct <= 2147483647 ->
  length tag = 16%nat ->
  evp_open RAND inplace mem key v a ct true tag = (true, m) <->
  zlen m <= 2147483647 /\ evp_seal RAND inplace mem key v a m true 16 = (true, ct, tag).
Proof.
  intros HM Hk Hv Ha Hc Ht. rewrite evp_open_run by (done || lia).
  pose proof (aad_call_len1 key v a Ha) as H1. set (g := aad_call (keyed key v) a) in *. unfold data_call.
  pose proof (crypt_call_length false g ct H1 Hc) as HLm.
  destruct (crypt_call false g ct) as [m' g'] eqn:EC. cbn [fst snd] in *.
  pose proof (finish_tag g' tag ltac:(lia)) as HT. rewrite Ht in HT |- *.
  set (z := (CRYPTO_gcm128_finish g' (Some tag) 16).1) in *. clearbody z.
  pose proof (crypt_inverse false g ct m' g' H1 Hc EC) as HI. split.
  - intros [= HF ->]. apply Z.eqb_eq, HT in HF. split; [lia|].
    rewrite evp_seal_run by (done || lia). fold g. unfold data_call. change (negb false) with true in HI.
    rewrite HI. cbn [fst snd]. change (Z.to_nat 16) with 16%nat. by rewrite HF.
  - intros [Hm HS]. rewrite evp_seal_run in HS by (done || lia). fold g in HS. unfold data_call in HS.
    destruct (crypt_call true g m) as [ct' g2] eqn:EC2. cbn [fst snd] in HS.
    pose proof (crypt_inverse true g m ct' g2 H1 Hm EC2) as HI2. change (negb true) with false in HI2.
    change (Z.to_nat 16) with 16%nat in HS. set (t := take 16 _) in HS.
    assert (HTt : t = take 16 (CRYPTO_gcm128_tag g2 16).1) by done. clearbody t.
    injection HS as -> ->. rewrite EC in HI2. injection HI2 as -> ->.
    f_equal. by apply Z.eqb_eq, HT.
Qed.
End Calls.

(** ** The standards *)
Import Sp800_38d.

(** The mode only ever applies the cipher to blocks. *)
Section Ext.
Context (f g : bytes -> bytes) (Hfg : forall b, typed 16 b -> f b = g b).
Lemma subkey_ext : subkey f = subkey g.
Proof using Hfg. apply Hfg, zeros_typed. Qed.
Lemma J0_ext v : J0 f v = J0 g v.
Proof using Hfg. unfold J0. by rewrite subkey_ext. Qed.
Lemma gctr_ext CB xs : typed 16 CB -> gctr f CB xs = gctr g CB xs.
Proof using Hfg.
  revert CB. induction xs as [|x xs IH]; intros CB HC; [done|]. cbn [gctr].
  by rewrite Hfg, IH by (done || by apply inc32_typed).
Qed.
Lemma GCM_AE_ext t v P A : all_bytes v -> GCM_AE f t v P A = GCM_AE g t v P A.
Proof using Hfg.
  intros Hv. pose proof (J0_typed g v Hv) as HJ. unfold GCM_AE, tag_of, auth, GCTR.
  rewrite J0_ext, subkey_ext. by rewrite !gctr_ext by (done || by apply inc32_typed).
Qed.
Lemma GCM_AD_ext t v C A : all_bytes v ->
  decrypted f v C = decrypted g v C /\ tag_of f t v A C = tag_of g t v A C.
Proof using Hfg.
  intros Hv. pose proof (J0_typed g v Hv) as HJ. unfold decrypted, tag_of, auth, GCTR.
  rewrite J0_ext, subkey_ext. by rewrite !gctr_ext by (done || by apply inc32_typed).
Qed.
End Ext.

Section Standard.
Context (RAND : Z -> option bytes) (inplace : bool) (mem : evp_mem).

Lemma aes_cipher_fips key b : all_bytes key -> gcm_key_size key -> typed 16 b ->
  aes_cipher key b = Fips197.encrypt key b.
Proof.
  intros Hb Hk Ht. unfold aes_cipher, aes_schedule.
  destruct (aes_encrypt_run key (mkAesKey (replicate 60 0) 0)) as (k & HE & HR);
    [done|unfold key_size, gcm_key_size in *; lia|done|].
  rewrite HE. cbn [snd default]. by apply HR.
Qed.
Lemma aes_cipher_typed key b : all_bytes key -> gcm_key_size key -> typed 16 b -> typed 16 (aes_cipher key b).
Proof.
  intros. rewrite aes_cipher_fips by done. apply encrypt_typed; [done| |done].
  unfold key_size, gcm_key_size in *. lia.
Qed.

(** A call per piece, none for an empty one. *)
Definition piece (d : bytes) : list bytes := match d with [] => [] | _ => [d] end.
Lemma concat_piece d : concat (piece d) = d.
Proof. destruct d; [done|]. cbn. by rewrite app_nil_r. Qed.
Lemma piece_bytes d : all_bytes d -> Forall all_bytes (piece d).
Proof. destruct d; [constructor|]. intros Hd. constructor; [exact Hd|constructor]. Qed.
Lemma aad_piece g a : counts g 0 0 -> zlen a <= 2147483647 ->
  aad_all g (piece a) = Some (aad_call g a) /\ len1 (aad_call g a) = 0.
Proof.
  intros Hc Ha. destruct a as [|x a]; [split; [done|apply Hc]|]. set (d := x :: a) in *.
  destruct (aad_accepts g d 0 Hc) as (g' & HE & Hg); [lia|lia|].
  change (aad_call g d) with (CRYPTO_gcm128_aad g d).2. unfold d. cbn [piece aad_all]. fold d.
  rewrite HE. split; [done|apply Hg].
Qed.
Lemma crypt_piece (e : bool) g m : len1 g = 0 -> zlen m <= 2147483647 ->
  crypt_all (if e then CRYPTO_gcm128_encrypt else CRYPTO_gcm128_decrypt) g (piece m)
  = Some (crypt_call e g m).
Proof.
  intros Hc Hm. destruct m as [|x m]; [done|]. set (d := x :: m) in *.
  destruct (crypt_accepts e g d 0 Hc) as (o & g' & HE & _); [lia|lia|].
  assert (HD : crypt_call e g d = (o, g')) by (unfold crypt_call, d; fold d; by rewrite HE).
  rewrite HD. unfold d. cbn [piece crypt_all]. fold d.
  replace ((if e then CRYPTO_gcm128_encrypt else CRYPTO_gcm128_decrypt) g d) with (0, o, g')
    by (by destruct e). change (0 =? 0) with true. cbv iota. by rewrite app_nil_r.
Qed.
Lemma tag_take g t : (t <= 16)%nat -> (CRYPTO_gcm128_tag g t).1 = take t (CRYPTO_gcm128_tag g 16).1.
Proof.
  intros Ht. unfold CRYPTO_gcm128_tag. destruct (CRYPTO_gcm128_finish g None 0) as [r g']. cbn [fst].
  rewrite (proj2 (Nat.leb_le t 16) Ht). change (if Nat.leb 16 16 then 16 else 16)%nat with 16%nat.
  rewrite take_take. f_equal. lia.
Qed.

Lemma evp_seal_standard key v a m t : mem_ok mem = true ->
  all_bytes key -> all_bytes v -> all_bytes a -> all_bytes m ->
  gcm_key_size key -> zlen v = 12 -> zlen a <= 2147483647 -> zlen m <= 2147483647 -> 1 <= t <= 16 ->
  let '(C, T) := GCM_AE (Fips197.encrypt key) (Z.to_nat t) v m a in
  evp_seal RAND inplace mem key v a m true t = (true, C, T).
Proof.
  intros HM Hkb Hvb Hab Hmb Hk Hv Ha Hm Ht.
  rewrite <-(GCM_AE_ext (aes_cipher key)) by (done || intros; by apply aes_cipher_fips).
  pose proof (seal_spec (aes_cipher key) v (piece a) (piece m) (Z.to_nat t)) as HS.
  rewrite !concat_piece in HS. unfold gcm_seal in HS. fold (keyed key v) in HS.
  destruct (aad_piece (keyed key v) a (setiv_counts _ _) Ha) as [HA H1]. rewrite HA in HS.
  rewrite (crypt_piece true _ m H1 Hm) in HS.
  rewrite evp_seal_run by (done || lia). unfold data_call.
  destruct (crypt_call true _ m) as [ct g] eqn:EC. rewrite tag_take in HS by lia. cbn [fst snd] in *.
  destruct (GCM_AE (aes_cipher key) _ v m a) as [C T].
  set (T0 := take (Z.to_nat t) (CRYPTO_gcm128_tag g 16).1) in *. clearbody T0.
  assert (HE : Some (ct, T0) = Some (C, T)); [|by injection HE as -> ->].
  apply HS; try (assumption || lia); try by apply piece_bytes. intros. by apply aes_cipher_typed.
Qed.

(** Decryption: the message comes out whatever the tag, which is then decided. *)
Lemma evp_open_standard key v a ct T : mem_ok mem = true ->
  all_bytes key -> all_bytes v -> all_bytes a -> all_bytes ct -> all_bytes T ->
  gcm_key_size key -> zlen v = 12 -> zlen a <= 2147483647 -> zlen ct <= 2147483647 ->
  1 <= zlen T <= 16 ->
  let P := decrypted (Fips197.encrypt key) v ct in
  evp_open RAND inplace mem key v a ct true T
  = (match GCM_AD (Fips197.encrypt key) (length T) v ct a T with Some _ => true | None => false end, P) /\
  length P = length ct.
Proof.
  intros HM Hkb Hvb Hab Hcb HTb Hk Hv Ha Hc HT P.
  assert (Hfg : forall b, typed 16 b -> aes_cipher key b = Fips197.encrypt key b)
    by (intros; by apply aes_cipher_fips).
  destruct (GCM_AD_ext _ _ Hfg (length T) v ct a Hvb) as [HP HQ]. fold P in HP.
  destruct (open_spec (aes_cipher key) v (piece a) (piece ct) T) as (r & HO & HR);
    try (assumption || lia); try (by apply piece_bytes); try (rewrite concat_piece; lia).
  { intros. by apply aes_cipher_typed. }
  rewrite !concat_piece, ?HP, ?HQ in *. unfold gcm_open in HO. fold (keyed key v) in HO.
  assert (HL : length P = length ct).
  { rewrite <-HP. apply decrypted_length; [intros; by apply aes_cipher_typed|done]. }
  destruct (aad_piece (keyed key v) a (setiv_counts _ _) Ha) as [HA H1]. rewrite HA in HO.
  rewrite (crypt_piece false _ ct H1 Hc) in HO.
  rewrite evp_open_run by (assumption || lia). unfold data_call.
  destruct (crypt_call false _ ct) as [m g] eqn:EC. cbn [fst snd] in *.
  set (z := (CRYPTO_gcm128_finish g (Some T) (length T)).1) in *. clearbody z.
  injection HO as -> ->. split; [|done]. f_equal. unfold GCM_AD.
  destruct (decide (tag_of _ _ _ _ _ = T)) as [E|E]; [by rewrite (proj2 HR E)|].
  apply Z.eqb_neq. by rewrite HR.
Qed.
End Standard.

(** ** An IV is used for one message *)
Section IvState.
Context (RAND : Z -> option bytes).

(** The calls of a context that can change it, with the pointers and sizes the
    caller chooses, and the contexts they lead to; [P] restricts the calls. *)
Inductive prov_call :=
| Init (key : option bytes) (kl : Z) (v : option bytes) (vl : Z) (params : list OSSL_PARAM) (e : bool)
| SetParams (params : list OSSL_PARAM)
| GetIvGen (olen : Z)
| Update (inplace out : bool) (outsize : Z) (inp : bytes)
| Cipher (inplace out : bool) (outsize : Z) (inp : option bytes)
| Final (inplace out : bool).
Definition call_result (c : PROV_GCM_CTX) (k : prov_call) : bool * bytes * PROV_GCM_CTX :=
  match k with
  | Init key kl v vl params e => let '(ok, c) := gcm_init RAND c key kl v vl params e in (ok, [], c)
  | SetParams params => let '(ok, c) := ossl_gcm_set_ctx_params RAND c params in (ok, [], c)
  | GetIvGen olen => getivgen c olen
  | Update ip out outsize inp => ossl_gcm_stream_update RAND ip c out outsize inp
  | Cipher ip out outsize inp => ossl_gcm_cipher RAND ip c out outsize inp
  | Final ip out => let '(ok, c) := ossl_gcm_stream_final RAND ip c out in (ok, [], c)
  end.
Inductive reaches (P : prov_call -> Prop) (c : PROV_GCM_CTX) : PROV_GCM_CTX -> Prop :=
| reaches_refl : reaches P c c
| reaches_step c1 k : reaches P c c1 -> P k -> reaches P c (call_result c1 k).2.

(** The calls that set an IV, ask for the next one of TLS, or open a record of TLS. *)
Definition tls_param (p : OSSL_PARAM) : bool :=
  match p with
  | AEAD_TLS1_AAD _ _ | AEAD_TLS1_IV_FIXED _ _ | AEAD_TLS1_SET_IV_INV _ _ => true
  | _ => false
  end.
Definition renews (k : prov_call) : Prop :=
  match k with
  | Init _ _ v _ params _ => v <> None \/ existsb tls_param params = true
  | SetParams params => existsb tls_param params = true
  | GetIvGen _ => True
  | _ => False
  end.
(** The calls that process data or end a message. *)
Definition processes (k : prov_call) : Prop :=
  match k with
  | Update _ _ n inp => inp <> [] /\ zlen inp <= n
  | Cipher _ _ n inp => zlen (default [] inp) <= n
  | Final _ _ => True
  | _ => False
  end.
(** A message is over: its end was computed, or a record of TLS was processed. *)
Definition ends_message (c : PROV_GCM_CTX) (k : prov_call) : Prop :=
  processes k /\
  (tls_aad_len c <> UNINITIALISED_SIZET \/
   match k with Final _ _ | Cipher _ _ _ None => (call_result c k).1.1 = true | _ => False end).

Definition spent (c : PROV_GCM_CTX) : Prop :=
  tls_aad_len c = UNINITIALISED_SIZET /\ iv_state c = IV_STATE_FINISHED.
Lemma spent_internal ip c out inp : spent c -> gcm_cipher_internal RAND ip c out inp = (false, [], c).
Proof.
  intros [Ht Hs]. unfold gcm_cipher_internal. rewrite Ht, Z.eqb_refl, Hs. cbn [negb].
  change (IV_STATE_FINISHED =? IV_STATE_FINISHED) with true. by rewrite orb_true_r.
Qed.
Lemma spent_params c ps : existsb tls_param ps = false -> spent c ->
  spent (ossl_gcm_set_ctx_params RAND c ps).2.
Proof.
  revert c. induction ps as [|p ps IH]; intros c Hp Hs; [exact Hs|].
  cbn [existsb ossl_gcm_set_ctx_params] in *. apply orb_false_iff in Hp as [Hp Hps].
  assert (HP : spent (set_param RAND c p).2).
  { destruct p as [sz [d|]|sz| | | | |]; try discriminate Hp; cbn [set_param]; repeat case_match;
      destruct Hs as [Ht Hs]; split; try exact Ht; try exact Hs; done. }
  destruct (set_param RAND c p) as [[] c']; cbn [snd] in *; [by apply IH|exact HP].
Qed.
Lemma spent_init c key kl vl ps e : existsb tls_param ps = false -> spent c ->
  spent (gcm_init RAND c key kl None vl ps e).2.
Proof.
  intros Hp Hs. unfold gcm_init, aes_gcm_initkey. cbn [negb].
  destruct key as [k|]; [destruct (negb (kl =? _)); [exact Hs|]|]; cbn [negb];
    try (destruct (AES_set_encrypt_key _ _ _) as [r ak]); cbn [negb]; by apply spent_params.
Qed.
(** What a spent context does with a call. *)
Lemma spent_refuses c k : spent c -> processes k -> call_result c k = (false, [], c).
Proof.
  intros Hs Hk. destruct k as [| | |ip out n inp|ip out n inp|ip out]; try done; cbn [call_result processes] in *.
  - unfold ossl_gcm_stream_update. rewrite spent_internal by done.
    destruct (zlen inp =? 0) eqn:E; [bool_hyp; destruct inp; [by destruct Hk|cbn [length] in *; lia]|].
    by destruct (n <? zlen inp).
  - unfold ossl_gcm_cipher. rewrite spent_internal by done. by destruct (n <? _).
  - unfold ossl_gcm_stream_final. by rewrite spent_internal.
Qed.
Lemma spent_call c k : spent c -> ~ renews k -> spent (call_result c k).2.
Proof.
  intros Hs Hk. destruct k as [key kl v vl ps e|ps|n|ip out n inp|ip out n inp|ip out];
    cbn [call_result renews] in *.
  - destruct v as [d|]; [exfalso; apply Hk; by left|].
    pose proof (spent_init c key kl vl ps e) as HI. destruct (gcm_init _ _ _ _ _ _ _ _) as [ok c'].
    apply HI; [|done]. apply not_true_is_false. intros HX. apply Hk. by right.
  - pose proof (spent_params c ps) as HI. destruct (ossl_gcm_set_ctx_params _ _ _) as [ok c'].
    apply HI; [|done]. by apply not_true_is_false.
  - by exfalso.
  - unfold ossl_gcm_stream_update. repeat case_match; try exact Hs. by rewrite spent_internal.
  - unfold ossl_gcm_cipher. repeat case_match; try exact Hs. by rewrite spent_internal.
  - unfold ossl_gcm_stream_final. by rewrite spent_internal.
Qed.

(** A record of TLS spends the context whatever comes of it; so does the end of a message. *)
Lemma tls_spends ip c out inp : tls_aad_len c <> UNINITIALISED_SIZET ->
  spent (gcm_cipher_internal RAND ip c out inp).2.
Proof.
  intros Ht. unfold gcm_cipher_internal. rewrite (proj2 (Z.eqb_neq _ _) Ht). cbn [negb].
  unfold gcm_tls_cipher. by destruct (match out with true => _ | false => _ end) as [[ok o] c'].
Qed.
Lemma updates_keep_tls c : tls_aad_len c = UNINITIALISED_SIZET ->
  tls_aad_len (ossl_gcm_cipher_final c (buf c)).2 = UNINITIALISED_SIZET.
Proof.
  intros Ht. unfold ossl_gcm_cipher_final. destruct (enc c).
  - by destruct (CRYPTO_gcm128_tag _ _) as [t g].
  - by destruct (CRYPTO_gcm128_finish _ _ _) as [r g].
Qed.
Lemma final_spends ip c out : (gcm_cipher_internal RAND ip c out None).1.1 = true ->
  spent (gcm_cipher_internal RAND ip c out None).2.
Proof.
  destruct (decide (tls_aad_len c = UNINITIALISED_SIZET)) as [Ht|Ht]; [|intros _; by apply tls_spends].
  unfold gcm_cipher_internal. rewrite Ht, Z.eqb_refl. cbn [negb].
  destruct (negb (key_set c) || _); [done|].
  set (p := if iv_state c =? IV_STATE_UNINITIALISED then _ else _).
  assert (Hp : tls_aad_len p.2 = UNINITIALISED_SIZET)
    by (unfold p, gcm_iv_generate; repeat case_match; exact Ht).
  destruct p as [[] c1]; cbn [negb snd] in *; [|done].
  set (c2 := if iv_state c1 =? IV_STATE_BUFFERED then _ else _).
  assert (H2 : tls_aad_len c2 = UNINITIALISED_SIZET) by (unfold c2; by destruct (_ =? _)).
  clearbody c2. destruct (_ && _); [done|]. pose proof (updates_keep_tls c2 H2) as H3.
  destruct (ossl_gcm_cipher_final c2 (buf c2)) as [[[] tag] c3]; cbn [negb]; [|done]. by split.
Qed.
Lemma ends_spends c k : ends_message c k -> spent (call_result c k).2.
Proof.
  intros [Hk HE]. destruct k as [| | |ip out n inp|ip out n inp|ip out]; try done;
    cbn [call_result processes] in *.
  - destruct HE as [Ht|[]]. unfold ossl_gcm_stream_update.
    destruct (zlen inp =? 0) eqn:E; [bool_hyp; destruct inp; [by destruct Hk|cbn [length] in *; lia]|].
    rewrite (proj2 (Z.ltb_ge n (zlen inp))) by lia. by apply tls_spends.
  - unfold ossl_gcm_cipher in *. rewrite (proj2 (Z.ltb_ge n _)) in * by lia.
    destruct HE as [Ht|HE]; [by apply tls_spends|]. destruct inp; [done|]. by apply final_spends.
  - unfold ossl_gcm_stream_final in *. pose proof (final_spends ip c out) as HF.
    pose proof (tls_spends ip c out None) as HT.
    destruct (gcm_cipher_internal RAND ip c out None) as [[ok o] c']. cbn [fst snd] in *.
    destruct HE as [Ht|HE]; [by apply HT|by apply HF].
Qed.

(** C20: (safety) The provider uses an IV for one message.  Take any context and a
    call that ends a message in it, with success, or that processes a record of
    TLS, with or without success.  After any sequence of calls that set no IV and
    no parameter of TLS and do not ask for the next IV of TLS (whatever keys, tags,
    IV lengths and directions they set), every call that would process data or end
    a message fails, writes nothing and leaves the context as it is. *)
Theorem gcm_iv_used_once c k c2 :
  ends_message c k ->
  reaches (fun k => ~ renews k) (call_result c k).2 c2 ->
  forall k', processes k' -> call_result c2 k' = (false, [], c2).
Proof.
  intros HE HR k' Hk'. apply spent_refuses; [|done]. clear Hk'.
  induction HR as [|c3 k3 _ IH Hk]; [by apply ends_spends|by apply spent_call].
Qed.
End IvState.

(** A context with a key and an IV, an empty message finished in it, and a call
    that sets another key. *)
Definition no_rand (n : Z) : option bytes := None.
Definition all_mem : evp_mem := mkMem true true true.
Definition ex_init : prov_call :=
  Init (Some (replicate 16 7)) 16 (Some (replicate 12 9)) 12 [] true.
Definition ex_ctx : PROV_GCM_CTX := (call_result no_rand (aes_gcm_newctx 128) ex_init).2.
Definition ex_spent : PROV_GCM_CTX := (call_result no_rand ex_ctx (Final false true)).2.
Definition ex_rekey : prov_call := Init (Some (replicate 16 8)) 16 None 0 [AEAD_IVLEN 16] true.

Lemma gcm_iv_used_once_witness :
  let c := (call_result no_rand ex_spent ex_rekey).2 in
  call_result no_rand c (Update false true 3 [1; 2; 3]) = (false, [], c).
Proof.
  intros c. apply (gcm_iv_used_once no_rand ex_ctx (Final false true)).
  - split; [exact I|]. right. reflexivity.
  - apply (reaches_step _ _ _ ex_spent ex_rekey); [apply reaches_refl|]. intros [HX|HX]; [by apply HX|discriminate HX].
  - split; [discriminate|]. cbn [length]. lia.
Defined.
