(* ===== verification/Sha256.v ===== *)
(** * SHA-256 (OpenSSL crypto/sha/sha256.c, include/crypto/md32_common.h)

    The hash the loaders use, as the build compiles it (OpensslLibFull.inf sets
    OPENSSL_SMALL_FOOTPRINT): the context with its 64-byte buffer and its bit
    counter, the compression of a block over a ring of sixteen words, and the
    incremental interface.  The reference definition is FIPS 180-4: padding, a
    message schedule of 64 words, right rotations, and constants computed from
    the roots of the first primes.  Feeding a message in pieces of any sizes
    gives its reference digest. *)
From stdpp Require Import base list.
From Stdlib Require Import ZArith Lia.
From S2P Require Import Prelude.
#[local] Open Scope Z_scope.

(** ** Words *)

(** Addition of [unsigned int]. *)
Definition add32 (x y : Z) : Z := u32 (x + y).

(** [ROTATE (a, n)]: rotation to the left. *)
Definition ROTATE (a n : Z) : Z :=
  Z.lor (u32 (Z.shiftl a n)) (Z.shiftr (Z.land a (2 ^ 32 - 1)) (32 - n)).

Definition Sigma0 (x : Z) : Z := Z.lxor (Z.lxor (ROTATE x 30) (ROTATE x 19)) (ROTATE x 10).
Definition Sigma1 (x : Z) : Z := Z.lxor (Z.lxor (ROTATE x 26) (ROTATE x 21)) (ROTATE x 7).
Definition sigma0 (x : Z) : Z := Z.lxor (Z.lxor (ROTATE x 25) (ROTATE x 14)) (Z.shiftr x 3).
Definition sigma1 (x : Z) : Z := Z.lxor (Z.lxor (ROTATE x 15) (ROTATE x 13)) (Z.shiftr x 10).
Definition Ch (x y z : Z) : Z := Z.lxor (Z.land x y) (Z.land (u32 (Z.lnot x)) z).
Definition Maj (x y z : Z) : Z := Z.lxor (Z.lxor (Z.land x y) (Z.land x z)) (Z.land y z).

(** Four bytes, the most significant first, as a word, and back. *)
Definition HOST_c2l (c : bytes) : Z :=
  match c with
  | b0 :: b1 :: b2 :: b3 :: _ =>
      u32 (Z.lor (Z.lor (Z.lor (Z.shiftl b0 24) (Z.shiftl b1 16)) (Z.shiftl b2 8)) b3)
  | _ => 0
  end.
Definition HOST_l2c (l : Z) : bytes :=
  [u8 (Z.shiftr l 24); u8 (Z.shiftr l 16); u8 (Z.shiftr l 8); u8 l].

(** The round constants, in decimal. *)
Definition K256 : list Z :=
  [1116352408; 1899447441; 3049323471; 3921009573; 961987163; 1508970993;
   2453635748; 2870763221; 3624381080; 310598401; 607225278; 1426881987;
   1925078388; 2162078206; 2614888103; 3248222580; 3835390401; 4022224774;
   264347078; 604807628; 770255983; 1249150122; 1555081692; 1996064986;
   2554220882; 2821834349; 2952996808; 3210313671; 3336571891; 3584528711;
   113926993; 338241895; 666307205; 773529912; 1294757372; 1396182291;
   1695183700; 1986661051; 2177026350; 2456956037; 2730485921; 2820302411;
   3259730800; 3345764771; 3516065817; 3600352804; 4094571909; 275423344;
   430227734; 506948616; 659060556; 883997877; 958139571; 1322822218;
   1537002063; 1747873779; 1955562222; 2024104815; 2227730452; 2361852424;
   2428436474; 2756734187; 3204031479; 3329325298].

(** ** Blocks *)
Record regs := mkRegs { ra : Z; rb : Z; rc : Z; rd' : Z; re : Z; rf : Z; rg : Z; rh : Z }.

(** The part of a round that both loops share; [x] is the word of the round. *)
Definition sha_round (i : nat) (x : Z) (r : regs) : regs :=
  let T1 := add32 x (add32 (add32 (add32 (rh r) (Sigma1 (re r))) (Ch (re r) (rf r) (rg r)))
                       (nth i K256 0)) in
  let T2 := add32 (Sigma0 (ra r)) (Maj (ra r) (rb r) (rc r)) in
  mkRegs (add32 T1 T2) (ra r) (rb r) (rc r) (add32 (rd' r) T1) (re r) (rf r) (rg r).

(** [for (i = 0; i < 16; i++)]: word [i] of the block. *)
Definition round_00_15 (data : bytes) (s : regs * list Z) (i : nat) : regs * list Z :=
  let l := HOST_c2l (drop (4 * i) data) in
  (sha_round i l (fst s), <[i := l]> (snd s)).

(** [for (; i < 64; i++)]: the next word of the ring [X]. *)
Definition round_16_63 (s : regs * list Z) (i : nat) : regs * list Z :=
  let X := snd s in
  let s0 := sigma0 (X !!! ((i + 1) mod 16)%nat) in
  let s1 := sigma1 (X !!! ((i + 14) mod 16)%nat) in
  let x := add32 (X !!! (i mod 16)%nat) (add32 (add32 s0 s1) (X !!! ((i + 9) mod 16)%nat)) in
  (sha_round i x (fst s), <[(i mod 16)%nat := x]> X).

Definition load_regs (h : list Z) : regs :=
  mkRegs (h !!! 0%nat) (h !!! 1%nat) (h !!! 2%nat) (h !!! 3%nat)
    (h !!! 4%nat) (h !!! 5%nat) (h !!! 6%nat) (h !!! 7%nat).
Definition add_regs (h : list Z) (r : regs) : list Z :=
  [add32 (h !!! 0%nat) (ra r); add32 (h !!! 1%nat) (rb r); add32 (h !!! 2%nat) (rc r);
   add32 (h !!! 3%nat) (rd' r); add32 (h !!! 4%nat) (re r); add32 (h !!! 5%nat) (rf r);
   add32 (h !!! 6%nat) (rg r); add32 (h !!! 7%nat) (rh r)].

(** One round of [while (num--)].  The array [X] is uninitialised in the code;
    the first loop assigns each of its elements before any is read. *)
Definition sha256_block (h : list Z) (data : bytes) : list Z :=
  let s := foldl (round_00_15 data) (load_regs h, replicate 16 0) (seq 0 16) in
  add_regs h (fst (foldl round_16_63 s (seq 16 48))).

(** [sha256_block_data_order (ctx, in, num)] on [ctx->h]; [None] when the blocks
    reach beyond the buffer. *)
Fixpoint sha256_block_data_order (h : list Z) (data : bytes) (num : nat) : option (list Z) :=
  match num with
  | O => Some h
  | S num =>
      blk ← rd data 0 64;
      sha256_block_data_order (sha256_block h blk) (drop 64 data) num
  end.

(** ** The incremental interface *)
Record SHA256_CTX := mkSha {
  sha_h : list Z; Nl : Z; Nh : Z; sha_data : bytes; sha_num : Z; md_len : Z
}.

Definition SHA256_DIGEST_LENGTH : Z := 32.

Definition SHA256_Init : SHA256_CTX :=
  mkSha [1779033703; 3144134277; 1013904242; 2773480762;
     1359893119; 2600822924; 528734635; 1541459225]
    0 0 (zeros 64) 0 SHA256_DIGEST_LENGTH.

Definition set_block (c : SHA256_CTX) (h : list Z) (p : bytes) (n : Z) : SHA256_CTX :=
  mkSha h (Nl c) (Nh c) p n (md_len c).

(** The bit counter [Nh:Nl]. *)
Definition count_bits (c : SHA256_CTX) (len : Z) : SHA256_CTX :=
  let l := Z.land (Nl c + u32 (Z.shiftl (u32 len) 3)) (2 ^ 32 - 1) in
  let nh := if l <? Nl c then u32 (Nh c + 1) else Nh c in
  mkSha (sha_h c) l (u32 (nh + u32 (Z.shiftr len 29))) (sha_data c) (sha_num c) (md_len c).

(** The end of [SHA256_Update]: the whole blocks of [data], then the rest. *)
Definition update_blocks (c : SHA256_CTX) (data : bytes) (len : Z) : option SHA256_CTX :=
  let n := len / 64 in
  h ← (if 0 <? n then sha256_block_data_order (sha_h c) data (Z.to_nat n) else Some (sha_h c));
  let data := drop (Z.to_nat (n * 64)) data in
  let len := len - n * 64 in
  if negb (len =? 0) then
    d ← rd data 0 len; p ← wr (sha_data c) 0 d;
    Some (set_block c h p (u32 len))
  else Some (set_block c h (sha_data c) (sha_num c)).

(** [SHA256_Update (c, data, len)], which returns 1; [None] for an access
    outside the buffers. *)
Definition SHA256_Update (c : SHA256_CTX) (data : bytes) (len : Z) : option SHA256_CTX :=
  if len =? 0 then Some c
  else
  let c := count_bits c len in
  let n := sha_num c in
  if negb (n =? 0) then
    if (64 <=? len) || (64 <=? len + n) then
      d ← rd data 0 (64 - n); p ← wr (sha_data c) n d;
      h ← sha256_block_data_order (sha_h c) p 1;
      update_blocks (set_block c h (zeros 64) 0) (drop (Z.to_nat (64 - n)) data) (len - (64 - n))
    else
      d ← rd data 0 len; p ← wr (sha_data c) n d;
      Some (set_block c (sha_h c) p (u32 (n + len)))
  else update_blocks c data len.

(** The words that [HASH_MAKE_STRING] writes; the predefined lengths are those
    of the default case. *)
Definition HASH_MAKE_STRING (c : SHA256_CTX) : option bytes :=
  if SHA256_DIGEST_LENGTH <? md_len c then None
  else Some (concat (map HOST_l2c (take (Z.to_nat (md_len c / 4)) (sha_h c)))).

(** [SHA256_Final (md, c)]: the bytes written to [md] ([None] when it returns 0)
    and the context, with its buffer cleansed. *)
Definition SHA256_Final (c : SHA256_CTX) : option (option bytes * SHA256_CTX) :=
  let n := sha_num c in
  p ← wr (sha_data c) n [0x80];
  let n := n + 1 in
  '(h, p, n) ← (if 56 <? n then
                  p ← wr p n (zeros (64 - n));
                  h ← sha256_block_data_order (sha_h c) p 1; Some (h, p, 0)
                else Some (sha_h c, p, n));
  p ← wr p n (zeros (56 - n));
  p ← wr p 56 (HOST_l2c (Nh c));
  p ← wr p 60 (HOST_l2c (Nl c));
  h ← sha256_block_data_order h p 1;
  let c := set_block c h (zeros 64) 0 in
  Some (HASH_MAKE_STRING c, c).

(** ** BaseCryptLib (Hash/CryptSha256.c)

    A context pointer is [option SHA256_CTX]; the result is the [BOOLEAN] and
    what the pointers hold afterwards. *)
Definition Sha256Init (Sha256Context : option SHA256_CTX) : bool * option SHA256_CTX :=
  match Sha256Context with
  | None => (false, None)
  | Some _ => (true, Some SHA256_Init)
  end.

Definition Sha256Duplicate (Sha256Context NewSha256Context : option SHA256_CTX)
  : bool * option SHA256_CTX :=
  match Sha256Context, NewSha256Context with
  | Some c, Some _ => (true, Some c)
  | _, _ => (false, NewSha256Context)
  end.

Definition Sha256Update (Sha256Context : option SHA256_CTX) (Data : option bytes) (DataSize : Z)
  : option (bool * option SHA256_CTX) :=
  match Sha256Context with
  | None => Some (false, None)
  | Some c =>
      if negb (notnull Data) && negb (DataSize =? 0) then Some (false, Some c)
      else m ← rdp Data DataSize; c ← SHA256_Update c m DataSize; Some (true, Some c)
  end.

Definition Sha256Final (Sha256Context : option SHA256_CTX) (HashValue : option bytes)
  : option (bool * option SHA256_CTX * option bytes) :=
  match Sha256Context, HashValue with
  | Some c, Some _ =>
      '(md, c) ← SHA256_Final c;
      match md with
      | None => Some (false, Some c, HashValue)
      | Some d => h ← wrp HashValue d; Some (true, Some c, h)
      end
  | _, _ => Some (false, Sha256Context, HashValue)
  end.

(** [Sha256HashAll (Data, DataSize, HashValue)]: result and [HashValue]. *)
Definition Sha256HashAll (Data : option bytes) (DataSize : Z) (HashValue : option bytes)
  : option (bool * option bytes) :=
  if negb (notnull HashValue) then Some (false, HashValue)
  else if negb (notnull Data) && negb (DataSize =? 0) then Some (false, HashValue)
  else
  m ← rdp Data DataSize;
  c ← SHA256_Update SHA256_Init m DataSize;
  '(md, _) ← SHA256_Final c;
  match md with
  | None => Some (false, HashValue)
  | Some d => h ← wrp HashValue d; Some (true, h)
  end.

(** ** The reference: FIPS 180-4 *)
Module Fips.
Definition ROTR (n x : Z) : Z := Z.lor (Z.shiftr (u32 x) n) (u32 (Z.shiftl x (32 - n))).
Definition S0 (x : Z) : Z := Z.lxor (Z.lxor (ROTR 2 x) (ROTR 13 x)) (ROTR 22 x).
Definition S1 (x : Z) : Z := Z.lxor (Z.lxor (ROTR 6 x) (ROTR 11 x)) (ROTR 25 x).
Definition s0 (x : Z) : Z := Z.lxor (Z.lxor (ROTR 7 x) (ROTR 18 x)) (Z.shiftr x 3).
Definition s1 (x : Z) : Z := Z.lxor (Z.lxor (ROTR 17 x) (ROTR 19 x)) (Z.shiftr x 10).

(** Each bit of [x] chooses the bit of [y] or of [z]; the majority of three bits. *)
Definition Choose (x y z : Z) : Z := Z.lor (Z.land x y) (Z.ldiff (u32 z) x).
Definition Majority (x y z : Z) : Z := Z.lor (Z.lor (Z.land x y) (Z.land x z)) (Z.land y z).

Definition primes : list Z :=
  List.filter (fun n => forallb (fun d => negb (n mod d =? 0)) (seqZ 2 (n - 2))) (seqZ 2 310).

(** The integer cube root, bit by bit from [2 ^ n] down. *)
Fixpoint icbrt (n : nat) (r x : Z) : Z :=
  match n with
  | O => r
  | S n => let t := r + 2 ^ Z.of_nat n in icbrt n (if t * t * t <=? x then t else r) x
  end.

(** The first 32 bits of the fractional parts of the cube roots of the first 64
    primes and of the square roots of the first eight. *)
Definition K : list Z := map (fun q => u32 (icbrt 36 0 (q * 2 ^ 96))) primes.
Definition H0 : list Z := map (fun q => u32 (Z.sqrt (q * 2 ^ 64))) (take 8 primes).

(** The message schedule: [n] more words. *)
Fixpoint schedule (W : list Z) (n : nat) : list Z :=
  match n with
  | O => W
  | S n =>
      let W := schedule W n in
      let t := length W in
      (W ++ [u32 (s1 (W !!! (t - 2)%nat) + W !!! (t - 7)%nat + s0 (W !!! (t - 15)%nat)
                  + W !!! (t - 16)%nat)])%list
  end.

Definition round (W : list Z) (r : regs) (t : nat) : regs :=
  let T1 := u32 (rh r + S1 (re r) + Choose (re r) (rf r) (rg r) + K !!! t + W !!! t) in
  let T2 := u32 (S0 (ra r) + Majority (ra r) (rb r) (rc r)) in
  mkRegs (u32 (T1 + T2)) (ra r) (rb r) (rc r) (u32 (rd' r + T1)) (re r) (rf r) (rg r).

(** Words and bytes: the most significant byte first. *)
Definition word_of (b : bytes) : Z := u32 (foldl (fun w x => Z.lor (Z.shiftl w 8) x) 0 b).
Definition bytes_of (w : Z) : bytes := rev (le_bytes 4 w).
Definition words (b : bytes) : list Z := map (fun i => word_of (take 4 (drop (4 * i) b))) (seq 0 16).

(** The eight working variables, and the next hash value. *)
Definition vars (h : list Z) : regs :=
  mkRegs (h !!! 0%nat) (h !!! 1%nat) (h !!! 2%nat) (h !!! 3%nat)
    (h !!! 4%nat) (h !!! 5%nat) (h !!! 6%nat) (h !!! 7%nat).
Definition next_hash (h : list Z) (r : regs) : list Z :=
  zip_with (fun i v => u32 (v + h !!! i)) (seq 0 8)
    [ra r; rb r; rc r; rd' r; re r; rf r; rg r; rh r].

Definition compress (h : list Z) (b : bytes) : list Z :=
  next_hash h (foldl (round (schedule (words b) 48)) (vars h) (seq 0 64)).

(** One bit 1, as few zeros as fill the block, the length in bits. *)
Definition pad (m : bytes) : bytes :=
  (m ++ [0x80] ++ zeros ((55 - zlen m) mod 64) ++ rev (le_bytes 8 (8 * zlen m)))%list.

Fixpoint blocks (n : nat) (b : bytes) : list bytes :=
  match n with O => [] | S n => take 64 b :: blocks n (drop 64 b) end.

Definition sha256 (m : bytes) : bytes :=
  concat (map bytes_of (foldl compress H0 (blocks (length (pad m) / 64) (pad m)))).
End Fips.

(** ** Blocks: the ring of words computes the schedule *)
Section BlockEquivalence.
Lemma add32_l x y : u32 (u32 x + y) = u32 (x + y).
Proof. apply Zplus_mod_idemp_l. Qed.
Lemma add32_r x y : u32 (x + u32 y) = u32 (x + y).
Proof. apply Zplus_mod_idemp_r. Qed.

Lemma add32_sum x a b c d :
  add32 x (add32 (add32 (add32 a b) c) d) = u32 (a + b + c + d + x).
Proof.
  unfold add32. rewrite (add32_l (a + b)), (add32_l (a + b + c)), add32_r. f_equal. lia.
Qed.

Lemma ROTATE_ROTR x n : ROTATE x n = Fips.ROTR (32 - n) x.
Proof.
  unfold ROTATE, Fips.ROTR. rewrite Z.lor_comm. f_equal; [|f_equal; f_equal; lia].
  f_equal. change (2 ^ 32 - 1) with (Z.ones 32). by rewrite Z.land_ones by lia.
Qed.

Lemma sigmas x :
  Sigma0 x = Fips.S0 x /\ Sigma1 x = Fips.S1 x /\ sigma0 x = Fips.s0 x /\ sigma1 x = Fips.s1 x.
Proof. unfold Sigma0, Sigma1, sigma0, sigma1. by rewrite !ROTATE_ROTR. Qed.

Lemma Ch_fips x y z : Ch x y z = Fips.Choose x y z.
Proof.
  apply Z.bits_inj'. intros i Hi. unfold Ch, Fips.Choose, u32.
  rewrite Z.lxor_spec, Z.lor_spec, !Z.land_spec, Z.ldiff_spec.
  destruct (Z.lt_ge_cases i 32) as [HL|HL].
  - rewrite !Z.mod_pow2_bits_low, Z.lnot_spec by lia.
    by destruct (Z.testbit x i), (Z.testbit y i), (Z.testbit z i).
  - rewrite !Z.mod_pow2_bits_high by lia. by destruct (Z.testbit x i), (Z.testbit y i).
Qed.
Lemma Maj_fips x y z : Maj x y z = Fips.Majority x y z.
Proof.
  apply Z.bits_inj'. intros i Hi. unfold Maj, Fips.Majority. rewrite !Z.lxor_spec, !Z.lor_spec, !Z.land_spec.
  by destruct (Z.testbit x i), (Z.testbit y i), (Z.testbit z i).
Qed.
Lemma c2l_fips b : (4 <= length b)%nat -> HOST_c2l b = Fips.word_of (take 4 b).
Proof.
  destruct b as [|x0 [|x1 [|x2 [|x3 b]]]]; cbn [length]; try lia. intros _.
  unfold HOST_c2l, Fips.word_of. cbn [take firstn foldl]. f_equal.
  rewrite Z.shiftl_0_l, Z.lor_0_l, !Z.shiftl_lor, !Z.shiftl_shiftl by lia. reflexivity.
Qed.
Lemma add_regs_fips h r : add_regs h r = Fips.next_hash h r.
Proof. unfold add_regs, add32, Fips.next_hash. cbn [zip_with seq]. by rewrite !(Z.add_comm (h !!! _)). Qed.

(** The table of the code is the one the standard defines. *)
Lemma K256_fips : K256 = Fips.K.
Proof. vm_compute. reflexivity. Qed.
Lemma H0_fips : sha_h SHA256_Init = Fips.H0.
Proof. vm_compute. reflexivity. Qed.

Lemma sha_round_fips W i x r :
  (i < 64)%nat -> W !!! i = x -> sha_round i x r = Fips.round W r i.
Proof.
  intros Hi HW. unfold sha_round, Fips.round. rewrite HW.
  destruct (sigmas (re r)) as (_ & -> & _). destruct (sigmas (ra r)) as (-> & _).
  assert (HK : nth i K256 0 = Fips.K !!! i).
  { rewrite <-K256_fips. symmetry. apply list_lookup_total_correct.
    rewrite nth_lookup. destruct (lookup_lt_is_Some_2 K256 i Hi) as [k Hk]. by rewrite Hk. }
  by rewrite HK, add32_sum, Ch_fips, Maj_fips.
Qed.

(** The schedule: the first words stay, and each further one follows the
    recurrence. *)
Lemma length_schedule W n : length (Fips.schedule W n) = (length W + n)%nat.
Proof.
  induction n as [|n IH]; cbn [Fips.schedule]; [lia|]. rewrite length_app, IH. cbn [length]. lia.
Qed.

Lemma schedule_prefix W n m t :
  (n <= m)%nat -> (t < length W + n)%nat -> Fips.schedule W m !!! t = Fips.schedule W n !!! t.
Proof.
  intros Hm Ht. induction Hm as [|m Hm IH]; [done|]. cbn [Fips.schedule].
  rewrite lookup_total_app_l; [exact IH|]. rewrite length_schedule. lia.
Qed.

Lemma schedule_rec W n t :
  (length W <= t < length W + n)%nat -> (16 <= length W)%nat ->
  let S := Fips.schedule W n in
  S !!! t = u32 (Fips.s1 (S !!! (t - 2)%nat) + S !!! (t - 7)%nat + Fips.s0 (S !!! (t - 15)%nat)
                 + S !!! (t - 16)%nat).
Proof.
  intros Ht HW S. unfold S. set (k := (t - length W)%nat).
  rewrite (schedule_prefix W k n (t - 2)), (schedule_prefix W k n (t - 7)),
    (schedule_prefix W k n (t - 15)), (schedule_prefix W k n (t - 16)) by lia.
  rewrite (schedule_prefix W (k + 1) n) by lia. rewrite Nat.add_1_r. cbn [Fips.schedule].
  rewrite length_schedule. replace (length W + k)%nat with t by lia.
  rewrite lookup_total_app_r by (rewrite length_schedule; lia).
  rewrite length_schedule. by replace (t - (length W + k))%nat with 0%nat by lia.
Qed.

Lemma length_words b : length (Fips.words b) = 16%nat.
Proof. done. Qed.
Lemma words_at b i : length b = 64%nat -> (i < 16)%nat ->
  Fips.words b !!! i = HOST_c2l (drop (4 * i) b).
Proof.
  intros Hb Hi. rewrite c2l_fips by (rewrite length_drop; lia).
  apply list_lookup_total_correct. unfold Fips.words.
  by rewrite list_lookup_fmap, (lookup_seq_lt 0 16 i Hi).
Qed.

(** The first loop: registers as in the standard, and the words so far. *)
Lemma loop_00_15 b W r X n :
  (n <= 16)%nat -> length X = 16%nat -> (forall i, (i < 16)%nat -> W !!! i = HOST_c2l (drop (4 * i) b)) ->
  exists X', foldl (round_00_15 b) (r, X) (seq 0 n) = (foldl (Fips.round W) r (seq 0 n), X') /\
    length X' = 16%nat /\ forall i, (i < n)%nat -> X' !!! i = W !!! i.
Proof.
  intros Hn HX HW. induction n as [|n IH]; [exists X; repeat split; [done|lia]|].
  destruct IH as (X' & HF & HL & HI); [lia|]. rewrite seq_S, !foldl_app, HF. cbn [foldl].
  unfold round_00_15. cbn [fst snd Nat.add]. eexists. split; [|split].
  - f_equal. apply sha_round_fips; [lia|]. apply HW. lia.
  - by rewrite length_insert.
  - intros i Hi. destruct (decide (i = n)) as [->|].
    + rewrite list_lookup_total_insert_eq by lia. by rewrite HW by lia.
    + rewrite list_lookup_total_insert_ne by done. apply HI. lia.
Qed.

(** The second loop: the ring holds the last sixteen words of the schedule. *)
Definition ring (W X : list Z) (n : nat) : Prop :=
  length X = 16%nat /\ forall t, (n <= t < 16 + n)%nat -> X !!! (t mod 16)%nat = W !!! t.

Lemma ring_at W X n t : ring W X n -> (n <= t < 16 + n)%nat -> X !!! (t mod 16)%nat = W !!! t.
Proof. intros [_ HR]. apply HR. Qed.

Lemma mod16_shift i k j : (k < 16)%nat -> (j = 16 - k)%nat -> (j <= i)%nat -> ((i + k) mod 16 = (i - j) mod 16)%nat.
Proof.
  intros Hk -> Hi. replace (i + k)%nat with ((i - (16 - k)) + 1 * 16)%nat by lia.
  apply Nat.Div0.mod_add.
Qed.

Lemma mod16_other i t : (i - 16 < t < i)%nat -> (16 <= i)%nat -> (i mod 16 <> t mod 16)%nat.
Proof.
  intros Ht Hi HE. pose proof (Nat.div_mod i 16). pose proof (Nat.div_mod t 16). lia.
Qed.

Lemma ring_step b X r n :
  let W := Fips.schedule (Fips.words b) 48 in
  (n < 48)%nat -> ring W X n ->
  exists X', round_16_63 (r, X) (16 + n) = (Fips.round W r (16 + n), X') /\ ring W X' (S n).
Proof.
  intros W' Hn HR. set (i := (16 + n)%nat).
  assert (HW : add32 (X !!! (i mod 16)%nat)
      (add32 (add32 (sigma0 (X !!! ((i + 1) mod 16)%nat)) (sigma1 (X !!! ((i + 14) mod 16)%nat)))
             (X !!! ((i + 9) mod 16)%nat)) = W' !!! i).
  { rewrite (mod16_shift i 1 15), (mod16_shift i 14 2), (mod16_shift i 9 7) by lia.
    replace (i mod 16)%nat with ((i - 16) mod 16)%nat
      by (symmetry; rewrite <-(mod16_shift i 0 16) by lia; f_equal; lia).
    rewrite !(ring_at W' X n) by (done || lia).
    destruct (sigmas (W' !!! (i - 15)%nat)) as (_ & _ & -> & _).
    destruct (sigmas (W' !!! (i - 2)%nat)) as (_ & _ & _ & ->).
    unfold W'. rewrite (schedule_rec _ 48 i) by (rewrite ?length_words; lia). fold W'.
    unfold add32. rewrite add32_l, add32_r. f_equal. lia. }
  unfold round_16_63. cbn [fst snd]. rewrite HW. eexists. split.
  - f_equal. apply sha_round_fips; [lia|done].
  - destruct HR as [HL HR]. split; [by rewrite length_insert|]. intros t Ht.
    destruct (decide (t = i)) as [->|].
    + apply list_lookup_total_insert_eq. rewrite HL. apply Nat.mod_upper_bound. lia.
    + rewrite list_lookup_total_insert_ne by (apply mod16_other; lia). apply HR. lia.
Qed.

Lemma loop_16_63 b X r n :
  let W := Fips.schedule (Fips.words b) 48 in
  (n <= 48)%nat -> ring W X 0 ->
  exists X', foldl round_16_63 (r, X) (seq 16 n) = (foldl (Fips.round W) r (seq 16 n), X') /\
    ring W X' n.
Proof.
  intros W Hn HR. induction n as [|n IH]; [by exists X|].
  destruct IH as (X' & HF & HR'); [lia|]. rewrite seq_S, !foldl_app, HF. cbn [foldl].
  by apply ring_step.
Qed.

(** The compression of a block is that of the standard. *)
Lemma sha256_block_fips h b : length b = 64%nat -> sha256_block h b = Fips.compress h b.
Proof.
  intros Hb. unfold sha256_block, Fips.compress. set (W := Fips.schedule (Fips.words b) 48).
  assert (HW : forall i, (i < 16)%nat -> W !!! i = HOST_c2l (drop (4 * i) b)).
  { intros i Hi. unfold W. rewrite (schedule_prefix _ 0) by (rewrite ?length_words; lia).
    by apply words_at. }
  destruct (loop_00_15 b W (load_regs h) (replicate 16 0) 16) as (X & -> & HX & HI); [done..|].
  destruct (loop_16_63 b X (foldl (Fips.round W) (load_regs h) (seq 0 16)) 48) as (X' & -> & _); [done| |].
  - split; [done|]. intros t Ht. rewrite Nat.mod_small by lia. apply HI. lia.
  - cbn [fst]. change 64%nat with (16 + 48)%nat. by rewrite add_regs_fips, seq_app, foldl_app.
Qed.

Lemma block_data_order_fips h data n :
  (64 * n <= length data)%nat ->
  sha256_block_data_order h data n = Some (foldl Fips.compress h (Fips.blocks n data)).
Proof.
  revert h data. induction n as [|n IH]; intros h data Hl; [done|].
  cbn [sha256_block_data_order Fips.blocks foldl]. rewrite rd_some by lia. cbn [mbind option_bind].
  rewrite IH by (rewrite length_drop; lia). rewrite sha256_block_fips; [done|].
  rewrite length_take, drop_0. lia.
Qed.
End BlockEquivalence.

(** ** Messages in pieces *)
Section Streaming.
Lemma blocks_app k j a b :
  length a = (64 * k)%nat -> Fips.blocks (k + j) (a ++ b)%list = (Fips.blocks k a ++ Fips.blocks j b)%list.
Proof.
  revert a. induction k as [|k IH]; intros a Ha; cbn [Fips.blocks Nat.add].
  - by destruct a.
  - rewrite take_app_le, drop_app_le by lia. cbn [app]. f_equal. apply IH. rewrite length_drop. lia.
Qed.

Lemma blocks_one b : length b = 64%nat -> Fips.blocks 1 b = [b].
Proof. intros Hb. cbn. by rewrite firstn_all2 by lia. Qed.

(** The bit counter holds the length of the message so far, modulo 2^64. *)
Definition counted (c : SHA256_CTX) (n : Z) : Prop :=
  0 <= Nl c < 2 ^ 32 /\ 0 <= Nh c < 2 ^ 32 /\ Nh c * 2 ^ 32 + Nl c = u64 (8 * n).

(** The blocks of [m] are compressed and its last, incomplete block is in the
    buffer. *)
Definition buffered (c : SHA256_CTX) (m : bytes) : Prop :=
  exists k m0 r, m = (m0 ++ r)%list /\ length m0 = (64 * k)%nat /\ (length r < 64)%nat /\
    sha_h c = foldl Fips.compress Fips.H0 (Fips.blocks k m0) /\
    sha_num c = zlen r /\ length (sha_data c) = 64%nat /\ take (length r) (sha_data c) = r /\
    md_len c = 32.

Lemma count_bits_ok c n len :
  counted c n -> 0 <= len -> counted (count_bits c len) (n + len).
Proof.
  intros (Hl & Hh & Hn) Hlen. unfold counted, count_bits. cbn [Nl Nh].
  change (2 ^ 32 - 1) with (Z.ones 32). rewrite Z.land_ones by lia.
  assert (Hs : u32 (Z.shiftl (u32 len) 3) = 8 * (len mod 2 ^ 29)).
  { rewrite Z.shiftl_mul_pow2 by lia. unfold u32. change (2 ^ 32) with (2 ^ 29 * 2 ^ 3) at 2.
    rewrite Z.mul_mod_distr_r by lia. change (2 ^ 32) with (2 ^ 29 * 2 ^ 3).
    rewrite Z.rem_mul_r by lia. rewrite (Z.mul_comm (2 ^ 29)), Z.mod_add, Z.mod_mod by lia. lia. }
  rewrite Hs, Z.shiftr_div_pow2 by lia. unfold u32, u64 in *.
  change (2 ^ 29) with 536870912. change (2 ^ 32) with 4294967296 in *.
  change (2 ^ 64) with 18446744073709551616 in *.
  split_if; bool_hyp; Z.div_mod_to_equations; lia.
Qed.

Lemma div64_bounds (d : bytes) :
  let n := (length d / 64)%nat in
  zlen d / 64 = Z.of_nat n /\ (64 * n <= length d < 64 * n + 64)%nat.
Proof.
  split; [by rewrite Nat2Z.inj_div|].
  pose proof (Nat.div_mod (length d) 64). pose proof (Nat.mod_upper_bound (length d) 64). lia.
Qed.

(** The whole blocks of [d] after those of [m0]. *)
Lemma whole_blocks h k m0 d :
  let n := (length d / 64)%nat in
  length m0 = (64 * k)%nat -> h = foldl Fips.compress Fips.H0 (Fips.blocks k m0) ->
  (if 0 <? zlen d / 64 then sha256_block_data_order h d (Z.to_nat (zlen d / 64)) else Some h)
  = Some (foldl Fips.compress Fips.H0 (Fips.blocks (k + n) (m0 ++ take (64 * n) d))).
Proof.
  intros n Hm Hh. destruct (div64_bounds d) as [Hz Hbd]. fold n in Hz, Hbd.
  rewrite blocks_app, foldl_app, <-Hh by done.
  assert (HT : Fips.blocks n (take (64 * n) d) = Fips.blocks n d).
  { rewrite <-(take_drop (64 * n) d) at 2. rewrite <-(Nat.add_0_r n) at 3.
    rewrite blocks_app by (rewrite length_take; lia). cbn [Fips.blocks]. by rewrite app_nil_r. }
  rewrite HT, Hz, Nat2Z.id. split_if; [apply block_data_order_fips; lia|].
  bool_hyp. by replace n with 0%nat by lia.
Qed.

(** What [update_blocks] does when the buffer is empty. *)
Lemma update_blocks_ok c m d :
  buffered c m -> sha_num c = 0 ->
  exists c', update_blocks c d (zlen d) = Some c' /\ buffered c' (m ++ d) /\
    Nl c' = Nl c /\ Nh c' = Nh c.
Proof.
  intros (k & m0 & r & -> & Hm & Hr & Hh & Hn & Hd & _ & Hml) H0.
  destruct r; [|cbn [length] in Hn; lia]. rewrite app_nil_r. clear Hr Hn.
  set (n := (length d / 64)%nat). destruct (div64_bounds d) as [Hz Hbd]. fold n in Hz, Hbd.
  unfold update_blocks. rewrite (whole_blocks _ k m0) by done. fold n. rewrite Hz. cbn [mbind option_bind].
  replace (Z.to_nat (Z.of_nat n * 64)) with (64 * n)%nat by lia.
  assert (HE : (m0 ++ d)%list = ((m0 ++ take (64 * n) d) ++ drop (64 * n) d)%list)
    by (by rewrite <-app_assoc, take_drop).
  assert (HL : length (m0 ++ take (64 * n) d) = (64 * (k + n))%nat)
    by (rewrite length_app, length_take; lia).
  destruct (negb _) eqn:EL; bool_hyp.
  - rewrite rd_some by (rewrite ?length_drop; lia). cbn [mbind option_bind].
    change (Z.to_nat 0) with 0%nat.
    rewrite drop_0, (firstn_all2 (drop (64 * n) d)) by (rewrite length_drop; lia).
    rewrite wr_some by (rewrite ?length_drop; lia). cbn [mbind option_bind].
    change (take (Z.to_nat 0) (sha_data c)) with (@nil Z). cbn [app].
    eexists. split; [done|]. split; [|done].
    exists (k + n)%nat, (m0 ++ take (64 * n) d)%list, (drop (64 * n) d).
    cbn [set_block sha_h sha_num sha_data md_len]. rewrite length_drop.
    split; [done|]. split; [done|]. split; [lia|]. split; [done|]. split; [|split; [|split; [|done]]].
    + rewrite u32_small by lia. lia.
    + rewrite !length_app, !length_drop. lia.
    + rewrite take_app_le by (rewrite length_drop; lia). apply firstn_all2. rewrite length_drop. lia.
  - eexists. split; [done|]. split; [|done].
    exists (k + n)%nat, (m0 ++ take (64 * n) d)%list, []. cbn [set_block sha_h sha_num sha_data md_len].
    rewrite HE, (nil_length_inv (drop (64 * n) d)) by (rewrite length_drop; lia).
    repeat split; done || (cbn [length]; lia).
Qed.

(** A write behind the buffered bytes. *)
Lemma wr_buffer p r d :
  take (length r) p = r -> length p = 64%nat -> (length r + length d <= 64)%nat ->
  wr p (zlen r) d = Some (r ++ d ++ drop (length r + length d) p)%list.
Proof. intros HT Hp Hl. rewrite wr_some by lia. by rewrite Nat2Z.id, HT. Qed.

(** Filling the buffer up and compressing it. *)
Lemma fill_block c m d :
  buffered c m -> sha_num c + zlen d = 64 ->
  exists p h, wr (sha_data c) (sha_num c) d = Some p /\ length p = 64%nat /\
    sha256_block_data_order (sha_h c) p 1 = Some h /\
    forall q, length q = 64%nat -> buffered (set_block c h q 0) (m ++ d).
Proof.
  intros (k & m0 & r & -> & Hm & Hr & Hh & Hn & Hd & HT & Hml) Hl.
  rewrite Hn, (wr_buffer _ r) by (done || lia).
  rewrite (drop_ge (sha_data c)), app_nil_r by lia.
  assert (HL : length (r ++ d) = 64%nat) by (rewrite length_app; lia).
  exists (r ++ d)%list. eexists. split; [done|]. split; [done|].
  split; [apply block_data_order_fips; lia|]. intros q Hq.
  exists (k + 1)%nat, ((m0 ++ r) ++ d)%list, []. cbn [set_block sha_h sha_num sha_data md_len].
  rewrite app_nil_r, <-app_assoc. repeat split; try done; try (cbn [length]; lia).
  - rewrite length_app. lia.
  - by rewrite blocks_app, foldl_app, <-Hh.
Qed.

Definition absorbed (c : SHA256_CTX) (m : bytes) : Prop := buffered c m /\ counted c (zlen m).

Lemma absorbed_init : absorbed SHA256_Init [].
Proof.
  split; [|done]. exists 0%nat, [], []. rewrite H0_fips. repeat split; try done. cbn. lia.
Qed.

Lemma buffered_count c m len : buffered c m -> buffered (count_bits c len) m.
Proof. done. Qed.

Lemma SHA256_Update_ok c m d :
  absorbed c m ->
  exists c', SHA256_Update c d (zlen d) = Some c' /\ absorbed c' (m ++ d).
Proof.
  intros [HB HC]. unfold SHA256_Update. destruct (zlen d =? 0) eqn:E0; bool_hyp.
  { destruct d; [|done]. rewrite app_nil_r. by exists c. }
  assert (HC' : counted (count_bits c (zlen d)) (zlen (m ++ d))).
  { rewrite length_app, Nat2Z.inj_add. apply count_bits_ok; [done|lia]. }
  apply (buffered_count _ _ (zlen d)) in HB. set (c1 := count_bits c (zlen d)) in *. clearbody c1.
  assert (Hn : 0 <= sha_num c1 < 64) by (destruct HB as (k & m0 & r & _ & _ & Hr & _ & -> & _); lia).
  destruct (negb (sha_num c1 =? 0)) eqn:En; bool_hyp.
  2:{ destruct (update_blocks_ok c1 m d HB En) as (c' & HU & HB' & Hl & Hh).
      exists c'. split; [done|]. split; [done|]. unfold counted. by rewrite Hl, Hh. }
  destruct (_ || _) eqn:EF.
  - apply orb_true_iff in EF. rewrite rd_some by lia. cbn [mbind option_bind].
    change (Z.to_nat 0) with 0%nat. rewrite drop_0.
    destruct (fill_block c1 m (take (Z.to_nat (64 - sha_num c1)) d)) as (p & h & -> & Hp & HS & HF);
      [done|rewrite length_take; lia|].
    cbn [mbind option_bind]. rewrite HS. cbn [mbind option_bind].
    specialize (HF (zeros 64) eq_refl).
    destruct (update_blocks_ok _ _ (drop (Z.to_nat (64 - sha_num c1)) d) HF) as (c' & HU & HB' & Hl & Hh);
      [done|].
    rewrite <-app_assoc, take_drop in HB'. exists c'. split; [|split; [done|]].
    + rewrite <-HU. f_equal. rewrite length_drop. lia.
    + unfold counted. by rewrite Hl, Hh.
  - apply orb_false_iff in EF as [??]. bool_hyp. rewrite rd_all. cbn [mbind option_bind].
    destruct HB as (k & m0 & r & -> & Hm & Hr & Hh & HN & Hd & HT & Hml).
    rewrite HN in *. rewrite (wr_buffer _ r) by (done || lia). cbn [mbind option_bind].
    eexists. split; [done|]. split; [|exact HC'].
    exists k, m0, (r ++ d)%list. cbn [set_block sha_h sha_num sha_data md_len].
    rewrite !length_app, <-!app_assoc. repeat split; try done; try lia.
    + rewrite u32_small by lia. lia.
    + rewrite !length_drop. lia.
    + rewrite app_assoc. apply take_app_length'. by rewrite length_app.
Qed.

(** ** The last block *)
Lemma l2c_le l : HOST_l2c l = rev (le_bytes 4 l).
Proof.
  unfold HOST_l2c. cbn [le_bytes rev app]. rewrite !Z.shiftr_div_pow2 by lia.
  by rewrite !Zdiv.Zdiv_Zdiv by lia.
Qed.

(** The counter in the last block is the length of the message in bits. *)
Lemma counter_bytes c n :
  counted c n -> rev (le_bytes 8 (8 * n)) = (HOST_l2c (Nh c) ++ HOST_l2c (Nl c))%list.
Proof.
  intros (Hl & Hh & Hn). rewrite !l2c_le, <-rev_app_distr. f_equal.
  rewrite le_bytes_mod. change (2 ^ (8 * Z.of_nat 8)) with (2 ^ 64).
  change (?x mod 2 ^ 64) with (u64 x). rewrite <-Hn, (le_bytes_app 4 4). f_equal.
  - rewrite le_bytes_mod. change (2 ^ (8 * Z.of_nat 4)) with (2 ^ 32).
    by rewrite Z.add_comm, Z.mod_add, Z.mod_small by lia.
  - f_equal. change (2 ^ (8 * Z.of_nat 4)) with (2 ^ 32).
    rewrite Z.div_add_l, Z.div_small by lia. lia.
Qed.

(** A write behind the part [a] of the buffer that is final. *)
Lemma wr_next (a t d : bytes) o :
  o = zlen a -> (length d <= length t)%nat ->
  wr (a ++ t) o d = Some ((a ++ d) ++ drop (length d) t)%list.
Proof.
  intros -> Hl. rewrite wr_some by (rewrite ?length_app; lia). f_equal.
  rewrite Nat2Z.id, (take_app_length' a t) by done. rewrite <-app_assoc. do 2 f_equal.
  rewrite drop_app_ge by lia. f_equal. lia.
Qed.

Lemma length_zeros_nat n : length (zeros n) = Z.to_nat n.
Proof. apply length_replicate. Qed.

Lemma zeros_app a b : 0 <= a -> 0 <= b -> zeros (a + b) = (zeros a ++ zeros b)%list.
Proof. intros. unfold zeros. by rewrite Z2Nat.inj_add, replicate_add by lia. Qed.

Lemma finish_block {B} (K : bytes -> option B) (a t x y : bytes) o :
  o = zlen a -> (length a <= 56)%nat -> length (a ++ t) = 64%nat -> length x = 4%nat -> length y = 4%nat ->
  (p ← wr (a ++ t) o (zeros (56 - o)); p ← wr p 56 x; p ← wr p 60 y; K p)
  = K (a ++ zeros (56 - o) ++ x ++ y)%list.
Proof.
  intros -> Ha Ht Hx Hy. rewrite length_app in Ht.
  assert (Hz : length (zeros (56 - zlen a)) = (56 - length a)%nat)
    by (rewrite length_zeros_nat; lia).
  rewrite wr_next by lia. cbn [mbind option_bind].
  rewrite wr_next; [|rewrite length_app; lia|rewrite length_drop; lia]. cbn [mbind option_bind].
  rewrite wr_next; [|rewrite !length_app; lia|rewrite !length_drop; lia]. cbn [mbind option_bind].
  rewrite drop_ge, app_nil_r, <-!app_assoc by (rewrite !length_drop; lia). done.
Qed.

(** The padding after a message of [k] whole blocks and the rest [r]. *)
Lemma pad_split (m0 r : bytes) k :
  length m0 = (64 * k)%nat -> (length r < 64)%nat ->
  Fips.pad (m0 ++ r) = (m0 ++ r ++ [0x80] ++
    zeros (if zlen r + 1 <=? 56 then 55 - zlen r else 119 - zlen r) ++
    rev (le_bytes 8 (8 * zlen (m0 ++ r))))%list.
Proof.
  intros Hm Hr. unfold Fips.pad. rewrite <-!app_assoc. do 5 f_equal.
  rewrite length_app. split_if; bool_hyp.
  - rewrite <-(Z.mod_add _ (Z.of_nat k)) by lia. rewrite Z.mod_small; lia.
  - rewrite <-(Z.mod_add _ (Z.of_nat k + 1)) by lia. rewrite Z.mod_small; lia.
Qed.

Lemma digest_l2c h : concat (map Fips.bytes_of h) = concat (map HOST_l2c h).
Proof. f_equal. apply map_ext. intros w. symmetry. apply l2c_le. Qed.

Lemma digest_of c h b :
  md_len c = 32 ->
  HASH_MAKE_STRING (set_block c (Fips.compress h b) (zeros 64) 0)
  = Some (concat (map HOST_l2c (Fips.compress h b))).
Proof. intros Hm. unfold HASH_MAKE_STRING. cbn [set_block md_len sha_h]. by rewrite Hm. Qed.

(** The digest is the chain over the blocks before and the padded rest [t]. *)
Lemma sha256_blocks (m m0 t : bytes) k j :
  Fips.pad m = (m0 ++ t)%list -> length m0 = (64 * k)%nat -> length t = (64 * j)%nat ->
  Fips.sha256 m = concat (map HOST_l2c (foldl Fips.compress
    (foldl Fips.compress Fips.H0 (Fips.blocks k m0)) (Fips.blocks j t))).
Proof.
  intros HP Hm Ht. unfold Fips.sha256. rewrite digest_l2c, HP, length_app, Hm, Ht.
  replace (64 * k + 64 * j)%nat with ((k + j) * 64)%nat by lia.
  by rewrite Nat.div_mul, blocks_app, foldl_app by done.
Qed.

Lemma SHA256_Final_ok c m :
  absorbed c m -> exists c', SHA256_Final c = Some (Some (Fips.sha256 m), c').
Proof.
  intros [(k & m0 & r & -> & Hm & Hr & Hh & Hn & Hd & HT & Hml) HC].
  pose proof (pad_split m0 r k Hm Hr) as HP. rewrite (counter_bytes c) in HP by done.
  unfold SHA256_Final. rewrite Hn, <-(take_drop (length r) (sha_data c)), HT.
  assert (HD : (length r + length (drop (length r) (sha_data c)) = 64)%nat)
    by (rewrite length_drop; lia).
  rewrite wr_next by (done || (cbn [length]; lia)). cbn [mbind option_bind length].
  set (a := (r ++ [128])%list). set (t := drop 1 _).
  assert (Ha : zlen r + 1 = zlen a) by (unfold a; rewrite length_app; cbn [length]; lia).
  assert (Hat : length (a ++ t) = 64%nat)
    by (unfold a, t; rewrite !length_app, length_drop; cbn [length]; lia).
  rewrite Ha in *. destruct (56 <? zlen a) eqn:EL; bool_hyp.
  - rewrite (proj2 (Z.leb_gt (zlen a) 56)) in HP by lia.
    assert (Hz : length (zeros (64 - zlen a)) = (64 - length a)%nat)
      by (rewrite length_zeros_nat; lia).
    rewrite length_app in Hat. rewrite wr_next by (done || lia).
    rewrite (drop_ge t), app_nil_r by (rewrite length_zeros_nat; lia). cbn [mbind option_bind].
    set (b1 := (a ++ zeros (64 - zlen a))%list).
    assert (Hb : length b1 = 64%nat) by (unfold b1; rewrite length_app, length_zeros_nat; lia).
    rewrite block_data_order_fips by lia. cbn [mbind option_bind].
    rewrite (finish_block _ [] b1) by (done || (cbn [length app]; lia)). change (zeros (56 - 0)) with (zeros 56).
    rewrite block_data_order_fips by (change (length ([] ++ _)) with 64%nat; lia). cbn [mbind option_bind]. eexists. f_equal. f_equal.
    rewrite (sha256_blocks _ m0 (b1 ++ zeros 56 ++ HOST_l2c (Nh c) ++ HOST_l2c (Nl c)) k 2).
    + rewrite Hh, (blocks_app 1 1) by lia. rewrite foldl_app. by apply digest_of.
    + rewrite HP. unfold b1, a. rewrite <-!app_assoc. do 2 f_equal. cbn [app]. f_equal.
      replace (119 - zlen r) with (64 - zlen a + 56) by lia. by rewrite zeros_app, <-app_assoc by lia.
    + done.
    + rewrite length_app, Hb. done.
  - rewrite (proj2 (Z.leb_le (zlen a) 56)) in HP by lia.
    cbn [mbind option_bind]. rewrite finish_block by (done || lia).
    assert (Hz : length (zeros (56 - zlen a)) = (56 - length a)%nat)
      by (rewrite length_zeros_nat; lia).
    set (b1 := (a ++ zeros (56 - zlen a) ++ HOST_l2c (Nh c) ++ HOST_l2c (Nl c))%list).
    assert (Hb : length b1 = 64%nat)
      by (unfold b1; rewrite !length_app, length_zeros_nat; change (length (HOST_l2c _)) with 4%nat; lia).
    rewrite block_data_order_fips by lia. cbn [mbind option_bind]. eexists. f_equal. f_equal.
    rewrite (sha256_blocks _ m0 b1 k 1).
    + rewrite Hh. by apply digest_of.
    + rewrite HP. unfold b1, a. rewrite <-!app_assoc. cbn [app]. by replace (55 - zlen r) with (56 - zlen a) by lia.
    + done.
    + lia.
Qed.

(** ** Contexts *)
Definition word (x : Z) : Prop := 0 <= x < 2 ^ 32.

Lemma compress_words h b : length (Fips.compress h b) = 8%nat /\ Forall word (Fips.compress h b).
Proof. split; [done|]. unfold Fips.compress, add_regs. repeat constructor; apply u32_range. Qed.

Lemma chain_words h bs :
  length h = 8%nat -> Forall word h ->
  length (foldl Fips.compress h bs) = 8%nat /\ Forall word (foldl Fips.compress h bs).
Proof.
  revert h. induction bs as [|b bs IH]; intros h Hl Hw; [done|].
  cbn [foldl]. destruct (compress_words h b). by apply IH.
Qed.

Lemma digest_bytes h :
  length (concat (map HOST_l2c h)) = (4 * length h)%nat /\ all_bytes (concat (map HOST_l2c h)).
Proof.
  induction h as [|x h [IHl IHb]]; [split; [done|constructor]|]. cbn [map concat]. split.
  - rewrite length_app, IHl. cbn [length HOST_l2c]. lia.
  - apply Forall_app; split; [|exact IHb]. repeat constructor; apply u8_range.
Qed.

Lemma sha256_digest m : length (Fips.sha256 m) = 32%nat /\ all_bytes (Fips.sha256 m).
Proof.
  unfold Fips.sha256. rewrite digest_l2c. destruct (chain_words Fips.H0 (Fips.blocks (length (Fips.pad m) / 64) (Fips.pad m)))
    as [Hl _].
  - done.
  - rewrite <-H0_fips. repeat constructor; unfold word; lia.
  - destruct (digest_bytes (foldl Fips.compress Fips.H0
      (Fips.blocks (length (Fips.pad m) / 64) (Fips.pad m)))) as [HL HB].
    rewrite Hl in HL. done.
Qed.

(** A context as the interface leaves it: eight words of state, a 64-byte buffer
    that is not full, 32-bit counters, a digest length of whole words. *)
Definition ctx_wf (c : SHA256_CTX) : Prop :=
  length (sha_h c) = 8%nat /\ Forall word (sha_h c) /\ word (Nl c) /\ word (Nh c) /\
  length (sha_data c) = 64%nat /\ 0 <= sha_num c < 64 /\ 0 <= md_len c <= 32.

Lemma wf_count c len : ctx_wf c -> ctx_wf (count_bits c len).
Proof.
  intros (? & ? & ? & ? & ? & ? & ?). unfold count_bits.
  change (2 ^ 32 - 1) with (Z.ones 32). rewrite Z.land_ones by lia.
  do 2 (split; [done|]). split; [apply Z.mod_pos_bound; lia|]. split; [apply u32_range|done].
Qed.

Lemma wf_set_block c h p n :
  ctx_wf c -> length h = 8%nat -> Forall word h -> length p = 64%nat -> 0 <= n < 64 ->
  ctx_wf (set_block c h p n).
Proof. intros (_ & _ & ? & ? & _ & _ & ?) ????. done. Qed.

Lemma wf_blocks c data n :
  ctx_wf c -> (64 * n <= length data)%nat ->
  exists h, sha256_block_data_order (sha_h c) data n = Some h /\ length h = 8%nat /\ Forall word h.
Proof.
  intros (Hl & Hw & _) Hn. rewrite block_data_order_fips by done. eexists. split; [done|].
  by apply chain_words.
Qed.

Lemma wf_update_blocks c data len :
  ctx_wf c -> 0 <= len <= zlen data ->
  exists c', update_blocks c data len = Some c' /\ ctx_wf c' /\ md_len c' = md_len c.
Proof.
  intros HW Hlen. unfold update_blocks. pose proof (Z.div_mod len 64). pose proof (Z.mod_pos_bound len 64).
  destruct (wf_blocks c data (Z.to_nat (len / 64)) HW) as (h & Hb & Hl & Hw); [lia|].
  assert (HB : exists h, (if 0 <? len / 64 then sha256_block_data_order (sha_h c) data (Z.to_nat (len / 64))
                          else Some (sha_h c)) = Some h /\ length h = 8%nat /\ Forall word h).
  { split_if; [by eauto|]. destruct HW as (? & ? & _). eauto. }
  destruct HB as (h' & -> & Hl' & Hw'). cbn [mbind option_bind].
  pose proof HW as (_ & _ & _ & _ & Hd & Hnum & _).
  destruct (negb _) eqn:EL; bool_hyp.
  - rewrite rd_some by (rewrite ?length_drop; lia). cbn [mbind option_bind].
    destruct (wr_ok (sha_data c) 0 (take (Z.to_nat (len - len / 64 * 64))
      (drop (Z.to_nat 0) (drop (Z.to_nat (len / 64 * 64)) data)))) as (p & -> & Hp);
      [lia|rewrite length_take; lia|]. cbn [mbind option_bind].
    eexists. split; [done|]. split; [|done]. apply wf_set_block; try done; [lia|].
    rewrite u32_small by lia. lia.
  - eexists. split; [done|]. split; [|done]. by apply wf_set_block.
Qed.

Lemma wf_update c data len :
  ctx_wf c -> 0 <= len <= zlen data ->
  exists c', SHA256_Update c data len = Some c' /\ ctx_wf c' /\ md_len c' = md_len c.
Proof.
  intros HW Hlen. unfold SHA256_Update. destruct (len =? 0) eqn:E0; bool_hyp; [by eauto|].
  apply (wf_count _ len) in HW. change (md_len c) with (md_len (count_bits c len)).
  set (c1 := count_bits c len) in *. clearbody c1. pose proof HW as (_ & _ & _ & _ & Hd & Hn & _).
  destruct (negb (sha_num c1 =? 0)) eqn:En; bool_hyp; [|by apply wf_update_blocks].
  destruct (_ || _) eqn:EF.
  - apply orb_true_iff in EF. rewrite rd_some by lia. cbn [mbind option_bind].
    destruct (wr_ok (sha_data c1) (sha_num c1) (take (Z.to_nat (64 - sha_num c1)) (drop (Z.to_nat 0) data)))
      as (p & -> & Hp); [lia|rewrite length_take; lia|]. cbn [mbind option_bind].
    destruct (wf_blocks c1 p 1 HW) as (h & -> & Hl & Hw); [lia|]. cbn [mbind option_bind].
    destruct (wf_update_blocks (set_block c1 h (zeros 64) 0) (drop (Z.to_nat (64 - sha_num c1)) data)
      (len - (64 - sha_num c1))) as (c' & ? & ? & ?); [by apply wf_set_block|rewrite length_drop; lia|].
    eauto.
  - apply orb_false_iff in EF as [??]. bool_hyp. rewrite rd_some by lia. cbn [mbind option_bind].
    destruct (wr_ok (sha_data c1) (sha_num c1) (take (Z.to_nat len) (drop (Z.to_nat 0) data)))
      as (p & -> & Hp); [lia|rewrite length_take; lia|]. cbn [mbind option_bind].
    eexists. split; [done|]. split; [|done]. pose proof HW as (? & ? & _).
    apply wf_set_block; try done; [lia|]. rewrite u32_small by lia. lia.
Qed.

(** The last block of any well-formed context. *)
Lemma wf_final c :
  ctx_wf c ->
  exists md c', SHA256_Final c = Some (Some md, c') /\ ctx_wf c' /\ all_bytes md /\
    zlen md = 4 * (md_len c / 4).
Proof.
  intros HW. pose proof HW as (Hl8 & Hw8 & _ & _ & Hd & Hn & Hml). unfold SHA256_Final.
  destruct (wr_ok (sha_data c) (sha_num c) [128]) as (p & -> & Hp); [lia|cbn [length]; lia|].
  cbn [mbind option_bind].
  assert (HB : exists h q n, (if 56 <? sha_num c + 1 then
       p ← wr p (sha_num c + 1) (zeros (64 - (sha_num c + 1)));
       h ← sha256_block_data_order (sha_h c) p 1; Some (h, p, 0)
     else Some (sha_h c, p, sha_num c + 1)) = Some (h, q, n) /\
     length h = 8%nat /\ Forall word h /\ zlen q = 64 /\ 0 <= n <= 56).
  { split_if; bool_hyp; [|exists (sha_h c), p, (sha_num c + 1); repeat split; done || lia].
    destruct (wr_ok p (sha_num c + 1) (zeros (64 - (sha_num c + 1)))) as (q & -> & Hq);
      [lia|rewrite length_zeros_nat; lia|]. cbn [mbind option_bind].
    destruct (wf_blocks c q 1 HW) as (h & -> & ? & ?); [lia|]. cbn [mbind option_bind].
    exists h, q, 0. repeat split; done || lia. }
  destruct HB as (h & q & n & -> & Hl & Hw & Hq & Hn'). cbn [mbind option_bind].
  destruct (wr_ok q n (zeros (56 - n))) as (q1 & -> & Hq1); [lia|rewrite length_zeros_nat; lia|].
  cbn [mbind option_bind].
  destruct (wr_ok q1 56 (HOST_l2c (Nh c))) as (q2 & -> & Hq2); [lia|cbn [length HOST_l2c]; lia|].
  cbn [mbind option_bind].
  destruct (wr_ok q2 60 (HOST_l2c (Nl c))) as (q3 & -> & Hq3); [lia|cbn [length HOST_l2c]; lia|].
  cbn [mbind option_bind].
  destruct (wf_blocks (set_block c h q3 0) q3 1) as (h' & HS & Hl' & Hw');
    [by apply wf_set_block; try done; lia|lia|]. cbn [set_block sha_h] in HS. rewrite HS. cbn [mbind option_bind].
  unfold HASH_MAKE_STRING. cbn [set_block md_len sha_h]. unfold SHA256_DIGEST_LENGTH. guard_false.
  destruct (digest_bytes (take (Z.to_nat (md_len c / 4)) h')) as [HLd HBd].
  eexists _, _. split; [done|]. split; [by apply wf_set_block|]. split; [done|].
  rewrite HLd, length_take. pose proof (Z.div_mod (md_len c) 4). pose proof (Z.mod_pos_bound (md_len c) 4). lia.
Qed.
End Streaming.

(** ** The interface *)
Section Interface.
(** A message fed in pieces. *)
Fixpoint update_all (c : SHA256_CTX) (pieces : list bytes) : option SHA256_CTX :=
  match pieces with
  | [] => Some c
  | d :: pieces => c ← SHA256_Update c d (zlen d); update_all c pieces
  end.

Lemma update_all_ok c m pieces :
  absorbed c m -> exists c', update_all c pieces = Some c' /\ absorbed c' (m ++ concat pieces).
Proof.
  revert c m. induction pieces as [|d ds IH]; intros c m HA; cbn [update_all concat].
  - rewrite app_nil_r. by exists c.
  - destruct (SHA256_Update_ok c m d HA) as (c1 & -> & HA1). cbn [mbind option_bind].
    destruct (IH _ _ HA1) as (c2 & -> & HA2). exists c2. by rewrite app_assoc.
Qed.

(** C13: (equivalence) Incremental hashing: for every way of cutting a message
    into pieces, [SHA256_Init], [SHA256_Update] on the pieces and [SHA256_Final]
    produce the digest that FIPS 180-4 defines for the whole message. *)
Theorem sha256_streaming pieces :
  exists c c', update_all SHA256_Init pieces = Some c /\
    SHA256_Final c = Some (Some (Fips.sha256 (concat pieces)), c').
Proof.
  destruct (update_all_ok _ _ pieces absorbed_init) as (c & HU & HA).
  destruct (SHA256_Final_ok _ _ HA) as (c' & HF). by exists c, c'.
Qed.

(** C31: (invariant) A SHA-256 context stays well formed: [SHA256_Init] makes a
    well-formed one, and on any well-formed context [SHA256_Update] of at most
    the bytes of its buffer and [SHA256_Final] access no byte outside the
    buffers, leave a well-formed context, and [SHA256_Final] writes as many
    bytes as the digest length has whole words. *)
Theorem sha256_context_invariant :
  ctx_wf SHA256_Init /\
  (forall c data len, ctx_wf c -> 0 <= len <= zlen data ->
     exists c', SHA256_Update c data len = Some c' /\ ctx_wf c' /\ md_len c' = md_len c) /\
  (forall c, ctx_wf c ->
     exists md c', SHA256_Final c = Some (Some md, c') /\ ctx_wf c' /\ all_bytes md /\
       zlen md = 4 * (md_len c / 4)).
Proof.
  split; [|split; [exact wf_update|exact wf_final]].
  split; [done|]. split; [repeat constructor; unfold word; lia|]. repeat split; done.
Qed.

(** [Sha256HashAll] of readable data into a buffer with room for the digest. *)
Lemma Sha256HashAll_ok (data : bytes) n hv :
  0 <= n <= zlen data -> 32 <= zlen hv ->
  Sha256HashAll (Some data) n (Some hv)
  = Some (true, Some (Fips.sha256 (take (Z.to_nat n) data) ++ drop 32 hv)%list).
Proof.
  intros Hn Hh. unfold Sha256HashAll. cbn [notnull negb andb rdp].
  rewrite rd_some by lia. cbn [mbind option_bind]. change (Z.to_nat 0) with 0%nat. rewrite drop_0.
  set (m := take (Z.to_nat n) data). replace n with (zlen m) by (unfold m; rewrite length_take; lia).
  destruct (SHA256_Update_ok _ [] m absorbed_init) as (c & -> & HA). cbn [mbind option_bind].
  destruct (SHA256_Final_ok _ _ HA) as (c' & ->). cbn [mbind option_bind app].
  destruct (sha256_digest m) as [Hd _]. unfold wrp. rewrite wr_some by lia. cbn [mbind option_bind].
  by rewrite Hd.
Qed.

(** The test vector of the standard. *)
Lemma sha256_abc :
  (fst <$> Sha256HashAll (Some [97; 98; 99]) 3 (Some (zeros 32))) = Some true /\
  firstn 4 (Fips.sha256 [97; 98; 99]) = [186; 120; 22; 191].
Proof. split; vm_compute; reflexivity. Qed.
End Interface.
