(* ===== verification/Uefi.v ===== *)
(** * Firmware interface of the SBC boot loaders

    The status codes the loaders use, and the services they call as type
    classes over an abstract machine state [W]: the pool allocator, the block
    devices, the file systems, the image services, the hardware inventory
    (SMBIOS, NVMe identify) and the random source.  The firmware of the target
    machine provides these services; each class lists the operations a loader
    calls and a second class the documented behaviour its theorems rely on. *)
From S2P Require Import Prelude.
From stdpp Require Import base list gmap strings.
From Stdlib Require Import ZArith Lia.
#[local] Open Scope Z_scope.

(** ** EFI_STATUS (UEFI specification, appendix D) *)
Definition EFI_STATUS := Z.
Definition EFI_ERR (n : Z) : Z := 2 ^ 63 + n.
Definition EFI_SUCCESS : Z := 0.
Definition EFI_INVALID_PARAMETER : Z := EFI_ERR 2.
Definition EFI_UNSUPPORTED : Z := EFI_ERR 3.
Definition EFI_BAD_BUFFER_SIZE : Z := EFI_ERR 4.
Definition EFI_BUFFER_TOO_SMALL : Z := EFI_ERR 5.
Definition EFI_DEVICE_ERROR : Z := EFI_ERR 7.
Definition EFI_WRITE_PROTECTED : Z := EFI_ERR 8.
Definition EFI_OUT_OF_RESOURCES : Z := EFI_ERR 9.
Definition EFI_MEDIA_CHANGED : Z := EFI_ERR 13.
Definition EFI_NO_MEDIA : Z := EFI_ERR 12.
Definition EFI_NOT_FOUND : Z := EFI_ERR 14.

(** [EFI_ERROR (s)]: the top bit is set. *)
Definition EFI_ERROR (s : Z) : bool := 2 ^ 63 <=? s.

(** ** SBCStatus (SBC_ErrorType.h) *)
Inductive SBCStatus :=
| SBCOK | SBCFAIL | SBCINVPARAM | SBCNULLP | SBCZEROL | SBCNOTFND | SBCBADFMT
| SBCFMMTTYP | SBCNOSPC | SBCIO | SBCFAULT | SBCBUSY | SBCTIME | SBCCOMM
| SBCPROTO | SBCNOTSUP | SBCENCFAIL | SBCDECFAIL | SBCBSANSWNOTFND | SBCUNKNOWN.

#[global] Instance SBCStatus_eq_dec : EqDecision SBCStatus.
Proof. solve_decision. Defined.

Definition sbc_is (a b : SBCStatus) : bool := bool_decide (a = b).

(** The numeric value of an enumerator. *)
Definition sbc_code (s : SBCStatus) : Z :=
  match s with
  | SBCOK => 0 | SBCFAIL => 300 | SBCINVPARAM => 301 | SBCNULLP => 302
  | SBCZEROL => 303 | SBCNOTFND => 304 | SBCBADFMT => 305 | SBCFMMTTYP => 306
  | SBCNOSPC => 307 | SBCIO => 308 | SBCFAULT => 309 | SBCBUSY => 310
  | SBCTIME => 311 | SBCCOMM => 312 | SBCPROTO => 313 | SBCNOTSUP => 314
  | SBCENCFAIL => 315 | SBCDECFAIL => 316 | SBCBSANSWNOTFND => 317
  | SBCUNKNOWN => 318
  end.

(** Enumerators are distinguished by their values. *)
Lemma sbc_code_inj a b : sbc_code a = sbc_code b -> a = b.
Proof. destruct a, b; cbn; intros H; try reflexivity; discriminate H. Qed.

Lemma sbc_is_true a b : sbc_is a b = true <-> a = b.
Proof. apply bool_decide_eq_true. Qed.
Lemma sbc_is_false r s : sbc_is r s = false -> r <> s.
Proof. unfold sbc_is. intros HE ->. by rewrite bool_decide_true in HE. Qed.
Lemma sbc_is_refl a : sbc_is a a = true.
Proof. by apply sbc_is_true. Qed.

(** ** LV_t (SBC_TypeDefs.h)

    [struct _lv_t { UINT32 length; VOID *value; }]: on X64 the structure has
    four bytes of padding after [length], and the code passes
    [(UINTN * )&lv->length] to services that read and write eight bytes.
    [lv_word] is those eight bytes; [value] is the buffer pointed to. *)
Record LV_t := mkLV { lv_word : Z; lv_value : option bytes }.

Definition lv_length (lv : LV_t) : Z := u32 (lv_word lv).
(** [lv->length = n]: the padding keeps its content. *)
Definition lv_set_length (lv : LV_t) (n : Z) : LV_t :=
  mkLV (u64 (lv_word lv) / 2 ^ 32 * 2 ^ 32 + u32 n) (lv_value lv).
(** [*(UINTN * )&lv->length = n]. *)
Definition lv_set_word (lv : LV_t) (n : Z) : LV_t := mkLV (u64 n) (lv_value lv).
Definition lv_set_value (lv : LV_t) (v : option bytes) : LV_t := mkLV (lv_word lv) v.
(** [_lv_set_data (lv, buf, bufl)]. *)
Definition _lv_set_data (lv : LV_t) (buf : bytes) (bufl : Z) : LV_t :=
  lv_set_length (lv_set_value lv (Some buf)) bufl.

Lemma lv_length_set lv n : lv_length (lv_set_length lv n) = u32 n.
Proof.
  unfold lv_length, lv_set_length. cbn [lv_word]. unfold u32 at 1.
  rewrite Z.add_comm, Z_mod_plus_full. apply Z.mod_mod. lia.
Qed.

(** ** Pool allocation *)
Class Pool (W : Type) := {
  (** [AllocatePool]/[AllocateZeroPool] of that many bytes: did it succeed? *)
  AllocatePool : Z -> M W bool
}.

(** A machine whose pool does not run out. *)
Class PoolOk (W : Type) `{!Pool W} : Prop :=
  alloc_ok : forall n w, AllocatePool n w = (Ret true, w).

(** ** Block devices: EFI_BLOCK_IO_PROTOCOL *)
Class BlockIo (W : Type) := {
  (** [LocateHandleBuffer (ByProtocol, &gEfiBlockIoProtocolGuid, ..)] *)
  LocateBlk : M W (EFI_STATUS * list Z);
  (** [HandleProtocol (h, &gEfiBlockIoProtocolGuid, ..)] *)
  BlkProtocol : Z -> M W EFI_STATUS;
  (** [BlockIo->Media->BlockSize] *)
  BlockSize : Z -> W -> Z;
  (** [BlockIo->ReadBlocks (BlockIo, Media->MediaId, Lba, BufferSize, Buffer)] *)
  ReadBlocks : Z -> Z -> Z -> M W (EFI_STATUS * bytes);
  (** [BlockIo->WriteBlocks (BlockIo, Media->MediaId, Lba, BufferSize, Buffer)],
      the data being the [BufferSize] bytes of [Buffer] *)
  WriteBlocks : Z -> Z -> bytes -> M W EFI_STATUS
}.

(** The bytes of device addresses [a], [a+1], ..., [a+n-1]. *)
Fixpoint window_nat (f : Z -> Z) (a : Z) (n : nat) : bytes :=
  match n with
  | O => []
  | S n => f a :: window_nat f (a + 1) n
  end.
Definition window (f : Z -> Z) (a n : Z) : bytes := window_nat f a (Z.to_nat n).

(** The requests the loaders make: [Lba] and [BufferSize] are 32-bit values. *)
Definition blk_req (lba n : Z) : Prop := 0 <= lba < 2 ^ 32 /\ 0 <= n < 2 ^ 32.

(** The content of a device after [d] is written at byte address [a0]. *)
Definition put (f : Z -> Z) (a0 : Z) (d : bytes) (a : Z) : Z :=
  if (a0 <=? a) && (a <? a0 + zlen d) then default 0 (d !! Z.to_nat (a - a0)) else f a.

(** The handles that carry the protocol, and what looking it up returns. *)
Definition same_handles {W} `{!BlockIo W} (w w' : W) : Prop :=
  (forall r, LocateBlk w = (Ret r, w) -> LocateBlk w' = (Ret r, w')) /\
  (forall h st, BlkProtocol h w = (Ret st, w) -> BlkProtocol h w' = (Ret st, w')).

(** What a block device promises (UEFI specification, EFI_BLOCK_IO_PROTOCOL):
    a byte-addressed content that reads return and writes replace.  Two handles
    can serve the same bytes: the partition driver (MdeModulePkg, PartitionDxe)
    installs a handle for each partition whose blocks are blocks of its disk. *)
Class BlockIoLaws (W : Type) `{!BlockIo W} := {
  disk : Z -> W -> Z -> Z;
  (** the medium the blocks of a handle are on, and the byte of it where block 0
      of the handle starts *)
  medium : Z -> Z;
  origin : Z -> Z;
  (** [BlockIo->Media->ReadOnly] *)
  read_only : Z -> W -> bool;
  block_size_pos : forall h w, 0 < BlockSize h w;
  read_pure : forall h lba n w o w', ReadBlocks h lba n w = (o, w') -> w' = w;
  read_total : forall h lba n w,
    blk_req lba n -> exists st d, ReadBlocks h lba n w = (Ret (st, d), w);
  read_data : forall h lba n w st d,
    blk_req lba n ->
    ReadBlocks h lba n w = (Ret (st, d), w) -> EFI_ERROR st = false ->
    d = window (disk h w) (lba * BlockSize h w) n;
  read_bad_size : forall h lba n w st d,
    blk_req lba n ->
    ReadBlocks h lba n w = (Ret (st, d), w) -> n mod BlockSize h w <> 0 ->
    EFI_ERROR st = true;
  write_total : forall h lba d w,
    blk_req lba (zlen d) -> exists st w', WriteBlocks h lba d w = (Ret st, w');
  write_bad_size : forall h lba d w st w',
    blk_req lba (zlen d) ->
    WriteBlocks h lba d w = (Ret st, w') -> zlen d mod BlockSize h w <> 0 ->
    EFI_ERROR st = true /\ w' = w;
  write_data : forall h lba d w st w',
    blk_req lba (zlen d) ->
    WriteBlocks h lba d w = (Ret st, w') -> EFI_ERROR st = false ->
    forall a, disk h w' a = put (disk h w) (lba * BlockSize h w) d a;
  (** the geometry is not affected *)
  write_frame : forall h lba d w st w' k,
    blk_req lba (zlen d) ->
    WriteBlocks h lba d w = (Ret st, w') ->
    BlockSize k w' = BlockSize k w /\ read_only k w' = read_only k w;
  (** a write installs and removes no protocol *)
  write_handles : forall h lba d w st w',
    blk_req lba (zlen d) -> WriteBlocks h lba d w = (Ret st, w') -> same_handles w w';
  (** a write, failed or not, touches the addressed blocks of the medium only;
      through another handle of the medium these bytes are seen at the addresses
      shifted by the distance of the origins *)
  write_local : forall h lba d w st w' k a,
    blk_req lba (zlen d) ->
    WriteBlocks h lba d w = (Ret st, w') ->
    medium k <> medium h \/
    origin k + a - origin h < lba * BlockSize h w \/
    lba * BlockSize h w + zlen d <= origin k + a - origin h ->
    disk k w' a = disk k w a;
  (** a writable medium accepts the writes of the blocks it serves *)
  write_accepts : forall h lba d w st w' st' d',
    blk_req lba (zlen d) -> read_only h w = false ->
    ReadBlocks h lba (zlen d) w = (Ret (st', d'), w) -> EFI_ERROR st' = false ->
    WriteBlocks h lba d w = (Ret st, w') -> EFI_ERROR st = false;
  (** what was written can be read *)
  write_readable : forall h lba d w st w',
    blk_req lba (zlen d) ->
    WriteBlocks h lba d w = (Ret st, w') -> EFI_ERROR st = false ->
    exists st' d', ReadBlocks h lba (zlen d) w' = (Ret (st', d'), w') /\ EFI_ERROR st' = false;
  (** a device that served a request keeps serving it *)
  write_serves : forall h lba d w st w' k lba' n st' d',
    blk_req lba (zlen d) -> blk_req lba' n ->
    WriteBlocks h lba d w = (Ret st, w') ->
    ReadBlocks k lba' n w = (Ret (st', d'), w) -> EFI_ERROR st' = false ->
    exists st'' d'', ReadBlocks k lba' n w' = (Ret (st'', d''), w') /\ EFI_ERROR st'' = false
}.

(** The written handle itself. *)
Lemma write_local_own {W} `{!BlockIo W, !BlockIoLaws W} h lba d (w : W) st w' a :
  blk_req lba (zlen d) -> WriteBlocks h lba d w = (Ret st, w') ->
  a < lba * BlockSize h w \/ lba * BlockSize h w + zlen d <= a -> disk h w' a = disk h w a.
Proof. intros Hq HW Ha. apply (write_local h lba d w st w' h a Hq HW). right. lia. Qed.

(** ** File systems: EFI_SIMPLE_FILE_SYSTEM_PROTOCOL, EFI_FILE_PROTOCOL *)
Definition EFI_FILE_MODE_READ : Z := 1.
Definition EFI_FILE_MODE_WRITE : Z := 2.
Definition EFI_FILE_MODE_CREATE : Z := 2 ^ 63.
Definition EFI_FILE_DIRECTORY : Z := 16.

Record file_info := mkInfo { FileSize : Z; Attribute : Z }.

Class FileSys (W : Type) := {
  LocateFs : M W (EFI_STATUS * list Z);
  FsProtocol : Z -> M W EFI_STATUS;
  (** [FileSystem->OpenVolume (FileSystem, &Root)]: status and the root directory *)
  OpenVolume : Z -> M W (EFI_STATUS * Z);
  (** [Root->Open (Root, &File, name, mode, attributes)]: status and file *)
  FOpen : Z -> string -> Z -> Z -> M W (EFI_STATUS * Z);
  (** [File->Read (File, &size, buf)]: at most [size] bytes *)
  FRead : Z -> Z -> M W (EFI_STATUS * bytes);
  (** [File->Write (File, &size, buf)] *)
  FWrite : Z -> bytes -> M W EFI_STATUS;
  (** [File->SetPosition (File, pos)] *)
  FSetPosition : Z -> Z -> M W EFI_STATUS;
  (** [File->GetInfo (File, &gEfiFileInfoGuid, &size, NULL)] with [size] 0 *)
  FInfoSize : Z -> M W (EFI_STATUS * Z);
  (** [File->GetInfo (File, &gEfiFileInfoGuid, &size, FileInfo)] *)
  FInfo : Z -> M W (EFI_STATUS * file_info);
  FClose : Z -> M W unit
}.

(** ** Image services *)
Class ImageSvc (W : Type) := {
  (** [LoadImage (FALSE, gImageHandle, FileDevicePath (h, path), NULL, 0, &img)];
      the empty path stands for the device path of the volume itself *)
  LoadImage : Z -> string -> M W (EFI_STATUS * Z);
  (** [StartImage (img, NULL, NULL)]: its status when the image returns *)
  StartImage : Z -> M W EFI_STATUS;
  UnloadImage : Z -> M W EFI_STATUS;
  (** [HandleProtocol (h, &gEfiDevicePathProtocolGuid, ..)] *)
  DevicePathProtocol : Z -> M W EFI_STATUS
}.

(** ** Hardware inventory *)
Class HwInfo (W : Type) := {
  (** [LocateProtocol (&gEfiSmbiosProtocolGuid, ..)] *)
  LocateSmbios : M W EFI_STATUS;
  (** The records [Smbios->GetNext] walks through, each with its string area. *)
  SmbiosRecords : M W (list bytes);
  (** [LocateHandleBuffer (ByProtocol, &gEfiNvmExpressPassThruProtocolGuid, ..)] *)
  LocateNvme : M W (EFI_STATUS * list Z);
  NvmeProtocol : Z -> M W EFI_STATUS;
  (** [PassThru] of the Identify Controller command: the controller data *)
  NvmeIdentify : Z -> M W (EFI_STATUS * bytes)
}.

(** ** Randomness: BaseCryptLib's [RandomBytes], the content of the buffer *)
Class Rng (W : Type) := { RandomBytes : Z -> M W bytes }.

(** ** Effects outside the block devices

    [same_dev w w']: the block devices of the two states are found at the same
    handles and serve the same content.
    [keeps m]: the effect leaves the block devices; it is what the firmware
    services other than block writes do. *)
Section Frame.
Context {W : Type} `{!BlockIo W, !BlockIoLaws W}.

Definition same_dev (w w' : W) : Prop :=
  same_handles w w' /\
  forall h, BlockSize h w' = BlockSize h w /\ disk h w' = disk h w /\
    read_only h w' = read_only h w /\
    forall lba n,
      (exists st d, ReadBlocks h lba n w = (Ret (st, d), w) /\ EFI_ERROR st = false) ->
      exists st d, ReadBlocks h lba n w' = (Ret (st, d), w') /\ EFI_ERROR st = false.

Definition keeps {A} (m : M W A) : Prop := forall w o w', m w = (o, w') -> same_dev w w'.

#[global] Instance same_dev_preorder : PreOrder same_dev.
Proof.
  split.
  - intros w. split; [done|]. intros h. auto.
  - intros w1 w2 w3 [[L12 P12] H12] [[L23 P23] H23]. split; [split; auto|]. intros h.
    destruct (H12 h) as (Hb & Hd & Ho & Hr), (H23 h) as (Hb' & Hd' & Ho' & Hr').
    do 3 (split; [congruence|]). auto.
Qed.

Lemma keeps_ret {A} (a : A) : keeps (ret a).
Proof. intros w o w' [= <- <-]. reflexivity. Qed.
Lemma keeps_fault {A} : keeps (@fault W A).
Proof. intros w o w' [= <- <-]. reflexivity. Qed.
Lemma keeps_reset {A} r : keeps (@reset W A r).
Proof. intros w o w' [= <- <-]. reflexivity. Qed.
Lemma keeps_access {A} (x : option A) : keeps (access x).
Proof. destruct x; [apply keeps_ret|apply keeps_fault]. Qed.
Lemma keeps_read h lba n : keeps (ReadBlocks h lba n).
Proof. intros w o w' HR. apply read_pure in HR as ->. reflexivity. Qed.
Lemma keeps_bind {A B} (m : M W A) (k : A -> M W B) :
  keeps m -> (forall a, keeps (k a)) -> keeps (bind m k).
Proof.
  intros Hm Hk w o w'. unfold bind. destruct (m w) as [[a| |r] w1] eqn:E; intros HE.
  - transitivity w1; [by eapply Hm|by eapply Hk].
  - injection HE as <- <-. by eapply Hm.
  - injection HE as <- <-. by eapply Hm.
Qed.
Lemma keeps_if {A} (c : bool) (m1 m2 : M W A) : keeps m1 -> keeps m2 -> keeps (if c then m1 else m2).
Proof. by destruct c. Qed.
End Frame.
#[export] Hint Resolve keeps_ret keeps_fault keeps_reset keeps_access keeps_read : sbc.

(** Proves [keeps] of a composed effect from its parts. *)
Ltac keeps_step :=
  match goal with
  | |- forall _, _ => intros ?
  | |- keeps (bind _ _) => apply keeps_bind
  | |- keeps (if _ then _ else _) => apply keeps_if
  | |- keeps (match ?x with _ => _ end) => destruct x
  | |- keeps _ => solve [eauto with sbc]
  end.
Ltac keeps_tac := repeat keeps_step.

(** The generator fills the buffer. *)
Class RngLaws (W : Type) `{!Rng W, !BlockIo W, !BlockIoLaws W} : Prop := {
  random_total : forall n w, 0 <= n -> exists b w', RandomBytes n w = (Ret b, w') /\ zlen b = n;
  random_keeps : forall n, keeps (RandomBytes n)
}.

(** ** What a file system promises (UEFI specification, 13.4 and 13.5) *)
Inductive fnode := NDir (vol : Z) (path : string) | NFile (vol : Z) (path : string) (pos : Z).
Abbreviation NRoot h := (NDir h EmptyString).

(** The path of [name] in the directory [dir] of a volume. *)
Definition join (dir name : string) : string :=
  match dir with
  | EmptyString => name
  | _ => String.append dir (String (Ascii.ascii_of_nat 92) name)
  end.

Section FsState.
Context {W : Type}.
(** The volumes, what a path of a volume names ([None]: nothing, [Some None]:
    a directory, [Some (Some c)]: a file), and the open handles. *)
Record fs_view := mkView {
  vols : W -> list Z;
  vol_node : W -> Z -> string -> option (option bytes);
  open_as : W -> Z -> option fnode
}.
Definition same_files (V : fs_view) (w w' : W) : Prop :=
  vols V w' = vols V w /\ forall v n, vol_node V w' v n = vol_node V w v n.
End FsState.
Arguments fs_view : clear implicits.

Class FileSysLaws (W : Type) `{!FileSys W} := {
  view : fs_view W;
  fs_locate : forall w,
    LocateFs w = (Ret (match vols view w with [] => EFI_NOT_FOUND | _ => EFI_SUCCESS end,
                       vols view w), w);
  fs_protocol : forall h w, In h (vols view w) -> FsProtocol h w = (Ret EFI_SUCCESS, w);
  fs_open_volume : forall h w, In h (vols view w) ->
    exists r w', OpenVolume h w = (Ret (EFI_SUCCESS, r), w') /\
      open_as view w' r = Some (NRoot h) /\ same_files view w w';
  fs_open_read : forall r h dir name w, open_as view w r = Some (NDir h dir) ->
    exists st f w', FOpen r name EFI_FILE_MODE_READ 0 w = (Ret (st, f), w') /\
      same_files view w w' /\
      match vol_node view w h (join dir name) with
      | Some (Some _) => st = EFI_SUCCESS /\ open_as view w' f = Some (NFile h (join dir name) 0)
      | Some None => st = EFI_SUCCESS /\ open_as view w' f = Some (NDir h (join dir name))
      | None => EFI_ERROR st = true
      end;
  fs_read : forall f h name pos c n w,
    open_as view w f = Some (NFile h name pos) -> vol_node view w h name = Some (Some c) ->
    0 <= n -> 0 <= pos ->
    exists w', FRead f n w = (Ret (EFI_SUCCESS, take (Z.to_nat n) (drop (Z.to_nat pos) c)), w') /\
      same_files view w w';
  fs_info : forall f h name pos c w,
    open_as view w f = Some (NFile h name pos) -> vol_node view w h name = Some (Some c) ->
    exists k i, FInfoSize f w = (Ret (EFI_BUFFER_TOO_SMALL, k), w) /\
      FInfo f w = (Ret (EFI_SUCCESS, i), w) /\ FileSize i = zlen c;
  fs_close : forall f w, exists w', FClose f w = (Ret tt, w') /\ same_files view w w'
}.

(** The services that read the machine: none of them writes a block device.
    Files are opened for reading only. *)
Class Frames (W : Type) `{!BlockIo W, !BlockIoLaws W, !Pool W, !FileSys W, !ImageSvc W, !HwInfo W}
  : Prop := {
  alloc_keeps : forall n, keeps (AllocatePool n);
  fs_keeps_locate : keeps LocateFs;
  fs_keeps_protocol : forall h, keeps (FsProtocol h);
  fs_keeps_volume : forall h, keeps (OpenVolume h);
  fs_keeps_open : forall r n, keeps (FOpen r n EFI_FILE_MODE_READ 0);
  fs_keeps_read : forall f n, keeps (FRead f n);
  fs_keeps_position : forall f n, keeps (FSetPosition f n);
  fs_keeps_infosize : forall f, keeps (FInfoSize f);
  fs_keeps_info : forall f, keeps (FInfo f);
  fs_keeps_close : forall f, keeps (FClose f);
  img_keeps_load : forall h p, keeps (LoadImage h p);
  img_keeps_unload : forall i, keeps (UnloadImage i);
  img_keeps_path : forall h, keeps (DevicePathProtocol h);
  hw_keeps_smbios : keeps LocateSmbios;
  hw_keeps_records : keeps SmbiosRecords;
  hw_keeps_nvme : keeps LocateNvme;
  hw_keeps_nvme_protocol : forall h, keeps (NvmeProtocol h);
  hw_keeps_identify : forall h, keeps (NvmeIdentify h)
}.
#[export] Hint Resolve random_keeps alloc_keeps fs_keeps_locate fs_keeps_protocol fs_keeps_volume
  fs_keeps_open fs_keeps_read fs_keeps_position fs_keeps_infosize fs_keeps_info
  fs_keeps_close img_keeps_load img_keeps_unload img_keeps_path hw_keeps_smbios hw_keeps_records hw_keeps_nvme
  hw_keeps_nvme_protocol hw_keeps_identify : sbc.

(** ** Lemmas on windows *)
Lemma length_window f a n : length (window f a n) = Z.to_nat n.
Proof.
  unfold window. generalize (Z.to_nat n) as k. intros k. revert a.
  induction k; intros; cbn; auto.
Qed.

Lemma zlen_window f a n : 0 <= n -> zlen (window f a n) = n.
Proof. intros. rewrite length_window. lia. Qed.

Lemma window_lookup f a n i :
  (i < Z.to_nat n)%nat -> window f a n !! i = Some (f (a + Z.of_nat i)).
Proof.
  unfold window. generalize (Z.to_nat n) as k. intros k. revert a i.
  induction k as [|k IH]; intros a i Hi; [lia|]. destruct i as [|i]; cbn [window_nat].
  - cbn. by rewrite Z.add_0_r.
  - cbn [lookup list_lookup]. rewrite IH by lia. do 2 f_equal. lia.
Qed.

Lemma window_ext f g a n :
  (forall x, a <= x < a + n -> f x = g x) -> window f a n = window g a n.
Proof.
  intros H. apply list_eq. intros i. destruct (decide (i < Z.to_nat n)%nat).
  - rewrite !window_lookup by done. f_equal. apply H. lia.
  - rewrite !lookup_ge_None_2; rewrite ?length_window; try done; lia.
Qed.

(** A part of a window is a window. *)
Lemma rd_window f a n off len :
  0 <= off -> 0 <= len -> off + len <= n ->
  rd (window f a n) off len = Some (window f (a + off) len).
Proof.
  intros. rewrite rd_some by (rewrite ?length_window; lia). f_equal.
  apply list_eq. intros i. destruct (decide (i < Z.to_nat len)%nat).
  - rewrite lookup_take_lt by lia. rewrite lookup_drop.
    rewrite !window_lookup by lia. f_equal. f_equal. lia.
  - rewrite !lookup_ge_None_2; rewrite ?length_window, ?length_take; try done; lia.
Qed.

(** Writing a whole window and reading it back. *)
Lemma window_put_same f d a : window (put f a d) a (zlen d) = d.
Proof.
  apply list_eq. intros i. destruct (decide (i < length d)%nat) as [Hi|Hi].
  - rewrite window_lookup by lia. destruct (lookup_lt_is_Some_2 _ _ Hi) as [x Hx].
    rewrite Hx. unfold put. guard_true. replace (Z.to_nat _) with i by lia. by rewrite Hx.
  - rewrite !lookup_ge_None_2; rewrite ?length_window; try done; lia.
Qed.

(** A write leaves the windows it does not meet. *)
Lemma window_put_other f d a0 a n :
  a + n <= a0 \/ a0 + zlen d <= a -> window (put f a0 d) a n = window f a n.
Proof. intros H. apply window_ext. intros x Hx. unfold put. by guard_false. Qed.

Lemma EFI_ERROR_success : EFI_ERROR EFI_SUCCESS = false.
Proof. reflexivity. Qed.
