(* ===== verification/RamDisk.v ===== *)
(** * The RAM disk driver (MdeModulePkg/Universal/Disk/RamDiskDxe)

    The block device driver of the tree, as an implementation of the interface
    the loaders use: [RamDiskInitBlockIo] and the EFI_BLOCK_IO_PROTOCOL
    functions of RamDiskBlockIo.c.  [ramdisk_laws] discharges [BlockIoLaws] for
    every machine that keeps its RAM disks in a [ramdisks] component. *)
From stdpp Require Import base list gmap.
From Stdlib Require Import ZArith Lia.
From S2P Require Import Prelude Uefi.
#[local] Open Scope Z_scope.

(** The part of [RAM_DISK_PRIVATE_DATA] the driver uses.  [Content] is the
    memory from [StartingAddr] on; an access outside the [Size] bytes of the
    disk is undefined. *)
Record RAM_DISK_PRIVATE_DATA := mkRamDisk {
  Size : Z;
  MediaId : Z;
  MediaBlockSize : Z;
  LastBlock : Z;
  ReadOnly : bool;
  Content : Z -> Z
}.

(** The medium with another content. *)
Definition with_content (p : RAM_DISK_PRIVATE_DATA) (c : Z -> Z) : RAM_DISK_PRIVATE_DATA :=
  mkRamDisk (Size p) (MediaId p) (MediaBlockSize p) (LastBlock p) (ReadOnly p) c.

Definition RAM_DISK_DEFAULT_BLOCK_SIZE : Z := 512.

(** The loop of [RamDiskInitBlockIo]: the block size is halved until it divides
    [Size]; [fuel] bounds the iterations ([None]: not enough). *)
Fixpoint InitBlockSize (fuel : nat) (size bs last : Z) : option (Z * Z) :=
  match fuel with
  | O => None
  | S fuel =>
      if 1 <=? bs then
        let last := u64 (size / bs - 1) in
        if size mod bs =? 0 then Some (bs, last)
        else InitBlockSize fuel size (Z.shiftr bs 1) last
      else Some (bs, last)
  end.

(** [RamDiskInitBlockIo]: a writable medium covering the region. *)
Definition RamDiskInitBlockIo (size mediaid : Z) (content : Z -> Z)
  : RAM_DISK_PRIVATE_DATA :=
  match InitBlockSize 11 size RAM_DISK_DEFAULT_BLOCK_SIZE 0 with
  | Some (bs, last) => mkRamDisk size mediaid bs last false content
  | None => mkRamDisk size mediaid 0 0 false content
  end.

Definition RamDiskBlkIoReset (p : RAM_DISK_PRIVATE_DATA) (ExtendedVerification : bool)
  : EFI_STATUS := EFI_SUCCESS.

(** [RamDiskBlkIoReadBlocks]: status and the new content of [Buffer] (inner
    [None]: a null pointer); the outer [None] is an undefined access. *)
Definition RamDiskBlkIoReadBlocks (p : RAM_DISK_PRIVATE_DATA)
    (mid Lba BufferSize : Z) (Buffer : option bytes)
  : option (EFI_STATUS * option bytes) :=
  if negb (mid =? MediaId p) then Some (EFI_MEDIA_CHANGED, Buffer)
  else match Buffer with
  | None => Some (EFI_INVALID_PARAMETER, None)
  | Some buf =>
    if BufferSize =? 0 then Some (EFI_SUCCESS, Buffer)
    else if negb (BufferSize mod MediaBlockSize p =? 0) then Some (EFI_BAD_BUFFER_SIZE, Buffer)
    else if LastBlock p <? Lba then Some (EFI_INVALID_PARAMETER, Buffer)
    else
      let NumberOfBlocks := BufferSize / MediaBlockSize p in
      if LastBlock p <? u64 (Lba + NumberOfBlocks - 1) then Some (EFI_INVALID_PARAMETER, Buffer)
      else
        let off := u64 (Lba * MediaBlockSize p) in
        if off + BufferSize <=? Size p then
          match wr buf 0 (window (Content p) off BufferSize) with
          | Some buf' => Some (EFI_SUCCESS, Some buf')
          | None => None
          end
        else None
  end.

(** [RamDiskBlkIoWriteBlocks]: status and the medium afterwards. *)
Definition RamDiskBlkIoWriteBlocks (p : RAM_DISK_PRIVATE_DATA)
    (mid Lba BufferSize : Z) (Buffer : option bytes)
  : option (EFI_STATUS * RAM_DISK_PRIVATE_DATA) :=
  if negb (mid =? MediaId p) then Some (EFI_MEDIA_CHANGED, p)
  else if ReadOnly p then Some (EFI_WRITE_PROTECTED, p)
  else match Buffer with
  | None => Some (EFI_INVALID_PARAMETER, p)
  | Some buf =>
    if BufferSize =? 0 then Some (EFI_SUCCESS, p)
    else if negb (BufferSize mod MediaBlockSize p =? 0) then Some (EFI_BAD_BUFFER_SIZE, p)
    else if LastBlock p <? Lba then Some (EFI_INVALID_PARAMETER, p)
    else
      let NumberOfBlocks := BufferSize / MediaBlockSize p in
      if LastBlock p <? u64 (Lba + NumberOfBlocks - 1) then Some (EFI_INVALID_PARAMETER, p)
      else
        let off := u64 (Lba * MediaBlockSize p) in
        if off + BufferSize <=? Size p then
          match rd buf 0 BufferSize with
          | Some d =>
              Some (EFI_SUCCESS,
                    with_content p (put (Content p) off d))
          | None => None
          end
        else None
  end.

Definition RamDiskBlkIoFlushBlocks (p : RAM_DISK_PRIVATE_DATA) : EFI_STATUS := EFI_SUCCESS.

(** *** EFI_BLOCK_IO2_PROTOCOL

    A token is the caller's object; its event is a handle ([None]: a null
    pointer).  Each function returns, beside what the blocking one returns, the
    token afterwards and the events it passes to [gBS->SignalEvent], in order. *)
Record EFI_BLOCK_IO2_TOKEN := mkToken {
  Event : option Z;
  TransactionStatus : EFI_STATUS
}.

(** The end of the three functions: completion is reported in the token. *)
Definition SignalToken (Token : option EFI_BLOCK_IO2_TOKEN)
  : option EFI_BLOCK_IO2_TOKEN * list Z :=
  match Token with
  | Some t => match Event t with
              | Some e => (Some (mkToken (Some e) EFI_SUCCESS), [e])
              | None => (Token, [])
              end
  | None => (Token, [])
  end.

Definition RamDiskBlkIo2Reset (p : RAM_DISK_PRIVATE_DATA) (ExtendedVerification : bool)
  : EFI_STATUS := EFI_SUCCESS.

Definition RamDiskBlkIo2ReadBlocksEx (p : RAM_DISK_PRIVATE_DATA) (mid Lba : Z)
    (Token : option EFI_BLOCK_IO2_TOKEN) (BufferSize : Z) (Buffer : option bytes)
  : option (EFI_STATUS * option bytes * (option EFI_BLOCK_IO2_TOKEN * list Z)) :=
  match RamDiskBlkIoReadBlocks p mid Lba BufferSize Buffer with
  | Some (Status, buf) =>
      if EFI_ERROR Status then Some (Status, buf, (Token, []))
      else Some (EFI_SUCCESS, buf, SignalToken Token)
  | None => None
  end.

Definition RamDiskBlkIo2WriteBlocksEx (p : RAM_DISK_PRIVATE_DATA) (mid Lba : Z)
    (Token : option EFI_BLOCK_IO2_TOKEN) (BufferSize : Z) (Buffer : option bytes)
  : option (EFI_STATUS * RAM_DISK_PRIVATE_DATA * (option EFI_BLOCK_IO2_TOKEN * list Z)) :=
  match RamDiskBlkIoWriteBlocks p mid Lba BufferSize Buffer with
  | Some (Status, p') =>
      if EFI_ERROR Status then Some (Status, p', (Token, []))
      else Some (EFI_SUCCESS, p', SignalToken Token)
  | None => None
  end.

Definition RamDiskBlkIo2FlushBlocksEx (p : RAM_DISK_PRIVATE_DATA)
    (Token : option EFI_BLOCK_IO2_TOKEN)
  : EFI_STATUS * (option EFI_BLOCK_IO2_TOKEN * list Z) :=
  if ReadOnly p then (EFI_WRITE_PROTECTED, (Token, []))
  else (EFI_SUCCESS, SignalToken Token).

(** A medium that [RamDiskInitBlockIo] can have produced. *)
Definition ramdisk_wf (p : RAM_DISK_PRIVATE_DATA) : Prop :=
  1 <= MediaBlockSize p <= 512 /\ 0 < Size p < 2 ^ 64 /\
  Size p = (LastBlock p + 1) * MediaBlockSize p.

#[global] Instance ramdisk_wf_dec p : Decision (ramdisk_wf p).
Proof. unfold ramdisk_wf. apply _. Defined.

(** ** A machine with RAM disks

    [disks] reads the RAM disks of a machine, by handle, and [set_disks]
    replaces them. *)
Class HasDisks (W : Type) := {
  (** the handle database: the handles [LocateHandleBuffer] returns, in order *)
  blk_handles : W -> list Z;
  disks : W -> gmap Z RAM_DISK_PRIVATE_DATA;
  set_disks : gmap Z RAM_DISK_PRIVATE_DATA -> W -> W
}.

Class HasDisksLaws (W : Type) `{!HasDisks W} : Prop := {
  disks_set : forall m w, disks (set_disks m w) = m;
  set_disks_id : forall w, set_disks (disks w) w = w;
  handles_set : forall m w, blk_handles (set_disks m w) = blk_handles w
}.

Section Machine.
Context {W : Type} `{!HasDisks W}.

(** The medium of a handle: one [RamDiskInitBlockIo] has initialised.  A
    drive whose entry is not well formed (an empty region) has no medium. *)
Definition ramdisk_of (h : Z) (w : W) : option RAM_DISK_PRIVATE_DATA :=
  match disks w !! h with
  | Some p => if decide (ramdisk_wf p) then Some p else None
  | None => None
  end.

Definition ramdisk_read (h lba n : Z) : M W (EFI_STATUS * bytes) := fun w =>
  match ramdisk_of h w with
  | None => (Ret (EFI_NO_MEDIA, []), w)
  | Some p =>
      match RamDiskBlkIoReadBlocks p (MediaId p) lba n (Some (zeros n)) with
      | Some (st, b) => (Ret (st, default [] b), w)
      | None => (Fault, w)
      end
  end.

Definition ramdisk_write (h lba : Z) (d : bytes) : M W EFI_STATUS := fun w =>
  match ramdisk_of h w with
  | None => (Ret EFI_NO_MEDIA, w)
  | Some p =>
      match RamDiskBlkIoWriteBlocks p (MediaId p) lba (zlen d) (Some d) with
      | Some (st, p') => (Ret st, set_disks (<[h := p']> (disks w)) w)
      | None => (Fault, w)
      end
  end.

#[global] Instance ramdisk_blockio : BlockIo W := {|
  LocateBlk := fun w => (Ret (EFI_SUCCESS, blk_handles w), w);
  BlkProtocol := fun h w =>
    (Ret (match disks w !! h with Some _ => EFI_SUCCESS | None => EFI_UNSUPPORTED end), w);
  BlockSize := fun h w =>
    match ramdisk_of h w with
    | Some p => MediaBlockSize p
    | None => RAM_DISK_DEFAULT_BLOCK_SIZE
    end;
  ReadBlocks := ramdisk_read;
  WriteBlocks := ramdisk_write
|}.
End Machine.

(** ** Geometry *)
Section Geometry.
(** The loop ends within the eleven block sizes 512, 256, ..., 1, 0, at a
    block size that divides the disk. *)
Lemma InitBlockSize_ok n size last :
  0 < size < 2 ^ 64 ->
  exists bs, InitBlockSize (S (S n)) size (2 ^ Z.of_nat n) last
             = Some (bs, size / bs - 1) /\
    size mod bs = 0 /\
    exists k, 0 <= k <= Z.of_nat n /\ bs = 2 ^ k /\
      forall i, k < i <= Z.of_nat n -> size mod 2 ^ i <> 0.
Proof.
  intros Hs. revert last. induction n as [|n IH]; intros last.
  - exists 1. change (2 ^ Z.of_nat 0) with 1. cbn [InitBlockSize].
    rewrite Z.mod_1_r, Z.div_1_r, u64_small by lia.
    split; [done|]. split; [done|]. exists 0. split; [lia|]. split; [done|lia].
  - assert (0 < 2 ^ Z.of_nat (S n)) by (apply Z.pow_pos_nonneg; lia).
    cbn [InitBlockSize]. guard_true.
    destruct (size mod 2 ^ Z.of_nat (S n) =? 0) eqn:Hm.
    + bool_hyp. exists (2 ^ Z.of_nat (S n)).
      assert (Hd : 0 < size / 2 ^ Z.of_nat (S n)).
      { apply Z.div_str_pos. split; [lia|]. apply Z.divide_pos_le; [lia|].
        by apply Z.mod_divide; [lia|]. }
      rewrite u64_small.
      2:{ split; [lia|]. assert (size / 2 ^ Z.of_nat (S n) <= size) by
            (apply Z.div_le_upper_bound; nia). lia. }
      split; [done|]. split; [done|]. exists (Z.of_nat (S n)). split; [lia|]. split; [done|lia].
    + replace (Z.shiftr (2 ^ Z.of_nat (S n)) 1) with (2 ^ Z.of_nat n).
      * destruct (IH (u64 (size / 2 ^ Z.of_nat (S n) - 1))) as (bs & HI & ? & k & ? & ? & Hmax).
        exists bs. split; [exact HI|]. split; [done|]. exists k. split; [lia|]. split; [done|].
        intros i Hi. destruct (decide (i = Z.of_nat (S n))) as [->|Hne]; [by bool_hyp|].
        apply Hmax. lia.
      * rewrite Z.shiftr_div_pow2 by lia. rewrite Nat2Z.inj_succ, Z.pow_succ_r by lia.
        rewrite Z.pow_1_r, Z.mul_comm, Z.div_mul; lia.
Qed.

(** The block size is the largest power of two up to 512 that divides the disk. *)
Lemma RamDiskInitBlockIo_geometry size mid content :
  0 < size < 2 ^ 64 ->
  let p := RamDiskInitBlockIo size mid content in
  exists k, 0 <= k <= 9 /\ MediaBlockSize p = 2 ^ k /\ size mod 2 ^ k = 0 /\
    (forall i, k < i <= 9 -> size mod 2 ^ i <> 0) /\
    Size p = size /\ LastBlock p = size / 2 ^ k - 1 /\ MediaId p = mid /\
    ReadOnly p = false /\ Content p = content.
Proof.
  intros Hs. unfold RamDiskInitBlockIo.
  destruct (InitBlockSize_ok 9 size 0 Hs) as (bs & HI & Hm & k & Hk & -> & Hmax).
  change RAM_DISK_DEFAULT_BLOCK_SIZE with (2 ^ Z.of_nat 9). rewrite HI. exists k.
  cbn. do 4 (split; [done|]). done.
Qed.

Lemma RamDiskInitBlockIo_wf size mid content :
  0 < size < 2 ^ 64 -> ramdisk_wf (RamDiskInitBlockIo size mid content).
Proof.
  intros Hs. destruct (RamDiskInitBlockIo_geometry size mid content Hs)
    as (k & Hk & Hb & Hm & _ & Hz & HL & _). unfold ramdisk_wf. rewrite Hb, Hz, HL.
  assert (1 <= 2 ^ k) by (assert (0 < 2 ^ k) by (apply Z.pow_pos_nonneg; lia); lia).
  assert (2 ^ k <= 2 ^ 9) by (apply Z.pow_le_mono_r; lia). split; [lia|]. split; [lia|].
  pose proof (Z.div_mod size (2 ^ k) ltac:(lia)). lia.
Qed.
End Geometry.

(** ** The driver serves exactly the requests inside the medium *)
Section Driver.
(** A request that fits: whole blocks, none past the end. *)
Definition serves (p : RAM_DISK_PRIVATE_DATA) (lba n : Z) : bool :=
  (n =? 0) || ((n mod MediaBlockSize p =? 0) && (lba * MediaBlockSize p + n <=? Size p)).

(** The driver's guards, with their 64-bit arithmetic, decide [serves] and
    keep the copy inside the region. *)
Lemma ramdisk_guards p lba n :
  ramdisk_wf p -> blk_req lba n -> n <> 0 -> n mod MediaBlockSize p = 0 ->
  u64 (lba * MediaBlockSize p) = lba * MediaBlockSize p /\
  (if LastBlock p <? lba then false
   else negb (LastBlock p <? u64 (lba + n / MediaBlockSize p - 1)))
  = (lba * MediaBlockSize p + n <=? Size p).
Proof.
  intros ([??] & ? & Hsz) [??] Hn Hm. set (bs := MediaBlockSize p) in *.
  assert (Hd : n = bs * (n / bs)) by (pose proof (Z.div_mod n bs); lia).
  set (k := n / bs) in *. assert (0 < k) by nia. assert (k <= n) by nia.
  split; [apply u64_small; nia|]. rewrite u64_small by nia.
  destruct (LastBlock p <? lba) eqn:E1, (LastBlock p <? lba + k - 1) eqn:E2,
    (lba * bs + n <=? Size p) eqn:E3; bool_hyp; try done; exfalso; nia.
Qed.

(** [RamDiskBlkIoReadBlocks] fills the buffer with the requested blocks, or
    leaves it and reports an error. *)
Lemma RamDiskRead_spec p lba n buf :
  ramdisk_wf p -> blk_req lba n -> zlen buf = n ->
  exists st, EFI_ERROR st = negb (serves p lba n) /\
    RamDiskBlkIoReadBlocks p (MediaId p) lba n (Some buf) =
    Some (st, Some (if EFI_ERROR st then buf
                    else window (Content p) (lba * MediaBlockSize p) n)).
Proof.
  intros Hwf Hreq Hb. unfold RamDiskBlkIoReadBlocks, serves. rewrite Z.eqb_refl. cbn [negb].
  destruct (n =? 0) eqn:En; bool_hyp.
  - exists EFI_SUCCESS. split; [done|]. change (EFI_ERROR EFI_SUCCESS) with false. cbn iota.
    rewrite En. destruct buf as [|x buf]; [done|cbn in Hb; lia].
  - destruct (n mod MediaBlockSize p =? 0) eqn:Em; bool_hyp; cbn [negb orb andb].
    2:{ exists EFI_BAD_BUFFER_SIZE. by split. }
    destruct (ramdisk_guards p lba n) as [Hu HG]; try done. rewrite Hu, <-HG.
    destruct (LastBlock p <? lba) eqn:E1; [exists EFI_INVALID_PARAMETER; by split|].
    destruct (LastBlock p <? u64 _) eqn:E2; [exists EFI_INVALID_PARAMETER; by split|].
    cbn [negb]. exists EFI_SUCCESS. split; [done|].
    destruct Hreq as [_ [??]].
    assert (zlen (window (Content p) (lba * MediaBlockSize p) n) = n) as Hw
      by (apply zlen_window; lia).
    rewrite wr_some by lia. cbn [take Z.to_nat]. change (Z.to_nat 0) with 0%nat.
    rewrite drop_ge by lia. by rewrite app_nil_r.
Qed.

(** [RamDiskBlkIoWriteBlocks] replaces the requested blocks of a writable
    medium and nothing else, or leaves the medium and reports an error. *)
Lemma RamDiskWrite_spec p lba d :
  ramdisk_wf p -> blk_req lba (zlen d) ->
  exists st p', EFI_ERROR st = ReadOnly p || negb (serves p lba (zlen d)) /\
    RamDiskBlkIoWriteBlocks p (MediaId p) lba (zlen d) (Some d) = Some (st, p') /\
    (EFI_ERROR st = true -> p' = p) /\
    (EFI_ERROR st = false ->
     forall a, Content p' a = put (Content p) (lba * MediaBlockSize p) d a) /\
    p' = with_content p (Content p').
Proof.
  intros Hwf Hreq. unfold RamDiskBlkIoWriteBlocks, serves. rewrite Z.eqb_refl. cbn [negb].
  destruct (ReadOnly p) eqn:Ero; [exists EFI_WRITE_PROTECTED, p; repeat split; try done; by destruct p|].
  destruct (zlen d =? 0) eqn:En; bool_hyp.
  { exists EFI_SUCCESS, p. repeat split; try done; [|by destruct p].
    intros _ a. unfold put. by guard_false. }
  destruct (zlen d mod MediaBlockSize p =? 0) eqn:Em; bool_hyp; cbn [negb orb andb].
  2:{ exists EFI_BAD_BUFFER_SIZE, p. repeat split; try done; by destruct p. }
  destruct (ramdisk_guards p lba (zlen d)) as [Hu HG]; try done. rewrite Hu, <-HG.
  destruct (LastBlock p <? lba) eqn:E1.
  { exists EFI_INVALID_PARAMETER, p. repeat split; try done; by destruct p. }
  destruct (LastBlock p <? u64 _) eqn:E2.
  { exists EFI_INVALID_PARAMETER, p. repeat split; try done; by destruct p. }
  cbn [negb]. rewrite rd_all. eexists EFI_SUCCESS, _.
  split; [done|]. split; [done|]. split; [done|]. done.
Qed.

(** What was written is read. *)
Lemma ramdisk_read_back p lba d buf :
  ramdisk_wf p -> 0 <= lba -> zlen buf = zlen d -> serves p lba (zlen d) = true ->
  let p' := if zlen d =? 0 then p
            else with_content p (put (Content p) (lba * MediaBlockSize p) d) in
  RamDiskBlkIoReadBlocks p' (MediaId p) lba (zlen d) (Some buf) = Some (EFI_SUCCESS, Some d) /\
  forall a, a < lba * MediaBlockSize p \/ lba * MediaBlockSize p + zlen d <= a ->
    Content p' a = Content p a.
Proof.
  intros ([Hb1 Hb2] & Hs & Hz) Hl Hb Hv. unfold serves in Hv. cbv zeta.
  destruct (zlen d =? 0) eqn:E0; bool_hyp.
  { split; [|done]. unfold RamDiskBlkIoReadBlocks. rewrite Z.eqb_refl, E0. cbn.
    destruct d; [|cbn in E0; lia]. destruct buf; [done|cbn in Hb; lia]. }
  apply orb_true_iff in Hv as [Hv|Hv]; bool_hyp; [done|].
  set (bs := MediaBlockSize p) in *. split; [|intros a Ha; cbn; unfold put; by guard_false].
  assert (Hn : zlen d = bs * (zlen d / bs)) by (pose proof (Z.div_mod (zlen d) bs); lia).
  unfold RamDiskBlkIoReadBlocks. cbn [MediaId MediaBlockSize LastBlock Size Content with_content].
  fold bs. rewrite Z.eqb_refl. cbn [negb]. guard_false. guard_false.
  set (k := zlen d / bs) in *. assert (0 < k) by nia. assert (lba + k - 1 <= LastBlock p) by nia.
  rewrite !u64_small by nia. guard_false. guard_false. guard_true.
  assert (Hw : window (put (Content p) (lba * bs) d) (lba * bs) (zlen d) = d) by apply window_put_same.
  rewrite Hw, wr_some by lia. change (Z.to_nat 0) with 0%nat. cbn [take app Nat.add].
  by rewrite drop_ge, app_nil_r by lia.
Qed.

(** The requests the driver lets through although they leave the region: blocks
    of one byte (an odd size), and an end of the request that wraps round 2^64. *)
Definition wraps (p : RAM_DISK_PRIVATE_DATA) (lba n : Z) : bool :=
  (MediaBlockSize p =? 1) && (lba <? Size p) && (2 ^ 64 <? lba + n).

(** The same guards for requests of all 64 bits. *)
Lemma ramdisk_guards64 p lba n :
  ramdisk_wf p -> (MediaBlockSize p = 1 \/ 2 <= MediaBlockSize p) ->
  0 <= lba < 2 ^ 64 -> 0 < n < 2 ^ 64 -> n mod MediaBlockSize p = 0 ->
  (lba <= LastBlock p -> u64 (lba * MediaBlockSize p) = lba * MediaBlockSize p) /\
  (if LastBlock p <? lba then false
   else negb (LastBlock p <? u64 (lba + n / MediaBlockSize p - 1)))
  = (lba * MediaBlockSize p + n <=? Size p) || wraps p lba n.
Proof.
  intros ([??] & ? & Hsz) Hone Hl Hn Hm. unfold wraps. set (bs := MediaBlockSize p) in *.
  assert (Hd : n = bs * (n / bs)) by (pose proof (Z.div_mod n bs); lia).
  set (k := n / bs) in *. clearbody k bs. assert (0 < k) by nia.
  split; [intros; apply u64_small; nia|].
  destruct (LastBlock p <? lba) eqn:E1; bool_hyp.
  { symmetry. apply orb_false_intro; [apply Z.leb_gt; nia|].
    destruct (bs =? 1) eqn:Eb; bool_hyp; [|done]. subst bs.
    by rewrite (proj2 (Z.ltb_ge lba (Size p))) by lia. }
  destruct Hone as [->|Hbs].
  - rewrite Z.mul_1_r in *. assert (k = n) as -> by lia.
    change (1 =? 1) with true. cbn [andb]. rewrite (proj2 (Z.ltb_lt lba (Size p))) by lia. cbn [andb].
    destruct (2 ^ 64 <? lba + n) eqn:Ew; bool_hyp.
    + rewrite orb_true_r. apply negb_true_iff, Z.ltb_ge.
      replace (u64 (lba + n - 1)) with (lba + n - 1 - 2 ^ 64); [lia|].
      unfold u64. apply Z.mod_unique with (q := 1); lia.
    + rewrite orb_false_r, u64_small by lia.
      destruct (LastBlock p <? lba + n - 1) eqn:E2, (lba + n <=? Size p) eqn:E3; bool_hyp; done || lia.
  - rewrite (proj2 (Z.eqb_neq bs 1)) by lia. cbn [andb]. rewrite orb_false_r.
    assert (lba + k - 1 < 2 ^ 64) by nia. rewrite u64_small by lia.
    destruct (LastBlock p <? lba + k - 1) eqn:E2, (lba * bs + n <=? Size p) eqn:E3; bool_hyp;
      try done; exfalso; nia.
Qed.

(** A write to a writable medium, for requests of all 64 bits. *)
Lemma RamDiskWrite_64 p lba d :
  ramdisk_wf p -> ReadOnly p = false -> 0 <= lba < 2 ^ 64 -> zlen d < 2 ^ 64 ->
  if serves p lba (zlen d) then
    RamDiskBlkIoWriteBlocks p (MediaId p) lba (zlen d) (Some d) =
    Some (EFI_SUCCESS, if zlen d =? 0 then p
                       else with_content p (put (Content p) (lba * MediaBlockSize p) d))
  else if wraps p lba (zlen d) then
    RamDiskBlkIoWriteBlocks p (MediaId p) lba (zlen d) (Some d) = None
  else exists st, EFI_ERROR st = true /\
    RamDiskBlkIoWriteBlocks p (MediaId p) lba (zlen d) (Some d) = Some (st, p).
Proof.
  intros Hwf Hro Hl Hd. unfold RamDiskBlkIoWriteBlocks, serves. rewrite Z.eqb_refl, Hro. cbn [negb].
  destruct (zlen d =? 0) eqn:E0; bool_hyp; [done|].
  destruct (zlen d mod MediaBlockSize p =? 0) eqn:Em; bool_hyp; cbn [negb orb andb].
  2:{ replace (wraps p lba (zlen d)) with false; [by exists EFI_BAD_BUFFER_SIZE|].
      unfold wraps. destruct (MediaBlockSize p =? 1) eqn:E1; bool_hyp; [|done].
      rewrite E1, Z.mod_1_r in Em. done. }
  assert (Hone : MediaBlockSize p = 1 \/ 2 <= MediaBlockSize p) by (destruct Hwf as [[??] _]; lia).
  destruct (ramdisk_guards64 p lba (zlen d) Hwf Hone Hl ltac:(lia) Em) as [Hu HG].
  destruct (LastBlock p <? lba) eqn:E1; bool_hyp.
  { symmetry in HG. apply orb_false_elim in HG as [-> ->]. by exists EFI_INVALID_PARAMETER. }
  rewrite Hu by lia. destruct (LastBlock p <? u64 _) eqn:E2; cbn [negb] in HG.
  { symmetry in HG. apply orb_false_elim in HG as [-> ->]. by exists EFI_INVALID_PARAMETER. }
  destruct (lba * MediaBlockSize p + zlen d <=? Size p) eqn:E3; [by rewrite rd_all|].
  cbn [orb] in HG. by rewrite <-HG.
Qed.

(** C12: (roundtrip) A RAM disk stores what is written to it.  For a region of any
    size below 2^64 [RamDiskInitBlockIo] chooses the largest power of two up to 512
    that divides it as the block size.  For every 64-bit block address and buffer
    size: a write of whole blocks inside the region succeeds, a read of the same
    blocks then fills the buffer with exactly the data written, and every byte
    outside them keeps its value; any other write reports an error and leaves the
    medium as it was, with one exception.  When the blocks have one byte (the size
    is odd), the address is inside the region and the end of the request wraps
    round 2^64, the driver's test lets it through and the copy leaves the region.
    The same write through EFI_BLOCK_IO2_PROTOCOL has the same effect on the
    medium, and signals the event of the caller's token, with the transaction
    status set, exactly when the write succeeded. *)
Theorem ramdisk_write_read size mid content lba d buf token :
  0 < size < 2 ^ 64 -> 0 <= lba < 2 ^ 64 -> zlen d < 2 ^ 64 -> zlen buf = zlen d ->
  let p := RamDiskInitBlockIo size mid content in
  let bs := MediaBlockSize p in
  let write := RamDiskBlkIoWriteBlocks p mid lba (zlen d) (Some d) in
  let write2 := RamDiskBlkIo2WriteBlocksEx p mid lba token (zlen d) (Some d) in
  (exists k, 0 <= k <= 9 /\ bs = 2 ^ k /\ size mod 2 ^ k = 0 /\
     forall i, k < i <= 9 -> size mod 2 ^ i <> 0) /\
  if (zlen d =? 0) || ((zlen d mod bs =? 0) && (lba * bs + zlen d <=? size)) then
    exists p', write = Some (EFI_SUCCESS, p') /\
      RamDiskBlkIoReadBlocks p' mid lba (zlen d) (Some buf) = Some (EFI_SUCCESS, Some d) /\
      (forall a, a < lba * bs \/ lba * bs + zlen d <= a -> Content p' a = content a) /\
      write2 = Some (EFI_SUCCESS, p',
            match token with
            | Some (mkToken (Some e) _) => (Some (mkToken (Some e) EFI_SUCCESS), [e])
            | _ => (token, [])
            end)
  else if (bs =? 1) && (lba <? size) && (2 ^ 64 <? lba + zlen d) then write = None /\ write2 = None
  else exists st, EFI_ERROR st = true /\ write = Some (st, p) /\ write2 = Some (st, p, (token, [])).
Proof.
  intros Hs Hl Hd Hb p bs write write2. pose proof (RamDiskInitBlockIo_wf size mid content Hs) as Hwf.
  destruct (RamDiskInitBlockIo_geometry size mid content Hs)
    as (k & Hk & Hbs & Hm & Hmax & Hz & _ & Hid & Hro & Hc). fold p in Hwf, Hbs, Hz, Hid, Hro, Hc.
  fold bs in Hbs. split; [by exists k|]. pose proof (RamDiskWrite_64 p lba d Hwf Hro Hl Hd) as HW.
  rewrite Hid in HW. fold write in HW. rewrite <-Hz.
  change (_ || _) with (serves p lba (zlen d)). change (_ && _) with (wraps p lba (zlen d)).
  unfold write2, RamDiskBlkIo2WriteBlocksEx. fold write.
  destruct (serves p lba (zlen d)) eqn:Es.
  - set (p' := if zlen d =? 0 then p else _) in HW. exists p'. rewrite HW. split; [done|].
    assert (HR : RamDiskBlkIoReadBlocks p' mid lba (zlen d) (Some buf) = Some (EFI_SUCCESS, Some d) /\
      forall a, a < lba * bs \/ lba * bs + zlen d <= a -> Content p' a = content a).
    { unfold p', serves in *. rewrite <-Hid, <-Hc. apply ramdisk_read_back; auto; lia. }
    split; [apply HR|]. split; [apply HR|]. by destruct token as [[[e|] ts]|].
  - destruct (wraps p lba (zlen d)); [by rewrite HW|]. destruct HW as (st & He & ->).
    exists st. by rewrite He.
Qed.

(** A disk of 1000 bytes has blocks of 8 bytes. *)
Lemma ramdisk_write_read_witness :
  exists p', RamDiskBlkIoWriteBlocks (RamDiskInitBlockIo 1000 0 (fun _ => 0)) 0 3 8
               (Some [1; 2; 3; 4; 5; 6; 7; 8]) = Some (EFI_SUCCESS, p') /\
    RamDiskBlkIoReadBlocks p' 0 3 8 (Some (zeros 8)) = Some (EFI_SUCCESS, Some [1; 2; 3; 4; 5; 6; 7; 8]).
Proof.
  destruct (ramdisk_write_read 1000 0 (fun _ => 0) 3 [1; 2; 3; 4; 5; 6; 7; 8] (zeros 8) None)
    as (_ & p' & HW & HR & _).
  - lia.
  - lia.
  - vm_compute. reflexivity.
  - reflexivity.
  - exists p'. split; [exact HW|exact HR].
Defined.
End Driver.

(** ** The RAM disk driver implements the block interface *)
Section Laws.
Context {W : Type} `{!HasDisks W, !HasDisksLaws W}.

Definition ramdisk_content (h : Z) (w : W) : Z -> Z :=
  match ramdisk_of h w with Some p => Content p | None => fun _ => 0 end.

Lemma ramdisk_of_inv h w p : ramdisk_of h w = Some p -> disks w !! h = Some p /\ ramdisk_wf p.
Proof.
  unfold ramdisk_of. destruct (disks w !! h) as [q|]; [|done].
  case_decide; intros [= <-]; auto.
Qed.

Lemma ramdisk_of_set h p k w :
  ramdisk_wf p ->
  ramdisk_of k (set_disks (<[h := p]> (disks w)) w) = if decide (k = h) then Some p
                                                     else ramdisk_of k w.
Proof.
  intros. unfold ramdisk_of. rewrite disks_set. case_decide; subst.
  - rewrite lookup_insert_eq. by rewrite decide_True.
  - by rewrite lookup_insert_ne.
Qed.

(** A read of the machine: the state stays, the data is the medium's. *)
Lemma ramdisk_read_inv h lba n w :
  blk_req lba n ->
  exists st d, ramdisk_read h lba n w = (Ret (st, d), w) /\
    match ramdisk_of h w with
    | None => EFI_ERROR st = true
    | Some p => EFI_ERROR st = negb (serves p lba n) /\
        (EFI_ERROR st = false -> d = window (Content p) (lba * MediaBlockSize p) n)
    end.
Proof.
  intros Hreq. unfold ramdisk_read.
  destruct (ramdisk_of h w) as [p|] eqn:Ep; [|by exists EFI_NO_MEDIA, []].
  destruct (ramdisk_of_inv _ _ _ Ep) as [_ Hwf].
  destruct (RamDiskRead_spec p lba n (zeros n)) as (st & Hst & ->);
    [done..|apply length_zeros; apply Hreq|].
  eexists st, _. split; [done|]. split; [done|]. intros ->. done.
Qed.

Lemma ramdisk_read_ret h lba n w st d :
  blk_req lba n -> ramdisk_read h lba n w = (Ret (st, d), w) ->
  (exists p, ramdisk_of h w = Some p /\ EFI_ERROR st = negb (serves p lba n) /\
    (EFI_ERROR st = false -> d = window (Content p) (lba * MediaBlockSize p) n))
  \/ ramdisk_of h w = None /\ EFI_ERROR st = true.
Proof.
  intros Hr HR. destruct (ramdisk_read_inv h lba n w Hr) as (st' & d' & HR' & HP).
  rewrite HR in HR'. injection HR' as <- <-.
  destruct (ramdisk_of h w) as [p|]; [left; by exists p|by right].
Qed.

Lemma serves_bad_size p lba n :
  ramdisk_wf p -> n mod MediaBlockSize p <> 0 -> serves p lba n = false.
Proof.
  intros [??] Hm. unfold serves. destruct (n =? 0) eqn:E0; bool_hyp.
  - subst n. rewrite Z.mod_0_l in Hm; [done|lia].
  - apply Z.eqb_neq in Hm. by rewrite Hm.
Qed.

Lemma ramdisk_write_inv h lba d w :
  blk_req lba (zlen d) ->
  exists st w', ramdisk_write h lba d w = (Ret st, w') /\
    (EFI_ERROR st = true -> w' = w) /\
    (zlen d mod BlockSize h w <> 0 -> EFI_ERROR st = true) /\
    (EFI_ERROR st = false -> forall a,
       ramdisk_content h w' a = put (ramdisk_content h w) (lba * BlockSize h w) d a) /\
    (forall k, k <> h -> ramdisk_of k w' = ramdisk_of k w) /\
    (forall k, (fun p => with_content p (fun _ => 0)) <$> ramdisk_of k w'
             = (fun p => with_content p (fun _ => 0)) <$> ramdisk_of k w).
Proof.
  intros Hreq. unfold ramdisk_write, ramdisk_content. cbn [BlockSize ramdisk_blockio].
  destruct (ramdisk_of h w) as [p|] eqn:Ep; [|by exists EFI_NO_MEDIA, w].
  destruct (ramdisk_of_inv _ _ _ Ep) as [Hp Hwf].
  destruct (RamDiskWrite_spec p lba d) as (st & p' & Hst & -> & Herr & Hok & Hp'); [done..|].
  assert (Hwf' : ramdisk_wf p') by (rewrite Hp'; exact Hwf).
  eexists st, _. split; [done|]. split.
  { intros He. rewrite (Herr He), insert_id, set_disks_id by done. done. }
  split.
  { intros Hm. rewrite Hst, serves_bad_size by done. apply orb_true_r. }
  split; [intros He a; rewrite ramdisk_of_set, decide_True by done; by apply Hok|].
  split; intros k; [intros Hk; by rewrite ramdisk_of_set, decide_False by done|].
  rewrite ramdisk_of_set by done. case_decide; subst; [|done].
  rewrite Ep. cbn. f_equal. rewrite Hp'. done.
Qed.

(** What a write changes is the content of one medium: the geometry is kept. *)
Lemma ramdisk_geometry (w w' : W) k :
  (fun p => with_content p (fun _ => 0)) <$> ramdisk_of k w'
    = (fun p => with_content p (fun _ => 0)) <$> ramdisk_of k w ->
  match ramdisk_of k w, ramdisk_of k w' with
  | Some p, Some p' => MediaBlockSize p' = MediaBlockSize p /\ Size p' = Size p /\
                       ReadOnly p' = ReadOnly p
  | None, None => True
  | _, _ => False
  end.
Proof.
  destruct (ramdisk_of k w) as [[]|], (ramdisk_of k w') as [[]|]; cbn; try done.
  by intros [= -> -> -> -> ->].
Qed.

Lemma ramdisk_write_ret h lba d w st w' :
  blk_req lba (zlen d) -> ramdisk_write h lba d w = (Ret st, w') ->
  (EFI_ERROR st = true -> w' = w) /\
  (zlen d mod BlockSize h w <> 0 -> EFI_ERROR st = true) /\
  (EFI_ERROR st = false -> forall a,
     ramdisk_content h w' a = put (ramdisk_content h w) (lba * BlockSize h w) d a) /\
  (forall k, k <> h -> ramdisk_of k w' = ramdisk_of k w) /\
  (forall k, match ramdisk_of k w, ramdisk_of k w' with
             | Some p, Some p' => MediaBlockSize p' = MediaBlockSize p /\ Size p' = Size p /\
                       ReadOnly p' = ReadOnly p
             | None, None => True
             | _, _ => False
             end).
Proof.
  intros Hr HW. destruct (ramdisk_write_inv h lba d w Hr) as (st' & w'' & HW' & ? & ? & ? & ? & Hg).
  rewrite HW in HW'. injection HW' as <- <-.
  repeat (split; [done|]). intros k. apply ramdisk_geometry, Hg.
Qed.

Lemma ramdisk_write_readable h lba d w st w' :
  blk_req lba (zlen d) ->
  ramdisk_write h lba d w = (Ret st, w') -> EFI_ERROR st = false ->
  exists st' d', ramdisk_read h lba (zlen d) w' = (Ret (st', d'), w') /\ EFI_ERROR st' = false.
Proof.
  intros Hr HW Hs. pose proof HW as HW'. unfold ramdisk_write in HW.
  destruct (ramdisk_of h w) as [p|] eqn:Ep; [|by injection HW as <-].
  destruct (ramdisk_of_inv _ _ _ Ep) as [Hp Hwf].
  destruct (RamDiskWrite_spec p lba d) as (st1 & p' & Hst & HE & _ & _ & Hp'); [done..|].
  rewrite HE in HW. injection HW as -> <-.
  destruct (ramdisk_read_inv h lba (zlen d) (set_disks (<[h:=p']> (disks w)) w) Hr)
    as (st2 & d2 & HR & HP).
  rewrite ramdisk_of_set, decide_True in HP by (try done; rewrite Hp'; exact Hwf).
  exists st2, d2. split; [done|]. destruct HP as [-> _]. rewrite Hs in Hst.
  symmetry in Hst. bool_hyp. rewrite Hp'. unfold serves in *. cbn in *. by apply negb_false_iff.
Qed.

(** A request keeps being served after a write. *)
Lemma ramdisk_write_serves h lba d w st w' k lba' n st' d' :
  blk_req lba (zlen d) -> blk_req lba' n ->
  ramdisk_write h lba d w = (Ret st, w') ->
  ramdisk_read k lba' n w = (Ret (st', d'), w) -> EFI_ERROR st' = false ->
  exists st'' d'', ramdisk_read k lba' n w' = (Ret (st'', d''), w') /\ EFI_ERROR st'' = false.
Proof.
  intros Hr Hr' HW HR Hs.
  destruct (ramdisk_write_ret _ _ _ _ _ _ Hr HW) as (_ & _ & _ & _ & Hg). specialize (Hg k).
  destruct (ramdisk_read_ret _ _ _ _ _ _ Hr' HR) as [(p & Hp & Hst & _)|[_ ?]]; [|congruence].
  destruct (ramdisk_read_inv k lba' n w' Hr') as (st4 & d4 & HR4 & HP4).
  rewrite Hp in Hg. destruct (ramdisk_of k w') as [p'|]; [|done].
  exists st4, d4. split; [done|]. destruct HP4 as [-> _], Hg as (Hb & Hz & _).
  unfold serves in *. by rewrite Hb, Hz, <-Hst.
Qed.

(** A disk that is not write-protected accepts what it serves. *)
Lemma ramdisk_write_accepts h lba d w st w' st' d' :
  blk_req lba (zlen d) ->
  match ramdisk_of h w with Some p => ReadOnly p | None => true end = false ->
  ramdisk_read h lba (zlen d) w = (Ret (st', d'), w) -> EFI_ERROR st' = false ->
  ramdisk_write h lba d w = (Ret st, w') -> EFI_ERROR st = false.
Proof.
  intros Hr Ho HR Hs HW. unfold ramdisk_write in HW.
  destruct (ramdisk_read_ret _ _ _ _ _ _ Hr HR) as [(p & Ep & Hst & _)|[_ ?]]; [|congruence].
  rewrite Ep in *. destruct (ramdisk_of_inv _ _ _ Ep) as [Hp Hwf].
  destruct (RamDiskWrite_spec p lba d) as (st1 & p' & Hst1 & HE & _); [done..|].
  rewrite HE in HW. injection HW as <- _. by rewrite Hst1, Ho, <-Hst.
Qed.

Lemma ramdisk_write_handles h lba d w st w' :
  ramdisk_write h lba d w = (Ret st, w') -> same_handles w w'.
Proof.
  unfold ramdisk_write. destruct (ramdisk_of h w) as [p|] eqn:Ep; [|by intros [= _ <-]].
  destruct (RamDiskBlkIoWriteBlocks _ _ _ _ _) as [[st1 p']|]; [|done]. intros [= _ <-].
  apply ramdisk_of_inv in Ep as [Ep _]. split; cbn.
  - intros r [= <-]. by rewrite handles_set.
  - intros k st' [= <-]. rewrite disks_set. destruct (decide (k = h)) as [->|Hk].
    + by rewrite lookup_insert_eq, Ep.
    + by rewrite lookup_insert_ne by done.
Qed.

#[export, refine] Instance ramdisk_laws : BlockIoLaws W := {|
  disk := ramdisk_content;
  medium := fun h => h;
  origin := fun _ => 0;
  read_only := fun h w => match ramdisk_of h w with Some p => ReadOnly p | None => true end
|}.
Proof.
  - intros h w. cbn. destruct (ramdisk_of h w) as [p|] eqn:E; [|done].
    apply ramdisk_of_inv in E as [_ [??]]. lia.
  - intros h lba n w o w' HR. cbn in HR. unfold ramdisk_read in HR.
    destruct (ramdisk_of h w) as [p|]; [|congruence].
    destruct (RamDiskBlkIoReadBlocks _ _ _ _ _) as [[]|]; congruence.
  - intros h lba n w Hr. destruct (ramdisk_read_inv h lba n w Hr) as (st & d & ? & _). eauto.
  - intros h lba n w st d Hr HR Hs. cbn in *. unfold ramdisk_content.
    destruct (ramdisk_read_ret _ _ _ _ _ _ Hr HR) as [(p & -> & _ & HP)|[_ ?]]; [auto|congruence].
  - intros h lba n w st d Hr HR Hm. cbn in *.
    destruct (ramdisk_read_ret _ _ _ _ _ _ Hr HR) as [(p & E & -> & _)|[_ ?]]; [|done].
    rewrite E in Hm. apply ramdisk_of_inv in E as [_ ?]. by rewrite serves_bad_size.
  - intros h lba d w Hr. destruct (ramdisk_write_inv h lba d w Hr) as (st & w' & ? & _). eauto.
  - intros h lba d w st w' Hr HW Hm.
    destruct (ramdisk_write_ret _ _ _ _ _ _ Hr HW) as (? & ? & _). auto.
  - intros h lba d w st w' Hr HW Hs.
    destruct (ramdisk_write_ret _ _ _ _ _ _ Hr HW) as (_ & _ & ? & _). auto.
  - intros h lba d w st w' k Hr HW.
    destruct (ramdisk_write_ret _ _ _ _ _ _ Hr HW) as (_ & _ & _ & Hk & Hg). cbn.
    specialize (Hg k). split.
    + by destruct (ramdisk_of k w), (ramdisk_of k w'); destruct Hg.
    + destruct (ramdisk_of k w), (ramdisk_of k w'); try done. apply Hg.
  - intros h lba d w st w' _. apply ramdisk_write_handles.
  - intros h lba d w st w' k a Hr HW Ha.
    destruct (ramdisk_write_ret _ _ _ _ _ _ Hr HW) as (He & _ & Hd & Hk & _).
    destruct (decide (k = h)) as [->|Hne]; [|by unfold ramdisk_content; rewrite Hk].
    destruct Ha as [Ha|Ha]; [done|]. rewrite Z.add_0_l, Z.sub_0_r in Ha.
    destruct (EFI_ERROR st) eqn:Hs; [by rewrite He|]. rewrite Hd by done.
    unfold put. by guard_false.
  - exact ramdisk_write_accepts.
  - exact ramdisk_write_readable.
  - exact ramdisk_write_serves.
Defined.
End Laws.
