(* ===== verification/Sim.v ===== *)
(** * A concrete machine

    An executable machine for the firmware interface of [Uefi]: RAM disks
    served by the driver of [RamDisk], a pool that does not run out, volumes of
    files with case-insensitive paths, images that are files, a hardware
    inventory and a generator with a fixed output.  The examples of the
    development evaluate the loaders on it; its instances of the interface laws
    show that the laws can be met together. *)
From stdpp Require Import base list gmap strings.
From Stdlib Require Import ZArith Lia Ascii String.
From S2P Require Import Prelude Uefi RamDisk.
#[local] Open Scope Z_scope.

Record fs_state := mkFs {
  f_vols : list Z;
  f_files : gmap Z (gmap string bytes);
  f_open : gmap Z fnode;
  f_next : Z
}.

Record hw_state := mkHw {
  h_smbios : list bytes;
  h_nvme : list bytes
}.

Record machine := mkMachine {
  m_handles : list Z;
  m_disks : gmap Z RAM_DISK_PRIVATE_DATA;
  m_fs : fs_state;
  m_hw : hw_state;
  m_images : list (Z * string);
  m_started : list (Z * string)
}.

Definition set_fs (w : machine) (f : fs_state) : machine :=
  mkMachine (m_handles w) (m_disks w) f (m_hw w) (m_images w) (m_started w).

#[export] Instance machine_disks : HasDisks machine := {|
  blk_handles := m_handles;
  disks := m_disks;
  set_disks := fun d w => mkMachine (m_handles w) d (m_fs w) (m_hw w) (m_images w) (m_started w)
|}.

#[export] Instance machine_disks_laws : HasDisksLaws machine.
Proof. split; [done| |done]. by intros []. Qed.

#[export] Instance machine_pool : Pool machine := {| AllocatePool := fun _ => ret true |}.

#[export] Instance machine_pool_ok : PoolOk machine.
Proof. done. Qed.

(** A generator with a fixed output. *)
#[export] Instance machine_rng : Rng machine := {|
  RandomBytes := fun n => ret (window (fun i => u8 (37 * i + 11)) 0 n)
|}.

#[export] Instance machine_rng_laws : RngLaws machine.
Proof.
  split.
  - intros n w Hn. eexists _, w. split; [done|by apply zlen_window].
  - intros n. apply keeps_ret.
Qed.

(** ** Files *)
Definition lower (c : ascii) : ascii :=
  let n := nat_of_ascii c in
  if (Nat.leb 65 n && Nat.leb n 90)%bool then ascii_of_nat (n + 32) else c.

Fixpoint lower_string (s : string) : string :=
  match s with EmptyString => EmptyString | String c s => String (lower c) (lower_string s) end.

(** Paths are compared without case and without the leading separator. *)
Definition norm (s : string) : string :=
  match lower_string s with
  | String c s' => if Ascii.eqb c "\" then s' else String c s'
  | EmptyString => EmptyString
  end.

Definition node_at (f : fs_state) (v : Z) (path : string) : option (option bytes) :=
  match f_files f !! v with
  | None => None
  | Some files =>
      match files !! norm path with
      | Some c => Some (Some c)
      | None =>
          if existsb (fun k => String.prefix (String.append (norm path) "\") k)
                     (map fst (map_to_list files)) then Some None else None
      end
  end.

Definition open_node (w : machine) (n : fnode) : out (EFI_STATUS * Z) * machine :=
  let f := m_fs w in
  (Ret (EFI_SUCCESS, f_next f),
   set_fs w (mkFs (f_vols f) (f_files f) (<[f_next f := n]> (f_open f)) (f_next f + 1))).

Definition sim_open (r : Z) (name : string) (mode attr : Z) : M machine (EFI_STATUS * Z) := fun w =>
  let f := m_fs w in
  match f_open f !! r with
  | Some (NDir v dir) =>
      let path := join dir name in
      match node_at f v path with
      | Some (Some _) => open_node w (NFile v path 0)
      | Some None => open_node w (NDir v path)
      | None =>
          if mode <? EFI_FILE_MODE_CREATE then (Ret (EFI_NOT_FOUND, 0), w)
          else
            let files := default (empty : gmap string bytes) (f_files f !! v) in
            open_node (set_fs w (mkFs (f_vols f) (<[v := <[norm path := []]> files]> (f_files f))
                                      (f_open f) (f_next f)))
                      (if attr =? EFI_FILE_DIRECTORY then NDir v path else NFile v path 0)
      end
  | _ => (Ret (EFI_INVALID_PARAMETER, 0), w)
  end.

Definition sim_read (h n : Z) : M machine (EFI_STATUS * bytes) := fun w =>
  let f := m_fs w in
  match f_open f !! h with
  | Some (NFile v path pos) =>
      match node_at f v path with
      | Some (Some c) =>
          let d := take (Z.to_nat n) (drop (Z.to_nat pos) c) in
          (Ret (EFI_SUCCESS, d),
           set_fs w (mkFs (f_vols f) (f_files f) (<[h := NFile v path (pos + zlen d)]> (f_open f))
                          (f_next f)))
      | _ => (Ret (EFI_DEVICE_ERROR, []), w)
      end
  | _ => (Ret (EFI_UNSUPPORTED, []), w)
  end.

Definition sim_write (h : Z) (d : bytes) : M machine EFI_STATUS := fun w =>
  let f := m_fs w in
  match f_open f !! h with
  | Some (NFile v path pos) =>
      let files := default (empty : gmap string bytes) (f_files f !! v) in
      let c := default [] (files !! norm path) in
      let c' := (take (Z.to_nat pos) c ++ d ++ drop (Z.to_nat pos + List.length d) c)%list in
      (Ret EFI_SUCCESS,
       set_fs w (mkFs (f_vols f) (<[v := <[norm path := c']> files]> (f_files f))
                      (<[h := NFile v path (pos + zlen d)]> (f_open f)) (f_next f)))
  | _ => (Ret EFI_UNSUPPORTED, w)
  end.

Definition sim_seek (h pos : Z) : M machine EFI_STATUS := fun w =>
  let f := m_fs w in
  match f_open f !! h with
  | Some (NFile v path _) =>
      let len := match node_at f v path with Some (Some c) => zlen c | _ => 0 end in
      let pos := if pos =? 2 ^ 64 - 1 then len else pos in
      (Ret EFI_SUCCESS,
       set_fs w (mkFs (f_vols f) (f_files f) (<[h := NFile v path pos]> (f_open f)) (f_next f)))
  | _ => (Ret EFI_UNSUPPORTED, w)
  end.

Definition sim_info (h : Z) : M machine (EFI_STATUS * file_info) := fun w =>
  let f := m_fs w in
  match f_open f !! h with
  | Some (NFile v path _) =>
      match node_at f v path with
      | Some (Some c) => (Ret (EFI_SUCCESS, mkInfo (zlen c) 0), w)
      | _ => (Ret (EFI_DEVICE_ERROR, mkInfo 0 0), w)
      end
  | Some (NDir _ _) => (Ret (EFI_SUCCESS, mkInfo 0 EFI_FILE_DIRECTORY), w)
  | None => (Ret (EFI_DEVICE_ERROR, mkInfo 0 0), w)
  end.

#[export] Instance machine_fs : FileSys machine := {|
  LocateFs := fun w =>
    (Ret (match f_vols (m_fs w) with [] => EFI_NOT_FOUND | _ => EFI_SUCCESS end, f_vols (m_fs w)), w);
  FsProtocol := fun h w =>
    (Ret (if existsb (Z.eqb h) (f_vols (m_fs w)) then EFI_SUCCESS else EFI_UNSUPPORTED), w);
  OpenVolume := fun h w => open_node w (NRoot h);
  FOpen := sim_open;
  FRead := sim_read;
  FWrite := sim_write;
  FSetPosition := sim_seek;
  FInfoSize := fun h => ret (EFI_BUFFER_TOO_SMALL, 100);
  FInfo := sim_info;
  FClose := fun h w =>
    let f := m_fs w in
    (Ret tt, set_fs w (mkFs (f_vols f) (f_files f) (delete h (f_open f)) (f_next f)))
|}.

Definition machine_view : fs_view machine := {|
  vols := fun w => f_vols (m_fs w);
  vol_node := fun w => node_at (m_fs w);
  open_as := fun w h => f_open (m_fs w) !! h
|}.

#[export, refine] Instance machine_fs_laws : FileSysLaws machine := {| view := machine_view |}.
Proof.
  - done.
  - intros h w Hin. cbn. replace (existsb _ _) with true; [done|].
    symmetry. apply existsb_exists. exists h. split; [done|apply Z.eqb_refl].
  - intros h w Hin. eexists _, _. split; [reflexivity|]. cbn.
    split; [by rewrite lookup_insert_eq|done].
  - intros r h dir name w Hr. cbn in *. unfold sim_open. rewrite Hr.
    destruct (node_at (m_fs w) h (join dir name)) as [[c|]|] eqn:E; eexists _, _, _;
      (split; [reflexivity|]); (split; [done|]); [| |done];
      (split; [done|]); by cbn; rewrite lookup_insert_eq.
  - intros f h name pos c n w Hf Hn ? ?. cbn in *. unfold sim_read. rewrite Hf, Hn.
    eexists. split; [reflexivity|]. done.
  - intros f h name pos c w Hf Hn. cbn in *. unfold sim_info. rewrite Hf, Hn. by eexists _, _.
  - intros f w. eexists. split; [reflexivity|]. done.
Defined.

(** ** Images and hardware *)
#[export] Instance machine_images : ImageSvc machine := {|
  LoadImage := fun h path w =>
    match node_at (m_fs w) h path with
    | Some (Some _) =>
        (Ret (EFI_SUCCESS, zlen (m_images w)),
         mkMachine (m_handles w) (m_disks w) (m_fs w) (m_hw w) (m_images w ++ [(h, path)])%list
                   (m_started w))
    | _ => (Ret (EFI_NOT_FOUND, 0), w)
    end;
  StartImage := fun i w =>
    match m_images w !! Z.to_nat i with
    | Some x => (Ret EFI_SUCCESS,
                 mkMachine (m_handles w) (m_disks w) (m_fs w) (m_hw w) (m_images w)
                           (m_started w ++ [x])%list)
    | None => (Ret EFI_INVALID_PARAMETER, w)
    end;
  UnloadImage := fun _ => ret EFI_SUCCESS;
  DevicePathProtocol := fun _ => ret EFI_SUCCESS
|}.

#[export] Instance machine_hw : HwInfo machine := {|
  LocateSmbios := ret EFI_SUCCESS;
  SmbiosRecords := fun w => (Ret (h_smbios (m_hw w)), w);
  LocateNvme := fun w =>
    (Ret (match h_nvme (m_hw w) with [] => EFI_NOT_FOUND | _ => EFI_SUCCESS end,
          seqZ 0 (zlen (h_nvme (m_hw w)))), w);
  NvmeProtocol := fun _ => ret EFI_SUCCESS;
  NvmeIdentify := fun h w =>
    (Ret (match h_nvme (m_hw w) !! Z.to_nat h with
          | Some d => (EFI_SUCCESS, d) | None => (EFI_DEVICE_ERROR, []) end), w)
|}.

(** A change outside the disks is not visible on the block devices. *)
Lemma same_disks_dev (w w' : machine) :
  m_handles w' = m_handles w -> m_disks w' = m_disks w -> same_dev w w'.
Proof.
  intros Hh He. destruct w as [hs ds fs hw im sd], w' as [hs' ds' fs' hw' im' sd'].
  cbn in Hh, He. subst hs' ds'. split.
  { split; cbn; [by intros r [= <-]|by intros h st [= <-]]. }
  intros h. do 3 (split; [done|]).
  intros lba n (st & d & HR & Hs). exists st, d. split; [|done]. cbn in *.
  unfold ramdisk_read, ramdisk_of in *. cbn in *.
  destruct (ds !! h) as [p|]; [|by injection HR as <- <-].
  destruct (decide (ramdisk_wf p)); [|by injection HR as <- <-].
  destruct (RamDiskBlkIoReadBlocks _ _ _ _ _) as [[]|]; [by injection HR as <- <-|done].
Qed.

Lemma keeps_disks {A} (m : M machine A) :
  (forall w, m_handles (snd (m w)) = m_handles w /\ m_disks (snd (m w)) = m_disks w) -> keeps m.
Proof. intros Hm w o w' HE. specialize (Hm w). rewrite HE in Hm. by apply same_disks_dev; apply Hm. Qed.

#[export] Instance machine_frames : Frames machine.
Proof.
  split; intros; apply keeps_disks; intros w; cbn; try done.
  - unfold sim_open. by repeat case_match.
  - unfold sim_read. by repeat case_match.
  - unfold sim_seek. by repeat case_match.
  - unfold sim_info. by repeat case_match.
  - by repeat case_match.
Qed.

(** ** Building machines *)

(** A disk of [size] bytes holding the given parts. *)
Definition disk_with (size : Z) (parts : list (Z * bytes)) : RAM_DISK_PRIVATE_DATA :=
  RamDiskInitBlockIo size 0
    (fold_right (fun '(a, b) f => put f a b) (fun _ => 0) parts).

(** A machine with the given disks at the handles 1, 2, ... and one volume,
    handle 10, with the given files. *)
Definition machine_of (ds : list RAM_DISK_PRIVATE_DATA) (files : list (string * bytes))
    (hw : hw_state) : machine :=
  mkMachine (seqZ 1 (zlen ds)) (list_to_map (zip (seqZ 1 (zlen ds)) ds))
    (mkFs [10] {[10 := list_to_map (map (fun '(p, c) => (norm p, c)) files)]} empty 100) hw [] [].
Definition machine_with (ds : list RAM_DISK_PRIVATE_DATA) : machine :=
  machine_of ds [] (mkHw [] []).
Definition set_blk (w : machine) (hs : list Z) (ds : gmap Z RAM_DISK_PRIVATE_DATA) : machine :=
  mkMachine hs ds (m_fs w) (m_hw w) (m_images w) (m_started w).

(** The final state of a run that returned. *)
Lemma run_ret {A} (m : M machine A) w a : fst (m w) = Ret a -> m w = (Ret a, snd (m w)).
Proof. destruct (m w); cbn. by intros ->. Qed.
