(* ===== verification/RawPrt.v ===== *)
(** * The SBC raw partition (SBC_FileCtrl.h, SBC_FileCtrl.c)

    The raw partition starts with a header block that holds the boot, key and
    recovery modes, followed by three firmware banks and the system settings.
    This file has the layout, the header codec, the block accesses, the search
    for the partition ([SBC_BlkIoHandleInit]) and the system-settings loader. *)
From stdpp Require Import base list gmap.
From Stdlib Require Import ZArith Lia.
From S2P Require Import Prelude Uefi RamDisk Sim.
#[local] Open Scope Z_scope.

(** ** Layout constants *)
Definition SBC_RAWPRT_DFLT_SHIFT : Z := 9.
Definition SBC_RAWPRT_DFLT_BLK_SZ : Z := 512.
Definition SBC_RAW_PRTHDR_LBA : Z := 0.
Definition SBC_RAWPRT_MAGIC_ID : Z := 2857740885. (* 0xAA55AA55 *)
Definition SIZEOF_RAWPRT_HDR : Z := 128.

Definition BOOT_FW_SRTOFS : Z := 512.
Definition BOOT_FSBL_OFS : Z := 0.
Definition BOOT_SSBL_OFS : Z := 4194304.    (* 0x00400000 *)
Definition BOOT_OS_OFS : Z := 8388608.      (* 0x00800000 *)
Definition BOOT_SW_OFS : Z := 29360128.     (* 0x01C00000 *)
Definition BOOT_SECTOR1_OFS : Z := Z.lor 0 BOOT_FW_SRTOFS.
Definition BOOT_SECTOR2_OFS : Z := Z.lor 134217728 BOOT_FW_SRTOFS.  (* 0x08000000 *)
Definition BOOT_SECTOR3_OFS : Z := Z.lor 268435456 BOOT_FW_SRTOFS.  (* 0x10000000 *)
Definition BOOT_IMG_LENB : Z := 4.
Definition BOOT_FSBL_MAX : Z := 4194304.
Definition BOOT_SSBL_MAX : Z := 4194304.
Definition BOOT_OS_MAX : Z := Z.shiftl 20 20.
Definition BOOT_SW_MAX : Z := Z.shiftl 100 20.
Definition BOOT_FW_IMGMAX : Z := Z.shiftl 128 20.

Definition SYS_CONF_START_OFS : Z := Z.lor 402653184 BOOT_FW_SRTOFS. (* 0x18000000 *)
Definition SYS_CONF_OSID_OFS : Z := 0.
Definition SYS_CONF_RES_OFS : Z := 64.
Definition SYS_CONF_ROOT_CA_OFS : Z := 128.
Definition SYS_CONF_DEVID_CRT_OFS : Z := 2176.
Definition SYS_CONF_SWID_CRT_OFS : Z := 4224.
Definition SYS_CONF_OSID_CRT_OFS : Z := 6272.
Definition SYS_CONF_SW_LIST_OFS : Z := 8320.
Definition LEN_DFLT_OFS : Z := 4.
Definition SYS_PRES_RES_LEN : Z := 16.
Definition SYS_PRES_IV_LEN : Z := 12.
Definition SYS_PRES_TAG_LEN : Z := 16.
Definition SYS_SETTING_STORAGE_LEN : Z := 64 + 64 + 4 * 2048 + 8192.

(** [boot_mode_t] and [key_mode_t]. *)
Definition BOOT_MODE_NONE : Z := 0.
Definition BOOT_MODE_NORMAL : Z := 1.
Definition BOOT_MODE_UPDATE : Z := 2.
Definition BOOT_MODE_RECOVERY : Z := 3.
Definition BOOT_MODE_FACTORY : Z := 4.
Definition BOOT_MODE_UNKNOWN : Z := 5.
Definition KEY_MODE_NONE : Z := 0.
Definition KEY_MODE_NORMAL : Z := 1.
Definition KEY_MODE_BOOT : Z := 2.
Definition KEY_MODE_UPDATE : Z := 3.
Definition KEY_MODE_UNKNOWN : Z := 4.

(** ** The header: [rawprt_hdr_t] (packed, 128 bytes) *)
Record rawprt_hdr_t := mkHdr {
  magicid : Z;
  prtinfo : bytes;
  reserv : bytes;
  bootmode : Z;
  keymode : Z;
  rcvmode : Z;
  bootpres : bytes
}.

Definition set_modes (p : rawprt_hdr_t) (bm km rm : Z) : rawprt_hdr_t :=
  mkHdr (magicid p) (prtinfo p) (reserv p) bm km rm (bootpres p).

(** The code copies the packed struct to and from a block with [CopyMem]; here the
    copy goes through the memory image: the fields in the order and with the widths
    of the declaration, little-endian.  Copying to a block ([SBC_BootKeyModeChange])
    and from one ([SBC_BlkIoHandleInit]). *)
Definition hdr_encode (p : rawprt_hdr_t) : bytes :=
  le_bytes 4 (magicid p) ++ prtinfo p ++ reserv p ++
  le_bytes 2 (bootmode p) ++ le_bytes 2 (keymode p) ++ le_bytes 2 (rcvmode p) ++
  bootpres p.

Definition hdr_decode (b : bytes) : rawprt_hdr_t :=
  mkHdr (le_val (take 4 b))
        (take 64 (drop 4 b))
        (take 46 (drop 68 b))
        (le_val (take 2 (drop 114 b)))
        (le_val (take 2 (drop 116 b)))
        (le_val (take 2 (drop 118 b)))
        (take 8 (drop 120 b)).

Record hdr_wf (p : rawprt_hdr_t) : Prop := {
  wf_magicid : 0 <= magicid p < 2 ^ 32;
  wf_prtinfo : length (prtinfo p) = 64%nat /\ all_bytes (prtinfo p);
  wf_reserv : length (reserv p) = 46%nat /\ all_bytes (reserv p);
  wf_bootmode : 0 <= bootmode p < 2 ^ 16;
  wf_keymode : 0 <= keymode p < 2 ^ 16;
  wf_rcvmode : 0 <= rcvmode p < 2 ^ 16;
  wf_bootpres : length (bootpres p) = 8%nat /\ all_bytes (bootpres p)
}.

Definition blank_hdr : rawprt_hdr_t := hdr_decode (zeros 128).

(** ** Block accesses *)
Section Access.
Context {W : Type} `{!Pool W, !BlockIo W}.

(** [SBC_RawPrtReadBlock (blkhnd, rdbuf, rdlen, rlba)]: status and the new
    content of [rdbuf]. *)
Definition SBC_RawPrtReadBlock (blkhnd : option Z) (rdbuf : option bytes)
    (rdlen : option Z) (rlba : Z) : M W (SBCStatus * option bytes) :=
  validate notnull blkhnd else (SBCNULLP, rdbuf) in
  validate notnull rdbuf || notnull rdlen
    else (SBCNULLP, rdbuf) in
  let! len := access rdlen in
  validate negb (len =? 0) else (SBCZEROL, rdbuf) in
  let! h := access blkhnd in
  match rdbuf with
  | None => ret (SBCIO, None)
  | Some buf =>
      let! (retval, d) := ReadBlocks h rlba len in
      if EFI_ERROR retval then ret (SBCIO, rdbuf)
      else let! buf' := access (wr buf 0 d) in ret (SBCOK, Some buf')
  end.

(** [SBC_RawPrtBlockWrite (blkio, wrbuf, wrlen, wrlba)].  The first test is
    made while [p] is still null, so that it only tests [wrbuf]. *)
Definition SBC_RawPrtBlockWrite (blkio : option Z) (wrbuf : option bytes)
    (wrlen wrlba : Z) : M W SBCStatus :=
  match wrbuf with
  | None => ret SBCNULLP
  | Some buf =>
      validate negb (wrlen =? 0) else SBCZEROL in
      let! p := access blkio in
      let! d := access (rd buf 0 wrlen) in
      let! retval := WriteBlocks p wrlba d in
      ret (if EFI_ERROR retval then SBCIO else SBCOK)
  end.

(** [SBC_RawPrtHeadRead (h, out)]: the third test is inverted in the code, it
    leaves when the read succeeded. *)
Definition SBC_RawPrtHeadRead (h : option Z) (out : option bytes)
  : M W (SBCStatus * option bytes) :=
  validate notnull h else (SBCNULLP, out) in
  validate notnull out else (SBCNULLP, out) in
  let bloblen := ALIGN_VALUE32 SIZEOF_RAWPRT_HDR SBC_RAWPRT_DFLT_BLK_SZ in
  let! a := AllocatePool bloblen in
  validate a else (SBCNULLP, out) in
  let! (r, blob) := SBC_RawPrtReadBlock h (Some (zeros bloblen)) (Some bloblen)
                      SBC_RAW_PRTHDR_LBA in
  validate negb (sbc_is r SBCOK) else (r, out) in
  let! o := access out in
  let! b := access blob in
  let! d := access (rd b 0 SIZEOF_RAWPRT_HDR) in
  let! o' := access (wr o 0 d) in
  ret (SBCOK, Some o').

(** [_sfc_init_info_parse (inbuf, outbuf)] copies the header into a local
    structure, prints it and leaves [outbuf]. *)
Definition _sfc_init_info_parse (inbuf : bytes) (outbuf : option bytes)
  : M W (option bytes) :=
  let! h := access (rd inbuf 0 128) in
  ret outbuf.

(** [SBC_ReadRawPrtHeaderInfo (blkhnd, rdbuf, rdlen)]: status, the content of
    [rdbuf] and [*rdlen]. *)
Definition SBC_ReadRawPrtHeaderInfo (blkhnd : option Z) (rdbuf : option bytes)
    (rdlen : option Z) : M W (SBCStatus * option bytes * option Z) :=
  validate notnull rdbuf || notnull rdlen else (SBCNULLP, rdbuf, rdlen) in
  let! len := access rdlen in
  validate negb (len =? 0) else (SBCZEROL, rdbuf, rdlen) in
  let! h := access blkhnd in
  fun w =>
  let len := ALIGN_VALUE32 len (BlockSize h w) in
  (let! a := AllocatePool len in
   if negb a then ret (SBCNULLP, rdbuf, Some len)
   else
   let! (retval, d) := ReadBlocks h 0 len in
   if EFI_ERROR retval then ret (SBCIO, rdbuf, Some len)
   else
   let! readbuf := access (wr (zeros len) 0 d) in
   let! rdbuf := _sfc_init_info_parse readbuf rdbuf in
   ret (SBCOK, rdbuf, Some len)) w.

(** One pass of the loop of [SBC_BlkIoHandleInit] over [HandleBuffer].
    [BlockIo] and [hdr] keep their values from the previous pass; the test in
    the error branch of [HandleProtocol] holds there, so that the pass goes on
    with the [BlockIo] that call left: null when the protocol is not supported,
    the previous one after another error (CoreOpenProtocol,
    MdeModulePkg/Core/Dxe/Hand/Handle.c). *)
Fixpoint blkio_scan (handles : list Z) (BlockIo : option Z) (hblk : option Z)
    (hdr : rawprt_hdr_t) : M W (SBCStatus * option Z * rawprt_hdr_t) :=
  match handles with
  | [] => ret (SBCFAIL, hblk, hdr)
  | hnd :: handles =>
      let! st := BlkProtocol hnd in
      let BlockIo := if EFI_ERROR st then if st =? EFI_UNSUPPORTED then None else BlockIo
                     else Some hnd in
      let! h := access BlockIo in
      fun w =>
      let bs := BlockSize h w in
      (let! a := AllocatePool bs in
       if negb a then ret (SBCNULLP, hblk, hdr)
       else
       let! (st, d) := ReadBlocks h 0 bs in
       if EFI_ERROR st then ret (SBCFAIL, hblk, hdr)
       else
       let! b := access (rd d 0 SIZEOF_RAWPRT_HDR) in
       let hdr := hdr_decode b in
       if negb (magicid hdr =? SBC_RAWPRT_MAGIC_ID)
       then blkio_scan handles BlockIo hblk hdr
       else ret (SBCOK, Some h, hdr)) w
  end.

(** [SBC_BlkIoHandleInit (hblk, hdr)]: status, [*hblk] and [*hdr].  When
    [LocateHandleBuffer] fails the inverted test falls through to the loop, which
    then runs on the empty buffer that service leaves. *)
Definition SBC_BlkIoHandleInit (hblk : option Z) (hdr : rawprt_hdr_t)
  : M W (SBCStatus * option Z * rawprt_hdr_t) :=
  let! (_, handles) := LocateBlk in
  blkio_scan handles None hblk hdr.

(** [SBC_CheckAvailableBlkIODev ()]: the first device can be read. *)
Definition SBC_CheckAvailableBlkIODev : M W SBCStatus :=
  let! (st, handles) := LocateBlk in
  if EFI_ERROR st then ret SBCFAIL
  else
  let! h := access (head handles) in
  let! st := BlkProtocol h in
  if EFI_ERROR st then ret SBCFAIL
  else
  let! (st, d) := ReadBlocks h 0 512 in
  ret (if EFI_ERROR st then SBCFAIL else SBCOK).

(** [SBC_LoadSystemSetting (blkio, blob)]: status and [*blob]. *)
Definition SBC_LoadSystemSetting (blkio : option Z) (blob : LV_t)
  : M W (SBCStatus * LV_t) :=
  let lba := Z.shiftr SYS_CONF_START_OFS SBC_RAWPRT_DFLT_SHIFT in
  let! h := access blkio in
  fun w =>
  let ldlen := ALIGN_VALUE32 SYS_SETTING_STORAGE_LEN (BlockSize h w) in
  (let! a := AllocatePool ldlen in
   let value := if a then Some (zeros ldlen) else None in
   validate a else (SBCNULLP, lv_set_value blob value) in
   let! (r, value) := SBC_RawPrtReadBlock blkio value (Some ldlen) lba in
   validate sbc_is r SBCOK else (r, lv_set_value blob value) in
   ret (SBCOK, lv_set_length (lv_set_value blob value) ldlen)) w.
End Access.

(** ** The header codec *)
Section Codec.
Lemma length_hdr_encode p : hdr_wf p -> length (hdr_encode p) = 128%nat.
Proof.
  intros [? [Hp _] [Hr _] ? ? ? [Hb _]]. unfold hdr_encode.
  rewrite !length_app, !length_le_bytes, Hp, Hr, Hb. reflexivity.
Qed.

(** The field at [k] of a concatenation lies past its first part. *)
Lemma field_skip (x r : bytes) (m k n : nat) :
  length x = m -> (m <= k)%nat -> take n (drop k (x ++ r)) = take n (drop (k - m) r).
Proof. intros <- ?. by rewrite drop_app_ge by done. Qed.

Lemma field_here (x r : bytes) (n : nat) : length x = n -> take n (drop 0 (x ++ r)) = x.
Proof. intros. rewrite drop_0. by apply take_app_length'. Qed.

Ltac field :=
  repeat (erewrite field_skip; [|eassumption|lia]; cbn [Nat.sub]);
  first [erewrite field_here by eassumption
        | rewrite drop_0, firstn_all2 by lia]; try reflexivity.

Lemma hdr_decode_encode p : hdr_wf p -> hdr_decode (hdr_encode p) = p.
Proof.
  intros [? [Hp _] [Hr _] ? ? ? [Hb _]].
  destruct p as [mg pi rs bm km rm bp]; cbn [magicid prtinfo reserv bootmode keymode rcvmode
    bootpres] in *.
  unfold hdr_decode, hdr_encode. cbn [magicid prtinfo reserv bootmode keymode rcvmode bootpres].
  assert (H4 := length_le_bytes 4 mg). assert (Hbm := length_le_bytes 2 bm).
  assert (Hkm := length_le_bytes 2 km). assert (Hrm := length_le_bytes 2 rm).
  set (m4 := le_bytes 4 mg) in *. set (b2 := le_bytes 2 bm) in *.
  set (k2 := le_bytes 2 km) in *. set (r2 := le_bytes 2 rm) in *.
  rewrite <-(drop_0 (m4 ++ _)) at 1. f_equal; field; subst m4 b2 k2 r2;
    apply le_val_bytes_small; cbn; lia.
Qed.

Lemma hdr_encode_decode b :
  length b = 128%nat -> all_bytes b -> hdr_encode (hdr_decode b) = b.
Proof.
  intros Hl Hb. unfold hdr_encode, hdr_decode.
  cbn [magicid prtinfo reserv bootmode keymode rcvmode bootpres].
  assert (Hle : forall k n, (k + n <= 128)%nat ->
    le_bytes n (le_val (take n (drop k b))) = take n (drop k b)).
  { intros k n ?. assert (length (take n (drop k b)) = n) as Hn
      by (rewrite length_take, length_drop; lia).
    rewrite <-Hn at 1. apply le_bytes_val. apply Forall_take, Forall_drop, Hb. }
  rewrite <-(drop_0 b) at 1. rewrite !Hle by lia.
  assert (Hj : forall k n m, m = (k + n)%nat -> take n (drop k b) ++ drop m b = drop k b)
    by (intros k n m ->; rewrite <-drop_drop; apply take_drop).
  replace (take 8 (drop 120 b)) with (drop 120 b)
    by (rewrite firstn_all2; [done|rewrite length_drop; lia]).
  rewrite !Hj by done. apply drop_0.
Qed.
End Codec.

(** ** Block accesses *)
Section AccessLaws.
Context {W : Type} `{!Pool W, !PoolOk W, !BlockIo W, !BlockIoLaws W}.

(** The device serves a read request. *)
Definition readable (h lba n : Z) (w : W) : Prop :=
  exists st d, ReadBlocks h lba n w = (Ret (st, d), w) /\ EFI_ERROR st = false.

Lemma readable_data h lba n w :
  blk_req lba n -> readable h lba n w ->
  exists st, ReadBlocks h lba n w = (Ret (st, window (disk h w) (lba * BlockSize h w) n), w)
             /\ EFI_ERROR st = false.
Proof.
  intros Hr (st & d & HR & Hs). exists st. split; [|done].
  by rewrite <-(read_data h lba n w st d Hr HR Hs).
Qed.

(** Overwriting a whole buffer. *)
Lemma wr_full (b d : bytes) : length b = length d -> wr b 0 d = Some d.
Proof.
  intros. rewrite wr_some by lia. change (Z.to_nat 0) with 0%nat. cbn [take app Nat.add].
  by rewrite drop_ge, app_nil_r by lia.
Qed.

Lemma RawPrtReadBlock_ok h lba n buf w :
  blk_req lba n -> n <> 0 -> zlen buf = n -> readable h lba n w ->
  SBC_RawPrtReadBlock (Some h) (Some buf) (Some n) lba w
  = (Ret (SBCOK, Some (window (disk h w) (lba * BlockSize h w) n)), w).
Proof.
  intros Hr Hn Hb Hd. destruct (readable_data h lba n w Hr Hd) as (st & HR & Hs).
  unfold SBC_RawPrtReadBlock. cbn [notnull orb]. mrun. guard_true. mrun. rewrite Hs.
  rewrite wr_full; [done|]. rewrite length_window. lia.
Qed.

Lemma RawPrtReadBlock_io h lba n buf w :
  blk_req lba n -> n <> 0 -> ~ readable h lba n w ->
  SBC_RawPrtReadBlock (Some h) (Some buf) (Some n) lba w = (Ret (SBCIO, Some buf), w).
Proof.
  intros Hr Hn Hd. destruct (read_total h lba n w Hr) as (st & d & HR).
  unfold SBC_RawPrtReadBlock. cbn [notnull orb]. mrun. guard_true. mrun.
  destruct (EFI_ERROR st) eqn:Hs; [done|]. destruct Hd. by exists st, d.
Qed.

Lemma readable_dec h lba n w : blk_req lba n -> readable h lba n w \/ ~ readable h lba n w.
Proof.
  intros Hr. destruct (read_total h lba n w Hr) as (st & d & HR).
  destruct (EFI_ERROR st) eqn:Hs; [right|left; by exists st, d].
  intros (st' & d' & HR' & Hs'). rewrite HR in HR'. congruence.
Qed.

(** A write either stores exactly [wrlen] bytes or reports [SBCIO]. *)
Lemma RawPrtBlockWrite_inv h buf n lba w r w' :
  blk_req lba n -> n <> 0 ->
  SBC_RawPrtBlockWrite (Some h) (Some buf) n lba w = (Ret r, w') ->
  exists d st, rd buf 0 n = Some d /\ WriteBlocks h lba d w = (Ret st, w') /\
    r = if EFI_ERROR st then SBCIO else SBCOK.
Proof.
  intros Hr Hn. unfold SBC_RawPrtBlockWrite. guard_true. mrun.
  destruct (rd buf 0 n) as [d|] eqn:Hd; [|done]. mrun.
  intros H. apply bind_inv in H as (st & w1 & HW & H2). injection H2 as <- <-. eauto.
Qed.

Lemma RawPrtBlockWrite_run h buf n lba w d :
  n <> 0 -> rd buf 0 n = Some d ->
  SBC_RawPrtBlockWrite (Some h) (Some buf) n lba w
  = (let! retval := WriteBlocks h lba d in ret (if EFI_ERROR retval then SBCIO else SBCOK)) w.
Proof. intros Hn Hd. unfold SBC_RawPrtBlockWrite. guard_true. mrun. rewrite Hd. by mrun. Qed.

(** (raw-partition round trip) A block write that reports [SBCOK] is
    durable and local: a read of the same blocks then returns exactly the bytes
    written, and a read through any handle of blocks that were served before, and
    are on another medium or do not meet the written range on the medium, returns
    what it returned before. *)
Theorem rawprt_write_read h buf n lba w w' :
  blk_req lba n -> n <> 0 ->
  SBC_RawPrtBlockWrite (Some h) (Some buf) n lba w = (Ret SBCOK, w') ->
  (forall b, zlen b = n ->
     SBC_RawPrtReadBlock (Some h) (Some b) (Some n) lba w'
     = (Ret (SBCOK, rd buf 0 n), w')) /\
  (forall k lba2 n2 b, blk_req lba2 n2 -> n2 <> 0 -> zlen b = n2 -> readable k lba2 n2 w ->
     medium k <> medium h \/
     origin k + lba2 * BlockSize k w + n2 <= origin h + lba * BlockSize h w \/
     origin h + lba * BlockSize h w + n <= origin k + lba2 * BlockSize k w ->
     exists d, SBC_RawPrtReadBlock (Some k) (Some b) (Some n2) lba2 w = (Ret (SBCOK, Some d), w)
       /\ SBC_RawPrtReadBlock (Some k) (Some b) (Some n2) lba2 w' = (Ret (SBCOK, Some d), w')).
Proof.
  intros Hr Hn HW.
  destruct (RawPrtBlockWrite_inv _ _ _ _ _ _ _ Hr Hn HW) as (d & st & Hd & HB & Hst).
  destruct (EFI_ERROR st) eqn:Hs; [done|]. pose proof (rd_length _ _ _ _ Hd) as Hl.
  assert (Hr' : blk_req lba (zlen d)) by (by rewrite Hl).
  pose proof (write_data _ _ _ _ _ _ Hr' HB Hs) as Hdisk.
  pose proof (fun k => write_frame _ _ _ _ _ _ k Hr' HB) as Hfr.
  split.
  - intros b Hb. destruct (write_readable _ _ _ _ _ _ Hr' HB Hs) as (st' & d' & HR & Hs').
    rewrite Hl in HR. rewrite RawPrtReadBlock_ok by (try done; by exists st', d').
    rewrite (window_ext _ (put (disk h w) (lba * BlockSize h w) d)) by auto.
    rewrite (proj1 (Hfr h)). rewrite Hd, <-Hl, window_put_same. done.
  - intros k lba2 n2 b Hr2 Hn2 Hb Hread Hdisj.
    exists (window (disk k w) (lba2 * BlockSize k w) n2).
    split; [by apply RawPrtReadBlock_ok|].
    assert (readable k lba2 n2 w').
    { destruct Hread as (s1 & d1 & HR1 & Hs1).
      apply (write_serves h lba d w st w' k lba2 n2 s1 d1); done. }
    rewrite RawPrtReadBlock_ok by done. rewrite (proj1 (Hfr k)).
    rewrite (window_ext (disk k w') (disk k w)); [done|]. intros x Hx.
    apply (write_local h lba d w st w' k x Hr' HB). lia.
Qed.

(** (partial blocks) A transfer whose length is not a multiple of the
    device's block size is rejected with [SBCIO] by both accesses; neither the
    device nor the caller's buffer changes. *)
Theorem rawprt_partial_block h lba n buf w :
  blk_req lba n -> n mod BlockSize h w <> 0 -> n <= zlen buf ->
  SBC_RawPrtReadBlock (Some h) (Some buf) (Some n) lba w = (Ret (SBCIO, Some buf), w) /\
  SBC_RawPrtBlockWrite (Some h) (Some buf) n lba w = (Ret SBCIO, w).
Proof.
  intros Hr Hm Hb. pose proof (block_size_pos h w).
  assert (Hn : n <> 0) by (intros ->; rewrite Z.mod_0_l in Hm; lia). split.
  - apply RawPrtReadBlock_io; [done..|]. intros (st & d & HR & Hs).
    by rewrite (read_bad_size h lba n w st d Hr HR Hm) in Hs.
  - assert (Hd : exists d, rd buf 0 n = Some d).
    { eexists. apply rd_some; destruct Hr; lia. }
    destruct Hd as [d Hd]. pose proof (rd_length _ _ _ _ Hd) as Hl.
    assert (Hr' : blk_req lba (zlen d)) by (by rewrite Hl).
    destruct (write_total h lba d w Hr') as (st & w' & HW).
    destruct (write_bad_size h lba d w st w' Hr' HW) as [Hs ->]; [by rewrite Hl|].
    rewrite (RawPrtBlockWrite_run h buf n lba w d) by done. mrun. by rewrite Hs.
Qed.

(** ** Finding the partition *)

(** The header a device carries in its first block. *)
Definition blk_header (h : Z) (w : W) : rawprt_hdr_t := hdr_decode (window (disk h w) 0 128).
Definition has_magic (w : W) (h : Z) : bool := magicid (blk_header h w) =? SBC_RAWPRT_MAGIC_ID.

(** A block device the scan can use. *)
Definition usable (w : W) (h : Z) : Prop :=
  BlkProtocol h w = (Ret EFI_SUCCESS, w) /\ 128 <= BlockSize h w < 2 ^ 32 /\
  readable h 0 (BlockSize h w) w.

(** What the scan returns on usable devices: the first one with the magic. *)
Fixpoint first_magic (w : W) (hs : list Z) (hblk : option Z) (hdr : rawprt_hdr_t)
  : SBCStatus * option Z * rawprt_hdr_t :=
  match hs with
  | [] => (SBCFAIL, hblk, hdr)
  | h :: hs => if has_magic w h then (SBCOK, Some h, blk_header h w)
               else first_magic w hs hblk (blk_header h w)
  end.

Lemma blkio_scan_step w h hs prev hblk hdr :
  usable w h ->
  blkio_scan (h :: hs) prev hblk hdr w
  = if has_magic w h then (Ret (SBCOK, Some h, blk_header h w), w)
    else blkio_scan hs (Some h) hblk (blk_header h w) w.
Proof.
  intros (HP & [Hb1 Hb2] & Hrd).
  assert (Hr : blk_req 0 (BlockSize h w)) by (split; lia).
  destruct (readable_data h 0 _ w Hr Hrd) as (st & HR & Hs).
  cbn [blkio_scan]. mrun. change (EFI_ERROR EFI_SUCCESS) with false. cbv iota. mrun.
  pose proof (alloc_ok (BlockSize h w) w) as Ha. mrun. cbn [negb]. mrun. rewrite Hs.
  unfold SIZEOF_RAWPRT_HDR. rewrite rd_window by lia. mrun.
  replace (0 * BlockSize h w + 0) with 0 by lia.
  unfold has_magic. fold (blk_header h w). by destruct (magicid _ =? _).
Qed.

Lemma blkio_scan_usable w hs prev hblk hdr :
  Forall (usable w) hs ->
  blkio_scan hs prev hblk hdr w = (Ret (first_magic w hs hblk hdr), w).
Proof.
  intros HF. revert prev hdr. induction HF as [|h hs Hu HF IH]; intros; [done|].
  rewrite blkio_scan_step by done. cbn [first_magic]. by destruct (has_magic w h).
Qed.

Lemma blkio_scan_prefix w pre hs prev hblk hdr :
  Forall (usable w) pre -> Forall (fun h => has_magic w h = false) pre ->
  exists prev' hdr', blkio_scan (pre ++ hs) prev hblk hdr w = blkio_scan hs prev' hblk hdr' w.
Proof.
  intros HF. revert prev hdr. induction HF as [|h pre Hu HF IH]; intros prev hdr HN; cbn [app].
  - by eexists _, _.
  - inversion HN as [|?? Hm HN']; subst. rewrite blkio_scan_step, Hm by done. by apply IH.
Qed.

(** C27: (partition search) On a machine whose block devices are usable,
    [SBC_BlkIoHandleInit] terminates, changes nothing, and returns [SBCOK] with
    the first device in handle order whose first block starts with the magic
    number, together with that device's header; with no such device it returns
    [SBCFAIL] and leaves the handle. *)
Theorem blkio_init_finds_first hs hdr w :
  LocateBlk w = (Ret (EFI_SUCCESS, hs), w) -> Forall (usable w) hs ->
  exists r, SBC_BlkIoHandleInit None hdr w = (Ret r, w) /\
    match list_find (fun h => has_magic w h) hs with
    | Some (_, h) => r = (SBCOK, Some h, blk_header h w)
    | None => fst r = (SBCFAIL, None)
    end.
Proof.
  intros HL HF. eexists. split.
  - unfold SBC_BlkIoHandleInit. mrun. change (EFI_ERROR EFI_SUCCESS) with false. cbv iota.
    by apply blkio_scan_usable.
  - clear HL HF. revert hdr. induction hs as [|h hs IH]; intros hdr; [done|].
    cbn [list_find first_magic]. destruct (has_magic w h) eqn:Hm.
    + by rewrite decide_True by done.
    + rewrite decide_False by (cbn; tauto). specialize (IH (blk_header h w)).
      by destruct (list_find _ hs) as [[i k]|].
Qed.

(** (an unreadable device hides the partition) When a device that does
    not serve the read of its first block comes before the partition in handle
    order, the search stops there with [SBCFAIL], whatever devices follow. *)
Theorem blkio_init_stops_at_unreadable pre h post hdr w :
  LocateBlk w = (Ret (EFI_SUCCESS, pre ++ h :: post), w) ->
  Forall (usable w) pre -> Forall (fun k => has_magic w k = false) pre ->
  BlkProtocol h w = (Ret EFI_SUCCESS, w) -> BlockSize h w < 2 ^ 32 ->
  ~ readable h 0 (BlockSize h w) w ->
  exists hdr', SBC_BlkIoHandleInit None hdr w = (Ret (SBCFAIL, None, hdr'), w).
Proof.
  intros HL HU HN HP Hb Hd. unfold SBC_BlkIoHandleInit. mrun.
  change (EFI_ERROR EFI_SUCCESS) with false. cbv iota.
  destruct (blkio_scan_prefix w pre (h :: post) None None hdr HU HN) as (prev & hdr' & ->).
  pose proof (block_size_pos h w).
  destruct (read_total h 0 (BlockSize h w) w) as (st & d & HR); [split; lia|].
  exists hdr'. cbn [blkio_scan]. mrun. change (EFI_ERROR EFI_SUCCESS) with false. cbv iota. mrun.
  pose proof (alloc_ok (BlockSize h w) w) as Ha. mrun. cbn [negb]. mrun.
  destruct (EFI_ERROR st) eqn:Hs; [done|]. destruct Hd. by exists st, d.
Qed.

(** (null handle) When the first handle of the search has no block
    protocol, the inverted test of the error branch lets the loop go on with a
    null [BlockIo], which it dereferences. *)
Theorem blkio_init_null_handle h hs st hdr w :
  LocateBlk w = (Ret (EFI_SUCCESS, h :: hs), w) ->
  BlkProtocol h w = (Ret st, w) -> EFI_ERROR st = true ->
  SBC_BlkIoHandleInit None hdr w = (Fault, w).
Proof.
  intros HL HP Hs. unfold SBC_BlkIoHandleInit. mrun.
  change (EFI_ERROR EFI_SUCCESS) with false. cbv iota. cbn [blkio_scan]. mrun.
  rewrite Hs. by destruct (st =? EFI_UNSUPPORTED).
Qed.

(** ** Reading the header and the settings *)

(** (header readers) [SBC_RawPrtHeadRead] reports [SBCOK] in every case
    and never delivers the header: when the device serves the read it leaves
    [out] as it was, and when the device fails it fills the 128 bytes with
    zeros.  [SBC_ReadRawPrtHeaderInfo] never changes its output buffer. *)
Theorem header_readers_deliver_nothing h out w :
  128 <= zlen out ->
  (readable h 0 512 w -> SBC_RawPrtHeadRead (Some h) (Some out) w = (Ret (SBCOK, Some out), w)) /\
  (~ readable h 0 512 w ->
   SBC_RawPrtHeadRead (Some h) (Some out) w = (Ret (SBCOK, wr out 0 (zeros 128)), w)) /\
  (forall n r b n' w', SBC_ReadRawPrtHeaderInfo (Some h) (Some out) n w = (Ret (r, b, n'), w') ->
     b = Some out).
Proof.
  intros Ho. assert (Hr : blk_req 0 512) by (split; lia).
  assert (Hz : zlen (zeros 512) = 512) by (by apply length_zeros).
  pose proof (alloc_ok 512 w) as Ha. unfold SBC_RawPrtHeadRead, SBC_RAW_PRTHDR_LBA.
  change (ALIGN_VALUE32 SIZEOF_RAWPRT_HDR SBC_RAWPRT_DFLT_BLK_SZ) with 512. cbn [notnull].
  cbv zeta.
  split; [|split].
  - intros Hd. pose proof (RawPrtReadBlock_ok h 0 512 (zeros 512) w Hr ltac:(lia) Hz Hd). by mrun.
  - intros Hd. pose proof (RawPrtReadBlock_io h 0 512 (zeros 512) w Hr ltac:(lia) Hd). mrun.
    change (negb (sbc_is SBCIO SBCOK)) with true. cbv iota. mrun.
    change (rd (zeros 512) 0 SIZEOF_RAWPRT_HDR) with (Some (zeros 128)). mrun.
    by rewrite wr_some by (rewrite ?length_zeros; lia).
  - intros n r b n' w' H. unfold SBC_ReadRawPrtHeaderInfo, _sfc_init_info_parse in H.
    apply bind_inv in H as (len & w1 & _ & H). destruct (negb (len =? 0)); [|by injection H].
    apply bind_inv in H as (k & w2 & _ & H). apply bind_inv in H as (a & w3 & _ & H).
    destruct a; [|by injection H]. apply bind_inv in H as ([st d] & w4 & _ & H).
    destruct (EFI_ERROR st); [by injection H|].
    apply bind_inv in H as (rb & w5 & _ & H). apply bind_inv in H as (o & w6 & H1 & H).
    apply bind_inv in H1 as (b1 & w7 & _ & H1). by injection H1 as <-; injection H.
Qed.

(** (system settings) On a device whose blocks are [2^k] bytes,
    [SBC_LoadSystemSetting] returns the settings area: a whole number of blocks
    that covers [SYS_SETTING_STORAGE_LEN] bytes, read from block 0xC0001.  With
    512-byte blocks this is byte [SYS_CONF_START_OFS]; with any other block size
    it is another address.  When the device fails the error is returned. *)
Theorem load_system_setting_spec h blob k w :
  BlockSize h w = 2 ^ k -> 0 <= k <= 16 ->
  let n := ALIGN_VALUE32 SYS_SETTING_STORAGE_LEN (2 ^ k) in
  n mod 2 ^ k = 0 /\ SYS_SETTING_STORAGE_LEN <= n < SYS_SETTING_STORAGE_LEN + 2 ^ k /\
  (readable h 786433 n w ->
   exists lv, SBC_LoadSystemSetting (Some h) blob w = (Ret (SBCOK, lv), w) /\
     lv_length lv = n /\ lv_value lv = Some (window (disk h w) (786433 * 2 ^ k) n)) /\
  (~ readable h 786433 n w ->
   exists lv, SBC_LoadSystemSetting (Some h) blob w = (Ret (SBCIO, lv), w)) /\
  (786433 * 2 ^ k = SYS_CONF_START_OFS <-> k = 9).
Proof.
  intros Hb Hk n. destruct (align_value_spec SYS_SETTING_STORAGE_LEN k) as [Hm Hn];
    [cbv; split; congruence|lia|]. fold n in Hm, Hn.
  assert (Hp : 0 < 2 ^ k <= 2 ^ 16)
    by (split; [apply Z.pow_pos_nonneg; lia|apply Z.pow_le_mono_r; lia]).
  change SYS_SETTING_STORAGE_LEN with 16512 in Hn.
  assert (Hr : blk_req 786433 n) by (split; lia).
  assert (Hz : zlen (zeros n) = n) by (apply length_zeros; lia).
  pose proof (alloc_ok n w) as Ha.
  unfold SBC_LoadSystemSetting. mrun. rewrite Hb. fold n.
  change (Z.shiftr SYS_CONF_START_OFS SBC_RAWPRT_DFLT_SHIFT) with 786433.
  split; [done|]. split; [exact Hn|]. split; [|split].
  - intros Hd. pose proof (RawPrtReadBlock_ok h 786433 n (zeros n) w Hr ltac:(lia) Hz Hd).
    eexists. mrun. change (sbc_is SBCOK SBCOK) with true. cbv iota. split; [done|].
    unfold lv_length, lv_set_length, lv_set_value. cbn [lv_word lv_value]. split.
    + unfold u32. rewrite Z.add_comm, Z_mod_plus_full, Z.mod_mod by lia.
      apply Z.mod_small. lia.
    + by rewrite Hb.
  - intros Hd. pose proof (RawPrtReadBlock_io h 786433 n (zeros n) w Hr ltac:(lia) Hd).
    eexists. by mrun.
  - split; [|by intros ->]. intros He. apply (Z.pow_inj_r 2); [lia..|].
    change SYS_CONF_START_OFS with (786433 * 2 ^ 9) in He. lia.
Qed.
End AccessLaws.

(** ** On the RAM disk driver

    The two block accesses over the driver of RamDisk.v, without an assumption on
    the device. *)
Section OnRamDisk.
Context {W : Type} `{!HasDisks W, !HasDisksLaws W}.

Lemma rawprt_read_ramdisk h p n lba b (w : W) :
  ramdisk_of h w = Some p -> blk_req lba n -> n <> 0 -> zlen b = n ->
  SBC_RawPrtReadBlock (Some h) (Some b) (Some n) lba w
  = if (n mod MediaBlockSize p =? 0) && (lba * MediaBlockSize p + n <=? Size p)
    then (Ret (SBCOK, Some (window (Content p) (lba * MediaBlockSize p) n)), w)
    else (Ret (SBCIO, Some b), w).
Proof.
  intros Hp Hr Hn Hb. destruct (ramdisk_read_inv h lba n w Hr) as (st & d & HR & HP).
  rewrite Hp in HP. destruct HP as [Hs Hd].
  assert (HE : serves p lba n = (n mod MediaBlockSize p =? 0) && (lba * MediaBlockSize p + n <=? Size p))
    by (unfold serves; by rewrite (proj2 (Z.eqb_neq n 0))).
  rewrite <-HE. unfold SBC_RawPrtReadBlock. cbn [notnull orb]. mrun. guard_true. mrun.
  change (ramdisk_read h lba n w) with (ReadBlocks h lba n w) in HR. mrun.
  rewrite Hs. destruct (serves p lba n); cbn [negb] in *; [|done].
  rewrite Hd by done. rewrite wr_full; [done|]. rewrite length_window. destruct Hr; lia.
Qed.

Lemma ramdisk_write_run h p lba d (w : W) :
  ramdisk_of h w = Some p -> blk_req lba (zlen d) -> zlen d <> 0 ->
  let ok := serves p lba (zlen d) && negb (ReadOnly p) in
  exists st, ramdisk_write h lba d w
    = (Ret st, if ok then set_disks (<[h := with_content p
                            (put (Content p) (lba * MediaBlockSize p) d)]> (disks w)) w else w) /\
    EFI_ERROR st = negb ok.
Proof.
  intros Hp [Hq1 Hq2] Hn ok. destruct (ramdisk_of_inv _ _ _ Hp) as [Hd Hwf]. unfold ramdisk_write, ok.
  rewrite Hp. assert (HI : set_disks (<[h:=p]> (disks w)) w = w) by (by rewrite insert_id, set_disks_id).
  destruct (ReadOnly p) eqn:Ho.
  { unfold RamDiskBlkIoWriteBlocks. rewrite Z.eqb_refl, Ho, andb_false_r. cbn. rewrite HI. eauto. }
  pose proof (RamDiskWrite_64 p lba d Hwf Ho ltac:(lia) ltac:(lia)) as HW. rewrite andb_true_r.
  rewrite (proj2 (Z.eqb_neq _ _) Hn) in HW.
  replace (wraps p lba (zlen d)) with false in HW
    by (unfold wraps; rewrite (proj2 (Z.ltb_ge (2 ^ 64) _)) by lia; by rewrite andb_false_r).
  destruct (serves p lba (zlen d)); [rewrite HW; eauto|].
  destruct HW as (st & He & ->). exists st. by rewrite HI.
Qed.

End OnRamDisk.

(** ** Examples *)
Section Examples.
(** A raw partition in the given modes on a disk of 1 GB, behind a blank disk. *)
Definition ex_hdr (bm km rm : Z) : rawprt_hdr_t :=
  mkHdr SBC_RAWPRT_MAGIC_ID (zeros 64) (zeros 46) bm km rm (zeros 8).
Definition ex_machine (bm km rm : Z) : machine :=
  machine_with [disk_with 4096 []; disk_with (2 ^ 30) [(0, hdr_encode (ex_hdr bm km rm))]].

Lemma readable_run h lba n (w : machine) :
  blk_req lba n ->
  match fst (ReadBlocks h lba n w) with Ret (st, _) => negb (EFI_ERROR st) | _ => false end = true ->
  readable h lba n w.
Proof.
  intros Hr. destruct (read_total h lba n w Hr) as (st & d & HR). rewrite HR. cbn.
  intros Hs. exists st, d. split; [done|]. by apply negb_true_iff.
Qed.

(** The same for requests too large to be evaluated. *)
Lemma readable_serves h lba n (w : machine) :
  blk_req lba n ->
  match ramdisk_of h w with Some p => serves p lba n | None => false end = true ->
  readable h lba n w.
Proof.
  intros Hr Hs. destruct (ramdisk_read_inv h lba n w Hr) as (st & d & HR & HP).
  destruct (ramdisk_of h w) as [p|]; [|done]. destruct HP as [HE _].
  exists st, d. split; [exact HR|]. by rewrite HE, Hs.
Qed.

Lemma unreadable_run h lba n (w : machine) :
  match fst (ReadBlocks h lba n w) with Ret (st, _) => EFI_ERROR st | _ => false end = true ->
  ~ readable h lba n w.
Proof. intros Hs (st & d & HR & Hs'). rewrite HR in Hs. cbn in Hs. congruence. Qed.

Lemma usable_run h (w : machine) :
  fst (BlkProtocol h w) = Ret EFI_SUCCESS ->
  128 <= BlockSize h w < 2 ^ 32 ->
  match fst (ReadBlocks h 0 (BlockSize h w) w) with
  | Ret (st, _) => negb (EFI_ERROR st) | _ => false end = true ->
  usable w h.
Proof.
  intros HP Hb HR. split; [|split; [done|apply readable_run; [split; lia|done]]].
  cbn in *. by injection HP as ->.
Qed.

Ltac usable_ex := apply usable_run; [vm_compute; reflexivity|vm_compute; split; congruence
                                    |vm_compute; reflexivity].

Lemma rawprt_write_read_witness :
  let w := ex_machine 1 1 0 in
  let w' := snd (SBC_RawPrtBlockWrite (Some 2) (Some (replicate 512 7)) 512 3 w) in
  SBC_RawPrtReadBlock (Some 2) (Some (zeros 512)) (Some 512) 3 w'
  = (Ret (SBCOK, Some (replicate 512 7)), w').
Proof.
  intros w w'.
  assert (HW : SBC_RawPrtBlockWrite (Some 2) (Some (replicate 512 7)) 512 3 w = (Ret SBCOK, w'))
    by (apply run_ret; vm_compute; reflexivity).
  assert (Hr : blk_req 3 512) by (split; lia).
  exact (proj1 (rawprt_write_read 2 (replicate 512 7) 512 3 w w' Hr ltac:(lia) HW)
           (zeros 512) eq_refl).
Defined.

Lemma rawprt_partial_block_witness :
  SBC_RawPrtBlockWrite (Some 2) (Some (zeros 128)) 128 0 (ex_machine 1 1 0)
  = (Ret SBCIO, ex_machine 1 1 0).
Proof.
  apply (rawprt_partial_block 2 0 128 (zeros 128) (ex_machine 1 1 0));
    [split; lia|vm_compute; congruence|vm_compute; congruence].
Defined.

Lemma blkio_init_finds_first_witness :
  exists r, SBC_BlkIoHandleInit None blank_hdr (ex_machine 1 2 0) = (Ret r, ex_machine 1 2 0) /\
    r = (SBCOK, Some 2, blk_header 2 (ex_machine 1 2 0)).
Proof.
  destruct (blkio_init_finds_first [1; 2] blank_hdr (ex_machine 1 2 0)) as (r & HR & Hr).
  - vm_compute; reflexivity.
  - repeat constructor; usable_ex.
  - exists r. split; [exact HR|].
    assert (HF : list_find (fun h => has_magic (ex_machine 1 2 0) h) [1; 2] = Some (1%nat, 2))
      by (vm_compute; reflexivity).
    rewrite HF in Hr. exact Hr.
Defined.

(** A drive without a medium comes before the partition. *)
Definition ex_no_media : machine :=
  set_blk (ex_machine 1 1 0) [3; 2]
    (<[3 := mkRamDisk 0 0 0 0 false (fun _ => 0)]> (m_disks (ex_machine 1 1 0))).

Lemma blkio_init_stops_at_unreadable_witness :
  exists hdr', SBC_BlkIoHandleInit None blank_hdr ex_no_media
               = (Ret (SBCFAIL, None, hdr'), ex_no_media).
Proof.
  apply (blkio_init_stops_at_unreadable [] 3 [2] blank_hdr ex_no_media).
  - reflexivity.
  - constructor.
  - constructor.
  - vm_compute; reflexivity.
  - vm_compute; reflexivity.
  - apply unreadable_run. vm_compute; reflexivity.
Defined.

(** The first handle carries no block protocol. *)
Definition ex_no_protocol : machine :=
  set_blk (ex_machine 1 1 0) [3; 2] (m_disks (ex_machine 1 1 0)).

Lemma blkio_init_null_handle_witness :
  SBC_BlkIoHandleInit None blank_hdr ex_no_protocol = (Fault, ex_no_protocol).
Proof.
  apply (blkio_init_null_handle 3 [2] EFI_UNSUPPORTED blank_hdr ex_no_protocol);
    [reflexivity|vm_compute; reflexivity|reflexivity].
Defined.

Lemma header_readers_deliver_nothing_witness :
  SBC_RawPrtHeadRead (Some 2) (Some (zeros 128)) (ex_machine 1 1 0)
  = (Ret (SBCOK, Some (zeros 128)), ex_machine 1 1 0).
Proof.
  assert (Hl : 128 <= zlen (zeros 128)) by (vm_compute; congruence).
  apply (proj1 (header_readers_deliver_nothing 2 (zeros 128) (ex_machine 1 1 0) Hl)).
  apply readable_run; [split; lia|vm_compute; reflexivity].
Defined.

Lemma load_system_setting_spec_witness :
  exists lv, SBC_LoadSystemSetting (Some 2) (mkLV 0 None) (ex_machine 1 1 0)
             = (Ret (SBCOK, lv), ex_machine 1 1 0) /\ lv_length lv = 16896.
Proof.
  destruct (load_system_setting_spec 2 (mkLV 0 None) 9 (ex_machine 1 1 0))
    as (_ & _ & H & _); [vm_compute; reflexivity|lia|].
  destruct H as (lv & HR & Hl & _).
  - apply readable_run; [vm_compute; repeat split; congruence|vm_compute; reflexivity].
  - exists lv. split; [exact HR|]. rewrite Hl. vm_compute; reflexivity.
Defined.

End Examples.
