(* ===== verification/Crypto.v ===== *)
(** * Cryptography

    The checked wrappers of BaseCryptLib (CryptoPkg/Library/BaseCryptLib) the
    loaders call, over the primitives of OpenSSL as a type class, and the
    loaders' own layer over them: SBC_CryptAES.c, SBC_Hashing.c, SBC_X509.c and
    the signature check of SBC_EccSignVeriify.c. *)
From stdpp Require Import base list.
From Stdlib Require Import ZArith Lia.
From S2P Require Import Prelude Uefi Sha256 Aes AesInverse AesCbc Gcm GcmStream AesGcm.
#[local] Open Scope Z_scope.

(** ** The primitives

    What the wrappers need of OpenSSL is an interface with the laws the theorems
    use.  Its digest, AES-GCM and AES-CBC are not left at that: their sources are
    modelled in Sha256.v and in Aes.v, AesCbc.v, Gcm.v, GcmStream.v and AesGcm.v.
    [with_sha256] and [with_aes_gcm] below put the first two in place of the
    parameters; CBC is no parameter, the wrappers below call AesCbc.v.  A primitive
    that can fail returns [None]. *)

(** The sizes [AeadAesGcmEncrypt] and [AeadAesGcmDecrypt] let through. *)
Definition gcm_sizes (k iv a m : bytes) : Prop :=
  gcm_key_size k /\ zlen iv = 12 /\ zlen a <= INT_MAX /\ zlen m <= INT_MAX.

Class OpenSSL := {
  SHA256 : bytes -> option bytes;
  HMAC_SHA256 : bytes -> bytes -> option bytes;
  (** the calls of CryptAeadAesGcm.c before it reads an argument, [EVP_CIPHER_CTX_new]
      and the first [EVP_EncryptInit_ex] (true) or [EVP_DecryptInit_ex] (false), for
      a key size: whether memory and the cipher are there *)
  GCM_begin : bool -> Z -> bool;
  (** the calls that follow: key, IV, additional data, data,
      whether there is an output buffer, and the size of the tag or the tag;
      the result, the bytes written to the output, and the tag *)
  GCM_seal : bytes -> bytes -> bytes -> bytes -> bool -> Z -> bool * bytes * bytes;
  GCM_open : bytes -> bytes -> bytes -> bytes -> bool -> bytes -> bool * bytes;
  EC_KEY : Type;
  (** field size in bytes of the curve of a key *)
  EC_half : EC_KEY -> Z;
  (** the curve is P-256, P-384, P-521 or brainpoolP512r1 *)
  EC_known : EC_KEY -> bool;
  (** affine coordinates of the public point, each padded to the field size *)
  EC_public : EC_KEY -> option bytes;
  (** the EC key of a DER certificate *)
  X509_ec_key : bytes -> option EC_KEY;
  ECDSA_do_verify : EC_KEY -> bytes -> bytes -> bool;
  (** certificate signed by the CA certificate *)
  X509_chain_ok : bytes -> bytes -> bool
}.

(** What the documentation of the primitives says and the theorems use. *)
Class OpenSSLLaws `{!OpenSSL} : Prop := {
  sha256_total : forall m, exists d, SHA256 m = Some d;
  sha256_length : forall m d, SHA256 m = Some d -> length d = 32%nat;
  sha256_bytes : forall m d, SHA256 m = Some d -> all_bytes d;
  gcm_begin_ok : forall e n, n = 16 \/ n = 24 \/ n = 32 -> GCM_begin e n = true;
  gcm_seal_ok : forall k iv a m, gcm_sizes k iv a m ->
    exists ct tag, GCM_seal k iv a m true 16 = (true, ct, tag) /\
      length ct = length m /\ length tag = 16%nat;
  gcm_open_length : forall k iv a ct tag, gcm_sizes k iv a ct -> length tag = 16%nat ->
    length (GCM_open k iv a ct true tag).2 = length ct;
  (** decryption succeeds on what encryption produced, and on nothing else *)
  gcm_open_seal : forall k iv a ct tag m, gcm_sizes k iv a ct -> length tag = 16%nat ->
    length m = length ct ->
    GCM_open k iv a ct true tag = (true, m) <-> GCM_seal k iv a m true 16 = (true, ct, tag);
  ec_half_pos : forall k, 0 < EC_half k;
  ec_public_length : forall k p, EC_public k = Some p -> zlen p = 2 * EC_half k;
  (** the empty string is not the DER encoding of a certificate *)
  x509_empty : forall ca, X509_chain_ok [] ca = false
}.

(** ** BaseCryptLib *)
Section BaseCryptLib.
Context `{!OpenSSL}.

(** The argument checks of [AeadAesGcmEncrypt] and [AeadAesGcmDecrypt]. *)
Definition gcm_args_ok (KeySize IvSize ADataSize DataInSize TagSize : Z)
    (DataOutSize : option Z) : bool :=
  (DataInSize <=? INT_MAX) && (ADataSize <=? INT_MAX) && (IvSize =? 12) &&
  ((KeySize =? 16) || (KeySize =? 24) || (KeySize =? 32)) &&
  ((12 <=? TagSize) && (TagSize <=? 16)) &&
  match DataOutSize with
  | Some n => negb ((INT_MAX <? n) || (n <? DataInSize))
  | None => true
  end.

(** [AeadAesGcmEncrypt]: result, [TagOut], [DataOut], [*DataOutSize]; [None]
    is an access outside one of the buffers. *)
Definition AeadAesGcmEncrypt (Key : option bytes) (KeySize : Z) (Iv : option bytes)
    (IvSize : Z) (AData : option bytes) (ADataSize : Z) (DataIn : option bytes)
    (DataInSize : Z) (TagOut : option bytes) (TagSize : Z) (DataOut : option bytes)
    (DataOutSize : option Z)
  : option (bool * option bytes * option bytes * option Z) :=
  if negb (gcm_args_ok KeySize IvSize ADataSize DataInSize TagSize DataOutSize)
  then Some (false, TagOut, DataOut, DataOutSize)
  else if negb (GCM_begin true KeySize) then Some (false, TagOut, DataOut, DataOutSize)
  else
  match rdp Key KeySize, rdp Iv IvSize, rdp AData ADataSize, rdp DataIn DataInSize with
  | Some k, Some iv, Some a, Some m =>
      let '(ok, ct, tag) := GCM_seal k iv a m (notnull DataOut) TagSize in
      match wrp DataOut ct with
      | None => None
      | Some out =>
          if negb ok then Some (false, TagOut, out, DataOutSize)
          else match wrp TagOut tag with
               | Some tag => Some (true, tag, out, (fun _ => DataInSize) <$> DataOutSize)
               | None => None
               end
      end
  | _, _, _, _ => None
  end.

(** [AeadAesGcmDecrypt]: the message is in [DataOut] before the tag is checked,
    and stays there when the check fails. *)
Definition AeadAesGcmDecrypt (Key : option bytes) (KeySize : Z) (Iv : option bytes)
    (IvSize : Z) (AData : option bytes) (ADataSize : Z) (DataIn : option bytes)
    (DataInSize : Z) (Tag : option bytes) (TagSize : Z) (DataOut : option bytes)
    (DataOutSize : option Z) : option (bool * option bytes * option Z) :=
  if negb (gcm_args_ok KeySize IvSize ADataSize DataInSize TagSize DataOutSize)
  then Some (false, DataOut, DataOutSize)
  else if negb (GCM_begin false KeySize) then Some (false, DataOut, DataOutSize)
  else
  match rdp Key KeySize, rdp Iv IvSize, rdp AData ADataSize, rdp DataIn DataInSize,
        rdp Tag TagSize with
  | Some k, Some iv, Some a, Some ct, Some tag =>
      let '(ok, m) := GCM_open k iv a ct (notnull DataOut) tag in
      match wrp DataOut m with
      | Some out => Some (ok, out, if ok : bool then (fun _ => DataInSize) <$> DataOutSize
                                   else DataOutSize)
      | None => None
      end
  | _, _, _, _, _ => None
  end.

(** [Sha256HashAll] over the digest of the interface: result and [HashValue]. *)
Definition HashAll (Data : option bytes) (DataSize : Z) (HashValue : option bytes)
  : option (bool * option bytes) :=
  if negb (notnull HashValue) then Some (false, HashValue)
  else if negb (notnull Data) && negb (DataSize =? 0) then Some (false, HashValue)
  else match rdp Data DataSize with
  | None => None
  | Some m =>
      match SHA256 m with
      | None => Some (false, HashValue)
      | Some d => match wrp HashValue d with Some h => Some (true, h) | None => None end
      end
  end.

(** HMAC contexts: the key and the data digested so far. *)
Definition hmac_ctx : Type := option (bytes * bytes).

Definition HmacMdSetKey (ctx : option hmac_ctx) (Key : option bytes) (KeySize : Z)
  : option (bool * option hmac_ctx) :=
  if negb (notnull ctx) || (INT_MAX <? KeySize) then Some (false, ctx)
  else match rdp Key KeySize with
       | Some k => Some (true, Some (Some (k, [])))
       | None => None
       end.

Definition HmacMdUpdate (ctx : option hmac_ctx) (Data : option bytes) (DataSize : Z)
  : option (bool * option hmac_ctx) :=
  match ctx with
  | None => Some (false, ctx)
  | Some c =>
      if negb (notnull Data) && negb (DataSize =? 0) then Some (false, ctx)
      else match c, rdp Data DataSize with
           | Some (k, d), Some m => Some (true, Some (Some (k, d ++ m)))
           | _, _ => None
           end
  end.

Definition HmacMdFinal (ctx : option hmac_ctx) (HmacValue : option bytes)
  : option (bool * option hmac_ctx * option bytes) :=
  match ctx with
  | None => Some (false, ctx, HmacValue)
  | Some c =>
      if negb (notnull HmacValue) then Some (false, ctx, HmacValue)
      else match c with
           | None => None
           | Some (k, d) =>
               match HMAC_SHA256 k d with
               | None => Some (false, ctx, HmacValue)
               | Some v => match wrp HmacValue v with
                           | Some h => Some (true, Some None, h)
                           | None => None
                           end
               end
           end
  end.

(** [EcGetPubKey]: result, [PublicKey], [*PublicKeySize]. *)
Definition EcGetPubKey (EcContext : option EC_KEY) (PublicKey : option bytes)
    (PublicKeySize : option Z) : option (bool * option bytes * option Z) :=
  match EcContext, PublicKeySize with
  | Some k, Some n =>
      if negb (notnull PublicKey) && negb (n =? 0)
      then Some (false, PublicKey, PublicKeySize)
      else
      let size := EC_half k * 2 in
      if n <? size then Some (false, PublicKey, Some size)
      else match EC_public k with
      | None => Some (false, PublicKey, Some size)
      | Some p =>
          match PublicKey with
          | None => Some (true, None, Some size)
          | Some _ => match wrp PublicKey p with
                      | Some b => Some (true, b, Some size)
                      | None => None
                      end
          end
      end
  | _, _ => Some (false, PublicKey, PublicKeySize)
  end.

Definition CRYPTO_NID_SHA256 : Z := 1.
Definition CRYPTO_NID_SHA384 : Z := 2.
Definition CRYPTO_NID_SHA512 : Z := 3.

(** The digest size [EcDsaVerify] asks for; 0 for an unknown algorithm. *)
Definition hash_size (HashNid : Z) : Z :=
  if HashNid =? CRYPTO_NID_SHA256 then 32
  else if HashNid =? CRYPTO_NID_SHA384 then 48
  else if HashNid =? CRYPTO_NID_SHA512 then 64 else 0.

Definition EcDsaVerify (EcContext : option EC_KEY) (HashNid : Z) (MessageHash : option bytes)
    (HashSize : Z) (Signature : option bytes) (SigSize : Z) : option bool :=
  match EcContext with
  | None => Some false
  | Some k =>
    if negb (notnull MessageHash) || negb (notnull Signature) then Some false
    else if (INT_MAX <? SigSize) || (SigSize =? 0) then Some false
    else if negb (EC_known k) then Some false
    else if negb (SigSize =? EC_half k * 2) then Some false
    else if (hash_size HashNid =? 0) || negb (HashSize =? hash_size HashNid) then Some false
    else match rdp MessageHash HashSize, rdp Signature SigSize with
         | Some h, Some s => Some (ECDSA_do_verify k h s)
         | _, _ => None
         end
  end.

(** [EcGetPublicKeyFromX509], which parses the certificate with
    [X509ConstructCertificate]: result and [*EcContext]. *)
Definition EcGetPublicKeyFromX509 (Cert : option bytes) (CertSize : Z)
  : option (bool * option EC_KEY) :=
  if negb (notnull Cert) || (INT_MAX <? CertSize) then Some (false, None)
  else match rdp Cert CertSize with
       | None => None
       | Some c => match X509_ec_key c with
                   | Some k => Some (true, Some k)
                   | None => Some (false, None)
                   end
       end.

Definition X509VerifyCert (Cert : option bytes) (CertSize : Z) (CACert : option bytes)
    (CACertSize : Z) : option bool :=
  if negb (notnull Cert) || negb (notnull CACert) then Some false
  else if (INT_MAX <? CertSize) || (INT_MAX <? CACertSize) then Some false
  else match rdp Cert CertSize, rdp CACert CACertSize with
       | Some c, Some ca => Some (X509_chain_ok c ca)
       | _, _ => None
       end.
End BaseCryptLib.

(** ** The loaders' layer *)
Record SBC_CipherTLV := mkTLV { tlv_length : Z; tlv_value : option bytes }.

Record SBC_AESGcmCtx := mkGcm {
  gcm_key : SBC_CipherTLV;
  gcm_iv : SBC_CipherTLV;
  gcm_aad : SBC_CipherTLV;
  gcm_msg : SBC_CipherTLV;
  gcm_tag : SBC_CipherTLV;
  gcm_out : SBC_CipherTLV
}.

Definition SBC_CIPHER_AES_CBC : Z := 2.
Definition SBC_CIPHER_AES_GCM : Z := 4.
Definition SBC_AES_KEY_STRENGTH : Z := 32.
Definition SBC_AES_IV_STRENGTH : Z := 12.
Definition SBC_AES_TAG_STRENGTH : Z := 16.

(** [SBC_AESContext]; the CBC sub-context [cbc] repeats the fields of the
    context, [aes_cbc] says whether the pointer is set. *)
Record SBC_AESContext := mkAes {
  aes_handle : option AES_CONTEXT;
  aes_key : option bytes;
  aes_keylen : Z;
  aes_algoid : Z;
  aes_in : option SBC_CipherTLV;
  aes_out : option SBC_CipherTLV;
  aes_iv : option bytes;
  aes_cbc : bool;
  aes_gcm : option SBC_AESGcmCtx
}.

Section SbcCrypto.
Context {W : Type} `{!Pool W, !OpenSSL}.

Definition aes_set_handle (c : SBC_AESContext) (h : option AES_CONTEXT) (kl : Z) : SBC_AESContext :=
  mkAes h (aes_key c) kl (aes_algoid c) (aes_in c) (aes_out c) (aes_iv c) (aes_cbc c) (aes_gcm c).
Definition aes_set_out (c : SBC_AESContext) (o : option SBC_CipherTLV) : SBC_AESContext :=
  mkAes (aes_handle c) (aes_key c) (aes_keylen c) (aes_algoid c) (aes_in c) o (aes_iv c)
    (aes_cbc c) (aes_gcm c).
Definition aes_set_gcm (c : SBC_AESContext) (g : SBC_AESGcmCtx) : SBC_AESContext :=
  mkAes (aes_handle c) (aes_key c) (aes_keylen c) (aes_algoid c) (aes_in c) (aes_out c)
    (aes_iv c) (aes_cbc c) (Some g).

(** [SBC_AESInit (ctx)]. *)
Definition SBC_AESInit (ctx : option SBC_AESContext)
  : M W (SBCStatus * option SBC_AESContext) :=
  match ctx with
  | None => ret (SBCNULLP, None)
  | Some c =>
      let! a := AllocatePool AesGetContextSize in
      if negb a then ret (SBCNULLP, Some (aes_set_handle c None (aes_keylen c)))
      else
      let! (ok, h) := access (AesInit (Some (zero_schedule, zero_schedule)) (aes_key c) (aes_keylen c)) in
      ret (if ok : bool then SBCOK else SBCFAIL, Some (aes_set_handle c h (aes_keylen c)))
  end.

(** [SBC_AESDeInit (ctx)] frees the handle and leaves the pointer. *)
Definition SBC_AESDeInit (c : SBC_AESContext) : SBC_AESContext :=
  aes_set_handle c (aes_handle c) 0.

(** [SBC_AES_CBCEncrypt] on the sub-context filled by [SBC_AESEncrypt]. *)
Definition SBC_AES_CBCEncrypt (c : SBC_AESContext) : M W (SBCStatus * SBC_AESContext) :=
  let! i := access (aes_in c) in
  let! o := access (aes_out c) in
  let! (ok, v) := access (AesCbc true (aes_handle c) (tlv_value i) (tlv_length i)
                            (aes_iv c) (tlv_value o)) in
  if negb ok then ret (SBCENCFAIL, aes_set_out c (Some (mkTLV (tlv_length o) v)))
  else ret (SBCOK, aes_set_out c (Some (mkTLV (tlv_length i) v))).

Definition SBC_AES_CBCDecrypt (c : SBC_AESContext) : M W (SBCStatus * SBC_AESContext) :=
  let! i := access (aes_in c) in
  let! o := access (aes_out c) in
  let! (ok, v) := access (AesCbc false (aes_handle c) (tlv_value i) (tlv_length i)
                            (aes_iv c) (tlv_value o)) in
  if negb ok then ret (SBCFAIL, aes_set_out c (Some (mkTLV (tlv_length o) v)))
  else ret (SBCOK, aes_set_out c (Some (mkTLV (tlv_length i) v))).

(** [SBC_AESGcmSetContext (ctx, key, iv, tag)]: [msg] and [out] stay. *)
Definition SBC_AESGcmSetContext (g : SBC_AESGcmCtx) (key iv tag : option bytes)
  : SBC_AESGcmCtx :=
  mkGcm (mkTLV SBC_AES_KEY_STRENGTH key) (mkTLV SBC_AES_IV_STRENGTH iv) (mkTLV 0 None)
    (gcm_msg g) (mkTLV SBC_AES_TAG_STRENGTH tag) (gcm_out g).

(** [SBC_AESGcmEncrypt (ctx)]. *)
Definition SBC_AESGcmEncrypt (c : SBC_AESContext) : M W (SBCStatus * SBC_AESContext) :=
  let! g := access (aes_gcm c) in
  let! (ok, tag, out, n) := access (AeadAesGcmEncrypt
      (tlv_value (gcm_key g)) (tlv_length (gcm_key g)) (tlv_value (gcm_iv g))
      (tlv_length (gcm_iv g)) (tlv_value (gcm_aad g)) (tlv_length (gcm_aad g))
      (tlv_value (gcm_msg g)) (tlv_length (gcm_msg g)) (tlv_value (gcm_tag g))
      (tlv_length (gcm_tag g)) (tlv_value (gcm_out g)) (Some (tlv_length (gcm_out g)))) in
  let g' := mkGcm (gcm_key g) (gcm_iv g) (gcm_aad g) (gcm_msg g)
              (mkTLV (tlv_length (gcm_tag g)) tag)
              (mkTLV (default (tlv_length (gcm_out g)) n) out) in
  ret (if ok : bool then SBCOK else SBCENCFAIL, aes_set_gcm c g').

(** [SBC_AESGcmDecrypt (ctx)]. *)
Definition SBC_AESGcmDecrypt (c : SBC_AESContext) : M W (SBCStatus * SBC_AESContext) :=
  let! g := access (aes_gcm c) in
  let! (ok, out, n) := access (AeadAesGcmDecrypt
      (tlv_value (gcm_key g)) (tlv_length (gcm_key g)) (tlv_value (gcm_iv g))
      (tlv_length (gcm_iv g)) (tlv_value (gcm_aad g)) (tlv_length (gcm_aad g))
      (tlv_value (gcm_msg g)) (tlv_length (gcm_msg g)) (tlv_value (gcm_tag g))
      (tlv_length (gcm_tag g)) (tlv_value (gcm_out g)) (Some (tlv_length (gcm_out g)))) in
  let g' := mkGcm (gcm_key g) (gcm_iv g) (gcm_aad g) (gcm_msg g) (gcm_tag g)
              (mkTLV (default (tlv_length (gcm_out g)) n) out) in
  ret (if ok : bool then SBCOK else SBCENCFAIL, aes_set_gcm c g').

(** [SBC_AESEncrypt (ctx)] and [SBC_AESDecrypt (ctx)]: dispatch on the algorithm. *)
Definition SBC_AESEncrypt (c : SBC_AESContext) : M W (SBCStatus * SBC_AESContext) :=
  if aes_algoid c =? SBC_CIPHER_AES_CBC then
    if aes_cbc c then SBC_AES_CBCEncrypt c else fault
  else if aes_algoid c =? SBC_CIPHER_AES_GCM then SBC_AESGcmEncrypt c
  else ret (SBCINVPARAM, c).

Definition SBC_AESDecrypt (c : SBC_AESContext) : M W (SBCStatus * SBC_AESContext) :=
  if aes_algoid c =? SBC_CIPHER_AES_CBC then SBC_AES_CBCDecrypt c
  else if aes_algoid c =? SBC_CIPHER_AES_GCM then SBC_AESGcmDecrypt c
  else ret (SBCINVPARAM, c).

(** The context the loaders build for one AES-GCM operation. *)
Definition gcm_context (g : SBC_AESGcmCtx) : SBC_AESContext :=
  mkAes None None 0 SBC_CIPHER_AES_GCM None None None false (Some g).

(** [SBC_HashCompute (handle, message, msglen, digest)]: status and [digest]. *)
Definition SBC_HashCompute (message : option bytes) (msglen : Z) (digest : option bytes)
  : M W (SBCStatus * option bytes) :=
  validate notnull message else (SBCNULLP, digest) in
  validate notnull digest else (SBCNULLP, digest) in
  validate 0 <? msglen else (SBCZEROL, digest) in
  let! (ok, d) := access (HashAll message msglen digest) in
  ret (if ok : bool then SBCOK else SBCFAIL, d).

(** [SBC_HmacCompute (handle, mackey, keysz, msg, msglen, hmacvalue)]: the
    tests of the code, which let pass what they mean to reject. *)
Definition SBC_HmacCompute (handle : option hmac_ctx) (mackey : option bytes) (keysz : Z)
    (msg : option bytes) (msglen : Z) (hmacvalue : option bytes)
  : M W (SBCStatus * option hmac_ctx * option bytes) :=
  validate negb (notnull handle) else (SBCNULLP, handle, hmacvalue) in
  validate negb (notnull mackey) else (SBCNULLP, handle, hmacvalue) in
  validate negb (notnull msg) || negb (notnull hmacvalue)
    else (SBCNULLP, handle, hmacvalue) in
  validate (msglen <=? 0) || (keysz <=? 0) else (SBCZEROL, handle, hmacvalue) in
  let! (ok, handle) := access (HmacMdSetKey handle mackey keysz) in
  if negb ok then ret (SBCFAIL, handle, hmacvalue)
  else
  let! (ok, handle) := access (HmacMdUpdate handle msg msglen) in
  if negb ok then ret (SBCFAIL, handle, hmacvalue)
  else
  let! (ok, handle, hmacvalue) := access (HmacMdFinal handle hmacvalue) in
  ret (if ok : bool then SBCOK else SBCFAIL, handle, hmacvalue).

(** [SBC_EcGetPublicKeyFromPem (der, derl, ctx)]: status and [*ctx]. *)
Definition SBC_EcGetPublicKeyFromPem (der : option bytes) (derl : Z)
  : M W (SBCStatus * option EC_KEY) :=
  validate notnull der else (SBCNULLP, None) in
  validate 0 <? derl else (SBCZEROL, None) in
  let! (ok, k) := access (EcGetPublicKeyFromX509 der derl) in
  ret (if ok : bool then SBCOK else SBCFAIL, k).

(** [SBC_X509VerifyCert (cert, certl, cacert, cacertl)]. *)
Definition SBC_X509VerifyCert (cert : option bytes) (certl : Z) (cacert : option bytes)
    (cacertl : Z) : M W SBCStatus :=
  validate notnull cert || notnull cacert else SBCNULLP in
  validate (0 <? certl) || (0 <? cacertl) else SBCZEROL in
  let! status := access (X509VerifyCert cert certl cacert cacertl) in
  validate status else SBCNULLP in
  ret SBCOK.

(** [SBC_EcDsaVerify (h, hash, signature)]: the handle, the hash with its
    algorithm and the signature. *)
Definition SBC_EcDsaVerify (h : option (option EC_KEY)) (hash : option (Z * Z * option bytes))
    (signature : option LV_t) : M W SBCStatus :=
  match h with
  | None => ret SBCNULLP
  | Some handle =>
      match hash with
      | None => ret SBCNULLP
      | Some (tag, len, value) =>
          validate notnull value else SBCNULLP in
          validate 0 <? len else SBCZEROL in
          match signature with
          | None => ret SBCNULLP
          | Some sg =>
              validate notnull (lv_value sg) else SBCNULLP in
              let! ok := access (EcDsaVerify handle tag value len (lv_value sg) (lv_length sg)) in
              ret (if ok : bool then SBCOK else SBCBADFMT)
          end
      end
  end.
End SbcCrypto.

(** ** Laws *)
Section CryptoLaws.
Context {W : Type} `{!Pool W, !OpenSSL, !OpenSSLLaws}.

(** The checks of the GCM wrappers accept the loaders' parameters. *)
Lemma gcm_args_loader n m :
  0 <= n <= m -> m <= INT_MAX -> gcm_args_ok 32 12 0 n 16 (Some m) = true.
Proof.
  intros. unfold gcm_args_ok, INT_MAX in *.
  replace (n <=? 2147483647) with true by (symmetry; apply Z.leb_le; lia).
  replace (2147483647 <? m) with false by (symmetry; apply Z.ltb_ge; lia).
  by replace (m <? n) with false by (symmetry; apply Z.ltb_ge; lia).
Qed.

(** The context of a loader's GCM operation: 32-byte key, 12-byte IV, no
    additional data, 16-byte tag. *)
Definition loader_gcm (key iv msg : bytes) (n : Z) (tag out : bytes) (outl : Z)
  : SBC_AESContext :=
  gcm_context (mkGcm (mkTLV 32 (Some key)) (mkTLV 12 (Some iv)) (mkTLV 0 None)
                     (mkTLV n (Some msg)) (mkTLV 16 (Some tag)) (mkTLV outl (Some out))).

Lemma loader_sizes key iv m : length key = 32%nat -> length iv = 12%nat -> zlen m <= INT_MAX ->
  gcm_sizes key iv [] m.
Proof. intros. unfold gcm_sizes, gcm_key_size, INT_MAX in *. cbn [length]. lia. Qed.

Lemma AESGcmEncrypt_loader key iv msg n tag0 out outl ct tag (w : W) :
  length key = 32%nat -> length iv = 12%nat -> length tag0 = 16%nat ->
  0 <= n <= zlen msg -> n <= outl -> outl <= zlen out -> outl <= INT_MAX ->
  GCM_seal key iv [] (take (Z.to_nat n) msg) true 16 = (true, ct, tag) ->
  SBC_AESEncrypt (loader_gcm key iv msg n tag0 out outl) w
  = (Ret (SBCOK, loader_gcm key iv msg n tag (ct ++ drop (length ct) out) n), w).
Proof.
  intros Hk Hi Ht Hn Ho Hl Hm HS.
  destruct (gcm_seal_ok key iv [] (take (Z.to_nat n) msg)) as (ct' & tag' & HS' & Hc & Ht').
  { apply loader_sizes; [done..|rewrite length_take; lia]. }
  rewrite HS in HS'. injection HS' as <- <-.
  rewrite length_take in Hc. unfold SBC_AESEncrypt, SBC_AESGcmEncrypt, loader_gcm.
  cbn [aes_algoid gcm_context aes_gcm]. change (SBC_CIPHER_AES_GCM =? SBC_CIPHER_AES_CBC) with false.
  change (SBC_CIPHER_AES_GCM =? SBC_CIPHER_AES_GCM) with true. cbv iota. mrun.
  cbn [gcm_key gcm_iv gcm_aad gcm_msg gcm_tag gcm_out tlv_value tlv_length].
  unfold AeadAesGcmEncrypt. rewrite gcm_args_loader, gcm_begin_ok by lia. cbn [negb].
  rewrite !rdp_some by lia. rewrite (firstn_all2 key), (firstn_all2 iv) by lia.
  change (rdp None 0) with (Some (@nil Z)). cbn [notnull]. cbv iota. rewrite HS.
  rewrite wrp_some by lia. cbn [negb]. rewrite wrp_some by lia.
  rewrite (drop_ge tag0) by lia. rewrite app_nil_r. by mrun.
Qed.

(** Decryption: the message in any case, and the verdict on the tag. *)
Lemma AESGcmDecrypt_loader key iv ct n tag out outl (w : W) :
  length key = 32%nat -> length iv = 12%nat -> length tag = 16%nat ->
  0 <= n <= zlen ct -> n <= outl -> outl <= zlen out -> outl <= INT_MAX ->
  let '(ok, m) := GCM_open key iv [] (take (Z.to_nat n) ct) true tag in
  SBC_AESGcmDecrypt (loader_gcm key iv ct n tag out outl) w
  = (Ret (if ok : bool then SBCOK else SBCENCFAIL,
          loader_gcm key iv ct n tag (m ++ drop (length m) out) (if ok then n else outl)), w).
Proof.
  intros Hk Hi Ht Hn Ho Hl Hm. unfold SBC_AESGcmDecrypt, loader_gcm, gcm_context.
  pose proof (gcm_open_length key iv [] (take (Z.to_nat n) ct) tag) as HO.
  destruct (GCM_open key iv [] (take (Z.to_nat n) ct) true tag) as [ok m] eqn:HE.
  cbn [aes_gcm]. mrun. cbn [gcm_key gcm_iv gcm_aad gcm_msg gcm_tag gcm_out tlv_value tlv_length].
  unfold AeadAesGcmDecrypt. rewrite gcm_args_loader, gcm_begin_ok by lia. cbn [negb].
  rewrite !rdp_some by lia.
  rewrite (firstn_all2 key), (firstn_all2 iv), (firstn_all2 tag) by lia.
  change (rdp None 0) with (Some (@nil Z)). cbn [notnull]. cbv iota. rewrite HE.
  rewrite length_take in HO. cbn [snd] in HO.
  rewrite wrp_some by (rewrite HO by (done || (apply loader_sizes; [done..|rewrite length_take; lia])); lia).
  destruct ok; by mrun.
Qed.

Lemma HashCompute_ok msg n d0 (w : W) :
  0 < n <= zlen msg -> 32 <= zlen d0 ->
  exists d, SHA256 (take (Z.to_nat n) msg) = Some d /\
    SBC_HashCompute (Some msg) n (Some d0) w = (Ret (SBCOK, Some (d ++ drop 32 d0)), w).
Proof.
  intros Hn Hd. destruct (sha256_total (take (Z.to_nat n) msg)) as [d Hh]. exists d.
  split; [done|].
  unfold SBC_HashCompute, HashAll. cbn [notnull negb andb]. guard_true.
  pose proof (sha256_length _ _ Hh) as Hl.
  rewrite rdp_some by lia. rewrite Hh, wrp_some by lia. rewrite Hl. by mrun.
Qed.

(** (HMAC) [SBC_HmacCompute] never computes an HMAC: with valid
    arguments it returns [SBCNULLP], and with the null handle its tests ask for
    it returns [SBCFAIL]; in no case does it return [SBCOK]. *)
Theorem hmac_never_ok handle mackey keysz msg msglen hv (w : W) :
  (notnull handle = true ->
   SBC_HmacCompute handle mackey keysz msg msglen hv w = (Ret (SBCNULLP, handle, hv), w)) /\
  (forall r h' hv' w',
     SBC_HmacCompute handle mackey keysz msg msglen hv w = (Ret (r, h', hv'), w') -> r <> SBCOK).
Proof.
  unfold SBC_HmacCompute. split.
  - intros ->. done.
  - intros r h' hv' w' HR ->. destruct handle as [h|]; cbn [notnull negb] in HR; [done|].
    destruct (notnull mackey); cbn [negb] in HR; [done|].
    destruct (negb (notnull msg) || _); [|done]. destruct (_ || _); done.
Qed.
End CryptoLaws.

(** ** AES-CBC through the layer of the loaders *)
Section Cbc.
Context {W : Type} `{!Pool W, !PoolOk W, !OpenSSL}.

(** The context of one CBC operation: [in] and [out] with their buffers. *)
Definition cbc_context (h : option AES_CONTEXT) (k iv inp out : bytes) (outl : Z) : SBC_AESContext :=
  mkAes h (Some k) (8 * zlen k) SBC_CIPHER_AES_CBC (Some (mkTLV (zlen inp) (Some inp)))
    (Some (mkTLV outl (Some out))) (Some iv) true None.

(** C22: (round trip) CBC through the layer of the loaders: [SBC_AESInit] on a
    context with a key of 128, 192 or 256 bits succeeds and keeps its other
    fields; [SBC_AESEncrypt] then puts the CBC ciphertext of SP 800-38A at the
    start of [out] and its length in [out->length]; and [SBC_AESDecrypt] of that
    ciphertext with the same handle restores the message. *)
Theorem sbc_aes_cbc_roundtrip k iv m out outl out2 outl2 (w : W) :
  all_bytes k -> key_size k -> typed 16 iv -> all_bytes m -> (length m mod 16 = 0)%nat ->
  zlen m <= INT_MAX -> zlen m <= zlen out -> zlen m <= zlen out2 ->
  let C := Sp800_38a.CBC_Encrypt (Fips197.encrypt k) iv m in
  exists h,
    SBC_AESInit (Some (cbc_context None k iv m out outl)) w
    = (Ret (SBCOK, Some (cbc_context (Some h) k iv m out outl)), w) /\
    SBC_AESEncrypt (cbc_context (Some h) k iv m out outl) w
    = (Ret (SBCOK, cbc_context (Some h) k iv m (C ++ drop (length m) out) (zlen m)), w) /\
    SBC_AESDecrypt (cbc_context (Some h) k iv C out2 outl2) w
    = (Ret (SBCOK, cbc_context (Some h) k iv C (m ++ drop (length m) out2) (zlen m)), w).
Proof.
  intros Hkb Hks Hiv Hb Hm HI Ho Ho2 C.
  destruct (AesInit_run k zero_schedule zero_schedule Hkb Hks eq_refl eq_refl) as (ek & dk & HA & HE & HD).
  destruct (cbc_inverse k iv Hkb Hks Hiv m Hb Hm) as (HLe & _ & HCb & HR). fold C in HLe, HCb, HR.
  destruct (cbc_calls k iv Hkb Hks Hiv ek dk m HE HD Hb Hm) as [C1 _]. fold C in C1. clearbody C.
  destruct (cbc_calls k iv Hkb Hks Hiv ek dk C HE HD HCb ltac:(by rewrite HLe)) as [_ C3].
  pose proof (proj1 Hiv) as Hv.
  pose proof (AesCbc_run true ek dk m iv out Hv Hm HI Ho ltac:(cbv beta iota zeta; by rewrite C1)) as R1.
  cbv beta iota zeta in R1. rewrite C1 in R1.
  pose proof (AesCbc_run false ek dk C iv out2 Hv ltac:(by rewrite HLe) ltac:(lia) ltac:(lia)
                ltac:(cbv beta iota zeta; by rewrite C3, HR, HLe)) as R2.
  cbv beta iota zeta in R2. rewrite C3, HR, HLe in R2.
  exists (ek, dk). split; [|split].
  - unfold SBC_AESInit. rewrite (bind_eq _ _ _ _ _ (alloc_ok _ w)). cbn [negb cbc_context aes_key aes_keylen].
    rewrite HA. by mrun.
  - unfold SBC_AESEncrypt, SBC_AES_CBCEncrypt, cbc_context.
    cbn [aes_algoid aes_cbc aes_in aes_out aes_handle aes_iv].
    change (SBC_CIPHER_AES_CBC =? SBC_CIPHER_AES_CBC) with true. cbv iota. mrun.
    cbn [tlv_value tlv_length]. rewrite R1. by mrun.
  - unfold SBC_AESDecrypt, SBC_AES_CBCDecrypt, cbc_context.
    cbn [aes_algoid aes_cbc aes_in aes_out aes_handle aes_iv].
    change (SBC_CIPHER_AES_CBC =? SBC_CIPHER_AES_CBC) with true. cbv iota. mrun.
    cbn [tlv_value tlv_length]. rewrite HLe, R2. by mrun.
Qed.
End Cbc.

(** ** The digest of the code

    The primitives [S] with the SHA-256 of Sha256.v as their digest. *)
Section RealDigest.
Context (S : OpenSSL).
Definition with_sha256 : OpenSSL := {|
  SHA256 := fun m => Some (Fips.sha256 m);
  HMAC_SHA256 := HMAC_SHA256; GCM_begin := GCM_begin; GCM_seal := GCM_seal; GCM_open := GCM_open;
  EC_KEY := EC_KEY; EC_half := EC_half; EC_known := EC_known; EC_public := EC_public;
  X509_ec_key := X509_ec_key; ECDSA_do_verify := ECDSA_do_verify; X509_chain_ok := X509_chain_ok
|}.

Lemma with_sha256_laws : @OpenSSLLaws S -> @OpenSSLLaws with_sha256.
Proof.
  intros []. split; try done.
  - intros m. by eexists.
  - intros m d [= <-]. apply sha256_digest.
  - intros m d [= <-]. apply sha256_digest.
Qed.

(** C32: (refinement) The digest interface the loaders are verified against is
    implemented by the code: with the reference digest of FIPS 180-4 in its
    place the laws of the interface hold, and the call the loaders make has the
    result of [Sha256HashAll] over [SHA256_Init], [SHA256_Update] and
    [SHA256_Final] on every input, refused arguments and accesses outside the
    buffers included. *)
Theorem sha256_interface Data DataSize HashValue :
  (@OpenSSLLaws S -> @OpenSSLLaws with_sha256) /\
  @HashAll with_sha256 Data DataSize HashValue = Sha256HashAll Data DataSize HashValue.
Proof.
  split; [exact with_sha256_laws|]. unfold HashAll, Sha256HashAll.
  destruct (negb (notnull HashValue)); [done|]. destruct (negb (notnull Data) && _); [done|].
  destruct (rdp Data DataSize) as [m|] eqn:ER; [|done]. cbn [mbind option_bind].
  rewrite (rdp_length _ _ _ ER).
  destruct (SHA256_Update_ok _ [] m absorbed_init) as (c & -> & HA). cbn [mbind option_bind].
  destruct (SHA256_Final_ok _ _ HA) as (c' & ->). cbn [mbind option_bind app with_sha256 SHA256].
  by destruct (wrp HashValue _).
Qed.
End RealDigest.

(** What a successful encryption leaves in the buffers. *)
Lemma encrypt_writes `{!OpenSSL} Key KeySize Iv IvSize AData ADataSize DataIn DataInSize TagBuf TagSize
    OutBuf DataOutSize k iv a m C T :
  gcm_args_ok KeySize IvSize ADataSize DataInSize TagSize DataOutSize = true ->
  rdp Key KeySize = Some k -> rdp Iv IvSize = Some iv -> rdp AData ADataSize = Some a ->
  rdp DataIn DataInSize = Some m -> GCM_begin true KeySize = true ->
  GCM_seal k iv a m true TagSize = (true, C, T) ->
  zlen C <= zlen OutBuf -> zlen T <= zlen TagBuf ->
  AeadAesGcmEncrypt Key KeySize Iv IvSize AData ADataSize DataIn DataInSize
      (Some TagBuf) TagSize (Some OutBuf) DataOutSize
  = Some (true, Some (T ++ drop (length T) TagBuf), Some (C ++ drop (length C) OutBuf),
          (fun _ => DataInSize) <$> DataOutSize).
Proof.
  intros HA HK HI HAD HD HB HS HC HT. unfold AeadAesGcmEncrypt. rewrite HA, HB, HK, HI, HAD, HD.
  cbn [negb notnull]. rewrite HS, wrp_some by lia. cbn [negb]. by rewrite wrp_some by lia.
Qed.

Lemma decrypt_writes `{!OpenSSL} Key KeySize Iv IvSize AData ADataSize DataIn DataInSize Tag TagSize
    OutBuf DataOutSize k iv a m T ok P :
  gcm_args_ok KeySize IvSize ADataSize DataInSize TagSize DataOutSize = true ->
  rdp Key KeySize = Some k -> rdp Iv IvSize = Some iv -> rdp AData ADataSize = Some a ->
  rdp DataIn DataInSize = Some m -> rdp Tag TagSize = Some T ->
  GCM_begin false KeySize = true -> GCM_open k iv a m true T = (ok, P) -> zlen P <= zlen OutBuf ->
  AeadAesGcmDecrypt Key KeySize Iv IvSize AData ADataSize DataIn DataInSize Tag TagSize
      (Some OutBuf) DataOutSize
  = Some (ok, Some (P ++ drop (length P) OutBuf),
          if ok then (fun _ => DataInSize) <$> DataOutSize else DataOutSize).
Proof.
  intros HA HK HI HAD HD HT HB HS HP. unfold AeadAesGcmDecrypt. rewrite HA, HB, HK, HI, HAD, HD, HT.
  cbn [negb notnull]. by rewrite HS, wrp_some by lia.
Qed.

(** Conversion unfolds the code last. *)
#[local] Strategy 1000 [evp_seal evp_open].

(** ** AES-GCM of the code

    The primitives [S] with the EVP calls of AesGcm.v as their AES-GCM. *)
Section RealGcm.
Context (S : OpenSSL) (RAND : Z -> option bytes) (inplace : bool) (mem : evp_mem).
Definition with_aes_gcm : OpenSSL := {|
  SHA256 := SHA256; HMAC_SHA256 := HMAC_SHA256;
  GCM_begin := fun e n => notnull (evp_begin RAND mem e n);
  GCM_seal := evp_seal RAND inplace mem; GCM_open := evp_open RAND inplace mem;
  EC_KEY := EC_KEY; EC_half := EC_half; EC_known := EC_known; EC_public := EC_public;
  X509_ec_key := X509_ec_key; ECDSA_do_verify := ECDSA_do_verify; X509_chain_ok := X509_chain_ok
|}.

Lemma gcm_begin_mem e n : @GCM_begin with_aes_gcm e n = mem_ok mem.
Proof. cbn [GCM_begin with_aes_gcm]. rewrite evp_begin_run. by destruct (mem_ok mem). Qed.
Lemma with_aes_gcm_laws : mem_ok mem = true -> @OpenSSLLaws S -> @OpenSSLLaws with_aes_gcm.
Proof.
  intros HM []. split; try done; [intros; by rewrite gcm_begin_mem| | |]; cbn [GCM_seal GCM_open with_aes_gcm]; unfold gcm_sizes, INT_MAX.
  - intros k iv a m (Hk & Hi & Ha & Hm). eexists _, _. split.
    + apply evp_seal_run; done || lia.
    + split; [by apply evp_data_length|]. rewrite length_take, tag_length. done.
  - intros k iv a ct tag (Hk & Hi & Ha & Hm) HT. rewrite evp_open_run by (done || lia). cbn [snd].
    by apply evp_data_length.
  - intros k iv a ct tag m (Hk & Hi & Ha & Hm) HT HL. rewrite evp_open_seal by (done || lia).
    split; [by intros [_ HS]|]. intros HS. split; [lia|exact HS].
Qed.
(** What the argument checks say. *)
Lemma gcm_args_sizes KeySize IvSize ADataSize DataInSize TagSize DataOutSize Key Iv AData DataIn k iv a m :
  gcm_args_ok KeySize IvSize ADataSize DataInSize TagSize DataOutSize = true ->
  rdp Key KeySize = Some k -> rdp Iv IvSize = Some iv -> rdp AData ADataSize = Some a ->
  rdp DataIn DataInSize = Some m ->
  gcm_key_size k /\ zlen iv = 12 /\ zlen a <= 2147483647 /\ zlen m <= 2147483647 /\
  12 <= TagSize <= 16 /\ zlen m = DataInSize.
Proof.
  intros HA Hk Hi Ha Hm. unfold gcm_args_ok in HA.
  apply rdp_length in Hk, Hi, Ha, Hm.
  rewrite !andb_true_iff, !orb_true_iff, !Z.leb_le, !Z.eqb_eq in HA.
  unfold gcm_key_size, INT_MAX in *.
  destruct HA as [[[[[H1 H2] H3] H4] [H5 H6]] _]. lia.
Qed.

Context (Key Iv AData DataIn : option bytes) (KeySize IvSize ADataSize DataInSize TagSize : Z)
        (DataOutSize : option Z) (k iv a m TagBuf OutBuf : bytes).
Hypothesis (Hargs : gcm_args_ok KeySize IvSize ADataSize DataInSize TagSize DataOutSize = true).
Hypothesis (HKey : rdp Key KeySize = Some k) (HIv : rdp Iv IvSize = Some iv).
Hypothesis (HAData : rdp AData ADataSize = Some a) (HDataIn : rdp DataIn DataInSize = Some m).
Hypothesis (Hk : all_bytes k) (Hiv : all_bytes iv) (Ha : all_bytes a) (Hm : all_bytes m).
Hypothesis (Hout : DataInSize <= zlen OutBuf).

(** C14: (refinement) [AeadAesGcmEncrypt] over the code of OpenSSL is AES-GCM of
    the standards: for arguments its checks accept and buffers that hold them, it
    returns TRUE, with the ciphertext of SP 800-38D under the cipher of FIPS 197
    at the start of [DataOut] and the tag at the start of [TagOut], when the two
    contexts can be allocated and the cipher fetched; otherwise it returns FALSE
    and writes nothing.  In the first case that code satisfies the laws of the
    interface the loaders are verified against. *)
Theorem aead_encrypt_standard :
  TagSize <= zlen TagBuf ->
  (mem_ok mem = true -> @OpenSSLLaws S -> @OpenSSLLaws with_aes_gcm) /\
  let '(C, T) := Sp800_38d.GCM_AE (Fips197.encrypt k) (Z.to_nat TagSize) iv m a in
  @AeadAesGcmEncrypt with_aes_gcm Key KeySize Iv IvSize AData ADataSize DataIn DataInSize
      (Some TagBuf) TagSize (Some OutBuf) DataOutSize
  = if mem_ok mem
    then Some (true, Some (T ++ drop (length T) TagBuf), Some (C ++ drop (length C) OutBuf),
               (fun _ => DataInSize) <$> DataOutSize)
    else Some (false, Some TagBuf, Some OutBuf, DataOutSize).
Proof using Hargs HKey HIv HAData HDataIn Hk Hiv Ha Hm Hout.
  intros HT. split; [exact with_aes_gcm_laws|].
  destruct (gcm_args_sizes _ _ _ _ _ _ _ _ _ _ _ _ _ _ Hargs HKey HIv HAData HDataIn)
    as (Hks & Hi12 & Hal & Hml & Hts & HmD).
  destruct (mem_ok mem) eqn:HM.
  - pose proof (evp_seal_standard RAND inplace mem k iv a m TagSize HM Hk Hiv Ha Hm Hks Hi12 Hal Hml
                  ltac:(lia)) as HS.
    pose proof (evp_seal_lengths RAND inplace mem k iv a m TagSize HM Hks Hi12 Hal Hml ltac:(lia)) as HL.
    destruct (Sp800_38d.GCM_AE _ _ iv m a) as [C T]. rewrite HS in HL. destruct HL as [HLc HLt].
    apply (@encrypt_writes with_aes_gcm _ _ _ _ _ _ _ _ _ _ _ _ k iv a m); try assumption; try lia.
    by rewrite gcm_begin_mem.
  - destruct (Sp800_38d.GCM_AE _ _ iv m a) as [C T]. unfold AeadAesGcmEncrypt.
    by rewrite Hargs, gcm_begin_mem, HM.
Qed.

(** C15: (functional) [AeadAesGcmDecrypt] decrypts, decides the tag, and does not
    protect the message: for arguments its checks accept, when the two contexts can
    be allocated and the cipher fetched, it writes the ciphertext, decrypted as
    SP 800-38D says under the cipher of FIPS 197, to [DataOut] in every case, and
    returns TRUE exactly when GCM-AD of the standard accepts the tag; only then is
    [*DataOutSize] set.  In particular the ciphertext and the tag that GCM-AE gives
    for a message give TRUE and that message.  Without memory or cipher it returns
    FALSE and writes nothing. *)
Theorem aead_decrypt_standard T Tag :
  rdp Tag TagSize = Some T -> all_bytes T ->
  let cipher := Fips197.encrypt k in
  let P := Sp800_38d.decrypted cipher iv m in
  let ok := match Sp800_38d.GCM_AD cipher (Z.to_nat TagSize) iv m a T with
            | Some _ => true | None => false end in
  @AeadAesGcmDecrypt with_aes_gcm Key KeySize Iv IvSize AData ADataSize DataIn DataInSize
      Tag TagSize (Some OutBuf) DataOutSize
  = (if mem_ok mem
     then Some (ok, Some (P ++ drop (length P) OutBuf),
                if ok then (fun _ => DataInSize) <$> DataOutSize else DataOutSize)
     else Some (false, Some OutBuf, DataOutSize)) /\
  zlen P = DataInSize /\
  forall msg, Sp800_38d.GCM_AE cipher (Z.to_nat TagSize) iv msg a = (m, T) -> ok = true /\ P = msg.
Proof using Hargs HKey HIv HAData HDataIn Hk Hiv Ha Hm Hout.
  intros HTag HT cipher P ok.
  destruct (gcm_args_sizes _ _ _ _ _ _ _ _ _ _ _ _ _ _ Hargs HKey HIv HAData HDataIn)
    as (Hks & Hi12 & Hal & Hml & Hts & HmD).
  pose proof (rdp_length _ _ _ HTag) as HTL.
  assert (Hcb : forall b, typed 16 b -> typed 16 (cipher b)).
  { intros b Hb. apply encrypt_typed; [done| |done]. unfold key_size, gcm_key_size in *. lia. }
  assert (HP : zlen P = DataInSize) by (unfold P; rewrite decrypted_length; done).
  split; [|split; [exact HP|]].
  - destruct (mem_ok mem) eqn:HM;
      [|unfold AeadAesGcmDecrypt; by rewrite Hargs, gcm_begin_mem, HM].
    destruct (evp_open_standard RAND inplace mem k iv a m T HM Hk Hiv Ha Hm HT Hks Hi12 Hal Hml ltac:(lia))
      as [HO _]. fold cipher P in HO.
    replace (length T) with (Z.to_nat TagSize) in HO by lia. fold ok in HO.
    apply (@decrypt_writes with_aes_gcm _ _ _ _ _ _ _ _ _ _ _ _ k iv a m T); try assumption; [|lia].
    by rewrite gcm_begin_mem.
  - intros msg HE. destruct (GCM_AE_AD cipher _ iv msg a m T Hcb Hiv HE) as [-> HQ].
    split; [|done]. unfold ok, Sp800_38d.GCM_AD. by rewrite decide_True.
Qed.
End RealGcm.

(** ** A concrete instance

    Stand-ins for the primitives that satisfy the laws, for the examples: a
    checksum as digest and tag, the identity as cipher, a key as its own
    certificate, a signature that repeats the digest and the key. *)
Section Toy.
Definition toy_sum (b : bytes) : Z := fold_left (fun a x => (a * 257 + x + 1) mod 2 ^ 256) b 1.

Definition toy_tag (k iv a m : bytes) : bytes := le_bytes 16 (toy_sum (k ++ iv ++ a ++ m)).

Definition toy_ssl : OpenSSL := {|
  SHA256 := fun m => Some (le_bytes 32 (toy_sum m));
  HMAC_SHA256 := fun k m => Some (le_bytes 32 (toy_sum (k ++ m)));
  GCM_begin := fun _ _ => true;
  GCM_seal := fun k iv a m out t =>
    (true, if out : bool then m else [], take (Z.to_nat t) (toy_tag k iv a m));
  GCM_open := fun k iv a ct out tag =>
    (bool_decide (tag = take (length tag) (toy_tag k iv a ct)), if out : bool then ct else []);
  EC_KEY := bytes;
  EC_half := fun _ => 32;
  EC_known := fun _ => true;
  EC_public := fun k => Some (take 64 (k ++ zeros 64));
  X509_ec_key := fun c => if decide (length c = 64%nat) then Some c else None;
  ECDSA_do_verify := fun k h s => bool_decide (s = h ++ take 32 k);
  X509_chain_ok := fun c ca => match c with [] => false | _ => bool_decide (take 4 c = take 4 ca) end
|}.

Lemma toy_laws : @OpenSSLLaws toy_ssl.
Proof.
  split; try (cbn; by eauto).
  - intros m d [= <-]. done.
  - intros m d [= <-]. apply (le_bytes_all 32).
  - intros k iv a ct tag m _ HT HL. cbn [GCM_open GCM_seal toy_ssl].
    change (Z.to_nat 16) with 16%nat. rewrite HT. set (t := take 16 (toy_tag k iv a ct)).
    assert (Hm : forall m', m' = ct -> take 16 (toy_tag k iv a m') = t) by (by intros m' ->).
    clearbody t. case_bool_decide as HE; split; intros HX.
    + injection HX as <-. by rewrite HE, Hm.
    + apply pair_equal_spec in HX as [HX _]. by injection HX as <-.
    + discriminate HX.
    + apply pair_equal_spec in HX as [HX HX2]. injection HX as <-. by rewrite Hm in HX2.
  - intros k p [= <-]. cbn [EC_half toy_ssl]. rewrite length_take, length_app.
    change (length (zeros 64)) with 64%nat. lia.
Qed.
End Toy.

(** AES-GCM of the code at work: the call of the loaders on three bytes. *)
Lemma aead_encrypt_standard_witness :
  let '(C, T) := Sp800_38d.GCM_AE (Fips197.encrypt (zeros 32)) 16 (zeros 12) [1; 2; 3] [] in
  @AeadAesGcmEncrypt (with_aes_gcm toy_ssl no_rand false all_mem) (Some (zeros 32)) 32 (Some (zeros 12)) 12
      None 0 (Some [1; 2; 3]) 3 (Some (zeros 16)) 16 (Some (zeros 4)) (Some 4)
  = Some (true, Some (T ++ drop (length T) (zeros 16)), Some (C ++ drop (length C) (zeros 4)),
          Some 3).
Proof.
  assert (HZ : forall n, all_bytes (zeros n)) by (intros n; apply Forall_replicate; unfold is_byte; lia).
  apply (aead_encrypt_standard toy_ssl no_rand false all_mem (Some (zeros 32)) (Some (zeros 12)) None
           (Some [1; 2; 3]) 32 12 0 3 16 (Some 4) (zeros 32) (zeros 12) [] [1; 2; 3]
           (zeros 16) (zeros 4) eq_refl eq_refl eq_refl eq_refl eq_refl (HZ _) (HZ _)).
  - apply Forall_nil_2.
  - unfold all_bytes, is_byte. rewrite !Forall_cons. split_and!; [lia..|apply Forall_nil_2].
  - done.
  - done.
Defined.

(** The ciphertext of these three bytes comes back. *)
Definition ex_gcm_sealed : bytes * bytes :=
  Sp800_38d.GCM_AE (Fips197.encrypt (zeros 32)) 16 (zeros 12) [1; 2; 3] [].
Lemma aead_decrypt_standard_witness :
  @AeadAesGcmDecrypt (with_aes_gcm toy_ssl no_rand false all_mem) (Some (zeros 32)) 32
      (Some (zeros 12)) 12 None 0 (Some (fst ex_gcm_sealed)) 3 (Some (snd ex_gcm_sealed)) 16
      (Some (zeros 4)) (Some 4)
  = Some (true, Some [1; 2; 3; 0], Some 3).
Proof.
  assert (HZ : forall n, all_bytes (zeros n)) by (intros n; apply Forall_replicate; unfold is_byte; lia).
  assert (HC : exists x y z, fst ex_gcm_sealed = [x; y; z] /\ all_bytes [x; y; z])
    by (vm_compute; eexists _, _, _; split; [reflexivity|]; repeat constructor; congruence).
  destruct HC as (x & y & z & HC & HB).
  destruct (aead_decrypt_standard toy_ssl no_rand false all_mem (Some (zeros 32)) (Some (zeros 12)) None
           (Some (fst ex_gcm_sealed)) 32 12 0 3 16 (Some 4) (zeros 32) (zeros 12) [] (fst ex_gcm_sealed)
           (zeros 4) eq_refl eq_refl eq_refl eq_refl) with (T := snd ex_gcm_sealed)
           (Tag := Some (snd ex_gcm_sealed)) as (HD & _ & HM).
  - vm_compute. reflexivity.
  - apply HZ.
  - apply HZ.
  - apply Forall_nil_2.
  - rewrite HC. exact HB.
  - vm_compute. congruence.
  - vm_compute. reflexivity.
  - vm_compute. repeat constructor; congruence.
  - destruct (HM [1; 2; 3]) as [Hok HP]; [vm_compute; reflexivity|].
    rewrite HD, Hok, HP. reflexivity.
Defined.

(** Two blocks through the layer of the loaders, on a machine whose allocations
    succeed. *)
#[local] Instance unit_pool : Pool unit := {| AllocatePool := fun _ => ret true |}.
Lemma unit_pool_ok : PoolOk unit.
Proof. intros n w. reflexivity. Qed.

Lemma sbc_aes_cbc_roundtrip_witness :
  let m := ex_block ++ ex_block in
  let C := Sp800_38a.CBC_Encrypt (Fips197.encrypt ex_key) ex_block m in
  exists h,
    @SBC_AESEncrypt unit toy_ssl (cbc_context (Some h) ex_key ex_block m (zeros 32) 32) tt
    = (Ret (SBCOK, cbc_context (Some h) ex_key ex_block m (C ++ []) 32), tt) /\
    @SBC_AESDecrypt unit toy_ssl (cbc_context (Some h) ex_key ex_block C (zeros 32) 32) tt
    = (Ret (SBCOK, cbc_context (Some h) ex_key ex_block C (m ++ []) 32), tt).
Proof.
  destruct (@sbc_aes_cbc_roundtrip unit unit_pool unit_pool_ok toy_ssl ex_key ex_block
              (ex_block ++ ex_block) (zeros 32) 32 (zeros 32) 32 tt) as (h & _ & HE & HD).
  - exact ex_key_bytes.
  - right. right. reflexivity.
  - exact ex_block_typed.
  - apply Forall_app. split; apply ex_block_typed.
  - reflexivity.
  - done.
  - done.
  - done.
  - exists h. split; [exact HE|exact HD].
Defined.
