(* ===== verification/PrintLib.v ===== *)
(** * Formatted printing (MdePkg/Library/BasePrintLib)

    The print library the loaders' log and console output go through:
    [BasePrintLibSPrintMarker] of PrintLibInternal.c with the functions below
    it, and its entry points of PrintLib.c.  A string is the list of its
    characters, without the terminator; a buffer is the list of all its
    characters.  The variable arguments are the list of their 64-bit slots.
    ASSERT has no effect. *)
From stdpp Require Import base list strings.
From Stdlib Require Import ZArith Lia Ascii.
From S2P Require Import Prelude.
#[local] Open Scope Z_scope.

(** ** Outcomes

    [NoFuel] is a loop that was not given enough iterations. *)
Inductive undefined :=
| BadArgument    (** no argument left, or one of another type *)
| OutOfBounds    (** an access outside a buffer or a string *)
| Overflow       (** a signed overflow *)
| Uninitialised. (** a read of an uninitialised variable *)

Inductive outcome (A : Type) :=
| Val (a : A)
| Undef (u : undefined)
| NoFuel.
Arguments Val {A} a.
Arguments Undef {A} u.
Arguments NoFuel {A}.

Definition obind {A B} (m : outcome A) (k : A -> outcome B) : outcome B :=
  match m with
  | Val a => k a
  | Undef u => Undef u
  | NoFuel => NoFuel
  end.

Declare Scope print_scope.
Delimit Scope print_scope with print.
#[local] Open Scope print_scope.
Notation "'do' x '<-' m ';' k" := (obind m (fun x => k))
  (at level 10, x pattern, m at level 100, k at level 200,
   format "'[v' 'do'  x  '<-'  m ';' '/' k ']'") : print_scope.

Definition of_option {A} (u : undefined) (o : option A) : outcome A :=
  match o with Some a => Val a | None => Undef u end.

(** ** Characters and signed integers *)
Definition ch (a : ascii) : Z := Z.of_N (N_of_ascii a).
Definition txt (s : string) : list Z := ch <$> String.list_ascii_of_string s.
Definition CR : Z := 13.
Definition LF : Z := 10.

Definition s32 (z : Z) : Z := let u := u32 z in if u <? 2 ^ 31 then u else u - 2 ^ 32.
Definition s64 (z : Z) : Z := let u := u64 z in if u <? 2 ^ 63 then u else u - 2 ^ 64.

(** ** Flags *)
Definition LEFT_JUSTIFY : Z := 1.
Definition PREFIX_SIGN : Z := 2.
Definition PREFIX_BLANK : Z := 4.
Definition COMMA_TYPE : Z := 8.
Definition LONG_TYPE : Z := 16.
Definition PREFIX_ZERO : Z := 32.
Definition OUTPUT_UNICODE : Z := 64.
Definition RADIX_HEX : Z := 128.
Definition FORMAT_UNICODE : Z := 256.
Definition PAD_TO_WIDTH : Z := 512.
Definition ARGUMENT_UNICODE : Z := 1024.
Definition PRECISION : Z := 2048.
Definition ARGUMENT_REVERSED : Z := 4096.
Definition COUNT_ONLY_NO_PRINT : Z := 8192.
Definition UNSIGNED_TYPE : Z := 16384.

(** [(Flags & f) != 0]. *)
Definition isset (Flags f : Z) : bool := negb (Z.land Flags f =? 0).

Definition MAXIMUM_VALUE_CHARACTERS : Z := 38.
Definition RSIZE_MAX : Z := 1000000.
Definition ASCII_RSIZE_MAX : Z := 1000000.
Definition WARNING_STATUS_NUMBER : Z := 7.
Definition ERROR_STATUS_NUMBER : Z := 35.

(** ** Variable arguments *)
(** [Data4] is an array of 8 bytes, by index. *)
Record GUID := mkGuid { Data1 : Z; Data2 : Z; Data3 : Z; Data4 : Z -> Z }.
Record TIME := mkTime {
  Year : Z; Month : Z; Day : Z; Hour : Z; Minute : Z; Second : Z; Nanosecond : Z
}.

(** A slot: an integer of 64 bits (an [int] has its value in the low half), or
    the address of an object with that object.  A null pointer is the integer 0. *)
Inductive va_arg :=
| VaInt (z : Z)
| VaStr16 (addr : Z) (s : list Z)
| VaStr8 (addr : Z) (s : list Z)
| VaGuid (addr : Z) (g : GUID)
| VaTime (addr : Z) (t : TIME).

Definition slot_bits (a : va_arg) : Z :=
  match a with
  | VaInt z | VaStr16 z _ | VaStr8 z _ | VaGuid z _ | VaTime z _ => u64 z
  end.

Definition VA_LIST : Type := list va_arg.

Definition va_next (args : VA_LIST) : outcome (va_arg * VA_LIST) :=
  match args with
  | a :: args => Val (a, args)
  | [] => Undef BadArgument
  end.

(** [VA_ARG (Marker, UINTN)], [VA_ARG (Marker, INT64)], [VA_ARG (Marker, int)]. *)
Definition VA_ARG_UINTN (args : VA_LIST) : outcome (Z * VA_LIST) :=
  do (a, args) <- va_next args; Val (slot_bits a, args).
Definition VA_ARG_INT64 (args : VA_LIST) : outcome (Z * VA_LIST) :=
  do (a, args) <- va_next args; Val (s64 (slot_bits a), args).
Definition VA_ARG_int (args : VA_LIST) : outcome (Z * VA_LIST) :=
  do (a, args) <- va_next args; Val (s32 (slot_bits a), args).

(** A pointer argument; the inner [None] is a null pointer. *)
Definition VA_ARG_ptr {A} (cast : va_arg -> option A) (args : VA_LIST)
  : outcome (option A * VA_LIST) :=
  do (a, args) <- va_next args;
  match a with
  | VaInt z => if u64 z =? 0 then Val (None, args) else Undef BadArgument
  | _ => match cast a with Some x => Val (Some x, args) | None => Undef BadArgument end
  end.

Definition is_str16 (a : va_arg) : option (list Z) :=
  match a with VaStr16 _ s => Some s | _ => None end.
Definition is_str8 (a : va_arg) : option (list Z) :=
  match a with VaStr8 _ s => Some s | _ => None end.
Definition is_guid (a : va_arg) : option GUID :=
  match a with VaGuid _ g => Some g | _ => None end.
Definition is_time (a : va_arg) : option TIME :=
  match a with VaTime _ t => Some t | _ => None end.

(** ** Filling the buffer *)

(** [BasePrintLibFillBuffer]: [Buffer] and [EndBuffer] are positions in [buf];
    the loop runs while [Index < Length] and [Buffer < EndBuffer], so
    [EndBuffer - Buffer] bounds its iterations.  A character is stored in
    [Increment] bytes. *)
Definition store (Increment Character : Z) : Z :=
  if Increment =? 1 then u8 Character else u16 Character.

Fixpoint FillLoop (room : nat) (buf : list Z) (Buffer Index Length Character : Z)
  : outcome (list Z * Z) :=
  match room with
  | O => Val (buf, Buffer)
  | S room =>
      if Index <? Length then
        do buf <- of_option OutOfBounds (wr buf Buffer [Character]);
        FillLoop room buf (Buffer + 1) (Index + 1) Length Character
      else Val (buf, Buffer)
  end.

Definition BasePrintLibFillBuffer (buf : list Z) (Buffer EndBuffer Length Character Increment : Z)
  : outcome (list Z * Z) :=
  FillLoop (Z.to_nat (EndBuffer - Buffer)) buf Buffer 0 Length (store Increment Character).

(** ** Numbers *)
Definition mHexStr : list Z := txt "0123456789ABCDEF".

(** The loop of [BasePrintLibValueToString]: the characters behind
    [ValueBuffer[0]], least significant digit first. *)
Fixpoint ValueLoop (fuel : nat) (Value Radix : Z) : outcome (list Z) :=
  match fuel with
  | O => NoFuel
  | S fuel =>
      let Remainder := Value mod Radix in
      let Value := Value / Radix in
      do c <- of_option OutOfBounds (mHexStr !! Z.to_nat Remainder);
      if Value =? 0 then Val [c]
      else do l <- ValueLoop fuel Value Radix; Val (c :: l)
  end.

(** [BasePrintLibValueToString]; the buffer has [MAXIMUM_VALUE_CHARACTERS]
    bytes and the first one is the zero byte. *)
Definition BasePrintLibValueToString (Value Radix : Z) : outcome (list Z) :=
  do l <- ValueLoop 64 (u64 Value) Radix;
  if zlen l <? MAXIMUM_VALUE_CHARACTERS then Val l else Undef OutOfBounds.

(** [Value = -Value] of an INT64. *)
Definition negate64 (Value : Z) : outcome Z :=
  if Value =? - 2 ^ 63 then Undef Overflow else Val (- Value).

(** ** The format string

    The digits of a width or a precision. *)
Definition is_digit (c : Z) : bool := (ch "0" <=? c) && (c <=? ch "9").

Fixpoint scan_digits (Format : list Z) (Count : Z) : Z * list Z :=
  match Format with
  | c :: Format' =>
      if is_digit c then scan_digits Format' (u64 (Count * 10 + c - ch "0")) else (Count, Format)
  | [] => (Count, [])
  end.

(** What the flags and the width of a directive leave: the flags, the width and
    the precision, the type character (0 at the end of the format) and what
    follows it. *)
Record directive := mkDirective {
  dFlags : Z;
  dWidth : Z;
  dPrecision : Z;
  dType : Z;
  dFormat : list Z
}.

Fixpoint parse_flags (fuel : nat) (Format : list Z) (Flags Width Precision : Z) (args : VA_LIST)
  : outcome (directive * VA_LIST) :=
  match fuel with
  | O => NoFuel
  | S fuel =>
    match Format with
    | [] => Val (mkDirective Flags Width 0 0 [], args)
    | c :: r =>
      if c =? ch "." then parse_flags fuel r (Z.lor Flags PRECISION) Width Precision args
      else if c =? ch "-" then parse_flags fuel r (Z.lor Flags LEFT_JUSTIFY) Width Precision args
      else if c =? ch "+" then parse_flags fuel r (Z.lor Flags PREFIX_SIGN) Width Precision args
      else if c =? ch " " then parse_flags fuel r (Z.lor Flags PREFIX_BLANK) Width Precision args
      else if c =? ch "," then parse_flags fuel r (Z.lor Flags COMMA_TYPE) Width Precision args
      else if (c =? ch "L") || (c =? ch "l")
      then parse_flags fuel r (Z.lor Flags LONG_TYPE) Width Precision args
      else if c =? ch "*" then
        do (n, args) <- VA_ARG_UINTN args;
        if isset Flags PRECISION then parse_flags fuel r Flags Width n args
        else parse_flags fuel r (Z.lor Flags PAD_TO_WIDTH) n Precision args
      else if is_digit c then
        let Flags := if (c =? ch "0") && negb (isset Flags PRECISION)
                     then Z.lor Flags PREFIX_ZERO else Flags in
        let '(Count, r) := scan_digits Format 0 in
        if isset Flags PRECISION then parse_flags fuel r Flags Width Count args
        else parse_flags fuel r (Z.lor Flags PAD_TO_WIDTH) Count Precision args
      else Val (mkDirective Flags Width Precision c r, args)
    end
  end.

(** ** Arguments

    What an iteration of the main loop has worked out before it prints:
    [aString] are the characters from [ArgumentString] on, in the order in
    which the loop walks over them. *)
Record argument := mkArgument {
  aFlags : Z;
  aWidth : Z;
  aPrecision : Z;
  aPrefix : Z;
  aComma : bool;
  aZeroPad : bool;
  aCount : Z;
  aDigits : Z;
  aString : list Z
}.

(** The cases 'p', 'X', 'x', 'u' and 'd', which fall through to one another:
    the flags of the type. *)
Definition integer_flags (c Flags : Z) : Z :=
  let Flags := if c =? ch "p"
    then Z.lor (Z.ldiff Flags (Z.lor (Z.lor PREFIX_BLANK PREFIX_SIGN)
                                     (Z.lor PREFIX_ZERO LONG_TYPE))) LONG_TYPE
    else Flags in
  let Flags := if (c =? ch "p") || (c =? ch "X") then Z.lor Flags PREFIX_ZERO else Flags in
  let Flags := if (c =? ch "p") || (c =? ch "X") || (c =? ch "x")
    then Z.lor Flags RADIX_HEX else Flags in
  if negb (c =? ch "d") && negb (isset Flags RADIX_HEX)
  then Z.lor (Z.ldiff Flags PREFIX_SIGN) UNSIGNED_TYPE else Flags.

(** The same cases from the point where the argument has been fetched: the
    radix and the sign. *)
Definition integer_conversion (Flags Precision Prefix : Z) (Comma : bool) (Value : Z)
  : outcome (Z * Z * Z * bool * Z * Z) :=
  if negb (isset Flags RADIX_HEX) then
    let '(Flags, Precision) :=
      if Comma then (Z.ldiff Flags PREFIX_ZERO, 1) else (Flags, Precision) in
    if (Value <? 0) && negb (isset Flags UNSIGNED_TYPE) then
      do Value <- negate64 Value;
      Val (Z.lor Flags PREFIX_SIGN, Precision, ch "-", Comma, 10, Value)
    else if isset Flags UNSIGNED_TYPE && negb (isset Flags LONG_TYPE) then
      Val (Flags, Precision, Prefix, Comma, 10, u32 Value)
    else Val (Flags, Precision, Prefix, Comma, 10, Value)
  else
    if negb (isset Flags LONG_TYPE) && (Value <? 0)
    then Val (Flags, Precision, Prefix, false, 16, u32 Value)
    else Val (Flags, Precision, Prefix, false, 16, Value).

(** Then the digits, and the counts and the precision they give. *)
Definition integer_argument (Flags Width Precision Value : Z) : outcome argument :=
  let Prefix := if isset Flags PREFIX_BLANK then ch " " else 0 in
  let Prefix := if isset Flags PREFIX_SIGN then ch "+" else Prefix in
  let Comma := isset Flags COMMA_TYPE in
  do (Flags, Precision, Prefix, Comma, Radix, Value) <-
    integer_conversion Flags Precision Prefix Comma Value;
  do ValueBuffer <- BasePrintLibValueToString Value Radix;
  let Count := if (Value =? 0) && (Precision =? 0) then 0 else zlen ValueBuffer in
  let ArgumentString := rev (take (Z.to_nat Count) ValueBuffer) in
  let Digits := Count mod 3 in
  let Digits := if Digits =? 0 then Digits else 3 - Digits in
  let Count := if Comma && negb (Count =? 0) then Count + (Count - 1) / 3 else Count in
  let '(Count, Precision) :=
    if Prefix =? 0 then (Count, Precision) else (Count + 1, u64 (Precision + 1)) in
  let Flags := Z.lor Flags ARGUMENT_REVERSED in
  let Precision :=
    if isset Flags PREFIX_ZERO && negb (isset Flags LEFT_JUSTIFY) &&
       isset Flags PAD_TO_WIDTH && negb (isset Flags PRECISION)
    then Width else Precision in
  Val (mkArgument Flags Width Precision Prefix Comma true Count Digits ArgumentString).

(** An argument that is a string, as it is before its characters are counted. *)
Definition string_argument (Flags Width Precision : Z) (s : list Z) : argument :=
  mkArgument Flags Width Precision 0 false false 0 0 s.

(** The tables of status names. *)
Definition mWarningString : list string :=
  ["Success"; "Warning Unknown Glyph"; "Warning Delete Failure"; "Warning Write Failure";
   "Warning Buffer Too Small"; "Warning Stale Data"; "Warning File System";
   "Warning Reset Required"]%string.
Definition mErrorString : list string :=
  ["Load Error"; "Invalid Parameter"; "Unsupported"; "Bad Buffer Size"; "Buffer Too Small";
   "Not Ready"; "Device Error"; "Write Protected"; "Out of Resources"; "Volume Corrupt";
   "Volume Full"; "No Media"; "Media changed"; "Not Found"; "Access Denied"; "No Response";
   "No mapping"; "Time out"; "Not started"; "Already started"; "Aborted"; "ICMP Error";
   "TFTP Error"; "Protocol Error"; "Incompatible Version"; "Security Violation"; "CRC Error";
   "End of Media"; "Reserved (29)"; "Reserved (30)"; "End of File"; "Invalid Language";
   "Compromised Data"; "IP Address Conflict"; "HTTP Error"]%string.

(** The name of a status that has one. *)
Definition status_name (Status : Z) : option string :=
  if 2 ^ 63 <=? Status then
    let Index := Status - 2 ^ 63 in
    if (0 <? Index) && (Index <=? ERROR_STATUS_NUMBER)
    then mErrorString !! Z.to_nat (Index - 1) else None
  else if Status <=? WARNING_STATUS_NUMBER then mWarningString !! Z.to_nat Status else None.

Definition guid_format : list Z := txt "%08x-%04x-%04x-%02x%02x-%02x%02x%02x%02x%02x%02x".
Definition time_format : list Z := txt "%02d/%02d/%04d  %02d:%02d".

(** The characters counted for a string: up to its end, a zero character, or
    the precision where one is given. *)
Fixpoint CountLoop (s : list Z) (Flags Precision Count : Z) : Z :=
  match s with
  | c :: s => if negb (c =? 0) && ((Count <? Precision) || negb (isset Flags PRECISION))
              then CountLoop s Flags Precision (Count + 1) else Count
  | [] => Count
  end.

(** ** Output *)

(** [Buf] is the whole buffer ([None]: a null pointer), [Pos] and [End] the
    positions of [Buffer] and [EndBuffer] in it. *)
Record output := mkOutput {
  Buf : option (list Z);
  Pos : Z;
  End : Z;
  LengthToReturn : Z
}.

(** One step that outputs: the length is added, and [Length] copies of the
    character are placed unless only the length is wanted. *)
Definition emit (Flags bpo Length Character : Z) (st : output) : outcome output :=
  let len := u64 (LengthToReturn st + Length * bpo) in
  match Buf st with
  | Some buf =>
      if isset Flags COUNT_ONLY_NO_PRINT then Val (mkOutput (Some buf) (Pos st) (End st) len)
      else do (buf, pos) <- BasePrintLibFillBuffer buf (Pos st) (End st) (s64 Length) Character bpo;
           Val (mkOutput (Some buf) pos (End st) len)
  | None => Val (mkOutput None (Pos st) (End st) len)
  end.

(** The loop that copies the argument string, with its commas. *)
Fixpoint CopyLoop (s : list Z) (Flags bpo Mask Index Count Digits : Z) (Comma : bool)
    (st : output) : outcome output :=
  match s with
  | c :: s =>
      if (Index <? Count) && negb (c =? 0) then
        do st <- emit Flags bpo 1 (Z.land c Mask) st;
        let Index := Index + 1 in
        if Comma then
          let Digits := Digits + 1 in
          if Digits =? 3 then
            let Index := Index + 1 in
            do st <- (if Index <? Count then emit Flags bpo 1 (ch ",") st else Val st);
            CopyLoop s Flags bpo Mask Index Count 0 Comma st
          else CopyLoop s Flags bpo Mask Index Count Digits Comma st
        else CopyLoop s Flags bpo Mask Index Count Digits Comma st
      else Val st
  | [] => Val st
  end.

(** The rest of an iteration: padding, prefix, string, padding. *)
Definition print_argument (bpo : Z) (a : argument) (st : output) : outcome output :=
  let Flags := aFlags a in
  let Mask := if isset Flags ARGUMENT_UNICODE then 65535 else 255 in
  let Count := if isset Flags ARGUMENT_REVERSED then aCount a
               else CountLoop (aString a) Flags (aPrecision a) 0 in
  let Precision := if aPrecision a <? Count then Count else aPrecision a in
  let pad := u64 (aWidth a - Precision) in
  do st <- (if isset Flags PAD_TO_WIDTH && negb (isset Flags LEFT_JUSTIFY)
            then emit Flags bpo pad (ch " ") st else Val st);
  do st <- (if aZeroPad a then
              do st <- (if aPrefix a =? 0 then Val st else emit Flags bpo 1 (aPrefix a) st);
              emit Flags bpo (u64 (Precision - Count)) (ch "0") st
            else
              do st <- emit Flags bpo (u64 (Precision - Count)) (ch " ") st;
              if aPrefix a =? 0 then Val st else emit Flags bpo 1 (aPrefix a) st);
  do st <- CopyLoop (aString a) Flags bpo Mask (if aPrefix a =? 0 then 0 else 1) Count
             (aDigits a) (aComma a) st;
  if isset Flags PAD_TO_WIDTH && isset Flags LEFT_JUSTIFY
  then emit Flags bpo pad (ch " ") st else Val st.

(** ** The worker

    [SPrint] stands for the nested call to [BasePrintLibSPrint] that the types
    g, t and r make, with a buffer of [MAXIMUM_VALUE_CHARACTERS] bytes and an
    ASCII format; it returns the string the buffer then holds. *)
Section Worker.
Variable SPrint : list Z -> VA_LIST -> outcome (list Z).

(** A line end: '\r\n' and '\r' stand for themselves, '\n' and '\n\r' for
    '\r\n'.  [c] is the character, [r] what follows it. *)
Definition line_end (c : Z) (r : list Z) : list Z * list Z :=
  if c =? CR then
    match r with
    | x :: r' => if x =? LF then ([CR; LF], r') else ([CR], r)
    | [] => ([CR], r)
    end
  else
    match r with
    | x :: r' => if x =? CR then ([CR; LF], r') else ([CR; LF], r)
    | [] => ([CR; LF], r)
    end.

(** The switch over the type of a directive. *)
Definition directive_argument (d : directive) (args : VA_LIST)
  : outcome (argument * list Z * VA_LIST) :=
  let c := dType d in
  let Flags := dFlags d in
  let Width := dWidth d in
  let Precision := dPrecision d in
  let r := dFormat d in
  if (c =? ch "p") || (c =? ch "X") || (c =? ch "x") || (c =? ch "u") || (c =? ch "d") then
    let Flags := integer_flags c Flags in
    do (Value, args) <- (if isset Flags LONG_TYPE then VA_ARG_INT64 args else VA_ARG_int args);
    do a <- integer_argument Flags Width Precision Value;
    Val (a, r, args)
  else if (c =? ch "s") || (c =? ch "S") || (c =? ch "a") then
    let uni := negb (c =? ch "a") in
    do (s, args) <- VA_ARG_ptr (if uni then is_str16 else is_str8) args;
    let Flags := if uni && notnull s then Z.lor Flags ARGUMENT_UNICODE else Flags in
    let Precision := if isset Flags PRECISION then Precision else 0 in
    Val (string_argument Flags Width Precision (default (txt "<null string>") s), r, args)
  else if c =? ch "c" then
    do (z, args) <- VA_ARG_UINTN args;
    Val (string_argument (Z.lor Flags ARGUMENT_UNICODE) Width Precision [Z.land z 65535], r, args)
  else if c =? ch "g" then
    do (g, args) <- VA_ARG_ptr is_guid args;
    do s <- (match g with
             | None => Val (txt "<null guid>")
             | Some g => SPrint guid_format
                           (VaInt <$> [Data1 g; Data2 g; Data3 g; Data4 g 0; Data4 g 1;
                                       Data4 g 2; Data4 g 3; Data4 g 4; Data4 g 5;
                                       Data4 g 6; Data4 g 7])
             end);
    Val (string_argument Flags Width Precision s, r, args)
  else if c =? ch "t" then
    do (t, args) <- VA_ARG_ptr is_time args;
    do s <- (match t with
             | None => Val (txt "<null time>")
             | Some t => SPrint time_format
                           (VaInt <$> [Month t; Day t; Year t; Hour t; Minute t])
             end);
    Val (string_argument Flags Width Precision s, r, args)
  else if c =? ch "r" then
    do (Status, args) <- VA_ARG_UINTN args;
    do s <- (match status_name Status with
             | Some s => Val (txt s)
             | None => SPrint (txt "%08X") [VaInt Status]
             end);
    Val (string_argument Flags Width Precision s, r, args)
  else if (c =? CR) || (c =? LF) then
    let '(s, r) := line_end c r in
    Val (string_argument Flags Width Precision s, r, args)
  else
    Val (string_argument (Z.lor Flags ARGUMENT_UNICODE) Width Precision [c], r, args).

(** The switch over a character of the format: the argument to print, the
    format behind it and the arguments left.  [Flags] has only bits that were
    passed in. *)
Definition next_argument (c : Z) (r : list Z) (Flags : Z) (args : VA_LIST)
  : outcome (argument * list Z * VA_LIST) :=
  if c =? ch "%" then
    do (d, args) <- parse_flags (S (length r)) r Flags 0 1 args;
    directive_argument d args
  else if (c =? CR) || (c =? LF) then
    let '(s, r) := line_end c r in
    Val (string_argument Flags 0 1 s, r, args)
  else Val (string_argument (Z.lor Flags ARGUMENT_UNICODE) 0 1 [c], r, args).

(** The main loop.  Its [Flags] are the bits passed in: the others are cleared
    at the start of each iteration, and these are never changed. *)
Fixpoint SPrintLoop (fuel : nat) (Flags bpo : Z) (Format : list Z) (args : VA_LIST) (st : output)
  : outcome output :=
  match fuel with
  | O => NoFuel
  | S fuel =>
    match Format with
    | [] => Val st
    | c :: r =>
        if notnull (Buf st) && (End st <=? Pos st) then Val st
        else
          do (a, r, args) <- next_argument c r Flags args;
          do st <- print_argument bpo a st;
          SPrintLoop fuel Flags bpo r args st
    end
  end.

(** [BasePrintLibSPrintMarker]: the number of characters and the buffer. *)
Definition SPrintMarker (Buffer : option (list Z)) (BufferSize Flags : Z)
    (Format : option (list Z)) (args : VA_LIST) : outcome (Z * option (list Z)) :=
  let count := isset Flags COUNT_ONLY_NO_PRINT in
  if (0 <? BufferSize) && negb count && negb (notnull Buffer) then Val (0, Buffer)
  else if ((0 <? BufferSize) || count) && negb (notnull Format) then Val (0, Buffer)
  else if (if isset Flags OUTPUT_UNICODE then RSIZE_MAX else ASCII_RSIZE_MAX) <? BufferSize
  then Val (0, Buffer)
  else match Format with
  | None => if BufferSize =? 0 then Val (0, Buffer) else Undef OutOfBounds
  | Some fmt =>
    if (if isset Flags FORMAT_UNICODE then RSIZE_MAX else ASCII_RSIZE_MAX) <? zlen fmt
    then Val (0, Buffer)
    else if negb count && (BufferSize =? 0) then Val (0, Buffer)
    else
      let bpo := if isset Flags OUTPUT_UNICODE then 2 else 1 in
      let Buf0 := if count && (BufferSize =? 0) then None else Buffer in
      let st := mkOutput Buf0 0 (if notnull Buf0 then BufferSize - 1 else 0) 0 in
      let mode := Z.land Flags
        (Z.lor OUTPUT_UNICODE (Z.lor FORMAT_UNICODE COUNT_ONLY_NO_PRINT)) in
      do st <- SPrintLoop (S (length fmt)) mode bpo fmt args st;
      if count then Val (LengthToReturn st / bpo, Buffer)
      else match Buf st with
      | None => Undef OutOfBounds
      | Some buf =>
          do (buf, _) <- BasePrintLibFillBuffer buf (Pos st) (End st + 1) 1 0 bpo;
          Val (Pos st, Some buf)
      end
  end.
End Worker.

(** The string a buffer holds. *)
Fixpoint cstring (buf : list Z) : list Z :=
  match buf with
  | c :: buf => if c =? 0 then [] else c :: cstring buf
  | [] => []
  end.

(** The nested call: its formats have no directive that prints again. *)
Definition BasePrintLibSPrint (fmt : list Z) (args : VA_LIST) : outcome (list Z) :=
  do (_, b) <- SPrintMarker (fun _ _ => NoFuel) (Some (zeros MAXIMUM_VALUE_CHARACTERS))
                 MAXIMUM_VALUE_CHARACTERS 0 (Some fmt) args;
  Val (cstring (default [] b)).

Definition BasePrintLibSPrintMarker := SPrintMarker BasePrintLibSPrint.

(** ** Entry points of PrintLib.c; [BufferSize] is in bytes for the Unicode
    ones. *)
Definition UnicodeVSPrint (StartOfBuffer : option (list Z)) (BufferSize : Z)
    (FormatString : option (list Z)) (Marker : VA_LIST) : outcome (Z * option (list Z)) :=
  BasePrintLibSPrintMarker StartOfBuffer (Z.shiftr BufferSize 1)
    (Z.lor FORMAT_UNICODE OUTPUT_UNICODE) FormatString Marker.

Definition UnicodeSPrint := UnicodeVSPrint.

Definition SPrintLength (FormatString : option (list Z)) (Marker : VA_LIST) : outcome Z :=
  do (n, _) <- BasePrintLibSPrintMarker None 0
    (Z.lor FORMAT_UNICODE (Z.lor OUTPUT_UNICODE COUNT_ONLY_NO_PRINT)) FormatString Marker;
  Val n.

(** ** What a step of the worker writes

    [shows orig cap t st]: the buffer was [orig], the first [cap] of its
    characters may be filled, and what the steps so far put out is [t]: the
    buffer has as much of it as fits, and the rest is as it was. *)
Definition shows (orig : list Z) (cap : Z) (t : list Z) (st : output) : Prop :=
  let w := take (Z.to_nat cap) t in
  Buf st = Some (w ++ drop (length w) orig) /\ Pos st = zlen w /\ End st = cap.

Definition rep (n c : Z) : list Z := replicate (Z.to_nat n) c.

Section Shows.
Context (orig : list Z) (cap : Z) (Hcap : 0 <= cap < zlen orig).

Lemma FillLoop_run room w k Length c i :
  (length w + room <= length orig)%nat ->
  k = Nat.min room (Z.to_nat (Length - i)) ->
  FillLoop room (w ++ drop (length w) orig) (zlen w) i Length c =
  Val (w ++ replicate k c ++ drop (length w + k) orig, zlen w + Z.of_nat k).
Proof using.
  revert w k i. induction room as [|room IH]; intros w k i Hr ->; cbn [FillLoop].
  - cbn [Nat.min replicate app]. by rewrite Nat.add_0_r, Z.add_0_r.
  - destruct (i <? Length) eqn:Hi; bool_hyp.
    + rewrite wr_some by (rewrite ?length_app, ?length_drop; cbn; lia).
      cbn [of_option obind]. rewrite Nat2Z.id, take_app_length, drop_app_ge by (cbn; lia).
      replace (length w + length [c] - length w)%nat with 1%nat by (cbn; lia).
      rewrite drop_drop.
      specialize (IH (w ++ [c]) _ (i + 1) ltac:(rewrite length_app; cbn; lia) eq_refl).
      rewrite length_app, <-!app_assoc in IH. cbn [length app] in IH.
      replace (Z.of_nat (length w + 1)) with (zlen w + 1) in IH by lia. cbn [app].
      rewrite IH. replace (Z.to_nat (Length - i)) with (S (Z.to_nat (Length - (i + 1)))) by lia.
      cbn [Nat.min replicate app]. f_equal. f_equal; [|lia]. do 4 f_equal. lia.
    + replace (Z.to_nat (Length - i)) with 0%nat by lia. rewrite Nat.min_0_r.
      cbn [replicate app]. by rewrite Nat.add_0_r, Z.add_0_r.
Qed.

(** A step puts out copies of one character. *)
Lemma emit_shows t Flags bpo Length c st :
  isset Flags COUNT_ONLY_NO_PRINT = false -> shows orig cap t st ->
  exists st', emit Flags bpo Length c st = Val st' /\
    shows orig cap (t ++ rep (s64 Length) (store bpo c)) st'.
Proof using Hcap.
  intros HF (HB & HP & HE). unfold emit. rewrite HB, HF.
  unfold BasePrintLibFillBuffer. rewrite HP, HE.
  assert (Hw : (length (take (Z.to_nat cap) t) <= Z.to_nat cap)%nat)
    by (rewrite length_take; lia).
  erewrite FillLoop_run; [|lia|reflexivity]. cbn [obind].
  eexists. split; [done|]. unfold shows, rep. cbn [Buf Pos End].
  rewrite Z.sub_0_r, take_app. set (w := take (Z.to_nat cap) t) in *.
  rewrite take_replicate, !length_app, length_replicate.
  assert (HM : (Z.to_nat (cap - zlen w) = Z.to_nat cap - length t)%nat).
  { unfold w. rewrite length_take. lia. }
  rewrite HM, (Nat.min_comm (Z.to_nat cap - length t)).
  rewrite app_assoc, Nat.min_comm, Nat2Z.inj_add. done.
Qed.

(** Nothing that follows is seen once the buffer is full. *)
Lemma shows_full t u st : shows orig cap t st -> cap <= Pos st -> shows orig cap (t ++ u) st.
Proof using.
  intros (HB & HP & HE) Hf. unfold shows. rewrite HP, length_take in Hf.
  rewrite take_app_le by lia. done.
Qed.
End Shows.

(** The text of the copied string, commas included. *)
Fixpoint copy_text (s : list Z) (Mask Index Count Digits : Z) (Comma : bool) : list Z :=
  match s with
  | c :: s =>
      if (Index <? Count) && negb (c =? 0) then
        Z.land c Mask ::
        if Comma then
          if Digits + 1 =? 3
          then (if Index + 2 <? Count then [ch ","] else []) ++
               copy_text s Mask (Index + 2) Count 0 Comma
          else copy_text s Mask (Index + 1) Count (Digits + 1) Comma
        else copy_text s Mask (Index + 1) Count Digits Comma
      else []
  | [] => []
  end.

(** The text of one iteration. *)
Definition argument_text (a : argument) : list Z :=
  let Flags := aFlags a in
  let Count := if isset Flags ARGUMENT_REVERSED then aCount a
               else CountLoop (aString a) Flags (aPrecision a) 0 in
  let Precision := Z.max (aPrecision a) Count in
  let pad := s64 (u64 (aWidth a - Precision)) in
  let fill := s64 (u64 (Precision - Count)) in
  let prefix := if aPrefix a =? 0 then [] else [aPrefix a] in
  (if isset Flags PAD_TO_WIDTH && negb (isset Flags LEFT_JUSTIFY) then rep pad (ch " ") else []) ++
  (if aZeroPad a then prefix ++ rep fill (ch "0") else rep fill (ch " ") ++ prefix) ++
  copy_text (aString a) (if isset Flags ARGUMENT_UNICODE then 65535 else 255)
    (if aPrefix a =? 0 then 0 else 1) Count (aDigits a) (aComma a) ++
  (if isset Flags PAD_TO_WIDTH && isset Flags LEFT_JUSTIFY then rep pad (ch " ") else []).

Section Prints.
Context (orig : list Z) (cap : Z) (Hcap : 0 <= cap < zlen orig) (Flags bpo : Z).
Context (HF : isset Flags COUNT_ONLY_NO_PRINT = false).

Lemma emit_one t c st :
  shows orig cap t st ->
  exists st', emit Flags bpo 1 c st = Val st' /\ shows orig cap (t ++ [store bpo c]) st'.
Proof using Hcap HF. intros Hs. exact (emit_shows orig cap Hcap t Flags bpo 1 c st HF Hs). Qed.

(** An optional step. *)
Lemma emit_if t (b : bool) n c st :
  shows orig cap t st ->
  exists st', (if b then emit Flags bpo n c st else Val st) = Val st' /\
    shows orig cap (t ++ (if b then rep (s64 n) (store bpo c) else [])) st'.
Proof using Hcap HF.
  intros Hs. destruct b; [exact (emit_shows orig cap Hcap t Flags bpo n c st HF Hs)|].
  exists st. by rewrite app_nil_r.
Qed.

Lemma CopyLoop_shows s Mask Index Count Digits Comma t st :
  shows orig cap t st ->
  exists st', CopyLoop s Flags bpo Mask Index Count Digits Comma st = Val st' /\
    shows orig cap (t ++ (store bpo <$> copy_text s Mask Index Count Digits Comma)) st'.
Proof using Hcap HF.
  revert Index Digits t st. induction s as [|c s IH]; intros Index Digits t st Hs;
    cbn [CopyLoop copy_text]; [exists st; by rewrite app_nil_r|].
  destruct ((Index <? Count) && negb (c =? 0)); [|exists st; by rewrite app_nil_r].
  destruct (emit_one t (Z.land c Mask) st Hs) as (st1 & -> & H1). cbn [obind].
  rewrite fmap_cons. replace (Index + 2) with (Index + 1 + 1) by lia.
  rewrite (cons_middle _ t), app_assoc.
  destruct Comma; [|by apply IH]. destruct (Digits + 1 =? 3); [|by apply IH].
  destruct (emit_if _ (Index + 1 + 1 <? Count) 1 (ch ",") st1 H1) as (st2 & -> & H2).
  cbn [obind]. rewrite fmap_app, app_assoc.
  destruct (Index + 1 + 1 <? Count); by apply IH.
Qed.
End Prints.

(** An iteration puts out its text. *)
Lemma print_argument_shows orig cap bpo a t st :
  0 <= cap < zlen orig -> isset (aFlags a) COUNT_ONLY_NO_PRINT = false ->
  shows orig cap t st ->
  exists st', print_argument bpo a st = Val st' /\
    shows orig cap (t ++ (store bpo <$> argument_text a)) st'.
Proof.
  intros Hcap HF H0. unfold print_argument, argument_text.
  set (Flags := aFlags a) in *.
  set (Count := if isset Flags ARGUMENT_REVERSED then aCount a else _).
  replace (if aPrecision a <? Count then Count else aPrecision a) with (Z.max (aPrecision a) Count)
    by (destruct (aPrecision a <? Count) eqn:E; bool_hyp; lia).
  set (Precision := Z.max (aPrecision a) Count).
  destruct (emit_if orig cap Hcap Flags bpo HF t
    (isset Flags PAD_TO_WIDTH && negb (isset Flags LEFT_JUSTIFY))
    (u64 (aWidth a - Precision)) (ch " ") st H0) as (st1 & -> & H1). cbn [obind].
  assert (HM : forall (m : bool) t1 st1, shows orig cap t1 st1 -> exists st2,
     (if m then do st <- (if aPrefix a =? 0 then Val st1 else emit Flags bpo 1 (aPrefix a) st1);
                emit Flags bpo (u64 (Precision - Count)) (ch "0") st
      else do st <- emit Flags bpo (u64 (Precision - Count)) (ch " ") st1;
           if aPrefix a =? 0 then Val st else emit Flags bpo 1 (aPrefix a) st) = Val st2 /\
     shows orig cap (t1 ++ (store bpo <$>
       (if m then (if aPrefix a =? 0 then [] else [aPrefix a]) ++
                  rep (s64 (u64 (Precision - Count))) (ch "0")
        else rep (s64 (u64 (Precision - Count))) (ch " ") ++
             (if aPrefix a =? 0 then [] else [aPrefix a])))) st2).
  { intros m t1 s1 Hs. destruct m, (aPrefix a =? 0); unfold rep;
      rewrite fmap_app, fmap_replicate; cbn [fmap list_fmap obind]; rewrite ?app_nil_r, ?app_nil_l.
    - exact (emit_shows orig cap Hcap _ Flags bpo _ _ _ HF Hs).
    - destruct (emit_one orig cap Hcap Flags bpo HF _ (aPrefix a) _ Hs) as (s2 & -> & H2).
      rewrite (app_assoc t1). cbn [obind].
      exact (emit_shows orig cap Hcap _ Flags bpo _ _ _ HF H2).
    - destruct (emit_shows orig cap Hcap _ Flags bpo (u64 (Precision - Count)) (ch " ") _ HF Hs)
        as (s2 & -> & H2). by exists s2.
    - destruct (emit_shows orig cap Hcap _ Flags bpo (u64 (Precision - Count)) (ch " ") _ HF Hs)
        as (s2 & -> & H2). cbn [obind]. rewrite (app_assoc t1).
      exact (emit_one orig cap Hcap Flags bpo HF _ (aPrefix a) _ H2). }
  destruct (HM (aZeroPad a) _ _ H1) as (st2 & -> & H2). cbn [obind]. clear HM.
  destruct (CopyLoop_shows orig cap Hcap Flags bpo HF (aString a)
    (if isset Flags ARGUMENT_UNICODE then 65535 else 255) (if aPrefix a =? 0 then 0 else 1)
    Count (aDigits a) (aComma a) _ _ H2) as (st3 & -> & H3). cbn [obind].
  destruct (emit_if orig cap Hcap Flags bpo HF _ (isset Flags PAD_TO_WIDTH && isset Flags LEFT_JUSTIFY)
    (u64 (aWidth a - Precision)) (ch " ") st3 H3) as (st4 & -> & H4).
  exists st4. split; [done|]. revert H4. rewrite !fmap_app, <-!app_assoc.
  repeat (match goal with |- context [if ?b then rep _ _ else []] =>
            destruct b end); unfold rep; rewrite ?fmap_replicate, ?fmap_nil; done.
Qed.
