(* ===== verification/PrintSpec.v ===== *)
(** * What formatted printing prints

    A reference definition of the output of a format, as a list of items with
    their text ([render]), and the proof that the worker of PrintLib.v puts out
    exactly that, cut to the buffer; the worker stays inside the buffer for
    every format and every argument list; and what the count-only mode counts. *)
From stdpp Require Import base list strings.
From Stdlib Require Import ZArith Lia Ascii.
From S2P Require Import Prelude PrintLib.
#[local] Open Scope Z_scope.
#[local] Open Scope print_scope.

(** ** Numerals *)

(** The digits of a number, most significant first, and their characters. *)
Fixpoint digit_list (fuel : nat) (R v : Z) : list Z :=
  match fuel with
  | O => []
  | S fuel => if v <? R then [v] else digit_list fuel R (v / R) ++ [v mod R]
  end.
Definition digit_char (d : Z) : Z := if d <? 10 then 48 + d else 55 + d.
Definition numeral (R v : Z) : list Z := digit_char <$> digit_list 64 R v.

(** The number a digit list stands for. *)
Definition digits_value (R : Z) (l : list Z) : Z := foldl (fun n d => n * R + d) 0 l.

Section Numerals.
Context (R : Z) (HR : 2 <= R <= 16).

Lemma div_fuel fuel v :
  0 <= v < R ^ Z.of_nat (S fuel) -> R <= v -> 0 <= v / R < R ^ Z.of_nat fuel.
Proof using HR.
  intros Hv Hr. split; [apply Z.div_pos; lia|]. apply Z.div_lt_upper_bound; [lia|].
  rewrite Nat2Z.inj_succ, Z.pow_succ_r in Hv by lia. lia.
Qed.

Lemma pow_fuel_pos fuel v : 1 <= v < R ^ Z.of_nat fuel -> fuel <> O.
Proof using. intros Hv ->. change (Z.of_nat 0) with 0 in Hv. rewrite Z.pow_0_r in Hv. lia. Qed.

Lemma digit_list_spec fuel v :
  fuel <> O -> 0 <= v < R ^ Z.of_nat fuel ->
  digits_value R (digit_list fuel R v) = v /\
  Forall (fun d => 0 <= d < R) (digit_list fuel R v) /\
  (1 <= length (digit_list fuel R v) <= fuel)%nat /\
  (v <> 0 -> R ^ (zlen (digit_list fuel R v) - 1) <= v).
Proof using HR.
  revert v. induction fuel as [|fuel IH]; intros v Hf0 Hv; [done|].
  cbn [digit_list]. destruct (v <? R) eqn:Ev; bool_hyp.
  - split; [cbn; lia|]. split; [repeat constructor; lia|]. split; [cbn; lia|].
    intros. cbn. lia.
  - pose proof (div_fuel fuel v Hv Ev) as Hq.
    assert (1 <= v / R) by (apply Z.div_le_lower_bound; lia).
    destruct (IH (v / R) (pow_fuel_pos fuel (v / R) ltac:(lia)) Hq) as (Hd & Hf & Hl & Hp).
    pose proof (Z.mod_pos_bound v R ltac:(lia)). pose proof (Z.div_mod v R ltac:(lia)) as Hdm.
    split; [|split; [|split]].
    + unfold digits_value in *. rewrite foldl_app. cbn [foldl]. rewrite Hd. lia.
    + apply Forall_app. split; [done|]. constructor; [lia|constructor].
    + rewrite length_app. cbn. lia.
    + intros _. rewrite length_app. cbn [length].
      replace (Z.of_nat _ - 1) with (Z.succ (zlen (digit_list fuel R (v / R)) - 1)) by lia.
      rewrite Z.pow_succ_r by lia. specialize (Hp ltac:(lia)). nia.
Qed.

Lemma digit_char_hex d : 0 <= d < R -> mHexStr !! Z.to_nat d = Some (digit_char d).
Proof using HR.
  intros Hd. assert (Hn : exists n, d = Z.of_nat n /\ (n < 16)%nat) by (exists (Z.to_nat d); lia).
  destruct Hn as (n & -> & Hn). rewrite Nat2Z.id.
  do 16 (destruct n as [|n]; [done|]). lia.
Qed.

Lemma ValueLoop_digits fuel v :
  fuel <> O -> 0 <= v < R ^ Z.of_nat fuel ->
  ValueLoop fuel v R = Val (rev (digit_char <$> digit_list fuel R v)).
Proof using HR.
  revert v. induction fuel as [|fuel IH]; intros v Hf0 Hv; [done|].
  cbn [ValueLoop digit_list]. rewrite digit_char_hex by (apply Z.mod_pos_bound; lia).
  cbn [of_option obind]. destruct (v <? R) eqn:Ev; bool_hyp.
  - rewrite Z.mod_small, Z.div_small by lia. done.
  - assert (1 <= v / R) by (apply Z.div_le_lower_bound; lia).
    destruct (v / R =? 0) eqn:E0; bool_hyp; [lia|].
    pose proof (div_fuel fuel v Hv Ev) as Hq.
    rewrite (IH _ (pow_fuel_pos fuel (v / R) ltac:(lia)) Hq). cbn [obind].
    rewrite fmap_app, rev_app_distr. done.
Qed.
End Numerals.

Lemma pow_64 R v : 2 <= R -> 0 <= v < 2 ^ 64 -> 0 <= v < R ^ Z.of_nat 64.
Proof.
  intros. split; [lia|]. assert (2 ^ 64 <= R ^ 64) by (apply Z.pow_le_mono_l; lia).
  change (Z.of_nat 64) with 64. lia.
Qed.

(** The digits of a 64-bit value fit the buffer of the worker. *)
Lemma numeral_length R v :
  10 <= R <= 16 -> 0 <= v < 2 ^ 64 -> 1 <= zlen (numeral R v) <= 20.
Proof.
  intros HR Hv. unfold numeral. rewrite length_fmap.
  destruct (digit_list_spec R ltac:(lia) 64 v ltac:(done) (pow_64 R v ltac:(lia) Hv)) as (_ & _ & Hl & Hp).
  split; [lia|]. destruct (decide (v = 0)) as [->|Hn].
  { cbn [digit_list]. destruct (0 <? R) eqn:E; bool_hyp; [cbn; lia|lia]. }
  specialize (Hp Hn). set (n := zlen _) in *. destruct (decide (n <= 20)) as [|Hgt]; [done|].
  exfalso. assert (10 ^ 20 <= R ^ (n - 1)).
  { transitivity (10 ^ (n - 1)); [apply Z.pow_le_mono_r; lia|apply Z.pow_le_mono_l; lia]. }
  assert (2 ^ 64 < 10 ^ 20) by (vm_compute; done). lia.
Qed.

Lemma ValueToString_numeral R v :
  10 <= R <= 16 -> BasePrintLibValueToString v R = Val (rev (numeral R (u64 v))).
Proof.
  intros HR. pose proof (u64_range v) as Hv. unfold BasePrintLibValueToString.
  rewrite ValueLoop_digits by (try apply pow_64; lia || done). cbn [obind].
  change (digit_char <$> _) with (numeral R (u64 v)). rewrite length_rev.
  pose proof (numeral_length R (u64 v) HR Hv). unfold MAXIMUM_VALUE_CHARACTERS. by guard_true.
Qed.

(** The worker's own reader of widths reads a decimal numeral back. *)
Lemma scan_digits_app l n r :
  Forall (fun d => 0 <= d < 10) l -> 0 <= n ->
  match r with c :: _ => is_digit c = false | [] => True end ->
  (forall k, foldl (fun n d => n * 10 + d) n (take k l) < 2 ^ 64) ->
  scan_digits ((digit_char <$> l) ++ r) n = (foldl (fun n d => n * 10 + d) n l, r).
Proof.
  intros Hl. revert n. induction Hl as [|d l Hd Hl IH]; intros n Hn Hr Hb.
  - cbn. destruct r as [|c r]; [done|]. cbn. by rewrite Hr.
  - assert (Hc : digit_char d = 48 + d) by (unfold digit_char; by guard_true).
    rewrite fmap_cons, Hc. cbn [app scan_digits foldl].
    unfold is_digit. change (ch "0") with 48. change (ch "9") with 57. guard_true.
    pose proof (Hb 1%nat) as Hb1. rewrite firstn_cons, firstn_O in Hb1. cbn [foldl] in Hb1.
    replace (n * 10 + (48 + d) - 48) with (n * 10 + d) by lia. rewrite u64_small by lia.
    apply IH; [lia|done|]. intros k. exact (Hb (S k)).
Qed.

Lemma foldl_prefix_le l n k :
  Forall (fun d => 0 <= d < 10) l -> 0 <= n ->
  0 <= foldl (fun n d => n * 10 + d) n (take k l) <= foldl (fun n d => n * 10 + d) n l.
Proof.
  intros Hl. revert n k. induction Hl as [|d l Hd Hl IH]; intros n k Hn.
  - destruct k; cbn; lia.
  - destruct k; cbn [take foldl].
    + split; [lia|]. pose proof (IH (n * 10 + d) 0%nat ltac:(lia)) as H. rewrite firstn_O in H. cbn [foldl] in H. lia.
    + apply IH. lia.
Qed.

Lemma scan_numeral v r :
  0 <= v < 2 ^ 64 -> match r with c :: _ => is_digit c = false | [] => True end ->
  scan_digits (numeral 10 v ++ r) 0 = (v, r).
Proof.
  intros Hv Hr. destruct (digit_list_spec 10 ltac:(lia) 64 v ltac:(done) (pow_64 10 v ltac:(lia) Hv))
    as (Hd & Hf & _). unfold numeral, digits_value in *.
  rewrite (scan_digits_app _ 0 r Hf); [by rewrite Hd|lia|done|].
  intros k. pose proof (foldl_prefix_le _ 0 k Hf ltac:(lia)) as H. rewrite Hd in H. lia.
Qed.

(** ** Formats and their meaning *)
Inductive radix := Dec | Uns | Hex | HEX.

(** A format, item by item.  A width of 0 is no width. *)
Inductive item :=
| Lit (c : Z)                                          (** a character *)
| Cr                                                   (** '\r' *)
| Newline                                              (** '\n' *)
| CrLf                                                 (** '\r\n' *)
| Percent                                              (** '%%' *)
| Int (lj zero : bool) (ls : nat) (width : Z) (k : radix)  (** %d, %u, %x, %X, with [ls] 'l's *)
| Str (lj : bool) (width : Z) (wide : bool)          (** %s, %a *)
| Chr.                                                 (** %c *)

Definition flag (b : bool) (c : Z) : list Z := if b then [c] else [].
Definition width_text (w : Z) : list Z := if w =? 0 then [] else numeral 10 w.
Definition radix_char (k : radix) : Z :=
  match k with Dec => ch "d" | Uns => ch "u" | Hex => ch "x" | HEX => ch "X" end.

(** The characters of an item in the format string. *)
Definition item_format (i : item) : list Z :=
  match i with
  | Lit c => [c]
  | Cr => [CR]
  | Newline => [LF]
  | CrLf => [CR; LF]
  | Percent => [ch "%"; ch "%"]
  | Int lj zero ls width k =>
      ch "%" :: flag lj (ch "-") ++ flag zero (ch "0") ++ width_text width ++
      replicate ls (ch "l") ++ [radix_char k]
  | Str lj width wide =>
      ch "%" :: flag lj (ch "-") ++ width_text width ++ [if wide then ch "s" else ch "a"]
  | Chr => [ch "%"; ch "c"]
  end.

Definition format_of (l : list item) : list Z := l ≫= item_format.

(** [body] with its sign in a field of [width] characters. *)
Definition field (lj zero : bool) (width : Z) (sign body : list Z) : list Z :=
  let n := width - zlen sign - zlen body in
  if lj then sign ++ body ++ rep n (ch " ")
  else if zero then sign ++ rep n (ch "0") ++ body
  else rep n (ch " ") ++ sign ++ body.

(** The directive is for a 64-bit argument. *)
Definition is_long (ls : nat) : bool := match ls with O => false | S _ => true end.

(** The integer of a slot, with a sign or without. *)
Definition signed_slot (long : bool) (a : va_arg) : Z :=
  if long then s64 (slot_bits a) else s32 (slot_bits a).
Definition unsigned_slot (long : bool) (a : va_arg) : Z :=
  if long then slot_bits a else u32 (slot_bits a).

Definition integer_text (lj zero long : bool) (width : Z) (k : radix) (a : va_arg)
  : option (list Z) :=
  match k with
  | Dec =>
      let v := signed_slot long a in
      if v =? - 2 ^ 63 then None
      else Some (field lj zero width (flag (v <? 0) (ch "-")) (numeral 10 (Z.abs v)))
  | Uns => Some (field lj zero width [] (numeral 10 (unsigned_slot long a)))
  | Hex => Some (field lj zero width [] (numeral 16 (unsigned_slot long a)))
  | HEX => Some (field lj true width [] (numeral 16 (unsigned_slot long a)))
  end.

(** What an item prints and the arguments it leaves; [None]: the argument is
    missing or of another type, its negation overflows, or it is a string of
    2^63 characters. *)
Definition item_text (i : item) (args : VA_LIST) : option (list Z * VA_LIST) :=
  match i with
  | Lit c => Some ([c], args)
  | Cr => Some ([CR], args)
  | Newline | CrLf => Some ([CR; LF], args)
  | Percent => Some ([ch "%"], args)
  | Int lj zero ls width k =>
      match args with
      | a :: args => t ← integer_text lj zero (is_long ls) width k a; Some (t, args)
      | [] => None
      end
  | Str lj width wide =>
      match VA_ARG_ptr (if wide then is_str16 else is_str8) args with
      | Val (Some s, args) =>
          if zlen s <? 2 ^ 63
          then Some (field lj false width [] ((if wide then u16 else u8) <$> cstring s), args)
          else None
      | Val (None, args) => Some (field lj false width [] (txt "<null string>"), args)
      | _ => None
      end
  | Chr =>
      match args with
      | a :: args => let c := slot_bits a mod 2 ^ 16 in
                     Some ([if c =? 0 then ch " " else c], args)
      | [] => None
      end
  end.

Fixpoint render (l : list item) (args : VA_LIST) : option (list Z * VA_LIST) :=
  match l with
  | [] => Some ([], args)
  | i :: l =>
      '(t, args) ← item_text i args;
      '(u, args) ← render l args;
      Some (t ++ u, args)
  end.

(** The items a format can be read back into: literals that are not special,
    widths of 63 bits, and no two line ends that would be read as one. *)
Definition item_ok (i : item) : bool :=
  match i with
  | Lit c => (0 <? c) && (c <? 2 ^ 16) && negb (c =? ch "%") && negb (c =? CR) && negb (c =? LF)
  | Int _ _ _ w _ | Str _ w _ => (0 <=? w) && (w <? 2 ^ 63)
  | _ => true
  end.

Definition adjacent_ok (i : item) (l : list item) : bool :=
  match i, l with
  | Newline, (Cr | CrLf) :: _ => false
  | Cr, Newline :: _ => false
  | _, _ => true
  end.

Fixpoint format_ok (l : list item) : bool :=
  match l with
  | [] => true
  | i :: l => item_ok i && adjacent_ok i l && format_ok l
  end.

(** ** Flags and signed integers *)
Lemma isset_lor a b f : isset (Z.lor a b) f = isset a f || isset b f.
Proof.
  unfold isset. rewrite Z.land_lor_distr_l. rewrite <-negb_andb. f_equal.
  apply eq_true_iff_eq. rewrite andb_true_iff, !Z.eqb_eq. apply Z.lor_eq_0_iff.
Qed.

Lemma isset_ldiff_same a f : isset (Z.ldiff a f) f = false.
Proof.
  unfold isset. enough (Z.land (Z.ldiff a f) f = 0) as -> by done.
  apply Z.bits_inj'. intros n Hn. rewrite Z.land_spec, Z.ldiff_spec, Z.bits_0.
  by destruct (Z.testbit a n), (Z.testbit f n).
Qed.

Lemma isset_ldiff_other a b f : Z.land b f = 0 -> isset (Z.ldiff a b) f = isset a f.
Proof.
  intros Hb. unfold isset. do 2 f_equal. apply Z.bits_inj'. intros n Hn.
  rewrite !Z.land_spec, Z.ldiff_spec.
  assert (Hx : Z.testbit b n && Z.testbit f n = false) by (by rewrite <-Z.land_spec, Hb, Z.bits_0).
  destruct (Z.testbit a n), (Z.testbit b n), (Z.testbit f n); done.
Qed.

(** The bits that are passed to the worker, without the count-only one. *)
Definition mode_ok (m : Z) : Prop := Z.land m (Z.lor FORMAT_UNICODE OUTPUT_UNICODE) = m.

Lemma mode_isset m f :
  mode_ok m -> Z.land (Z.lor FORMAT_UNICODE OUTPUT_UNICODE) f = 0 -> isset m f = false.
Proof. intros Hm Hf. unfold isset. by rewrite <-Hm, <-Z.land_assoc, Hf, Z.land_0_r. Qed.

(** [f] when the flag is given. *)
Definition opt (b : bool) (f : Z) : Z := if b then f else 0.
Lemma isset_opt b f g : isset (opt b f) g = b && isset f g.
Proof. by destruct b. Qed.

Lemma s64_small z : - 2 ^ 63 <= z < 2 ^ 63 -> s64 (u64 z) = z.
Proof.
  intros Hz. unfold s64. rewrite (u64_small (u64 z)) by apply u64_range. unfold u64.
  destruct (decide (0 <= z)).
  - rewrite Z.mod_small by lia. by guard_true.
  - rewrite <-(Z_mod_plus_full z 1), Z.mod_small by lia. guard_false. lia.
Qed.

Lemma s64_range z : - 2 ^ 63 <= s64 z < 2 ^ 63.
Proof. unfold s64. pose proof (u64_range z). split_if; bool_hyp; lia. Qed.
Lemma s32_range z : - 2 ^ 31 <= s32 z < 2 ^ 31.
Proof. unfold s32. pose proof (u32_range z). split_if; bool_hyp; lia. Qed.
Lemma u64_s64 z : u64 (s64 z) = u64 z.
Proof.
  unfold s64. pose proof (u64_range z). split_if; [by apply u64_small|].
  symmetry. apply (Zmod_unique _ _ (-1)); lia.
Qed.
Lemma u32_s32 z : u32 (s32 z) = u32 z.
Proof.
  unfold s32. pose proof (u32_range z). split_if; [by apply u32_small|].
  symmetry. apply (Zmod_unique _ _ (-1)); lia.
Qed.

(** ** Text of an iteration without commas *)
Definition printable (mask : Z) (c : Z) : Prop := c <> 0 /\ Z.land c mask = c.

Lemma copy_text_all s mask i n d :
  Forall (printable mask) s -> n = i + zlen s -> copy_text s mask i n d false = s.
Proof.
  intros Hs. revert i d. induction Hs as [|c s [Hc Hm] Hs IH]; intros i d Hn; [done|].
  cbn [copy_text length] in *. destruct (c =? 0) eqn:E; bool_hyp; [done|].
  destruct (i <? n) eqn:E2; bool_hyp; [|lia]. cbn [andb negb]. by rewrite Hm, IH by lia.
Qed.

Lemma rep_neg n c : n <= 0 -> rep n c = [].
Proof. intros. unfold rep. by replace (Z.to_nat n) with 0%nat by lia. Qed.

Lemma zlen_rep n c : 0 <= n -> zlen (rep n c) = n.
Proof. intros. unfold rep. rewrite length_replicate. lia. Qed.

(** An integer argument prints its field. *)
Lemma integer_field F w prec prefix d num :
  let lj := isset F LEFT_JUSTIFY in
  let pad := isset F PAD_TO_WIDTH in
  let zero := isset F PREFIX_ZERO in
  let n := if prefix =? 0 then 0 else 1 in
  isset F ARGUMENT_REVERSED = true -> isset F ARGUMENT_UNICODE = false ->
  prec = (if zero && negb lj && pad then w else 1 + n) ->
  0 <= w < 2 ^ 63 -> (pad = false -> w = 0) -> 1 <= zlen num <= 20 ->
  Forall (printable 255) num ->
  argument_text (mkArgument F w prec prefix false true (zlen num + n) d num) =
  field lj zero w (if prefix =? 0 then [] else [prefix]) num.
Proof.
  intros lj pad zero n HR HU Hp Hw Hpad Hl Hn. unfold argument_text, field.
  cbn [aFlags aWidth aPrecision aPrefix aComma aZeroPad aCount aDigits aString].
  rewrite HR, HU. fold lj pad n.
  assert (Hn' : n = zlen (if prefix =? 0 then [] else [prefix])) by (unfold n; by destruct (prefix =? 0)).
  set (sg := if prefix =? 0 then [] else [prefix]) in *.
  assert (0 <= n <= 1) by (unfold n; destruct (prefix =? 0); lia).
  rewrite (copy_text_all num) by (done || lia). rewrite <-!Hn', !s64_small by (subst prec; repeat split_if; lia).
  replace (w - n - zlen num) with (w - (zlen num + n)) by lia. subst prec.
  assert (Hm : Z.max (1 + n) (zlen num + n) = zlen num + n) by lia.
  assert (H0 : forall c, rep (zlen num + n - (zlen num + n)) c = []) by (intros; apply rep_neg; lia).
  destruct lj; cbn [andb negb]; [|destruct zero; cbn [andb negb]]; rewrite ?andb_false_r, ?andb_true_r; cbn [andb].
  - rewrite Hm, H0, app_nil_r, app_nil_l. destruct pad; [done|].
    by rewrite rep_neg by (specialize (Hpad eq_refl); lia).
  - destruct pad.
    + rewrite (rep_neg (w - _)) by lia. rewrite app_nil_r, app_nil_l, <-app_assoc.
      destruct (decide (zlen num + n <= w)); [by rewrite Z.max_l by lia|].
      rewrite Z.max_r by lia. by rewrite !rep_neg by lia.
    + cbn iota. rewrite Hm, H0, !app_nil_r, app_nil_l, rep_neg by (specialize (Hpad eq_refl); lia).
      done.
  - rewrite Hm, H0, !app_nil_r. destruct pad; [done|].
    by rewrite rep_neg by (specialize (Hpad eq_refl); lia).
Qed.

Lemma numeral_printable R v :
  10 <= R <= 16 -> 0 <= v < 2 ^ 64 -> Forall (printable 255) (numeral R v).
Proof.
  intros HR Hv. destruct (digit_list_spec R ltac:(lia) 64 v ltac:(done) (pow_64 R v ltac:(lia) Hv))
    as (_ & Hf & _). unfold numeral. apply Forall_fmap. eapply Forall_impl; [exact Hf|].
  intros d Hd. unfold printable, compose. cbv beta in Hd.
  assert (48 <= digit_char d < 256) by (unfold digit_char; split_if; bool_hyp; lia).
  split; [lia|]. change 255 with (Z.ones 8). rewrite Z.land_ones by lia. apply Z.mod_small. lia.
Qed.

(** ** Integers *)

(** The value printed and its sign, as the worker works them out. *)
Lemma integer_conversion_run Flags Value neg mag :
  neg = negb (isset Flags RADIX_HEX) && negb (isset Flags UNSIGNED_TYPE) && (Value <? 0) ->
  Value <> - 2 ^ 63 \/ neg = false ->
  mag = (if neg then - Value
         else if isset Flags LONG_TYPE || negb (isset Flags RADIX_HEX || isset Flags UNSIGNED_TYPE)
              then u64 Value else u32 Value) ->
  0 <= mag < 2 ^ 64 ->
  (isset Flags LONG_TYPE = false -> - 2 ^ 31 <= Value < 2 ^ 31) ->
  exists V, integer_conversion Flags 1 0 false Value =
    Val (Z.lor Flags (opt neg PREFIX_SIGN), 1, (if neg then ch "-" else 0), false,
         (if isset Flags RADIX_HEX then 16 else 10), V) /\ u64 V = mag.
Proof.
  intros Hneg Hov Hmag Hm Hint. unfold integer_conversion.
  destruct (isset Flags RADIX_HEX); cbn [negb andb] in *.
  - subst neg. rewrite orb_true_l in Hmag. cbn [negb] in Hmag. rewrite orb_false_r in Hmag.
    cbn [opt]. rewrite Z.lor_0_r.
    destruct (isset Flags LONG_TYPE); cbn [negb andb]; [by exists Value|].
    specialize (Hint eq_refl). destruct (Value <? 0) eqn:E; bool_hyp.
    + eexists. split; [done|]. rewrite Hmag. apply u64_small. pose proof (u32_range Value). lia.
    + exists Value. split; [done|]. rewrite Hmag, u64_small, u32_small by lia. done.
  - destruct (isset Flags UNSIGNED_TYPE); cbn [negb andb] in *.
    + subst neg. rewrite andb_false_r. cbn [opt]. rewrite Z.lor_0_r. cbn [orb negb] in Hmag.
      rewrite orb_false_r in Hmag. destruct (isset Flags LONG_TYPE); cbn [negb andb].
      * by exists Value.
      * eexists. split; [done|]. rewrite Hmag. apply u64_small. pose proof (u32_range Value). lia.
    + rewrite <-Hneg, andb_true_r. cbn [orb negb] in Hmag. rewrite orb_true_r in Hmag.
      destruct neg; cbn [opt].
      * unfold negate64. destruct Hov as [Hov|]; [|done]. apply Z.eqb_neq in Hov. rewrite Hov.
        cbn [obind]. eexists. split; [done|]. rewrite Hmag. apply u64_small. lia.
      * rewrite Z.lor_0_r. by exists Value.
Qed.

Lemma integer_argument_run Flags w Value neg mag :
  let R := if isset Flags RADIX_HEX then 16 else 10 in
  isset Flags PREFIX_BLANK = false -> isset Flags PREFIX_SIGN = false ->
  isset Flags COMMA_TYPE = false -> isset Flags PRECISION = false ->
  isset Flags ARGUMENT_UNICODE = false ->
  0 <= w < 2 ^ 63 -> (isset Flags PAD_TO_WIDTH = false -> w = 0) ->
  neg = negb (isset Flags RADIX_HEX) && negb (isset Flags UNSIGNED_TYPE) && (Value <? 0) ->
  Value <> - 2 ^ 63 \/ neg = false ->
  mag = (if neg then - Value
         else if isset Flags LONG_TYPE || negb (isset Flags RADIX_HEX || isset Flags UNSIGNED_TYPE)
              then u64 Value else u32 Value) ->
  0 <= mag < 2 ^ 64 ->
  (isset Flags LONG_TYPE = false -> - 2 ^ 31 <= Value < 2 ^ 31) ->
  exists a, integer_argument Flags w 1 Value = Val a /\
    (forall f, isset (aFlags a) f = isset Flags f || (neg && isset PREFIX_SIGN f)
                                    || isset ARGUMENT_REVERSED f) /\
    argument_text a = field (isset Flags LEFT_JUSTIFY) (isset Flags PREFIX_ZERO) w
                        (flag neg (ch "-")) (numeral R mag).
Proof.
  intros R HB HS HC HP HU Hw Hpad Hneg Hov Hmag Hm Hint. unfold integer_argument.
  rewrite HB, HS, HC. cbn [andb].
  destruct (integer_conversion_run Flags Value neg mag Hneg Hov Hmag Hm Hint) as (V & -> & HV).
  cbn [obind]. fold R.
  assert (HR : 10 <= R <= 16) by (unfold R; split_if; lia).
  rewrite ValueToString_numeral, HV by done. cbn [obind].
  pose proof (numeral_length R mag HR Hm) as HL.
  rewrite length_rev. change (1 =? 0) with false. rewrite andb_false_r. cbn [andb].
  rewrite Nat2Z.id, firstn_all2 by (rewrite length_rev; lia). rewrite rev_involutive.
  set (F := Z.lor (Z.lor Flags _) ARGUMENT_REVERSED).
  assert (HF : forall f, isset F f = isset Flags f || (neg && isset PREFIX_SIGN f)
                                    || isset ARGUMENT_REVERSED f).
  { intros f. unfold F. by rewrite !isset_lor, isset_opt. }
  assert (HPf : isset F PRECISION = false) by (rewrite HF, HP; by destruct neg).
  assert (HLJ : isset F LEFT_JUSTIFY = isset Flags LEFT_JUSTIFY)
    by (rewrite HF; destruct neg; by rewrite !orb_false_r).
  assert (HPZ : isset F PREFIX_ZERO = isset Flags PREFIX_ZERO)
    by (rewrite HF; destruct neg; by rewrite !orb_false_r).
  assert (HPD : isset F PAD_TO_WIDTH = isset Flags PAD_TO_WIDTH)
    by (rewrite HF; destruct neg; by rewrite !orb_false_r).
  rewrite HPf, andb_true_r, <-HLJ, <-HPZ. rewrite <-HPD in Hpad.
  destruct neg; [change (ch "-" =? 0) with false|change (0 =? 0) with true]; cbv beta iota zeta;
    (eexists; split; [reflexivity|]; split; [exact HF|]).
  - apply (integer_field F w _ (ch "-") _ (numeral R mag)); try done.
    all: try (rewrite HF; cbn; by rewrite ?orb_true_r, ?HU). by apply numeral_printable.
  - rewrite <-(Z.add_0_r (zlen (numeral R mag))).
    apply (integer_field F w _ 0 _ (numeral R mag)); try done.
    all: try (rewrite HF; cbn; by rewrite ?orb_true_r, ?HU). by apply numeral_printable.
Qed.

(** ** Reading a directive *)

(** Evaluates the tests on known characters. *)
Ltac chars :=
  repeat match goal with
  | |- context [ch ?a =? ?b] =>
      let v := eval vm_compute in (ch a =? b) in
      match v with true => idtac | false => idtac end; change (ch a =? b) with v
  | |- context [is_digit (ch ?a)] =>
      let v := eval vm_compute in (is_digit (ch a)) in change (is_digit (ch a)) with v
  end; cbn [orb andb negb]; cbv iota.

(** A character that ends the flags of a directive. *)
Definition type_char (c : Z) : bool :=
  negb (is_digit c) &&
  forallb (fun a => negb (c =? a)) (txt ".-+ ,Ll*").

Lemma type_char_stop c : type_char c = true ->
  is_digit c = false /\ (c =? ch ".") = false /\ (c =? ch "-") = false /\ (c =? ch "+") = false /\
  (c =? ch " ") = false /\ (c =? ch ",") = false /\ (c =? ch "L") = false /\ (c =? ch "l") = false /\
  (c =? ch "*") = false.
Proof.
  unfold type_char. intros H. apply andb_prop in H as [Hd H]. cbn in H.
  repeat (apply andb_prop in H as [?%negb_true_iff H]). by apply negb_true_iff in Hd.
Qed.

Lemma digit_list_head R fuel v :
  2 <= R -> fuel <> O -> 0 < v < R ^ Z.of_nat fuel ->
  exists d l, digit_list fuel R v = d :: l /\ 0 < d < R.
Proof.
  intros HR. revert v. induction fuel as [|fuel IH]; intros v Hf Hv; [done|]. cbn [digit_list].
  destruct (v <? R) eqn:E; bool_hyp; [exists v, []; split; [done|lia]|].
  assert (1 <= v / R) by (apply Z.div_le_lower_bound; lia).
  assert (v / R < R ^ Z.of_nat fuel).
  { apply Z.div_lt_upper_bound; [lia|]. rewrite Nat2Z.inj_succ, Z.pow_succ_r in Hv by lia. lia. }
  destruct (IH (v / R)) as (d & l & -> & Hd); [by intros ->; cbn in *; lia|lia|].
  exists d, (l ++ [v mod R]). by split.
Qed.

(** The numeral of a width starts with a digit that is not 0. *)
Lemma numeral_head v :
  0 < v < 2 ^ 64 -> exists c l, numeral 10 v = c :: l /\ is_digit c = true /\ c <> ch "0".
Proof.
  intros Hv. destruct (digit_list_head 10 64 v ltac:(lia) ltac:(done)) as (d & l & HE & Hd).
  { pose proof (pow_64 10 v ltac:(lia) ltac:(lia)). lia. }
  unfold numeral. rewrite HE. exists (digit_char d), (digit_char <$> l). split; [done|].
  assert (Hc : digit_char d = 48 + d) by (unfold digit_char; by guard_true).
  rewrite Hc. unfold is_digit. change (ch "0") with 48. change (ch "9") with 57.
  split; [|lia]. apply andb_true_intro. split; apply Z.leb_le; lia.
Qed.

Lemma scan_digits_length l n :
  (length (scan_digits l n).2 <= length l)%nat /\
  match l with
  | c :: _ => is_digit c = true -> (length (scan_digits l n).2 < length l)%nat
  | [] => True
  end.
Proof.
  revert n. induction l as [|c l IH]; intros n; cbn [scan_digits]; [done|].
  destruct (is_digit c); [|by cbn]. cbn [length].
  pose proof (proj1 (IH (u64 (n * 10 + c - ch "0")))). split; [|intros _]; lia.
Qed.

(** More iterations than characters make no difference. *)
Lemma parse_fuel fuel l Flags w p args :
  (length l < fuel)%nat ->
  parse_flags fuel l Flags w p args = parse_flags (S (length l)) l Flags w p args.
Proof.
  revert fuel Flags w p args. induction l as [l IH] using (induction_ltof1 _ (@length Z)).
  intros fuel Flags w p args Hf. destruct fuel as [|fuel]; [lia|].
  destruct l as [|c r]; [done|]. unfold ltof in IH. cbn [length] in Hf, IH. cbn [parse_flags].
  change (length (c :: r)) with (S (length r)).
  assert (IHr : forall F w p args, parse_flags fuel r F w p args = parse_flags (S (length r)) r F w p args)
    by (intros; apply IH; lia).
  do 6 (split_if; [by apply IHr|]). split_if.
  { destruct (VA_ARG_UINTN args) as [[n args']| |]; [|done..]. cbn [obind]. split_if; apply IHr. }
  destruct (is_digit c) eqn:Hd; [|done].
  pose proof (proj2 (scan_digits_length (c :: r) 0) Hd) as HL. cbn [length] in HL.
  destruct (scan_digits (c :: r) 0) as [n r']. cbn [snd] in HL.
  assert (IHr' : forall F w p args,
    parse_flags fuel r' F w p args = parse_flags (S (length r)) r' F w p args).
  { intros. rewrite (IH r') by lia. symmetry. apply IH; lia. }
  split_if; split_if; apply IHr'.
Qed.

(** The flags of a directive read with the iterations its characters need. *)
Definition parse (l : list Z) := parse_flags (S (length l)) l.

Lemma parse_long m ls r w p args :
  parse (replicate ls (ch "l") ++ r) m w p args = parse r (Z.lor m (opt (is_long ls) LONG_TYPE)) w p args.
Proof.
  revert m. induction ls as [|ls IH]; intros m; [by rewrite Z.lor_0_r|].
  change (parse (replicate (S ls) (ch "l") ++ r) m w p args)
    with (parse (replicate ls (ch "l") ++ r) (Z.lor m LONG_TYPE) w p args).
  rewrite IH, <-Z.lor_assoc. f_equal. destruct ls; cbn [is_long opt]; by rewrite ?Z.lor_diag, ?Z.lor_0_r.
Qed.

Section Parse.
Context (m : Z) (Hm : isset m PRECISION = false).

Lemma parse_stop c r w p args :
  type_char c = true -> parse (c :: r) m w p args = Val (mkDirective m w p c r, args).
Proof using.
  intros Hc. unfold parse. cbn [parse_flags].
  apply type_char_stop in Hc as (-> & -> & -> & -> & -> & -> & -> & -> & ->). done.
Qed.

Lemma parse_left (b : bool) r w p args :
  parse (flag b (ch "-") ++ r) m w p args = parse r (Z.lor m (opt b LEFT_JUSTIFY)) w p args.
Proof using. destruct b; cbn [flag opt]; [done|by rewrite Z.lor_0_r]. Qed.

(** Digits are read as a width, and a leading 0 also as the zero flag. *)
Lemma parse_number c l r w0 p args :
  48 <= c <= 57 -> scan_digits (c :: l) 0 = (w0, r) ->
  parse (c :: l) m 0 p args =
  parse r (Z.lor (Z.lor m (opt (c =? ch "0") PREFIX_ZERO)) PAD_TO_WIDTH) w0 p args.
Proof using Hm.
  intros Hc HS. assert (Hd : is_digit c = true).
  { unfold is_digit. change (ch "0") with 48. change (ch "9") with 57.
    apply andb_true_intro. split; apply Z.leb_le; lia. }
  pose proof (proj2 (scan_digits_length (c :: l) 0) Hd) as HL. rewrite HS in HL. cbn in HL.
  unfold parse at 1. cbn [parse_flags]. rewrite HS, Hd.
  repeat match goal with |- context [if c =? ch ?a then parse_flags _ _ _ _ _ _ else _] =>
    let v := eval vm_compute in (ch a) in
    replace (c =? ch a) with false by (symmetry; apply Z.eqb_neq; change (ch a) with v; lia) end.
  replace ((c =? ch "L") || (c =? ch "l")) with false.
  2:{ symmetry. apply orb_false_intro; apply Z.eqb_neq;
      [change (ch "L") with 76|change (ch "l") with 108]; lia. }
  replace (c =? ch "*") with false by (symmetry; apply Z.eqb_neq; change (ch "*") with 42; lia).
  rewrite Hm. cbn [negb]. rewrite andb_true_r.
  replace (if c =? ch "0" then Z.lor m PREFIX_ZERO else m)
    with (Z.lor m (opt (c =? ch "0") PREFIX_ZERO))
    by (destruct (c =? ch "0"); cbn [opt]; [done|by rewrite Z.lor_0_r]).
  rewrite isset_lor, Hm, isset_opt. change (isset PREFIX_ZERO PRECISION) with false.
  rewrite andb_false_r. cbn [orb]. apply parse_fuel. cbn. lia.
Qed.

(** The zero flag and the width are read together. *)
Lemma parse_width (zero : bool) w0 r p args :
  0 <= w0 < 2 ^ 64 -> match r with c :: _ => is_digit c = false | [] => True end ->
  parse (flag zero (ch "0") ++ width_text w0 ++ r) m 0 p args =
  parse r (Z.lor (Z.lor m (opt zero PREFIX_ZERO)) (opt (zero || negb (w0 =? 0)) PAD_TO_WIDTH)) w0 p args.
Proof using Hm.
  intros Hw Hr. unfold width_text. destruct zero; cbn [flag orb opt app].
  - apply (parse_number (ch "0")); [change (ch "0") with 48; lia|].
    set (r' := (if w0 =? 0 then [] else numeral 10 w0) ++ r).
    change (scan_digits (ch "0" :: r') 0) with (scan_digits r' 0). unfold r'.
    destruct (w0 =? 0) eqn:E; bool_hyp; [|by apply scan_numeral].
    subst w0. destruct r as [|c r]; [done|]. cbn. by rewrite Hr.
  - destruct (w0 =? 0) eqn:E; bool_hyp; cbn [negb app opt].
    { subst w0. by rewrite !Z.lor_0_r. }
    destruct (numeral_head w0 ltac:(lia)) as (c & l & HE & Hd & Hn).
    pose proof (scan_numeral w0 r Hw Hr) as HS. rewrite HE in *. cbn [app] in *.
    rewrite (parse_number c (l ++ r) r w0 p args); [|
      unfold is_digit in Hd; apply andb_prop in Hd as [? ?];
      change (ch "0") with 48 in *; change (ch "9") with 57 in *; bool_hyp; lia|done].
    apply Z.eqb_neq in Hn. by rewrite Hn.
Qed.
End Parse.

(** ** Strings *)
Lemma CountLoop_cstring s F p n :
  isset F PRECISION = false -> CountLoop s F p n = n + zlen (cstring s).
Proof.
  intros HF. revert n. induction s as [|c s IH]; intros n; cbn [CountLoop cstring length]; [lia|].
  rewrite HF, orb_true_r, andb_true_r. destruct (c =? 0); cbn [negb length]; [lia|].
  rewrite IH. lia.
Qed.

Lemma copy_text_cstring s mask i d :
  copy_text s mask i (i + zlen (cstring s)) d false = (fun c => Z.land c mask) <$> cstring s.
Proof.
  revert i d. induction s as [|c s IH]; intros i d; cbn [copy_text cstring]; [done|].
  destruct (c =? 0); cbn [negb length]; [by rewrite andb_false_r|].
  destruct (i <? i + Z.of_nat (S (length (cstring s)))) eqn:E; bool_hyp; [|lia]. cbn [andb].
  rewrite fmap_cons. f_equal. rewrite <-IH with (i := i + 1) (d := d). f_equal. lia.
Qed.

Lemma cstring_length s : (length (cstring s) <= length s)%nat.
Proof. induction s as [|c s IH]; cbn; [done|]. destruct (c =? 0); cbn; lia. Qed.

Lemma string_text F w p s :
  isset F ARGUMENT_REVERSED = false -> isset F PRECISION = false -> 0 <= w < 2 ^ 63 ->
  (isset F PAD_TO_WIDTH = false -> w = 0) -> 0 <= p <= 1 -> zlen s < 2 ^ 63 ->
  argument_text (string_argument F w p s) =
  field (isset F LEFT_JUSTIFY) false w []
    (rep (p - zlen (cstring s)) (ch " ") ++
     ((fun c => Z.land c (if isset F ARGUMENT_UNICODE then 65535 else 255)) <$> cstring s)).
Proof.
  intros HR HP Hw Hpad Hp Hl. unfold argument_text, string_argument, field.
  cbn [aFlags aWidth aPrecision aPrefix aComma aZeroPad aCount aDigits aString].
  rewrite HR, (CountLoop_cstring _ _ _ _ HP). change (0 =? 0) with true. cbv iota.
  rewrite Z.add_0_l. pose proof (cstring_length s). set (n := zlen (cstring s)) in *.
  rewrite <-(Z.add_0_l n) at 4. unfold n at 4. rewrite copy_text_cstring. fold n.
  set (body := _ <$> cstring s). assert (Hb : zlen body = n) by (unfold body; by rewrite length_fmap).
  rewrite !s64_small by lia. rewrite !app_nil_r, !app_nil_l. rewrite length_app, Nat2Z.inj_add, Hb.
  replace (Z.max p n - n) with (Z.max 0 (p - n)) by lia.
  assert (HX : rep (Z.max 0 (p - n)) (ch " ") = rep (p - n) (ch " ")).
  { destruct (decide (0 <= p - n)); [by rewrite Z.max_r by lia|]. by rewrite !rep_neg by lia. }
  rewrite HX. assert (HL : zlen (rep (p - n) (ch " ")) = Z.max 0 (p - n)).
  { rewrite <-HX. apply zlen_rep. lia. }
  rewrite HL. cbn [length]. replace (w - Z.of_nat 0 - (Z.max 0 (p - n) + n)) with (w - Z.max p n) by lia.
  destruct (isset F PAD_TO_WIDTH), (isset F LEFT_JUSTIFY); cbn [andb negb app];
    rewrite ?app_nil_r, ?app_assoc; try done.
  all: rewrite (rep_neg (w - _)) by (specialize (Hpad eq_refl); lia); by rewrite ?app_nil_r.
Qed.

(** ** One item of a format *)
Section Steps.
Context (SPrint : list Z -> VA_LIST -> outcome (list Z)) (m : Z) (Hm : mode_ok m).

(** The iteration that reads the characters [f] of the format prints [t]. *)
Definition reads (f : list Z) (args : VA_LIST) (t r : list Z) (args' : VA_LIST) : Prop :=
  match f with
  | c :: f => exists a, next_argument SPrint c f m args = Val (a, r, args') /\
      isset (aFlags a) COUNT_ONLY_NO_PRINT = false /\ argument_text a = t
  | [] => False
  end.

Lemma mode_none f : Z.land (Z.lor FORMAT_UNICODE OUTPUT_UNICODE) f = 0 -> isset m f = false.
Proof using Hm. by apply mode_isset. Qed.

(** A string outside a directive. *)
Lemma reads_plain c f s u r args :
  next_argument SPrint c f m args = Val (string_argument (Z.lor m (opt u ARGUMENT_UNICODE)) 0 1 s, r, args) ->
  cstring s = s -> s <> [] -> zlen s <= 2 ->
  Forall (fun c => Z.land c (if u then 65535 else 255) = c) s ->
  reads (c :: f) args s r args.
Proof using Hm.
  intros HN Hc Hs Hl Hf. eexists. split; [exact HN|].
  assert (HI : forall f, Z.land (Z.lor FORMAT_UNICODE OUTPUT_UNICODE) f = 0 ->
    isset ARGUMENT_UNICODE f = false -> isset (Z.lor m (opt u ARGUMENT_UNICODE)) f = false).
  { intros g H1 H2. rewrite isset_lor, isset_opt, mode_none, H2 by done. by destruct u. }
  split; [cbn [aFlags string_argument]; by apply HI|].
  rewrite string_text by (lia || by apply HI). rewrite Hc, (HI LEFT_JUSTIFY) by done.
  rewrite isset_lor, isset_opt, mode_none, andb_true_r by done. cbn [orb].
  assert (1 <= zlen s) by (destruct s; cbn; [done|lia]).
  unfold field. rewrite !rep_neg by (cbn; lia). cbn [app].
  rewrite (list_fmap_ext _ id), list_fmap_id; [done|].
  intros i x Hx. rewrite Forall_lookup in Hf. by eapply Hf.
Qed.

Lemma reads_line c f s r args :
  (c =? CR) || (c =? LF) = true -> line_end c f = (s, r) ->
  s = [CR] \/ s = [CR; LF] -> reads (c :: f) args s r args.
Proof using Hm.
  intros Hc HL Hs. apply (reads_plain _ _ _ false).
  - unfold next_argument. replace (c =? ch "%") with false.
    2:{ symmetry. apply Z.eqb_neq. change (ch "%") with 37. unfold CR, LF in Hc.
        apply orb_prop in Hc as [?%Z.eqb_eq|?%Z.eqb_eq]; lia. }
    rewrite Hc, HL. by rewrite Z.lor_0_r.
  - by destruct Hs as [-> | ->].
  - by destruct Hs as [-> | ->].
  - by destruct Hs as [-> | ->].
  - destruct Hs as [-> | ->]; repeat constructor.
Qed.

(** The flags of a directive. *)
Definition directive_flags (lj zero long : bool) (w : Z) : Z :=
  Z.lor (Z.lor (Z.lor (Z.lor m (opt lj LEFT_JUSTIFY)) (opt zero PREFIX_ZERO))
    (opt (zero || negb (w =? 0)) PAD_TO_WIDTH)) (opt long LONG_TYPE).

Lemma directive_isset lj zero long w f :
  Z.land (Z.lor FORMAT_UNICODE OUTPUT_UNICODE) f = 0 ->
  isset (directive_flags lj zero long w) f =
  lj && isset LEFT_JUSTIFY f || zero && isset PREFIX_ZERO f ||
  (zero || negb (w =? 0)) && isset PAD_TO_WIDTH f || long && isset LONG_TYPE f.
Proof using Hm.
  intros Hf. unfold directive_flags. by rewrite !isset_lor, !isset_opt, mode_none by done.
Qed.

(** The value of a flag of a directive. *)
Ltac flags :=
  rewrite ?isset_ldiff_same; rewrite ?isset_lor;
  rewrite ?isset_ldiff_same; rewrite ?isset_ldiff_other by reflexivity;
  rewrite ?directive_isset by reflexivity;
  repeat match goal with
  | |- context [isset ?a ?f] =>
      let v := eval vm_compute in (isset a f) in
      match v with true => idtac | false => idtac end; change (isset a f) with v
  end;
  rewrite ?andb_true_r, ?andb_false_r, ?orb_false_r, ?orb_true_r; cbn [orb andb negb].

(** The type, the flags and the width of a directive. *)
Lemma next_directive lj zero ls w c r args :
  0 <= w < 2 ^ 63 -> type_char c = true ->
  next_argument SPrint (ch "%")
    ((flag lj (ch "-") ++ flag zero (ch "0") ++ width_text w ++ replicate ls (ch "l") ++ [c]) ++ r)
    m args =
  directive_argument SPrint
    (mkDirective (directive_flags lj zero (is_long ls) w) w 1 c r) args.
Proof using Hm.
  intros Hw Hc. unfold next_argument. change (ch "%" =? ch "%") with true. cbv iota.
  rewrite <-!app_assoc. cbn [app]. set (f := flag lj _ ++ _).
  change (parse_flags (S (length f)) f) with (parse f). unfold f.
  rewrite parse_left, parse_width, parse_long, parse_stop.
  - done.
  - done.
  - by rewrite isset_lor, isset_opt, mode_none, andb_false_r.
  - lia.
  - destruct ls; [|done]. cbn. by apply type_char_stop in Hc as [-> _].
Qed.

Lemma integer_flags_radix k F :
  isset F RADIX_HEX = false ->
  integer_flags (radix_char k) F =
  match k with
  | Dec => F
  | Uns => Z.lor (Z.ldiff F PREFIX_SIGN) UNSIGNED_TYPE
  | Hex => Z.lor F RADIX_HEX
  | HEX => Z.lor (Z.lor F PREFIX_ZERO) RADIX_HEX
  end.
Proof using.
  intros HF. unfold integer_flags. destruct k; cbn [radix_char]; chars; rewrite ?HF; [done..| |];
    rewrite isset_lor; change (isset RADIX_HEX RADIX_HEX) with true; by rewrite orb_true_r.
Qed.

(** What is printed of a slot: its value and whether a sign precedes it. *)
Lemma integer_value F lj zero long w k a t :
  integer_text lj zero long w k a = Some t ->
  isset F RADIX_HEX = (match k with Hex | HEX => true | _ => false end) ->
  isset F UNSIGNED_TYPE = (match k with Uns => true | _ => false end) ->
  isset F LONG_TYPE = long ->
  let Value := signed_slot long a in
  let neg := negb (isset F RADIX_HEX) && negb (isset F UNSIGNED_TYPE) && (Value <? 0) in
  let mag := if neg then - Value
         else if isset F LONG_TYPE || negb (isset F RADIX_HEX || isset F UNSIGNED_TYPE)
              then u64 Value else u32 Value in
  (Value <> - 2 ^ 63 \/ neg = false) /\ 0 <= mag < 2 ^ 64 /\
  (isset F LONG_TYPE = false -> - 2 ^ 31 <= Value < 2 ^ 31) /\
  t = field lj (match k with HEX => true | _ => zero end) w (flag neg (ch "-"))
        (numeral (if isset F RADIX_HEX then 16 else 10) mag).
Proof using.
  intros Ht HX HU HL Value neg mag.
  assert (Hs : - 2 ^ 63 <= Value < 2 ^ 63).
  { unfold Value, signed_slot. pose proof (s64_range (slot_bits a)).
    pose proof (s32_range (slot_bits a)). destruct long; lia. }
  assert (Hb : slot_bits a = u64 (slot_bits a)).
  { symmetry. apply u64_small. destruct a; apply u64_range. }
  assert (Hu : (if long then u64 Value else u32 Value) = unsigned_slot long a).
  { unfold Value, signed_slot, unsigned_slot. destruct long; [by rewrite u64_s64|by rewrite u32_s32]. }
  assert (Hur : 0 <= unsigned_slot long a < 2 ^ 64).
  { rewrite <-Hu. pose proof (u64_range Value). pose proof (u32_range Value). destruct long; lia. }
  assert (Hi : isset F LONG_TYPE = false -> - 2 ^ 31 <= Value < 2 ^ 31).
  { rewrite HL. intros ->. apply s32_range. }
  unfold mag, neg. rewrite HX, HU, HL. unfold integer_text in Ht. fold Value in Ht. rewrite HL in Hi.
  destruct k; cbn [negb andb orb flag] in *; rewrite ?orb_true_r, ?orb_false_r, ?Hu in *.
  - destruct (Value =? - 2 ^ 63) eqn:E; [done|]. bool_hyp. injection Ht as <-.
    assert (Ha : (if Value <? 0 then - Value else u64 Value) = Z.abs Value).
    { split_if; bool_hyp; [lia|]. rewrite u64_small; lia. }
    rewrite Ha. split; [by left|]. split; [lia|]. by split.
  - injection Ht as <-. split; [by right|]. by split.
  - injection Ht as <-. split; [by right|]. by split.
  - injection Ht as <-. split; [by right|]. by split.
Qed.

Lemma reads_int lj zero ls w k a t r args :
  0 <= w < 2 ^ 63 -> integer_text lj zero (is_long ls) w k a = Some t ->
  reads (item_format (Int lj zero ls w k) ++ r) (a :: args) t r args.
Proof using Hm.
  intros Hw Ht. cbn [item_format app].
  set (f := (flag lj (ch "-") ++ _) ++ r).
  change (reads (ch "%" :: f) (a :: args) t r args). unfold f, reads.
  rewrite next_directive by (done || by destruct k). clear f. set (long := is_long ls) in *.
  set (F := directive_flags lj zero long w). unfold directive_argument.
  cbn [dType dFlags dWidth dPrecision dFormat].
  assert (HT : (radix_char k =? ch "p") || (radix_char k =? ch "X") || (radix_char k =? ch "x")
    || (radix_char k =? ch "u") || (radix_char k =? ch "d") = true) by (by destruct k).
  rewrite HT, integer_flags_radix by (unfold F; by flags). clear HT.
  set (F' := match k with Dec => F | _ => _ end).
  assert (HL : isset F' LONG_TYPE = long) by (unfold F', F; destruct k; by flags).
  assert (HX : isset F' RADIX_HEX = match k with Hex | HEX => true | _ => false end)
    by (unfold F', F; destruct k; by flags).
  assert (HU : isset F' UNSIGNED_TYPE = match k with Uns => true | _ => false end)
    by (unfold F', F; destruct k; by flags).
  assert (HJ : isset F' LEFT_JUSTIFY = lj) by (unfold F', F; destruct k; by flags).
  assert (HZ : isset F' PREFIX_ZERO = match k with HEX => true | _ => zero end)
    by (unfold F', F; destruct k; by flags).
  assert (HP : isset F' PAD_TO_WIDTH = false -> w = 0).
  { assert (HE : isset F' PAD_TO_WIDTH = zero || negb (w =? 0)) by (unfold F', F; destruct k; by flags).
    rewrite HE. intros [_ ?]%orb_false_iff. bool_hyp. done. }
  destruct (integer_value F' lj zero long w k a t Ht HX HU HL) as (Hov & Hmag & Hint & ->).
  cbv zeta.
  assert (HV : (if isset F' LONG_TYPE then VA_ARG_INT64 (a :: args) else VA_ARG_int (a :: args))
    = Val (signed_slot long a, args)) by (rewrite HL; by destruct long).
  rewrite HV. cbn [obind]. clear HV.
  destruct (integer_argument_run F' w (signed_slot long a) _ _
    ltac:(unfold F', F; destruct k; by flags) ltac:(unfold F', F; destruct k; by flags)
    ltac:(unfold F', F; destruct k; by flags) ltac:(unfold F', F; destruct k; by flags)
    ltac:(unfold F', F; destruct k; by flags) Hw HP eq_refl Hov eq_refl Hmag Hint)
    as (arg & HA & Hfl & Htx).
  rewrite HA. cbn [obind]. exists arg. split; [done|]. split.
  - rewrite Hfl. change (isset PREFIX_SIGN COUNT_ONLY_NO_PRINT) with false.
    change (isset ARGUMENT_REVERSED COUNT_ONLY_NO_PRINT) with false. rewrite andb_false_r, !orb_false_r.
    unfold F', F; destruct k; by flags.
  - rewrite Htx, HJ, HZ. done.
Qed.

Lemma land_u16 c : Z.land c 65535 = u16 c.
Proof using. change 65535 with (Z.ones 16). by rewrite Z.land_ones. Qed.
Lemma land_u8 c : Z.land c 255 = u8 c.
Proof using. change 255 with (Z.ones 8). by rewrite Z.land_ones. Qed.

(** A string in a directive. *)
Lemma string_directive F w s u :
  isset F ARGUMENT_REVERSED = false -> isset F PRECISION = false ->
  isset F COUNT_ONLY_NO_PRINT = false -> 0 <= w < 2 ^ 63 ->
  (isset F PAD_TO_WIDTH = false -> w = 0) -> zlen s < 2 ^ 63 -> isset F ARGUMENT_UNICODE = u ->
  isset (aFlags (string_argument F w 0 s)) COUNT_ONLY_NO_PRINT = false /\
  argument_text (string_argument F w 0 s) =
  field (isset F LEFT_JUSTIFY) false w [] ((if u then u16 else u8) <$> cstring s).
Proof using.
  intros HR HP HC Hw Hpad Hl Hu. split; [done|]. rewrite string_text by (done || lia).
  rewrite rep_neg, app_nil_l by lia. f_equal. rewrite Hu.
  apply list_fmap_ext. intros i x _. destruct u; [apply land_u16|apply land_u8].
Qed.

Lemma reads_str lj w wide t r args args' :
  0 <= w < 2 ^ 63 -> item_text (Str lj w wide) args = Some (t, args') ->
  reads (item_format (Str lj w wide) ++ r) args t r args'.
Proof using Hm.
  intros Hw Ht. cbn [item_format app].
  set (c := if wide then ch "s" else ch "a").
  pose proof (next_directive lj false 0 w c r args Hw ltac:(by destruct wide)) as HN.
  unfold reads. cbn [flag app replicate is_long] in HN. rewrite HN. clear HN.
  set (F := directive_flags _ _ _ _). unfold directive_argument.
  cbn [dType dFlags dWidth dPrecision dFormat].
  assert (Hc : (c =? ch "p") || (c =? ch "X") || (c =? ch "x") || (c =? ch "u") || (c =? ch "d") = false /\
    (c =? ch "s") || (c =? ch "S") || (c =? ch "a") = true /\ negb (c =? ch "a") = wide)
    by (by destruct wide).
  destruct Hc as (-> & -> & ->). cbn [item_text] in Ht. cbv zeta.
  destruct (VA_ARG_ptr _ args) as [[os args1]| |]; [|done..]. cbn [obind].
  set (b := wide && notnull os). set (G := if b then Z.lor F ARGUMENT_UNICODE else F).
  assert (HJ : isset G LEFT_JUSTIFY = lj) by (unfold G, F; destruct b; by flags).
  assert (HP : isset G PAD_TO_WIDTH = false -> w = 0).
  { assert (HE : isset G PAD_TO_WIDTH = negb (w =? 0)) by (unfold G, F; destruct b; by flags).
    rewrite HE. intros. bool_hyp. done. }
  assert (HB : isset G ARGUMENT_UNICODE = b) by (unfold G, F; destruct b; by flags).
  assert (HR : isset G ARGUMENT_REVERSED = false) by (unfold G, F; destruct b; by flags).
  assert (HC : isset G COUNT_ONLY_NO_PRINT = false) by (unfold G, F; destruct b; by flags).
  assert (HQ : isset G PRECISION = false) by (unfold G, F; destruct b; by flags).
  rewrite HQ. destruct os as [s|]; cbn [default].
  - destruct (zlen s <? 2 ^ 63) eqn:El; [|done]. bool_hyp. injection Ht as <- <-.
    eexists. split; [reflexivity|]. rewrite <-HJ.
    replace wide with b by (unfold b; by rewrite andb_true_r). by apply string_directive.
  - injection Ht as <- <-. eexists. split; [reflexivity|]. rewrite <-HJ.
    change (txt "<null string>") with ((if false then u16 else u8) <$> cstring (txt "<null string>")) at 3.
    apply string_directive; try done. rewrite HB. unfold b. by rewrite andb_false_r.
Qed.

Lemma reads_item i t r args args' :
  item_ok i = true -> item_text i args = Some (t, args') ->
  match i, r with
  | Newline, c :: _ => c <> CR
  | Cr, c :: _ => c <> LF
  | _, _ => True
  end ->
  reads (item_format i ++ r) args t r args'.
Proof using Hm.
  intros Hok Ht Hr. destruct i as [c| | | | |lj zero ls w k|lj w wide|]; cbn [item_ok item_text] in *.
  - injection Ht as <- <-. bool_hyp. cbn [item_format app]. apply (reads_plain _ _ _ true); try done.
    + unfold next_argument. repeat match goal with H : c <> _ |- _ => apply Z.eqb_neq in H; rewrite H end.
      done.
    + cbn. destruct (c =? 0) eqn:E; bool_hyp; [lia|done].
    + constructor; [|constructor]. rewrite land_u16. apply u16_small. lia.
  - injection Ht as <- <-. apply reads_line; [done| |by left]. destruct r as [|c r]; [done|].
    cbn. apply Z.eqb_neq in Hr. by rewrite Hr.
  - injection Ht as <- <-. apply reads_line; [done| |by right]. destruct r as [|c r]; [done|].
    cbn. apply Z.eqb_neq in Hr. by rewrite Hr.
  - injection Ht as <- <-. apply (reads_line CR (LF :: r)); [done|done|by right].
  - injection Ht as <- <-. apply (reads_plain _ _ _ true); try done; try (by repeat constructor).
  - bool_hyp. destruct args as [|a args]; [done|].
    destruct (integer_text _ _ _ _ _ _) as [u|] eqn:E; cbn in Ht; [|done]. injection Ht as <- <-.
    by apply reads_int.
  - bool_hyp. by apply reads_str.
  - destruct args as [|a args]; [done|]. injection Ht as <- <-.
    cbn [item_format app]. unfold reads, next_argument. change (ch "%" =? ch "%") with true. cbv iota.
    change (parse_flags _ _) with (parse (ch "c" :: r)). rewrite parse_stop by done. cbn [obind].
    eexists. split; [reflexivity|]. cbn [dFlags dWidth dPrecision].
    assert (HI : forall f, Z.land (Z.lor FORMAT_UNICODE OUTPUT_UNICODE) f = 0 ->
      isset ARGUMENT_UNICODE f = false -> isset (Z.lor m ARGUMENT_UNICODE) f = false).
    { intros g H1 H2. by rewrite isset_lor, mode_none, H2. }
    split; [by apply HI|]. rewrite string_text by (lia || (by apply HI) || done).
    rewrite (HI LEFT_JUSTIFY) by done. rewrite isset_lor, mode_none by done.
    change (isset ARGUMENT_UNICODE ARGUMENT_UNICODE) with true. cbn [orb].
    rewrite land_u16. change (slot_bits a mod 2 ^ 16) with (u16 (slot_bits a)).
    pose proof (u16_range (slot_bits a)). set (c := u16 (slot_bits a)) in *.
    cbn [cstring]. destruct (c =? 0); [done|]. cbn. rewrite land_u16, u16_small by lia. done.
Qed.
End Steps.

(** ** A whole format *)
Lemma format_of_cons i l : format_of (i :: l) = item_format i ++ format_of l.
Proof. done. Qed.

(** What follows an item does not change how its line end is read. *)
Lemma adjacent_follow i l :
  adjacent_ok i l = true -> format_ok l = true ->
  match i, format_of l with
  | Newline, c :: _ => c <> CR
  | Cr, c :: _ => c <> LF
  | _, _ => True
  end.
Proof.
  intros Ha Hl. destruct i; try done; destruct l as [|j l]; try done;
    cbn [format_ok] in Hl; apply andb_prop in Hl as [Hl _]; apply andb_prop in Hl as [Hj _];
    rewrite format_of_cons; destruct j; try done; cbn [item_ok item_format app] in *;
    bool_hyp; lia || done.
Qed.

Lemma item_format_nonempty i : exists c f, item_format i = c :: f.
Proof. destruct i; cbn [item_format]; eauto. Qed.

Section Loop.
Context (SPrint : list Z -> VA_LIST -> outcome (list Z)) (m bpo : Z) (Hm : mode_ok m).
Context (orig : list Z) (cap : Z) (Hcap : 0 <= cap < zlen orig).

Lemma SPrintLoop_items l args text args' t st fuel :
  format_ok l = true -> render l args = Some (text, args') -> shows orig cap t st ->
  (length (format_of l) < fuel)%nat ->
  exists st', SPrintLoop SPrint fuel m bpo (format_of l) args st = Val st' /\
    shows orig cap (t ++ (store bpo <$> text)) st'.
Proof using Hm Hcap.
  revert args text t st fuel.
  induction l as [|i l IH]; intros args text t st fuel Hok Hr Hs Hf; (destruct fuel as [|fuel]; [lia|]).
  - injection Hr as <- <-. exists st. by rewrite app_nil_r.
  - cbn [format_ok render] in *. apply andb_prop in Hok as [Hok Hl]. apply andb_prop in Hok as [Hi Ha].
    destruct (item_text i args) as [[u args1]|] eqn:Hi1; [|done]. cbn in Hr.
    destruct (render l args1) as [[v args2]|] eqn:Hr1; [|done]. cbn in Hr. injection Hr as <- <-.
    rewrite format_of_cons in *.
    pose proof (reads_item SPrint m Hm i u (format_of l) args args1 Hi Hi1
      (adjacent_follow i l Ha Hl)) as HR.
    destruct (item_format_nonempty i) as (c & f & HE). rewrite HE in *. cbn [app length] in *.
    cbn [SPrintLoop]. destruct Hs as (HB & HP & HN). rewrite HB. cbn [notnull andb]. rewrite HN.
    destruct (cap <=? Pos st) eqn:Efull; bool_hyp.
    { exists st. split; [done|]. by apply shows_full. }
    destruct HR as (a & HA & HC & HT). rewrite HA. cbn [obind].
    destruct (print_argument_shows orig cap bpo a t st Hcap HC) as (st1 & HP1 & H1); [done|].
    rewrite HP1. cbn [obind]. rewrite HT in H1.
    destruct (IH args1 v _ st1 fuel Hl Hr1 H1) as (st2 & H2 & HS2); [rewrite length_app in Hf; lia|].
    exists st2. split; [exact H2|]. by rewrite fmap_app, app_assoc.
Qed.

(** The end of the worker: the terminator. *)
Lemma finish_shows t st :
  shows orig cap t st ->
  let out := take (Z.to_nat cap) t in
  exists buf, Buf st = Some buf /\ Pos st = zlen out /\
    BasePrintLibFillBuffer buf (Pos st) (End st + 1) 1 0 bpo =
    Val (out ++ [0] ++ drop (length out + 1) orig, zlen out + 1).
Proof using Hcap.
  intros (HB & HP & HE) out. eexists. split; [exact HB|]. split; [done|].
  unfold BasePrintLibFillBuffer. rewrite HP, HE. fold out.
  assert (length out <= Z.to_nat cap)%nat by (unfold out; rewrite length_take; lia).
  replace (store bpo 0) with 0 by (unfold store; by destruct (bpo =? 1)).
  erewrite FillLoop_run; [|lia|reflexivity].
  replace (Nat.min _ _) with 1%nat by lia. done.
Qed.
End Loop.

(** ** The characters of a rendered text *)
Definition char16 (c : Z) : Prop := 0 <= c < 2 ^ 16.

Lemma rep_chars n c : char16 c -> Forall char16 (rep n c).
Proof. intros. unfold rep. by apply Forall_replicate. Qed.

Lemma numeral_chars R v : 10 <= R <= 16 -> 0 <= v < 2 ^ 64 -> Forall char16 (numeral R v).
Proof.
  intros HR Hv. eapply Forall_impl; [by apply numeral_printable|]. intros c [_ Hc].
  rewrite land_u8 in Hc. pose proof (u8_range c). unfold char16. lia.
Qed.

Lemma field_chars lj zero w sign body :
  Forall char16 sign -> Forall char16 body -> Forall char16 (field lj zero w sign body).
Proof.
  intros. assert (char16 (ch " ") /\ char16 (ch "0")) as [??] by (split; vm_compute; done).
  unfold field. destruct lj, zero; rewrite !Forall_app; auto using rep_chars.
Qed.

Lemma integer_text_chars lj zero long w k a t :
  integer_text lj zero long w k a = Some t -> Forall char16 t.
Proof.
  intros Ht. assert (Hs : - 2 ^ 63 <= signed_slot long a < 2 ^ 63).
  { unfold signed_slot. pose proof (s64_range (slot_bits a)). pose proof (s32_range (slot_bits a)).
    destruct long; lia. }
  assert (Hu : 0 <= unsigned_slot long a < 2 ^ 64).
  { unfold unsigned_slot. pose proof (u32_range (slot_bits a)).
    destruct long; [destruct a; apply u64_range|lia]. }
  unfold integer_text in Ht. destruct k; [split_if; [done|]|..]; injection Ht as <-;
    apply field_chars; try constructor; try (apply numeral_chars; lia).
  destruct (signed_slot long a <? 0); repeat constructor; done.
Qed.

Lemma item_text_chars i args t args' :
  item_ok i = true -> item_text i args = Some (t, args') -> Forall char16 t.
Proof.
  intros Hok Ht. destruct i as [c| | | | |lj zero ls w k|lj w wide|]; cbn [item_ok item_text] in *.
  1: injection Ht as <- <-; bool_hyp; constructor; [unfold char16; lia|constructor].
  1-4: injection Ht as <- <-; repeat constructor; done.
  - destruct args as [|a args]; [done|]. destruct (integer_text _ _ _ _ _ _) as [u|] eqn:E; [|done].
    injection Ht as <- <-. by eapply integer_text_chars.
  - destruct (VA_ARG_ptr _ _) as [[[s|] args1]| |]; [|..|done|done].
    + split_if; [|done]. injection Ht as <- <-. apply field_chars; [constructor|].
      apply Forall_fmap, Forall_true. intros c. unfold compose, char16. destruct wide.
      * apply u16_range.
      * pose proof (u8_range c). lia.
    + injection Ht as <- <-. apply field_chars; [constructor|]. repeat (constructor; [done|]). constructor.
  - destruct args as [|a args]; [done|]. injection Ht as <- <-. constructor; [|constructor].
    split_if; [done|]. apply (u16_range (slot_bits a)).
Qed.

Lemma render_chars l args t args' :
  format_ok l = true -> render l args = Some (t, args') -> Forall char16 t.
Proof.
  revert args t. induction l as [|i l IH]; intros args t Hok Hr; cbn [format_ok render] in *.
  - injection Hr as <- _. constructor.
  - apply andb_prop in Hok as [Hok Hl]. apply andb_prop in Hok as [Hi _].
    destruct (item_text i args) as [[u args1]|] eqn:E; [|done]. cbn in Hr.
    destruct (render l args1) as [[v args2]|] eqn:E2; [|done]. cbn in Hr. injection Hr as <- <-.
    apply Forall_app. split; [by eapply item_text_chars|by eapply IH].
Qed.

Lemma store16 t : Forall char16 t -> store 2 <$> t = t.
Proof.
  induction 1 as [|c t Hc Ht IH]; [done|]. rewrite fmap_cons, IH. f_equal. by apply u16_small.
Qed.

(** ** The worker puts out the text of the format *)
Section Marker.
Context (SPrint : list Z -> VA_LIST -> outcome (list Z)) (Flags : Z) (Hm : mode_ok Flags).
Context (buf : list Z) (size : Z) (Hs : 0 < size <= RSIZE_MAX) (Hb : size <= zlen buf).

Definition bpo_of : Z := if isset Flags OUTPUT_UNICODE then 2 else 1.

(** The checks at the start pass; what is left are the loop and the terminator. *)
Lemma SPrintMarker_run fmt args :
  zlen fmt <= RSIZE_MAX ->
  SPrintMarker SPrint (Some buf) size Flags (Some fmt) args =
  do st <- SPrintLoop SPrint (S (length fmt)) Flags bpo_of fmt args (mkOutput (Some buf) 0 (size - 1) 0);
  match Buf st with
  | None => Undef OutOfBounds
  | Some buf =>
      do (buf, _) <- BasePrintLibFillBuffer buf (Pos st) (End st + 1) 1 0 bpo_of;
      Val (Pos st, Some buf)
  end.
Proof using Hm Hs.
  intros Hf. unfold SPrintMarker, bpo_of.
  assert (HC : isset Flags COUNT_ONLY_NO_PRINT = false) by (by apply mode_isset).
  rewrite HC. cbn [notnull negb andb orb].
  change ASCII_RSIZE_MAX with RSIZE_MAX.
  replace (if isset Flags OUTPUT_UNICODE then RSIZE_MAX else RSIZE_MAX) with RSIZE_MAX by (by split_if).
  replace (if isset Flags FORMAT_UNICODE then RSIZE_MAX else RSIZE_MAX) with RSIZE_MAX by (by split_if).
  rewrite !andb_false_r. guard_false. guard_false. guard_false.
  replace (Z.land Flags _) with Flags; [done|].
  apply Z.bits_inj'. intros n Hn. rewrite !Z.land_spec, !Z.lor_spec.
  assert (Hbit : Z.testbit (Z.land Flags (Z.lor FORMAT_UNICODE OUTPUT_UNICODE)) n
    = Z.testbit Flags n) by (f_equal; exact Hm). rewrite Z.land_spec, Z.lor_spec in Hbit.
  destruct (Z.testbit Flags n), (Z.testbit OUTPUT_UNICODE n), (Z.testbit FORMAT_UNICODE n); done.
Qed.

Lemma shows_start : shows buf (size - 1) [] (mkOutput (Some buf) 0 (size - 1) 0).
Proof using. unfold shows. rewrite firstn_nil. done. Qed.

Lemma SPrintMarker_items l args text args' :
  format_ok l = true -> render l args = Some (text, args') -> zlen (format_of l) <= RSIZE_MAX ->
  let out := take (Z.to_nat (size - 1)) (store bpo_of <$> text) in
  SPrintMarker SPrint (Some buf) size Flags (Some (format_of l)) args =
  Val (zlen out, Some (out ++ [0] ++ drop (length out + 1) buf)).
Proof using Hm Hs Hb.
  intros Hok Hr Hf out. rewrite SPrintMarker_run by done.
  destruct (SPrintLoop_items SPrint Flags bpo_of Hm buf (size - 1) ltac:(lia) l args text args' []
    _ (S (length (format_of l))) Hok Hr shows_start ltac:(lia)) as (st & -> & HS). cbn [obind].
  destruct (finish_shows bpo_of buf (size - 1) ltac:(lia) _ st HS) as (b & -> & HP & HF).
  rewrite HF. cbn [obind]. by rewrite HP.
Qed.
End Marker.

Lemma UnicodeVSPrint_items l args text args' buf n :
  format_ok l = true -> render l args = Some (text, args') ->
  zlen (format_of l) <= RSIZE_MAX -> 2 <= n -> n / 2 <= RSIZE_MAX -> n / 2 <= zlen buf ->
  let out := take (Z.to_nat (n / 2 - 1)) text in
  UnicodeVSPrint (Some buf) n (Some (format_of l)) args =
  Val (zlen out, Some (out ++ [0] ++ drop (length out + 1) buf)).
Proof.
  intros Hok Hr Hf Hn Hmax Hb out. unfold UnicodeVSPrint, BasePrintLibSPrintMarker.
  rewrite Z.shiftr_div_pow2 by lia. change (2 ^ 1) with 2.
  assert (1 <= n / 2) by (apply Z.div_le_lower_bound; lia).
  rewrite (SPrintMarker_items _ (Z.lor FORMAT_UNICODE OUTPUT_UNICODE) eq_refl buf (n / 2)
    ltac:(lia) Hb l args text args' Hok Hr Hf).
  change (bpo_of _) with 2. by rewrite store16 by (by eapply render_chars).
Qed.

(** C37: (refinement) Formatted printing prints what the format means.  For a format
    that is a list of literal characters, line ends and directives (d, u, x and X
    with the flags for left justification, zero padding and 64-bit arguments and
    with a width; s, a and c), [UnicodeVSPrint] puts the reference text [render]
    into the buffer, cut to the characters that fit, followed by the terminator,
    leaves the rest of the buffer, and returns the number of characters put there. *)
Theorem unicode_vsprint_renders l args text args' buf n :
  format_ok l = true -> render l args = Some (text, args') ->
  zlen (format_of l) <= RSIZE_MAX -> 2 <= n -> n / 2 <= RSIZE_MAX -> n / 2 <= zlen buf ->
  let out := take (Z.to_nat (n / 2 - 1)) text in
  UnicodeVSPrint (Some buf) n (Some (format_of l)) args =
  Val (zlen out, Some (out ++ [0] ++ drop (length out + 1) buf)).
Proof. apply UnicodeVSPrint_items. Qed.

(** "%d %04d-%02d|%-6x|%s" with a buffer of 40 characters. *)
Lemma unicode_vsprint_renders_witness :
  UnicodeVSPrint (Some (zeros 40)) 80
    (Some (format_of [Int false false 0 0 Dec; Lit 32; Int false true 0 4 Dec; Lit 45;
                      Int false true 0 2 Dec; Lit 124; Int true false 0 6 Hex; Lit 124;
                      Str false 0 true; Newline]))
    [VaInt (2 ^ 32 - 7); VaInt 25; VaInt 3; VaInt 48879; VaStr16 4096 (txt "boot")] =
  Val (24, Some (txt "-7 0025-03|BEEF  |boot" ++ [13; 10; 0] ++ zeros 15)).
Proof.
  pose proof (unicode_vsprint_renders
    [Int false false 0 0 Dec; Lit 32; Int false true 0 4 Dec; Lit 45;
     Int false true 0 2 Dec; Lit 124; Int true false 0 6 Hex; Lit 124;
     Str false 0 true; Newline]
    [VaInt (2 ^ 32 - 7); VaInt 25; VaInt 3; VaInt 48879; VaStr16 4096 (txt "boot")]
    (txt "-7 0025-03|BEEF  |boot" ++ [13; 10]) [] (zeros 40) 80) as H.
  apply H; vm_compute; congruence.
Defined.

(** ** The worker stays inside its buffer *)

(** An outcome that is a good value, or undefined only because of the arguments:
    one is missing or of another type, or it is the 64-bit integer that has no
    negation. *)
Definition guarded {A} (Q : A -> Prop) (o : outcome A) : Prop :=
  match o with
  | Val a => Q a
  | Undef BadArgument | Undef Overflow => True
  | _ => False
  end.

Lemma guarded_bind {A B} (Q : A -> Prop) (P : B -> Prop) m k :
  guarded Q m -> (forall a, Q a -> guarded P (k a)) -> guarded P (obind m k).
Proof. destruct m as [a|[]|]; cbn; auto. Qed.

Lemma guarded_weaken {A} (Q P : A -> Prop) m :
  guarded Q m -> (forall a, Q a -> P a) -> guarded P m.
Proof. destruct m as [a|[]|]; cbn; auto. Qed.

Lemma isset_lor_clear a b f : isset a f = false -> isset b f = false -> isset (Z.lor a b) f = false.
Proof. intros Ha Hb. by rewrite isset_lor, Ha, Hb. Qed.
Lemma isset_ldiff_clear a b f : isset a f = false -> isset (Z.ldiff a b) f = false.
Proof.
  unfold isset. intros Ha%negb_false_iff%Z.eqb_eq. apply negb_false_iff, Z.eqb_eq.
  apply Z.bits_inj'. intros n Hn. rewrite Z.land_spec, Z.ldiff_spec, Z.bits_0.
  pose proof (f_equal (fun z => Z.testbit z n) Ha) as Hb. cbv beta in Hb.
  rewrite Z.land_spec, Z.bits_0 in Hb. destruct (Z.testbit a n), (Z.testbit f n), (Z.testbit b n); done.
Qed.
Create HintDb print.
#[local] Hint Resolve isset_lor_clear isset_ldiff_clear : print.
#[local] Hint Extern 2 (isset _ _ = false) => reflexivity : print.

(** The count-only bit is not among the flags of a format. *)
Definition no_count (Flags : Z) : Prop := isset Flags COUNT_ONLY_NO_PRINT = false.
#[local] Hint Unfold no_count : print.
#[local] Hint Extern 3 (no_count (if ?b then _ else _)) => destruct b : print.
#[local] Hint Extern 3 (isset (if ?b then _ else _) _ = false) => destruct b : print.

Lemma VA_ARG_UINTN_guarded args : guarded (fun _ => True) (VA_ARG_UINTN args).
Proof. by destruct args. Qed.
Lemma VA_ARG_ptr_guarded {A} (cast : va_arg -> option A) args :
  guarded (fun _ => True) (VA_ARG_ptr cast args).
Proof.
  destruct args as [|a args]; [done|]. cbn. destruct a; [by split_if|..]; by destruct (cast _).
Qed.

Lemma parse_guarded fuel l Flags w p args :
  no_count Flags -> (length l < fuel)%nat ->
  guarded (fun '(d, _) => no_count (dFlags d) /\ (length (dFormat d) <= length l)%nat)
    (parse_flags fuel l Flags w p args).
Proof.
  revert l Flags w p args. induction fuel as [|fuel IH]; intros l Flags w p args HF Hl; [lia|].
  destruct l as [|c r]; [by split|]. cbn [parse_flags length] in *.
  assert (IHr : forall F w p args, no_count F ->
    guarded (fun '(d, _) => no_count (dFlags d) /\ (length (dFormat d) <= S (length r))%nat)
      (parse_flags fuel r F w p args)).
  { intros. eapply guarded_weaken; [apply IH; [done|lia]|]. intros [d ?] [??]. split; [done|lia]. }
  do 6 (split_if; [apply IHr; auto with print|]). split_if.
  { eapply guarded_bind; [apply VA_ARG_UINTN_guarded|]. intros [n args'] _.
    split_if; apply IHr; auto with print. }
  destruct (is_digit c) eqn:Hd; [|split; [done|cbn; lia]].
  pose proof (proj2 (scan_digits_length (c :: r) 0) Hd) as HL. cbn [length] in HL.
  destruct (scan_digits (c :: r) 0) as [n r']. cbn [snd] in HL.
  assert (IHr' : forall F w p args, no_count F ->
    guarded (fun '(d, _) => no_count (dFlags d) /\ (length (dFormat d) <= S (length r))%nat)
      (parse_flags fuel r' F w p args)).
  { intros. eapply guarded_weaken; [apply IH; [done|lia]|]. intros [d ?] [??]. split; [done|lia]. }
  split_if; apply IHr'; auto 6 with print.
Qed.

Lemma integer_argument_guarded Flags w p v :
  no_count Flags -> guarded (fun a => no_count (aFlags a)) (integer_argument Flags w p v).
Proof.
  intros HF. unfold integer_argument, integer_conversion.
  eapply (guarded_bind (fun '(F, _, _, _, R, _) => no_count F /\ 10 <= R <= 16)).
  - destruct (isset Flags RADIX_HEX); cbn [negb].
    { split_if; split; (done || lia). }
    destruct (isset Flags COMMA_TYPE); split_if;
      try (unfold negate64; split_if; [done|]); try split_if; cbn; split; try lia; auto with print.
  - intros [[[[[F p'] pre] comma] R] V] [HF' HR]. rewrite ValueToString_numeral by done. cbn [obind].
    destruct (pre =? 0); cbn [aFlags guarded]; auto with print.
Qed.

Lemma line_end_length c r : (length (line_end c r).2 <= length r)%nat.
Proof. unfold line_end. destruct r as [|x r]; repeat split_if; cbn; lia. Qed.

Section Guarded.
Context (SPrint : list Z -> VA_LIST -> outcome (list Z)).
(** The nested calls that the types g, t and r make. *)
Context (Hguid : forall z0 z1 z2 z3 z4 z5 z6 z7 z8 z9 z10, guarded (fun _ => True)
  (SPrint guid_format (VaInt <$> [z0; z1; z2; z3; z4; z5; z6; z7; z8; z9; z10]))).
Context (Htime : forall z0 z1 z2 z3 z4, guarded (fun _ => True)
  (SPrint time_format (VaInt <$> [z0; z1; z2; z3; z4]))).
Context (Hstatus : forall z, guarded (fun _ => True) (SPrint (txt "%08X") [VaInt z])).

Lemma directive_guarded d args :
  no_count (dFlags d) ->
  guarded (fun '(a, r, _) => no_count (aFlags a) /\ (length r <= length (dFormat d))%nat)
    (directive_argument SPrint d args).
Proof using Hguid Htime Hstatus.
  intros HF. unfold directive_argument. cbv zeta. split_if.
  { eapply guarded_bind; [instantiate (1 := fun _ => True); destruct args; by split_if|].
    intros [v args'] _. eapply guarded_bind; [apply integer_argument_guarded|].
    - unfold integer_flags. cbv zeta. auto 20 with print.
    - intros a Ha. by split. }
  split_if.
  { eapply guarded_bind; [apply VA_ARG_ptr_guarded|]. intros [s args'] _.
    split; [cbn [aFlags string_argument]; auto with print|done]. }
  split_if.
  { eapply guarded_bind; [apply VA_ARG_UINTN_guarded|]. intros [z args'] _.
    split; [cbn [aFlags string_argument]; auto with print|done]. }
  do 3 (split_if; [eapply guarded_bind; [first [apply VA_ARG_ptr_guarded|apply VA_ARG_UINTN_guarded]|];
    intros [x args'] _; (eapply guarded_bind; [instantiate (1 := fun _ => True)|by split]);
    first [destruct x; [first [apply Hguid|apply Htime]|done] |
           destruct (status_name x); [done|apply Hstatus]]|]).
  split_if.
  - pose proof (line_end_length (dType d) (dFormat d)).
    destruct (line_end (dType d) (dFormat d)) as [s r]. by split.
  - split; [cbn [aFlags string_argument]; auto with print|done].
Qed.

Lemma next_guarded c r m args :
  no_count m ->
  guarded (fun '(a, r', _) => no_count (aFlags a) /\ (length r' <= length r)%nat)
    (next_argument SPrint c r m args).
Proof using Hguid Htime Hstatus.
  intros Hm. unfold next_argument. split_if; [|split_if].
  - eapply guarded_bind; [apply parse_guarded; [done|lia]|]. intros [d args'] [Hd Hl].
    eapply guarded_weaken; [by apply directive_guarded|]. intros [[a r'] args''] [??]. split; [done|lia].
  - pose proof (line_end_length c r). destruct (line_end c r) as [s r']. by split.
  - split; [cbn [aFlags string_argument]; auto with print|done].
Qed.

Lemma SPrintLoop_guarded m bpo orig cap fuel fmt args t st :
  0 <= cap < zlen orig -> no_count m -> shows orig cap t st -> (length fmt < fuel)%nat ->
  guarded (fun st' => exists t', shows orig cap t' st') (SPrintLoop SPrint fuel m bpo fmt args st).
Proof using Hguid Htime Hstatus.
  intros Hcap Hm. revert fmt args t st.
  induction fuel as [|fuel IH]; intros fmt args t st Hs Hl; [lia|].
  destruct fmt as [|c r]; [by exists t|]. cbn [SPrintLoop length] in *. split_if; [by exists t|].
  eapply guarded_bind; [by apply next_guarded|]. intros [[a r'] args'] [Ha Hr].
  destruct (print_argument_shows orig cap bpo a t st Hcap Ha Hs) as (st1 & -> & H1). cbn [obind].
  eapply IH; [exact H1|lia].
Qed.
End Guarded.

(** The formats of the nested calls. *)
Lemma short_int_text lj zero w k a : exists t, integer_text lj zero false w k a = Some t.
Proof.
  unfold integer_text. destruct k; eauto. unfold signed_slot. pose proof (s32_range (slot_bits a)).
  destruct (s32 (slot_bits a) =? - 2 ^ 63) eqn:E; bool_hyp; [lia|eauto].
Qed.

Definition hex (w : Z) : item := Int false true 0 w Hex.
Definition dec (w : Z) : item := Int false true 0 w Dec.
Definition guid_items : list item :=
  [hex 8; Lit 45; hex 4; Lit 45; hex 4; Lit 45; hex 2; hex 2; Lit 45; hex 2; hex 2; hex 2; hex 2;
   hex 2; hex 2].
Definition time_items : list item :=
  [dec 2; Lit 47; dec 2; Lit 47; dec 4; Lit 32; Lit 32; dec 2; Lit 58; dec 2].
Definition status_items : list item := [Int false true 0 8 HEX].

(** As many 32-bit arguments as a format has directives are enough. *)
Fixpoint short_only (l : list item) (n : nat) : bool :=
  match l, n with
  | [], O => true
  | Lit _ :: l, n => short_only l n
  | Int _ _ O _ _ :: l, S n => short_only l n
  | _, _ => false
  end.

Lemma short_render l args :
  short_only l (length args) = true -> exists t, render l args = Some (t, []).
Proof.
  revert args. induction l as [|i l IH]; intros args Hl.
  - destruct args; [by exists []|done].
  - destruct i as [c| | | | |lj zero [|] w k|lj w wide|]; try done; cbn [short_only] in Hl.
    + destruct (IH args Hl) as [t Ht]. cbn [render item_text]. cbn. rewrite Ht. cbn. eauto.
    + destruct args as [|a args]; [done|]. cbn [length] in Hl. destruct (IH args Hl) as [t Ht].
      destruct (short_int_text lj zero w k a) as [u Hu].
      cbn [render item_text is_long]. rewrite Hu. cbn. rewrite Ht. cbn. eauto.
Qed.

Lemma nested_guarded l args :
  format_ok l = true -> short_only l (length args) = true -> zlen (format_of l) <= RSIZE_MAX ->
  guarded (fun _ => True) (BasePrintLibSPrint (format_of l) args).
Proof.
  intros Hok Hs Hl. destruct (short_render l args Hs) as [t Ht]. unfold BasePrintLibSPrint.
  rewrite (SPrintMarker_items _ 0 eq_refl (zeros MAXIMUM_VALUE_CHARACTERS) MAXIMUM_VALUE_CHARACTERS
    ltac:(vm_compute; split; congruence) ltac:(vm_compute; congruence) l args t [] Hok Ht Hl).
  done.
Qed.

(** What a bounded print leaves: [n] characters and the terminator inside the
    first [size] characters, everything behind it as it was. *)
Definition bounded_print (size : Z) (buf : list Z) (r : Z * option (list Z)) : Prop :=
  exists n out, r = (n, Some (out ++ [0] ++ drop (length out + 1) buf)) /\
    n = zlen out /\ 0 <= n < size.

(** C38: (safety) Printing never leaves its buffer.  For every format string and every
    list of arguments, [UnicodeVSPrint] on a buffer of at least the given size
    terminates and writes only inside that size: it puts some characters and the
    terminator there and leaves everything behind it.  The only other outcomes are
    those of a format that does not fit its arguments: an argument that is missing
    or of another type, or the negation of the least 64-bit integer.  No loop runs
    out of iterations, and no access leaves a buffer, the one for numbers included. *)
Theorem unicode_vsprint_bounded fmt args buf n :
  2 <= n -> n / 2 <= RSIZE_MAX -> n / 2 <= zlen buf -> zlen fmt <= RSIZE_MAX ->
  guarded (bounded_print (n / 2) buf) (UnicodeVSPrint (Some buf) n (Some fmt) args).
Proof.
  intros Hn Hmax Hb Hf. unfold UnicodeVSPrint, BasePrintLibSPrintMarker.
  rewrite Z.shiftr_div_pow2 by lia. change (2 ^ 1) with 2.
  assert (1 <= n / 2) by (apply Z.div_le_lower_bound; lia).
  rewrite (SPrintMarker_run _ (Z.lor FORMAT_UNICODE OUTPUT_UNICODE) eq_refl buf (n / 2)) by lia.
  eapply guarded_bind;
    [apply (SPrintLoop_guarded BasePrintLibSPrint) with (orig := buf) (cap := n / 2 - 1) (t := [])|].
  - intros. change guid_format with (format_of guid_items). by apply nested_guarded.
  - intros. change time_format with (format_of time_items). by apply nested_guarded.
  - intros. change (txt "%08X") with (format_of status_items). by apply nested_guarded.
  - lia.
  - done.
  - apply shows_start.
  - lia.
  - intros st [t Hs].
    destruct (finish_shows 2 buf (n / 2 - 1) ltac:(lia) t st Hs) as (b & -> & HP & HF).
    change (bpo_of _) with 2. rewrite HF. cbn [obind guarded].
    exists (Pos st), (take (Z.to_nat (n / 2 - 1)) t). rewrite HP.
    split; [done|]. split; [done|]. rewrite length_take. lia.
Qed.

Lemma unicode_vsprint_bounded_witness :
  guarded (bounded_print 4 (zeros 6))
    (UnicodeVSPrint (Some (zeros 6)) 8 (Some (txt "%g%5r%")) [VaInt 0; VaInt 3]).
Proof. apply (unicode_vsprint_bounded (txt "%g%5r%") [VaInt 0; VaInt 3] (zeros 6) 8); vm_compute; congruence. Defined.
