(* ===== verification/Log.v ===== *)
(** * The log of the loaders (SBC_Log.c)

    The functions of SBC_Log.c that are compiled (the part above its first
    "#if 0"): the hex dump [SBC_mem_print_bin], the formatter [_LogFmtVPrint],
    the log line [SBC_LogPrint] with the conversions it uses; and [Print] of
    UefiLib, through which they reach the console.  DEBUG output has no effect. *)
From stdpp Require Import base list strings.
From Stdlib Require Import ZArith Lia Ascii.
From S2P Require Import Prelude Uefi PrintLib PrintSpec.
#[local] Open Scope Z_scope.
#[local] Open Scope print_scope.

(** PcdUefiLibMaxPrintBufferSize of SBCPkg.dsc. *)
Definition MAX_PRINT : Z := 16000.

(** ** Strings *)

(** [MyUnicodeStrnLenS]: [String] are the characters in memory from the pointer
    on ([None]: a null pointer). *)
Fixpoint StrnLenLoop (s : list Z) (MaxSize Length : Z) (fuel : nat) : outcome Z :=
  match fuel with
  | O => NoFuel
  | S fuel =>
      if Length <? MaxSize then
        match s with
        | [] => Undef OutOfBounds
        | c :: s => if c =? 0 then Val Length else StrnLenLoop s MaxSize (Length + 1) fuel
        end
      else Val Length
  end.
Definition MyUnicodeStrnLenS (String : option (list Z)) (MaxSize : Z) : outcome Z :=
  match String with
  | None => Val 0
  | Some s => StrnLenLoop s MaxSize 0 (S (length s))
  end.

(** [MyUnicodeStrToAsciiStrS]: the length, and the destination afterwards. *)
Fixpoint ToAsciiLoop (room : nat) (dst src : list Z) (Index : Z) : outcome (Z * list Z) :=
  match room with
  | O => do dst <- of_option OutOfBounds (wr dst Index [0]); Val (Index, dst)
  | S room =>
      match src with
      | [] => Undef OutOfBounds
      | c :: src =>
          if c =? 0 then do dst <- of_option OutOfBounds (wr dst Index [0]); Val (Index, dst)
          else
            do dst <- of_option OutOfBounds (wr dst Index [if 255 <? c then ch "?" else u8 c]);
            ToAsciiLoop room dst src (Index + 1)
      end
  end.
Definition MyUnicodeStrToAsciiStrS (Destination : option (list Z)) (DestinationSize : Z)
    (Source : option (list Z)) : outcome (Z * option (list Z)) :=
  match Destination, Source with
  | Some dst, Some src =>
      if DestinationSize =? 0 then Val (0, Some dst)
      else do (n, dst) <- ToAsciiLoop (Z.to_nat (DestinationSize - 1)) dst src 0; Val (n, Some dst)
  | _, _ => Val (0, Destination)
  end.

(** [remove_all_space]: in place, with a reading and a writing index. *)
Fixpoint SpaceLoop (room : nat) (buffer : list Z) (read_idx write_idx : Z)
  : outcome (list Z * Z) :=
  match room with
  | O => Val (buffer, write_idx)
  | S room =>
      do c <- of_option OutOfBounds (buffer !! Z.to_nat read_idx);
      if c =? 0 then Val (buffer, write_idx)
      else if negb (c =? ch " ") then
        do buffer <- of_option OutOfBounds (wr buffer write_idx [c]);
        SpaceLoop room buffer (read_idx + 1) (write_idx + 1)
      else SpaceLoop room buffer (read_idx + 1) write_idx
  end.
Definition remove_all_space (buffer : option (list Z)) (size : Z) : outcome (Z * option (list Z)) :=
  match buffer with
  | None => Val (0, None)
  | Some b =>
      if size =? 0 then Val (0, Some b)
      else
        do (b, n) <- SpaceLoop (Z.to_nat size) b 0 0;
        do b <- of_option OutOfBounds (wr b n [0]);
        Val (n, Some b)
  end.

(** ** The formatter of the message body *)

(** The flags, the width, the precision and the length modifier of a directive;
    [lFormat] starts with the type character. *)
Record log_directive := mkLogDirective {
  lLeft : bool;
  lZero : bool;
  lWidth : Z;
  lPrecision : Z;
  lLong : bool;
  lFormat : list Z
}.
Definition MAX_UINTN : Z := 2 ^ 64 - 1.

Fixpoint log_flags (Fmt : list Z) (LeftJustify PadWithZero : bool) : bool * bool * list Z :=
  match Fmt with
  | c :: r =>
      if c =? ch "-" then log_flags r true PadWithZero
      else if c =? ch "0" then log_flags r LeftJustify true
      else (LeftJustify, PadWithZero, Fmt)
  | [] => (LeftJustify, PadWithZero, [])
  end.

(** A number, or an argument for '*'. *)
Definition log_number (Fmt : list Z) (args : VA_LIST) : outcome (Z * list Z * VA_LIST) :=
  match Fmt with
  | c :: r =>
      if c =? ch "*" then do (n, args) <- VA_ARG_UINTN args; Val (n, r, args)
      else let '(n, r) := scan_digits Fmt 0 in Val (n, r, args)
  | [] => Val (0, [], args)
  end.

(** Skips the character when it is there. *)
Definition skip (c : Z) (Fmt : list Z) : list Z :=
  match Fmt with x :: r => if x =? c then r else Fmt | [] => [] end.

Definition parse_log (Fmt : list Z) (args : VA_LIST) : outcome (log_directive * VA_LIST) :=
  let '(LeftJustify, PadWithZero, Fmt) := log_flags Fmt false false in
  do (Width, Fmt, args) <- log_number Fmt args;
  do (Precision, Fmt, args) <-
    match Fmt with
    | c :: r => if c =? ch "." then log_number r args else Val (MAX_UINTN, Fmt, args)
    | [] => Val (MAX_UINTN, [], args)
    end;
  let '(Long, Fmt) :=
    match Fmt with
    | c :: r =>
        if (c =? ch "l") || (c =? ch "L") then (true, skip (ch "l") r)
        else if c =? ch "h" then (false, skip (ch "h") r) else (false, Fmt)
    | [] => (false, [])
    end in
  Val (mkLogDirective LeftJustify PadWithZero Width Precision Long Fmt, args).

Definition RETURN_BUFFER_TOO_SMALL : Z := 2 ^ 63 + 5.

(** [AsciiStrCpyS (Destination, DestMax, Source)] of BaseLib, for a destination
    and a source that are not null and do not overlap: the status. *)
Definition AsciiStrCpyS (DestMax : Z) (Source : list Z) : Z :=
  if DestMax <=? zlen (cstring Source) then RETURN_BUFFER_TOO_SMALL else 0.

(** Printing with [UnicodeSPrint] at a position of the buffer. *)
Definition SPrintAt (buf : list Z) (Dest BufferSize : Z) (fmt : list Z) (args : VA_LIST)
  : outcome (Z * list Z) :=
  do (n, b) <- UnicodeSPrint (Some (drop (Z.to_nat Dest) buf)) BufferSize (Some fmt) args;
  Val (n, take (Z.to_nat Dest) buf ++ default [] b).

(** The case 'a'.  The value of [AsciiStrCpyS] is taken for a length; the
    copy in [TempAsciiBuf] is initialised only when that value is 0. *)
Definition log_ascii (d : log_directive) (AsciiArg buf : list Z)
    (Dest PrintedChars RemainingBufChars : Z) : outcome (Z * list Z) :=
  let AsciiLen := AsciiStrCpyS (MAX_PRINT + 1) AsciiArg in
  do AsciiLen <-
    (if negb (lPrecision d =? MAX_UINTN) && (lPrecision d <? AsciiLen)
     then if lPrecision d <=? MAX_PRINT then Val (lPrecision d) else Undef OutOfBounds
     else Val AsciiLen);
  let PadChar := if lZero d then ch "0" else ch " " in
  let room Count := Z.to_nat (RemainingBufChars - (PrintedChars + Count + 1)) in
  do (buf, Count) <-
    (if (AsciiLen <? lWidth d) && negb (lLeft d)
     then do (buf, p) <- FillLoop (room 0) buf Dest 0 (lWidth d - AsciiLen) PadChar;
          Val (buf, p - Dest)
     else Val (buf, 0));
  if (0 <? AsciiLen) && (0 <? Z.of_nat (room Count)) then Undef Uninitialised
  else if (AsciiLen <? lWidth d) && lLeft d then
    do (buf, p) <- FillLoop (room Count) buf (Dest + Count) 0 (lWidth d - AsciiLen) PadChar;
    Val (p - Dest, buf)
  else Val (Count, buf).

(** The loop of [_LogFmtVPrint]: the buffer, the position of [Dest] in it and
    [PrintedChars]. *)
Fixpoint LogLoop (fuel : nat) (Fmt : list Z) (args : VA_LIST) (buf : list Z)
    (Dest PrintedChars RemainingBufChars : Z) : outcome (list Z * Z * Z) :=
  match fuel with
  | O => NoFuel
  | S fuel =>
    match Fmt with
    | [] => Val (buf, Dest, PrintedChars)
    | c :: r =>
      if RemainingBufChars <=? 1 then Val (buf, Dest, PrintedChars)
      else if negb (c =? ch "%") then
        do buf <- of_option OutOfBounds (wr buf Dest [c]);
        LogLoop fuel r args buf (Dest + 1) (PrintedChars + 1) (RemainingBufChars - 1)
      else
        do (d, args) <- parse_log r args;
        let size := RemainingBufChars * 2 in
        let number fmt :=
          do (Val_, args) <- VA_ARG_INT64 args;
          do (n, buf) <- SPrintAt buf Dest size (txt fmt) [VaInt Val_];
          Val (n, buf, args) in
        match lFormat d with
        | [] =>
            (* '%' and the terminator are copied, then [Fmt] is behind the format *)
            do buf <- of_option OutOfBounds (wr buf Dest [ch "%"; 0]);
            Undef OutOfBounds
        | t :: r =>
          do o <-
            (if t =? ch "s" then
               do (s, args) <- VA_ARG_ptr is_str16 args;
               do (n, buf) <- SPrintAt buf Dest size (txt "%s")
                 [VaStr16 1 (default (txt "(null)") s)];
               Val (Some (n, buf, args))
             else if t =? ch "a" then
               do (s, args) <- VA_ARG_ptr is_str8 args;
               do (n, buf) <- log_ascii d (default (txt "(null)") s) buf Dest PrintedChars
                 RemainingBufChars;
               Val (Some (n, buf, args))
             else if (t =? ch "d") || (t =? ch "i") then do x <- number "%lld"%string; Val (Some x)
             else if t =? ch "u" then do x <- number "%llu"%string; Val (Some x)
             else if t =? ch "x" then do x <- number "%llx"%string; Val (Some x)
             else if t =? ch "X" then do x <- number "%llX"%string; Val (Some x)
             else if t =? ch "p" then
               do (z, args) <- VA_ARG_UINTN args;
               do (n, buf) <- SPrintAt buf Dest size (txt "%p") [VaInt z];
               Val (Some (n, buf, args))
             else if t =? ch "c" then
               do (z, args) <- VA_ARG_UINTN args;
               do buf <- of_option OutOfBounds (wr buf Dest [u16 z]);
               Val (Some (1, buf, args))
             else if t =? ch "%" then
               do buf <- of_option OutOfBounds (wr buf Dest [ch "%"]);
               Val (Some (1, buf, args))
             else Val None);
          match o with
          | Some (n, buf, args) =>
              LogLoop fuel r args buf (Dest + n) (PrintedChars + n) (RemainingBufChars - n)
          | None =>
              do buf <- of_option OutOfBounds (wr buf Dest [ch "%"; t]);
              LogLoop fuel r args buf (Dest + 2) (PrintedChars + 2) (u64 (RemainingBufChars - 2))
          end
        end
    end
  end.

(** [_LogFmtVPrint]: the characters printed and the buffer. *)
Definition _LogFmtVPrint (Format : list Z) (args : VA_LIST) (LogBuf : list Z) (BufLenBytes : Z)
  : outcome (Z * list Z) :=
  let RemainingBufChars := BufLenBytes / 2 in
  if RemainingBufChars =? 0 then Val (0, LogBuf)
  else
    do (buf, Dest, PrintedChars) <-
      LogLoop (S (length Format)) Format args LogBuf 0 0 RemainingBufChars;
    do buf <- of_option OutOfBounds (wr buf Dest [0]);
    Val (PrintedChars, buf).

(** [SBC_LogMrg]: the arguments after [fmt] are not handed on. *)
Definition SBC_LogMrg (fmt : list Z) (args : VA_LIST) : outcome (list Z) :=
  do (_, b) <- UnicodeSPrint (Some (zeros 8192)) 16384 (Some fmt) [];
  Val (default [] b).

(** ** The console

    [AllocatePool] is the pool allocator: a buffer with its content, or a null
    pointer.  [ConOut] is the console of the system table ([None]: a null
    pointer), its [OutputString] the status it returns for a string. *)
Section Console.
Variable AllocatePool : Z -> option (list Z).
Variable ConOut : option (list Z -> EFI_STATUS).

(** [InternalPrint] of UefiLibPrint.c: the number of characters, and what the
    console was given. *)
Definition InternalPrint (Format : list Z) (Marker : VA_LIST) : outcome (Z * list Z) :=
  let BufferSize := (MAX_PRINT + 1) * 2 in
  match AllocatePool BufferSize with
  | None => Val (0, [])
  | Some Buffer =>
      do (Return, b) <- UnicodeVSPrint (Some Buffer) BufferSize (Some Format) Marker;
      let s := cstring (default [] b) in
      match ConOut with
      | Some OutputString =>
          if 0 <? Return
          then Val (if EFI_ERROR (OutputString s) then 0 else Return, s)
          else Val (Return, [])
      | None => Val (Return, [])
      end
  end.

(** [Print], for what it puts on the console. *)
Definition ConPrint (Format : list Z) (Marker : VA_LIST) : outcome (list Z) :=
  do (_, s) <- InternalPrint Format Marker; Val s.

(** *** The hex dump *)
Definition LINE_LEN : Z := 16.

(** The two inner loops, over the indices from [i] on; [b] is [buffer + i]. *)
Fixpoint HexLoop (n : nat) (i len : Z) (b : bytes) : outcome (list Z) :=
  match n with
  | O => Val []
  | S n =>
      do t <- (if i <? len then
                 do x <- of_option OutOfBounds (head b);
                 ConPrint (txt "%02x ") [VaInt x]
               else ConPrint (txt "   ") []);
      do u <- HexLoop n (i + 1) len (tail b);
      Val (t ++ u)
  end.
Fixpoint CharLoop (n : nat) (b : bytes) : outcome (list Z) :=
  match n with
  | O => Val []
  | S n =>
      do x <- of_option OutOfBounds (head b);
      do t <- (if (31 <? x) && (x <? 127) then ConPrint (txt "%c") [VaInt x]
               else ConPrint (txt ".") []);
      do u <- CharLoop n (tail b);
      Val (t ++ u)
  end.

(** One round of the outer loop. *)
Definition DumpLine (buffer : bytes) (len : Z) : outcome (list Z) :=
  let sz := if LINE_LEN <? len then LINE_LEN else len in
  do t0 <- ConPrint [9] [];
  do t1 <- HexLoop (Z.to_nat LINE_LEN) 0 len buffer;
  do t2 <- ConPrint (txt "| ") [];
  do t3 <- CharLoop (Z.to_nat sz) buffer;
  do t4 <- ConPrint [CR; CR; LF] [];
  Val (t0 ++ t1 ++ t2 ++ t3 ++ t4).

Fixpoint DumpLoop (fuel : nat) (buffer : bytes) (len : Z) : outcome (list Z) :=
  match fuel with
  | O => NoFuel
  | S fuel =>
      if 0 <? len then
        do t <- DumpLine buffer len;
        let sz := if LINE_LEN <? len then LINE_LEN else len in
        do u <- DumpLoop fuel (drop (Z.to_nat sz) buffer) (len - sz);
        Val (t ++ u)
      else Val []
  end.

(** [SBC_mem_print_bin]: what it puts on the console. *)
Definition SBC_mem_print_bin (title : option (list Z)) (buffer : option bytes) (len : Z)
  : outcome (list Z) :=
  do t <- match title with
          | Some s => ConPrint (txt "%a (length of buffer: %d) " ++ [CR; CR; LF])
                        [VaStr8 1 s; VaInt len]
          | None => Val []
          end;
  do u <- match buffer with
          | None => ConPrint ([9] ++ txt "NULL" ++ [CR; LF]) []
          | Some b => DumpLoop (S (Z.to_nat len)) b len
          end;
  Val (t ++ u).

(** *** The log line *)

(** [_sbc_write_log_file]: the status, and what is put on the console. *)
Definition _sbc_write_log_file (log_data : option (list Z)) (len : Z)
  : outcome (EFI_STATUS * list Z) :=
  match log_data with
  | None => Val (EFI_INVALID_PARAMETER, [])
  | Some d =>
      if len =? 0 then Val (EFI_INVALID_PARAMETER, [])
      else do s <- ConPrint (txt "SysLog_OUTPUT (ASCII): %a" ++ [LF]) [VaStr8 1 d];
           Val (EFI_SUCCESS, s)
  end.

Definition log_header_format : list Z :=
  txt "%d %d %04d-%02d-%02dT%02d:%02d:%02d %s %s %s R-SAT-PWT-SFR-%03d %s ".

(** The time stamp: [GetTime] is the answer of the runtime service. *)
Definition log_time (GetTime : EFI_STATUS * TIME) : TIME :=
  if EFI_ERROR (fst GetTime) then mkTime 2000 1 1 0 0 0 0 else snd GetTime.

Definition safe_string (s : option (list Z)) : list Z := default (txt "(null)") s.

(** [SBC_LogPrint]: what it puts on the console.  [func] and [funcline] are not
    used. *)
Definition SBC_LogPrint (GetTime : EFI_STATUS * TIME) (prio ver : Z)
    (host appname csc : option (list Z)) (sfrid : Z) (evtype : option (list Z))
    (format : list Z) (args : VA_LIST) : outcome (list Z) :=
  let max := (MAX_PRINT + 1) * 2 in
  let t := log_time GetTime in
  do (nxtofs, full) <- SPrintAt (zeros (MAX_PRINT + 1)) 0 max log_header_format
    [VaInt prio; VaInt ver; VaInt (Year t); VaInt (Month t); VaInt (Day t); VaInt (Hour t);
     VaInt (Minute t); VaInt (Second t); VaStr16 1 (safe_string host);
     VaStr16 1 (safe_string appname); VaStr16 1 (safe_string csc); VaInt sfrid;
     VaStr16 1 (safe_string evtype)];
  let remaining := max - nxtofs * 2 in
  if remaining <=? 8 then
    do _ <- SPrintAt full nxtofs 8 (txt "...") [];
    Val []
  else
    do (n, body) <- _LogFmtVPrint format args (drop (Z.to_nat nxtofs) full) remaining;
    let full := take (Z.to_nat nxtofs) full ++ body in
    let nxtofs := nxtofs + n in
    do full <- of_option OutOfBounds
      (wr full (if MAX_PRINT <=? nxtofs then MAX_PRINT else nxtofs) [0]);
    do (len, ascii) <- MyUnicodeStrToAsciiStrS (Some (zeros (MAX_PRINT + 1))) (MAX_PRINT + 1)
      (Some full);
    if (len =? 0) && negb (match full with c :: _ => c =? 0 | [] => true end) then
      ConPrint (txt "WARNING: ASCII conversion failed for log. Unicode content: %s" ++ [LF])
        [VaStr16 1 full]
    else
      do (len, ascii) <- remove_all_space ascii len;
      do (_, s) <- _sbc_write_log_file ascii len;
      Val s.
End Console.

(** ** Conversions *)

(** The character the log keeps of a UTF-16 character. *)
Definition ascii_of (c : Z) : Z := if 255 <? c then ch "?" else u8 c.

Lemma cstring_app s r : Forall (fun c => c <> 0) s -> cstring (s ++ 0 :: r) = s.
Proof.
  induction 1 as [|c s Hc Hs IH]; [done|]. cbn [app cstring].
  apply Z.eqb_neq in Hc. by rewrite Hc, IH.
Qed.

Lemma cstring_nonzero s : Forall (fun c => c <> 0) (cstring s).
Proof.
  induction s as [|c s IH]; cbn; [constructor|]. destruct (c =? 0) eqn:E; bool_hyp; by constructor.
Qed.

(** Writing one character behind the first ones. *)
Lemma wr_behind pre x tl c : wr (pre ++ x :: tl) (zlen pre) [c] = Some (pre ++ c :: tl).
Proof.
  rewrite wr_some by (rewrite ?length_app; cbn; lia).
  rewrite Nat2Z.id, take_app_length, drop_app_ge by (cbn; lia). cbn [length].
  replace (length pre + 1 - length pre)%nat with 1%nat by lia. done.
Qed.

Lemma ToAsciiLoop_run s r pre tl room :
  Forall (fun c => c <> 0) s -> (length s <= room)%nat -> (length s < length tl)%nat ->
  ToAsciiLoop room (pre ++ tl) (s ++ 0 :: r) (zlen pre) =
  Val (zlen pre + zlen s, pre ++ (ascii_of <$> s) ++ [0] ++ drop (length s + 1) tl).
Proof.
  intros Hs. revert pre tl room. induction Hs as [|c s Hc Hs IH]; intros pre tl room Hr Ht.
  - destruct tl as [|x tl]; [cbn in Ht; lia|]. cbn [app length fmap list_fmap].
    assert (HE : forall o, (do dst <- of_option OutOfBounds (wr (pre ++ x :: tl) (zlen pre) [0]);
      Val (zlen pre, dst)) = o -> o = Val (zlen pre + 0, pre ++ 0 :: drop 1 (x :: tl))).
    { intros o <-. rewrite wr_behind. cbn. by rewrite Z.add_0_r. }
    destruct room; cbn [ToAsciiLoop]; by apply HE.
  - destruct tl as [|x tl]; [cbn in Ht; lia|]. destruct room as [|room]; [cbn in Hr; lia|].
    cbn [app ToAsciiLoop length] in *. apply Z.eqb_neq in Hc. rewrite Hc, wr_behind. cbn [of_option obind].
    change (if 255 <? c then ch "?" else u8 c) with (ascii_of c).
    rewrite (cons_middle (ascii_of c) pre tl), app_assoc.
    replace (zlen pre + 1) with (zlen (pre ++ [ascii_of c])) by (rewrite length_app; cbn; lia).
    rewrite IH by lia. rewrite length_app, fmap_cons, <-!app_assoc. cbn [length app Nat.add drop].
    f_equal. f_equal. lia.
Qed.

Lemma to_ascii_run s r dst size :
  Forall (fun c => c <> 0) s -> zlen s < size -> size <= zlen dst ->
  MyUnicodeStrToAsciiStrS (Some dst) size (Some (s ++ 0 :: r)) =
  Val (zlen s, Some ((ascii_of <$> s) ++ [0] ++ drop (length s + 1) dst)).
Proof.
  intros Hs Hl Hd. unfold MyUnicodeStrToAsciiStrS. guard_false.
  pose proof (ToAsciiLoop_run s r [] dst (Z.to_nat (size - 1)) Hs ltac:(lia) ltac:(lia)) as HR.
  cbn [app length] in HR. change (Z.of_nat 0) with 0 in HR. rewrite HR. done.
Qed.

(** Removing the blanks. *)
Definition not_blank (c : Z) : bool := negb (c =? ch " ").

Lemma SpaceLoop_run s kept junk tl :
  Forall (fun c => c <> 0) s ->
  exists junk', SpaceLoop (length s) (kept ++ junk ++ s ++ tl) (zlen kept + zlen junk) (zlen kept) =
    Val (kept ++ List.filter not_blank s ++ junk' ++ tl, zlen kept + zlen (List.filter not_blank s)) /\
    (length (List.filter not_blank s) + length junk' = length junk + length s)%nat.
Proof.
  intros Hs. revert kept junk. induction Hs as [|c s Hc Hs IH]; intros kept junk.
  - exists junk. cbn. by rewrite Z.add_0_r.
  - cbn [length SpaceLoop List.filter].
    assert (HL : (kept ++ junk ++ (c :: s) ++ tl) !! Z.to_nat (zlen kept + zlen junk) = Some c).
    { rewrite lookup_app_r by lia. rewrite lookup_app_r by lia.
      by replace (Z.to_nat _ - length kept - length junk)%nat with 0%nat by lia. }
    rewrite HL. cbn [of_option obind]. apply Z.eqb_neq in Hc. rewrite Hc.
    change (not_blank c) with (negb (c =? ch " ")). destruct (c =? ch " ") eqn:Eb; cbn [negb].
    + destruct (IH kept (junk ++ [c])) as (junk' & HE & HN). exists junk'.
      rewrite <-app_assoc, length_app in HE. cbn [app length] in HE.
      replace (zlen kept + Z.of_nat (length junk + 1)) with (zlen kept + zlen junk + 1) in HE by lia.
      split; [exact HE|]. rewrite HN, length_app. cbn. lia.
    + assert (HW : exists junk1, wr (kept ++ junk ++ (c :: s) ++ tl) (zlen kept) [c] =
        Some ((kept ++ [c]) ++ junk1 ++ s ++ tl) /\ length junk1 = length junk).
      { destruct junk as [|x junk]; cbn [app].
        - exists []. rewrite wr_behind, <-app_assoc. done.
        - exists (junk ++ [c]). rewrite wr_behind, length_app, <-!app_assoc. cbn. split; [done|lia]. }
      destruct HW as (junk1 & -> & HJ). cbn [of_option obind].
      destruct (IH (kept ++ [c]) junk1) as (junk' & HE & HN). exists junk'.
      rewrite length_app in HE. cbn [length] in HE.
      replace (Z.of_nat (length kept + 1) + zlen junk1) with (zlen kept + zlen junk + 1) in HE by lia.
      replace (Z.of_nat (length kept + 1)) with (zlen kept + 1) in HE by lia.
      rewrite HE. rewrite <-app_assoc. cbn [app length]. split; [f_equal; f_equal; lia|lia].
Qed.

Lemma remove_all_space_run s r :
  Forall (fun c => c <> 0) s ->
  exists b, remove_all_space (Some (s ++ 0 :: r)) (zlen s) = Val (zlen (List.filter not_blank s), Some b) /\
    cstring b = List.filter not_blank s /\ zlen b = zlen (s ++ 0 :: r).
Proof.
  intros Hs. unfold remove_all_space. destruct (zlen s =? 0) eqn:E; bool_hyp.
  { destruct s; [|cbn in E; lia]. eexists. by split. }
  rewrite Nat2Z.id. destruct (SpaceLoop_run s [] [] (0 :: r) Hs) as (junk & HE & HN).
  cbn [app length] in HE. change (Z.of_nat 0 + Z.of_nat 0) with 0 in HE.
  change (Z.of_nat 0) with 0 in HE. rewrite HE. cbn [obind]. rewrite Z.add_0_l.
  assert (HF : Forall (fun c => c <> 0) (List.filter not_blank s)).
  { rewrite List.Forall_forall in *. intros x [Hx _]%List.filter_In. auto. }
  destruct junk as [|x junk]; cbn [app]; rewrite wr_behind; cbn [of_option obind];
    (eexists; split; [done|]; split; [by apply cstring_app|]); rewrite !length_app in *;
    cbn [length] in *; rewrite ?length_app; cbn [length]; lia.
Qed.

(** ** Printing into the rest of a buffer *)
Lemma SPrintAt_items pre tl size l args text args' :
  format_ok l = true -> render l args = Some (text, args') -> zlen (format_of l) <= RSIZE_MAX ->
  zlen text < size / 2 -> size / 2 <= RSIZE_MAX -> size / 2 <= zlen tl ->
  SPrintAt (pre ++ tl) (zlen pre) size (format_of l) args =
  Val (zlen text, pre ++ text ++ [0] ++ drop (length text + 1) tl).
Proof.
  intros Hok Hr Hf Ht Hmax Hl. unfold SPrintAt, UnicodeSPrint.
  rewrite Nat2Z.id, drop_app_length, take_app_length.
  assert (2 <= size).
  { destruct (decide (2 <= size)) as [|Hn]; [done|]. exfalso.
    assert (size / 2 <= 0) by (destruct (decide (size < 0)); [|rewrite Z.div_small by lia; lia];
      assert (size / 2 < 0) by (apply Z.div_lt_upper_bound; lia); lia). lia. }
  rewrite (UnicodeVSPrint_items l args text args' tl size) by done. cbn [obind default].
  rewrite firstn_all2 by lia. done.
Qed.

(** ** The message body

    A format of the log body, item by item: a character, or a directive with
    flags and a width. *)
Inductive body_type := TStr | TAsc | TInt (k : radix) | TChr | TPct.
Inductive body_item :=
| BLit (c : Z)
| BDir (lj zero : bool) (w : Z) (t : body_type).

Definition body_char (t : body_type) : Z :=
  match t with
  | TStr => ch "s" | TAsc => ch "a" | TInt k => radix_char k | TChr => ch "c" | TPct => ch "%"
  end.
Definition body_format1 (i : body_item) : list Z :=
  match i with
  | BLit c => [c]
  | BDir lj zero w t =>
      ch "%" :: flag lj (ch "-") ++ flag zero (ch "0") ++ width_text w ++ [body_char t]
  end.
Definition body_format (l : list body_item) : list Z := l ≫= body_format1.

(** What it prints: strings and numbers without their width, numbers from all 64
    bits of the slot, and of an ASCII string only the padding. *)
Definition body_text1 (i : body_item) (args : VA_LIST) : option (list Z * VA_LIST) :=
  match i with
  | BLit c => Some ([c], args)
  | BDir _ _ _ TPct => Some ([ch "%"], args)
  | BDir _ _ _ TStr =>
      match VA_ARG_ptr is_str16 args with
      | Val (s, args) =>
          let s := safe_string s in
          if zlen s <? 2 ^ 63 then Some (u16 <$> cstring s, args) else None
      | _ => None
      end
  | BDir _ zero w TAsc =>
      match VA_ARG_ptr is_str8 args with
      | Val (s, args) =>
          if zlen (cstring (safe_string s)) <=? MAX_PRINT
          then Some (rep w (if zero then ch "0" else ch " "), args) else None
      | _ => None
      end
  | BDir _ _ _ (TInt k) =>
      match args with
      | a :: args => t ← integer_text false false true 0 k a; Some (t, args)
      | [] => None
      end
  | BDir _ _ _ TChr =>
      match args with a :: args => Some ([u16 (slot_bits a)], args) | [] => None end
  end.

Fixpoint body_text (l : list body_item) (args : VA_LIST) : option (list Z * VA_LIST) :=
  match l with
  | [] => Some ([], args)
  | i :: l =>
      '(t, args) ← body_text1 i args;
      '(u, args) ← body_text l args;
      Some (t ++ u, args)
  end.

Definition body_ok (i : body_item) : bool :=
  match i with
  | BLit c => (0 <? c) && (c <? 2 ^ 16) && negb (c =? ch "%")
  | BDir _ _ w _ => (0 <=? w) && (w <? 2 ^ 63)
  end.

(** Reading a directive of the body. *)
Lemma log_flags_read lj zero f :
  match f with c :: _ => (c =? ch "-") = false /\ (c =? ch "0") = false | [] => True end ->
  log_flags (flag lj (ch "-") ++ flag zero (ch "0") ++ f) false false = (lj, zero, f).
Proof.
  intros Hf. assert (HE : forall a b, log_flags f a b = (a, b, f)).
  { intros. destruct f as [|c f]; [done|]. destruct Hf as [H1 H2]. cbn [log_flags].
    by rewrite H1, H2. }
  destruct lj, zero; cbn [flag app log_flags]; chars; apply HE.
Qed.

Lemma parse_log_read lj zero w t r args :
  0 <= w < 2 ^ 63 ->
  parse_log (flag lj (ch "-") ++ flag zero (ch "0") ++ width_text w ++ body_char t :: r) args =
  Val (mkLogDirective lj zero w MAX_UINTN false (body_char t :: r), args).
Proof.
  intros Hw. set (c := body_char t).
  assert (Hc : is_digit c = false /\ (c =? ch "-") = false /\ (c =? ch "0") = false /\
    (c =? ch "*") = false /\ (c =? ch ".") = false /\ (c =? ch "l") = false /\
    (c =? ch "L") = false /\ (c =? ch "h") = false).
  { unfold c. destruct t as [| |[]| |]; repeat split. }
  destruct Hc as (Hd & H1 & H2 & H3 & H4 & H5 & H6 & H7).
  assert (HN : log_number (width_text w ++ c :: r) args = Val (w, c :: r, args) /\
    match width_text w ++ c :: r with
    | x :: _ => (x =? ch "-") = false /\ (x =? ch "0") = false | [] => True end).
  { unfold width_text. destruct (w =? 0) eqn:E; [apply Z.eqb_eq in E|apply Z.eqb_neq in E].
    - subst w. cbn [app log_number scan_digits]. by rewrite H3, Hd.
    - destruct (numeral_head w ltac:(lia)) as (x & l & HE & Hx & H0).
      pose proof (scan_numeral w (c :: r) ltac:(lia) Hd) as HS. rewrite HE in *. cbn [app] in *.
      unfold is_digit in Hx. apply andb_prop in Hx as [Hx1 Hx2].
      apply Z.leb_le in Hx1, Hx2. change (ch "0") with 48 in *. change (ch "9") with 57 in *.
      cbn [log_number]. rewrite HS.
      replace (x =? ch "*") with false by (symmetry; apply Z.eqb_neq; change (ch "*") with 42; lia).
      split; [done|]. split; apply Z.eqb_neq; [change (ch "-") with 45|]; lia. }
  destruct HN as [HN Hh]. unfold parse_log. rewrite log_flags_read by exact Hh.
  rewrite HN. cbn [obind]. rewrite H4. cbn [obind]. by rewrite H5, H6, H7.
Qed.

Lemma integer_text_slot lj zero long w k a b :
  slot_bits a = slot_bits b -> integer_text lj zero long w k a = integer_text lj zero long w k b.
Proof. intros HE. unfold integer_text, signed_slot, unsigned_slot. by rewrite HE. Qed.

Lemma slot_bits_s64 a : slot_bits (VaInt (s64 (slot_bits a))) = slot_bits a.
Proof.
  cbn [slot_bits]. rewrite u64_s64. apply u64_small. destruct a; apply u64_range.
Qed.

Lemma field_none body : field false false 0 [] body = body.
Proof. unfold field. rewrite rep_neg; [done|]. cbn. lia. Qed.

(** One item of the body, printed behind [pre]. *)
Definition body_step (f r : list Z) (args args' : VA_LIST) (pre tl t : list Z) : Prop :=
  exists tl', zlen tl' = zlen tl - zlen t /\ forall fuel,
    LogLoop (S fuel) (f ++ r) args (pre ++ tl) (zlen pre) (zlen pre) (zlen tl) =
    LogLoop fuel r args' ((pre ++ t) ++ tl') (zlen (pre ++ t)) (zlen (pre ++ t)) (zlen tl').

Section Body.
Context (pre tl : list Z) (Hmax : zlen tl <= RSIZE_MAX).

(** A directive whose text [t] the worker of the print library puts out. *)
Lemma SPrintAt_body l args t args' :
  format_ok l = true -> zlen (format_of l) <= RSIZE_MAX -> render l args = Some (t, args') ->
  zlen t < zlen tl ->
  SPrintAt (pre ++ tl) (zlen pre) (zlen tl * 2) (format_of l) args =
  Val (zlen t, pre ++ t ++ 0 :: drop (length t + 1) tl).
Proof using Hmax.
  intros Hok Hf Hr Ht. apply SPrintAt_items with (args' := args'); try done;
    rewrite Z.div_mul by lia; lia.
Qed.

Lemma body_after (t : list Z) :
  zlen t < zlen tl -> zlen (0 :: drop (length t + 1) tl) = zlen tl - zlen t.
Proof using. intros. cbn [length]. rewrite length_drop. lia. Qed.

(** Rewriting the loop after a directive that printed [t]. *)
Lemma body_continue (t : list Z) fuel r args :
  zlen t < zlen tl ->
  let tl' := 0 :: drop (length t + 1) tl in
  LogLoop fuel r args (pre ++ t ++ tl') (zlen pre + zlen t) (zlen pre + zlen t) (zlen tl - zlen t) =
  LogLoop fuel r args ((pre ++ t) ++ tl') (zlen (pre ++ t)) (zlen (pre ++ t)) (zlen tl').
Proof using.
  intros Ht tl'. unfold tl'. rewrite (body_after t Ht), (length_app pre t), Nat2Z.inj_add.
  by rewrite <-app_assoc.
Qed.

Lemma body_char_step t tl' x fuel r args :
  tl = x :: tl' ->
  wr (pre ++ tl) (zlen pre) [t] = Some (pre ++ t :: tl') /\
  LogLoop fuel r args (pre ++ t :: tl') (zlen pre + 1) (zlen pre + 1) (zlen tl - 1) =
  LogLoop fuel r args ((pre ++ [t]) ++ tl') (zlen (pre ++ [t])) (zlen (pre ++ [t])) (zlen tl').
Proof using.
  intros Htl. rewrite Htl. split; [apply wr_behind|].
  rewrite length_app, Nat2Z.inj_add, <-app_assoc. cbn [length app].
  replace (Z.of_nat (S (length tl')) - 1) with (zlen tl') by lia. done.
Qed.

(** The iteration that reads a directive. *)
Lemma LogLoop_directive lj zero w ty r args fuel :
  0 <= w < 2 ^ 63 -> 1 < zlen tl ->
  LogLoop (S fuel) (body_format1 (BDir lj zero w ty) ++ r) args (pre ++ tl) (zlen pre) (zlen pre) (zlen tl) =
  let buf := pre ++ tl in
  let number fmt k :=
    do (v, args) <- VA_ARG_INT64 args;
    do (n, buf) <- SPrintAt buf (zlen pre) (zlen tl * 2) (txt fmt) [VaInt v];
    k n buf args in
  let continue n buf args := LogLoop fuel r args buf (zlen pre + n) (zlen pre + n) (zlen tl - n) in
  match ty with
  | TStr =>
      do (s, args) <- VA_ARG_ptr is_str16 args;
      do (n, buf) <- SPrintAt buf (zlen pre) (zlen tl * 2) (txt "%s") [VaStr16 1 (safe_string s)];
      continue n buf args
  | TAsc =>
      do (s, args) <- VA_ARG_ptr is_str8 args;
      do (n, buf) <- log_ascii (mkLogDirective lj zero w MAX_UINTN false (body_char ty :: r))
        (safe_string s) buf (zlen pre) (zlen pre) (zlen tl);
      continue n buf args
  | TInt Dec => number "%lld"%string continue
  | TInt Uns => number "%llu"%string continue
  | TInt Hex => number "%llx"%string continue
  | TInt HEX => number "%llX"%string continue
  | TChr =>
      do (z, args) <- VA_ARG_UINTN args;
      do buf <- of_option OutOfBounds (wr buf (zlen pre) [u16 z]);
      continue 1 buf args
  | TPct =>
      do buf <- of_option OutOfBounds (wr buf (zlen pre) [ch "%"]);
      continue 1 buf args
  end.
Proof using.
  intros Hw Hl. cbn [body_format1 app LogLoop]. rewrite (proj2 (Z.leb_gt _ _)) by lia. chars.
  rewrite <-!app_assoc. cbn [app]. rewrite parse_log_read by done. cbn [obind lFormat]. unfold safe_string. cbv zeta beta.
  destruct ty as [| |k| |]; [..|destruct k| |]; cbn [body_char radix_char]; chars;
    try match goal with
    | |- context [VA_ARG_ptr ?c args] => destruct (VA_ARG_ptr c args) as [[? ?]| |]
    | |- context [VA_ARG_INT64 args] => destruct (VA_ARG_INT64 args) as [[? ?]| |]
    | |- context [VA_ARG_UINTN args] => destruct (VA_ARG_UINTN args) as [[? ?]| |]
    end; cbn [obind]; try done;
    first [destruct (SPrintAt _ _ _ _ _) as [[? ?]| |] | destruct (log_ascii _ _ _ _ _ _) as [[? ?]| |]
      | destruct (wr _ _ [_])]; done.
Qed.

(** The padding of an ASCII string, which is all that is printed of it. *)
Lemma log_ascii_pad d s :
  lPrecision d = MAX_UINTN -> 0 <= lWidth d -> zlen (cstring s) <= MAX_PRINT ->
  zlen pre + lWidth d + 1 < zlen tl ->
  log_ascii d s (pre ++ tl) (zlen pre) (zlen pre) (zlen tl) =
  Val (lWidth d, pre ++ rep (lWidth d) (if lZero d then ch "0" else ch " ") ++
                 drop (Z.to_nat (lWidth d)) tl).
Proof using.
  intros HP Hw Hs Hl. unfold log_ascii, AsciiStrCpyS. rewrite (proj2 (Z.leb_gt _ _)) by lia.
  rewrite HP, Z.eqb_refl. cbn [negb andb obind]. rewrite Z.ltb_irrefl. cbn [andb].
  set (c := if lZero d then ch "0" else ch " ").
  assert (HF : FillLoop (Z.to_nat (zlen tl - (zlen pre + 0 + 1))) (pre ++ tl) (zlen pre) 0
      (lWidth d - 0) c = Val (pre ++ rep (lWidth d) c ++ drop (Z.to_nat (lWidth d)) tl,
                              zlen pre + lWidth d)).
  { pose proof (FillLoop_run (pre ++ tl) (Z.to_nat (zlen tl - (zlen pre + 0 + 1))) pre
      (Z.to_nat (lWidth d)) (lWidth d - 0) c 0) as HR.
    rewrite drop_app_length in HR. rewrite HR; [|rewrite length_app; lia|lia].
    rewrite drop_app_ge by lia. unfold rep. f_equal; f_equal; [do 3 f_equal; lia|lia]. }
  destruct (0 <? lWidth d) eqn:E; bool_hyp.
  - destruct (lLeft d); cbn [negb andb].
    + cbn [obind]. rewrite Z.add_0_r in *. rewrite HF. cbn [obind]. do 2 f_equal. lia.
    + rewrite HF. cbn [obind]. do 2 f_equal. lia.
  - cbn [andb obind]. replace (lWidth d) with 0 by lia. cbn. by rewrite drop_0.
Qed.

Lemma body_str_step lj zero w r args args' t :
  body_ok (BDir lj zero w TStr) = true -> body_text1 (BDir lj zero w TStr) args = Some (t, args') ->
  zlen t < zlen tl -> 1 < zlen tl ->
  body_step (body_format1 (BDir lj zero w TStr)) r args args' pre tl t.
Proof using Hmax.
  intros Hok Ht Hl Hone. cbn [body_ok body_text1] in *. bool_hyp.
  destruct (VA_ARG_ptr is_str16 args) as [[s args1]| |] eqn:EA; [|done..]. cbv zeta in Ht.
  destruct (zlen (safe_string s) <? 2 ^ 63) eqn:El; [|done]. injection Ht as <- <-.
  exists (0 :: drop (length (u16 <$> cstring (safe_string s)) + 1) tl).
  split; [by apply body_after|]. intros fuel. rewrite LogLoop_directive by done.
  cbv zeta. rewrite EA. cbn [obind]. change (txt "%s") with (format_of [Str false 0 true]).
  rewrite SPrintAt_body with (t := u16 <$> cstring (safe_string s)) (args' := []); try done.
  2:{ cbn [render item_text VA_ARG_ptr va_next obind is_str16]. rewrite El, field_none.
      cbn [mbind option_bind]. by rewrite app_nil_r. }
  cbn [obind]. by apply body_continue.
Qed.

Lemma body_asc_step lj zero w r args args' t :
  body_ok (BDir lj zero w TAsc) = true -> body_text1 (BDir lj zero w TAsc) args = Some (t, args') ->
  zlen pre + zlen t + 1 < zlen tl ->
  body_step (body_format1 (BDir lj zero w TAsc)) r args args' pre tl t.
Proof using.
  intros Hok Ht Hl. cbn [body_ok body_text1] in *. bool_hyp.
  destruct (VA_ARG_ptr is_str8 args) as [[s args1]| |] eqn:EA; [|done..].
  destruct (zlen (cstring (safe_string s)) <=? MAX_PRINT) eqn:El; [|done]. bool_hyp.
  injection Ht as <- <-. rewrite zlen_rep in Hl by lia.
  exists (drop (Z.to_nat w) tl). rewrite zlen_rep by lia.
  assert (Hd : zlen (drop (Z.to_nat w) tl) = zlen tl - w) by (rewrite length_drop; lia).
  split; [done|]. intros fuel. rewrite LogLoop_directive by lia. cbv zeta. rewrite EA. cbn [obind].
  rewrite log_ascii_pad by done. cbn [obind lWidth lZero].
  rewrite length_app, Nat2Z.inj_add, zlen_rep, Hd, <-app_assoc by lia. done.
Qed.

Lemma body_int_step lj zero w k r args args' t :
  body_ok (BDir lj zero w (TInt k)) = true ->
  body_text1 (BDir lj zero w (TInt k)) args = Some (t, args') -> zlen t < zlen tl -> 1 < zlen tl ->
  body_step (body_format1 (BDir lj zero w (TInt k))) r args args' pre tl t.
Proof using Hmax.
  intros Hok Ht Hl Hone. cbn [body_ok body_text1] in *. bool_hyp. destruct args as [|a args0]; [done|].
  destruct (integer_text false false true 0 k a) as [u|] eqn:EI; [|done]. cbn in Ht. injection Ht as <- <-.
  exists (0 :: drop (length u + 1) tl). split; [by apply body_after|]. intros fuel.
  rewrite LogLoop_directive by done. cbv zeta. cbn [VA_ARG_INT64 va_next obind].
  assert (HS : SPrintAt (pre ++ tl) (zlen pre) (zlen tl * 2)
    (format_of [Int false false 2 0 k]) [VaInt (s64 (slot_bits a))] =
    Val (zlen u, pre ++ u ++ 0 :: drop (length u + 1) tl)).
  { apply SPrintAt_body with (args' := []); [done|by destruct k| |done].
    cbn [render item_text is_long].
    rewrite (integer_text_slot _ _ _ _ _ _ _ (slot_bits_s64 a)), EI. cbn. by rewrite app_nil_r. }
  destruct k; (match goal with |- context [txt ?f] =>
    match type of HS with context [format_of ?l] => change (txt f) with (format_of l) end end;
    rewrite HS; cbn [obind]; by apply body_continue).
Qed.

Lemma body_item_step i r args args' t :
  body_ok i = true -> body_text1 i args = Some (t, args') ->
  zlen pre + zlen t + 1 < zlen tl ->
  body_step (body_format1 i) r args args' pre tl t.
Proof using Hmax.
  intros Hok Ht Hl.
  assert (Htl : exists x tl1, tl = x :: tl1) by (destruct tl as [|x tl1]; [cbn in Hl; lia|eauto]).
  destruct Htl as (x & tl1 & Htl).
  assert (Htl1 : zlen tl1 = zlen tl - 1) by (rewrite Htl; cbn; lia).
  destruct i as [c|lj zero w ty]; cbn [body_ok body_text1] in *.
  { injection Ht as <- <-. bool_hyp. exists tl1. split; [done|]. intros fuel.
    destruct (body_char_step c tl1 x fuel r args Htl) as [HW HL].
    cbn [body_format1 app LogLoop]. rewrite (proj2 (Z.leb_gt _ _)) by lia.
    rewrite (proj2 (Z.eqb_neq c (ch "%"))) by done. cbn [negb]. rewrite HW. exact HL. }
  destruct ty as [| |k| |]; [apply body_str_step; try done; lia|by apply body_asc_step|
    apply body_int_step; try done; lia|..]; bool_hyp.
  - destruct args as [|a args0]; [done|]. injection Ht as <- <-. exists tl1. split; [done|]. intros fuel.
    rewrite LogLoop_directive by lia. cbv zeta. cbn [VA_ARG_UINTN va_next obind].
    destruct (body_char_step (u16 (slot_bits a)) tl1 x fuel r args0 Htl) as [HW HL].
    rewrite HW. exact HL.
  - injection Ht as <- <-. exists tl1. split; [done|]. intros fuel.
    rewrite LogLoop_directive by lia. cbv zeta.
    destruct (body_char_step (ch "%") tl1 x fuel r args Htl) as [HW HL]. rewrite HW. exact HL.
Qed.
End Body.

(** ** The whole body *)
Lemma LogLoop_body l args text args' pre tl fuel :
  forallb body_ok l = true -> body_text l args = Some (text, args') -> zlen tl <= RSIZE_MAX ->
  zlen pre + 2 * zlen text + 2 <= zlen tl -> (length (body_format l) < fuel)%nat ->
  exists tl', zlen tl' = zlen tl - zlen text /\
    LogLoop fuel (body_format l) args (pre ++ tl) (zlen pre) (zlen pre) (zlen tl) =
    Val ((pre ++ text) ++ tl', zlen (pre ++ text), zlen (pre ++ text)).
Proof.
  revert args text pre tl fuel.
  induction l as [|i l IH]; intros args text pre tl fuel Hok Ht Hmax Hl Hf;
    (destruct fuel as [|fuel]; [lia|]); cbn [body_text forallb] in *.
  - injection Ht as <- <-. exists tl. rewrite app_nil_r. split; [cbn; lia|done].
  - apply andb_prop in Hok as [Hi Hok].
    destruct (body_text1 i args) as [[t args1]|] eqn:E1; [|done]. cbn in Ht.
    destruct (body_text l args1) as [[u args2]|] eqn:E2; [|done]. cbn in Ht. injection Ht as <- <-.
    rewrite length_app in Hl. change (body_format (i :: l)) with (body_format1 i ++ body_format l) in *.
    destruct (body_item_step pre tl Hmax i (body_format l) args args1 t Hi E1) as (tl1 & HL1 & HS); [lia|].
    assert (Hne : (1 <= length (body_format1 i))%nat) by (destruct i; cbn; lia).
    rewrite length_app in Hf.
    destruct (IH args1 u (pre ++ t) tl1 fuel Hok E2 ltac:(lia)) as (tl2 & HL2 & HE);
      [rewrite length_app; lia|lia|].
    exists tl2. rewrite HS, HE, (app_assoc pre t u). split; [rewrite length_app; lia|done].
Qed.

Lemma LogFmt_body l args text args' buf :
  forallb body_ok l = true -> body_text l args = Some (text, args') -> zlen buf <= RSIZE_MAX ->
  2 * zlen text + 2 <= zlen buf ->
  exists tl, zlen (text ++ 0 :: tl) = zlen buf /\
    _LogFmtVPrint (body_format l) args buf (zlen buf * 2) = Val (zlen text, text ++ 0 :: tl).
Proof.
  intros Hok Ht Hmax Hl. unfold _LogFmtVPrint. rewrite Z.div_mul by lia. guard_false.
  destruct (LogLoop_body l args text args' [] buf (S (length (body_format l))) Hok Ht Hmax)
    as (tl & HL & HE); [cbn; lia|lia|].
  cbn [app length] in HE. change (Z.of_nat 0) with 0 in HE. rewrite HE. cbn [obind].
  destruct tl as [|x tl]; [cbn in HL; lia|]. rewrite wr_behind. cbn [of_option obind].
  exists tl. split; [|done]. rewrite length_app. cbn [length] in *. lia.
Qed.

Lemma body_text_chars l args text args' :
  forallb body_ok l = true -> body_text l args = Some (text, args') -> Forall char16 text.
Proof.
  revert args text. induction l as [|i l IH]; intros args text Hok Ht; cbn [body_text forallb] in *.
  - injection Ht as <- _. constructor.
  - apply andb_prop in Hok as [Hi Hok].
    destruct (body_text1 i args) as [[t args1]|] eqn:E1; [|done]. cbn in Ht.
    destruct (body_text l args1) as [[u args2]|] eqn:E2; [|done]. cbn in Ht. injection Ht as <- <-.
    apply Forall_app. split; [|by eapply IH].
    destruct i as [c|lj zero w [| |k| |]]; cbn [body_text1 body_ok] in *.
    + injection E1 as <- _. bool_hyp. constructor; [unfold char16; lia|constructor].
    + destruct (VA_ARG_ptr _ _) as [[s a]| |]; [|done..]. cbv zeta in E1. split_if; [|done].
      injection E1 as <- _. apply Forall_fmap, Forall_true. intros c. apply u16_range.
    + destruct (VA_ARG_ptr _ _) as [[s a]| |]; [|done..]. split_if; [|done]. injection E1 as <- _.
      apply rep_chars. by destruct zero.
    + destruct args as [|a args]; [done|]. destruct (integer_text _ _ _ _ _ _) eqn:EI; [|done].
      injection E1 as <- _. by eapply integer_text_chars.
    + destruct args as [|a args]; [done|]. injection E1 as <- _. constructor; [apply u16_range|constructor].
    + injection E1 as <- _. repeat constructor; done.
Qed.

(** ** The line *)

(** The string in a buffer and what stops it. *)
Lemma cstring_split s r : exists r', s ++ 0 :: r = cstring s ++ 0 :: r'.
Proof.
  induction s as [|c s [r' IH]]; [by exists r|]. cbn [app cstring].
  destruct (c =? 0) eqn:E; bool_hyp; [subst c; by exists (s ++ 0 :: r)|].
  exists r'. by rewrite IH.
Qed.

Lemma ascii_of_byte c : char16 c -> c <> 0 -> 0 < ascii_of c < 256.
Proof.
  intros [??] Hn. unfold ascii_of. split_if; bool_hyp; [vm_compute; by split|].
  unfold u8. rewrite Z.mod_small; lia.
Qed.

Lemma cstring_in s c : Forall char16 s -> c ∈ cstring s -> char16 c.
Proof.
  induction 1 as [|d s Hd Hs IH]; intros Hc; cbn in Hc; [by apply not_elem_of_nil in Hc|].
  destruct (d =? 0); [by apply not_elem_of_nil in Hc|].
  apply elem_of_cons in Hc as [->|Hc]; auto.
Qed.

(** The line the log keeps of a text. *)
Definition log_line (s : list Z) : list Z := List.filter not_blank (ascii_of <$> cstring s).

Lemma log_line_bytes s : Forall char16 s -> Forall (fun c => 0 < c < 256) (log_line s).
Proof.
  intros Hs. unfold log_line. rewrite List.Forall_forall. intros x [Hx _]%List.filter_In.
  apply list_elem_of_In, list_elem_of_fmap in Hx as (c & -> & Hc). apply ascii_of_byte.
  - by apply (cstring_in s).
  - pose proof (cstring_nonzero s) as Hz. rewrite Forall_forall in Hz. by apply Hz.
Qed.

(** The text of the header. *)
Definition num (w z : Z) : list Z :=
  field false true w (flag (s32 z <? 0) (ch "-")) (numeral 10 (Z.abs (s32 z))).
Definition log_header (t : TIME) (prio ver : Z) (host appname csc : option (list Z)) (sfrid : Z)
    (evtype : option (list Z)) : list Z :=
  let str s := u16 <$> cstring (safe_string s) in
  num 0 prio ++ txt " " ++ num 0 ver ++ txt " " ++
  num 4 (Year t) ++ txt "-" ++ num 2 (Month t) ++ txt "-" ++ num 2 (Day t) ++ txt "T" ++
  num 2 (Hour t) ++ txt ":" ++ num 2 (Minute t) ++ txt ":" ++ num 2 (Second t) ++ txt " " ++
  str host ++ txt " " ++ str appname ++ txt " " ++ str csc ++ txt " R-SAT-PWT-SFR-" ++
  num 3 sfrid ++ txt " " ++ str evtype ++ txt " ".

Definition header_items : list item :=
  [Int false false 0 0 Dec; Lit 32; Int false false 0 0 Dec; Lit 32; Int false true 0 4 Dec; Lit 45;
   Int false true 0 2 Dec; Lit 45; Int false true 0 2 Dec; Lit 84; Int false true 0 2 Dec; Lit 58;
   Int false true 0 2 Dec; Lit 58; Int false true 0 2 Dec; Lit 32; Str false 0 true; Lit 32;
   Str false 0 true; Lit 32; Str false 0 true] ++ (Lit <$> txt " R-SAT-PWT-SFR-") ++
  [Int false true 0 3 Dec; Lit 32; Str false 0 true; Lit 32].

Lemma s32_u64 z : s32 (u64 z) = s32 z.
Proof.
  unfold s32. assert (HE : u32 (u64 z) = u32 z); [|by rewrite HE].
  unfold u32, u64. change (2 ^ 64) with (2 ^ 32 * 2 ^ 32).
  rewrite Z.rem_mul_r by lia. rewrite Z.mul_comm, Z_mod_plus_full. apply Z.mod_mod. lia.
Qed.

(** A number of the header, and a string. *)
Lemma item_num zero w z r : (zero = false -> w = 0) ->
  item_text (Int false zero 0 w Dec) (VaInt z :: r) = Some (num w z, r).
Proof.
  intros Hz. cbn [item_text is_long]. unfold integer_text, signed_slot. cbn [slot_bits].
  rewrite s32_u64. pose proof (s32_range z). rewrite (proj2 (Z.eqb_neq _ _)) by lia. cbn.
  unfold num. destruct zero; [done|]. rewrite Hz by done. unfold field.
  pose proof (numeral_length 10 (Z.abs (s32 z)) ltac:(lia) ltac:(lia)).
  by rewrite !rep_neg by lia.
Qed.

Lemma item_str s a r : zlen (safe_string s) < 2 ^ 63 ->
  item_text (Str false 0 true) (VaStr16 a (safe_string s) :: r)
  = Some (u16 <$> cstring (safe_string s), r).
Proof.
  intros Hl. cbn [item_text VA_ARG_ptr va_next obind is_str16].
  rewrite (proj2 (Z.ltb_lt _ _)) by done. by rewrite field_none.
Qed.

Lemma render_app l1 l2 args t1 args1 t2 args2 :
  render l1 args = Some (t1, args1) -> render l2 args1 = Some (t2, args2) ->
  render (l1 ++ l2) args = Some (t1 ++ t2, args2).
Proof.
  revert args t1. induction l1 as [|i l1 IH]; intros args t1 H1 H2; cbn [render app] in *.
  - by injection H1 as <- <-.
  - destruct (item_text i args) as [[u argsu]|]; [|done]. cbn in *.
    destruct (render l1 argsu) as [[v argsv]|] eqn:E; [|done]. cbn in *. injection H1 as <- <-.
    rewrite (IH argsu v E H2). cbn. by rewrite app_assoc.
Qed.
Lemma render_cons i l args t args1 u args2 :
  item_text i args = Some (t, args1) -> render l args1 = Some (u, args2) ->
  render (i :: l) args = Some (t ++ u, args2).
Proof. intros H1 H2. cbn [render]. rewrite H1. cbn. rewrite H2. done. Qed.
Lemma render_lits s l args u args2 :
  render l args = Some (u, args2) -> render ((Lit <$> s) ++ l) args = Some (s ++ u, args2).
Proof.
  intros Hl. induction s as [|c s IH]; [done|]. rewrite fmap_cons. cbn [app].
  by apply (render_cons (Lit c) _ args [c] args).
Qed.

Lemma render_header t prio ver host appname csc sfrid evtype :
  Forall (fun s => zlen (safe_string s) < 2 ^ 63) [host; appname; csc; evtype] ->
  render header_items
    [VaInt prio; VaInt ver; VaInt (Year t); VaInt (Month t); VaInt (Day t); VaInt (Hour t);
     VaInt (Minute t); VaInt (Second t); VaStr16 1 (safe_string host);
     VaStr16 1 (safe_string appname); VaStr16 1 (safe_string csc); VaInt sfrid;
     VaStr16 1 (safe_string evtype)]
  = Some (log_header t prio ver host appname csc sfrid evtype, []).
Proof.
  rewrite !Forall_cons. intros (H1 & H2 & H3 & H4 & _). unfold header_items, log_header.
  cbn [app]. cbv zeta.
  repeat (eapply render_cons; [first [by apply item_num | by apply item_str | reflexivity]|]).
  apply render_lits.
  eapply render_cons; [by apply item_num|]. eapply render_cons; [reflexivity|].
  eapply render_cons; [by apply item_str|]. reflexivity.
Qed.

(** ** The console *)
Section Line.
Context (AllocatePool : Z -> option (list Z)) (OutputString : list Z -> EFI_STATUS).
Context (pool : list Z) (Hpool : AllocatePool ((MAX_PRINT + 1) * 2) = Some pool).
Context (Hsize : MAX_PRINT + 1 <= zlen pool).

(** The console is given the text of the format. *)
Lemma ConPrint_items l args text args' :
  format_ok l = true -> render l args = Some (text, args') -> zlen (format_of l) <= RSIZE_MAX ->
  Forall (fun c => c <> 0) text -> zlen text <= MAX_PRINT ->
  ConPrint AllocatePool (Some OutputString) (format_of l) args = Val text.
Proof using Hpool Hsize.
  intros Hok Hr Hf Hn Hl. unfold ConPrint, InternalPrint. rewrite Hpool.
  unfold MAX_PRINT, RSIZE_MAX in *.
  rewrite (UnicodeVSPrint_items l args text args' pool _ Hok Hr Hf) by (vm_compute; congruence || done).
  cbn [obind default]. rewrite firstn_all2 by (change ((16000 + 1) * 2 / 2 - 1) with 16000; lia).
  unfold id. cbn [app]. rewrite cstring_app by done. destruct text as [|c text]; [done|].
  by rewrite (proj2 (Z.ltb_lt 0 _)) by (cbn; lia).
Qed.

(** Writing the line. *)
Lemma write_log_line s b :
  Forall char16 s -> cstring b = log_line s -> zlen b < 2 ^ 63 -> zlen (log_line s) <= 15900 ->
  exists st, _sbc_write_log_file AllocatePool (Some OutputString) (Some b) (zlen (log_line s)) =
    Val (st, match log_line s with
             | [] => []
             | _ => txt "SysLog_OUTPUT (ASCII): " ++ log_line s ++ [CR; LF]
             end).
Proof using Hpool Hsize.
  intros Hs Hb Hl Hn. pose proof (log_line_bytes s Hs) as HB. unfold _sbc_write_log_file.
  set (line := log_line s) in *. destruct (zlen line =? 0) eqn:E; bool_hyp.
  { destruct line; [by eexists|cbn in E; lia]. }
  set (l := (Lit <$> txt "SysLog_OUTPUT (ASCII): ") ++ [Str false 0 false; Newline]).
  change (txt "SysLog_OUTPUT (ASCII): %a" ++ [LF]) with (format_of l).
  assert (Hu : u8 <$> cstring b = line).
  { rewrite Hb. clear -HB. induction HB as [|c r Hc Hr IH]; [done|]. rewrite fmap_cons, IH. f_equal.
    unfold u8. rewrite Z.mod_small; lia. }
  rewrite (ConPrint_items l [VaStr8 1 b] (txt "SysLog_OUTPUT (ASCII): " ++ line ++ [CR; LF]) []).
  - cbn [obind]. eexists. by destruct line.
  - done.
  - apply render_lits. cbn [render item_text VA_ARG_ptr va_next obind is_str8].
    rewrite (proj2 (Z.ltb_lt _ _)) by done. by rewrite field_none, Hu.
  - by vm_compute.
  - apply Forall_app. split; [repeat (constructor; [done|]); constructor|]. apply Forall_app.
    split; [|repeat constructor; done]. eapply Forall_impl; [exact HB|]. cbn. lia.
  - rewrite !length_app. change (length (txt "SysLog_OUTPUT (ASCII): ")) with 23%nat.
    cbn [length]. unfold MAX_PRINT. lia.
Qed.

(** What follows the body: the conversion, the blanks, the output. *)
Lemma log_tail s r :
  Forall char16 s -> zlen s <= 15900 ->
  let full := s ++ 0 :: r in
  (do (len, ascii) <- MyUnicodeStrToAsciiStrS (Some (zeros (MAX_PRINT + 1))) (MAX_PRINT + 1)
      (Some full);
    if (len =? 0) && negb (match full with c :: _ => c =? 0 | [] => true end) then
      ConPrint AllocatePool (Some OutputString)
        (txt "WARNING: ASCII conversion failed for log. Unicode content: %s" ++ [LF])
        [VaStr16 1 full]
    else
      do (len, ascii) <- remove_all_space ascii len;
      do (_, s) <- _sbc_write_log_file AllocatePool (Some OutputString) ascii len;
      Val s) =
  Val (match log_line s with
       | [] => []
       | _ => txt "SysLog_OUTPUT (ASCII): " ++ log_line s ++ [CR; LF]
       end).
Proof using Hpool Hsize.
  intros Hs Hl full. unfold full. destruct (cstring_split s r) as [r' HE]. rewrite HE.
  pose proof (cstring_nonzero s) as Hn. pose proof (cstring_length s) as HL.
  assert (Hz : zlen (zeros (MAX_PRINT + 1)) = MAX_PRINT + 1) by (apply length_zeros; by vm_compute).
  rewrite to_ascii_run by (unfold MAX_PRINT in *; (done || lia)). cbn [obind].
  replace ((_ =? 0) && _) with false.
  2:{ destruct (cstring s) as [|c u]; [done|]. symmetry. apply andb_false_intro1, Z.eqb_neq. cbn. lia. }
  assert (Ha : Forall (fun c => c <> 0) (ascii_of <$> cstring s)).
  { apply Forall_fmap, Forall_forall. intros c Hc. unfold compose.
    pose proof (ascii_of_byte c (cstring_in s c Hs Hc)) as HB.
    rewrite Forall_forall in Hn. specialize (HB (Hn c Hc)). lia. }
  destruct (remove_all_space_run (ascii_of <$> cstring s)
    (drop (length (cstring s) + 1) (zeros (MAX_PRINT + 1))) Ha) as (b & HR & Hb & HLb).
  rewrite length_fmap in HR. cbn [app]. rewrite HR. cbn [obind].
  change (List.filter not_blank (ascii_of <$> cstring s)) with (log_line s) in *.
  assert (HLb' : zlen b < 2 ^ 63).
  { rewrite HLb, length_app, length_fmap. cbn [length]. rewrite length_drop.
    unfold MAX_PRINT in *. lia. }
  assert (HLL : zlen (log_line s) <= 15900).
  { unfold log_line. pose proof (List.filter_length_le not_blank (ascii_of <$> cstring s)) as Hle.
    rewrite length_fmap in Hle. lia. }
  destruct (write_log_line s b Hs Hb HLb' HLL) as [st HW]. rewrite HW. done.
Qed.

Lemma SBC_LogPrint_run GetTime prio ver host appname csc sfrid evtype l args body args' :
  Forall (fun s => zlen (safe_string s) < 2 ^ 63) [host; appname; csc; evtype] ->
  forallb body_ok l = true -> body_text l args = Some (body, args') ->
  let header := log_header (log_time GetTime) prio ver host appname csc sfrid evtype in
  zlen header + 2 * zlen body <= 15900 ->
  SBC_LogPrint AllocatePool (Some OutputString) GetTime prio ver host appname csc sfrid evtype
    (body_format l) args =
  Val (match log_line (header ++ body) with
       | [] => []
       | _ => txt "SysLog_OUTPUT (ASCII): " ++ log_line (header ++ body) ++ [CR; LF]
       end).
Proof using Hpool Hsize.
  intros Hstr Hok Hbody header Hlen. unfold SBC_LogPrint. cbv zeta.
  pose proof (render_header (log_time GetTime) prio ver host appname csc sfrid evtype Hstr) as HR.
  fold header in HR.
  assert (Hc : Forall char16 header) by (eapply render_chars; [|exact HR]; by vm_compute).
  change log_header_format with (format_of header_items).
  assert (Hz : zlen (zeros (MAX_PRINT + 1)) = 16001) by (apply length_zeros; by vm_compute).
  set (zs := zeros (MAX_PRINT + 1)) in *.
  pose proof (SPrintAt_items [] zs ((MAX_PRINT + 1) * 2) header_items _ header [] eq_refl HR) as HS.
  cbn [app length] in HS. change (Z.of_nat 0) with 0 in HS.
  change ((MAX_PRINT + 1) * 2 / 2) with 16001 in HS.
  change (format_of header_items) with log_header_format in *.
  rewrite HS; [|by vm_compute|lia|by vm_compute|lia]. cbn [obind]. clear HS.
  change ((MAX_PRINT + 1) * 2) with 32002. guard_false. clear E.
  rewrite Nat2Z.id, drop_app_length, take_app_length.
  set (tl0 := 0 :: drop (length header + 1) zs).
  assert (Ht0 : zlen tl0 = 16001 - zlen header) by (unfold tl0; cbn [length]; rewrite length_drop; lia).
  replace (32002 - zlen header * 2) with (zlen tl0 * 2) by lia.
  destruct (LogFmt_body l args body args' tl0 Hok Hbody) as (tl & HL & HF);
    [unfold RSIZE_MAX; lia|lia|].
  rewrite HF. cbn [obind]. unfold MAX_PRINT at 1. guard_false. clear E.
  rewrite app_assoc, <-Nat2Z.inj_add, <-length_app, wr_behind. cbn [of_option obind].
  rewrite <-app_assoc. cbn [app]. rewrite app_assoc.
  apply (log_tail (header ++ body) tl).
  - apply Forall_app. split; [done|]. by eapply body_text_chars.
  - rewrite length_app. lia.
Qed.
End Line.

(** The header starts with a digit or a sign, so there is always a line. *)
Lemma numeral_visible R v : 10 <= R <= 16 -> 0 <= v < 2 ^ 64 ->
  exists c r, numeral R v = c :: r /\ c <> 0 /\ ascii_of c = c /\ not_blank c = true.
Proof.
  intros HR Hv. pose proof (numeral_length R v HR Hv) as HL.
  destruct (digit_list_spec R ltac:(lia) 64 v ltac:(done) (pow_64 R v ltac:(lia) Hv)) as (_ & Hf & _).
  unfold numeral in *. destruct (digit_list 64 R v) as [|d l]; [cbn in HL; lia|].
  apply Forall_cons in Hf as [Hd _]. exists (digit_char d), (digit_char <$> l).
  assert (Hc : 48 <= digit_char d < 71) by (unfold digit_char; split_if; bool_hyp; lia).
  split; [done|]. split; [lia|]. unfold ascii_of, not_blank, u8. split.
  - rewrite (proj2 (Z.ltb_ge 255 _)) by lia. apply Z.mod_small. lia.
  - apply negb_true_iff, Z.eqb_neq. change (ch " ") with 32. lia.
Qed.

Lemma num_visible w z r :
  exists c r', num w z ++ r = c :: r' /\ c <> 0 /\ ascii_of c = c /\ not_blank c = true.
Proof.
  unfold num, field. pose proof (s32_range z).
  destruct (numeral_visible 10 (Z.abs (s32 z)) ltac:(lia) ltac:(lia)) as (c & l & -> & H1 & H2 & H3).
  destruct (s32 z <? 0); cbn [flag app].
  - eexists _, _. split; [reflexivity|]. by vm_compute.
  - unfold rep. destruct (Z.to_nat _); cbn [replicate app]; eexists _, _; (split; [reflexivity|]).
    + done.
    + by vm_compute.
Qed.

Lemma log_line_header t prio ver host appname csc sfrid evtype body :
  log_line (log_header t prio ver host appname csc sfrid evtype ++ body) <> [].
Proof.
  unfold log_header. cbv zeta. rewrite <-app_assoc.
  match goal with |- context [num 0 prio ++ ?r] => destruct (num_visible 0 prio r)
    as (c & r' & -> & Hc & Ha & Hb) end.
  unfold log_line. cbn [cstring]. rewrite (proj2 (Z.eqb_neq c 0)) by done.
  rewrite fmap_cons, Ha. cbn [List.filter]. by rewrite Hb.
Qed.

(** C39: (functional) What a log call leaves on the console.  For a body of characters and
    directives whose arguments fit, and texts that leave room in the buffer of
    16001 characters, [SBC_LogPrint] prints one line: the header (priority, version,
    time stamp with zero-padded fields, host, application, component, event id and
    type, "(null)" for a missing string, 2000-01-01T00:00:00 when the clock fails)
    and the body, each character reduced to a byte ("?" above 255), cut at a zero
    character, and without any blank.  In the body the width of a number or string
    has no effect, numbers are read as 64 bits, and an ASCII string prints nothing
    but its padding. *)
Theorem sbc_log_line AllocatePool OutputString pool GetTime prio ver host appname csc sfrid evtype
    l args body args' :
  AllocatePool ((MAX_PRINT + 1) * 2) = Some pool -> MAX_PRINT + 1 <= zlen pool ->
  Forall (fun s => zlen (safe_string s) < 2 ^ 63) [host; appname; csc; evtype] ->
  forallb body_ok l = true -> body_text l args = Some (body, args') ->
  let header := log_header (log_time GetTime) prio ver host appname csc sfrid evtype in
  zlen header + 2 * zlen body <= 15900 ->
  SBC_LogPrint AllocatePool (Some OutputString) GetTime prio ver host appname csc sfrid evtype
    (body_format l) args =
  Val (txt "SysLog_OUTPUT (ASCII): " ++
       List.filter not_blank (ascii_of <$> cstring (header ++ body)) ++ [CR; LF]).
Proof.
  intros Hp Hs Hstr Hok Hb header Hl.
  rewrite (SBC_LogPrint_run AllocatePool OutputString pool Hp Hs GetTime prio ver host appname csc
    sfrid evtype l args body args' Hstr Hok Hb Hl).
  fold header. fold (log_line (header ++ body)).
  destruct (log_line (header ++ body)) eqn:E; [by apply log_line_header in E|done].
Qed.

(** The call of SBC_AntiTampering.c with a priority of 187: the blanks between
    the fields are gone. *)
Lemma sbc_log_line_witness :
  SBC_LogPrint (fun n => Some (zeros n)) (Some (fun _ => EFI_SUCCESS))
    (EFI_SUCCESS, mkTime 2025 3 4 5 6 7 0) 187 2 None (Some (txt "SSBL")) (Some (txt "CSC-01")) 23
    (Some (txt "VERIFY")) (txt "count %02d of %s%6a") [VaInt 5; VaInt 0; VaStr8 1 (txt "eleven")] =
  Val (txt "SysLog_OUTPUT (ASCII): 18722025-03-04T05:06:07(null)SSBLCSC-01R-SAT-PWT-SFR-023VERIFYcount5of(null)"
       ++ [CR; LF]).
Proof.
  exact (sbc_log_line (fun n => Some (zeros n)) (fun _ => EFI_SUCCESS) (zeros 32002)
    (EFI_SUCCESS, mkTime 2025 3 4 5 6 7 0) 187 2 None (Some (txt "SSBL")) (Some (txt "CSC-01")) 23
    (Some (txt "VERIFY"))
    ((BLit <$> txt "count ") ++ [BDir false true 2 (TInt Dec)] ++ (BLit <$> txt " of ") ++
     [BDir false false 0 TStr; BDir false false 6 TAsc])
    [VaInt 5; VaInt 0; VaStr8 1 (txt "eleven")]
    (txt "count 5 of (null)      ") []
    eq_refl ltac:(vm_compute; congruence) ltac:(repeat constructor; vm_compute; congruence)
    eq_refl eq_refl ltac:(vm_compute; congruence)).
Defined.

(** ** The hex dump *)

(** Two hex digits; the character of the right column. *)
Definition hex2 (b : Z) : list Z := field false true 2 [] (numeral 16 b).
Definition shown (b : Z) : Z := if (31 <? b) && (b <? 127) then b else ch ".".

(** A line of at most 16 bytes, the places of missing ones blank. *)
Definition dump_line (bs : bytes) : list Z :=
  [9] ++ (bs ≫= fun b => hex2 b ++ [ch " "]) ++ rep (3 * (LINE_LEN - zlen bs)) (ch " ") ++
  txt "| " ++ (shown <$> bs) ++ [CR; CR; LF].

Fixpoint dump_text (lines : nat) (bs : bytes) : list Z :=
  match lines, bs with
  | S lines, _ :: _ => dump_line (take 16 bs) ++ dump_text lines (drop 16 bs)
  | _, _ => []
  end.

Lemma hex2_nonzero b : 0 <= b < 256 -> Forall (fun c => c <> 0) (hex2 b) /\ zlen (hex2 b) <= 22.
Proof.
  intros Hb. unfold hex2, field. cbn [app length].
  pose proof (numeral_printable 16 b ltac:(lia) ltac:(lia)) as Hp.
  pose proof (numeral_length 16 b ltac:(lia) ltac:(lia)) as HL. split.
  - apply Forall_app. split; [apply Forall_replicate; done|].
    eapply Forall_impl; [exact Hp|]. by intros c [? _].
  - rewrite length_app. unfold rep. rewrite length_replicate. lia.
Qed.

Section Dump.
Context (AllocatePool : Z -> option (list Z)) (OutputString : list Z -> EFI_STATUS).
Context (pool : list Z) (Hpool : AllocatePool ((MAX_PRINT + 1) * 2) = Some pool).
Context (Hsize : MAX_PRINT + 1 <= zlen pool).

Abbreviation print := (ConPrint AllocatePool (Some OutputString)).

Lemma print_text s l text args' :
  s = format_of l -> format_ok l = true -> forall args, render l args = Some (text, args') ->
  zlen s <= 1000 -> Forall (fun c => c <> 0) text -> zlen text <= MAX_PRINT ->
  print s args = Val text.
Proof using Hpool Hsize.
  intros -> Hok args Hr Hs Hn Hl.
  apply (ConPrint_items AllocatePool OutputString pool Hpool Hsize l args text args'); try done.
  unfold RSIZE_MAX. lia.
Qed.

Lemma print_hex b : 0 <= b < 256 -> print (txt "%02x ") [VaInt b] = Val (hex2 b ++ [ch " "]).
Proof using Hpool Hsize.
  intros Hb. destruct (hex2_nonzero b Hb) as [Hn HL].
  eapply (print_text _ [Int false true 0 2 Hex; Lit 32]); [done|done| |by vm_compute| |].
  - cbn [render item_text is_long integer_text unsigned_slot slot_bits].
    rewrite u64_small, u32_small by lia. done.
  - apply Forall_app. split; [done|]. by repeat constructor.
  - rewrite length_app. cbn [length]. unfold MAX_PRINT. lia.
Qed.

Lemma print_char b : 31 < b < 127 -> print (txt "%c") [VaInt b] = Val [b].
Proof using Hpool Hsize.
  intros Hb. eapply (print_text _ [Chr]); [done|done| |by vm_compute|by repeat constructor; lia|by vm_compute].
  cbn [render item_text slot_bits]. rewrite u64_small, Z.mod_small by lia.
  rewrite (proj2 (Z.eqb_neq b 0)) by lia. done.
Qed.

Lemma print_plain s l :
  s = format_of l -> format_ok l = true -> forall t, render l [] = Some (t, []) -> zlen s <= 1000 ->
  Forall (fun c => c <> 0) t -> zlen t <= MAX_PRINT -> print s [] = Val t.
Proof using Hpool Hsize. intros. by eapply print_text. Qed.

Lemma HexLoop_blank n i len b :
  len <= i -> HexLoop AllocatePool (Some OutputString) n i len b = Val (rep (3 * Z.of_nat n) (ch " ")).
Proof using Hpool Hsize.
  revert i b. induction n as [|n IH]; intros i b Hi; [done|]. cbn [HexLoop].
  rewrite (proj2 (Z.ltb_ge i len)) by lia.
  rewrite (print_plain (txt "   ") [Lit 32; Lit 32; Lit 32] eq_refl eq_refl (txt "   ") eq_refl)
    by first [by vm_compute | by repeat constructor].
  cbn [obind]. rewrite IH by lia. cbn [obind]. unfold rep.
  replace (Z.to_nat (3 * Z.of_nat (S n))) with (3 + Z.to_nat (3 * Z.of_nat n))%nat by lia. done.
Qed.

Lemma HexLoop_bytes bs r n i len :
  all_bytes bs -> (length bs <= n)%nat -> i + zlen bs = Z.min len (i + Z.of_nat n) ->
  HexLoop AllocatePool (Some OutputString) n i len (bs ++ r) =
  Val ((bs ≫= fun b => hex2 b ++ [ch " "]) ++ rep (3 * (Z.of_nat n - zlen bs)) (ch " ")).
Proof using Hpool Hsize.
  intros Hb. revert n i. induction Hb as [|b bs Hx Hb IH]; intros n i Hn Hl.
  - cbn [length app mbind list_bind] in *. rewrite Z.sub_0_r. destruct n as [|n]; [done|].
    apply HexLoop_blank. lia.
  - destruct n as [|n]; [cbn in Hn; lia|]. cbn [length app HexLoop] in *.
    rewrite (proj2 (Z.ltb_lt i len)) by lia. cbn [head of_option obind]. rewrite print_hex by done.
    cbn [obind tail]. rewrite IH by lia. cbn [obind]. rewrite bind_cons, <-!app_assoc.
    by replace (Z.of_nat (S n) - Z.of_nat (S (length bs))) with (Z.of_nat n - zlen bs) by lia.
Qed.

Lemma CharLoop_bytes bs r :
  all_bytes bs -> CharLoop AllocatePool (Some OutputString) (length bs) (bs ++ r) = Val (shown <$> bs).
Proof using Hpool Hsize.
  induction 1 as [|b bs Hx Hb IH]; [done|]. cbn [length CharLoop app head of_option obind].
  assert (HP : (if (31 <? b) && (b <? 127) then print (txt "%c") [VaInt b] else print (txt ".") [])
    = Val [shown b]).
  { unfold shown. destruct ((31 <? b) && (b <? 127)) eqn:E; bool_hyp; [apply print_char; lia|..];
      apply (print_plain _ [Lit (ch ".")]); by first [by vm_compute | by repeat constructor]. }
  rewrite HP. cbn [obind tail]. rewrite IH. done.
Qed.

Lemma DumpLine_text bs r len :
  all_bytes bs -> 0 < len -> zlen bs = Z.min len 16 ->
  DumpLine AllocatePool (Some OutputString) (bs ++ r) len = Val (dump_line bs).
Proof using Hpool Hsize.
  intros Hb Hl HL. unfold DumpLine, LINE_LEN.
  rewrite (print_plain [9] [Lit 9] eq_refl eq_refl [9] eq_refl)
    by first [by vm_compute | by repeat constructor].
  cbn [obind]. rewrite HexLoop_bytes by (done || lia). cbn [obind].
  rewrite (print_plain (txt "| ") [Lit 124; Lit 32] eq_refl eq_refl (txt "| ") eq_refl)
    by first [by vm_compute | by repeat constructor].
  cbn [obind]. replace (Z.to_nat (if 16 <? len then 16 else len)) with (length bs)
    by (destruct (16 <? len) eqn:E; bool_hyp; lia).
  rewrite CharLoop_bytes by done. cbn [obind].
  rewrite (print_plain [CR; CR; LF] [Cr; CrLf] eq_refl eq_refl [CR; CR; LF] eq_refl)
    by first [by vm_compute | by repeat constructor].
  cbn [obind]. unfold dump_line, LINE_LEN. rewrite <-!app_assoc. done.
Qed.

Lemma DumpLoop_text fuel lines bs r :
  all_bytes bs -> (length bs < fuel)%nat -> (length bs <= lines)%nat ->
  DumpLoop AllocatePool (Some OutputString) fuel (bs ++ r) (zlen bs) = Val (dump_text lines bs).
Proof using Hpool Hsize.
  revert lines bs. induction fuel as [|fuel IH]; intros lines bs Hb Hf Hl; [lia|]. cbn [DumpLoop].
  destruct bs as [|b bs0]; [by destruct lines|]. destruct lines as [|lines]; [cbn in Hl; lia|].
  set (bs := b :: bs0) in *. assert (0 < zlen bs) by (unfold bs; cbn; lia).
  rewrite (proj2 (Z.ltb_lt 0 _)) by done.
  assert (Hlen : zlen (take 16 bs) = Z.min (zlen bs) 16) by (rewrite length_take; lia).
  assert (Hbt : all_bytes (take 16 bs) /\ all_bytes (drop 16 bs)).
  { split; [by apply Forall_take|by apply Forall_drop]. } destruct Hbt as [Hb1 Hb2].
  rewrite <-(take_drop 16 bs) at 1. rewrite <-app_assoc, DumpLine_text by done. cbn [obind].
  unfold LINE_LEN. set (sz := if 16 <? zlen bs then 16 else zlen bs).
  assert (Hsz : sz = zlen (take 16 bs)) by (unfold sz; rewrite Hlen; split_if; bool_hyp; lia).
  assert (HD : drop (Z.to_nat sz) (bs ++ r) = drop 16 bs ++ r).
  { rewrite <-(take_drop 16 bs) at 1. rewrite <-app_assoc, Hsz, Nat2Z.id. apply drop_app_length. }
  rewrite HD. replace (zlen bs - sz) with (zlen (drop 16 bs)) by (rewrite Hsz, Hlen, length_drop; lia).
  rewrite (IH lines) by (try done; rewrite length_drop; lia). done.
Qed.
End Dump.

Lemma numeral_nonzero z : - 2 ^ 31 <= z < 2 ^ 31 ->
  Forall (fun c => c <> 0) (flag (z <? 0) (ch "-") ++ numeral 10 (Z.abs z)) /\
  zlen (flag (z <? 0) (ch "-") ++ numeral 10 (Z.abs z)) <= 21.
Proof.
  intros Hz. pose proof (numeral_printable 10 (Z.abs z) ltac:(lia) ltac:(lia)) as Hp.
  pose proof (numeral_length 10 (Z.abs z) ltac:(lia) ltac:(lia)) as HL.
  rewrite length_app. split; [apply Forall_app; split|destruct (z <? 0); cbn [flag length]; lia].
  - destruct (z <? 0); by repeat constructor.
  - eapply Forall_impl; [exact Hp|]. by intros c [? _].
Qed.

(** The title line. *)
Lemma title_text AllocatePool OutputString pool s len :
  AllocatePool ((MAX_PRINT + 1) * 2) = Some pool -> MAX_PRINT + 1 <= zlen pool ->
  Forall is_byte s -> zlen s <= 15900 ->
  ConPrint AllocatePool (Some OutputString) (txt "%a (length of buffer: %d) " ++ [CR; CR; LF])
    [VaStr8 1 s; VaInt len] =
  Val (cstring s ++ txt " (length of buffer: " ++ num 0 len ++ txt ") " ++ [CR; CR; LF]).
Proof.
  intros Hp Hz Hs Hl.
  set (l := [Str false 0 false] ++ (Lit <$> txt " (length of buffer: ") ++
            [Int false false 0 0 Dec; Lit 41; Lit 32; Cr; CrLf]).
  change (txt "%a (length of buffer: %d) " ++ [CR; CR; LF]) with (format_of l).
  assert (Hu : u8 <$> cstring s = cstring s).
  { clear -Hs. induction Hs as [|c s Hc Hs IH]; [done|]. cbn. destruct (c =? 0); [done|].
    rewrite fmap_cons, IH. f_equal. unfold u8, is_byte in *. by rewrite Z.mod_small. }
  pose proof (cstring_length s). pose proof (s32_range len) as Hr.
  destruct (numeral_nonzero (s32 len) Hr) as [Hn HLn].
  assert (HN : num 0 len = flag (s32 len <? 0) (ch "-") ++ numeral 10 (Z.abs (s32 len))).
  { unfold num, field. rewrite rep_neg; [done|]. lia. }
  rewrite (ConPrint_items AllocatePool OutputString pool Hp Hz l [VaStr8 1 s; VaInt len]
    (cstring s ++ txt " (length of buffer: " ++ num 0 len ++ txt ") " ++ [CR; CR; LF]) []); try done.
  - unfold l. cbn [app]. eapply render_cons.
    { cbn [item_text VA_ARG_ptr va_next obind is_str8]. rewrite (proj2 (Z.ltb_lt _ _)) by lia.
      by rewrite field_none, Hu. }
    apply render_lits. eapply render_cons; [by apply item_num|]. done.
  - rewrite HN. rewrite !Forall_app in *. repeat split; try tauto; try apply cstring_nonzero;
      repeat (constructor; [done|]); constructor.
  - rewrite HN, !length_app in *. change (length (txt " (length of buffer: ")) with 20%nat.
    change (length (txt ") ")) with 2%nat. cbn [length]. unfold MAX_PRINT. lia.
Qed.

(** (functional) The hex dump shows the bytes it is given.  [SBC_mem_print_bin] prints the
    title with the length, if there is one, and then, for the first [len] bytes of
    the buffer, lines of 16: two hex digits for each byte, blanks in the place of
    the missing ones of the last line, and the printable characters with a dot for
    the others; for a null buffer it prints "NULL".  The loop ends, and no byte
    behind the [len] first ones is read. *)
Theorem mem_print_bin_text AllocatePool OutputString pool title buffer len :
  AllocatePool ((MAX_PRINT + 1) * 2) = Some pool -> MAX_PRINT + 1 <= zlen pool ->
  (forall s, title = Some s -> Forall is_byte s /\ zlen s <= 15900) ->
  (forall b, buffer = Some b -> all_bytes b /\ 0 <= len <= zlen b) ->
  SBC_mem_print_bin AllocatePool (Some OutputString) title buffer len =
  Val (match title with
       | Some s => cstring s ++ txt " (length of buffer: " ++ num 0 len ++ txt ") " ++ [CR; CR; LF]
       | None => []
       end ++
       match buffer with
       | Some b => dump_text (Z.to_nat len) (take (Z.to_nat len) b)
       | None => [9] ++ txt "NULL" ++ [CR; LF]
       end).
Proof.
  intros Hp Hz Ht Hb. unfold SBC_mem_print_bin.
  assert (HT : match title with
    | Some s => ConPrint AllocatePool (Some OutputString) (txt "%a (length of buffer: %d) " ++ [CR; CR; LF])
                  [VaStr8 1 s; VaInt len]
    | None => Val [] end = Val (match title with
    | Some s => cstring s ++ txt " (length of buffer: " ++ num 0 len ++ txt ") " ++ [CR; CR; LF]
    | None => [] end)).
  { destruct title as [s|]; [|done]. destruct (Ht s eq_refl). by apply title_text with pool. }
  rewrite HT. cbn [obind]. clear HT Ht. destruct buffer as [b|].
  - destruct (Hb b eq_refl) as [Hall Hlen].
    pose proof (DumpLoop_text AllocatePool OutputString pool Hp Hz (S (Z.to_nat len)) (Z.to_nat len)
      (take (Z.to_nat len) b) (drop (Z.to_nat len) b) (Forall_take _ _ _ Hall)) as HD.
    rewrite take_drop, length_take in HD.
    replace (Z.of_nat (Z.to_nat len `min` length b)) with len in HD by lia.
    rewrite HD by lia. done.
  - rewrite (print_plain AllocatePool OutputString pool Hp Hz ([9] ++ txt "NULL" ++ [CR; LF])
      [Lit 9; Lit 78; Lit 85; Lit 76; Lit 76; CrLf] eq_refl eq_refl
      ([9] ++ txt "NULL" ++ [CR; LF]) eq_refl); [done|by vm_compute|by repeat constructor|by vm_compute].
Qed.

Lemma mem_print_bin_text_witness :
  SBC_mem_print_bin (fun n => Some (zeros n)) (Some (fun _ => EFI_SUCCESS)) (Some (txt "SN"))
    (Some [83; 49; 0; 255; 7]) 3 =
  Val (txt "SN (length of buffer: 3) " ++ [13; 13; 10; 9] ++
       txt "53 31 00                                        | S1." ++ [13; 13; 10]).
Proof.
  apply (mem_print_bin_text (fun n => Some (zeros n)) (fun _ => EFI_SUCCESS) (zeros 32002)
    (Some (txt "SN")) (Some [83; 49; 0; 255; 7]) 3).
  - reflexivity.
  - vm_compute. congruence.
  - intros s [= <-]. split; [repeat constructor; vm_compute; congruence|vm_compute; congruence].
  - intros b [= <-]. split; [repeat constructor; vm_compute; congruence|vm_compute; split; congruence].
Defined.

(** ** Where the log leaves its buffer *)

(** A character that is neither part of a directive nor a known type. *)
Definition unknown_type (t : Z) : bool :=
  negb (is_digit t) && forallb (fun c => negb (t =? c)) (0 :: txt "-*.lLhsadiuxXpc%").

(** A buffer that holds less than the mark of a truncated line. *)
Lemma mark_overruns pre tl :
  zlen tl <= 3 -> SPrintAt (pre ++ tl) (zlen pre) 8 (txt "...") [] = Undef OutOfBounds.
Proof.
  intros Hl. unfold SPrintAt. rewrite Nat2Z.id, drop_app_length.
  destruct tl as [|x [|y [|z [|u tl]]]]; [by vm_compute..|]. cbn in Hl. lia.
Qed.

Lemma unknown_type_facts t : unknown_type t = true ->
  is_digit t = false /\
  forall a, List.In (ch a) (ch "0" :: txt "-*.lLhsadiuxXpc%") -> (t =? ch a) = false.
Proof.
  unfold unknown_type. intros [Hd Hf]%andb_prop. apply negb_true_iff in Hd. split; [done|].
  intros a [Ha|Ha].
  - rewrite <-Ha. apply Z.eqb_neq. intros ->. by vm_compute in Hd.
  - rewrite forallb_forall in Hf. apply negb_true_iff, Hf. by right.
Qed.

Lemma long_header_overruns AllocatePool ConOut GetTime prio ver host appname csc sfrid evtype
    format args :
  Forall (fun s => zlen (safe_string s) < 2 ^ 63) [host; appname; csc; evtype] ->
  MAX_PRINT - 3 < zlen (log_header (log_time GetTime) prio ver host appname csc sfrid evtype) ->
  SBC_LogPrint AllocatePool ConOut GetTime prio ver host appname csc sfrid evtype format args
  = Undef OutOfBounds.
Proof.
  intros Hstr Hh. unfold SBC_LogPrint. cbv zeta.
  pose proof (render_header (log_time GetTime) prio ver host appname csc sfrid evtype Hstr) as HR.
  set (header := log_header _ _ _ _ _ _ _ _) in *.
  assert (Hz : zlen (zeros (MAX_PRINT + 1)) = 16001) by (apply length_zeros; by vm_compute).
  set (zs := zeros (MAX_PRINT + 1)) in *.
  pose proof (UnicodeVSPrint_items header_items _ header [] zs ((MAX_PRINT + 1) * 2) eq_refl HR) as HS.
  change (format_of header_items) with log_header_format in HS. unfold SPrintAt at 1, UnicodeSPrint.
  change (drop (Z.to_nat 0) zs) with zs. cbv zeta in HS.
  rewrite HS; [|by vm_compute|by vm_compute|by vm_compute|].
  2:{ change ((MAX_PRINT + 1) * 2 / 2) with 16001. lia. }
  change (Z.to_nat ((MAX_PRINT + 1) * 2 / 2 - 1)) with (Z.to_nat MAX_PRINT).
  set (out := take (Z.to_nat MAX_PRINT) header). unfold MAX_PRINT in *.
  assert (HL : 16000 - 3 < zlen out <= 16000) by (unfold out; rewrite length_take; lia).
  cbn [obind default]. guard_true. clear E. unfold id. change (take (Z.to_nat 0) zs) with (@nil Z).
  cbn [app]. rewrite mark_overruns; [done|]. cbn [length]. rewrite length_drop. lia.
Qed.

(** Characters that are copied. *)
Definition literal (c : Z) : bool := negb (c =? ch "%").

Lemma LogLoop_literals s r args pre tl fuel :
  forallb literal s = true -> zlen s < zlen tl ->
  LogLoop (length s + fuel) (s ++ r) args (pre ++ tl) (zlen pre) (zlen pre) (zlen tl) =
  LogLoop fuel r args ((pre ++ s) ++ drop (length s) tl) (zlen (pre ++ s)) (zlen (pre ++ s))
    (zlen (drop (length s) tl)).
Proof.
  revert pre tl. induction s as [|c s IH]; intros pre tl Hs Hl.
  { by rewrite !app_nil_r, drop_0. }
  cbn [forallb] in Hs. apply andb_prop in Hs as [Hc Hs]. destruct tl as [|x tl]; [cbn in Hl; lia|].
  cbn [length app] in *. cbn [Nat.add LogLoop]. rewrite (proj2 (Z.leb_gt _ _)) by (cbn [length]; lia).
  unfold literal in Hc. rewrite Hc, wr_behind. cbn [of_option obind].
  replace (pre ++ c :: tl) with ((pre ++ [c]) ++ tl) by (by rewrite <-app_assoc).
  replace (zlen pre + 1) with (zlen (pre ++ [c])) by (rewrite length_app; cbn; lia).
  replace (Z.of_nat (S (length tl)) - 1) with (zlen tl) by lia.
  rewrite IH by (done || lia).
  by replace ((pre ++ [c]) ++ s) with (pre ++ c :: s) by (by rewrite <-app_assoc).
Qed.

(** The last two characters of the buffer. *)
Lemma unknown_directive_fills t args pre x y fuel :
  unknown_type t = true ->
  LogLoop (S (S fuel)) [ch "%"; t] args (pre ++ [x; y]) (zlen pre) (zlen pre) 2 =
  Val (pre ++ [ch "%"; t], zlen pre + 2, zlen pre + 2).
Proof.
  intros [Hd Hn]%unknown_type_facts.
  assert (HP : parse_log [t] args = Val (mkLogDirective false false 0 MAX_UINTN false [t], args)).
  { unfold parse_log. cbn [log_flags]. rewrite (Hn "-"%char), (Hn "0"%char) by (vm_compute; auto 20).
    cbn [log_number scan_digits]. rewrite Hd, (Hn "*"%char) by (vm_compute; auto 20). cbn [obind].
    rewrite (Hn "."%char) by (vm_compute; auto 20). cbn [obind].
    by rewrite (Hn "l"%char), (Hn "L"%char), (Hn "h"%char) by (vm_compute; auto 20). }
  cbn [LogLoop]. change (2 <=? 1) with false. chars. rewrite HP. cbn [obind lFormat].
  repeat match goal with |- context [t =? ch ?a] => rewrite (Hn a) by (vm_compute; auto 20) end.
  cbn [obind]. rewrite wr_some by (rewrite ?length_app; cbn [length]; lia).
  rewrite Nat2Z.id, take_app_length, drop_ge by (rewrite length_app; cbn [length]; lia).
  rewrite app_nil_r. done.
Qed.

(** A body that leaves two characters, and an unknown directive. *)
Lemma unknown_directive_overruns s t args buf :
  forallb literal s = true -> unknown_type t = true -> zlen buf = zlen s + 2 ->
  _LogFmtVPrint (s ++ [ch "%"; t]) args buf (zlen buf * 2) = Undef OutOfBounds.
Proof.
  intros Hs Ht Hl. unfold _LogFmtVPrint. rewrite Z.div_mul by lia. guard_false.
  rewrite length_app. cbn [length]. rewrite <-Nat.add_succ_r.
  pose proof (LogLoop_literals s [ch "%"; t] args [] buf 3 Hs ltac:(lia)) as HL.
  cbn [app length] in HL. change (Z.of_nat 0) with 0 in HL. rewrite HL. clear HL.
  assert (HD : exists x y, drop (length s) buf = [x; y]).
  { assert (Hz : length (drop (length s) buf) = 2%nat) by (rewrite length_drop; lia).
    destruct (drop (length s) buf) as [|x [|y [|z l]]]; try done. by exists x, y. }
  destruct HD as (x & y & ->). change (zlen [x; y]) with 2.
  rewrite unknown_directive_fills by done. cbn [obind].
  by rewrite wr_none by (rewrite length_app; cbn [length]; lia).
Qed.

Lemma long_body_overruns AllocatePool ConOut GetTime prio ver host appname csc sfrid evtype s t args :
  Forall (fun s => zlen (safe_string s) < 2 ^ 63) [host; appname; csc; evtype] ->
  let header := log_header (log_time GetTime) prio ver host appname csc sfrid evtype in
  zlen header < MAX_PRINT - 3 -> forallb literal s = true -> unknown_type t = true ->
  zlen header + zlen s = MAX_PRINT - 1 ->
  SBC_LogPrint AllocatePool ConOut GetTime prio ver host appname csc sfrid evtype
    (s ++ [ch "%"; t]) args = Undef OutOfBounds.
Proof.
  intros Hstr header Hh Hs Ht Hl. unfold SBC_LogPrint. cbv zeta.
  pose proof (render_header (log_time GetTime) prio ver host appname csc sfrid evtype Hstr) as HR.
  fold header in HR.
  assert (Hz : zlen (zeros (MAX_PRINT + 1)) = 16001) by (apply length_zeros; by vm_compute).
  set (zs := zeros (MAX_PRINT + 1)) in *.
  pose proof (SPrintAt_items [] zs ((MAX_PRINT + 1) * 2) header_items _ header [] eq_refl HR) as HS.
  cbn [app length] in HS. change (Z.of_nat 0) with 0 in HS.
  change ((MAX_PRINT + 1) * 2 / 2) with 16001 in HS.
  change (format_of header_items) with log_header_format in HS. unfold MAX_PRINT in Hh, Hl.
  rewrite HS; [|by vm_compute|lia|by vm_compute|lia]. cbn [obind]. clear HS.
  change ((MAX_PRINT + 1) * 2) with 32002. guard_false. clear E.
  rewrite Nat2Z.id, drop_app_length.
  set (tl0 := 0 :: drop (length header + 1) zs).
  assert (Ht0 : zlen tl0 = 16001 - zlen header) by (unfold tl0; cbn [length]; rewrite length_drop; lia).
  replace (32002 - zlen header * 2) with (zlen tl0 * 2) by lia.
  rewrite unknown_directive_overruns by (done || lia). done.
Qed.

(** C40: (error) Two kinds of log calls write behind the buffer of 16001 characters on
    the stack of [SBC_LogPrint].  One has a header that leaves less than four
    characters: the mark "..." of a truncated line, with its terminator, is put at
    its end, whatever the message is.  The other has a message of plain characters
    that, with the header, leaves two characters, followed by an unknown directive:
    the directive fills both, and the terminator goes behind them. *)
Theorem log_overruns AllocatePool ConOut GetTime prio ver host appname csc sfrid evtype args :
  Forall (fun s => zlen (safe_string s) < 2 ^ 63) [host; appname; csc; evtype] ->
  let header := log_header (log_time GetTime) prio ver host appname csc sfrid evtype in
  let log format := SBC_LogPrint AllocatePool ConOut GetTime prio ver host appname csc sfrid evtype
                      format args in
  (MAX_PRINT - 3 < zlen header -> forall format, log format = Undef OutOfBounds) /\
  (zlen header < MAX_PRINT - 3 ->
   forall s t, forallb literal s = true -> zlen header + zlen s = MAX_PRINT - 1 ->
     unknown_type t = true -> log (s ++ [ch "%"; t]) = Undef OutOfBounds).
Proof.
  intros Hstr header log. split.
  - intros Hh format. by apply long_header_overruns.
  - intros Hh s t Hs Hl Ht. by apply long_body_overruns.
Qed.

(** The call of the loaders, with a message of 15932 characters. *)
Lemma log_overruns_witness :
  SBC_LogPrint (fun n => Some (zeros n)) (Some (fun _ => EFI_SUCCESS))
    (EFI_SUCCESS, mkTime 2025 3 4 5 6 7 0) 187 2 (Some (txt "SBC")) (Some (txt "SSBL"))
    (Some (txt "CSC-01")) 23 (Some (txt "VERIFY")) (rep 15932 65 ++ [ch "%"; ch "q"]) []
  = Undef OutOfBounds.
Proof.
  refine (proj2 (log_overruns (fun n => Some (zeros n)) (Some (fun _ => EFI_SUCCESS))
    (EFI_SUCCESS, mkTime 2025 3 4 5 6 7 0) 187 2 (Some (txt "SBC")) (Some (txt "SSBL"))
    (Some (txt "CSC-01")) 23 (Some (txt "VERIFY")) [] _) _ (rep 15932 65) (ch "q") _ _ _).
  - repeat constructor; vm_compute; congruence.
  - vm_compute. congruence.
  - vm_compute. reflexivity.
  - vm_compute. reflexivity.
  - reflexivity.
Defined.

(** ** Other behaviour of the print library and the log *)

(** The fields of a line cannot be told apart: the blanks between them are gone. *)
Lemma log_line_ambiguous :
  let log prio ver := SBC_LogPrint (fun n => Some (zeros n)) (Some (fun _ => EFI_SUCCESS))
    (EFI_SUCCESS, mkTime 2025 3 4 5 6 7 0) prio ver None None None 23 None [] [] in
  log 187 2 = log 18 72.
Proof. by vm_compute. Qed.

(** [SBC_LogMrg] has no argument for a directive. *)
Lemma log_mrg_no_argument args : SBC_LogMrg (txt "%d") args = Undef BadArgument.
Proof. by vm_compute. Qed.

(** A format that ends in a per cent sign is read behind its end. *)
Lemma log_trailing_percent : _LogFmtVPrint (txt "100%") [] (zeros 20) 40 = Undef OutOfBounds.
Proof. by vm_compute. Qed.

(** The number of characters counted is not the number printed. *)
Lemma sprint_length_differs :
  SPrintLength (Some (txt "%2d")) [VaInt 12345] = Val 2 /\
  UnicodeVSPrint (Some (zeros 8)) 16 (Some (txt "%2d")) [VaInt 12345]
  = Val (5, Some (txt "12345" ++ [0; 0; 0])).
Proof. by vm_compute. Qed.

(** A directive that ends with the format prints its padding. *)
Lemma open_directive_pads :
  UnicodeVSPrint (Some (zeros 8)) 16 (Some (txt "%5")) [] = Val (5, Some (txt "     " ++ [0; 0; 0])).
Proof. by vm_compute. Qed.
