(* ===== verification/Report.v ===== *)
(** * Reports on the base answer (SBC_Log.h, SBC_AntiTampering.c, FSBL.c)

    The loaders print the base answer, a binary secret, with %s into the buffer
    [mrgmsg] and hand that buffer to the log as its format.  This file has the
    two calls as an effect of the machine: they change nothing, but they read the
    secret up to a terminator, and read arguments for the directives in it. *)
From stdpp Require Import base list strings.
From Stdlib Require Import ZArith Lia Ascii.
From S2P Require Import Prelude Uefi RamDisk Sim PrintLib PrintSpec Log.
#[local] Open Scope Z_scope.
#[local] Open Scope print_scope.

(** ** The services the log calls

    What a buffer of the pool holds ([None]: no memory), the console of the
    system table, and the answer of the clock. *)
Class LogSvc (W : Type) := {
  log_pool : W -> Z -> option (list Z);
  ConOut : W -> option (list Z -> EFI_STATUS);
  GetTime : W -> EFI_STATUS * TIME
}.

(** A console, and a pool that does not run out. *)
Class LogSvcOk (W : Type) `{!LogSvc W} : Prop := {
  log_pool_ok : forall w n, exists b, log_pool w n = Some b /\ n <= zlen b;
  con_out_ok : forall w, exists o, ConOut w = Some o
}.

(** SBC_LOG_CMN_PRIO_ERR of SBC_Log.h. *)
Definition SBC_LOG_CMN_PRIO_ERR : Z := 187.

(** The characters of a string in a buffer of bytes; [None]: the buffer ends
    before a terminator. *)
Fixpoint char16_string (b : bytes) : option (list Z) :=
  match b with
  | x :: y :: b =>
      let c := u16 (x + 256 * y) in
      if c =? 0 then Some [] else s ← char16_string b; Some (c :: s)
  | _ => None
  end.

(** The argument for %s that a pointer to a buffer is. *)
Definition string_arg (p : option bytes) : option va_arg :=
  match p with
  | None => Some (VaInt 0)
  | Some b => s ← char16_string b; Some (VaStr16 1 s)
  end.

Section Report.
Context {W : Type} `{!LogSvc W}.

(** [sbc_err_sysprn (prio, ver, host, appname, csc, sfrid, evtype, fmt, ..)]. *)
Definition sbc_err_sysprn (prio ver : Z) (host appname csc : option (list Z)) (sfrid : Z)
    (evtype : option (list Z)) (fmt : list Z) (args : VA_LIST) : M W unit := fun w =>
  match SBC_LogPrint (log_pool w) (ConOut w) (GetTime w) prio ver host appname csc sfrid evtype
          fmt args with
  | Val _ => (Ret tt, w)
  | _ => (Fault, w)
  end.

(** ZeroMem of [mrgmsg], [UnicodeSPrint (mrgmsg, sizeof mrgmsg, fmt, ..)] of the
    pointers [ps], and the log call with [mrgmsg] in the place of the format. *)
Definition log_mrgmsg (fmt : list Z) (ps : list (option bytes)) : M W unit :=
  let! args := access (mapM string_arg ps) in
  match UnicodeSPrint (Some (zeros 8192)) 16384 (Some fmt) args with
  | Val (_, b) =>
      sbc_err_sysprn SBC_LOG_CMN_PRIO_ERR 2 (Some (txt "SBC")) (Some (txt "FSBL"))
        (Some (txt "Weapon System")) 8 (Some (txt "Determine Firmare Tampering "))
        (cstring (default [] b)) []
  | _ => fault
  end.

(** The log has no state of the machine. *)
Lemma log_mrgmsg_pure fmt ps w o w' : log_mrgmsg fmt ps w = (o, w') -> w' = w.
Proof.
  unfold log_mrgmsg, bind, access. destruct (mapM string_arg ps); [|by intros [= _ <-]]. cbn.
  destruct (UnicodeSPrint _ _ _ _) as [[n b]| |]; [|by intros [= _ <-]..].
  unfold sbc_err_sysprn. destruct (SBC_LogPrint _ _ _ _ _ _ _ _ _ _ _ _); by intros [= _ <-].
Qed.

(** A buffer without a terminator is read behind its end. *)
Lemma log_mrgmsg_unterminated fmt ps b w :
  Some b ∈ ps -> char16_string b = None -> log_mrgmsg fmt ps w = (Fault, w).
Proof.
  intros Hin Hb. unfold log_mrgmsg. apply list_elem_of_split in Hin as (l1 & l2 & ->).
  assert (HM : mapM string_arg (l1 ++ Some b :: l2) = None); [|by rewrite HM].
  induction l1 as [|p l1 IH]; cbn [app mapM].
  - cbn [string_arg]. by rewrite Hb.
  - destruct (string_arg p); [|done]. cbn [mbind option_bind]. by rewrite IH.
Qed.
End Report.

(** ** Strings that can be printed *)
Lemma char16_string_chars b s :
  char16_string b = Some s -> Forall (fun c => 0 < c < 2 ^ 16) s /\ 2 * zlen s + 2 <= zlen b.
Proof.
  enough (HH : forall n b s, (length b <= n)%nat -> char16_string b = Some s ->
    Forall (fun c => 0 < c < 2 ^ 16) s /\ 2 * zlen s + 2 <= zlen b) by (by eapply HH).
  clear b s. induction n as [|n IH]; intros b s Hn Hs.
  { destruct b; [done|cbn in Hn; lia]. }
  destruct b as [|x [|y b]]; [done..|]. cbn [char16_string length] in *.
  pose proof (u16_range (x + 256 * y)) as Hr.
  destruct (u16 (x + 256 * y) =? 0) eqn:E; bool_hyp.
  { injection Hs as <-. split; [constructor|cbn; lia]. }
  destruct (char16_string b) as [t|] eqn:Et; [|done]. cbn in Hs. injection Hs as <-.
  destruct (IH b t ltac:(lia) Et) as [Hf Hl]. split; [constructor; [lia|done]|cbn [length]; lia].
Qed.

(** Zeros behind the characters end the string. *)
Lemma char16_string_zeros p k : (3 <= k)%nat -> exists s, char16_string (p ++ replicate k 0) = Some s.
Proof.
  intros Hk. enough (HH : forall n p, (length p <= n)%nat -> exists s, char16_string (p ++ replicate k 0) = Some s)
    by (by eapply HH).
  destruct k as [|[|[|k]]]; try lia. clear p. induction n as [|n IH]; intros p Hn.
  { destruct p; [by eexists|cbn in Hn; lia]. }
  destruct p as [|x [|y p]]; [by eexists|..]; cbn [app replicate char16_string length] in *.
  - destruct (u16 _ =? 0); by eexists.
  - destruct (u16 _ =? 0); [by eexists|]. destruct (IH p ltac:(lia)) as [s Hs].
    rewrite Hs. by eexists.
Qed.

(** A string the log can take as a format. *)
Definition loggable (s : list Z) : Prop :=
  Forall (fun c => 0 < c < 2 ^ 16) s /\ forallb literal s = true.

Lemma loggable_app s t : loggable s -> loggable t -> loggable (s ++ t).
Proof.
  intros [H1 H2] [H3 H4]. split; [by apply Forall_app|]. rewrite forallb_app. by rewrite H2, H4.
Qed.

Lemma loggable_dec s : forallb (fun c => (0 <? c) && (c <? 2 ^ 16) && literal c) s = true -> loggable s.
Proof.
  induction s as [|c s IH]; intros Hs; [by split|]. cbn [forallb] in Hs. bool_hyp.
  destruct IH as [HF HL]; [done|]. split; [constructor; [lia|done]|cbn [forallb]; by apply andb_true_intro].
Qed.

Lemma loggable_text s : loggable s -> u16 <$> cstring s = s /\ cstring s = s.
Proof.
  intros [HF _]. induction HF as [|c s Hc HF [IH1 IH2]]; [done|]. cbn [cstring].
  rewrite (proj2 (Z.eqb_neq c 0)) by lia. rewrite fmap_cons, IH1, IH2, u16_small by lia. done.
Qed.

Lemma loggable_body s :
  loggable s -> forallb body_ok (BLit <$> s) = true /\ body_format (BLit <$> s) = s /\
    body_text (BLit <$> s) [] = Some (s, []).
Proof.
  intros [HF HL]. induction HF as [|c s Hc HF IH]; [done|]. cbn [forallb] in HL.
  apply andb_prop in HL as [Hc' HL]. destruct (IH HL) as (H1 & H2 & H3). rewrite fmap_cons.
  unfold literal in Hc'. split; [|split].
  - cbn [forallb body_ok]. by rewrite H1, Hc', (proj2 (Z.ltb_lt 0 c)), (proj2 (Z.ltb_lt c _)) by lia.
  - rewrite <-H2 at 2. done.
  - cbn [body_text body_text1 mbind option_bind]. by rewrite H3.
Qed.

(** ** The line is printed *)
Lemma num_length w z : 0 <= w <= 4 -> zlen (num w z) <= 25.
Proof.
  intros Hw. unfold num, field. pose proof (s32_range z).
  pose proof (numeral_length 10 (Z.abs (s32 z)) ltac:(lia) ltac:(lia)).
  rewrite !length_app. unfold rep. rewrite length_replicate.
  destruct (s32 z <? 0); cbn [flag length]; lia.
Qed.

Lemma report_header_length t :
  zlen (log_header t SBC_LOG_CMN_PRIO_ERR 2 (Some (txt "SBC")) (Some (txt "FSBL"))
    (Some (txt "Weapon System")) 8 (Some (txt "Determine Firmare Tampering "))) <= 400.
Proof.
  unfold log_header. cbv zeta. rewrite !length_app.
  pose proof (num_length 0 SBC_LOG_CMN_PRIO_ERR). pose proof (num_length 0 2).
  pose proof (num_length 4 (Year t)). pose proof (num_length 2 (Month t)).
  pose proof (num_length 2 (Day t)). pose proof (num_length 2 (Hour t)).
  pose proof (num_length 2 (Minute t)). pose proof (num_length 2 (Second t)).
  pose proof (num_length 3 8).
  repeat match goal with |- context [length (txt ?x)] =>
    let n := eval vm_compute in (length (txt x)) in change (length (txt x)) with n end.
  repeat match goal with |- context [length (u16 <$> ?x)] =>
    let n := eval vm_compute in (length (u16 <$> x)) in change (length (u16 <$> x)) with n end.
  lia.
Qed.

Section Printed.
Context {W : Type} `{!LogSvc W, !LogSvcOk W}.

(** The log takes a format without directives. *)
Lemma sysprn_ok s w :
  loggable s -> zlen s <= 7700 ->
  sbc_err_sysprn SBC_LOG_CMN_PRIO_ERR 2 (Some (txt "SBC")) (Some (txt "FSBL"))
    (Some (txt "Weapon System")) 8 (Some (txt "Determine Firmare Tampering ")) s [] w = (Ret tt, w).
Proof.
  intros Hs Hl. destruct (loggable_body s Hs) as (Hok & Hf & Ht). unfold sbc_err_sysprn.
  destruct (log_pool_ok w ((MAX_PRINT + 1) * 2)) as (b & Hb & Hz), (con_out_ok w) as (o & Ho).
  rewrite Ho. pose proof (report_header_length (log_time (GetTime w))) as HH.
  pose proof (SBC_LogPrint_run (log_pool w) o b Hb ltac:(unfold MAX_PRINT in *; lia) (GetTime w)
    SBC_LOG_CMN_PRIO_ERR 2 (Some (txt "SBC")) (Some (txt "FSBL")) (Some (txt "Weapon System")) 8
    (Some (txt "Determine Firmare Tampering ")) (BLit <$> s) [] s []) as HR.
  rewrite Hf in HR. rewrite HR; [done| |done|done|lia].
  repeat constructor; by vm_compute.
Qed.

(** A report on the strings [ps] of a format of the print library. *)
Lemma log_mrgmsg_ok l ps args text w :
  mapM string_arg ps = Some args -> format_ok l = true -> zlen (format_of l) <= 1000 ->
  render l args = Some (text, []) -> loggable text -> zlen text <= 7700 ->
  log_mrgmsg (format_of l) ps w = (Ret tt, w).
Proof.
  intros Hm Hok Hf Hr Ht Hl. unfold log_mrgmsg. rewrite Hm. mrun.
  assert (Hz : zlen (zeros 8192) = 8192) by (by apply length_zeros). set (zs := zeros 8192) in *.
  pose proof (UnicodeVSPrint_items l args text [] zs 16384 Hok Hr) as HU. cbv zeta in HU.
  change (16384 / 2) with 8192 in HU. unfold UnicodeSPrint.
  rewrite HU; [|unfold RSIZE_MAX; lia|lia|unfold RSIZE_MAX; lia|lia]. clear HU.
  rewrite firstn_all2 by lia. cbn [default]. unfold id. cbn [app].
  destruct Ht as [HF HL]. rewrite cstring_app by (eapply Forall_impl; [exact HF|]; cbn; lia).
  by apply sysprn_ok.
Qed.

(** The formats of the loaders. *)
Definition answer_fail_format : list Z := txt "Base Answer validate fail(%s:%s) " ++ [LF].
Definition answer_ok_format : list Z := txt "Base Answer validate Success (%s:%s) " ++ [LF].
Definition fsbl_ok_format : list Z := txt "FSBL Verify Success %s" ++ [LF].

Lemma render_str s l args text rest :
  loggable s -> zlen s < 2 ^ 63 -> render l args = Some (text, rest) ->
  render (Str false 0 true :: l) (VaStr16 1 s :: args) = Some (s ++ text, rest).
Proof.
  intros Hs Hl Hr. eapply render_cons; [|exact Hr]. destruct (loggable_text s Hs) as [H1 H2].
  pose proof (item_str (Some s) 1 args Hl) as HI. change (safe_string (Some s)) with s in HI.
  by rewrite HI, H1.
Qed.

Lemma log_two_strings before s1 s2 b1 b2 w :
  loggable before -> zlen before <= 100 ->
  format_ok ((Lit <$> before) ++ [Str false 0 true; Lit (ch ":"); Str false 0 true; Lit (ch ")");
    Lit (ch " "); Newline]) = true ->
  char16_string b1 = Some s1 -> char16_string b2 = Some s2 ->
  forallb literal s1 = true -> forallb literal s2 = true -> zlen s1 + zlen s2 <= 7000 ->
  log_mrgmsg (before ++ txt "%s:%s) " ++ [LF]) [Some b1; Some b2] w = (Ret tt, w).
Proof.
  intros Hb Hbl Hok H1 H2 L1 L2 Hl.
  destruct (char16_string_chars _ _ H1) as [F1 _], (char16_string_chars _ _ H2) as [F2 _].
  assert (G1 : loggable s1) by (by split). assert (G2 : loggable s2) by (by split).
  set (l := (Lit <$> before) ++ _) in Hok.
  assert (HF : format_of l = before ++ txt "%s:%s) " ++ [LF]).
  { unfold l, format_of. rewrite bind_app. f_equal. clear. induction before as [|c s IH]; [done|].
    rewrite fmap_cons. cbn [mbind list_bind]. cbn [item_format app]. f_equal. exact IH. }
  rewrite <-HF. eapply (log_mrgmsg_ok l _ [VaStr16 1 s1; VaStr16 1 s2]
    (before ++ s1 ++ txt ":" ++ s2 ++ txt ") " ++ [CR; LF])).
  - cbn. by rewrite H1, H2.
  - done.
  - rewrite HF, !length_app. change (length (txt "%s:%s) ")) with 7%nat. cbn [length]. lia.
  - unfold l. apply render_lits. apply render_str; [done|lia|].
    eapply (render_cons (Lit (ch ":")) _ _ [ch ":"]); [done|]. by apply render_str; [|lia|].
  - repeat apply loggable_app; try done; by apply loggable_dec.
  - rewrite !length_app. change (length (txt ":")) with 1%nat. change (length (txt ") ")) with 2%nat.
    cbn [length]. lia.
Qed.

Lemma log_answer_fail s1 s2 b1 b2 w :
  char16_string b1 = Some s1 -> char16_string b2 = Some s2 ->
  forallb literal s1 = true -> forallb literal s2 = true -> zlen s1 + zlen s2 <= 7000 ->
  log_mrgmsg answer_fail_format [Some b1; Some b2] w = (Ret tt, w) /\
  log_mrgmsg answer_ok_format [Some b1; Some b2] w = (Ret tt, w).
Proof.
  intros. split.
  - apply (log_two_strings (txt "Base Answer validate fail(") s1 s2); try done;
      by apply loggable_dec.
  - apply (log_two_strings (txt "Base Answer validate Success (") s1 s2); try done;
      by apply loggable_dec.
Qed.

Lemma log_fsbl_ok s b w :
  char16_string b = Some s -> forallb literal s = true -> zlen s <= 7000 ->
  log_mrgmsg fsbl_ok_format [Some b] w = (Ret tt, w).
Proof.
  intros H1 L1 Hl. destruct (char16_string_chars _ _ H1) as [F1 _].
  set (l := (Lit <$> txt "FSBL Verify Success ") ++ [Str false 0 true; Newline]).
  change fsbl_ok_format with (format_of l).
  eapply (log_mrgmsg_ok l _ [VaStr16 1 s] (txt "FSBL Verify Success " ++ s ++ [CR; LF])).
  - cbn. by rewrite H1.
  - done.
  - by vm_compute.
  - unfold l. apply render_lits. apply render_str; [by split|lia|done].
  - repeat apply loggable_app; try done; by apply loggable_dec.
  - rewrite !length_app. change (length (txt "FSBL Verify Success ")) with 20%nat. cbn [length]. lia.
Qed.
End Printed.

(** ** The concrete machine *)
#[export] Instance machine_log : LogSvc machine := {|
  log_pool := fun _ n => Some (zeros n);
  ConOut := fun _ => Some (fun _ => EFI_SUCCESS);
  GetTime := fun _ => (EFI_SUCCESS, mkTime 2025 3 4 5 6 7 0)
|}.

#[export] Instance machine_log_ok : LogSvcOk machine.
Proof.
  split; [|by eexists]. intros w n. exists (zeros n). split; [done|]. unfold zeros.
  rewrite length_replicate. lia.
Qed.

(** A secret that contains a directive makes the log read an argument it was not
    given. *)
Lemma report_directive_faults (w : machine) :
  log_mrgmsg fsbl_ok_format [Some [37; 0; 100; 0; 0; 0]] w = (Fault, w).
Proof. by vm_compute. Qed.
