(* ===== verification/BaseAnswer.v ===== *)
(** * The base answer (SBC_AntiTampering.c)

    The base answer is a short secret that the loaders keep on the raw
    partition, encrypted with AES-GCM under a key derived from the platform:
    storing it, reading it back, encrypting and storing, and checking it.  The
    check prints both answers into the log (Report.v). *)
From stdpp Require Import base list.
From Stdlib Require Import ZArith Lia.
From S2P Require Import Prelude Uefi RamDisk Sim RawPrt Crypto Report.
#[local] Open Scope Z_scope.

Definition BASE_ANS_MAX_LEN : Z := 256.
Definition BASE_ANS_KEY_STR : Z := 32.
Definition BASE_ANS_IV_KEY_STR : Z := 12.
Definition BASE_ANS_TAG_LEN : Z := 16.
Definition BASE_ANS_STREAM_LEN : Z := 512.

(** [base_ansid_t]. *)
Record base_ansid_t := mkAns {
  ans_msglen : Z;
  ans_encmsg : bytes;
  ans_key : bytes;
  ans_iv : bytes;
  ans_tag : bytes
}.

Definition zero_ansid : base_ansid_t := mkAns 0 (zeros 256) (zeros 32) (zeros 12) (zeros 16).

(** The first block of the system settings. *)
Definition settings_lba : Z := Z.shiftr SYS_CONF_START_OFS SBC_RAWPRT_DFLT_SHIFT.

(** The record [_baseanswer_store] writes at [SYS_CONF_RES_OFS]: length,
    ciphertext, IV, tag and sixteen reserved bytes. *)
Definition put_record (loadbuf : bytes) (h : base_ansid_t) : option bytes :=
  match rd (ans_encmsg h) 0 (ans_msglen h) with
  | None => None
  | Some msg =>
      let o1 := SYS_CONF_RES_OFS in
      let o2 := o1 + 4 in
      let o3 := o2 + ans_msglen h in
      let o4 := o3 + BASE_ANS_IV_KEY_STR in
      let o5 := o4 + BASE_ANS_TAG_LEN in
      match wr loadbuf o1 (le_bytes 4 (ans_msglen h)) with None => None | Some b =>
      match wr b o2 msg with None => None | Some b =>
      match wr b o3 (ans_iv h) with None => None | Some b =>
      match wr b o4 (ans_tag h) with None => None | Some b =>
      wr b o5 (zeros 16) end end end end
  end.

(** The record [_baseanswer_extract_from_disk] copies out of the settings into
    the fixed-size fields of [p]; a copy that leaves a field is undefined. *)
Definition get_record (loadbuf : bytes) (p : base_ansid_t) : option (SBCStatus * base_ansid_t) :=
  match rd loadbuf SYS_CONF_RES_OFS 4 with
  | None => None
  | Some l =>
      let n := le_val l in
      let p := mkAns n (ans_encmsg p) (ans_key p) (ans_iv p) (ans_tag p) in
      if negb (0 <? n) then Some (SBCBSANSWNOTFND, p)
      else
      let o2 := SYS_CONF_RES_OFS + 4 in
      let o3 := o2 + n in
      let o4 := o3 + BASE_ANS_IV_KEY_STR in
      match rd loadbuf o2 n, rd loadbuf o3 BASE_ANS_IV_KEY_STR, rd loadbuf o4 BASE_ANS_TAG_LEN with
      | Some m, Some iv, Some tag =>
          match wr (ans_encmsg p) 0 m, wr (ans_iv p) 0 iv, wr (ans_tag p) 0 tag with
          | Some m, Some iv, Some tag => Some (SBCOK, mkAns n m (ans_key p) iv tag)
          | _, _, _ => None
          end
      | _, _, _ => None
      end
  end.

Section BaseAnswer.
Context {W : Type} `{!Pool W, !BlockIo W, !Rng W, !OpenSSL, !LogSvc W}.

(** [_baseanswer_store (blkio, p)].  On a null argument the code goes to its end,
    where it frees the uninitialised [loadbuf]. *)
Definition _baseanswer_store (blkio : option Z) (p : option base_ansid_t) : M W SBCStatus :=
  match p, blkio with
  | None, _ => fault
  | _, None => fault
  | Some h, Some hnd =>
      fun w =>
      let ldlen := ALIGN_VALUE32 SYS_SETTING_STORAGE_LEN (BlockSize hnd w) in
      (let! a := AllocatePool ldlen in
       validate a else SBCNULLP in
       let! (r, loadbuf) := SBC_RawPrtReadBlock blkio (Some (zeros ldlen)) (Some ldlen)
                              settings_lba in
       if negb (sbc_is r SBCOK) then ret r
       else
       let! loadbuf := access loadbuf in
       let! loadbuf := access (put_record loadbuf h) in
       SBC_RawPrtBlockWrite blkio (Some loadbuf) ldlen settings_lba) w
  end.

(** [_baseanswer_extract_from_disk (blkio, p)]: status and [*p]. *)
Definition _baseanswer_extract_from_disk (blkio : option Z) (p : base_ansid_t)
  : M W (SBCStatus * base_ansid_t) :=
  let! hnd := access blkio in
  fun w =>
  let ldlen := ALIGN_VALUE32 SYS_SETTING_STORAGE_LEN (BlockSize hnd w) in
  (let! a := AllocatePool ldlen in
   validate a else (SBCNULLP, p) in
   let! (r, loadbuf) := SBC_RawPrtReadBlock blkio (Some (zeros ldlen)) (Some ldlen)
                          settings_lba in
   if negb (sbc_is r SBCOK) then ret (r, p)
   else
   let! loadbuf := access loadbuf in
   access (get_record loadbuf p)) w.

(** [SBC_BaseAnswerEncryptStore (blkhnd, msg, msgl, key, keyl)]; [msg] is
    released before the function returns. *)
Definition SBC_BaseAnswerEncryptStore (blkhnd : option Z) (msg : option bytes) (msgl : Z)
    (key : option bytes) (keyl : Z) : M W SBCStatus :=
  let! k := access (rdp key BASE_ANS_KEY_STR) in
  let! iv := RandomBytes BASE_ANS_IV_KEY_STR in
  let ctx := mkGcm (mkTLV BASE_ANS_KEY_STR (Some k)) (mkTLV BASE_ANS_IV_KEY_STR (Some iv))
                   (mkTLV 0 None) (mkTLV msgl msg)
                   (mkTLV BASE_ANS_TAG_LEN (Some (zeros 16)))
                   (mkTLV BASE_ANS_MAX_LEN (Some (zeros 256))) in
  let! (r, aesctx) := SBC_AESEncrypt (gcm_context ctx) in
  if negb (sbc_is r SBCOK) then ret r
  else
  let! g := access (aes_gcm aesctx) in
  let! tag := access (tlv_value (gcm_tag g)) in
  let! out := access (tlv_value (gcm_out g)) in
  let ansid := mkAns (u32 (tlv_length (gcm_out g))) out k iv tag in
  _baseanswer_store blkhnd (Some ansid).

(** [SBC_BaseAnswerValidate (blkhnd, answer, answerl, key, keylen)].  After the
    comparison, of the first [answerl] bytes, both buffers are printed as strings. *)
Definition SBC_BaseAnswerValidate (blkhnd : option Z) (answer : option bytes) (answerl : Z)
    (key : option bytes) (keylen : Z) : M W SBCStatus :=
  match answer with
  | None => ret SBCNULLP
  | Some answer =>
      let! (r, ansid) := _baseanswer_extract_from_disk blkhnd zero_ansid in
      validate sbc_is r SBCOK else r in
      let ctx := mkGcm (mkTLV BASE_ANS_KEY_STR key)
                       (mkTLV BASE_ANS_IV_KEY_STR (Some (ans_iv ansid)))
                       (mkTLV 0 None) (mkTLV (ans_msglen ansid) (Some (ans_encmsg ansid)))
                       (mkTLV BASE_ANS_TAG_LEN (Some (ans_tag ansid)))
                       (mkTLV BASE_ANS_STREAM_LEN (Some (zeros 512))) in
      let! (r, aesctx) := SBC_AESGcmDecrypt (gcm_context ctx) in
      if negb (sbc_is r SBCOK) then ret SBCFAIL
      else
      let! g := access (aes_gcm aesctx) in
      let! decbuf := access (tlv_value (gcm_out g)) in
      let! d := access (rd decbuf 0 answerl) in
      let! a := access (rd answer 0 answerl) in
      if negb (bool_decide (d = a)) then
        let! _ := log_mrgmsg answer_fail_format [Some answer; Some decbuf] in ret SBCFAIL
      else
        let! _ := log_mrgmsg answer_ok_format [Some answer; Some decbuf] in ret SBCOK
  end.
End BaseAnswer.

(** ** The record on the settings area *)
Section Record.
Record ans_wf (h : base_ansid_t) : Prop := {
  aw_len : 0 <= ans_msglen h <= 256;
  aw_msg : zlen (ans_encmsg h) = 256;
  aw_iv : zlen (ans_iv h) = 12;
  aw_tag : zlen (ans_tag h) = 16
}.

(** The record as one string of bytes. *)
Definition record_bytes (h : base_ansid_t) : bytes :=
  le_bytes 4 (ans_msglen h) ++ take (Z.to_nat (ans_msglen h)) (ans_encmsg h) ++
  ans_iv h ++ ans_tag h ++ zeros 16.

Lemma length_record_bytes h : ans_wf h -> zlen (record_bytes h) = 48 + ans_msglen h.
Proof.
  intros [? Hm Hi Ht]. unfold record_bytes.
  rewrite !length_app, length_le_bytes, length_take. change (length (zeros 16)) with 16%nat. lia.
Qed.

Lemma put_record_wr b h :
  ans_wf h -> 112 + ans_msglen h <= zlen b ->
  put_record b h = wr b SYS_CONF_RES_OFS (record_bytes h).
Proof.
  intros Hw Hb. pose proof Hw as [Hn Hm Hi Ht]. unfold put_record, record_bytes.
  unfold BASE_ANS_IV_KEY_STR, BASE_ANS_TAG_LEN, SYS_CONF_RES_OFS in *.
  rewrite rd_some by lia. change (Z.to_nat 0) with 0%nat. rewrite drop_0.
  set (m := take (Z.to_nat (ans_msglen h)) (ans_encmsg h)).
  assert (Hml : zlen m = ans_msglen h) by (subst m; rewrite length_take; lia).
  assert (H4 : zlen (le_bytes 4 (ans_msglen h)) = 4) by done.
  assert (Hz : zlen (zeros 16) = 16) by done.
  set (l4 := le_bytes 4 (ans_msglen h)) in *. set (z16 := zeros 16) in *.
  assert (Hstep : forall off d1 d2 k, zlen d1 = k -> 0 <= off -> off + k + zlen d2 <= zlen b ->
    forall b1, wr b off d1 = Some b1 -> wr b1 (off + k) d2 = wr b off (d1 ++ d2)).
  { intros off d1 d2 k <- ?? b1 Hb1. rewrite <-wr_adjacent by lia. by rewrite Hb1. }
  destruct (wr_ok b 64 l4) as (b1 & E1 & _); [lia..|]. rewrite E1.
  rewrite (Hstep 64 l4 m 4) by (try done; lia).
  destruct (wr_ok b 64 (l4 ++ m)) as (b2 & E2 & _); [lia|rewrite length_app; lia|]. rewrite E2.
  replace (64 + 4 + ans_msglen h) with (64 + (4 + ans_msglen h)) by lia.
  rewrite (Hstep 64 (l4 ++ m)) by (try done; rewrite ?length_app; lia).
  destruct (wr_ok b 64 ((l4 ++ m) ++ ans_iv h)) as (b3 & E3 & _);
    [lia|rewrite !length_app; lia|]. rewrite E3.
  replace (64 + (4 + ans_msglen h) + 12) with (64 + (16 + ans_msglen h)) by lia.
  rewrite (Hstep 64 ((l4 ++ m) ++ ans_iv h)) by (try done; rewrite ?length_app; lia).
  destruct (wr_ok b 64 (((l4 ++ m) ++ ans_iv h) ++ ans_tag h)) as (b4 & E4 & _);
    [lia|rewrite !length_app; lia|]. rewrite E4.
  replace (64 + (16 + ans_msglen h) + 16) with (64 + (32 + ans_msglen h)) by lia.
  rewrite (Hstep 64 (((l4 ++ m) ++ ans_iv h) ++ ans_tag h)) by (try done; rewrite ?length_app; lia).
  by rewrite <-!app_assoc.
Qed.

End Record.

(** ** Reading the record back *)
Section RecordLaws.
Lemma get_put_record b a b' p :
  ans_wf a -> 0 < ans_msglen a -> 112 + ans_msglen a <= zlen b ->
  zlen (ans_encmsg p) = 256 -> zlen (ans_iv p) = 12 -> zlen (ans_tag p) = 16 ->
  put_record b a = Some b' ->
  get_record b' p = Some (SBCOK,
    mkAns (ans_msglen a)
          (take (Z.to_nat (ans_msglen a)) (ans_encmsg a) ++ drop (Z.to_nat (ans_msglen a)) (ans_encmsg p))
          (ans_key p) (ans_iv a) (ans_tag a)).
Proof.
  intros Hw Hpos Hb Hpm Hpi Hpt HP. rewrite put_record_wr in HP by done.
  destruct Hw as [Hn Hm Hi Ht]. unfold record_bytes in HP. set (n := ans_msglen a) in *.
  set (m := take (Z.to_nat n) (ans_encmsg a)) in *.
  assert (Hml : zlen m = n) by (subst m; rewrite length_take; lia).
  pose proof (rd_wr_part _ _ [] _ _ _ HP) as R1.
  pose proof (rd_wr_part _ _ _ _ _ _ HP) as R2.
  rewrite app_assoc in HP. pose proof (rd_wr_part _ _ _ _ _ _ HP) as R3.
  rewrite app_assoc in HP. pose proof (rd_wr_part _ _ _ _ _ _ HP) as R4. clear HP.
  rewrite ?length_app, ?length_le_bytes in *.
  unfold get_record, BASE_ANS_IV_KEY_STR, BASE_ANS_TAG_LEN, SYS_CONF_RES_OFS in *.
  replace (rd b' 64 4) with (Some (le_bytes 4 n)) by (rewrite <-R1; f_equal; done).
  rewrite le_val_bytes_small by (cbn; lia). guard_false.
  replace (rd b' (64 + 4) n) with (Some m) by (rewrite <-R2; f_equal; lia).
  replace (rd b' (64 + 4 + n) 12) with (Some (ans_iv a)) by (rewrite <-R3; f_equal; lia).
  replace (rd b' (64 + 4 + n + 12) 16) with (Some (ans_tag a)) by (rewrite <-R4; f_equal; lia).
  cbn [ans_encmsg ans_iv ans_tag ans_key].
  rewrite !wr_some by lia. change (Z.to_nat 0) with 0%nat. cbn [take app Nat.add].
  rewrite (drop_ge (ans_iv p)), (drop_ge (ans_tag p)), !app_nil_r by lia.
  by replace (length m) with (Z.to_nat n) by lia.
Qed.

(** (extraction overflow) The length field of the stored record is taken
    from the disk without a bound: a record whose length exceeds the 256 bytes of
    the destination makes the extraction write outside it, and every length
    between 1 and 256 is extracted. *)
Theorem extract_length_unchecked b p l :
  zlen b = 16896 -> zlen (ans_encmsg p) = 256 -> zlen (ans_iv p) = 12 -> zlen (ans_tag p) = 16 ->
  rd b SYS_CONF_RES_OFS 4 = Some l ->
  (256 < le_val l -> get_record b p = None) /\
  (1 <= le_val l <= 256 -> exists p', get_record b p = Some (SBCOK, p')) /\
  (le_val l <= 0 -> exists p', get_record b p = Some (SBCBSANSWNOTFND, p')).
Proof.
  intros Hb Hm Hi Ht Hl. unfold get_record, BASE_ANS_IV_KEY_STR, BASE_ANS_TAG_LEN. rewrite Hl.
  cbn [ans_encmsg ans_iv ans_tag]. unfold SYS_CONF_RES_OFS in *. set (n := le_val l).
  split; [|split]; intros Hn.
  - guard_false. destruct (rd b (64 + 4) n) as [m|] eqn:E1; [|done].
    destruct (rd b _ 12); [|done]. destruct (rd b _ 16); [|done].
    apply rd_length in E1. by rewrite wr_none by lia.
  - guard_false. rewrite !rd_some by lia.
    rewrite !wr_some by (rewrite ?length_take, ?length_drop; lia). eauto.
  - guard_true. eauto.
Qed.
End RecordLaws.

(** ** The settings area of a device *)
Section Settings.
Context {W : Type} `{!Pool W, !PoolOk W, !BlockIo W, !BlockIoLaws W}.

Definition settings_len (h : Z) (w : W) : Z :=
  ALIGN_VALUE32 SYS_SETTING_STORAGE_LEN (BlockSize h w).
Definition settings (h : Z) (w : W) : bytes :=
  window (disk h w) (settings_lba * BlockSize h w) (settings_len h w).

(** The device has power-of-two blocks and serves the settings area. *)
Definition settings_dev (h : Z) (w : W) : Prop :=
  (exists k, 0 <= k <= 16 /\ BlockSize h w = 2 ^ k) /\
  readable h settings_lba (settings_len h w) w.

Lemma settings_len_spec h w :
  settings_dev h w ->
  blk_req settings_lba (settings_len h w) /\ SYS_SETTING_STORAGE_LEN <= settings_len h w /\
  zlen (settings h w) = settings_len h w.
Proof.
  intros [(k & Hk & Hb) _]. unfold settings, settings_len. rewrite Hb.
  destruct (align_value_spec SYS_SETTING_STORAGE_LEN k) as [_ Hn];
    [cbv; split; congruence|lia|].
  assert (2 ^ k <= 2 ^ 16) by (apply Z.pow_le_mono_r; lia).
  change SYS_SETTING_STORAGE_LEN with 16512 in *.
  split; [split; [cbv; split; congruence|lia]|]. split; [lia|]. apply zlen_window. lia.
Qed.

Lemma settings_read h w :
  settings_dev h w ->
  SBC_RawPrtReadBlock (Some h) (Some (zeros (settings_len h w))) (Some (settings_len h w))
    settings_lba w = (Ret (SBCOK, Some (settings h w)), w).
Proof.
  intros Hd. destruct (settings_len_spec h w Hd) as (Hr & Hn & _).
  change SYS_SETTING_STORAGE_LEN with 16512 in Hn.
  apply RawPrtReadBlock_ok; [done|lia|apply length_zeros; lia|apply Hd].
Qed.

Lemma extract_run h p w :
  settings_dev h w ->
  _baseanswer_extract_from_disk (Some h) p w
  = match get_record (settings h w) p with Some r => (Ret r, w) | None => (Fault, w) end.
Proof.
  intros Hd. unfold _baseanswer_extract_from_disk. mrun. fold (settings_len h w).
  pose proof (alloc_ok (settings_len h w) w) as Ha. pose proof (settings_read h w Hd) as HR.
  mrun. change (negb (sbc_is SBCOK SBCOK)) with false. cbv iota. mrun.
  by destruct (get_record (settings h w) p).
Qed.

Lemma store_run h a w :
  settings_dev h w -> ans_wf a ->
  exists b', wr (settings h w) SYS_CONF_RES_OFS (record_bytes a) = Some b' /\
    put_record (settings h w) a = Some b' /\ zlen b' = settings_len h w /\
    _baseanswer_store (Some h) (Some a) w
    = SBC_RawPrtBlockWrite (Some h) (Some b') (settings_len h w) settings_lba w.
Proof.
  intros Hd Ha. destruct (settings_len_spec h w Hd) as (_ & Hn & Hl).
  change SYS_SETTING_STORAGE_LEN with 16512 in Hn. pose proof (aw_len _ Ha).
  destruct (wr_ok (settings h w) SYS_CONF_RES_OFS (record_bytes a)) as (b' & Hb & Hbl).
  { cbv; congruence. } { rewrite length_record_bytes by done. unfold SYS_CONF_RES_OFS. lia. }
  exists b'. split; [done|]. rewrite put_record_wr by (try done; lia).
  split; [done|]. split; [lia|].
  unfold _baseanswer_store. fold (settings_len h w).
  pose proof (alloc_ok (settings_len h w) w) as HA. pose proof (settings_read h w Hd) as HR.
  mrun. change (negb (sbc_is SBCOK SBCOK)) with false. cbv iota. mrun.
  rewrite put_record_wr by (try done; lia). rewrite Hb. by mrun.
Qed.

(** A store that reports [SBCOK] replaced the record and nothing else. *)
Lemma store_ok h a w w' :
  settings_dev h w -> ans_wf a ->
  _baseanswer_store (Some h) (Some a) w = (Ret SBCOK, w') ->
  settings_dev h w' /\ BlockSize h w' = BlockSize h w /\
  wr (settings h w) SYS_CONF_RES_OFS (record_bytes a) = Some (settings h w').
Proof.
  intros Hd Ha HS. destruct (store_run h a w Hd Ha) as (b' & Hb & _ & Hbl & HE).
  rewrite HE in HS. destruct (settings_len_spec h w Hd) as (Hr & Hn & Hl).
  change SYS_SETTING_STORAGE_LEN with 16512 in Hn.
  destruct (RawPrtBlockWrite_inv _ _ _ _ _ _ _ Hr ltac:(lia) HS) as (d & st & Hrd & HB & Hst).
  destruct (EFI_ERROR st) eqn:Hs; [done|]. rewrite <-Hbl, rd_all in Hrd. injection Hrd as <-.
  assert (Hr' : blk_req settings_lba (zlen b')) by (by rewrite Hbl).
  destruct (write_frame _ _ _ _ _ _ h Hr' HB) as [Hbs _].
  assert (Hsl : settings_len h w' = settings_len h w) by (unfold settings_len; by rewrite Hbs).
  split; [|split; [done|]].
  - split; [rewrite Hbs; apply Hd|]. rewrite Hsl.
    destruct Hd as [_ (s1 & d1 & HR1 & Hs1)].
    apply (write_serves h settings_lba b' w st w' h settings_lba (settings_len h w) s1 d1); done.
  - rewrite Hb. f_equal. unfold settings. rewrite Hsl, Hbs, <-Hbl.
    rewrite (window_ext _ (put (disk h w) (settings_lba * BlockSize h w) b'))
      by (intros; by apply (write_data h settings_lba b' w st w' Hr' HB Hs)).
    by rewrite window_put_same.
Qed.
End Settings.

(** ** What is kept below the settings area *)
Section Below.
Context {W : Type} `{!Pool W, !PoolOk W, !BlockIo W, !BlockIoLaws W}.

(** The device [h] is the same device, with the same content below the settings
    area, and serves what it served. *)
Record below_settings (h : Z) (w w' : W) : Prop := {
  bs_size : BlockSize h w' = BlockSize h w;
  bs_ro : read_only h w' = read_only h w;
  bs_disk : forall a, a < settings_lba * BlockSize h w -> disk h w' a = disk h w a;
  bs_read : forall lba n, blk_req lba n -> readable h lba n w -> readable h lba n w'
}.

#[global] Instance below_settings_preorder h : PreOrder (below_settings h).
Proof.
  split; [by split; auto|]. intros w1 w2 w3 [B1 O1 D1 R1] [B2 O2 D2 R2]. split.
  - congruence.
  - congruence.
  - intros a Ha. rewrite D2 by (by rewrite B1). by apply D1.
  - auto.
Qed.

Lemma same_dev_below h w w' : same_dev w w' -> below_settings h w w'.
Proof.
  intros [_ Hs]. destruct (Hs h) as (Hb & Hd & Ho & Hr). split; [done|done|by rewrite Hd|].
  intros lba n _ HR. by apply Hr.
Qed.

Lemma below_settings_dev h w w' : below_settings h w w' -> settings_dev h w -> settings_dev h w'.
Proof.
  intros HB Hd. destruct (settings_len_spec h w Hd) as (Hr & _). destruct HB as [Hb _ _ HR].
  destruct Hd as [Hk Hre]. assert (Hsl : settings_len h w' = settings_len h w)
    by (unfold settings_len; by rewrite Hb).
  split; [by rewrite Hb|]. rewrite Hsl. by apply HR.
Qed.

(** A write of the settings area. *)
Lemma store_below h a w :
  settings_dev h w -> ans_wf a ->
  exists r w', _baseanswer_store (Some h) (Some a) w = (Ret r, w') /\
    (r = SBCOK \/ r = SBCIO) /\ (read_only h w = false -> r = SBCOK) /\ below_settings h w w'.
Proof.
  intros Hd Ha. destruct (store_run h a w Hd Ha) as (b' & _ & _ & Hbl & ->).
  destruct (settings_len_spec h w Hd) as (Hr & Hn & _). change SYS_SETTING_STORAGE_LEN with 16512 in Hn.
  assert (Hr' : blk_req settings_lba (zlen b')) by (by rewrite Hbl).
  destruct (write_total h settings_lba b' w Hr') as (st & w' & HW).
  assert (HRun : SBC_RawPrtBlockWrite (Some h) (Some b') (settings_len h w) settings_lba w
                 = (Ret (if EFI_ERROR st then SBCIO else SBCOK), w')).
  { rewrite (RawPrtBlockWrite_run h b' _ _ w b') by (try lia; rewrite <-Hbl; apply rd_all).
    by mrun. }
  exists (if EFI_ERROR st then SBCIO else SBCOK), w'. split; [done|].
  split; [destruct (EFI_ERROR st); auto|]. split.
  - intros Ho. destruct Hd as [_ (s1 & d1 & HR1 & Hs1)]. rewrite <-Hbl in HR1.
    by rewrite (write_accepts _ _ _ _ _ _ _ _ Hr' Ho HR1 Hs1 HW).
  - destruct (write_frame _ _ _ _ _ _ h Hr' HW) as (Hbs & Hro). split; [done|done| |].
    + intros x Hx. apply (write_local_own _ _ _ _ _ _ _ Hr' HW). by left.
    + intros lba n Hq (s1 & d1 & HR1 & Hs1).
      by apply (write_serves h settings_lba b' w st w' h lba n s1 d1).
Qed.
End Below.

(** ** Encrypt, store, check *)
Section RoundTrip.
Context {W : Type} `{!Pool W, !PoolOk W, !BlockIo W, !BlockIoLaws W, !Rng W, !RngLaws W,
                     !OpenSSL, !OpenSSLLaws, !LogSvc W, !LogSvcOk W}.

(** The run of [SBC_BaseAnswerEncryptStore] up to the store. *)
Lemma EncryptStore_run h msg n key kl w :
  length key = 32%nat -> 0 <= n <= zlen msg -> n <= 256 -> settings_dev h w ->
  exists iv w1 ct tag,
    RandomBytes 12 w = (Ret iv, w1) /\ zlen iv = 12 /\ zlen ct = n /\ zlen tag = 16 /\
    GCM_seal key iv [] (take (Z.to_nat n) msg) true 16 = (true, ct, tag) /\
    settings_dev h w1 /\ settings h w1 = settings h w /\ BlockSize h w1 = BlockSize h w /\
    SBC_BaseAnswerEncryptStore (Some h) (Some msg) n (Some key) kl w
    = _baseanswer_store (Some h)
        (Some (mkAns n (ct ++ drop (Z.to_nat n) (zeros 256)) key iv tag)) w1.
Proof.
  intros Hk Hn Hmax Hd. destruct (random_total 12 w) as (iv & w1 & HR & Hiv); [lia|].
  pose proof (random_keeps 12 w _ w1 HR) as Hfr.
  destruct (gcm_seal_ok key iv [] (take (Z.to_nat n) msg)) as (ct & tag & HS & Hc & Ht).
  { apply loader_sizes; [done|lia|rewrite length_take; unfold INT_MAX; lia]. }
  rewrite length_take in Hc.
  destruct (proj2 Hfr h) as (Hbs & Hdk & Hro & Hrd).
  exists iv, w1, ct, tag. split; [done|]. split; [done|]. split; [lia|]. split; [lia|].
  split; [done|].
  assert (Hsl : settings_len h w1 = settings_len h w) by (unfold settings_len; by rewrite Hbs).
  split; [split; [rewrite Hbs; apply Hd|rewrite Hsl; apply Hrd, Hd]|].
  split; [unfold settings; by rewrite Hsl, Hbs, Hdk|]. split; [done|].
  unfold SBC_BaseAnswerEncryptStore, BASE_ANS_KEY_STR, BASE_ANS_IV_KEY_STR, BASE_ANS_TAG_LEN,
    BASE_ANS_MAX_LEN.
  assert (Hkey : rdp (Some key) 32 = Some key)
    by (replace 32 with (zlen key) by lia; apply rdp_exact).
  assert (HE : SBC_AESEncrypt (loader_gcm key iv msg n (zeros 16) (zeros 256) 256) w1
    = (Ret (SBCOK, loader_gcm key iv msg n tag (ct ++ drop (length ct) (zeros 256)) n), w1))
    by (apply AESGcmEncrypt_loader; try done; unfold INT_MAX; lia).
  unfold loader_gcm in HE. rewrite Hkey. mrun.
  change (negb (sbc_is SBCOK SBCOK)) with false. cbv iota.
  cbn [aes_gcm gcm_context]. mrun. cbn [gcm_tag gcm_out tlv_value tlv_length]. mrun.
  rewrite u32_small by lia. by replace (length ct) with (Z.to_nat n) by lia.
Qed.

(** The stored record the decryption of which is checked. *)
Lemma Validate_run h answer n key kl w ct iv tag :
  settings_dev h w -> length key = 32%nat -> zlen iv = 12 -> zlen tag = 16 ->
  0 < zlen ct <= 256 -> 0 <= n <= zlen answer -> n <= 512 ->
  get_record (settings h w) zero_ansid
  = Some (SBCOK, mkAns (zlen ct) (ct ++ drop (length ct) (zeros 256)) (zeros 32) iv tag) ->
  SBC_BaseAnswerValidate (Some h) (Some answer) n (Some key) kl w
  = match GCM_open key iv [] ct true tag with
    | (true, m) =>
        let decbuf := m ++ drop (length m) (zeros 512) in
        let ok := bool_decide (take (Z.to_nat n) decbuf = take (Z.to_nat n) answer) in
        (let! _ := log_mrgmsg (if ok then answer_ok_format else answer_fail_format)
                     [Some answer; Some decbuf] in
         ret (if ok then SBCOK else SBCFAIL)) w
    | (false, _) => (Ret SBCFAIL, w)
    end.
Proof.
  intros Hd Hk Hi Ht Hc Hn Hmax HG. unfold SBC_BaseAnswerValidate.
  pose proof (extract_run h zero_ansid w Hd) as HX. rewrite HG in HX. mrun.
  change (sbc_is SBCOK SBCOK) with true. cbv iota. cbn [ans_iv ans_msglen ans_encmsg ans_tag].
  unfold BASE_ANS_KEY_STR, BASE_ANS_IV_KEY_STR, BASE_ANS_TAG_LEN, BASE_ANS_STREAM_LEN.
  pose proof (AESGcmDecrypt_loader key iv (ct ++ drop (length ct) (zeros 256)) (zlen ct) tag
                (zeros 512) 512 w) as HD.
  rewrite Nat2Z.id, take_app_length in HD. unfold loader_gcm in HD.
  specialize (HD ltac:(done) ltac:(lia) ltac:(lia) ltac:(rewrite length_app; lia) ltac:(lia)
                 ltac:(done) ltac:(unfold INT_MAX; lia)).
  pose proof (gcm_open_length key iv [] ct tag
    (loader_sizes key iv ct Hk ltac:(lia) ltac:(unfold INT_MAX; lia)) ltac:(lia)) as HO.
  destruct (GCM_open key iv [] ct true tag) as [[] m]; cbn [snd] in HO; mrun; [|done].
  change (negb (sbc_is SBCOK SBCOK)) with false. cbv iota.
  cbn [aes_gcm gcm_context]. mrun. cbn [gcm_out tlv_value]. mrun.
  assert (Hlm : zlen (m ++ drop (length m) (zeros 512)) = 512).
  { rewrite length_app, length_drop.
    change (length (zeros 512)) with 512%nat. lia. }
  rewrite rd_some by lia. mrun. rewrite rd_some by lia. mrun.
  change (Z.to_nat 0) with 0%nat. rewrite !drop_0. cbv zeta. by case_bool_decide.
Qed.

(** What a successful [SBC_BaseAnswerEncryptStore] leaves on the disk. *)
Lemma EncryptStore_ok h msg n key kl w w' :
  length key = 32%nat -> 0 < n <= zlen msg -> n <= 256 -> settings_dev h w ->
  SBC_BaseAnswerEncryptStore (Some h) (Some msg) n (Some key) kl w = (Ret SBCOK, w') ->
  exists iv ct tag, zlen iv = 12 /\ zlen ct = n /\ zlen tag = 16 /\
    GCM_seal key iv [] (take (Z.to_nat n) msg) true 16 = (true, ct, tag) /\
    fst (RandomBytes 12 w) = Ret iv /\ settings_dev h w' /\
    wr (settings h w) SYS_CONF_RES_OFS
       (le_bytes 4 n ++ ct ++ iv ++ tag ++ zeros 16) = Some (settings h w') /\
    get_record (settings h w') zero_ansid
    = Some (SBCOK, mkAns (zlen ct) (ct ++ drop (length ct) (zeros 256)) (zeros 32) iv tag).
Proof.
  intros Hk Hn Hmax Hd HE.
  destruct (EncryptStore_run h msg n key kl w Hk ltac:(lia) Hmax Hd)
    as (iv & w1 & ct & tag & HRnd & Hi & Hc & Ht & HS & Hd1 & Hse & _ & HR).
  rewrite HR in HE. set (a := mkAns _ _ _ _ _) in HE.
  assert (Ha : ans_wf a).
  { split; subst a; cbn [ans_msglen ans_encmsg ans_iv ans_tag]; try lia.
    rewrite length_app, length_drop. change (length (zeros 256)) with 256%nat. lia. }
  destruct (store_ok h a w1 w' Hd1 Ha HE) as (Hd' & _ & HW). rewrite Hse in HW.
  destruct (settings_len_spec h w Hd) as (_ & Hlen & Hzl).
  change SYS_SETTING_STORAGE_LEN with 16512 in Hlen.
  exists iv, ct, tag. do 4 (split; [done|]). split; [by rewrite HRnd|]. split; [done|].
  assert (Htk : take (Z.to_nat n) (ct ++ drop (Z.to_nat n) (zeros 256)) = ct)
    by (apply take_app_length'; lia).
  split.
  - rewrite <-HW. unfold record_bytes, a. cbn [ans_msglen ans_encmsg ans_iv ans_tag].
    by rewrite Htk.
  - rewrite <-put_record_wr in HW by (try done; subst a; cbn [ans_msglen]; lia).
    rewrite (get_put_record (settings h w) a _ zero_ansid Ha);
      try (subst a; cbn [ans_msglen]; lia); try done.
    subst a. cbn [ans_msglen ans_encmsg ans_iv ans_tag ans_key zero_ansid].
    rewrite Htk. rewrite Hc. by replace (length ct) with (Z.to_nat n) by lia.
Qed.

(** Every run of [SBC_BaseAnswerEncryptStore] on a message that fits returns,
    and leaves what is below the settings area. *)
Lemma EncryptStore_below h msg n key kl w :
  length key = 32%nat -> 0 <= n <= zlen msg -> n <= 256 -> settings_dev h w ->
  exists r w', SBC_BaseAnswerEncryptStore (Some h) (Some msg) n (Some key) kl w = (Ret r, w') /\
    (r = SBCOK \/ r = SBCIO) /\ (read_only h w = false -> r = SBCOK) /\ below_settings h w w'.
Proof.
  intros Hk Hn Hmax Hd.
  destruct (EncryptStore_run h msg n key kl w Hk Hn Hmax Hd)
    as (iv & w1 & ct & tag & HR & Hi & Hc & Ht & _ & Hd1 & _ & _ & ->).
  pose proof (same_dev_below h _ _ (random_keeps 12 w _ w1 HR)) as HB.
  destruct (store_below h (mkAns n (ct ++ drop (Z.to_nat n) (zeros 256)) key iv tag) w1 Hd1)
    as (r & w' & HS & Hrr & Ho & HB').
  { split; cbn [ans_msglen ans_encmsg ans_iv ans_tag]; try lia.
    rewrite length_app, length_drop. change (length (zeros 256)) with 256%nat. lia. }
  exists r, w'. split; [done|]. split; [done|]. split.
  - intros Hro. apply Ho. by rewrite (bs_ro _ _ _ HB).
  - by transitivity w1.
Qed.

(** C6: (roundtrip) A stored base answer validates.  When
    [SBC_BaseAnswerEncryptStore] reports [SBCOK], the settings area holds the record
    of the answer at its place (length, AES-GCM ciphertext of the answer under the
    key and the fresh IV, the IV, the tag, sixteen zeros) and is otherwise as it
    was.  [SBC_BaseAnswerValidate] under the same key then accepts an answer exactly
    when its first [m] bytes are those of the stored one (followed by zeros),
    without changing the machine, provided that it can report it: both answers are
    printed as strings and then used as a format, so that an answer without a
    16-bit terminator in its buffer makes the code read behind it, and the verdict
    is for answers without a per cent sign.  Acceptance under another key would
    exhibit a collision of AES-GCM. *)
Theorem base_answer_roundtrip h msg n key kl w w' :
  length key = 32%nat -> 0 < n <= zlen msg -> n <= 256 -> settings_dev h w ->
  SBC_BaseAnswerEncryptStore (Some h) (Some msg) n (Some key) kl w = (Ret SBCOK, w') ->
  let plain := take (Z.to_nat n) msg in
  let decbuf := plain ++ drop (Z.to_nat n) (zeros 512) in
  (exists iv ct tag, fst (RandomBytes 12 w) = Ret iv /\ zlen ct = n /\
     GCM_seal key iv [] plain true 16 = (true, ct, tag) /\
     wr (settings h w) SYS_CONF_RES_OFS (le_bytes 4 n ++ ct ++ iv ++ tag ++ zeros 16)
     = Some (settings h w')) /\
  (exists stored, char16_string decbuf = Some stored /\
   forall answer m, 0 <= m <= zlen answer -> m <= 512 ->
     match char16_string answer with
     | None => SBC_BaseAnswerValidate (Some h) (Some answer) m (Some key) kl w' = (Fault, w')
     | Some s => forallb Log.literal (s ++ stored) = true -> zlen s <= 6000 ->
         SBC_BaseAnswerValidate (Some h) (Some answer) m (Some key) kl w'
         = (Ret (if bool_decide (take (Z.to_nat m) decbuf = take (Z.to_nat m) answer)
                 then SBCOK else SBCFAIL), w')
     end) /\
  (forall key' w2, length key' = 32%nat ->
     SBC_BaseAnswerValidate (Some h) (Some msg) n (Some key') kl w' = (Ret SBCOK, w2) ->
     w2 = w' /\ exists iv ct tag, GCM_seal key iv [] plain true 16 = (true, ct, tag) /\
       GCM_seal key' iv [] plain true 16 = (true, ct, tag)).
Proof.
  intros Hk Hn Hmax Hd HE plain decbuf.
  destruct (EncryptStore_ok h msg n key kl w w' Hk Hn Hmax Hd HE)
    as (iv & ct & tag & Hi & Hc & Ht & HS & HR & Hd' & HW & HG).
  assert (Hz : forall k, length k = 32%nat -> gcm_sizes k iv [] ct)
    by (intros; apply loader_sizes; unfold INT_MAX; lia).
  assert (Hpl : length plain = Z.to_nat n) by (unfold plain; rewrite length_take; lia).
  split; [by exists iv, ct, tag|]. split.
  - destruct (char16_string_zeros plain (512 - Z.to_nat n)) as [stored Hst]; [lia|].
    assert (Hdz : drop (Z.to_nat n) (zeros 512) = replicate (512 - Z.to_nat n) 0)
      by (unfold zeros; by rewrite drop_replicate).
    rewrite <-Hdz in Hst. fold decbuf in Hst. exists stored. split; [done|]. intros answer m Hm Hm'.
    assert (HV : SBC_BaseAnswerValidate (Some h) (Some answer) m (Some key) kl w'
      = (let ok := bool_decide (take (Z.to_nat m) decbuf = take (Z.to_nat m) answer) in
         let! _ := log_mrgmsg (if ok then answer_ok_format else answer_fail_format)
                     [Some answer; Some decbuf] in ret (if ok then SBCOK else SBCFAIL)) w').
    { rewrite (Validate_run h answer m key kl w' ct iv tag) by (try done; lia).
      assert (HO : GCM_open key iv [] ct true tag = (true, plain))
        by (apply gcm_open_seal; [auto|lia|lia|done]).
      rewrite HO. cbv zeta. by rewrite Hpl. }
    rewrite HV. cbv zeta. set (ok := bool_decide _). destruct (char16_string answer) as [s|] eqn:Ea.
    + intros Hlit Hs. rewrite forallb_app in Hlit. apply andb_prop in Hlit as [L1 L2].
      assert (Hsl : zlen stored <= 256).
      { destruct (char16_string_chars _ _ Hst) as [_ HL].
        assert (zlen decbuf = 512) by (unfold decbuf; rewrite length_app, Hdz, length_replicate; lia). lia. }
      destruct (log_answer_fail s stored answer decbuf w' Ea Hst L1 L2 ltac:(lia)) as [HF HK].
      destruct ok; by mrun.
    + assert (HF : log_mrgmsg (if ok then answer_ok_format else answer_fail_format)
        [Some answer; Some decbuf] w' = (Fault, w'))
        by (by apply (log_mrgmsg_unterminated _ _ answer); [left|]).
      unfold bind. by rewrite HF.
  - intros key' w2 Hk' HV. rewrite (Validate_run h msg n key' kl w' ct iv tag) in HV by (try done; lia).
    pose proof (gcm_open_length key' iv [] ct tag (Hz key' Hk') ltac:(lia)) as Hm.
    destruct (GCM_open key' iv [] ct true tag) as [[] m] eqn:HO; cbn [snd] in Hm; [|done].
    cbv zeta in HV. apply bind_inv in HV as ([] & w3 & HL & HV). apply log_mrgmsg_pure in HL as ->.
    case_bool_decide as Heq; [|done]. injection HV as <-. split; [done|].
    exists iv, ct, tag. split; [done|]. rewrite take_app_length' in Heq by lia.
    unfold plain. rewrite <-Heq. apply gcm_open_seal; [auto|lia|lia|done].
Qed.

(** C30: (error) The record of a base answer runs into the Root CA record.  Storing
    an answer of [n] bytes changes the bytes [64, 112 + n) of the settings and no
    other; the Root CA record starts at byte 128.  So it is kept when [n] is at
    most 16, and for every longer answer its first [n - 16] bytes become the end of
    the base answer record (for up to 32 bytes of answer only zeros, for more the
    end of the tag, the IV or the ciphertext before them). *)
Theorem base_answer_root_ca h msg n key kl w w' :
  length key = 32%nat -> 0 < n <= zlen msg -> n <= 256 -> settings_dev h w ->
  SBC_BaseAnswerEncryptStore (Some h) (Some msg) n (Some key) kl w = (Ret SBCOK, w') ->
  (forall o l, 0 <= o -> 0 <= l -> o + l <= SYS_CONF_RES_OFS \/ SYS_CONF_RES_OFS + 48 + n <= o ->
     rd (settings h w') o l = rd (settings h w) o l) /\
  (n <= 16 -> forall o l, 0 <= l -> SYS_CONF_ROOT_CA_OFS <= o ->
     rd (settings h w') o l = rd (settings h w) o l) /\
  (16 < n -> exists iv ct tag, zlen ct = n /\ zlen iv = 12 /\ zlen tag = 16 /\
     GCM_seal key iv [] (take (Z.to_nat n) msg) true 16 = (true, ct, tag) /\
     rd (settings h w') SYS_CONF_ROOT_CA_OFS (n - 16)
     = Some (drop 64 (le_bytes 4 n ++ ct ++ iv ++ tag ++ zeros 16))) /\
  (16 < n <= 32 -> rd (settings h w') SYS_CONF_ROOT_CA_OFS (n - 16) = Some (zeros (n - 16))).
Proof.
  intros Hk Hn Hmax Hd HE.
  destruct (EncryptStore_ok h msg n key kl w w' Hk Hn Hmax Hd HE)
    as (iv & ct & tag & Hi & Hc & Ht & HS & _ & _ & HW & _).
  set (record := le_bytes 4 n ++ ct ++ iv ++ tag ++ zeros 16) in *.
  assert (Hl : zlen record = 48 + n) by (unfold record;
    rewrite !length_app; change (length (zeros 16)) with 16%nat; rewrite length_le_bytes; lia).
  unfold SYS_CONF_RES_OFS, SYS_CONF_ROOT_CA_OFS in *.
  assert (HR : 16 < n -> rd (settings h w') 128 (n - 16) = Some (drop 64 record)).
  { intros Hs. rewrite <-(take_drop 64 record) in HW. rewrite <-(app_nil_r (drop 64 record)) in HW.
    pose proof (rd_wr_part _ _ _ _ _ _ HW) as R. rewrite length_take, length_drop in R.
    rewrite <-R. f_equal; lia. }
  split; [|split; [|split]].
  - intros o l ?? [?|?]; [by apply (rd_wr_before _ _ _ _ _ _ HW)|].
    apply (rd_wr_after _ _ _ _ _ _ HW); lia.
  - intros Hs o l ??. apply (rd_wr_after _ _ _ _ _ _ HW); lia.
  - intros Hs. exists iv, ct, tag. do 4 (split; [done|]). by apply HR.
  - intros Hs. rewrite HR by lia. f_equal. unfold record. rewrite !app_assoc, drop_app_ge
      by (rewrite !length_app, length_le_bytes; lia).
    rewrite !length_app, length_le_bytes. unfold zeros. rewrite drop_replicate. f_equal. lia.
Qed.
End RoundTrip.

(** ** Examples *)
Section Examples.
#[local] Existing Instance toy_ssl.
#[local] Existing Instance toy_laws.

Lemma settings_dev_run h k (w : machine) :
  0 <= k <= 16 -> BlockSize h w = 2 ^ k ->
  match fst (ReadBlocks h settings_lba (settings_len h w) w) with
  | Ret (st, _) => negb (EFI_ERROR st) | _ => false end = true ->
  settings_dev h w.
Proof.
  intros Hk Hb HR. split; [by exists k|]. apply readable_run; [|done].
  unfold settings_len. rewrite Hb. destruct (align_value_spec SYS_SETTING_STORAGE_LEN k) as [_ Hn];
    [cbv; split; congruence|lia|].
  assert (2 ^ k <= 2 ^ 16) by (apply Z.pow_le_mono_r; lia).
  change SYS_SETTING_STORAGE_LEN with 16512 in *. split; [cbv; split; congruence|lia].
Qed.

Definition ex_key : bytes := replicate 32 5.
Definition ex_answer : bytes := [1; 2; 3; 4; 5; 6; 7; 8].
Definition ex_store : out SBCStatus * machine :=
  SBC_BaseAnswerEncryptStore (Some 2) (Some ex_answer) 8 (Some ex_key) 32 (ex_machine 1 1 0).

Lemma ex_settings_dev : settings_dev 2 (ex_machine 1 1 0).
Proof. apply (settings_dev_run 2 9); [lia|vm_compute; reflexivity|vm_compute; reflexivity]. Qed.

(** The stored answer with a terminator, the same cut short, and another one. *)
Lemma base_answer_roundtrip_witness :
  let result a n := fst (SBC_BaseAnswerValidate (Some 2) (Some a) n (Some ex_key) 32 (snd ex_store)) in
  result (ex_answer ++ [0; 0]) 8 = Ret SBCOK /\ result ex_answer 8 = Fault /\
  result [1; 2; 3; 9; 0; 0] 4 = Ret SBCFAIL.
Proof.
  assert (HE : SBC_BaseAnswerEncryptStore (Some 2) (Some ex_answer) 8 (Some ex_key) 32
                 (ex_machine 1 1 0) = (Ret SBCOK, snd ex_store))
    by (apply run_ret; vm_compute; reflexivity).
  assert (Hn : 0 < 8 <= zlen ex_answer) by (vm_compute; split; congruence).
  destruct (base_answer_roundtrip 2 ex_answer 8 ex_key 32 (ex_machine 1 1 0) (snd ex_store)
           eq_refl Hn ltac:(lia) ex_settings_dev HE) as (_ & (stored & Hst & HV) & _).
  vm_compute in Hst. injection Hst as <-.
  split; [|split].
  - pose proof (HV (ex_answer ++ [0; 0])%list 8 ltac:(vm_compute; split; congruence) ltac:(lia)) as HA.
    change (char16_string (ex_answer ++ [0; 0])%list) with (Some [513; 1027; 1541; 2055]) in HA.
    rewrite HA; [vm_compute; reflexivity|vm_compute; reflexivity|vm_compute; congruence].
  - pose proof (HV ex_answer 8 ltac:(vm_compute; split; congruence) ltac:(lia)) as HA.
    change (char16_string ex_answer) with (@None (list Z)) in HA. rewrite HA. reflexivity.
  - pose proof (HV [1; 2; 3; 9; 0; 0] 4 ltac:(vm_compute; split; congruence) ltac:(lia)) as HA.
    change (char16_string [1; 2; 3; 9; 0; 0]) with (Some [513; 2307]) in HA.
    rewrite HA; [vm_compute; reflexivity|vm_compute; reflexivity|vm_compute; congruence].
Defined.

Lemma base_answer_root_ca_witness :
  rd (settings 2 (snd ex_store)) SYS_CONF_ROOT_CA_OFS 2048
  = rd (settings 2 (ex_machine 1 1 0)) SYS_CONF_ROOT_CA_OFS 2048.
Proof.
  assert (HE : SBC_BaseAnswerEncryptStore (Some 2) (Some ex_answer) 8 (Some ex_key) 32
                 (ex_machine 1 1 0) = (Ret SBCOK, snd ex_store))
    by (apply run_ret; vm_compute; reflexivity).
  assert (Hn : 0 < 8 <= zlen ex_answer) by (vm_compute; split; congruence).
  destruct (base_answer_root_ca 2 ex_answer 8 ex_key 32 (ex_machine 1 1 0) (snd ex_store)
              eq_refl Hn ltac:(lia) ex_settings_dev HE) as (_ & HC & _).
  apply (HC ltac:(lia)); lia.
Defined.

Lemma extract_length_unchecked_witness :
  get_record (zeros 64 ++ [44; 1; 0; 0] ++ zeros 16828) zero_ansid = None.
Proof.
  refine (proj1 (extract_length_unchecked (zeros 64 ++ [44; 1; 0; 0] ++ zeros 16828) zero_ansid
              [44; 1; 0; 0] _ _ _ _ _) _); vm_compute; reflexivity.
Defined.
End Examples.
