(* ===== verification/Ecc.v ===== *)
(** * Elliptic-curve keys (SBC_EccSignVeriify.c, BaseCryptLib/Pk/CryptEc.c)

    Key generation, signing and key agreement of BaseCryptLib over the
    primitives of OpenSSL, the loaders' layer over them, the key pair derived
    from a DICE seed, and the comparison of that key with the device
    certificate.  A signature of [SBC_EcDsaSign] verifies, the
    result of the key agreement is given for every length of the private key, and the two defects of the derivation and the comparison are
    stated exactly. *)
From stdpp Require Import base list.
From Stdlib Require Import ZArith Lia.
From S2P Require Import Prelude Sha256 Uefi RamDisk Sim RawPrt Crypto BaseAnswer.
#[local] Open Scope Z_scope.

(** ** Big numbers

    A BIGNUM is a non-negative [Z]. *)
Definition BN_num_bytes (z : Z) : Z := if z <=? 0 then 0 else Z.log2 z / 8 + 1.
(** The big-endian bytes of a number, on [n] bytes and on as many as it needs. *)
Definition be_bytes (n z : Z) : bytes := rev (le_bytes (Z.to_nat n) z).
Definition BN_bn2bin (z : Z) : bytes := be_bytes (BN_num_bytes z) z.
Definition BN_bin2bn (b : bytes) : Z := le_val (rev b).

Definition CRYPTO_NID_SECP256R1 : Z := 0x0204.
Definition CRYPTO_NID_SECP384R1 : Z := 0x0205.
Definition CRYPTO_NID_SECP521R1 : Z := 0x0206.
Definition CRYPTO_NID_BRAINPOOLP512R1 : Z := 0x03A5.
Definition NID_X9_62_prime256v1 : Z := 415.
Definition NID_secp384r1 : Z := 715.
Definition NID_secp521r1 : Z := 716.
Definition NID_brainpoolP512r1 : Z := 933.

(** ** The primitives

    Operations of OpenSSL on EC keys, beyond those of [OpenSSL]; [None] is
    failure.  Key generation and signing draw random numbers. *)
Class EcOps (W : Type) `{!OpenSSL} := {
  EC_POINT : Type;
  EC_KEY_new_by_curve_name : Z -> option EC_KEY;
  EC_curve : EC_KEY -> Z;
  EC_order : EC_KEY -> Z;
  EC_get_private : EC_KEY -> option Z;
  EC_set_private : EC_KEY -> Z -> option EC_KEY;
  EC_get_point : EC_KEY -> option EC_POINT;
  EC_set_point : EC_KEY -> EC_POINT -> option EC_KEY;
  (** [EC_POINT_mul (group, r, d, NULL, NULL, ctx)] *)
  EC_mulG : EC_KEY -> Z -> option EC_POINT;
  EC_affine : EC_KEY -> EC_POINT -> option (Z * Z);
  EC_of_affine : EC_KEY -> Z -> Z -> option EC_POINT;
  EC_of_compressed : EC_KEY -> Z -> Z -> option EC_POINT;
  EC_check_key : EC_KEY -> bool;
  (** the x coordinate of the product, padded to the field size *)
  ECDH_secret : EC_KEY -> EC_POINT -> option bytes;
  EC_KEY_generate_key : EC_KEY -> M W (option EC_KEY);
  ECDSA_do_sign : EC_KEY -> bytes -> M W (option (Z * Z))
}.

(** The field size [EcDsaSign] and [EcDsaVerify] know for a curve. *)
Definition half_size (nid : Z) : option Z :=
  if nid =? NID_X9_62_prime256v1 then Some 32
  else if nid =? NID_secp384r1 then Some 48
  else if nid =? NID_secp521r1 then Some 66
  else if nid =? NID_brainpoolP512r1 then Some 64
  else None.

(** Their documented behaviour. *)
Class EcLaws (W : Type) `{!OpenSSL, !EcOps W} : Prop := {
  ec_new_curve : forall nid k, EC_KEY_new_by_curve_name nid = Some k -> EC_curve k = nid;
  (** the curve determines the field, the order and the arithmetic *)
  ec_same_curve : forall k k', EC_curve k = EC_curve k' ->
    EC_half k = EC_half k' /\ EC_order k = EC_order k' /\
    (forall P, EC_affine k P = EC_affine k' P) /\
    (forall x y, EC_of_affine k x y = EC_of_affine k' x y);
  ec_known_half : forall k, EC_known k = true <-> half_size (EC_curve k) = Some (EC_half k);
  ec_size_half : forall k n, half_size (EC_curve k) = Some n -> n = EC_half k;
  ec_private : forall k d k', EC_set_private k d = Some k' ->
    EC_get_private k' = Some d /\ EC_curve k' = EC_curve k;
  ec_point : forall k P k', EC_set_point k P = Some k' ->
    EC_get_point k' = Some P /\ EC_curve k' = EC_curve k;
  ec_affine_range : forall k P x y, EC_affine k P = Some (x, y) ->
    0 <= x < 2 ^ (8 * EC_half k) /\ 0 <= y < 2 ^ (8 * EC_half k);
  ec_affine_inv : forall k P x y, EC_affine k P = Some (x, y) -> EC_of_affine k x y = Some P;
  ec_public_affine : forall k P x y, EC_get_point k = Some P -> EC_affine k P = Some (x, y) ->
    0 < x -> 0 < y -> EC_public k = Some (be_bytes (EC_half k) x ++ be_bytes (EC_half k) y);
  ec_sign_verify : forall k h (w : W) r s w', ECDSA_do_sign k h w = (Ret (Some (r, s)), w') ->
    0 < r < 2 ^ (8 * EC_half k) /\ 0 < s < 2 ^ (8 * EC_half k) /\
    ECDSA_do_verify k h (be_bytes (EC_half k) r ++ be_bytes (EC_half k) s) = true;
  ecdh_length : forall k P s, ECDH_secret k P = Some s -> zlen s = EC_half k
}.

(** ** BaseCryptLib (Pk/CryptEc.c) *)
Definition CryptoNidToOpensslNid (CryptoNid : Z) : Z :=
  if CryptoNid =? CRYPTO_NID_SECP256R1 then NID_X9_62_prime256v1
  else if CryptoNid =? CRYPTO_NID_SECP384R1 then NID_secp384r1
  else if CryptoNid =? CRYPTO_NID_SECP521R1 then NID_secp521r1
  else if CryptoNid =? CRYPTO_NID_BRAINPOOLP512R1 then NID_brainpoolP512r1
  else -1.

Section CryptEc.
Context {W : Type} `{!OpenSSL, !EcOps W}.

Definition EcNewByNid (Nid : Z) : option EC_KEY :=
  if CryptoNidToOpensslNid Nid <? 0 then None
  else EC_KEY_new_by_curve_name (CryptoNidToOpensslNid Nid).

(** [EcGenerateKey (EcContext, PublicKey, PublicKeySize)]: result, context,
    [PublicKey] and [*PublicKeySize]. *)
Definition EcGenerateKey (EcContext : option EC_KEY) (PublicKey : option bytes)
    (PublicKeySize : option Z) : M W (bool * option EC_KEY * option bytes * option Z) :=
  match EcContext, PublicKeySize with
  | Some k, Some n =>
      if negb (notnull PublicKey) && negb (n =? 0)
      then ret (false, EcContext, PublicKey, PublicKeySize)
      else
      let size := EC_half k * 2 in
      let! k' := EC_KEY_generate_key k in
      match k' with
      | None => ret (false, EcContext, PublicKey, PublicKeySize)
      | Some k' =>
          if n <? size then ret (false, Some k', PublicKey, Some size)
          else match EC_public k' with
          | None => ret (false, Some k', PublicKey, Some size)
          | Some p =>
              let! b := access (wrp PublicKey p) in
              ret (true, Some k', b, Some size)
          end
      end
  | _, _ => ret (false, EcContext, PublicKey, PublicKeySize)
  end.

(** [EcDhComputeKey (EcContext, PeerPublic, PeerPublicSize, CompressFlag, Key,
    KeySize)]: result, [Key] and [*KeySize]. *)
Definition EcDhComputeKey (EcContext : option EC_KEY) (PeerPublic : option bytes)
    (PeerPublicSize : Z) (CompressFlag : option Z) (Key : option bytes) (KeySize : option Z)
  : option (bool * option bytes * option Z) :=
  let fail := Some (false, Key, KeySize) in
  match EcContext, PeerPublic, KeySize with
  | Some k, Some pub, Some n =>
      if negb (notnull Key) && negb (n =? 0) then fail
      else if INT_MAX <? PeerPublicSize then fail
      else
      let half := EC_half k in
      if negb (notnull CompressFlag) && negb (PeerPublicSize =? half * 2) then fail
      else if notnull CompressFlag && negb (PeerPublicSize =? half) then fail
      else if n <? half then Some (false, Key, Some half)
      else
      let fail := Some (false, Key, Some half) in
      x ← rd pub 0 half;
      P ← (match CompressFlag with
           | None => y ← rd pub half half; Some (EC_of_affine k (BN_bin2bn x) (BN_bin2bn y))
           | Some f => Some (EC_of_compressed k (BN_bin2bn x) f)
           end);
      match P with
      | None => fail
      | Some P =>
          match peer ← EC_KEY_new_by_curve_name (EC_curve k); EC_set_point peer P with
          | None => fail
          | Some peer =>
              if negb (EC_check_key peer) then fail
              else match ECDH_secret k P with
              | None => fail
              | Some s => out ← wrp Key s; Some (true, out, Some half)
              end
          end
      end
  | _, _, _ => fail
  end.

(** [EcDsaSign (EcContext, HashNid, MessageHash, HashSize, Signature, SigSize)]:
    result, [Signature] and [*SigSize]. *)
Definition EcDsaSign (EcContext : option EC_KEY) (HashNid : Z) (MessageHash : option bytes)
    (HashSize : Z) (Signature : option bytes) (SigSize : Z)
  : M W (bool * option bytes * Z) :=
  match EcContext, MessageHash, Signature with
  | Some k, Some mh, Some sg =>
      match half_size (EC_curve k) with
      | None => ret (false, Signature, SigSize)
      | Some half =>
          if SigSize <? half * 2 then ret (false, Signature, half * 2)
          else
          let size := half * 2 in
          let! sg := access (wr sg 0 (zeros size)) in
          if (hash_size HashNid =? 0) || negb (HashSize =? hash_size HashNid)
          then ret (false, Some sg, size)
          else
          let! h := access (rd mh 0 HashSize) in
          let! rs := ECDSA_do_sign k h in
          match rs with
          | None => ret (false, Some sg, size)
          | Some (bnR, bnS) =>
              let RSize := BN_num_bytes bnR in
              let SSize := BN_num_bytes bnS in
              if (RSize <=? 0) || (SSize <=? 0) then ret (false, Some sg, size)
              else
              let! sg := access (wr sg (half - RSize) (BN_bn2bin bnR)) in
              let! sg := access (wr sg (half + half - SSize) (BN_bn2bin bnS)) in
              ret (true, Some sg, size)
          end
      end
  | _, _, _ => ret (false, Signature, SigSize)
  end.
End CryptEc.

(** ** The loaders' layer *)

(** [at_key_t]: the private key [d], the coordinates [q], their sizes. *)
Record at_key_t := mkKey { key_d : bytes; key_q : bytes; key_dl : Z; key_ql : Z }.

(** The handle of a context: after [EcFree] the pointer is still there. *)
Inductive ec_handle `{!OpenSSL} := HNull | HLive (k : EC_KEY) | HFreed.
Arguments HNull {_}.
Arguments HLive {_} k.
Arguments HFreed {_}.

Record SBCEccCtx `{!OpenSSL} := mkEcc {
  ecc_handle : ec_handle; ecc_pubkey : LV_t; ecc_privkey : LV_t; ecc_sharedkey : LV_t; curveid : Z
}.
Arguments mkEcc {_} ecc_handle ecc_pubkey ecc_privkey ecc_sharedkey curveid.

Section SbcEcc.
Context {W : Type} `{!Pool W, !BlockIo W, !OpenSSL, !EcOps W}.

Definition set_handle (h : SBCEccCtx) (x : ec_handle) : SBCEccCtx :=
  mkEcc x (ecc_pubkey h) (ecc_privkey h) (ecc_sharedkey h) (curveid h).
Definition set_shared (h : SBCEccCtx) (lv : LV_t) : SBCEccCtx :=
  mkEcc (ecc_handle h) (ecc_pubkey h) (ecc_privkey h) lv (curveid h).

(** Using a pointer: a freed one is undefined, a null one is [None]. *)
Definition use_handle (x : ec_handle) : M W (option EC_KEY) :=
  match x with HNull => ret None | HLive k => ret (Some k) | HFreed => fault end.

(** [SBC_EccKeyGen (h, curveid)]: status and [*h].  The sizes of the key
    buffers are passed as [(UINTN * )&lv->length]. *)
Definition SBC_EccKeyGen (h : SBCEccCtx) (cid : Z) : M W (SBCStatus * SBCEccCtx) :=
  let pub := ecc_pubkey h in
  let priv := ecc_privkey h in
  let mk x pub priv := mkEcc x pub priv (ecc_sharedkey h) cid in
  match EcNewByNid cid with
  | None => ret (SBCNULLP, mk HNull pub priv)
  | Some k =>
      let! (ok, k, v, n) := EcGenerateKey (Some k) (lv_value pub) (Some (lv_word pub)) in
      let pub := match n with Some n => lv_set_word (lv_set_value pub v) n | None => pub end in
      let x := match k with Some k => HLive k | None => HNull end in
      if negb ok then ret (SBCFAIL, mk x pub priv)
      else
      match k' ← k; EC_get_private k' with
      | None => ret (SBCNULLP, mk x pub priv)
      | Some q =>
          let priv := lv_set_length priv (BN_num_bytes q) in
          let! v := access (wrp (lv_value priv) (zeros (BN_num_bytes q))) in
          let! v := access (wrp v (BN_bn2bin q)) in
          ret (SBCOK, mk x pub (lv_set_value priv v))
      end
  end.

(** [SBC_GenShareSeucrityKey (h, privkey, privlen, pubkey, publen)]: status and
    [*h].  The error exit frees the handle of [h], a null [h] included. *)
Definition SBC_GenShareSeucrityKey (h : option SBCEccCtx) (privkey : option bytes) (privlen : Z)
    (pubkey : option bytes) (publen : Z) : M W (SBCStatus * SBCEccCtx) :=
  let! h := access h in
  let done_ r (h : SBCEccCtx) :=
    let! _ := use_handle (ecc_handle h) in
    ret (r, match ecc_handle h with HNull => h | _ => set_handle h HFreed end) in
  let h := match ecc_handle h with
           | HNull => match EcNewByNid (curveid h) with
                      | Some k => set_handle h (HLive k)
                      | None => h
                      end
           | _ => h
           end in
  let! eckey := use_handle (ecc_handle h) in
  match eckey with
  | None => done_ SBCNULLP h
  | Some k =>
      let! p := access (rdp privkey privlen) in
      match EC_set_private k (BN_bin2bn p) with
      | None => done_ SBCFAIL h
      | Some k =>
          let h := set_handle h (HLive k) in
          let lv := lv_set_length (ecc_sharedkey h) privlen in
          let! (ok, v, n) := access (EcDhComputeKey (Some k) pubkey publen None (lv_value lv)
                                       (Some (lv_word lv))) in
          let! n := access n in
          let h := set_shared h (lv_set_word (lv_set_value lv v) n) in
          done_ (if ok : bool then SBCOK else SBCFAIL) h
      end
  end.

(** [SBC_EcDsaSign (h, hash, signature)]: status and [*signature]. *)
Definition SBC_EcDsaSign (h : option (option EC_KEY)) (hash : option (Z * Z * option bytes))
    (signature : option LV_t) : M W (SBCStatus * option LV_t) :=
  match h, hash with
  | None, _ | _, None => ret (SBCNULLP, signature)
  | Some handle, Some (tag, len, value) =>
      validate notnull value else (SBCNULLP, signature) in
      validate 0 <? len else (SBCZEROL, signature) in
      match signature with
      | None => ret (SBCNULLP, signature)
      | Some sg =>
          validate notnull (lv_value sg) else (SBCNULLP, signature) in
          let! (ok, v, n) := EcDsaSign handle tag value len (lv_value sg) (lv_word sg) in
          ret (if ok : bool then SBCOK else SBCBADFMT, Some (lv_set_word (lv_set_value sg v) n))
      end
  end.

(** [SBC_DICESeedKeyPair (dice_seed, key)]: status and [*key].  The error exit
    tests [BnX], which has no value before the coordinates are computed: a
    failure up to there is undefined. *)
Definition SBC_DICESeedKeyPair (dice_seed : bytes) (key : at_key_t) : M W (SBCStatus * at_key_t) :=
  let! k := access (EC_KEY_new_by_curve_name NID_X9_62_prime256v1) in
  let! seed := access (rd dice_seed 0 32) in
  let priv_bn := BN_bin2bn seed mod EC_order k in
  let! k := access (EC_set_private k priv_bn) in
  let! bn_q := access (EC_get_private k) in
  let! d := access (wr (key_d key) 0 (BN_bn2bin bn_q)) in
  let! P := access (EC_mulG k priv_bn) in
  let! k := access (EC_set_point k P) in
  let half := EC_half k in
  let key := mkKey d (key_q key) half (half * 2) in
  let! P := access (EC_get_point k) in
  match EC_affine k P with
  | None => ret (SBCFAIL, key)
  | Some (BnX, BnY) =>
      if (BN_num_bytes BnX <=? 0) || (BN_num_bytes BnY <=? 0) then ret (SBCZEROL, key)
      else
      let! q := access (wr (key_q key) 0 (zeros (half * 2))) in
      let! q := access (wr q 0 (BN_bn2bin BnX)) in
      let! q := access (wr q 32 (BN_bn2bin BnY)) in
      ret (SBCOK, mkKey d q half (half * 2))
  end.

(** [SBC_DeviceIdKyeVerify (blkio, devid, deckey)] of SBC_AntiTampering.c;
    [key0] is the uninitialised [key_pair]. *)
Definition SBC_DeviceIdKyeVerify (key0 : at_key_t) (blkio : option Z) (devid : bytes)
    (deckey : option bytes) : M W SBCStatus :=
  let! (r, key_pair) := SBC_DICESeedKeyPair devid key0 in
  validate sbc_is r SBCOK else SBCINVPARAM in
  let! hnd := access blkio in
  fun w =>
  let ldlen := ALIGN_VALUE32 SYS_SETTING_STORAGE_LEN (BlockSize hnd w) in
  (let! a := AllocatePool ldlen in
   validate a else SBCNULLP in
   let! (r, loadbuf) := SBC_RawPrtReadBlock blkio (Some (zeros ldlen)) (Some ldlen) settings_lba in
   if negb (sbc_is r SBCOK) then ret r
   else
   let! loadbuf := access loadbuf in
   let! l := access (rd loadbuf SYS_CONF_DEVID_CRT_OFS 4) in
   let calen := le_val l in
   let offset := SYS_CONF_DEVID_CRT_OFS + 4 in
   let at_ o := Some (drop (Z.to_nat o) loadbuf) in
   let ctx := mkGcm (mkTLV BASE_ANS_KEY_STR deckey)
                (mkTLV BASE_ANS_IV_KEY_STR (at_ (offset + calen)))
                (mkTLV 0 None) (mkTLV calen (at_ offset))
                (mkTLV BASE_ANS_TAG_LEN (at_ (offset + calen + BASE_ANS_IV_KEY_STR)))
                (mkTLV calen (Some (zeros 2048))) in
   let! (r, aesctx) := SBC_AESGcmDecrypt (gcm_context ctx) in
   if negb (sbc_is r SBCOK) then ret SBCDECFAIL
   else
   let! g := access (aes_gcm aesctx) in
   let! (r, k) := SBC_EcGetPublicKeyFromPem (tlv_value (gcm_out g)) calen in
   validate sbc_is r SBCOK else SBCINVPARAM in
   let! (retval, pubkey, pubkeyl) := access (EcGetPubKey k (Some (zeros 64)) (Some 0)) in
   if negb retval then ret SBCFAIL
   else
   let! n := access pubkeyl in
   let! p := access (rdp pubkey n) in
   let! q := access (rd (key_q key_pair) 0 n) in
   ret (if bool_decide (q = p) then SBCOK else SBCINVPARAM)) w.
End SbcEcc.

(** ** Big numbers as bytes *)
Section BigNum.
Lemma BN_num_bytes_pos z : 0 < z -> 0 < BN_num_bytes z.
Proof. intros Hz. unfold BN_num_bytes. guard_false. pose proof (Z.log2_nonneg z). Z.div_mod_to_equations. lia. Qed.

Lemma BN_num_bytes_le z n : 0 < z < 2 ^ (8 * n) -> 0 <= n -> BN_num_bytes z <= n.
Proof.
  intros Hz Hn. unfold BN_num_bytes. guard_false.
  assert (Z.log2 z < 8 * n) by (apply Z.log2_lt_pow2; lia). Z.div_mod_to_equations. lia.
Qed.

Lemma BN_num_bytes_bound z : 0 < z -> z < 2 ^ (8 * BN_num_bytes z).
Proof.
  intros Hz. pose proof (BN_num_bytes_pos z Hz). apply Z.log2_lt_pow2; [done|].
  unfold BN_num_bytes. guard_false. Z.div_mod_to_equations. lia.
Qed.

(** A number needs all of [n] bytes when its top byte is not zero. *)
Lemma BN_num_bytes_full z n :
  0 < z < 2 ^ (8 * n) -> 0 < n -> (BN_num_bytes z = n <-> 2 ^ (8 * (n - 1)) <= z).
Proof.
  intros Hz Hn. pose proof (BN_num_bytes_le z n Hz). split; intros HE.
  - apply Z.log2_le_pow2; [lia|]. revert HE. unfold BN_num_bytes. guard_false. intros HE.
    Z.div_mod_to_equations. lia.
  - apply Z.log2_le_pow2 in HE; [|lia]. apply Z.le_antisymm; [lia|].
    unfold BN_num_bytes. guard_false. Z.div_mod_to_equations. lia.
Qed.

Lemma length_be_bytes n z : 0 <= n -> zlen (be_bytes n z) = n.
Proof. intros Hn. unfold be_bytes. rewrite length_rev, length_le_bytes. lia. Qed.

Lemma length_BN z : 0 <= z -> zlen (BN_bn2bin z) = BN_num_bytes z.
Proof.
  intros Hz. apply length_be_bytes. unfold BN_num_bytes. split_if; [done|].
  pose proof (Z.log2_nonneg z). Z.div_mod_to_equations. lia.
Qed.

Lemma le_bytes_zero n : le_bytes n 0 = replicate n 0.
Proof. induction n as [|n IH]; [done|]. cbn [le_bytes replicate]. by rewrite Z.div_0_l, IH by lia. Qed.

Lemma rev_replicate n : rev (replicate n 0) = replicate n 0.
Proof. induction n as [|n IH]; [done|]. rewrite replicate_S_end at 2. cbn [replicate rev]. by rewrite IH. Qed.

(** The shortest form padded on the left is the form of fixed length. *)
Lemma be_pad n z :
  0 < z < 2 ^ (8 * n) -> 0 <= n -> be_bytes n z = (zeros (n - BN_num_bytes z) ++ BN_bn2bin z)%list.
Proof.
  intros Hz Hn. pose proof (BN_num_bytes_le z n Hz Hn). pose proof (BN_num_bytes_pos z (proj1 Hz)).
  pose proof (BN_num_bytes_bound z (proj1 Hz)) as HB. unfold BN_bn2bin, be_bytes, zeros.
  replace (Z.to_nat n) with (Z.to_nat (BN_num_bytes z) + Z.to_nat (n - BN_num_bytes z))%nat by lia.
  rewrite le_bytes_app, rev_app_distr. rewrite Z2Nat.id by lia. rewrite Z.div_small by lia.
  by rewrite le_bytes_zero, rev_replicate.
Qed.

Lemma BN_bin2bn_be n z : 0 <= n -> 0 <= z < 2 ^ (8 * n) -> BN_bin2bn (be_bytes n z) = z.
Proof.
  intros Hn Hz. unfold BN_bin2bn, be_bytes. rewrite rev_involutive. apply le_val_bytes_small.
  by rewrite Z2Nat.id by lia.
Qed.


(** A number with zeros behind it is another number, unless there are none. *)
Lemma be_left n z :
  0 < z < 2 ^ (8 * n) -> 0 <= n ->
  (BN_bn2bin z ++ zeros (n - BN_num_bytes z))%list = be_bytes n z <-> BN_num_bytes z = n.
Proof.
  intros Hz Hn. pose proof (BN_num_bytes_le z n Hz Hn) as Hle. split.
  - intros HE. apply (f_equal BN_bin2bn) in HE. rewrite BN_bin2bn_be in HE by lia.
    unfold BN_bin2bn in HE. rewrite rev_app_distr, le_val_app in HE.
    unfold zeros in HE. rewrite rev_replicate, <-le_bytes_zero, le_val_bytes in HE.
    rewrite length_le_bytes, Z.mod_0_l, Z2Nat.id in HE by (try apply Z.pow_nonzero; lia).
    change (le_val (rev (BN_bn2bin z))) with (BN_bin2bn (BN_bn2bin z)) in HE.
    unfold BN_bn2bin in HE. rewrite BN_bin2bn_be in HE
      by (pose proof (BN_num_bytes_bound z); pose proof (BN_num_bytes_pos z); lia).
    destruct (decide (BN_num_bytes z = n)); [done|].
    assert (2 ^ 1 <= 2 ^ (8 * (n - BN_num_bytes z))) by (apply Z.pow_le_mono_r; lia). nia.
  - intros <-. rewrite Z.sub_diag. by rewrite app_nil_r.
Qed.

(** Writing a number at the end of a zeroed field of [n] bytes. *)
Lemma wr_field (a t : bytes) n z o :
  0 < z < 2 ^ (8 * n) -> 0 <= n -> o = zlen a + n - BN_num_bytes z ->
  wr (a ++ zeros n ++ t) o (BN_bn2bin z) = Some (a ++ be_bytes n z ++ t)%list.
Proof.
  intros Hz Hn ->. pose proof (BN_num_bytes_le z n Hz Hn). pose proof (BN_num_bytes_pos z (proj1 Hz)).
  pose proof (length_BN z ltac:(lia)) as HL.
  replace (zeros n) with (zeros (n - BN_num_bytes z) ++ zeros (BN_num_bytes z))%list
    by (rewrite <-zeros_app by lia; f_equal; lia).
  rewrite be_pad by lia. rewrite <-!app_assoc, (app_assoc a).
  assert (HZ : length (zeros (BN_num_bytes z)) = length (BN_bn2bin z))
    by (rewrite length_zeros_nat; lia).
  rewrite wr_next; [|rewrite length_app, length_zeros_nat; lia|rewrite length_app; lia].
  f_equal. rewrite <-HZ, drop_app_length, <-!app_assoc. done.
Qed.
End BigNum.

(** ** Signing *)
Section Laws.
Context {W : Type} `{!Pool W, !OpenSSL, !EcOps W, !OpenSSLLaws, !EcLaws W}.

Lemma half_size_bound nid n : half_size nid = Some n -> 32 <= n <= 66.
Proof. unfold half_size. intros HN. repeat split_if; simplify_eq; lia. Qed.

(** A signature is the two numbers, padded. *)
Lemma EcDsaSign_ok k tag h len sg n (w : W) r s w' :
  EC_known k = true -> hash_size tag = len -> 0 < len -> zlen h = len ->
  EC_half k * 2 <= n -> EC_half k * 2 <= zlen sg ->
  ECDSA_do_sign k h w = (Ret (Some (r, s)), w') ->
  EcDsaSign (Some k) tag (Some h) len (Some sg) n w
  = (Ret (true, Some ((be_bytes (EC_half k) r ++ be_bytes (EC_half k) s) ++
                      drop (Z.to_nat (EC_half k * 2)) sg)%list, EC_half k * 2), w').
Proof.
  intros HK Ht Hl Hh Hn Hs HS. apply ec_known_half in HK. pose proof (half_size_bound _ _ HK).
  destruct (ec_sign_verify _ _ _ _ _ _ HS) as (Hr & Hs' & _).
  pose proof (BN_num_bytes_pos r (proj1 Hr)). pose proof (BN_num_bytes_pos s (proj1 Hs')).
  unfold EcDsaSign. rewrite HK. guard_false.
  rewrite wr_some by (rewrite ?length_zeros_nat; lia). mrun.
  rewrite Ht. replace (len =? 0) with false by (symmetry; apply Z.eqb_neq; lia).
  rewrite Z.eqb_refl. cbn [negb orb]. replace len with (zlen h) by lia. rewrite rd_all. mrun.
  replace (_ || _) with false
    by (symmetry; apply orb_false_iff; split; apply Z.leb_gt; lia).
  change (take (Z.to_nat 0) sg) with (@nil Z). cbn [app].
  replace (zeros (EC_half k * 2)) with ([] ++ zeros (EC_half k) ++ zeros (EC_half k))%list
    by (cbn [app]; rewrite <-zeros_app by lia; f_equal; lia).
  rewrite <-!app_assoc, (wr_field [] _ (EC_half k) r) by (cbn [length]; lia). mrun. cbn [app].
  rewrite (wr_field (be_bytes (EC_half k) r) _ (EC_half k) s)
    by (rewrite ?length_be_bytes; lia). mrun.
  replace (Z.to_nat 0 + _)%nat with (Z.to_nat (EC_half k * 2)); [done|].
  rewrite length_app, !length_zeros_nat. lia.
Qed.

Lemma EcDsaVerify_ok k tag h len sg rest :
  EC_known k = true -> hash_size tag = len -> 0 < len -> zlen h = len -> zlen sg = EC_half k * 2 ->
  EcDsaVerify (Some k) tag (Some h) len (Some (sg ++ rest)%list) (EC_half k * 2)
  = Some (ECDSA_do_verify k h sg).
Proof.
  intros HK Ht Hl Hh Hs. pose proof (half_size_bound _ _ (proj1 (ec_known_half k) HK)) as HB.
  unfold EcDsaVerify. cbn [notnull negb orb]. rewrite HK, Z.eqb_refl, Ht, Z.eqb_refl. cbn [negb].
  replace (_ || _) with false by (symmetry; apply orb_false_iff; unfold INT_MAX;
    split; [apply Z.ltb_ge|apply Z.eqb_neq]; lia).
  replace (len =? 0) with false by (symmetry; apply Z.eqb_neq; lia). cbn [orb].
  replace len with (zlen h) by lia. rewrite rdp_exact.
  rewrite rdp_some by (rewrite ?length_app; lia).
  rewrite take_app_length' by lia. done.
Qed.

(** (roundtrip) A signature made by [SBC_EcDsaSign] into a buffer with room
    for it has the length of two field elements and is accepted by
    [SBC_EcDsaVerify] with the same key and hash. *)
Theorem ecdsa_sign_verify k tag len (h sg : bytes) n (w : W) rs w' :
  EC_known k = true -> hash_size tag = len -> 0 < len -> zlen h = len ->
  EC_half k * 2 <= n -> EC_half k * 2 <= zlen sg ->
  ECDSA_do_sign k h w = (Ret (Some rs), w') ->
  exists sg', SBC_EcDsaSign (Some (Some k)) (Some (tag, len, Some h)) (Some (mkLV n (Some sg))) w
              = (Ret (SBCOK, Some sg'), w') /\
    lv_length sg' = EC_half k * 2 /\
    forall w2 : W, SBC_EcDsaVerify (Some (Some k)) (Some (tag, len, Some h)) (Some sg') w2 = (Ret SBCOK, w2).
Proof.
  intros HK Ht Hl Hh Hn Hs HS. destruct rs as [r s].
  pose proof (half_size_bound _ _ (proj1 (ec_known_half k) HK)) as HB.
  unfold SBC_EcDsaSign. cbn [notnull lv_value lv_word]. guard_true.
  eexists. split; [mgo (EcDsaSign_ok k tag h len sg n w r s w' HK Ht Hl Hh Hn Hs HS); done|].
  destruct (ec_sign_verify _ _ _ _ _ _ HS) as (_ & _ & HV).
  assert (HL : lv_length (lv_set_word (lv_set_value (mkLV n (Some sg)) (Some sg)) (EC_half k * 2))
               = EC_half k * 2).
  { unfold lv_length, lv_set_word. cbn [lv_word]. rewrite u64_small, u32_small by lia. lia. }
  split; [exact HL|]. intros w2. unfold SBC_EcDsaVerify. cbn [notnull lv_value lv_set_word lv_set_value].
  guard_true. change (lv_length _) with
    (lv_length (lv_set_word (lv_set_value (mkLV n (Some sg)) (Some sg)) (EC_half k * 2))). rewrite HL.
  rewrite EcDsaVerify_ok by (done || (rewrite length_app, Nat2Z.inj_add, !length_be_bytes; lia)).
  rewrite HV. by mrun.
Qed.

(** ** Key agreement *)

(** A party of a key agreement on the curve of the fresh key [k]: the bytes of
    its private key, the key object with it, and its public point, which the
    peer checks. *)
Record party (k : EC_KEY) := mkParty {
  py_priv : bytes; py_key : EC_KEY; py_point : EC_POINT; py_xy : Z * Z; py_peer : EC_KEY;
  py_set : EC_set_private k (BN_bin2bn py_priv) = Some py_key;
  py_mul : EC_mulG py_key (BN_bin2bn py_priv) = Some py_point;
  py_aff : EC_affine k py_point = Some py_xy;
  py_pub : EC_set_point k py_point = Some py_peer;
  py_ok : EC_check_key py_peer = true
}.
Arguments py_priv {k} _.
Arguments py_key {k} _.
Arguments py_point {k} _.
Arguments py_xy {k} _.
(** The public key as it is sent. *)
Definition public_key {k} (p : party k) : bytes :=
  (be_bytes (EC_half k) (fst (py_xy p)) ++ be_bytes (EC_half k) (snd (py_xy p)))%list.

Lemma rd_coordinates n x y :
  0 <= n ->
  rd (be_bytes n x ++ be_bytes n y) 0 n = Some (be_bytes n x) /\
  rd (be_bytes n x ++ be_bytes n y) n n = Some (be_bytes n y).
Proof.
  intros Hn. pose proof (length_be_bytes n x Hn) as Hx. pose proof (length_be_bytes n y Hn) as Hy. split.
  - rewrite rd_app_l by lia. rewrite <-Hx at 2. apply rd_all.
  - rewrite rd_app_r by lia. rewrite Hx, Z.sub_diag. rewrite <-Hy at 2. apply rd_all.
Qed.

Lemma EcDhComputeKey_ok nid k (p q : party k) s key n :
  EC_KEY_new_by_curve_name nid = Some k -> 0 < EC_half k <= 1024 ->
  ECDH_secret (py_key p) (py_point q) = Some s -> EC_half k <= n -> EC_half k <= zlen key ->
  EcDhComputeKey (Some (py_key p)) (Some (public_key q)) (zlen (public_key q)) None (Some key) (Some n)
  = Some (true, Some (s ++ drop (length s) key)%list, Some (EC_half k)).
Proof.
  intros HN Hb HS Hn Hk. destruct q as [priv kq Q [x y] peer Hset Hmul Haff Hpub Hok].
  unfold public_key in *. cbn [py_point py_xy fst snd] in *.
  pose proof (ec_new_curve _ _ HN) as HC. destruct (ec_private _ _ _ (py_set _ p)) as [_ HCp].
  destruct (ec_same_curve _ _ HCp) as (Hh & _ & _ & Hof).
  pose proof (ecdh_length _ _ _ HS) as Hs. rewrite Hh in Hs.
  destruct (ec_affine_range _ _ _ _ Haff) as [Hx Hy].
  assert (HL : zlen (be_bytes (EC_half k) x ++ be_bytes (EC_half k) y) = EC_half k * 2)
    by (rewrite length_app, Nat2Z.inj_add, !length_be_bytes; lia).
  unfold EcDhComputeKey. cbn [notnull negb andb]. rewrite Hh, HL. unfold INT_MAX. guard_false.
  rewrite Z.eqb_refl. cbn [negb]. guard_false.
  destruct (rd_coordinates (EC_half k) x y) as [-> ->]; [lia|].
  cbn [mbind option_bind]. rewrite !BN_bin2bn_be by lia. rewrite Hof, (ec_affine_inv _ _ _ _ Haff).
  rewrite HCp, HC, HN. cbn [mbind option_bind]. rewrite Hpub, Hok. cbn [negb]. rewrite HS.
  by rewrite wrp_some by lia.
Qed.

(** A size below that of the field is answered with the size, before the peer is looked at. *)
Lemma EcDhComputeKey_small k k0 x y key n :
  EC_half k = EC_half k0 -> 0 < EC_half k0 <= 1024 -> n < EC_half k0 ->
  let pub := (be_bytes (EC_half k0) x ++ be_bytes (EC_half k0) y)%list in
  EcDhComputeKey (Some k) (Some pub) (zlen pub) None (Some key) (Some n)
  = Some (false, Some key, Some (EC_half k0)).
Proof.
  intros Hh Hb Hn pub. assert (HL : zlen pub = EC_half k0 * 2)
    by (unfold pub; rewrite length_app, Nat2Z.inj_add, !length_be_bytes; lia).
  unfold EcDhComputeKey. cbn [notnull negb andb]. rewrite HL, Hh. unfold INT_MAX. guard_false.
  rewrite Z.eqb_refl. cbn [negb]. by guard_true.
Qed.

(** The result, the shared key and the freed handle, in terms of what
    [EcDhComputeKey] returns for the size of the private key. *)
Lemma GenShare_run cid k (p q : party k) h buf ok v (w : W) :
  EcNewByNid cid = Some k -> 0 < EC_half k <= 1024 ->
  ecc_handle h = HNull -> curveid h = cid -> lv_value (ecc_sharedkey h) = Some buf ->
  0 <= lv_word (ecc_sharedkey h) < 2 ^ 32 -> zlen (py_priv p) < 2 ^ 32 ->
  EcDhComputeKey (Some (py_key p)) (Some (public_key q)) (zlen (public_key q)) None (Some buf)
    (Some (zlen (py_priv p))) = Some (ok, v, Some (EC_half k)) ->
  SBC_GenShareSeucrityKey (Some h) (Some (py_priv p)) (zlen (py_priv p))
    (Some (public_key q)) (zlen (public_key q)) w
  = (Ret (if ok then SBCOK else SBCFAIL,
          set_shared (set_handle h HFreed) (mkLV (EC_half k) v)), w).
Proof.
  intros HN Hb Hh Hc Hv Hw Hp HE. unfold SBC_GenShareSeucrityKey. mrun. rewrite Hh, Hc, HN.
  cbn [set_handle ecc_handle use_handle]. mrun. rewrite rdp_exact. mrun.
  rewrite (py_set _ p). cbn [set_handle ecc_sharedkey].
  assert (HW : lv_word (lv_set_length (ecc_sharedkey h) (zlen (py_priv p))) = zlen (py_priv p)).
  { unfold lv_set_length. cbn [lv_word].
    rewrite (u32_small (zlen (py_priv p))) by lia. rewrite ?u64_small by lia. Z.div_mod_to_equations. lia. }
  replace (lv_value (lv_set_length _ _)) with (Some buf) by (symmetry; exact Hv).
  rewrite HW, HE. mrun.
  cbn [set_shared ecc_handle use_handle]. mrun. unfold lv_set_word, set_handle, set_shared.
  cbn [ecc_pubkey ecc_privkey ecc_sharedkey curveid lv_value lv_set_value].
  rewrite u64_small by lia. by destruct ok.
Qed.


(** ** The key pair of a DICE seed *)

(** Writing the coordinates at the start of their fields. *)
Lemma wr_left (q : bytes) x y :
  zlen q = 64 -> 0 < x < 2 ^ 256 -> 0 < y < 2 ^ 256 ->
  (q ← wr q 0 (zeros 64); q ← wr q 0 (BN_bn2bin x); wr q 32 (BN_bn2bin y))
  = Some ((BN_bn2bin x ++ zeros (32 - BN_num_bytes x)) ++
          (BN_bn2bin y ++ zeros (32 - BN_num_bytes y)))%list.
Proof.
  intros Hq Hx Hy. pose proof (BN_num_bytes_le x 32 Hx). pose proof (BN_num_bytes_le y 32 Hy).
  pose proof (length_BN x ltac:(lia)). pose proof (length_BN y ltac:(lia)).
  rewrite wr_full by (rewrite length_zeros_nat; lia). cbn [mbind option_bind].
  change (zeros 64) with ([] ++ zeros 64)%list. rewrite wr_next by (cbn [length]; rewrite ?length_zeros_nat; lia).
  cbn [mbind option_bind app].
  assert (HD : forall z n, zlen (BN_bn2bin z) = BN_num_bytes z -> BN_num_bytes z <= n ->
    drop (length (BN_bn2bin z)) (zeros n) = zeros (n - BN_num_bytes z)).
  { intros z n HL Hn. unfold zeros. rewrite drop_replicate. f_equal. lia. }
  rewrite HD by lia. replace (64 - BN_num_bytes x) with ((32 - BN_num_bytes x) + 32) by lia.
  rewrite zeros_app by lia. rewrite app_assoc, wr_next.
  - by rewrite HD, <-!app_assoc by lia.
  - rewrite length_app, length_zeros_nat. lia.
  - rewrite length_zeros_nat. lia.
Qed.

(** C34: (functional) The key pair derived from a DICE seed: the private key is
    the seed modulo the order of the curve and the public key its multiple of
    the generator, each number written with its leading zero bytes left out
    (and the tail of the private key left as it was): the public key is that of
    [EcGetPubKey] exactly when both coordinates need all of their 32 bytes. *)
Theorem dice_seed_keypair (seed : bytes) key k k1 k2 P x y (w : W) :
  EC_KEY_new_by_curve_name NID_X9_62_prime256v1 = Some k -> 32 <= zlen seed ->
  0 < EC_order k <= 2 ^ 256 -> zlen (key_d key) = 32 -> zlen (key_q key) = 64 ->
  let d := BN_bin2bn (take 32 seed) mod EC_order k in
  EC_set_private k d = Some k1 -> EC_mulG k1 d = Some P -> EC_set_point k1 P = Some k2 ->
  EC_affine k2 P = Some (x, y) -> 0 < x -> 0 < y ->
  let q := ((BN_bn2bin x ++ zeros (32 - BN_num_bytes x)) ++
            (BN_bn2bin y ++ zeros (32 - BN_num_bytes y)))%list in
  SBC_DICESeedKeyPair seed key w
  = (Ret (SBCOK, mkKey (BN_bn2bin d ++ drop (length (BN_bn2bin d)) (key_d key)) q 32 64), w) /\
  exists p, EC_public k2 = Some p /\ (q = p <-> 2 ^ 248 <= x /\ 2 ^ 248 <= y).
Proof.
  intros HN Hsd Ho Hd Hq d H1 HM H2 HA Hx0 Hy0 q.
  destruct (ec_private _ _ _ H1) as [HP HC1]. destruct (ec_point _ _ _ H2) as [HG HC2].
  assert (HH : EC_half k2 = 32).
  { symmetry. apply ec_size_half. by rewrite HC2, HC1, (ec_new_curve _ _ HN). }
  destruct (ec_affine_range _ _ _ _ HA) as [Hx Hy]. rewrite HH in Hx, Hy.
  change (2 ^ (8 * 32)) with (2 ^ 256) in Hx, Hy. split.
  - pose proof (Z.mod_pos_bound (BN_bin2bn (take 32 seed)) (EC_order k) (proj1 Ho)) as Hdr. fold d in Hdr.
    assert (HDl : BN_num_bytes d <= 32).
    { destruct (decide (d = 0)) as [->|]; [done|]. apply BN_num_bytes_le; [|done].
      change (2 ^ (8 * 32)) with (2 ^ 256). lia. }
    unfold SBC_DICESeedKeyPair. rewrite HN. mrun. rewrite rd_some by lia. mrun.
    change (take (Z.to_nat 32) (drop (Z.to_nat 0) seed)) with (take 32 seed). fold d.
    rewrite H1. mrun. rewrite HP. mrun. rewrite wr_some by (rewrite ?length_BN; lia). mrun.
    rewrite HM. mrun. rewrite H2. mrun. rewrite HG. mrun. rewrite HA, HH.
    replace (_ || _) with false by (symmetry; apply orb_false_iff;
      split; apply Z.leb_gt; apply BN_num_bytes_pos; lia).
    cbn [key_q]. pose proof (wr_left (key_q key) x y Hq (conj Hx0 (proj2 Hx)) (conj Hy0 (proj2 Hy))) as HW.
    change (32 * 2) with 64. destruct (wr (key_q key) 0 (zeros 64)) as [q1|]; [|done].
    cbn [mbind option_bind] in HW. mrun. destruct (wr q1 0 (BN_bn2bin x)) as [q2|]; [|done].
    cbn [mbind option_bind] in HW. mrun. rewrite HW. by mrun.
  - eexists. split; [apply (ec_public_affine k2 P); done|]. rewrite HH. unfold q.
    rewrite <-(BN_num_bytes_full x 32), <-(BN_num_bytes_full y 32) by (done || lia).
    rewrite <-!be_left by lia. split; [|intros [-> ->]; done].
    intros HE. apply app_inj_1 in HE; [done|]. apply Nat2Z.inj.
    rewrite length_app, Nat2Z.inj_add, length_BN, length_zeros, length_be_bytes
      by (pose proof (BN_num_bytes_le x 32); lia). lia.
Qed.
End Laws.

(** ** The device certificate *)
Section DeviceId.
Context {W : Type} `{!Pool W, !BlockIo W, !OpenSSL, !EcOps W, !OpenSSLLaws}.

Lemma EcGetPubKey_no_room k : exists b n, EcGetPubKey k (Some (zeros 64)) (Some 0) = Some (false, b, n).
Proof.
  destruct k as [k|]; [|by eexists _, _]. pose proof (ec_half_pos k). unfold EcGetPubKey.
  cbn [notnull negb andb]. guard_true. by eexists _, _.
Qed.

(** C35: (error) [SBC_DeviceIdKyeVerify] never accepts a device certificate: it
    asks for the key of the certificate with a buffer size of 0, so that
    whatever the partition holds it does not return [SBCOK]. *)
Theorem device_id_never_ok key0 blkio devid deckey (w : W) r w' :
  SBC_DeviceIdKyeVerify key0 blkio devid deckey w = (Ret r, w') -> r <> SBCOK.
Proof.
  unfold SBC_DeviceIdKyeVerify. intros HR.
  apply bind_inv in HR as ([r1 kp] & w1 & _ & HR). destruct (sbc_is r1 SBCOK); [|by injection HR as <-].
  apply bind_inv in HR as (hnd & w2 & _ & HR).
  apply bind_inv in HR as (a & w3 & _ & HR). destruct a; [|by injection HR as <-].
  apply bind_inv in HR as ([r2 lb] & w4 & _ & HR).
  destruct (negb (sbc_is r2 SBCOK)) eqn:E2; [injection HR as <- _; intros ->; by rewrite sbc_is_refl in E2|].
  apply bind_inv in HR as (b & w5 & _ & HR). apply bind_inv in HR as (l & w6 & _ & HR).
  apply bind_inv in HR as ([r3 aes] & w7 & _ & HR).
  destruct (negb (sbc_is r3 SBCOK)); [by injection HR as <-|].
  apply bind_inv in HR as (g & w8 & _ & HR). apply bind_inv in HR as ([r4 k] & w9 & _ & HR).
  destruct (sbc_is r4 SBCOK); [|by injection HR as <-].
  destruct (EcGetPubKey_no_room k) as (p & n & HE). rewrite HE in HR. by injection HR as <-.
Qed.
End DeviceId.

(** ** Examples

    A curve whose points are the multiples themselves. *)
Section Examples.
#[local] Existing Instance toy_ssl.
#[local] Existing Instance toy_laws.

Definition toy_order : Z := 2 ^ 255.
(** A key of the example: the public point, then the private number. *)
Definition toy_pub (k : bytes) : bytes := take 64 (k ++ zeros 64).
Definition toy_ec : EcOps machine := {|
  EC_POINT := Z;
  EC_KEY_new_by_curve_name := fun nid => if nid =? 415 then Some (zeros 64) else None;
  EC_curve := fun _ => 415;
  EC_order := fun _ => toy_order;
  EC_get_private := fun k => if decide (length k = 96%nat) then Some (BN_bin2bn (drop 64 k)) else None;
  EC_set_private := fun k d => if (0 <=? d) && (d <? toy_order)
                               then Some (toy_pub k ++ be_bytes 32 d)%list else None;
  EC_get_point := fun k =>
    let x := BN_bin2bn (take 32 (toy_pub k)) in
    if decide (toy_pub k = be_bytes 32 x ++ be_bytes 32 (x + 1))%list then Some (x - 1) else None;
  EC_set_point := fun k P => if (0 <=? P) && (P <? toy_order)
                             then Some (be_bytes 32 (P + 1) ++ be_bytes 32 (P + 2) ++ drop 64 k)%list
                             else None;
  EC_mulG := fun _ d => Some (d mod toy_order);
  EC_affine := fun _ P => if (0 <=? P) && (P <? toy_order) then Some (P + 1, P + 2) else None;
  EC_of_affine := fun _ x y => if y =? x + 1 then Some (x - 1) else None;
  EC_of_compressed := fun _ x _ => Some (x - 1);
  EC_check_key := fun _ => true;
  ECDH_secret := fun k P => if decide (length k = 96%nat)
                            then Some (be_bytes 32 ((BN_bin2bn (drop 64 k) * P) mod toy_order)) else None;
  EC_KEY_generate_key := fun k => ret (Some (be_bytes 32 8 ++ be_bytes 32 9 ++ be_bytes 32 7)%list);
  ECDSA_do_sign := fun k h =>
    let r := BN_bin2bn h in
    let s := BN_bin2bn (take 32 k) in
    ret (if decide (be_bytes 32 r = h /\ be_bytes 32 s = take 32 k) then
           if (0 <? r) && (r <? 2 ^ 256) && (0 <? s) && (s <? 2 ^ 256) then Some (r, s) else None
         else None)
|}.
#[local] Existing Instance toy_ec.

Lemma length_be32 z : length (be_bytes 32 z) = 32%nat.
Proof. pose proof (length_be_bytes 32 z). lia. Qed.
Lemma be32_val z : 0 <= z < 2 ^ 256 -> BN_bin2bn (be_bytes 32 z) = z.
Proof. intros Hz. apply BN_bin2bn_be; [lia|exact Hz]. Qed.
Lemma length_toy_pub k : length (toy_pub k) = 64%nat.
Proof. unfold toy_pub. rewrite length_take, length_app. change (length (zeros 64)) with 64%nat. lia. Qed.

Lemma toy_pub_point x y rest :
  toy_pub (be_bytes 32 x ++ be_bytes 32 y ++ rest) = (be_bytes 32 x ++ be_bytes 32 y)%list.
Proof.
  unfold toy_pub. rewrite (app_assoc (be_bytes 32 x)), <-app_assoc. apply take_app_length'.
  by rewrite length_app, !length_be32.
Qed.

Lemma toy_get_set P rest :
  0 <= P < toy_order ->
  @EC_get_point _ _ toy_ec (be_bytes 32 (P + 1) ++ be_bytes 32 (P + 2) ++ rest)%list = Some P.
Proof.
  unfold toy_order. intros HP. cbn. rewrite toy_pub_point, (take_app_length' (be_bytes 32 (P + 1)))
    by (by rewrite length_be32).
  rewrite be32_val by lia. rewrite decide_True by (do 2 f_equal; lia). f_equal. lia.
Qed.

Lemma toy_ec_laws : EcLaws machine.
Proof.
  split.
  - cbn. intros nid k HN. split_if; [bool_hyp; by subst|done].
  - done.
  - done.
  - by intros k n [= <-].
  - cbn. intros k d k' HS. destruct (_ && _) eqn:ER in HS; [|done]. injection HS as <-. bool_hyp.
    split; [|done]. rewrite decide_True by (by rewrite length_app, length_toy_pub, length_be32).
    rewrite (drop_app_length' (toy_pub k)) by (by rewrite length_toy_pub).
    rewrite be32_val by (unfold toy_order in *; lia). done.
  - intros k P k' HS. cbn [EC_set_point toy_ec] in HS. destruct (_ && _) eqn:ER in HS; [|done].
    injection HS as <-. bool_hyp. split; [|done]. by apply toy_get_set.
  - intros k P x y HA. cbn [EC_affine toy_ec] in HA. destruct (_ && _) eqn:ER in HA; [|done].
    injection HA as <- <-. bool_hyp. cbn [EC_half toy_ssl]. unfold toy_order in *. lia.
  - intros k P x y HA. cbn [EC_affine EC_of_affine toy_ec] in *. destruct (_ && _) eqn:ER in HA; [|done].
    injection HA as <- <-. bool_hyp.
    replace (P + 2 =? P + 1 + 1) with true by (symmetry; apply Z.eqb_eq; lia). f_equal. lia.
  - intros k P x y HG HA _ _. cbn [EC_affine EC_get_point toy_ec] in *. case_decide as HD; [|done].
    injection HG as <-. destruct (_ && _) eqn:ER in HA; [|done]. injection HA as <- <-. change (EC_public k) with (Some (toy_pub k)).
    cbn [EC_half toy_ssl]. rewrite HD at 1. f_equal.
    f_equal; f_equal; lia.
  - cbn. intros k h w r s w' HS. injection HS as HS <-. case_decide as HD; [|done].
    destruct (_ && _) eqn:ER in HS; [|done]. injection HS as <- <-. bool_hyp. destruct HD as [HD1 HD2].
    split; [done|]. split; [done|]. apply bool_decide_eq_true. by rewrite HD1, HD2.
  - cbn. intros k P s HS. case_decide; [|done]. injection HS as <-. by rewrite length_be32.
Qed.
#[local] Existing Instance toy_ec_laws.

Definition ex_ec_key : @EC_KEY toy_ssl := (be_bytes 32 8 ++ be_bytes 32 9 ++ be_bytes 32 7)%list.
Definition ex_fresh : @EC_KEY toy_ssl := zeros 64.

Lemma ecdsa_sign_verify_witness :
  exists sg, SBC_EcDsaSign (Some (Some ex_ec_key)) (Some (CRYPTO_NID_SHA256, 32, Some (be_bytes 32 5)))
               (Some (mkLV 64 (Some (zeros 64)))) (ex_machine 1 1 0)
             = (Ret (SBCOK, Some sg), ex_machine 1 1 0) /\
    SBC_EcDsaVerify (Some (Some ex_ec_key)) (Some (CRYPTO_NID_SHA256, 32, Some (be_bytes 32 5)))
      (Some sg) (ex_machine 1 1 0) = (Ret SBCOK, ex_machine 1 1 0).
Proof.
  destruct (ecdsa_sign_verify ex_ec_key CRYPTO_NID_SHA256 32 (be_bytes 32 5) (zeros 64) 64
              (ex_machine 1 1 0) (5, 8) (ex_machine 1 1 0)) as (sg & HS & _ & HV);
    [reflexivity|reflexivity|lia|reflexivity|vm_compute; congruence|vm_compute; congruence| |].
  - apply run_ret. vm_compute. reflexivity.
  - exists sg. split; [exact HS|apply HV].
Defined.

Definition ex_party (n d : Z) (Hd : (0 <? n) && (0 <=? d) && (d <? 100) = true) : party ex_fresh.
Proof.
  assert (HD : 0 < n /\ 0 <= d < 100) by (bool_hyp; lia).
  assert (HB : BN_bin2bn (be_bytes n d) = d).
  { apply BN_bin2bn_be; [lia|]. assert (2 ^ 8 <= 2 ^ (8 * n)) by (apply Z.pow_le_mono_r; lia). lia. }
  refine (mkParty ex_fresh (be_bytes n d) (toy_pub (zeros 64) ++ be_bytes 32 d)%list d (d + 1, d + 2)
            (be_bytes 32 (d + 1) ++ be_bytes 32 (d + 2) ++ [])%list _ _ _ _ eq_refl).
  all: rewrite ?HB; cbn; unfold toy_order;
    try (replace ((0 <=? d) && (d <? 2 ^ 255)) with true
           by (symmetry; apply andb_true_intro; split; [apply Z.leb_le|apply Z.ltb_lt]; lia)).
  - reflexivity.
  - rewrite Z.mod_small by lia. reflexivity.
  - reflexivity.
  - reflexivity.
Defined.
Definition ex_ctx : SBCEccCtx :=
  mkEcc HNull (mkLV 0 None) (mkLV 0 None) (mkLV 0 (Some (zeros 32))) CRYPTO_NID_SECP256R1.


Lemma dice_seed_keypair_witness :
  exists key, SBC_DICESeedKeyPair (be_bytes 32 3) (mkKey (zeros 32) (zeros 64) 0 0) (ex_machine 1 1 0)
              = (Ret (SBCOK, key), ex_machine 1 1 0) /\
    exists p, toy_pub (be_bytes 32 4 ++ be_bytes 32 5) = p /\ key_q key <> p.
Proof.
  destruct (dice_seed_keypair (be_bytes 32 3) (mkKey (zeros 32) (zeros 64) 0 0) ex_fresh
              (toy_pub (zeros 64) ++ be_bytes 32 3)%list
              (be_bytes 32 4 ++ be_bytes 32 5 ++ drop 64 (toy_pub (zeros 64) ++ be_bytes 32 3))%list
              (3 : @EC_POINT _ _ toy_ec) 4 5 (ex_machine 1 1 0)) as (HR & p & HP & HQ);
    [reflexivity|vm_compute; congruence|vm_compute; split; congruence|reflexivity|reflexivity|
     vm_compute; reflexivity|vm_compute; reflexivity|vm_compute; reflexivity|vm_compute; reflexivity|lia|lia|].
  eexists. split; [exact HR|]. exists p. split; [|intros HE; apply HQ in HE; lia].
  by injection HP as <-.
Defined.

(** A partition with an encrypted certificate, and a seed. *)
Definition ex_devid_machine : machine :=
  let cert := replicate 64 3 in
  machine_of [disk_with 4096 [];
              disk_with (2 ^ 30)
                [(0, hdr_encode (ex_hdr 1 1 0));
                 (settings_lba * 512 + SYS_CONF_DEVID_CRT_OFS,
                  le_bytes 4 64 ++ cert ++ zeros 12 ++ toy_tag ex_key (zeros 12) [] cert)]]
    [] (mkHw [] []).

Lemma device_id_never_ok_witness :
  exists w', SBC_DeviceIdKyeVerify (mkKey (zeros 32) (zeros 64) 0 0) (Some 2) (be_bytes 32 3) (Some ex_key)
               ex_devid_machine = (Ret SBCFAIL, w') /\ SBCFAIL <> SBCOK.
Proof.
  eexists. assert (HR : fst (SBC_DeviceIdKyeVerify (mkKey (zeros 32) (zeros 64) 0 0) (Some 2)
    (be_bytes 32 3) (Some ex_key) ex_devid_machine) = Ret SBCFAIL) by (vm_compute; reflexivity).
  apply run_ret in HR. split; [exact HR|exact (device_id_never_ok _ _ _ _ _ _ _ HR)].
Defined.
End Examples.
