(* ===== verification/FileCtrl.v ===== *)
(** * Files (SBC_FileCtrl.c)

    The file accesses of the loaders over EFI_SIMPLE_FILE_SYSTEM_PROTOCOL and
    EFI_FILE_PROTOCOL, the search for the volume that holds a file, and the
    boot-mode file. *)
From stdpp Require Import base list strings.
From Stdlib Require Import ZArith Lia Ascii String.
From S2P Require Import Prelude Uefi RamDisk Sim RawPrt Crypto.
#[local] Open Scope Z_scope.

(** The characters of a string literal, with the terminating NUL. *)
Definition chars (s : string) : bytes :=
  map (fun c => Z.of_nat (nat_of_ascii c)) (list_ascii_of_string s) ++ [0].

Definition BOOT_MODE_FNAME : string := "\EFI\BOOT\bootmode".

(** [strncmp (a, b, n) == 0] of the C library, on NUL-terminated strings; a
    string that ends before its terminator is an undefined access. *)
Fixpoint strncmp0 (a b : bytes) (n : nat) : option bool :=
  match n with
  | O => Some true
  | S n =>
      match a, b with
      | x :: a, y :: b =>
          if negb (x =? y) then Some false
          else if x =? 0 then Some true
          else strncmp0 a b n
      | _, _ => None
      end
  end.

(** [_sbc_bm_lookup_key (key)]: the table is searched with one character less
    than each of its keys. *)
Definition bm_table : list (string * Z) :=
  [("normal", BOOT_MODE_NORMAL); ("update", BOOT_MODE_UPDATE); ("factory", BOOT_MODE_FACTORY)]%string.

Fixpoint bm_lookup (tb : list (string * Z)) (key : bytes) : option Z :=
  match tb with
  | [] => Some BOOT_MODE_UNKNOWN
  | (k, v) :: tb =>
      match strncmp0 (chars k) key (String.length k - 1) with
      | None => None
      | Some true => Some v
      | Some false => bm_lookup tb key
      end
  end.

Definition _sbc_bm_lookup_key (key : bytes) : option Z := bm_lookup bm_table key.

Section Files.
Context {W : Type} `{!Pool W, !FileSys W}.

(** [SBC_FindEfiFileSystemProtocol (handle)]: count and handle buffer. *)
Definition SBC_FindEfiFileSystemProtocol : M W (Z * list Z) :=
  let! (retval, hs) := LocateFs in
  if EFI_ERROR retval then ret (0, []) else ret (zlen hs, hs).

(** [SBC_FileSysFindHndl (handle)]: count and the first handle. *)
Definition SBC_FileSysFindHndl (handle : Z) : M W (Z * Z) :=
  let! (st, hs) := LocateFs in
  if EFI_ERROR st then ret (0, handle)
  else let! h := access (head hs) in ret (zlen hs, h).

(** [SBC_IsFlieAccess (ImageHandle, FileNames)]: the file is closed again,
    the volume is not. *)
Definition SBC_IsFlieAccess (ImageHandle : Z) (FileNames : string) : M W EFI_STATUS :=
  let! retval := FsProtocol ImageHandle in
  if EFI_ERROR retval then ret retval
  else
  let! (retval, RootDir) := OpenVolume ImageHandle in
  if EFI_ERROR retval then ret retval
  else
  let! (retval, File) := FOpen RootDir FileNames EFI_FILE_MODE_READ 0 in
  if EFI_ERROR retval then ret retval
  else FClose File ;! ret retval.

(** The search loop of [SBC_FindFileBufHndl] and [SBC_GetFileSize]: last
    status and index reached. *)
Fixpoint find_access (hs : list Z) (idx : Z) (path : string) (st : EFI_STATUS)
  : M W (EFI_STATUS * Z) :=
  match hs with
  | [] => ret (st, idx)
  | h :: hs =>
      let! st := SBC_IsFlieAccess h path in
      if EFI_ERROR st then find_access hs (idx + 1) path st else ret (st, idx)
  end.

(** [SBC_FindFileBufHndl (f_path, hndlcnt, hndl)]: status and [*hndlcnt]. *)
Definition SBC_FindFileBufHndl (f_path : option string) (hndlcnt : Z) (hndl : list Z)
  : M W (SBCStatus * Z) :=
  match f_path with
  | None => ret (SBCNULLP, hndlcnt)
  | Some path =>
      let! h0 := access (head hndl) in
      validate negb (h0 =? 0) else (SBCNULLP, hndlcnt) in
      let! (retval, idx) := find_access (take (Z.to_nat hndlcnt) hndl) 0 path EFI_SUCCESS in
      if EFI_ERROR retval then ret (SBCNOTFND, hndlcnt) else ret (SBCOK, idx)
  end.

(** [SBC_GetFileSize (FileName, FileSize)]: status and [*FileSize]. *)
Definition SBC_GetFileSize (FileName : string) (FileSize0 : Z) : M W (SBCStatus * Z) :=
  let! (hndlcnt, hs) := SBC_FindEfiFileSystemProtocol in
  if hndlcnt <=? 0 then ret (SBCFAIL, FileSize0)
  else
  let! (st, idx) := find_access hs 0 FileName EFI_SUCCESS in
  if EFI_ERROR st then ret (SBCFAIL, FileSize0)
  else
  let! h := access (hs !! Z.to_nat idx) in
  let! st := FsProtocol h in
  if EFI_ERROR st then ret (SBCFAIL, FileSize0)
  else
  let! (st, Root) := OpenVolume h in
  if EFI_ERROR st then ret (SBCFAIL, FileSize0)
  else
  let! (st, File) := FOpen Root FileName EFI_FILE_MODE_READ 0 in
  if EFI_ERROR st then FClose Root ;! ret (SBCFAIL, FileSize0)
  else
  let! (st, InfoSize) := FInfoSize File in
  if negb (st =? EFI_BUFFER_TOO_SMALL)
  then FClose File ;! FClose Root ;! ret (SBCFAIL, FileSize0)
  else
  let! a := AllocatePool InfoSize in
  if negb a then FClose File ;! FClose Root ;! ret (SBCFAIL, FileSize0)
  else
  let! (st, info) := FInfo File in
  let size := if EFI_ERROR st then FileSize0 else FileSize info in
  FClose File ;! FClose Root ;! ret (SBCOK, size).

(** [SBC_ReadFile (ImageHandle, FileNames, out)]: status and [*out].  The
    length word of [out] is the eight bytes at [&out->length]. *)
Definition SBC_ReadFile (ImageHandle : Z) (FileNames : string) (out : LV_t)
  : M W (EFI_STATUS * LV_t) :=
  let! st := FsProtocol ImageHandle in
  if EFI_ERROR st then ret (st, out)
  else
  let! (st, RootDir) := OpenVolume ImageHandle in
  if EFI_ERROR st then ret (st, out)
  else
  let! (st, File) := FOpen RootDir FileNames EFI_FILE_MODE_READ 0 in
  if EFI_ERROR st then ret (st, out)
  else
  let! (st, d) := FRead File (lv_word out) in
  if EFI_ERROR st then ret (st, out)
  else
  let! v := access (wrp (lv_value out) d) in
  FClose File ;! FClose RootDir ;! ret (st, mkLV (zlen d) v).

(** [SBC_WriteFile (ImageHandle, FileNames, out)]. *)
Definition SBC_WriteFile (ImageHandle : Z) (FileNames : string) (out : LV_t)
  : M W EFI_STATUS :=
  let! st := FsProtocol ImageHandle in
  if EFI_ERROR st then ret st
  else
  let! (st, RootDir) := OpenVolume ImageHandle in
  if EFI_ERROR st then ret st
  else
  let! (st, File) := FOpen RootDir FileNames
      (EFI_FILE_MODE_READ + EFI_FILE_MODE_WRITE + EFI_FILE_MODE_CREATE) 0 in
  if EFI_ERROR st then FClose RootDir ;! ret st
  else
  let! d := access (rdp (lv_value out) (lv_word out)) in
  let! st := FWrite File d in
  FClose File ;! FClose RootDir ;! ret st.

(** [SBC_LogWriteFile (ImageHandle, FileNames, out)] appends. *)
Definition SBC_LogWriteFile (ImageHandle : Z) (FileNames : string) (out : LV_t)
  : M W EFI_STATUS :=
  let! st := FsProtocol ImageHandle in
  if EFI_ERROR st then ret st
  else
  let! (st, RootDir) := OpenVolume ImageHandle in
  if EFI_ERROR st then ret st
  else
  let! (st, File) := FOpen RootDir FileNames (EFI_FILE_MODE_READ + EFI_FILE_MODE_WRITE) 0 in
  if EFI_ERROR st then ret st
  else
  let! _ := FSetPosition File (2 ^ 64 - 1) in
  let! d := access (rdp (lv_value out) (lv_word out)) in
  let! st := FWrite File d in
  if EFI_ERROR st then ret st
  else FClose File ;! FClose RootDir ;! ret st.

(** [SBC_IsDirExist (ImageHandle, DirectoryName)]. *)
Definition SBC_IsDirExist (ImageHandle : Z) (DirectoryName : string) : M W bool :=
  let! st := FsProtocol ImageHandle in
  if EFI_ERROR st then ret false
  else
  let! (st, RootFile) := OpenVolume ImageHandle in
  if EFI_ERROR st then ret false
  else
  let! (st, Target) := FOpen RootFile DirectoryName EFI_FILE_MODE_READ EFI_FILE_DIRECTORY in
  if EFI_ERROR st then FClose RootFile ;! ret false
  else
  let! (st, InfoSize) := FInfoSize Target in
  if st =? EFI_BUFFER_TOO_SMALL then
    let! a := AllocatePool InfoSize in
    if negb a then FClose Target ;! FClose RootFile ;! ret false
    else
    let! (st, info) := FInfo Target in
    let Exists := negb (EFI_ERROR st) &&
                  (Z.land (Attribute info) EFI_FILE_DIRECTORY =? EFI_FILE_DIRECTORY) in
    FClose Target ;! FClose RootFile ;! ret Exists
  else FClose Target ;! FClose RootFile ;! ret false.

(** [SBC_CreateFile (h, fname)] and [SBC_CreateDirectory (h, fname)]. *)
Definition create_node (attr : Z) (h : Z) (fname : string) : M W SBCStatus :=
  let! st := FsProtocol h in
  if EFI_ERROR st then ret SBCPROTO
  else
  let! (st, RootDir) := OpenVolume h in
  if EFI_ERROR st then ret SBCBADFMT
  else
  let! (st, File) := FOpen RootDir fname
      (EFI_FILE_MODE_READ + EFI_FILE_MODE_WRITE + EFI_FILE_MODE_CREATE) attr in
  if EFI_ERROR st then ret SBCBADFMT
  else FClose File ;! ret SBCOK.
Definition SBC_CreateFile : Z -> string -> M W SBCStatus := create_node 0.
Definition SBC_CreateDirectory : Z -> string -> M W SBCStatus := create_node EFI_FILE_DIRECTORY.

(** [SBC_ReadBootMode ()].  [pad] is what the stack holds in the four bytes
    after [rdlv.length], which the code does not initialise and which the read
    takes as the upper half of the buffer size. *)
Definition SBC_ReadBootMode (pad : Z) : M W Z :=
  let! (n, fhnd) := SBC_FileSysFindHndl 0 in
  if n <=? 0 then ret BOOT_MODE_UNKNOWN
  else
  validate negb (fhnd =? 0) else sbc_code SBCNULLP in
  let rdlv := _lv_set_data (mkLV (u32 pad * 2 ^ 32) None) (zeros 16) 16 in
  let! (st, rdlv) := SBC_ReadFile fhnd BOOT_MODE_FNAME rdlv in
  if negb (u32 st =? 0) then ret BOOT_MODE_UNKNOWN
  else
  let! rdbuf := access (lv_value rdlv) in
  let! m := access (_sbc_bm_lookup_key rdbuf) in
  ret (if m =? BOOT_MODE_NORMAL then BOOT_MODE_NORMAL
       else if m =? BOOT_MODE_UPDATE then BOOT_MODE_UPDATE
       else if m =? BOOT_MODE_FACTORY then BOOT_MODE_FACTORY
       else BOOT_MODE_UNKNOWN).
End Files.

(** ** Laws *)
Section FileLaws.
Context {W : Type} `{!Pool W, !PoolOk W, !FileSys W, !FileSysLaws W}.

#[global] Instance same_files_preorder : PreOrder (same_files (W := W) view).
Proof.
  split; [by split|]. intros w1 w2 w3 [Hv Hn] [Hv' Hn'].
  split; [congruence|]. intros v n. by rewrite Hn'.
Qed.

(** The path names something on the volume. *)
Definition present (w : W) (name : string) (h : Z) : bool :=
  match vol_node view w h name with Some _ => true | None => false end.

Lemma present_same w w' name h : same_files view w w' -> present w' name h = present w name h.
Proof. intros [_ Hn]. unfold present. by rewrite Hn. Qed.

Lemma IsFlieAccess_run h name w :
  In h (vols view w) ->
  exists st w', SBC_IsFlieAccess h name w = (Ret st, w') /\
    EFI_ERROR st = negb (present w name h) /\ same_files view w w'.
Proof.
  intros Hin. unfold SBC_IsFlieAccess. pose proof (fs_protocol h w Hin) as HP. mrun.
  change (EFI_ERROR EFI_SUCCESS) with false. cbv iota.
  destruct (fs_open_volume h w Hin) as (r & w1 & HV & Hr & H1). mrun.
  change (EFI_ERROR EFI_SUCCESS) with false. cbv iota.
  destruct (fs_open_read r h "" name w1 Hr) as (st & f & w2 & HO & H2 & Hn).
  change (join "" name) with name in Hn. mrun.
  assert (H12 : same_files view w w2) by (by transitivity w1).
  rewrite (proj2 H1 h name) in Hn. unfold present.
  destruct (vol_node view w h name) as [[c|]|]; [destruct Hn as [-> _]|destruct Hn as [-> _]|rewrite Hn].
  3: by exists st, w2.
  all: change (EFI_ERROR EFI_SUCCESS) with false; cbv iota;
    destruct (fs_close f w2) as (w3 & HC & H3); mrun; exists EFI_SUCCESS, w3;
    split; [done|]; split; [done|]; by transitivity w2.
Qed.

(** The search loop stops at the first volume that has the path. *)
Lemma find_access_run hs idx name st0 w :
  (forall h, In h hs -> In h (vols view w)) ->
  exists st w', same_files view w w' /\
    match list_find (fun h => present w name h) hs with
    | Some (i, _) => find_access hs idx name st0 w = (Ret (st, idx + Z.of_nat i), w') /\
                     EFI_ERROR st = false
    | None => find_access hs idx name st0 w = (Ret (st, idx + zlen hs), w') /\
              (hs <> [] -> EFI_ERROR st = true)
    end.
Proof.
  revert idx st0 w. induction hs as [|h hs IH]; intros idx st0 w Hin.
  - exists st0, w. split; [reflexivity|]. change (zlen []) with 0. rewrite Z.add_0_r. by split.
  - destruct (IsFlieAccess_run h name w) as (st & w1 & HA & Hst & H1); [apply Hin; by left|].
    cbn [list_find find_access]. rewrite (bind_eq _ _ _ _ _ HA). rewrite Hst.
    destruct (present w name h) eqn:Hp.
    + rewrite decide_True by done. exists st, w1. split; [done|]. change (Z.of_nat 0) with 0.
      by rewrite Z.add_0_r, Hst.
    + rewrite decide_False by (cbn; tauto). cbn [negb].
      destruct (IH (idx + 1) st w1) as (st' & w2 & H2 & HF).
      { intros k Hk. rewrite (proj1 H1). apply Hin. by right. }
      exists st', w2. split; [by transitivity w1|].
      rewrite (list_find_ext _ (fun h0 => present w name h0)) in HF
        by (intros k; by rewrite (present_same w w1)).
      destruct (list_find (fun h0 => present w name h0) hs) as [[i k]|]; cbn.
      * replace (idx + Z.of_nat (S i)) with (idx + 1 + Z.of_nat i) by lia. exact HF.
      * replace (idx + Z.of_nat (S (List.length hs))) with (idx + 1 + zlen hs) by lia.
        destruct HF as [HF HE]. split; [done|]. intros _.
        destruct hs; [|by apply HE]. cbn in HF. injection HF as <- _ _. by rewrite Hst.
Qed.

(** Reading a file of a volume into a buffer that can hold what is read. *)
Lemma ReadFile_run h name out b c w :
  In h (vols view w) -> vol_node view w h name = Some (Some c) ->
  lv_value out = Some b -> 0 <= lv_word out ->
  let d := take (Z.to_nat (lv_word out)) c in
  exists w', same_files view w w' /\
    SBC_ReadFile h name out w
    = if zlen d <=? zlen b
      then (Ret (EFI_SUCCESS, mkLV (zlen d) (Some (d ++ drop (List.length d) b)%list)), w')
      else (Fault, w').
Proof.
  intros Hin Hn Hb Hw d. unfold SBC_ReadFile. pose proof (fs_protocol h w Hin) as HP. mrun.
  change (EFI_ERROR EFI_SUCCESS) with false. cbv iota.
  destruct (fs_open_volume h w Hin) as (r & w1 & HV & Hr & H1). mrun.
  change (EFI_ERROR EFI_SUCCESS) with false. cbv iota.
  destruct (fs_open_read r h "" name w1 Hr) as (st & f & w2 & HO & H2 & Hc).
  change (join "" name) with name in Hc.
  rewrite (proj2 H1 h name), Hn in Hc. destruct Hc as [-> Hf]. mrun.
  change (EFI_ERROR EFI_SUCCESS) with false. cbv iota.
  destruct (fs_read f h name 0 c (lv_word out) w2) as (w3 & HR & H3); [done| |done|done|].
  { by rewrite (proj2 H2 h name), (proj2 H1 h name). }
  change (Z.to_nat 0) with 0%nat in HR. rewrite drop_0 in HR. fold d in HR. mrun.
  change (EFI_ERROR EFI_SUCCESS) with false. cbv iota. rewrite Hb.
  assert (H13 : same_files view w w3) by (transitivity w2; [by transitivity w1|done]).
  destruct (zlen d <=? zlen b) eqn:Hl; bool_hyp.
  - rewrite wrp_some by lia. mrun.
    destruct (fs_close f w3) as (w4 & HC4 & H4). destruct (fs_close r w4) as (w5 & HC5 & H5). mrun.
    exists w5. split; [|done]. transitivity w4; [by transitivity w3|done].
  - exists w3. split; [done|]. cbn [wrp]. rewrite wr_none by lia. by mrun.
Qed.

Lemma FindEfiFs_run w :
  SBC_FindEfiFileSystemProtocol w = (Ret (zlen (vols view w), vols view w), w).
Proof.
  unfold SBC_FindEfiFileSystemProtocol. pose proof (fs_locate w) as HL. mrun.
  by destruct (vols view w).
Qed.

Lemma GetFileSize_run name size0 i h c w :
  list_find (fun h => present w name h) (vols view w) = Some (i, h) ->
  vol_node view w h name = Some (Some c) ->
  exists w', same_files view w w' /\ SBC_GetFileSize name size0 w = (Ret (SBCOK, zlen c), w').
Proof.
  intros Hf Hn. apply list_find_Some in Hf as Hf'. destruct Hf' as (Hi & _ & _).
  assert (Hin : In h (vols view w)) by (by apply list_elem_of_In, list_elem_of_lookup_2 with i).
  unfold SBC_GetFileSize. pose proof (FindEfiFs_run w) as HL. mrun.
  assert (Hz : 0 < zlen (vols view w)) by (destruct (vols view w); [done|cbn [List.length]; lia]).
  guard_false.
  destruct (find_access_run (vols view w) 0 name EFI_SUCCESS w) as (st & w1 & H1 & HF); [done|].
  rewrite Hf in HF. destruct HF as [HF Hst]. mrun. rewrite Hst.
  replace (Z.to_nat (0 + Z.of_nat i)) with i by lia. rewrite Hi. mrun.
  assert (Hin1 : In h (vols view w1)) by (by rewrite (proj1 H1)).
  pose proof (fs_protocol h w1 Hin1) as HP. mrun.
  change (EFI_ERROR EFI_SUCCESS) with false. cbv iota.
  destruct (fs_open_volume h w1 Hin1) as (r & w2 & HV & Hr & H2). mrun.
  change (EFI_ERROR EFI_SUCCESS) with false. cbv iota.
  destruct (fs_open_read r h "" name w2 Hr) as (st' & f & w3 & HO & H3 & Hc).
  change (join "" name) with name in Hc.
  rewrite (proj2 H2 h name), (proj2 H1 h name), Hn in Hc. destruct Hc as [-> Hfo]. mrun.
  change (EFI_ERROR EFI_SUCCESS) with false. cbv iota.
  assert (H13 : same_files view w w3) by (transitivity w2; [by transitivity w1|done]).
  destruct (fs_info f h name 0 c w3) as (k & inf & HI1 & HI2 & Hsz); [done|by rewrite (proj2 H13)|].
  mrun. rewrite Z.eqb_refl. cbn [negb]. pose proof (alloc_ok k w3) as Ha. mrun. cbn [negb]. mrun.
  change (EFI_ERROR EFI_SUCCESS) with false. cbv iota. rewrite Hsz.
  destruct (fs_close f w3) as (w4 & HC4 & H4). destruct (fs_close r w4) as (w5 & HC5 & H5). mrun.
  exists w5. split; [|done]. transitivity w4; [by transitivity w3|done].
Qed.

(** The file [name] is found on the volume [h], the [i]th, with content [c]. *)
Definition first_file (w : W) (name : string) (i : nat) (h : Z) (c : bytes) : Prop :=
  list_find (fun h => present w name h) (vols view w) = Some (i, h) /\
  vol_node view w h name = Some (Some c).

Lemma first_file_in w name i h c :
  first_file w name i h c -> In h (vols view w) /\ vols view w !! i = Some h.
Proof.
  intros [Hf _]. apply list_find_Some in Hf as (Hi & _ & _). split; [|done].
  by apply list_elem_of_In, list_elem_of_lookup_2 with i.
Qed.

Lemma first_file_same w w' name i h c :
  same_files view w w' -> first_file w name i h c -> first_file w' name i h c.
Proof.
  intros HS [Hf Hn]. destruct HS as [Hv Hn']. split; [|by rewrite Hn'].
  rewrite Hv, <-Hf. apply list_find_ext. intros k. unfold present. by rewrite Hn'.
Qed.

(** A file read into a buffer of its size. *)
Lemma ReadFile_whole h name pad c w :
  In h (vols view w) -> vol_node view w h name = Some (Some c) -> 0 <= pad ->
  exists w', same_files view w w' /\
    SBC_ReadFile h name (mkLV (pad + zlen c) (Some (zeros (zlen c)))) w
    = (Ret (EFI_SUCCESS, mkLV (zlen c) (Some c)), w').
Proof.
  intros Hin Hn Hp.
  destruct (ReadFile_run h name (mkLV (pad + zlen c) (Some (zeros (zlen c)))) (zeros (zlen c)) c w
              Hin Hn) as (w' & Hs & HR); [done|cbn; lia|].
  exists w'. split; [done|]. cbn [lv_word] in HR.
  rewrite firstn_all2 in HR by lia. rewrite length_zeros, Z.leb_refl in HR by lia.
  rewrite HR, (drop_ge (zeros _)), app_nil_r; [done|].
  unfold zeros. rewrite length_replicate. lia.
Qed.

Lemma FindFileBufHndl_run name w :
  vols view w <> [] -> Forall (fun h => h <> 0) (vols view w) ->
  exists w', same_files view w w' /\
    SBC_FindFileBufHndl (Some name) (zlen (vols view w)) (vols view w) w
    = (Ret (match list_find (fun h => present w name h) (vols view w) with
            | Some (i, _) => (SBCOK, Z.of_nat i)
            | None => (SBCNOTFND, zlen (vols view w))
            end), w').
Proof.
  intros Hne Hnz. unfold SBC_FindFileBufHndl.
  destruct (find_access_run (vols view w) 0 name EFI_SUCCESS w) as (st & w' & Hs & HF); [done|].
  exists w'. split; [done|]. destruct (vols view w) as [|h0 hs] eqn:Hv; [done|].
  inversion Hnz; subst. cbn [head]. mrun. guard_true. rewrite Nat2Z.id, firstn_all.
  destruct (list_find _ (h0 :: hs)) as [[i k]|]; destruct HF as [HF He]; mrun.
  - by rewrite He.
  - by rewrite He.
Qed.

(** (functional) The file search: over the machine's volumes
    [SBC_FindFileBufHndl] returns [SBCOK] and the index of a volume on which the
    path exists and before which no volume has it, or [SBCNOTFND] when no volume
    has it; the files are unchanged, and a null path is reported as [SBCNULLP]. *)
Theorem find_file_first name w :
  vols view w <> [] -> Forall (fun h => h <> 0) (vols view w) ->
  (exists r n w', SBC_FindFileBufHndl (Some name) (zlen (vols view w)) (vols view w) w
                  = (Ret (r, n), w') /\ same_files view w w' /\
    (r = SBCOK -> exists h, vols view w !! Z.to_nat n = Some h /\ present w name h = true /\
       forall j k, (j < Z.to_nat n)%nat -> vols view w !! j = Some k -> present w name k = false) /\
    (r <> SBCOK -> r = SBCNOTFND /\ Forall (fun h => present w name h = false) (vols view w))) /\
  SBC_FindFileBufHndl None (zlen (vols view w)) (vols view w) w
  = (Ret (SBCNULLP, zlen (vols view w)), w).
Proof.
  intros Hne Hnz. split; [|done].
  destruct (FindFileBufHndl_run name w Hne Hnz) as (w' & Hs & HF).
  destruct (list_find _ _) as [[i k]|] eqn:Hf; eexists _, _, w'; (split; [exact HF|]);
    (split; [done|]); split; try done.
  - intros _. rewrite Nat2Z.id. apply list_find_Some in Hf as (Hi & Hp & Hb). exists k.
    split; [done|]. split; [by apply Is_true_true|]. intros j x Hj Hx.
    apply Is_true_false. by eapply Hb.
  - intros _. split; [done|]. apply list_find_None in Hf.
    eapply Forall_impl; [exact Hf|]. intros h Hh. by apply Is_true_false.
Qed.

(** (file read) For a file [c] of a volume, [SBC_ReadFile] delivers the
    first [min (size, |c|)] bytes, where [size] is the whole 64-bit word at
    [&out->length], sets that word to the number delivered, and keeps the rest of
    the buffer; when the buffer is smaller than what is delivered, the read writes
    outside it. *)
Theorem read_file_content h name out b c w :
  In h (vols view w) -> vol_node view w h name = Some (Some c) ->
  lv_value out = Some b -> 0 <= lv_word out ->
  exists w', same_files view w w' /\
    (Z.min (lv_word out) (zlen c) <= zlen b ->
     exists r, SBC_ReadFile h name out w = (Ret (EFI_SUCCESS, r), w') /\
       lv_word r = Z.min (lv_word out) (zlen c) /\
       lv_value r = Some (take (Z.to_nat (lv_word out)) c ++
                          drop (Z.to_nat (Z.min (lv_word out) (zlen c))) b)%list) /\
    (zlen b < Z.min (lv_word out) (zlen c) -> SBC_ReadFile h name out w = (Fault, w')).
Proof.
  intros Hin Hn Hb Hw. destruct (ReadFile_run h name out b c w Hin Hn Hb Hw) as (w' & Hs & HR).
  exists w'. split; [done|]. rewrite HR, length_take. split; intros Hl.
  - guard_true. eexists. split; [done|]. cbn [lv_word lv_value]. split; [lia|].
    do 3 f_equal. lia.
  - by guard_false.
Qed.
End FileLaws.

(** ** The boot-mode file *)
Section BootMode.
Lemma strncmp0_spec a b n :
  (n <= List.length a)%nat -> (n <= List.length b)%nat -> Forall (fun x => x <> 0) (take n a) ->
  strncmp0 a b n = Some (bool_decide (take n b = take n a)).
Proof.
  revert a b. induction n as [|n IH]; intros a b Ha Hb HF.
  { rewrite bool_decide_true by done. by destruct a. }
  destruct a as [|x a]; [cbn in Ha; lia|]. destruct b as [|y b]; [cbn in Hb; lia|].
  cbn [take] in *. inversion HF as [|?? Hx HF']; subst. cbn [strncmp0].
  destruct (x =? y) eqn:E; bool_hyp; cbn [negb].
  - subst y. guard_false. cbn [List.length] in Ha, Hb.
    rewrite IH by (try assumption; lia). f_equal.
    apply bool_decide_ext. split; congruence.
  - rewrite bool_decide_false; [done|]. congruence.
Qed.

(** The mode a 16-byte buffer selects. *)
Definition mode_of (key : bytes) : Z :=
  if bool_decide (take 5 key = take 5 (chars "normal")) then BOOT_MODE_NORMAL
  else if bool_decide (take 5 key = take 5 (chars "update")) then BOOT_MODE_UPDATE
  else if bool_decide (take 6 key = take 6 (chars "factory")) then BOOT_MODE_FACTORY
  else BOOT_MODE_UNKNOWN.

Lemma bm_lookup_spec key :
  (6 <= List.length key)%nat -> _sbc_bm_lookup_key key = Some (mode_of key).
Proof.
  intros Hl. unfold _sbc_bm_lookup_key, bm_table, mode_of. cbn [bm_lookup].
  change (String.length "normal" - 1)%nat with 5%nat.
  change (String.length "update" - 1)%nat with 5%nat.
  change (String.length "factory" - 1)%nat with 6%nat.
  rewrite !strncmp0_spec; try (cbn; lia);
    try (eapply bool_decide_unpack; vm_compute; exact I).
  by repeat case_bool_decide.
Qed.

Context {W : Type} `{!Pool W, !PoolOk W, !FileSys W, !FileSysLaws W}.

(** (boot-mode file) [SBC_ReadBootMode] looks for the file on the first
    volume only.  With zero padding it decides on the first five or six characters
    of the file's first 16 bytes ("norma", "updat", "factor"), every other file
    and a missing file giving BOOT_MODE_UNKNOWN; when the uninitialised padding of
    the length is not zero, a file longer than the 16-byte buffer overruns it. *)
Theorem read_boot_mode_spec h hs w :
  vols view w = h :: hs -> h <> 0 ->
  match vol_node view w h BOOT_MODE_FNAME with
  | Some (Some c) =>
      (exists w', SBC_ReadBootMode 0 w
         = (Ret (mode_of (take 16 c ++ drop (Nat.min 16 (List.length c)) (zeros 16))%list), w')) /\
      (forall pad, 0 < pad < 2 ^ 32 -> 16 < zlen c < 2 ^ 32 ->
         exists w', SBC_ReadBootMode pad w = (Fault, w'))
  | _ => True
  end.
Proof.
  intros Hv Hz. destruct (vol_node view w h BOOT_MODE_FNAME) as [[c|]|] eqn:Hn; try done.
  assert (Hin : In h (vols view w)) by (rewrite Hv; by left).
  assert (HL : SBC_FileSysFindHndl 0 w = (Ret (zlen (h :: hs), h), w)).
  { unfold SBC_FileSysFindHndl. pose proof (fs_locate w) as HL. rewrite Hv in HL. by mrun. }
  assert (Hp : forall pad, 0 <= pad < 2 ^ 32 ->
    _lv_set_data (mkLV (u32 pad * 2 ^ 32) None) (zeros 16) 16
    = mkLV (pad * 2 ^ 32 + 16) (Some (zeros 16))).
  { intros pad Hpad. unfold _lv_set_data, lv_set_length, lv_set_value. cbn [lv_word lv_value].
    rewrite (u32_small pad), (u32_small 16) by lia. rewrite u64_small by lia.
    by rewrite Z.div_mul by lia. }
  split.
  - unfold SBC_ReadBootMode. mrun. cbn [List.length]. guard_false. guard_true. rewrite Hp by lia.
    destruct (ReadFile_run h BOOT_MODE_FNAME (mkLV (0 * 2 ^ 32 + 16) (Some (zeros 16))) (zeros 16)
                c w Hin Hn) as (w' & _ & HR); [done|cbn; lia|]. cbn [lv_word] in HR.
    change (Z.to_nat (0 * 2 ^ 32 + 16)) with 16%nat in HR.
    rewrite length_take in HR. change (zlen (zeros 16)) with 16 in HR.
    exists w'. destruct (_ <=? 16) eqn:EL in HR; [|bool_hyp; lia]. mrun.
    change (u32 EFI_SUCCESS =? 0) with true. cbn [negb lv_value]. mrun.
    rewrite bm_lookup_spec by
      (rewrite length_app, length_take, length_drop; change (List.length (zeros 16)) with 16%nat; lia).
    mrun. unfold mode_of. by repeat case_bool_decide.
  - intros pad Hpad Hc. unfold SBC_ReadBootMode. mrun. cbn [List.length]. guard_false. guard_true.
    rewrite Hp by lia.
    destruct (ReadFile_run h BOOT_MODE_FNAME (mkLV (pad * 2 ^ 32 + 16) (Some (zeros 16))) (zeros 16)
                c w Hin Hn) as (w' & _ & HR); [done|cbn; lia|]. cbn [lv_word] in HR.
    rewrite length_take in HR. change (zlen (zeros 16)) with 16 in HR.
    exists w'. destruct (_ <=? 16) eqn:EL in HR; [bool_hyp; lia|]. by mrun.
Qed.
End BootMode.

(** ** Examples *)
Section Examples.
Definition ex_files : machine :=
  machine_of [] [("\efi\boot\bootmode", chars "update"); ("\a.txt", [1; 2; 3])]%string (mkHw [] []).

Lemma find_file_first_witness :
  exists r n w', SBC_FindFileBufHndl (Some "\A.TXT"%string) 1 [10] ex_files = (Ret (r, n), w') /\
    same_files view ex_files w'.
Proof.
  assert (Hne : vols view ex_files <> []) by (vm_compute; congruence).
  assert (Hnz : Forall (fun h => h <> 0) (vols view ex_files)) by (repeat constructor; lia).
  destruct (proj1 (find_file_first "\A.TXT" ex_files Hne Hnz)) as (r & n & w' & HF & Hs & _).
  exists r, n, w'. split; [exact HF|exact Hs].
Defined.

Lemma read_file_content_witness :
  exists w', same_files view ex_files w' /\ exists r,
    SBC_ReadFile 10 "\a.txt" (mkLV 8 (Some (zeros 8))) ex_files = (Ret (EFI_SUCCESS, r), w') /\
    lv_value r = Some [1; 2; 3; 0; 0; 0; 0; 0].
Proof.
  destruct (read_file_content 10 "\a.txt" (mkLV 8 (Some (zeros 8))) (zeros 8) [1; 2; 3] ex_files)
    as (w' & Hs & HR & _); [by left|vm_compute; reflexivity|reflexivity|cbn; lia|].
  exists w'. split; [exact Hs|]. destruct HR as (r & HR & _ & Hv); [vm_compute; congruence|].
  exists r. split; [exact HR|exact Hv].
Defined.

Lemma read_boot_mode_spec_witness : exists w', SBC_ReadBootMode 0 ex_files = (Ret 2, w').
Proof.
  assert (HV : vols view ex_files = [10]) by (vm_compute; reflexivity).
  pose proof (read_boot_mode_spec 10 [] ex_files HV ltac:(lia)) as HB.
  assert (HN : vol_node view ex_files 10 BOOT_MODE_FNAME = Some (Some (chars "update")))
    by (vm_compute; reflexivity).
  rewrite HN in HB. destruct HB as ((w' & HB) & _). exists w'. exact HB.
Defined.
End Examples.
