(* ===== verification/Base64.v ===== *)
(** * Base64 and PEM (MdePkg/Library/BaseLib/String.c, SSBL/SBC_EccSignVeriify.c)

    [Base64Encode] and [Base64Decode] of BaseLib and the PEM writer of the
    loaders, [SBC_ConvertRawKeyPem].  The decoder is the inverse of the encoder;
    the PEM writer fills its buffer exactly, and puts the NUL that ends the
    encoded text into the PEM text. *)
From stdpp Require Import base list strings.
From Stdlib Require Import ZArith Lia String.
From S2P Require Import Prelude Uefi RamDisk Sim RawPrt Crypto FileCtrl.
#[local] Open Scope Z_scope.

Definition MAX_ADDRESS : Z := 2 ^ 64 - 1.

Definition EncodingTable : bytes :=
  chars "ABCDEFGHIJKLMNOPQRSTUVWXYZabcdefghijklmnopqrstuvwxyz0123456789+/".
(** [EncodingTable[i]]; the indices below are six-bit values. *)
Definition enc (i : Z) : Z := nth (Z.to_nat i) EncodingTable 0.
Definition PAD : Z := 61.

(** The [while] loop over groups of three bytes and the [switch] on the rest. *)
Fixpoint enc_chars (s : bytes) : bytes :=
  match s with
  | [] => []
  | [a] => [enc (Z.shiftr (Z.land a 252) 2); enc (Z.shiftl (Z.land a 3) 4); PAD; PAD]
  | [a; b] =>
      [enc (Z.shiftr (Z.land a 252) 2);
       enc (Z.shiftl (Z.land a 3) 4 + Z.shiftr (Z.land b 240) 4);
       enc (Z.shiftl (Z.land b 15) 2); PAD]
  | a :: b :: c :: s =>
      enc (Z.shiftr (Z.land a 252) 2) ::
      enc (Z.shiftl (Z.land a 3) 4 + Z.shiftr (Z.land b 240) 4) ::
      enc (Z.shiftl (Z.land b 15) 2 + Z.shiftr (Z.land c 192) 6) ::
      enc (Z.land c 63) :: enc_chars s
  end.

(** A pointer to a buffer: its address and its bytes; [None] is NULL. *)
Definition ptr : Type := option (Z * bytes).
Definition addr (p : ptr) : Z := match p with Some (a, _) => a | None => 0 end.

(** [Base64Encode (Source, SourceLength, Destination, &DestinationSize)]: status,
    buffer and size; [None] for an access outside the buffers. *)
Definition Base64Encode (Source : ptr) (SourceLength : Z) (Destination : ptr)
    (DestinationSize : Z) : option (EFI_STATUS * ptr * Z) :=
  match Source with
  | None => Some (EFI_INVALID_PARAMETER, Destination, DestinationSize)
  | Some (sa, src) =>
      if SourceLength =? 0 then
        if DestinationSize <? 1 then Some (EFI_BUFFER_TOO_SMALL, Destination, 1)
        else match Destination with
             | None => None
             | Some (da, dst) => dst' ← wr dst 0 [0]; Some (EFI_SUCCESS, Some (da, dst'), 1)
             end
      else if (MAX_ADDRESS - sa <=? SourceLength)
              || (MAX_ADDRESS - addr Destination <=? DestinationSize)
      then Some (EFI_INVALID_PARAMETER, Destination, DestinationSize)
      else
        let RequiredSize := u64 (u64 (u64 (SourceLength + 2) / 3 * 4) + 1) in
        match Destination with
        | None => Some (EFI_BUFFER_TOO_SMALL, None, RequiredSize)
        | Some (da, dst) =>
            if DestinationSize <? RequiredSize
            then Some (EFI_BUFFER_TOO_SMALL, Destination, RequiredSize)
            else
              s ← rd src 0 SourceLength;
              dst' ← wr dst 0 (enc_chars s ++ [0])%list;
              Some (EFI_SUCCESS, Some (da, dst'), DestinationSize)
        end
  end.

(** ** Decoding *)
Record dec_state := mkDec {
  PaddingMode : bool; SixBitGroupsConsumed : Z; Accumulator : Z; DecSize : Z; DecBuf : option bytes
}.

Definition is_space (c : Z) : bool :=
  (c =? 9) || (c =? 10) || (c =? 11) || (c =? 12) || (c =? 13) || (c =? 32).

(** [Base64Value] of a character of the alphabet. *)
Definition base64_value (c : Z) : option Z :=
  if (65 <=? c) && (c <=? 90) then Some (c - 65)
  else if (97 <=? c) && (c <=? 122) then Some (26 + (c - 97))
  else if (48 <=? c) && (c <=? 57) then Some (52 + (c - 48))
  else if c =? 43 then Some 62
  else if c =? 47 then Some 63
  else None.

(** Storing an octet: outer [None] for an access outside the buffer. *)
Definition spill (osize : Z) (st : dec_state) (groups acc octet : Z) : option dec_state :=
  if DecSize st <? osize then
    b ← DecBuf st; b' ← wr b (DecSize st) [octet];
    Some (mkDec (PaddingMode st) groups acc (DecSize st + 1) (Some b'))
  else Some (mkDec (PaddingMode st) groups acc (DecSize st + 1) (DecBuf st)).

(** One round of the decoding loop: [inl] the state in which it returns
    RETURN_INVALID_PARAMETER, [inr] the state of the next round. *)
Definition dec_step (osize : Z) (st : dec_state) (c : Z) : option (dec_state + dec_state) :=
  let n := SixBitGroupsConsumed st in
  if is_space c then Some (inr st)
  else if PaddingMode st then
    if (c =? PAD) && (n =? 3)
    then Some (inr (mkDec true 0 (Accumulator st) (DecSize st) (DecBuf st)))
    else Some (inl st)
  else match base64_value c with
  | Some v =>
      let acc := Z.lor (u32 (Z.shiftl (Accumulator st) 6)) v in
      if n =? 0 then Some (inr (mkDec false 1 acc (DecSize st) (DecBuf st)))
      else if n =? 1 then inr <$> spill osize st 2 (Z.land acc 15) (u8 (Z.shiftr acc 4))
      else if n =? 2 then inr <$> spill osize st 3 (Z.land acc 3) (u8 (Z.shiftr acc 2))
      else inr <$> spill osize st 0 0 (u8 acc)
  | None =>
      if (c =? PAD) && ((n =? 2) || (n =? 3)) && (Accumulator st =? 0)
      then Some (inr (mkDec true (if n =? 2 then 3 else 0) (Accumulator st) (DecSize st) (DecBuf st)))
      else Some (inl st)
  end.

Fixpoint dec_loop (osize : Z) (st : dec_state) (s : bytes) : option (dec_state + dec_state) :=
  match s with
  | [] => Some (inr st)
  | c :: s =>
      r ← dec_step osize st c;
      match r with inl st => Some (inl st) | inr st => dec_loop osize st s end
  end.

(** [Base64Decode (Source, SourceSize, Destination, &DestinationSize)]; the size
    is meaningful with EFI_SUCCESS and EFI_BUFFER_TOO_SMALL only. *)
Definition Base64Decode (Source : ptr) (SourceSize : Z) (Destination : ptr)
    (DestinationSize : Z) : option (EFI_STATUS * ptr * Z) :=
  let invalid := Some (EFI_INVALID_PARAMETER, Destination, DestinationSize) in
  if match Source with
     | None => 0 <? SourceSize
     | Some (sa, _) => MAX_ADDRESS - sa <? SourceSize
     end then invalid
  else if match Destination with
     | None => 0 <? DestinationSize
     | Some (da, _) => MAX_ADDRESS - da <? DestinationSize
     end then invalid
  else if match Source, Destination with
     | Some (sa, _), Some (da, _) =>
         negb (sa + SourceSize <=? da) && negb (da + DestinationSize <=? sa)
     | _, _ => false
     end then invalid
  else
    s ← (match Source with None => Some [] | Some (_, src) => rd src 0 SourceSize end);
    r ← dec_loop DestinationSize (mkDec false 0 0 0 (snd <$> Destination)) s;
    let out (st : dec_state) : ptr := b ← DecBuf st; Some (addr Destination, b) in
    match r with
    | inl st => Some (EFI_INVALID_PARAMETER, out st, DecSize st)
    | inr st =>
        if negb (SixBitGroupsConsumed st =? 0) then Some (EFI_INVALID_PARAMETER, out st, DecSize st)
        else if DecSize st <=? DestinationSize then Some (EFI_SUCCESS, out st, DecSize st)
        else Some (EFI_BUFFER_TOO_SMALL, out st, DecSize st)
    end.

(** ** The PEM writer *)

(** [for (i = 0, j = 0; i < Base64Size; i++, j++)]: a newline after every 64
    characters but the last. *)
Fixpoint pem_body (s : bytes) (j : Z) : bytes :=
  match s with
  | [] => []
  | c :: s =>
      c :: (if ((j + 1) mod 64 =? 0) && negb (bool_decide (s = [])) then 10 :: pem_body s 0
            else pem_body s (j + 1))
  end.

(** The characters [AsciiStrLen] counts. *)
Definition ascii_chars (s : string) : bytes :=
  map (fun c => Z.of_nat (Ascii.nat_of_ascii c)) (list_ascii_of_string s).

(** The bytes written to [PemBuffer], before the final NUL. *)
Definition pem_text (PemHeader PemFooter b64 : bytes) : bytes :=
  (PemHeader ++ [10] ++ pem_body b64 0 ++ [10] ++ PemFooter ++ [10])%list.

Section Pem.
Context {W : Type} `{!Pool W}.

(** [SBC_ConvertRawKeyPem (DerData, DerSize, PemHeader, PemFooter, &PemKey,
    &PemKeySize)]: status, [*PemKey] and [*PemKeySize]; the header and the footer
    are NUL-terminated strings, [ba] is the address of the buffer for the encoded
    text.  [PemKey] and [PemKeySize] are not null. *)
Definition SBC_ConvertRawKeyPem (ba : Z) (DerData : ptr) (DerSize : Z) (PemHeader PemFooter : string)
  : M W (SBCStatus * option (bytes * Z)) :=
  let! (_, _, Base64Size) := access (Base64Encode DerData DerSize None 0) in
  let! a := AllocatePool Base64Size in
  validate a else (SBCNULLP, None) in
  let! (Status, Base64Encoded, Base64Size) :=
    access (Base64Encode DerData DerSize (Some (ba, zeros Base64Size)) Base64Size) in
  if EFI_ERROR Status then ret (SBCFAIL, None)
  else
  let NewlineCount := if Base64Size mod 64 =? 0 then u64 (Base64Size / 64 - 1) else Base64Size / 64 in
  let HeaderLen := zlen (ascii_chars PemHeader) in
  let FooterLen := zlen (ascii_chars PemFooter) in
  let TotalSize := u64 (HeaderLen + 1 + Base64Size + NewlineCount + 1 + FooterLen + 1 + 1) in
  let! a := AllocatePool TotalSize in
  validate a else (SBCNULLP, None) in
  let! b64 := access (b ← snd <$> Base64Encoded; rd b 0 Base64Size) in
  let text := pem_text (ascii_chars PemHeader) (ascii_chars PemFooter) b64 in
  let! PemBuffer := access (wr (zeros TotalSize) 0 (text ++ [0])%list) in
  ret (SBCOK, Some (PemBuffer, zlen text)).
End Pem.

(** ** The decoder inverts the encoder *)
Section Codec.
Lemma enc_value i : 0 <= i < 64 -> base64_value (enc i) = Some i /\ is_space (enc i) = false.
Proof.
  intros Hi.
  assert (HA : forallb (fun k => bool_decide (base64_value (enc k) = Some k) && negb (is_space (enc k)))
                 (seqZ 0 64) = true) by (vm_compute; reflexivity).
  rewrite forallb_forall in HA. specialize (HA i). rewrite andb_true_iff in HA.
  destruct HA as [HV HS]; [apply list_elem_of_In, elem_of_seqZ; lia|].
  apply bool_decide_eq_true in HV. apply negb_true_iff in HS. done.
Qed.

Lemma land_pow2 x k : 0 <= k -> Z.land x (2 ^ k - 1) = x mod 2 ^ k.
Proof. intros Hk. rewrite <-Z.land_ones by done. by rewrite Z.ones_equiv, Z.sub_1_r. Qed.

Lemma shiftr_field x m k n :
  0 <= k -> 0 <= n -> m = (2 ^ n - 1) * 2 ^ k -> Z.shiftr (Z.land x m) k = (x / 2 ^ k) mod 2 ^ n.
Proof.
  intros Hk Hn ->. rewrite Z.shiftr_land, !Z.shiftr_div_pow2, Z.div_mul by lia. by apply land_pow2.
Qed.

(** The six-bit indices of the encoder as arithmetic. *)
Lemma indices a b c :
  Z.shiftr (Z.land a 252) 2 = (a / 4) mod 64 /\ Z.shiftl (Z.land a 3) 4 = a mod 4 * 16 /\
  Z.shiftr (Z.land b 240) 4 = (b / 16) mod 16 /\ Z.shiftl (Z.land b 15) 2 = b mod 16 * 4 /\
  Z.shiftr (Z.land c 192) 6 = (c / 64) mod 4 /\ Z.land c 63 = c mod 64.
Proof.
  rewrite (shiftr_field a 252 2 6), (shiftr_field b 240 4 4), (shiftr_field c 192 6 2) by lia.
  change 3 with (2 ^ 2 - 1). change 15 with (2 ^ 4 - 1). change 63 with (2 ^ 6 - 1).
  rewrite !land_pow2, !Z.shiftl_mul_pow2 by lia. done.
Qed.

(** Feeding six bits to the accumulator. *)
Lemma feed acc v : 0 <= acc < 64 -> 0 <= v < 64 -> Z.lor (u32 (Z.shiftl acc 6)) v = acc * 64 + v.
Proof.
  intros Ha Hv. rewrite Z.shiftl_mul_pow2, u32_small, Z.lor_comm by lia.
  rewrite <-Z.shiftl_mul_pow2 by lia. rewrite Z.shiftl_mul_pow2 by lia. change (2 ^ 6) with 64.
  rewrite (Z.add_comm (acc * 64)). symmetry. apply Z.add_nocarry_lor.
  apply Z.bits_inj'. intros n Hn. rewrite Z.land_spec, Z.bits_0. change 64 with (2 ^ 6).
  destruct (decide (n < 6)) as [Hlt|Hge].
  - rewrite Z.mul_pow2_bits_low by lia. apply andb_false_r.
  - rewrite <-(Z.mod_small v (2 ^ 6)) by lia. by rewrite Z.mod_pow2_bits_high by lia.
Qed.

(** The buffer of the decoder: [d] decoded so far, [r] still free. *)
Definition at_quantum (pad : bool) (n acc : Z) (d r : bytes) : dec_state :=
  mkDec pad n acc (zlen d) (Some (d ++ r)%list).

Lemma spill_room pad n acc d x r osize g acc' o :
  zlen d < osize ->
  spill osize (at_quantum pad n acc d (x :: r)) g acc' o
  = Some (at_quantum pad g acc' (d ++ [o])%list r).
Proof.
  intros Hd. unfold spill, at_quantum. cbn [DecSize DecBuf PaddingMode]. guard_true. cbn [mbind option_bind].
  rewrite wr_some by (rewrite ?length_app; cbn [List.length]; lia). cbn [mbind option_bind].
  rewrite Nat2Z.id, take_app_length. rewrite drop_app_ge by lia.
  replace (List.length d + List.length [o] - List.length d)%nat with 1%nat by (cbn; lia).
  cbn [drop]. rewrite length_app, <-app_assoc. cbn [List.length app]. do 2 f_equal. lia.
Qed.

(** One character of the alphabet. *)
Lemma step_char osize n acc d r i :
  0 <= i < 64 -> 0 <= acc < 64 ->
  let acc' := acc * 64 + i in
  let st := at_quantum false n acc d r in
  dec_step osize st (enc i)
  = if n =? 0 then Some (inr (at_quantum false 1 acc' d r))
    else if n =? 1 then inr <$> spill osize st 2 (Z.land acc' 15) (u8 (Z.shiftr acc' 4))
    else if n =? 2 then inr <$> spill osize st 3 (Z.land acc' 3) (u8 (Z.shiftr acc' 2))
    else inr <$> spill osize st 0 0 (u8 acc').
Proof.
  intros Hi Ha. destruct (enc_value i Hi) as [HV HS].
  unfold dec_step, at_quantum. cbn [PaddingMode SixBitGroupsConsumed Accumulator DecSize DecBuf].
  rewrite HS, HV, feed by done. done.
Qed.

Lemma loop_cons osize st c s st' :
  dec_step osize st c = Some (inr st') -> dec_loop osize st (c :: s) = dec_loop osize st' s.
Proof. intros HS. cbn [dec_loop]. by rewrite HS. Qed.

(** The first two and the third character of a quantum. *)
Lemma quantum_two osize d x r i j s o :
  0 <= i < 64 -> 0 <= j < 64 -> o = i * 4 + j / 16 -> zlen d < osize ->
  dec_loop osize (at_quantum false 0 0 d (x :: r)) (enc i :: enc j :: s)
  = dec_loop osize (at_quantum false 2 (j mod 16) (d ++ [o])%list r) s.
Proof.
  intros Hi Hj -> Hd.
  rewrite (loop_cons _ _ _ _ (at_quantum false 1 i d (x :: r))) by (by rewrite step_char by lia).
  apply loop_cons. rewrite step_char by lia. cbn [Z.eqb]. change (1 =? 0) with false.
  change (1 =? 1) with true. cbv iota. rewrite spill_room by done. cbn [fmap option_fmap option_map].
  do 3 f_equal; [|f_equal].
  - change 15 with (2 ^ 4 - 1). rewrite land_pow2 by lia. Z.div_mod_to_equations. lia.
  - f_equal. rewrite Z.shiftr_div_pow2 by lia. unfold u8. Z.div_mod_to_equations. lia.
Qed.

Lemma quantum_third osize d x r acc k s o :
  0 <= acc < 16 -> 0 <= k < 64 -> o = acc * 16 + k / 4 -> zlen d < osize ->
  dec_loop osize (at_quantum false 2 acc d (x :: r)) (enc k :: s)
  = dec_loop osize (at_quantum false 3 (k mod 4) (d ++ [o])%list r) s.
Proof.
  intros Ha Hk -> Hd. apply loop_cons. rewrite step_char by lia.
  change (2 =? 0) with false. change (2 =? 1) with false. change (2 =? 2) with true. cbv iota.
  rewrite spill_room by done. cbn [fmap option_fmap option_map]. do 3 f_equal; [|f_equal].
  - change 3 with (2 ^ 2 - 1). rewrite land_pow2 by lia. Z.div_mod_to_equations. lia.
  - f_equal. rewrite Z.shiftr_div_pow2 by lia. unfold u8. Z.div_mod_to_equations. lia.
Qed.

Lemma quantum_last osize d x r acc k s o :
  0 <= acc < 4 -> 0 <= k < 64 -> o = acc * 64 + k -> zlen d < osize ->
  dec_loop osize (at_quantum false 3 acc d (x :: r)) (enc k :: s)
  = dec_loop osize (at_quantum false 0 0 (d ++ [o])%list r) s.
Proof.
  intros Ha Hk -> Hd. apply loop_cons. rewrite step_char by lia.
  change (3 =? 0) with false. change (3 =? 1) with false. change (3 =? 2) with false. cbv iota.
  rewrite spill_room by done. cbn [fmap option_fmap option_map]. do 4 f_equal. f_equal.
  unfold u8. apply Z.mod_small. lia.
Qed.

(** The padding characters. *)
Lemma pad_one osize n d r s :
  n = 2 \/ n = 3 ->
  dec_loop osize (at_quantum false n 0 d r) (PAD :: s)
  = dec_loop osize (at_quantum true (if n =? 2 then 3 else 0) 0 d r) s.
Proof. intros [-> | ->]; by apply loop_cons. Qed.
Lemma pad_two osize d r s :
  dec_loop osize (at_quantum true 3 0 d r) (PAD :: s) = dec_loop osize (at_quantum true 0 0 d r) s.
Proof. by apply loop_cons. Qed.

(** The text of [s] decodes to [s], from a quantum boundary on. *)
Lemma decode_enc_chars s : forall d r osize,
  all_bytes s -> zlen d + zlen s <= osize -> zlen s <= zlen r ->
  dec_loop osize (at_quantum false 0 0 d r) (enc_chars s)
  = Some (inr (at_quantum (negb (zlen s mod 3 =? 0)) 0 0 (d ++ s)%list (drop (List.length s) r))).
Proof.
  induction s as [s IH] using (induction_ltof1 _ (@List.length Z)). unfold ltof in IH.
  intros d r osize HB Ho Hr. unfold all_bytes, is_byte in HB.
  destruct s as [|a [|b [|c s]]]; cbn [enc_chars List.length] in *;
    repeat match goal with H : Forall _ (_ :: _) |- _ => apply Forall_cons in H as [? H] end.
  - cbn [dec_loop]. by rewrite app_nil_r, drop_0.
  - destruct r as [|x r]; [cbn in Hr; lia|].
    destruct (indices a 0 0) as (-> & -> & _). rewrite (quantum_two _ _ _ _ _ _ _ a)
      by (try lia; Z.div_mod_to_equations; lia).
    replace (a mod 4 * 16 mod 16) with 0 by (Z.div_mod_to_equations; lia).
    rewrite pad_one by auto. change (2 =? 2) with true. cbv iota. by rewrite pad_two.
  - destruct r as [|x [|y r]]; [cbn in Hr; lia..|].
    destruct (indices a b 0) as (-> & -> & -> & -> & _).
    rewrite (quantum_two _ _ _ _ _ _ _ a) by (try lia; Z.div_mod_to_equations; lia).
    rewrite (quantum_third _ _ _ _ _ _ _ b)
      by (rewrite ?length_app; cbn [List.length]; try lia; Z.div_mod_to_equations; lia).
    replace (b mod 16 * 4 mod 4) with 0 by (Z.div_mod_to_equations; lia).
    rewrite pad_one by auto. change (3 =? 2) with false. cbv iota. cbn [dec_loop].
    by rewrite <-app_assoc.
  - destruct r as [|x [|y [|z r]]]; [cbn in Hr; lia..|]. cbn [List.length] in Hr.
    destruct (indices a b c) as (-> & -> & -> & -> & -> & ->).
    rewrite (quantum_two _ _ _ _ _ _ _ a) by (try lia; Z.div_mod_to_equations; lia).
    rewrite (quantum_third _ _ _ _ _ _ _ b)
      by (rewrite ?length_app; cbn [List.length]; try lia; Z.div_mod_to_equations; lia).
    rewrite (quantum_last _ _ _ _ _ _ _ c)
      by (rewrite ?length_app; cbn [List.length]; try lia; Z.div_mod_to_equations; lia).
    rewrite IH; [|lia|done|rewrite !length_app; cbn [List.length]; lia|lia].
    rewrite <-!app_assoc. cbn [app drop]. do 3 f_equal.
    replace (Z.of_nat (S (S (S (List.length s))))) with (zlen s + 1 * 3) by lia.
    by rewrite Z.mod_add by lia.
Qed.

Lemma length_enc_chars s : zlen (enc_chars s) = (zlen s + 2) / 3 * 4.
Proof.
  induction s as [s IH] using (induction_ltof1 _ (@List.length Z)). unfold ltof in IH.
  destruct s as [|a [|b [|c s]]]; [done..|]. cbn [enc_chars List.length] in *.
  rewrite !Nat2Z.inj_succ, IH by lia. Z.div_mod_to_equations. lia.
Qed.

(** The size [Base64Encode] computes does not wrap where a buffer holds it. *)
Lemma required_size n : 0 <= n -> (n + 2) / 3 * 4 < MAX_ADDRESS ->
  u64 (u64 (u64 (n + 2) / 3 * 4) + 1) = (n + 2) / 3 * 4 + 1.
Proof.
  unfold MAX_ADDRESS. intros Hn Hm. assert (n + 2 < 2 ^ 64) by (Z.div_mod_to_equations; lia).
  assert (0 <= (n + 2) / 3) by (apply Z.div_pos; lia).
  rewrite (u64_small (n + 2)), (u64_small (_ * 4)), u64_small by lia. done.
Qed.

Lemma Base64Encode_query sa src : 0 < zlen src -> 0 <= sa -> sa + zlen src < MAX_ADDRESS ->
  (zlen src + 2) / 3 * 4 < MAX_ADDRESS ->
  Base64Encode (Some (sa, src)) (zlen src) None 0
  = Some (EFI_BUFFER_TOO_SMALL, None, (zlen src + 2) / 3 * 4 + 1).
Proof.
  intros Hn Hs Hsa Hr. unfold Base64Encode. cbn [addr]. do 2 guard_false. by rewrite required_size by lia.
Qed.

Lemma Base64Encode_small sa src da dst n : 0 < zlen src -> 0 <= sa -> 0 <= da -> sa + zlen src < MAX_ADDRESS ->
  (zlen src + 2) / 3 * 4 < MAX_ADDRESS -> 0 <= n <= (zlen src + 2) / 3 * 4 -> da + n < MAX_ADDRESS ->
  Base64Encode (Some (sa, src)) (zlen src) (Some (da, dst)) n
  = Some (EFI_BUFFER_TOO_SMALL, Some (da, dst), (zlen src + 2) / 3 * 4 + 1).
Proof.
  intros Hn Hs Hd Hsa Hr Hm Hda. unfold Base64Encode. cbn [addr]. do 2 guard_false.
  rewrite required_size by lia. by guard_true.
Qed.

Lemma Base64Encode_run sa src da dst :
  0 < zlen src -> 0 <= sa -> 0 <= da -> sa + zlen src < MAX_ADDRESS ->
  da + zlen dst < MAX_ADDRESS -> (zlen src + 2) / 3 * 4 < zlen dst ->
  Base64Encode (Some (sa, src)) (zlen src) (Some (da, dst)) (zlen dst)
  = Some (EFI_SUCCESS,
          Some (da, (enc_chars src ++ [0] ++ drop (S (List.length (enc_chars src))) dst)%list),
          zlen dst).
Proof.
  intros Hn Hs Hd Hsa Hda Hr. unfold Base64Encode. cbn [addr]. guard_false. guard_false.
  pose proof (length_enc_chars src) as HL. rewrite required_size by lia. guard_false.
  rewrite rd_all. cbn [mbind option_bind].
  rewrite wr_some by (rewrite ?length_app; cbn [List.length]; lia). cbn [mbind option_bind].
  change (Z.to_nat 0) with 0%nat. cbn [take app]. rewrite <-app_assoc, length_app. cbn [List.length app].
  by rewrite Nat.add_1_r.
Qed.

Lemma Base64Decode_run sa b s oa out :
  rd b 0 (zlen s) = Some s -> 0 <= sa -> sa + zlen s <= MAX_ADDRESS -> 0 <= oa ->
  oa + zlen out <= MAX_ADDRESS -> sa + zlen s <= oa \/ oa + zlen out <= sa ->
  Base64Decode (Some (sa, b)) (zlen s) (Some (oa, out)) (zlen out)
  = (r ← dec_loop (zlen out) (at_quantum false 0 0 [] out) s;
     let res (st : dec_state) : ptr := b ← DecBuf st; Some (oa, b) in
     match r with
     | inl st => Some (EFI_INVALID_PARAMETER, res st, DecSize st)
     | inr st =>
         if negb (SixBitGroupsConsumed st =? 0) then Some (EFI_INVALID_PARAMETER, res st, DecSize st)
         else if DecSize st <=? zlen out then Some (EFI_SUCCESS, res st, DecSize st)
         else Some (EFI_BUFFER_TOO_SMALL, res st, DecSize st)
     end).
Proof.
  intros Hs Ha Hb Hc Hm Ho. unfold Base64Decode. do 2 guard_false.
  replace (negb (sa + zlen s <=? oa) && negb (oa + zlen out <=? sa)) with false
    by (symmetry; apply andb_false_iff; rewrite !negb_false_iff, !Z.leb_le; lia).
  cbn [addr]. by rewrite Hs.
Qed.

(** Without a destination the decoder counts what it would store. *)
Definition no_buffer (st : dec_state) : dec_state :=
  mkDec (PaddingMode st) (SixBitGroupsConsumed st) (Accumulator st) (DecSize st) None.
Lemma spill_count osize st g acc o st' : 0 <= DecSize st ->
  spill osize st g acc o = Some st' ->
  spill 0 (no_buffer st) g acc o = Some (no_buffer st') /\ 0 <= DecSize st'.
Proof.
  intros Hn HS. assert (HD : PaddingMode st' = PaddingMode st /\ SixBitGroupsConsumed st' = g /\
    Accumulator st' = acc /\ DecSize st' = DecSize st + 1).
  { unfold spill in HS. destruct (DecSize st <? osize); [|by injection HS as <-].
    destruct (DecBuf st) as [b|]; [|done]. cbn [mbind option_bind] in HS.
    destruct (wr b (DecSize st) [o]); [|done]. by injection HS as <-. }
  destruct HD as (H1 & H2 & H3 & H4). unfold spill, no_buffer. cbn [DecSize DecBuf PaddingMode].
  guard_false. rewrite H1, H2, H3, H4. split; [done|lia].
Qed.
Lemma step_count osize st c st' : 0 <= DecSize st -> dec_step osize st c = Some (inr st') ->
  dec_step 0 (no_buffer st) c = Some (inr (no_buffer st')) /\ 0 <= DecSize st'.
Proof.
  intros Hn HS. unfold dec_step in *. cbn [no_buffer PaddingMode SixBitGroupsConsumed Accumulator DecSize DecBuf].
  repeat match type of HS with
  | context [if ?b then _ else _] => destruct b
  | match ?o with Some _ => _ | None => _ end = _ => destruct o
  | inr <$> ?o = _ => let E := fresh in destruct o eqn:E; [|discriminate HS];
      injection HS as <-; destruct (spill_count _ _ _ _ _ _ Hn E) as [-> ?]; done
  end; try discriminate HS; by injection HS as <-.
Qed.
Lemma loop_count osize s : forall st st', 0 <= DecSize st -> dec_loop osize st s = Some (inr st') ->
  dec_loop 0 (no_buffer st) s = Some (inr (no_buffer st')).
Proof.
  induction s as [|c s IH]; intros st st' Hn HL; cbn [dec_loop] in *; [by injection HL as <-|].
  destruct (dec_step osize st c) as [[st1|st1]|] eqn:E; [done| |done]. cbn [mbind option_bind] in HL.
  destruct (step_count _ _ _ _ Hn E) as [-> H1]. cbn [mbind option_bind]. by apply IH.
Qed.

(** C36: (roundtrip) Base64, for every non-empty byte string: asked without a
    destination, or with one that is too small, [Base64Encode] reports 4 characters
    per started group of three bytes and one for the NUL; given that much room it
    writes exactly that many characters and leaves the rest of the destination.
    [Base64Decode] of the characters, asked without a destination, reports the
    length of the original; given that much room, before or behind the text, it
    returns EFI_SUCCESS, that length, and exactly the original bytes, leaving the
    rest of the destination.  The conditions say that the buffers lie in the
    address space and that the text and the decoded bytes do not overlap. *)
Theorem base64_roundtrip sa src da dst oa out :
  all_bytes src -> 0 < zlen src -> 0 <= sa -> sa + zlen src < MAX_ADDRESS ->
  0 <= da -> da + zlen dst < MAX_ADDRESS -> 0 <= oa -> oa + zlen out <= MAX_ADDRESS ->
  let m := (zlen src + 2) / 3 * 4 in
  m < zlen dst -> da + m <= oa \/ oa + zlen out <= da -> zlen src <= zlen out ->
  Base64Encode (Some (sa, src)) (zlen src) None 0 = Some (EFI_BUFFER_TOO_SMALL, None, m + 1) /\
  (forall n, 0 <= n <= m -> Base64Encode (Some (sa, src)) (zlen src) (Some (da, dst)) n
    = Some (EFI_BUFFER_TOO_SMALL, Some (da, dst), m + 1)) /\
  exists text, zlen text = m /\
    let encoded := Some (da, (text ++ [0] ++ drop (Z.to_nat (m + 1)) dst)%list) in
    Base64Encode (Some (sa, src)) (zlen src) (Some (da, dst)) (zlen dst)
    = Some (EFI_SUCCESS, encoded, zlen dst) /\
    Base64Decode encoded m None 0 = Some (EFI_BUFFER_TOO_SMALL, None, zlen src) /\
    Base64Decode encoded m (Some (oa, out)) (zlen out)
    = Some (EFI_SUCCESS, Some (oa, (src ++ drop (List.length src) out)%list), zlen src).
Proof.
  intros HB Hn Hs Hsa Hd Hda Hoa Hob m Hm Hov Ho. pose proof (length_enc_chars src) as HL. fold m in HL.
  split; [apply Base64Encode_query; (done || fold m; lia)|].
  split; [intros n Hr; apply Base64Encode_small; (done || fold m; lia)|].
  exists (enc_chars src). split; [done|].
  replace (Z.to_nat (m + 1)) with (S (List.length (enc_chars src))) by lia.
  rewrite Base64Encode_run by (fold m; lia). split; [done|].
  pose proof (decode_enc_chars src [] out (zlen out) HB ltac:(cbn; lia) Ho) as HD.
  replace m with (zlen (enc_chars src)) by done. split.
  - unfold Base64Decode. do 2 guard_false. rewrite rd_app_l, rd_all by lia. cbn [mbind option_bind].
    apply loop_count in HD; [|cbn; lia]. unfold no_buffer, at_quantum in HD.
    cbn [PaddingMode SixBitGroupsConsumed Accumulator DecSize app List.length] in HD.
    change (Z.of_nat 0) with 0 in HD. cbn [fmap option_fmap option_map]. rewrite HD.
    cbn [mbind option_bind SixBitGroupsConsumed DecSize DecBuf]. change (0 =? 0) with true. cbn [negb].
    by guard_false.
  - rewrite Base64Decode_run by (try lia; rewrite rd_app_l by lia; apply rd_all). rewrite HD.
    cbn [mbind option_bind at_quantum SixBitGroupsConsumed DecSize DecBuf negb]. change (0 =? 0) with true.
    cbn [negb app]. guard_true. done.
Qed.
End Codec.

(** ** The PEM text *)
Section PemLaws.
Context {W : Type} `{!Pool W, !PoolOk W}.

(** The decoder skips white space. *)
Lemma dec_loop_filter osize s : forall st,
  dec_loop osize st s = dec_loop osize st (List.filter (fun c => negb (is_space c)) s).
Proof.
  induction s as [|c s IH]; intros st; [done|]. cbn [dec_loop List.filter].
  destruct (is_space c) eqn:E; cbn [negb].
  - unfold dec_step at 1. rewrite E. cbn [mbind option_bind]. apply IH.
  - cbn [dec_loop]. destruct (dec_step osize st c) as [[]|]; [done| |done]. apply IH.
Qed.

Lemma pem_body_filter s : forall j,
  List.filter (fun c => negb (is_space c)) (pem_body s j) = List.filter (fun c => negb (is_space c)) s.
Proof.
  induction s as [|c s IH]; intros j; [done|]. cbn [pem_body List.filter].
  assert (HR : forall b : bool, List.filter (fun c => negb (is_space c))
      (if b then 10 :: pem_body s 0 else pem_body s (j + 1))
    = List.filter (fun c => negb (is_space c)) s) by (intros []; apply IH).
  by rewrite HR.
Qed.

Lemma pem_body_decode osize st s : dec_loop osize st (pem_body s 0) = dec_loop osize st s.
Proof. rewrite dec_loop_filter, pem_body_filter. symmetry. apply dec_loop_filter. Qed.

(** One newline between each two lines of 64 characters. *)
Lemma length_pem_body s : forall j,
  s <> [] -> 0 <= j < 64 -> zlen (pem_body s j) = zlen s + (j + zlen s - 1) / 64.
Proof.
  induction s as [|c s IH]; intros j Hs Hj; [done|]. cbn [pem_body List.length].
  destruct s as [|c' s].
  { rewrite andb_false_r. cbn [pem_body List.length]. rewrite Z.div_small; lia. }
  replace (bool_decide (c' :: s = [])) with false by (symmetry; by apply bool_decide_eq_false).
  cbn [negb]. rewrite andb_true_r. destruct ((j + 1) mod 64 =? 0) eqn:E; bool_hyp.
  - assert (j = 63) as -> by (Z.div_mod_to_equations; lia).
    remember (c' :: s) as t eqn:Et. cbn [List.length]. rewrite !Nat2Z.inj_succ, IH by (subst; done || lia).
    replace (63 + Z.succ (zlen t) - 1) with (0 + zlen t - 1 + 1 * 64) by lia.
    rewrite Z.div_add by lia. lia.
  - assert (j <> 63) by (intros ->; done).
    remember (c' :: s) as t eqn:Et. rewrite !Nat2Z.inj_succ, IH by (subst; done || lia).
    replace (j + 1 + zlen t - 1) with (j + Z.succ (zlen t) - 1) by lia. lia.
Qed.

(** The character that follows the encoded text is outside the alphabet. *)
Lemma decode_nul osize s d r :
  all_bytes s -> zlen d + zlen s <= osize -> zlen s <= zlen r ->
  exists st, dec_loop osize (at_quantum false 0 0 d r) (enc_chars s ++ [0])%list = Some (inl st).
Proof.
  intros HB Ho Hr. pose proof (decode_enc_chars s d r osize HB Ho Hr) as HD.
  assert (HA : forall t st st', dec_loop osize st t = Some (inr st') ->
    dec_loop osize st (t ++ [0])%list = dec_loop osize st' [0]).
  { induction t as [|c t IH]; intros st st' HT; cbn [dec_loop app] in *.
    - by injection HT as ->.
    - destruct (dec_step osize st c) as [[]|]; cbn [mbind option_bind] in *; [done| |done].
      by apply IH. }
  rewrite (HA _ _ _ HD). destruct (negb _); by eexists.
Qed.

Lemma enc_chars_range s :
  0 < zlen s < 2 ^ 60 -> 0 < zlen (enc_chars s) < 2 ^ 62 /\ enc_chars s <> [].
Proof.
  intros Hn. pose proof (length_enc_chars s) as HL.
  assert (HQ : 0 < zlen (enc_chars s) < 2 ^ 62) by (rewrite HL; Z.div_mod_to_equations; lia).
  split; [done|]. intros HE. rewrite HE in HQ. cbn in HQ. lia.
Qed.

(** The number of newlines the code computes. *)
Lemma newline_count N :
  0 < N < 2 ^ 63 ->
  (if N mod 64 =? 0 then u64 (N / 64 - 1) else N / 64) = (N - 1) / 64.
Proof.
  intros HN. destruct (N mod 64 =? 0) eqn:E; bool_hyp; [rewrite u64_small|];
    Z.div_mod_to_equations; lia.
Qed.

Lemma ConvertRawKeyPem_run ba sa der PemHeader PemFooter (w : W) :
  0 < zlen der < 2 ^ 60 -> 0 <= sa -> sa + zlen der < MAX_ADDRESS -> 0 <= ba < 2 ^ 62 ->
  zlen (ascii_chars PemHeader) < 2 ^ 60 -> zlen (ascii_chars PemFooter) < 2 ^ 60 ->
  let text := pem_text (ascii_chars PemHeader) (ascii_chars PemFooter) (enc_chars der ++ [0])%list in
  SBC_ConvertRawKeyPem ba (Some (sa, der)) (zlen der) PemHeader PemFooter w
  = (Ret (SBCOK, Some ((text ++ [0])%list, zlen text)), w).
Proof.
  intros Hn Hs Hsa Hba Hh Hf text. pose proof (length_enc_chars der) as HL.
  destruct (enc_chars_range der Hn) as [HQ _].
  set (N := zlen (enc_chars der) + 1). assert (HN : N = zlen (enc_chars der) + 1) by done.
  unfold SBC_ConvertRawKeyPem.
  assert (H1 : Base64Encode (Some (sa, der)) (zlen der) None 0 = Some (EFI_BUFFER_TOO_SMALL, None, N)).
  { unfold Base64Encode. cbn [addr]. do 2 guard_false. rewrite HN, HL.
    rewrite (u64_small (zlen der + 2)), (u64_small (_ * 4)), u64_small by lia. done. }
  rewrite H1. mrun. pose proof (alloc_ok N w) as HA. mrun.
  assert (Hz : zlen (zeros N) = N) by (apply length_zeros; lia).
  pose proof (Base64Encode_run sa der ba (zeros N)) as H2. rewrite Hz in H2.
  rewrite H2 by (unfold MAX_ADDRESS in *; lia). mrun.
  change (EFI_ERROR EFI_SUCCESS) with false. cbv iota zeta. rewrite newline_count by lia.
  set (T := u64 _).
  assert (HT : T = zlen text + 1).
  { unfold T, text, pem_text. rewrite !length_app, !Nat2Z.inj_add, length_pem_body
      by (try lia; by destruct (enc_chars der)).
    rewrite length_app, Nat2Z.inj_add. cbn [List.length]. change (Z.of_nat 1) with 1. fold N.
    rewrite Z.add_0_l, u64_small by (Z.div_mod_to_equations; lia). lia. }
  pose proof (alloc_ok T w) as HA2. mrun.
  rewrite drop_ge by lia. cbn [mbind option_bind fmap option_fmap option_map snd app].
  replace N with (zlen (enc_chars der ++ [0])%list) at 1 by (rewrite length_app; cbn; lia).
  rewrite rd_all. mrun. fold text.
  rewrite wr_some by (first [lia|rewrite length_zeros, length_app; cbn [List.length]; lia]).
  change (Z.to_nat 0) with 0%nat. cbn [take app]. rewrite drop_ge, app_nil_r
    by (rewrite length_app; unfold zeros; rewrite length_replicate; cbn [List.length]; lia).
  by mrun.
Qed.

(** (bounds) The PEM writer: for every non-empty key that fits in memory
    [SBC_ConvertRawKeyPem] returns SBCOK with a buffer that the text and its NUL
    fill exactly: header, newline, the encoded key in lines of 64 characters,
    newline, footer, newline.  The encoded key includes the NUL that ends the
    Base64 text, so that [Base64Decode] rejects the body it writes; the same lines
    without that NUL decode to the key. *)
Theorem pem_text_layout ba sa der PemHeader PemFooter (w : W) :
  all_bytes der -> 0 < zlen der < 2 ^ 60 -> 0 <= sa -> sa + zlen der < MAX_ADDRESS ->
  0 <= ba < 2 ^ 62 -> zlen (ascii_chars PemHeader) < 2 ^ 60 -> zlen (ascii_chars PemFooter) < 2 ^ 60 ->
  let body := pem_body (enc_chars der ++ [0])%list 0 in
  let text := (ascii_chars PemHeader ++ [10] ++ body ++ [10] ++ ascii_chars PemFooter ++ [10])%list in
  SBC_ConvertRawKeyPem ba (Some (sa, der)) (zlen der) PemHeader PemFooter w
  = (Ret (SBCOK, Some ((text ++ [0])%list, zlen text)), w) /\
  forall pa oa out, 0 <= pa -> pa + zlen body <= oa -> oa + zlen out <= MAX_ADDRESS ->
    zlen der <= zlen out ->
    (exists p k, Base64Decode (Some (pa, body)) (zlen body) (Some (oa, out)) (zlen out)
                 = Some (EFI_INVALID_PARAMETER, p, k)) /\
    let lines := pem_body (enc_chars der) 0 in
    Base64Decode (Some (pa, lines)) (zlen lines) (Some (oa, out)) (zlen out)
    = Some (EFI_SUCCESS, Some (oa, (der ++ drop (List.length der) out)%list), zlen der).
Proof.
  intros HB Hn Hs Hsa Hba Hh Hf body text. split; [by apply ConvertRawKeyPem_run|].
  intros pa oa out Hp Hpo Hoo Ho. destruct (enc_chars_range der Hn) as [HQ Hne]. split.
  - rewrite (Base64Decode_run pa body body) by (try lia; apply rd_all).
    unfold body. rewrite pem_body_decode.
    destruct (decode_nul (zlen out) der [] out HB) as [st HD]; [cbn; lia|lia|].
    rewrite HD. by eexists _, _.
  - intros lines.
    assert (Hlen : zlen lines <= zlen body).
    { unfold lines, body. rewrite !length_pem_body by (try lia; done || by destruct (enc_chars der)).
      rewrite length_app. cbn [List.length]. Z.div_mod_to_equations. lia. }
    rewrite (Base64Decode_run pa lines lines) by (try lia; apply rd_all).
    unfold lines. rewrite pem_body_decode, decode_enc_chars by (done || cbn; lia).
    cbn [mbind option_bind at_quantum SixBitGroupsConsumed DecSize DecBuf negb].
    change (0 =? 0) with true. cbn [negb app]. by guard_true.
Qed.
End PemLaws.

(** ** Examples *)
Section Examples.
Example enc_man : enc_chars [77; 97; 110; 77; 97] = ascii_chars "TWFuTWE=".
Proof. reflexivity. Qed.

Lemma base64_roundtrip_witness :
  exists text, zlen text = 8 /\
    Base64Decode (Some (200, (text ++ [0] ++ zeros 3)%list)) 8 (Some (300, zeros 5)) 5
    = Some (EFI_SUCCESS, Some (300, [77; 97; 110; 77; 97]), 5).
Proof.
  destruct (base64_roundtrip 100 [77; 97; 110; 77; 97] 200 (zeros 12) 300 (zeros 5))
    as (_ & _ & text & HL & _ & _ & HD);
    [unfold all_bytes, is_byte; repeat constructor; lia|vm_compute; congruence..
    |left; vm_compute; congruence|vm_compute; congruence|].
  exists text. split; [exact HL|exact HD].
Defined.

Lemma pem_text_layout_witness :
  fst (SBC_ConvertRawKeyPem 200 (Some (100, [77; 97; 110])) 3 "-----BEGIN" "-----END" (ex_machine 1 1 0))
  = Ret (SBCOK, Some ((ascii_chars "-----BEGIN" ++ [10] ++ (ascii_chars "TWFu" ++ [0]) ++ [10] ++
                       ascii_chars "-----END" ++ [10; 0])%list, 26)).
Proof.
  destruct (pem_text_layout 200 100 [77; 97; 110] "-----BEGIN" "-----END" (ex_machine 1 1 0)) as [HP _];
    [unfold all_bytes, is_byte; repeat constructor; lia|vm_compute; split; congruence
    |vm_compute; congruence|vm_compute; congruence|vm_compute; split; congruence
    |vm_compute; congruence|vm_compute; congruence|].
  exact (f_equal fst HP).
Defined.
End Examples.
