(* ===== verification/BootImage.v ===== *)
(** * Loading and starting images (SBC_LoadKernelImage.c)

    The boot loaders hand over to the next stage with LoadImage and StartImage:
    the FSBL starts SSBL.efi, the SSBL starts grubx64.efi, each from the first
    volume on which the image loads. *)
From stdpp Require Import base list strings gmap.
From Stdlib Require Import ZArith Lia String.
From S2P Require Import Prelude Uefi RamDisk Sim RawPrt Crypto FileCtrl.
#[local] Open Scope Z_scope.

Definition GRUB_EFI_PATH : string := "\EFI\rocky\grubx64.efi".
Definition SSBL_EFI_PATH : string := "\EFI\rocky\SSBL.efi".

Section Loaders.
Context {W : Type} `{!Pool W, !FileSys W, !ImageSvc W}.

(** The loop of [SBC_GRUB_LoadAndStart]: [break] after the first image that
    loads.  The status of LocateHandleBuffer is not looked at: after a failure the
    service leaves a count of 0 (CoreLocateHandleBuffer,
    MdeModulePkg/Core/Dxe/Hand/Locate.c), so that the loop does not run. *)
Fixpoint grub_loop (Handles : list Z) : M W SBCStatus :=
  match Handles with
  | [] => ret SBCOK
  | h :: Handles =>
      let! (Status, ImageHandle) := LoadImage h GRUB_EFI_PATH in
      if negb (EFI_ERROR Status) then
        let! _ := StartImage ImageHandle in ret SBCOK
      else grub_loop Handles
  end.
Definition SBC_GRUB_LoadAndStart : M W SBCStatus :=
  let! (_, Handles) := LocateFs in
  grub_loop Handles.

Fixpoint ssbl_loop (Handles : list Z) : M W SBCStatus :=
  match Handles with
  | [] => ret SBCFAIL
  | h :: Handles =>
      let! (Status, ImageHandle) := LoadImage h SSBL_EFI_PATH in
      if negb (EFI_ERROR Status) then
        let! _ := StartImage ImageHandle in ret SBCOK
      else ssbl_loop Handles
  end.
Definition SBC_SSBL_LoadAndStart : M W SBCStatus :=
  let! (_, Handles) := LocateFs in
  ssbl_loop Handles.

(** [LoadKernelImage (ImageHandle, SystemTable)], one round of its loop:
    [inl] the status it returns with, [inr tt] for [continue].  LoadImage gets
    the device path of the volume, not of the file. *)
Definition LoadKernelImage_handle (h : Z) : M W (EFI_STATUS + unit) :=
  let! Status := FsProtocol h in
  if EFI_ERROR Status then ret (inr tt)
  else
  let! (Status, Root) := OpenVolume h in
  if EFI_ERROR Status then ret (inr tt)
  else
  let! (Status, GrubFile) := FOpen Root GRUB_EFI_PATH EFI_FILE_MODE_READ 0 in
  if EFI_ERROR Status then FClose Root ;! ret (inr tt)
  else
  let! Status := DevicePathProtocol h in
  if EFI_ERROR Status then FClose GrubFile ;! FClose Root ;! ret (inl Status)
  else
  let! (Status, GrubImageHandle) := LoadImage h EmptyString in
  if EFI_ERROR Status then FClose GrubFile ;! FClose Root ;! ret (inr tt)
  else
  let! Status := StartImage GrubImageHandle in
  let! _ := UnloadImage GrubImageHandle in
  FClose GrubFile ;! FClose Root ;!
  ret (inl (if EFI_ERROR Status then Status else EFI_SUCCESS)).

Fixpoint LoadKernelImage_loop (hs : list Z) : M W EFI_STATUS :=
  match hs with
  | [] => ret EFI_NOT_FOUND
  | h :: hs =>
      let! r := LoadKernelImage_handle h in
      match r with inl st => ret st | inr _ => LoadKernelImage_loop hs end
  end.
Definition LoadKernelImage : M W EFI_STATUS :=
  let! (Status, hs) := LocateFs in
  if EFI_ERROR Status then ret Status else LoadKernelImage_loop hs.
End Loaders.

(** ** What the image services promise

    [loadable w h path]: the file named by the path on the volume is an image
    that LoadImage accepts; [image_of w i]: where the image [i] was loaded from;
    [started w]: the images that were given control.  An image that is started
    may return, reset the machine, or (an operating system) never come back. *)
Class ImageLaws (W : Type) `{!ImageSvc W} := {
  loadable : W -> Z -> string -> bool;
  image_of : W -> Z -> option (Z * string);
  started : W -> list (Z * string);
  load_run : forall h p w, exists st i w',
    LoadImage h p w = (Ret (st, i), w') /\ EFI_ERROR st = negb (loadable w h p) /\
    started w' = started w /\ (forall k q, loadable w' k q = loadable w k q) /\
    (EFI_ERROR st = false -> image_of w' i = Some (h, p));
  start_run : forall i w x, image_of w i = Some x ->
    exists o w', StartImage i w = (o, w') /\ started w' = started w ++ [x]
}.

Section LoaderLaws.
Context {W : Type} `{!Pool W, !FileSys W, !FileSysLaws W, !ImageSvc W, !ImageLaws W}.

(** The outcome of a hand-over: what StartImage did, [r] when it returned. *)
Definition handed_over (o : out SBCStatus) (r : SBCStatus) : Prop :=
  o = Ret r \/ o = Fault \/ exists k, o = Reset k.

(** Loading [path] from the first volume that has it, [dflt] when none has. *)
Definition starts_first (path : string) (dflt : SBCStatus) (hs : list Z) (w : W)
    (res : out SBCStatus * W) : Prop :=
  match list_find (fun h => loadable w h path) hs with
  | Some (_, h) => started (snd res) = started w ++ [(h, path)] /\ handed_over (fst res) SBCOK
  | None => started (snd res) = started w /\ fst res = Ret dflt
  end.

Lemma load_loop_run (loop : list Z -> M W SBCStatus) path dflt :
  (forall hs, loop hs = match hs with
     | [] => ret dflt
     | h :: hs =>
         let! (Status, ImageHandle) := LoadImage h path in
         if negb (EFI_ERROR Status) then let! _ := StartImage ImageHandle in ret SBCOK
         else loop hs
     end) ->
  forall hs w, starts_first path dflt hs w (loop hs w).
Proof.
  intros HL hs. induction hs as [|h hs IH]; intros w; rewrite HL; [done|].
  destruct (load_run h path w) as (st & i & w1 & HR & Hst & Hs1 & Hl1 & Hi). mrun.
  unfold starts_first. cbn [list_find]. rewrite Hst.
  destruct (loadable w h path) eqn:El; cbn [negb] in *.
  - rewrite decide_True by done.
    destruct (start_run i w1 _ (Hi Hst)) as (o & w2 & HS & Hs2).
    unfold handed_over, bind. rewrite HS, <-Hs1, <-Hs2.
    destruct o as [s| |k]; (split; [done|]); [by left|by right; left|by right; right; exists k].
  - rewrite decide_False by (cbn; tauto). specialize (IH w1). unfold starts_first in IH.
    rewrite (list_find_ext _ (fun k => loadable w k path)) in IH by (intros k; by rewrite Hl1).
    rewrite Hs1 in IH. destruct (list_find _ hs) as [[j k]|]; exact IH.
Qed.

(** (functional) Handing over to GRUB: [SBC_GRUB_LoadAndStart] starts
    grubx64.efi from the first volume on which it loads, and nothing else; when no
    volume has a loadable image it starts nothing and still returns SBCOK. *)
Theorem grub_load_and_start w :
  starts_first GRUB_EFI_PATH SBCOK (vols view w) w (SBC_GRUB_LoadAndStart w).
Proof.
  unfold SBC_GRUB_LoadAndStart. pose proof (fs_locate w) as HL. mrun.
  apply load_loop_run. by intros [].
Qed.

(** (functional) Handing over to the second stage: [SBC_SSBL_LoadAndStart]
    starts SSBL.efi from the first volume on which it loads, and nothing else, and
    reports SBCFAIL when no volume has it. *)
Theorem ssbl_load_and_start w :
  starts_first SSBL_EFI_PATH SBCFAIL (vols view w) w (SBC_SSBL_LoadAndStart w).
Proof.
  unfold SBC_SSBL_LoadAndStart. pose proof (fs_locate w) as HL. mrun.
  apply load_loop_run. by intros [].
Qed.
End LoaderLaws.

(** ** Examples *)
#[export, refine] Instance machine_image_laws : ImageLaws machine := {|
  loadable := fun w h p => match node_at (m_fs w) h p with Some (Some _) => true | _ => false end;
  image_of := fun w i => m_images w !! Z.to_nat i;
  started := m_started
|}.
Proof.
  - intros h p w. cbn. destruct (node_at (m_fs w) h p) as [[c|]|] eqn:E.
    2, 3: exists EFI_NOT_FOUND, 0, w; rewrite ?E; done.
    eexists _, _, _. split; [reflexivity|]. cbn. repeat (split; [done|]).
    intros _. rewrite Nat2Z.id. by apply list_lookup_middle.
  - intros i w x Hi. cbn. rewrite Hi. eexists _, _. split; [reflexivity|]. done.
Defined.

Section Examples.
Definition ex_boot_files : machine :=
  machine_of [] [(GRUB_EFI_PATH, [77; 90])]%string (mkHw [] []).

(** GRUB is there, SSBL.efi is not. *)
Example ex_hand_over :
  started (snd (SBC_GRUB_LoadAndStart ex_boot_files)) = [(10, GRUB_EFI_PATH)] /\
  fst (SBC_SSBL_LoadAndStart ex_boot_files) = Ret SBCFAIL.
Proof. split; vm_compute; reflexivity. Qed.
End Examples.
