(* ===== verification/Dice.v ===== *)
(** * DICE identities (SBC_AntiTampering.c)

    The compound identities of the boot chain: the serial numbers of the
    machine, the images of the stages, and the keys derived from them
    (device id, firmware id, OS id and migration key). *)
From stdpp Require Import base list strings.
From Stdlib Require Import ZArith Lia String.
From S2P Require Import Prelude Uefi RamDisk Sim RawPrt Crypto BaseAnswer FileCtrl.
#[local] Open Scope Z_scope.

Definition SBC_AT_HASH_LEN : Z := 32.
Definition FSBL_BNIFO_SIZE : Z := 8.
Definition OSID_KERNEL_PATH : string := "\boot\vmlinuz-5.14.0-284.11.1.el9_2.x86_64".
Definition SMBIOS_TYPE_BASEBOARD_INFORMATION : Z := 2.
Definition SMBIOS_TYPE_MEMORY_DEVICE : Z := 17.

(** [hw_uniqueinfo_t]. *)
Record hw_uniqueinfo_t := mkHwInfo {
  mbsn : bytes; mbsnl : Z;
  mmsn : bytes; mmsnl : Z;
  nvmesn : bytes; nvmesnl : Z
}.
(** [ZeroMem (&info, sizeof info)]. *)
Definition hw_zero : hw_uniqueinfo_t := mkHwInfo (zeros 64) 0 (zeros 64) 0 (zeros 64) 0.

(** ** C strings *)

(** What follows the first NUL of a string. *)
Fixpoint skip_string (s : bytes) : option bytes :=
  match s with
  | [] => None
  | c :: s => if c =? 0 then Some s else skip_string s
  end.
(** The characters before the NUL; [None] when there is none. *)
Fixpoint c_string (s : bytes) : option bytes :=
  match s with
  | [] => None
  | c :: s => if c =? 0 then Some [] else cons c <$> c_string s
  end.

(** The [n]th string of an SMBIOS string area: after each string the code reads
    the first character of the next one. *)
Fixpoint nth_string (n : nat) (s : bytes) : option bytes :=
  match n with
  | O => Some s
  | S n =>
      match skip_string s with
      | Some (c :: s') => nth_string n (c :: s')
      | _ => None
      end
  end.

(** One SMBIOS record: the serial number it adds to [(sn, snl)].  [ofs] is the
    offset of the string index in the record. *)
Definition smbios_sn (ty ofs : Z) (rec : bytes) (p : bytes * Z) : option (bytes * Z) :=
  match rec !! 0%nat with
  | None => None
  | Some t =>
      if negb (t =? ty) then Some p
      else
      match rec !! Z.to_nat ofs, rec !! 1%nat with
      | Some idx, Some len =>
          if negb (0 <? idx) then Some p
          else
          match nth_string (Z.to_nat (idx - 1)) (drop (Z.to_nat len) rec) with
          | None => None
          | Some s =>
              match c_string s with
              | None => None
              | Some s => match wr (fst p) 0 s with
                          | Some b => Some (b, zlen s)
                          | None => None
                          end
              end
          end
      | _, _ => None
      end
  end.

Fixpoint smbios_all (ty ofs : Z) (recs : list bytes) (p : bytes * Z) : option (bytes * Z) :=
  match recs with
  | [] => Some p
  | r :: recs => match smbios_sn ty ofs r p with
                 | Some p => smbios_all ty ofs recs p
                 | None => None
                 end
  end.

(** Trailing spaces of the 20 serial-number characters become NULs. *)
Fixpoint trim_rev (s : bytes) : bytes :=
  match s with
  | c :: s => if c =? 32 then 0 :: trim_rev s else c :: s
  | [] => []
  end.
Definition trim_spaces (s : bytes) : bytes := rev (trim_rev (rev s)).

Section Serials.
Context {W : Type} `{!Pool W, !HwInfo W}.

(** [_baseboard_sn (p)]. *)
Definition _baseboard_sn (p : hw_uniqueinfo_t) : M W (SBCStatus * hw_uniqueinfo_t) :=
  let! st := LocateSmbios in
  validate st =? EFI_SUCCESS else (SBCPROTO, p) in
  let! recs := SmbiosRecords in
  let! (b, n) := access (smbios_all SMBIOS_TYPE_BASEBOARD_INFORMATION 7 recs (mbsn p, mbsnl p)) in
  ret (SBCOK, mkHwInfo b n (mmsn p) 0 (nvmesn p) (nvmesnl p)).

(** [_memorydevice_sn (p)]. *)
Definition _memorydevice_sn (p : hw_uniqueinfo_t) : M W (SBCStatus * hw_uniqueinfo_t) :=
  let! st := LocateSmbios in
  validate st =? EFI_SUCCESS else (SBCPROTO, p) in
  let! recs := SmbiosRecords in
  let! (b, n) := access (smbios_all SMBIOS_TYPE_MEMORY_DEVICE 24 recs (mmsn p, 0)) in
  ret (SBCOK, mkHwInfo (mbsn p) (mbsnl p) b n (nvmesn p) (nvmesnl p)).

(** The loop of [_nvme_get_serial]: the first controller that answers the
    Identify command. *)
Fixpoint nvme_loop (hs : list Z) (p : hw_uniqueinfo_t) : M W hw_uniqueinfo_t :=
  match hs with
  | [] => ret p
  | h :: hs =>
      let! st := NvmeProtocol h in
      if EFI_ERROR st then nvme_loop hs p
      else
      let! a := AllocatePool 4096 in
      if negb a then nvme_loop hs p
      else
      let! (st, d) := NvmeIdentify h in
      if EFI_ERROR st then nvme_loop hs p
      else
      let! sn := access (rd d 4 20) in
      let! s := access (c_string (trim_spaces sn ++ [0])%list) in
      let! b := access (wr (nvmesn p) 0 s) in
      ret (mkHwInfo (mbsn p) (mbsnl p) (mmsn p) (mmsnl p) b (zlen s))
  end.

(** [_nvme_get_serial (p)].  A failed LocateHandleBuffer has set [HandleBuffer] to
    NULL (CoreLocateHandleBuffer of MdeModulePkg/Core/Dxe/Hand/Locate.c), so that
    nothing is freed on that path. *)
Definition _nvme_get_serial (p : hw_uniqueinfo_t) : M W (SBCStatus * hw_uniqueinfo_t) :=
  let! (st, hs) := LocateNvme in
  if EFI_ERROR st then ret (SBCFAIL, p)
  else let! p := nvme_loop hs p in ret (SBCOK, p).

(** The three serial numbers, as the key generation collects them: their
    statuses are not looked at. *)
Definition hw_serials : M W hw_uniqueinfo_t :=
  let! (_, p) := _baseboard_sn hw_zero in
  let! (_, p) := _memorydevice_sn p in
  let! (_, p) := _nvme_get_serial p in
  ret p.

(** [mbsn || mmsn || nvmesn], each with its length. *)
Definition hw_concat (p : hw_uniqueinfo_t) : option bytes :=
  match rd (mbsn p) 0 (mbsnl p), rd (mmsn p) 0 (mmsnl p), rd (nvmesn p) 0 (nvmesnl p) with
  | Some a, Some b, Some c => Some (a ++ b ++ c)%list
  | _, _, _ => None
  end.
End Serials.

(** ** The images of the stages *)
Section Images.
Context {W : Type} `{!Pool W, !BlockIo W, !FileSys W}.

(** [_kernel_image_load (ImageHandle, lv)]. *)
Definition _kernel_image_load (lv : LV_t) : M W (SBCStatus * LV_t) :=
  let! (r, len) := SBC_GetFileSize OSID_KERNEL_PATH 0 in
  validate sbc_is r SBCOK else (r, lv) in
  let! (hndlcnt, hs) := SBC_FindEfiFileSystemProtocol in
  if hndlcnt <=? 0 then ret (SBCFAIL, lv)
  else
  let! (st, idx) := find_access hs 0 OSID_KERNEL_PATH EFI_SUCCESS in
  if EFI_ERROR st then ret (SBCFAIL, lv)
  else
  let! a := AllocatePool len in
  let lv := lv_set_length (lv_set_value lv (if a then Some (zeros len) else None)) len in
  validate a else (SBCNULLP, lv) in
  let! h := access (hs !! Z.to_nat idx) in
  let! (st, lv) := SBC_ReadFile h OSID_KERNEL_PATH lv in
  ret (if EFI_ERROR st then SBCNOTFND else SBCOK, lv).

(** Where the bank [normbank] keeps its SSBL image. *)
Definition ssbl_lba (normbank : Z) : Z :=
  let bsofs := Z.lor BOOT_SECTOR1_OFS (u64 (Z.shiftl (u64 (normbank - 1)) 20)) in
  Z.shiftr (Z.lor bsofs BOOT_SSBL_OFS) SBC_RAWPRT_DFLT_SHIFT.

(** [_ssbl_image_load (blkhnd, lv, normbank, bm)]. *)
Definition _ssbl_image_load (blkhnd : option Z) (lv : LV_t) (normbank bm : Z)
  : M W (SBCStatus * LV_t) :=
  let startlba := ssbl_lba normbank in
  let! (r, imghdr) := SBC_RawPrtReadBlock blkhnd (Some (zeros SBC_RAWPRT_DFLT_BLK_SZ))
                        (Some SBC_RAWPRT_DFLT_BLK_SZ) startlba in
  if negb (sbc_is r SBCOK) then ret (r, lv)
  else
  let! l := access (rdp imghdr 4) in
  let imglen := ALIGN_VALUE32 (le_val l) SBC_RAWPRT_DFLT_BLK_SZ in
  let! a := AllocatePool imglen in
  let value := if a then Some (zeros imglen) else None in
  let lv := lv_set_value lv value in
  validate a else (SBCNULLP, lv) in
  let! (r, value) := SBC_RawPrtReadBlock blkhnd value (Some imglen) startlba in
  let lv := lv_set_value lv value in
  validate sbc_is r SBCOK else (r, lv) in
  ret (SBCOK, lv_set_value (lv_set_length lv (imglen - FSBL_BNIFO_SIZE)) (drop 4 <$> value)).

(** The loop of [efi_boot_fsbl_load]: the first volume whose root opens
    ([RootFs], null when there is none). *)
Fixpoint fsbl_root (hs : list Z) : M W (option Z) :=
  match hs with
  | [] => ret None
  | h :: hs =>
      let! a := AllocatePool 48 in
      if negb a then fsbl_root hs
      else
      let! st := FsProtocol h in
      if EFI_ERROR st then fsbl_root hs
      else
      let! (st, RootFs) := OpenVolume h in
      if EFI_ERROR st then fsbl_root hs else ret (Some RootFs)
  end.

(** [Exit]: what is open is closed. *)
Fixpoint close_all (hs : list Z) : M W unit :=
  match hs with [] => ret tt | h :: hs => FClose h ;! close_all hs end.

(** Size and content of the open file [X64File].  Of the allocated block only
    the bytes that were read have a content. *)
Definition fsbl_content (X64File : Z) (lv : LV_t) : M W (EFI_STATUS * LV_t) :=
  let! (st, isz) := FInfoSize X64File in
  let! (st, info) :=
    (if st =? EFI_BUFFER_TOO_SMALL then
       let! a := AllocatePool isz in
       if negb a then ret (EFI_OUT_OF_RESOURCES, None)
       else let! (st, i) := FInfo X64File in ret (st, Some i)
     else ret (st, None)) in
  if EFI_ERROR st then ret (st, lv)
  else
  let! i := access info in
  let lv := lv_set_length lv (FileSize i) in
  let! a := AllocatePool (lv_length lv) in
  if negb a then ret (EFI_OUT_OF_RESOURCES, lv)
  else
  let! (st, d) := FRead X64File (lv_word lv) in
  if EFI_ERROR st then ret (st, lv_set_value lv (Some []))
  else
  let! _ := access (wr (zeros (lv_length lv)) 0 d) in
  ret (st, mkLV (zlen d) (Some d)).

(** [efi_boot_fsbl_load (lv)]. *)
Definition efi_boot_fsbl_load (lv : LV_t) : M W (EFI_STATUS * LV_t) :=
  let! (st, hs) := LocateFs in
  if EFI_ERROR st then ret (st, lv)
  else
  let! r := fsbl_root hs in
  match r with
  | None => ret (EFI_NOT_FOUND, lv)
  | Some RootFs =>
      let! (st, EfiDir) := FOpen RootFs "EFI" EFI_FILE_MODE_READ 0 in
      if EFI_ERROR st then close_all [RootFs] ;! ret (st, lv)
      else
      let! (st, BootDir) := FOpen EfiDir "BOOT" EFI_FILE_MODE_READ 0 in
      if EFI_ERROR st then close_all [EfiDir; RootFs] ;! ret (st, lv)
      else
      let! (st, X64File) := FOpen BootDir "FSBL.efi" EFI_FILE_MODE_READ 0 in
      if EFI_ERROR st then close_all [BootDir; EfiDir; RootFs] ;! ret (st, lv)
      else
      let! (st, lv) := fsbl_content X64File lv in
      close_all [X64File; BootDir; EfiDir; RootFs] ;! ret (st, lv)
  end.
End Images.

(** ** The keys *)

(** [&buf[off]] as the digest of a hash: the buffer after it. *)
Definition hash_at {W} `{!OpenSSL} (msg : option bytes) (n : Z) (buf : bytes) (off : nat)
  : M W (SBCStatus * bytes) :=
  let! (r, d) := SBC_HashCompute msg n (Some (drop off buf)) in
  let! d := access d in
  ret (r, (take off buf ++ d)%list).

Section Keys.
Context {W : Type} `{!Pool W, !BlockIo W, !FileSys W, !HwInfo W, !OpenSSL}.

(** [SBC_GenDeviceID (devid)]: status and [devid].  The hash of the image goes
    to [devidhsah], which is not used after it; the key is computed over the
    first [SBC_AT_HASH_LEN] bytes of the image. *)
Definition SBC_GenDeviceID (devid : option bytes) : M W (SBCStatus * option bytes) :=
  validate notnull devid else (SBCNULLP, devid) in
  let! info := hw_serials in
  let! (_, rdlv) := efi_boot_fsbl_load (mkLV 0 None) in
  validate notnull (lv_value rdlv) else (SBCNULLP, devid) in
  let! (r, devidhsah) := SBC_HashCompute (lv_value rdlv) (lv_length rdlv) (Some (zeros 32)) in
  if negb (sbc_is r SBCOK) then ret (r, devid)
  else
  let rdlv := lv_set_length rdlv SBC_AT_HASH_LEN in
  let! a := AllocatePool (mbsnl info + mmsnl info + nvmesnl info + lv_length rdlv) in
  validate a else (SBCNULLP, devid) in
  let! hw := access (hw_concat info) in
  let! im := access (rdp (lv_value rdlv) (lv_length rdlv)) in
  let computebuf := (hw ++ im)%list in
  SBC_HashCompute (Some computebuf) (zlen computebuf) devid.

(** The end of [SBC_GenFWID] and [SBC_GenOSID]: the hash of a parent identity
    and a measurement. *)
Definition derive_id (parent hash id : bytes) : M W (SBCStatus * bytes) :=
  let! a := AllocatePool (2 * SBC_AT_HASH_LEN) in
  validate a else (SBCNULLP, id) in
  let! temp := access (rd parent 0 SBC_AT_HASH_LEN) in
  let! h := access (rd hash 0 SBC_AT_HASH_LEN) in
  hash_at (Some (temp ++ h)%list) (2 * SBC_AT_HASH_LEN) id 0.

(** [SBC_GenFWID (h_image, devid, fwid, normbank, bm)].  After the image was
    loaded [lv] is set to the buffer [hash_ssbl], still zero. *)
Definition SBC_GenFWID (h_blkio : option Z) (devid fwid : bytes) (normbank bm : Z)
  : M W (SBCStatus * bytes) :=
  let hash_ssbl := zeros SBC_AT_HASH_LEN in
  let! (r, lv) := _ssbl_image_load h_blkio (mkLV 0 None) normbank bm in
  validate sbc_is r SBCOK else (r, fwid) in
  validate 0 <? lv_length lv else (SBCZEROL, fwid) in
  let lv := lv_set_length (lv_set_value lv (Some hash_ssbl)) SBC_AT_HASH_LEN in
  let! (r, hash_ssbl) := hash_at (lv_value lv) (lv_length lv) hash_ssbl 0 in
  validate sbc_is r SBCOK else (r, fwid) in
  derive_id devid hash_ssbl fwid.

(** [SBC_GenOSID (h_image, fwid, osid)].  [pad] is the uninitialised padding
    of [lv]. *)
Definition SBC_GenOSID (pad : Z) (fwid osid : bytes) : M W (SBCStatus * bytes) :=
  let! (r, lv) := _kernel_image_load (mkLV (u32 pad * 2 ^ 32) None) in
  if negb (sbc_is r SBCOK) then ret (r, osid)
  else
  let! (r, os_hash) := hash_at (lv_value lv) (lv_length lv) (zeros SBC_AT_HASH_LEN) 0 in
  validate sbc_is r SBCOK else (r, osid) in
  derive_id fwid os_hash osid.
End Keys.

(** ** The migration key *)
Section Migration.
Context {W : Type} `{!Pool W, !BlockIo W, !FileSys W, !HwInfo W, !OpenSSL}.

(** First block of a firmware bank: the bank number is a [UINT32]. *)
Definition bank_lba (bank : Z) : Z :=
  Z.shiftr (Z.lor BOOT_SECTOR1_OFS (u32 (BOOT_FW_IMGMAX * u32 (bank - 1)))) SBC_RAWPRT_DFLT_SHIFT.

(** The images of [boot_fw_inf_t]: offsets of their length fields. *)
Definition FW_FSBL : Z := BOOT_FSBL_OFS.
Definition FW_SSBL : Z := BOOT_SSBL_OFS.
Definition FW_OS : Z := BOOT_OS_OFS.

(** [SBC_HashCompute (NULL, fwinf->mbr.x, fwinf->mbr.xn, &migkey_hash[cnt])]. *)
Definition hash_image (fw : bytes) (ofs : Z) (migkey_hash : bytes) (cnt : nat)
  : M W (SBCStatus * bytes) :=
  let! l := access (rd fw ofs 4) in
  hash_at (Some (drop (Z.to_nat (ofs + 4)) fw)) (le_val l) migkey_hash cnt.

(** Step 2: the images of the current bank, read whole. *)
Definition mig_current (priv : option Z) (currbankid : Z) (migkey_hash : bytes)
  : M W (SBCStatus * option bytes * bytes) :=
  let imglen := BOOT_FW_IMGMAX in (* ALIGN_VALUE (sizeof *fwinf, 512) *)
  let! (r, fw) := SBC_RawPrtReadBlock priv (Some (zeros BOOT_FW_IMGMAX)) (Some imglen)
                    (bank_lba currbankid) in
  validate sbc_is r SBCOK else (r, None, migkey_hash) in
  let! fw := access fw in
  let! (r, migkey_hash) := hash_image fw FW_FSBL migkey_hash 32 in
  validate sbc_is r SBCOK else (r, None, migkey_hash) in
  let! (r, migkey_hash) := hash_image fw FW_SSBL migkey_hash 64 in
  validate sbc_is r SBCOK else (r, None, migkey_hash) in
  let! (r, migkey_hash) := hash_image fw FW_OS migkey_hash 96 in
  validate sbc_is r SBCOK else (r, None, migkey_hash) in
  ret (SBCOK, Some fw, migkey_hash).

(** Step 3: the images of the other bank.  [sizeof fwinf] is the size of the
    pointer: 8 bytes are cleared and one 512-byte block is read. *)
Definition mig_newer (priv : option Z) (prevbankid : Z) (fw migkey_hash : bytes)
  : M W (SBCStatus * bytes) :=
  let! fw := access (wr fw 0 (zeros 8)) in
  let imglen := ALIGN_VALUE32 8 SBC_RAWPRT_DFLT_BLK_SZ in
  let! (r, fw) := SBC_RawPrtReadBlock priv (Some fw) (Some imglen) (bank_lba prevbankid) in
  validate sbc_is r SBCOK else (r, migkey_hash) in
  let! fw := access fw in
  let! (r, migkey_hash) := hash_image fw FW_SSBL migkey_hash 128 in
  validate sbc_is r SBCOK else (r, migkey_hash) in
  hash_image fw FW_OS migkey_hash 160.

(** [SBC_GenMigrationKey (priv, currbankid, prevbankid, out)]: status and [out]. *)
Definition SBC_GenMigrationKey (priv : option Z) (currbankid prevbankid : Z) (out : bytes)
  : M W (SBCStatus * bytes) :=
  validate notnull priv else (SBCNULLP, out) in
  let! info := hw_serials in
  let! a := AllocatePool BOOT_FW_IMGMAX in
  validate a else (SBCNULLP, out) in
  let! a := AllocatePool (mbsnl info + mmsnl info + nvmesnl info) in
  validate a else (SBCNULLP, out) in
  let! integbuf := access (hw_concat info) in
  let! a := AllocatePool (SBC_AT_HASH_LEN * 6) in
  validate a else (SBCNULLP, out) in
  let! (r, migkey_hash) := hash_at (Some integbuf) (zlen integbuf) (zeros (SBC_AT_HASH_LEN * 6)) 0 in
  if negb (sbc_is r SBCOK) then ret (r, out)
  else
  let! (r, fw, migkey_hash) := mig_current priv currbankid migkey_hash in
  validate sbc_is r SBCOK else (r, out) in
  let! fw := access fw in
  let! (r, migkey_hash) := mig_newer priv prevbankid fw migkey_hash in
  validate sbc_is r SBCOK else (r, out) in
  hash_at (Some migkey_hash) (SBC_AT_HASH_LEN * 6) out 0.
End Migration.

(** ** The certificate of the first stage *)
Section Certificate.
Context {W : Type} `{!Pool W, !BlockIo W, !OpenSSL}.

(** [SBC_FSBLIntgCheck (h_image, blkio, cert, certle, nrombank, mode)]: the
    length given to the check is the local [certlen], 0, not the argument. *)
Definition SBC_FSBLIntgCheck (blkio : option Z) (cert : option bytes) (certle nrombank mode : Z)
  : M W SBCStatus :=
  if negb ((mode =? BOOT_MODE_NORMAL) || (mode =? BOOT_MODE_UPDATE) || (mode =? BOOT_MODE_FACTORY))
  then ret SBCINVPARAM
  else
  let! h := access blkio in
  fun w =>
  let imglen := ALIGN_VALUE32 SYS_SETTING_STORAGE_LEN (BlockSize h w) in
  (let! a := AllocatePool imglen in
   validate a else SBCNULLP in
   let! (r, imgbuf) := SBC_RawPrtReadBlock blkio (Some (zeros imglen)) (Some imglen) settings_lba in
   validate sbc_is r SBCOK else r in
   let! imgbuf := access imgbuf in
   let! l := access (rd imgbuf SYS_CONF_ROOT_CA_OFS LEN_DFLT_OFS) in
   let cabuf := drop (Z.to_nat (SYS_CONF_ROOT_CA_OFS + LEN_DFLT_OFS)) imgbuf in
   SBC_X509VerifyCert cert 0 (Some cabuf) (le_val l)) w.
End Certificate.

(** ** The identities keep their type *)
Section Typing.
Context {W : Type} `{!Pool W, !BlockIo W, !FileSys W, !HwInfo W, !OpenSSL, !OpenSSLLaws}.

Lemma typed_wr n b d b' : typed n b -> all_bytes d -> wr b 0 d = Some b' -> typed n b'.
Proof.
  intros [Hl Hb] Hd HW. split; [by rewrite (wr_length _ _ _ _ HW)|].
  apply wr_inv in HW as (_ & _ & ->). unfold all_bytes. rewrite !Forall_app.
  split; [by apply Forall_take|]. split; [done|by apply Forall_drop].
Qed.

(** A digest goes into a buffer of bytes. *)
Lemma hash_typed m n k d :
  typed k d -> post (SBC_HashCompute (W := W) m n (Some d))
                 (fun r => exists d', snd r = Some d' /\ typed k d').
Proof.
  intros Hd. unfold SBC_HashCompute. cbn [notnull].
  apply post_if; intros _; [|apply post_ret; cbn; eauto].
  apply post_if; intros _; [|apply post_ret; cbn; eauto].
  eapply post_bind; [apply post_access|]. intros [ok o] HA. apply post_ret. cbn [snd].
  unfold HashAll in HA. cbn [notnull negb] in HA.
  destruct (negb (notnull m) && _); [injection HA as <- <-; eauto|].
  destruct (rdp m n) as [b|]; [|done]. destruct (SHA256 b) as [h|] eqn:ES; [|injection HA as <- <-; eauto].
  cbn [wrp] in HA. destruct (wr d 0 h) as [d'|] eqn:EW; [|done]. injection HA as <- <-.
  eexists. split; [done|]. by eapply typed_wr, EW; [done|eapply sha256_bytes].
Qed.

Lemma hash_at_typed m n k b :
  typed k b -> post (hash_at (W := W) m n b 0) (fun r => typed k (snd r)).
Proof.
  intros Hb. unfold hash_at. eapply post_bind; [by eapply hash_typed|].
  intros [r o] (d & Ho & Hd). cbn [snd] in Ho. subst o.
  eapply post_bind; [apply post_access|]. intros d' [= <-]. by apply post_ret.
Qed.

Lemma derive_id_typed parent hash k id :
  typed k id -> post (derive_id (W := W) parent hash id) (fun r => typed k (snd r)).
Proof.
  intros Hi. unfold derive_id. eapply post_bind; [apply post_any|]. intros a _.
  apply post_if; intros _; [|by apply post_ret].
  do 2 (eapply post_bind; [apply post_any|]; intros ? _). by apply hash_at_typed.
Qed.

Lemma GenDeviceID_typed k d :
  typed k d -> post (SBC_GenDeviceID (W := W) (Some d)) (fun r => exists d', snd r = Some d' /\ typed k d').
Proof.
  intros Hd. assert (HE : forall st, post (W := W) (ret (st, Some d))
    (fun r : SBCStatus * option bytes => exists d', snd r = Some d' /\ typed k d'))
    by (intros st; apply post_ret; cbn; eauto).
  unfold SBC_GenDeviceID. apply post_if; intros _; [|apply HE].
  eapply post_bind; [apply post_any|]. intros info _.
  eapply post_bind; [apply post_any|]. intros [st lv] _.
  apply post_if; intros _; [|apply HE].
  eapply post_bind; [apply post_any|]. intros [r h] _.
  apply post_if; intros _; [apply HE|]. cbv zeta.
  eapply post_bind; [apply post_any|]. intros a _. apply post_if; intros _; [|apply HE].
  do 2 (eapply post_bind; [apply post_any|]; intros ? _). by apply hash_typed.
Qed.

Lemma GenFWID_typed b dv k f n md :
  typed k f -> post (SBC_GenFWID (W := W) b dv f n md) (fun r => typed k (snd r)).
Proof.
  intros Hf. unfold SBC_GenFWID. cbv zeta. eapply post_bind; [apply post_any|]. intros [r lv] _.
  apply post_if; intros _; [|by apply post_ret]. apply post_if; intros _; [|by apply post_ret].
  eapply post_bind; [apply post_any|]. intros [r' h] _.
  apply post_if; intros _; [|by apply post_ret]. by apply derive_id_typed.
Qed.

Lemma GenOSID_typed pad fw k o :
  typed k o -> post (SBC_GenOSID (W := W) pad fw o) (fun r => typed k (snd r)).
Proof.
  intros Ho. unfold SBC_GenOSID. eapply post_bind; [apply post_any|]. intros [r lv] _.
  apply post_if; intros _; [by apply post_ret|].
  eapply post_bind; [apply post_any|]. intros [r' h] _.
  apply post_if; intros _; [|by apply post_ret]. by apply derive_id_typed.
Qed.

Lemma GenMigrationKey_typed priv c p k out :
  typed k out -> post (SBC_GenMigrationKey (W := W) priv c p out) (fun r => typed k (snd r)).
Proof.
  intros Ho. unfold SBC_GenMigrationKey. apply post_if; intros _; [|by apply post_ret].
  eapply post_bind; [apply post_any|]. intros info _.
  do 2 (eapply post_bind; [apply post_any|]; intros ? _; apply post_if; intros _; [|by apply post_ret]).
  eapply post_bind; [apply post_any|]. intros hw _.
  eapply post_bind; [apply post_any|]. intros ? _. apply post_if; intros _; [|by apply post_ret].
  eapply post_bind; [apply post_any|]. intros [r h] _. apply post_if; intros _; [by apply post_ret|].
  eapply post_bind; [apply post_any|]. intros [[r1 fw] h1] _. apply post_if; intros _; [|by apply post_ret].
  eapply post_bind; [apply post_any|]. intros fw' _.
  eapply post_bind; [apply post_any|]. intros [r2 h2] _. apply post_if; intros _; [|by apply post_ret].
  by apply hash_at_typed.
Qed.
End Typing.

(** ** The certificate check: laws *)
Section CertificateLaws.
Context {W : Type} `{!Pool W, !PoolOk W, !BlockIo W, !BlockIoLaws W, !OpenSSL, !OpenSSLLaws}.

(** The length field of the Root CA certificate in the settings area. *)
Definition root_ca_len (h : Z) (w : W) : Z :=
  le_val (window (disk h w) (settings_lba * BlockSize h w + SYS_CONF_ROOT_CA_OFS) LEN_DFLT_OFS).

(** (error) The Root-CA check of the FSBL certificate rejects every
    certificate: on a device whose settings area holds a Root CA certificate that
    fits, [SBC_FSBLIntgCheck] returns SBCNULLP in the modes NORMAL, UPDATE and
    FACTORY whatever [cert] and its length are, since it passes the length 0 on
    (SBCZEROL when the stored length is 0 too). *)
Theorem fsbl_intg_check_rejects h cert certle bank mode w :
  mode = BOOT_MODE_NORMAL \/ mode = BOOT_MODE_UPDATE \/ mode = BOOT_MODE_FACTORY ->
  settings_dev h w -> 0 <= root_ca_len h w <= SYS_SETTING_STORAGE_LEN - 132 ->
  SBC_FSBLIntgCheck (Some h) (Some cert) certle bank mode w
  = (Ret (if root_ca_len h w =? 0 then SBCZEROL else SBCNULLP), w).
Proof.
  intros Hm Hd Hl. destruct (settings_len_spec h w Hd) as (Hr & Hn & Hz).
  change SYS_SETTING_STORAGE_LEN with 16512 in *.
  unfold SBC_FSBLIntgCheck.
  replace (negb _) with false by (by destruct Hm as [->|[->| ->]]).
  mrun. fold (settings_len h w).
  pose proof (alloc_ok (settings_len h w) w) as Ha. pose proof (settings_read h w Hd) as HR. mrun.
  change (sbc_is SBCOK SBCOK) with true. cbv iota. mrun.
  assert (HL : rd (settings h w) SYS_CONF_ROOT_CA_OFS LEN_DFLT_OFS
    = Some (window (disk h w) (settings_lba * BlockSize h w + SYS_CONF_ROOT_CA_OFS) LEN_DFLT_OFS)).
  { change SYS_CONF_ROOT_CA_OFS with 128. change LEN_DFLT_OFS with 4. apply rd_window; lia. }
  rewrite HL. mrun. cbv zeta. fold (root_ca_len h w).
  unfold SBC_X509VerifyCert. cbn [notnull orb]. change (0 <? 0) with false. cbn [orb].
  destruct (root_ca_len h w =? 0) eqn:E0; bool_hyp.
  { rewrite E0. done. }
  guard_true. unfold X509VerifyCert. cbn [notnull negb orb].
  change (INT_MAX <? 0) with false. cbn [orb].
  rewrite (proj2 (Z.ltb_ge INT_MAX (root_ca_len h w))) by (unfold INT_MAX; lia).
  rewrite (rdp_some cert 0) by lia. change (take (Z.to_nat 0) cert) with (@nil Z).
  rewrite rdp_some; [|lia|].
  2:{ rewrite length_drop. change (Z.to_nat (SYS_CONF_ROOT_CA_OFS + LEN_DFLT_OFS)) with 132%nat. lia. }
  rewrite x509_empty. mrun. done.
Qed.
End CertificateLaws.

(** ** Serial numbers: laws *)
Section SerialLaws.
Definition no_nul (s : bytes) : Prop := Forall (fun c => c <> 0) s.

Lemma skip_string_app s r : no_nul s -> skip_string (s ++ 0 :: r) = Some r.
Proof. induction 1 as [|c s Hc HF IH]; cbn; [done|]. by guard_false. Qed.

Lemma c_string_app s r : no_nul s -> c_string (s ++ 0 :: r) = Some s.
Proof. induction 1 as [|c s Hc HF IH]; cbn; [done|]. guard_false. by rewrite IH. Qed.

(** The string area of a record: its strings, each with its NUL, and a NUL. *)
Definition string_area (strs : list bytes) : bytes :=
  (List.concat (map (fun s => s ++ [0]) strs) ++ [0])%list.

Lemma string_area_cons s strs : string_area (s :: strs) = (s ++ 0 :: string_area strs)%list.
Proof. unfold string_area. cbn. by rewrite <-!app_assoc. Qed.

Lemma nth_string_area n strs rest :
  Forall no_nul strs -> (n < List.length strs)%nat ->
  nth_string n (string_area strs ++ rest)%list = Some (string_area (drop n strs) ++ rest)%list.
Proof.
  intros HF. revert n. induction HF as [|s strs Hs HF IH]; intros n Hn; [cbn in Hn; lia|].
  destruct n as [|n]; [done|]. cbn [List.length] in Hn. cbn [nth_string drop].
  rewrite string_area_cons, <-app_assoc. cbn [app]. rewrite skip_string_app by done.
  assert (HN : string_area strs <> []) by (unfold string_area; by destruct (List.concat _)).
  specialize (IH n ltac:(lia)). destruct (string_area strs) as [|c t]; [done|]. exact IH.
Qed.

(** (functional) The serial number of an SMBIOS record: for a record of the
    wanted type with a header of [Length] bytes followed by its string area, the
    string whose 1-based index is stored at [ofs] replaces the start of the
    buffer and its length the stored length; a string longer than the buffer is
    copied past its end. *)
Theorem smbios_serial_spec ty ofs hdr strs idx buf l s :
  0 <= ofs -> hdr !! 0%nat = Some ty -> hdr !! 1%nat = Some (zlen hdr) ->
  hdr !! Z.to_nat ofs = Some idx -> Forall no_nul strs ->
  1 <= idx -> strs !! Z.to_nat (idx - 1) = Some s ->
  smbios_sn ty ofs (hdr ++ string_area strs) (buf, l)
  = (if zlen s <=? zlen buf
     then Some (s ++ drop (List.length s) buf, zlen s) else None)%list.
Proof.
  intros Ho H0 H1 Hi HF Hidx Hs. unfold smbios_sn.
  rewrite !lookup_app_l by (eapply lookup_lt_Some; eassumption). rewrite H0, H1, Hi, Z.eqb_refl.
  cbn [negb]. rewrite (proj2 (Z.ltb_lt 0 idx)) by lia. cbn [negb].
  replace (drop _ _) with (string_area strs ++ [])%list
    by (rewrite Nat2Z.id, drop_app_length, app_nil_r; reflexivity).
  pose proof (lookup_lt_Some _ _ _ Hs). rewrite nth_string_area by done.
  rewrite (drop_S _ _ _ Hs), string_area_cons, <-app_assoc. cbn [app].
  rewrite c_string_app.
  2:{ eapply Forall_lookup_1; [exact HF|exact Hs]. }
  cbn [fst]. destruct (zlen s <=? zlen buf) eqn:E2; bool_hyp.
  - by rewrite wr_some by lia.
  - by rewrite wr_none by lia.
Qed.

Lemma rev_repeat' {A} k (x : A) : rev (replicate k x) = replicate k x.
Proof.
  induction k as [|k IH]; [done|]. cbn. rewrite IH. symmetry. apply (replicate_cons_app k x).
Qed.

Lemma trim_rev_spaces k s :
  hd 0 s <> 32 -> trim_rev (replicate k 32 ++ s) = (replicate k 0 ++ s)%list.
Proof.
  intros Hs. induction k as [|k IH]; cbn; [|by rewrite IH].
  destruct s as [|c s]; [done|]. cbn in Hs. cbn. by guard_false.
Qed.

(** (functional) The NVMe serial number is the 20-byte field without its
    trailing spaces: for a field that holds [body] followed by spaces, where
    [body] has no NUL and does not end in a space, exactly [body] is stored. *)
Theorem nvme_serial_trim body k :
  no_nul body -> last body <> Some 32 ->
  c_string (trim_spaces (body ++ replicate k 32) ++ [0])%list = Some body.
Proof.
  intros Hb Hl. unfold trim_spaces. rewrite rev_app_distr.
  assert (HR : forall x : Z, rev (replicate k x) = replicate k x) by (intros x; by rewrite rev_repeat').
  rewrite HR.
  rewrite trim_rev_spaces.
  2:{ rewrite <-(rev_involutive body) in Hl. destruct (rev body) as [|c r]; [done|].
      cbn in Hl |- *. rewrite last_snoc in Hl. congruence. }
  rewrite rev_app_distr, rev_involutive, HR, <-app_assoc. destruct k as [|k]; by apply c_string_app.
Qed.
End SerialLaws.

(** ** Keys: laws *)
Section KeyLaws.
Context {W : Type} `{!Pool W, !PoolOk W, !BlockIo W, !BlockIoLaws W, !FileSys W,
  !FileSysLaws W, !HwInfo W, !OpenSSL, !OpenSSLLaws}.

Lemma hash_at_ok msg n buf off (w : W) :
  0 < n <= zlen msg -> (off + 32 <= List.length buf)%nat ->
  exists d, SHA256 (take (Z.to_nat n) msg) = Some d /\ zlen d = 32 /\
    hash_at (Some msg) n buf off w = (Ret (SBCOK, take off buf ++ d ++ drop (off + 32) buf)%list, w).
Proof.
  intros Hn Hb. destruct (HashCompute_ok msg n (drop off buf) w) as (d & Hd & HH);
    [done|rewrite length_drop; lia|]. exists d. split; [done|].
  split; [by rewrite (sha256_length _ _ Hd)|].
  unfold hash_at. mrun. unfold ret. by rewrite drop_drop.
Qed.

Lemma derive_id_ok parent hash id (w : W) :
  zlen parent = 32 -> zlen hash = 32 -> zlen id = 32 ->
  exists d, SHA256 (parent ++ hash)%list = Some d /\
    derive_id parent hash id w = (Ret (SBCOK, d), w).
Proof.
  intros Hp Hh Hi. unfold derive_id, SBC_AT_HASH_LEN.
  pose proof (alloc_ok (2 * 32) w) as Ha. mrun.
  assert (HP : rd parent 0 32 = Some parent) by (rewrite <-Hp; apply rd_all).
  assert (HH : rd hash 0 32 = Some hash) by (rewrite <-Hh; apply rd_all).
  rewrite HP. mrun. rewrite HH. mrun.
  destruct (hash_at_ok (parent ++ hash)%list (2 * 32) id 0 w) as (d & Hd & _ & HA);
    [rewrite length_app; lia|lia|].
  rewrite firstn_all2 in Hd by (rewrite length_app; lia). exists d. split; [done|].
  rewrite HA, (drop_ge id), app_nil_r by lia. done.
Qed.

(** The SSBL image of a bank is there: its length field and its blocks. *)
Definition ssbl_len (h bank : Z) (w : W) : Z :=
  le_val (window (disk h w) (ssbl_lba bank * BlockSize h w) 4).
Record ssbl_stored (h bank : Z) (w : W) : Prop := {
  ssbl_lba_req : 0 <= ssbl_lba bank < 2 ^ 32;
  ssbl_len_range : 0 < ssbl_len h bank w < 2 ^ 31 - 512;
  ssbl_hdr_readable : readable h (ssbl_lba bank) 512 w;
  ssbl_readable : readable h (ssbl_lba bank) (ALIGN_VALUE32 (ssbl_len h bank w) 512) w
}.

Lemma ssbl_image_load_ok h bank bm lv w :
  ssbl_stored h bank w ->
  let n := ALIGN_VALUE32 (ssbl_len h bank w) 512 in
  512 <= n < 2 ^ 31 /\
  _ssbl_image_load (Some h) lv bank bm w
  = (Ret (SBCOK, lv_set_value (lv_set_length lv (n - 8))
       (Some (drop 4 (window (disk h w) (ssbl_lba bank * BlockSize h w) n)))), w).
Proof.
  intros [Hq Hl Hr1 Hr2] n. destruct (align_value_spec (ssbl_len h bank w) 9) as [Hm Hn]; [lia..|].
  change (2 ^ 9) with 512 in *. fold n in Hm, Hn, Hr2.
  assert (Hn2 : 512 <= n < 2 ^ 31).
  { assert (n = 512 * (n / 512)) by (apply Z_div_exact_2; lia). nia. }
  split; [done|]. unfold _ssbl_image_load. cbv zeta.
  assert (H1 : SBC_RawPrtReadBlock (Some h) (Some (zeros SBC_RAWPRT_DFLT_BLK_SZ))
                 (Some SBC_RAWPRT_DFLT_BLK_SZ) (ssbl_lba bank) w
               = (Ret (SBCOK, Some (window (disk h w) (ssbl_lba bank * BlockSize h w) 512)), w)).
  { apply RawPrtReadBlock_ok; [split; lia|done|reflexivity|done]. }
  mrun. change (sbc_is SBCOK SBCOK) with true. cbn [negb].
  unfold rdp. rewrite rd_window, Z.add_0_r by lia. mrun.
  change (le_val _) with (ssbl_len h bank w). change SBC_RAWPRT_DFLT_BLK_SZ with 512. fold n.
  pose proof (alloc_ok n w) as Ha. mrun.
  assert (H2 : SBC_RawPrtReadBlock (Some h) (Some (zeros n)) (Some n) (ssbl_lba bank) w
               = (Ret (SBCOK, Some (window (disk h w) (ssbl_lba bank * BlockSize h w) n)), w)).
  { apply RawPrtReadBlock_ok; [split; lia|lia|rewrite length_zeros; lia|done]. }
  mrun. change (sbc_is SBCOK SBCOK) with true. done.
Qed.

(** C26: (functional) The firmware id: whenever the SSBL image of the bank can be
    loaded, [SBC_GenFWID] succeeds and the id is H(devid || H(0^32)); no byte of
    the SSBL image enters it, so that two machines (or two versions of the SSBL)
    with one device id have one firmware id. *)
Theorem gen_fwid_spec h bank bm devid fwid w :
  ssbl_stored h bank w -> zlen devid = 32 -> zlen fwid = 32 ->
  exists z id, SHA256 (zeros 32) = Some z /\ SHA256 (devid ++ z)%list = Some id /\
    SBC_GenFWID (Some h) devid fwid bank bm w = (Ret (SBCOK, id), w).
Proof.
  intros Hs Hd Hf.
  destruct (ssbl_image_load_ok h bank bm (mkLV 0 None) w Hs) as [Hn HL].
  unfold SBC_GenFWID. cbv zeta. mrun. change (sbc_is SBCOK SBCOK) with true. cbv iota.
  set (n := ALIGN_VALUE32 _ _) in *.
  match goal with |- context [0 <? lv_length (lv_set_value ?l ?v)] =>
    change (lv_length (lv_set_value l v)) with (lv_length l) end.
  rewrite lv_length_set, u32_small by lia. guard_true.
  destruct (hash_at_ok (zeros 32) 32 (zeros 32) 0 w) as (z & Hz & Hzl & HA);
    [rewrite length_zeros; lia|unfold zeros; rewrite length_replicate; lia|].
  change (take (Z.to_nat 32) (zeros 32)) with (zeros 32) in Hz.
  change (take 0 (zeros 32) ++ z ++ drop (0 + 32) (zeros 32))%list with (z ++ [])%list in HA.
  rewrite app_nil_r in HA. rewrite lv_length_set. change (u32 SBC_AT_HASH_LEN) with 32.
  unfold lv_set_length, lv_set_value. cbn [lv_value]. unfold SBC_AT_HASH_LEN.
  mrun. change (sbc_is SBCOK SBCOK) with true. cbv iota.
  destruct (derive_id_ok devid z fwid w Hd Hzl Hf) as (id & Hid & HD).
  by exists z, id.
Qed.

Lemma kernel_image_load_ok pad i h c w :
  first_file w OSID_KERNEL_PATH i h c -> zlen c < 2 ^ 32 ->
  exists w', same_files view w w' /\
    _kernel_image_load (mkLV (u32 pad * 2 ^ 32) None) w = (Ret (SBCOK, mkLV (zlen c) (Some c)), w').
Proof.
  intros Hf Hc. destruct (GetFileSize_run _ 0 i h c w (proj1 Hf) (proj2 Hf)) as (w1 & H1 & HG).
  apply (first_file_same _ _ _ _ _ _ H1) in Hf. destruct (first_file_in _ _ _ _ _ Hf) as [Hin Hi].
  unfold _kernel_image_load. mrun. change (sbc_is SBCOK SBCOK) with true. cbv iota.
  pose proof (FindEfiFs_run w1) as HL. mrun.
  assert (Hz : 0 < zlen (vols view w1)) by (destruct (vols view w1); [done|cbn [List.length]; lia]).
  guard_false.
  destruct (find_access_run (vols view w1) 0 OSID_KERNEL_PATH EFI_SUCCESS w1)
    as (st & w2 & H2 & HF); [done|]. rewrite (proj1 Hf) in HF. destruct HF as [HF Hst].
  mrun. rewrite Hst. pose proof (alloc_ok (zlen c) w2) as Ha. mrun. cbv zeta.
  replace (Z.to_nat (0 + Z.of_nat i)) with i by lia. rewrite Hi. mrun.
  assert (Hlv : lv_set_length (lv_set_value (mkLV (u32 pad * 2 ^ 32) None) (Some (zeros (zlen c))))
                  (zlen c) = mkLV (u32 pad * 2 ^ 32 + zlen c) (Some (zeros (zlen c)))).
  { unfold lv_set_length, lv_set_value. cbn [lv_word lv_value]. pose proof (u32_range pad).
    rewrite u64_small, Z.div_mul, (u32_small (zlen c)) by lia. done. }
  rewrite Hlv. pose proof (u32_range pad).
  destruct (ReadFile_whole h OSID_KERNEL_PATH (u32 pad * 2 ^ 32) c w2) as (w3 & Hs3 & HR).
  { by rewrite (proj1 H2). } { rewrite (proj2 H2). apply Hf. } { lia. }
  mrun. exists w3. split; [|done]. transitivity w2; [by transitivity w1|done].
Qed.

(** C23: (functional) The OS id is the measurement chain H(fwid || H(kernel)): with
    the kernel on some volume, [SBC_GenOSID] reads the whole file from the first
    volume that has it, whatever the uninitialised padding of its length, and
    returns the hash of the firmware id followed by the hash of the file. *)
Theorem gen_osid_spec pad i h kernel fwid osid w :
  first_file w OSID_KERNEL_PATH i h kernel -> 0 < zlen kernel < 2 ^ 32 ->
  zlen fwid = 32 -> zlen osid = 32 ->
  exists k id w', same_files view w w' /\
    SHA256 kernel = Some k /\ SHA256 (fwid ++ k)%list = Some id /\
    SBC_GenOSID pad fwid osid w = (Ret (SBCOK, id), w').
Proof.
  intros Hf Hk Hw Ho.
  destruct (kernel_image_load_ok pad i h kernel w Hf) as (w1 & H1 & HL); [lia|].
  unfold SBC_GenOSID. mrun. change (sbc_is SBCOK SBCOK) with true. cbn [negb lv_value].
  unfold lv_length. cbn [lv_word]. rewrite u32_small by lia.
  destruct (hash_at_ok kernel (zlen kernel) (zeros SBC_AT_HASH_LEN) 0 w1) as (k & Hkh & Hkl & HA).
  { lia. } { done. }
  rewrite firstn_all2 in Hkh by lia. mrun. change (sbc_is SBCOK SBCOK) with true. cbv iota.
  rewrite (drop_ge (zeros _)), app_nil_r by done.
  destruct (derive_id_ok fwid k osid w1 Hw Hkl Ho) as (id & Hid & HD).
  by exists k, id, w1.
Qed.

(** \EFI\BOOT\FSBL.efi on the first volume. *)
Definition FSBL_PATH : string := join (join "EFI" "BOOT") "FSBL.efi".
Record fsbl_file (w : W) (h : Z) (c : bytes) : Prop := {
  fsbl_first : exists hs, vols view w = h :: hs;
  fsbl_efi : vol_node view w h "EFI" = Some None;
  fsbl_boot : vol_node view w h (join "EFI" "BOOT") = Some None;
  fsbl_node : vol_node view w h FSBL_PATH = Some (Some c)
}.

Lemma close_all_run hs w : exists w', close_all hs w = (Ret tt, w') /\ same_files view w w'.
Proof.
  revert w. induction hs as [|h hs IH]; intros w; [by exists w|]. cbn [close_all].
  destruct (fs_close h w) as (w1 & HC & H1). mrun. destruct (IH w1) as (w2 & HC2 & H2).
  exists w2. split; [done|]. by transitivity w1.
Qed.

(** Opening what is in an open directory. *)
Lemma open_in_dir r h dir name x w :
  open_as view w r = Some (NDir h dir) -> vol_node view w h (join dir name) = Some x ->
  exists f w', FOpen r name EFI_FILE_MODE_READ 0 w = (Ret (EFI_SUCCESS, f), w') /\
    same_files view w w' /\
    open_as view w' f = Some (match x with
      | Some _ => NFile h (join dir name) 0 | None => NDir h (join dir name) end).
Proof.
  intros Hr Hn. destruct (fs_open_read r h dir name w Hr) as (st & f & w1 & HO & H1 & Hc).
  rewrite Hn in Hc. exists f, w1. destruct x; destruct Hc as [-> Hf]; done.
Qed.

Lemma fsbl_content_ok f h c w :
  open_as view w f = Some (NFile h FSBL_PATH 0) -> vol_node view w h FSBL_PATH = Some (Some c) ->
  zlen c < 2 ^ 32 ->
  exists w', same_files view w w' /\
    fsbl_content f (mkLV 0 None) w = (Ret (EFI_SUCCESS, mkLV (zlen c) (Some c)), w').
Proof.
  intros Hf Hn Hc. destruct (fs_info f h FSBL_PATH 0 c w Hf Hn) as (k & i & HI & HI2 & Hsz).
  unfold fsbl_content. mrun. rewrite Z.eqb_refl.
  assert (HX : (let! a := AllocatePool k in
                if negb a then ret (EFI_OUT_OF_RESOURCES, None)
                else let! (st, i) := FInfo f in ret (st, Some i)) w = (Ret (EFI_SUCCESS, Some i), w)).
  { pose proof (alloc_ok k w) as Ha. mrun. cbn [negb]. by mrun. }
  mrun. change (EFI_ERROR EFI_SUCCESS) with false. cbv iota zeta. mrun. rewrite Hsz.
  assert (HW : lv_set_length (mkLV 0 None) (zlen c) = mkLV (zlen c) None).
  { unfold lv_set_length. cbn [lv_word lv_value]. rewrite u32_small by lia. done. }
  rewrite HW. unfold lv_length. cbn [lv_word]. rewrite u32_small by lia.
  pose proof (alloc_ok (zlen c) w) as Ha. mrun. cbn [negb].
  destruct (fs_read f h FSBL_PATH 0 c (zlen c) w Hf Hn) as (w1 & HR & H1); [lia..|].
  change (Z.to_nat 0) with 0%nat in HR. rewrite drop_0, Nat2Z.id, firstn_all in HR. mrun.
  change (EFI_ERROR EFI_SUCCESS) with false. cbv iota.
  rewrite wr_full by (unfold zeros; rewrite length_replicate; lia). mrun. by exists w1.
Qed.

Lemma efi_boot_fsbl_load_ok h c w :
  fsbl_file w h c -> zlen c < 2 ^ 32 ->
  exists w', same_files view w w' /\
    efi_boot_fsbl_load (mkLV 0 None) w = (Ret (EFI_SUCCESS, mkLV (zlen c) (Some c)), w').
Proof.
  intros [[hs Hv] HE HB HF] Hc. assert (Hin : In h (vols view w)) by (rewrite Hv; by left).
  unfold efi_boot_fsbl_load. pose proof (fs_locate w) as HL. rewrite Hv in HL. mrun.
  change (EFI_ERROR EFI_SUCCESS) with false. cbv iota.
  destruct (fs_open_volume h w Hin) as (r & w1 & HV & Hr & H1).
  assert (HR : fsbl_root (h :: hs) w = (Ret (Some r), w1)).
  { cbn [fsbl_root]. pose proof (alloc_ok 48 w) as Ha. mrun. cbn [negb].
    pose proof (fs_protocol h w Hin) as HP. mrun.
    change (EFI_ERROR EFI_SUCCESS) with false. cbv iota. by mrun. }
  mrun.
  destruct (open_in_dir r h "" "EFI" None w1) as (e & w2 & HO2 & H2 & He); [done|by rewrite (proj2 H1)|].
  assert (S2 : same_files view w w2) by (by transitivity w1).
  mrun. change (EFI_ERROR EFI_SUCCESS) with false. cbv iota.
  destruct (open_in_dir e h "EFI" "BOOT" None w2) as (b & w3 & HO3 & H3 & Hb);
    [done|by rewrite (proj2 S2)|].
  assert (S3 : same_files view w w3) by (by transitivity w2).
  mrun. change (EFI_ERROR EFI_SUCCESS) with false. cbv iota.
  destruct (open_in_dir b h (join "EFI" "BOOT") "FSBL.efi" (Some c) w3) as (x & w4 & HO4 & H4 & Hx);
    [done|by rewrite (proj2 S3)|].
  assert (S4 : same_files view w w4) by (by transitivity w3).
  mrun. change (EFI_ERROR EFI_SUCCESS) with false. cbv iota.
  destruct (fsbl_content_ok x h c w4) as (w5 & H5 & HC); [done|by rewrite (proj2 S4)|done|]. mrun.
  destruct (close_all_run [x; b; e; r] w5) as (w6 & HC6 & H6). mrun.
  exists w6. split; [|done]. transitivity w5; [by transitivity w4|done].
Qed.

(** C24: (functional) The device id: with the serial numbers [info] and
    \EFI\BOOT\FSBL.efi on the first volume, [SBC_GenDeviceID] succeeds with
    H(board || memory || NVMe serial || first 32 bytes of the FSBL image); of an
    image only these 32 bytes enter the id, although its hash is computed. *)
Theorem gen_device_id_spec h c info hw devid w w1 :
  hw_serials w = (Ret info, w1) -> hw_concat info = Some hw ->
  fsbl_file w1 h c -> 32 <= zlen c < 2 ^ 32 -> zlen devid = 32 ->
  exists id w', same_files view w1 w' /\ SHA256 (hw ++ take 32 c)%list = Some id /\
    SBC_GenDeviceID (Some devid) w = (Ret (SBCOK, Some id), w').
Proof.
  intros HW Hh Hf Hc Hd. destruct (efi_boot_fsbl_load_ok h c w1 Hf) as (w2 & H2 & HL); [lia|].
  unfold SBC_GenDeviceID. cbn [notnull]. mrun. cbn [notnull lv_value].
  unfold lv_length at 1. cbn [lv_word]. rewrite u32_small by lia.
  destruct (HashCompute_ok c (zlen c) (zeros 32) w2) as (d & _ & HH); [lia|by rewrite length_zeros|].
  mrun. change (sbc_is SBCOK SBCOK) with true. cbn [negb]. cbv zeta. rewrite lv_length_set.
  change (u32 SBC_AT_HASH_LEN) with 32.
  pose proof (alloc_ok (mbsnl info + mmsnl info + nvmesnl info + 32) w2) as Ha. mrun.
  rewrite Hh. mrun. cbn [lv_set_length lv_value]. rewrite rdp_some by lia.
  change (Z.to_nat 32) with 32%nat. mrun.
  destruct (HashCompute_ok (hw ++ take 32 c)%list (zlen (hw ++ take 32 c)%list) devid w2)
    as (id & Hid & HF); [rewrite length_app, length_take; lia|lia|].
  rewrite Nat2Z.id, firstn_all in Hid. rewrite (drop_ge devid), app_nil_r in HF by lia.
  by exists id, w2.
Qed.
End KeyLaws.

(** ** The migration key: laws *)
Section MigrationLaws.
Context {W : Type} `{!Pool W, !PoolOk W, !BlockIo W, !BlockIoLaws W, !FileSys W, !HwInfo W,
  !OpenSSL, !OpenSSLLaws}.

Lemma bank_lba_range bank : 0 <= bank_lba bank < 2 ^ 32.
Proof.
  unfold bank_lba. set (x := u32 _). pose proof (u32_range (BOOT_FW_IMGMAX * u32 (bank - 1))) as Hx.
  fold x in Hx. pose proof (Z.add_lor_land BOOT_SECTOR1_OFS x) as HA.
  assert (0 <= Z.land BOOT_SECTOR1_OFS x) by (apply Z.land_nonneg; left; done).
  assert (0 <= Z.lor BOOT_SECTOR1_OFS x) by (apply Z.lor_nonneg; split; [done|lia]).
  change BOOT_SECTOR1_OFS with 512 in *. rewrite Z.shiftr_div_pow2 by done.
  change (2 ^ SBC_RAWPRT_DFLT_SHIFT) with 512. split.
  - apply Z.div_pos; lia.
  - apply Z.div_lt_upper_bound; lia.
Qed.

(** An image of a bank: its length field and the bytes after it. *)
Definition image_len (fw : bytes) (ofs : Z) : Z := le_val (take 4 (drop (Z.to_nat ofs) fw)).
Definition image (fw : bytes) (ofs : Z) : bytes :=
  take (Z.to_nat (image_len fw ofs)) (drop (Z.to_nat (ofs + 4)) fw).
Definition image_in (fw : bytes) (ofs : Z) : Prop :=
  0 < image_len fw ofs /\ ofs + 4 + image_len fw ofs <= zlen fw.

Lemma hash_image_ok fw ofs mig (cnt : nat) (w : W) :
  0 <= ofs -> image_in fw ofs -> (cnt + 32 <= List.length mig)%nat ->
  exists d, SHA256 (image fw ofs) = Some d /\ zlen d = 32 /\
    hash_image fw ofs mig cnt w = (Ret (SBCOK, take cnt mig ++ d ++ drop (cnt + 32) mig)%list, w).
Proof.
  intros Ho [Hl Hfit] Hm. unfold hash_image. rewrite rd_some by lia. mrun.
  change (Z.to_nat 4) with 4%nat. fold (image_len fw ofs).
  apply hash_at_ok; [|done]. rewrite length_drop. lia.
Qed.

Lemma zeros_len n : List.length (zeros n) = Z.to_nat n.
Proof. apply length_replicate. Qed.

(** Filling the six slots in order. *)
Lemma slot_step (done' d rest : bytes) (cnt : nat) :
  List.length done' = cnt -> (32 <= List.length rest)%nat ->
  (take cnt (done' ++ rest) ++ d ++ drop (cnt + 32) (done' ++ rest)
   = (done' ++ d) ++ drop 32 rest)%list.
Proof.
  intros Hc Hr. subst cnt. rewrite take_app_length, <-app_assoc. do 2 f_equal.
  rewrite drop_app_ge by lia. f_equal. lia.
Qed.

(** Reading one block over the first block of the other bank leaves its images. *)
Lemma image_after_block fw b ofs :
  List.length b = 512%nat -> 512 <= ofs -> 512 <= zlen fw ->
  image (b ++ drop 512 fw) ofs = image fw ofs /\
  image_len (b ++ drop 512 fw) ofs = image_len fw ofs.
Proof.
  intros Hb Ho Hf.
  assert (HD : forall k, 512 <= k -> drop (Z.to_nat k) (b ++ drop 512 fw)%list = drop (Z.to_nat k) fw).
  { intros k Hk. rewrite drop_app_ge, drop_drop by lia. f_equal. lia. }
  assert (HL : image_len (b ++ drop 512 fw) ofs = image_len fw ofs)
    by (unfold image_len; by rewrite HD).
  split; [|done]. unfold image. rewrite HL, HD by lia. done.
Qed.

(** The bank [bank] of device [h] as one buffer. *)
Definition bank_image (h bank : Z) (w : W) : bytes :=
  window (disk h w) (bank_lba bank * BlockSize h w) BOOT_FW_IMGMAX.
Record bank_ok (h bank : Z) (w : W) : Prop := {
  bank_readable : readable h (bank_lba bank) BOOT_FW_IMGMAX w;
  bank_fsbl : image_in (bank_image h bank w) FW_FSBL;
  bank_ssbl : image_in (bank_image h bank w) FW_SSBL;
  bank_os : image_in (bank_image h bank w) FW_OS
}.

Lemma fw_offsets : 0 <= FW_FSBL /\ 512 <= FW_SSBL /\ 512 <= FW_OS.
Proof.
  change FW_FSBL with 0. change FW_SSBL with 4194304. change FW_OS with 8388608. lia.
Qed.

Lemma imgmax_range : 0 < BOOT_FW_IMGMAX < 2 ^ 32.
Proof. change BOOT_FW_IMGMAX with 134217728. lia. Qed.

Lemma bank_read_ok h bank (w : W) :
  readable h (bank_lba bank) BOOT_FW_IMGMAX w ->
  SBC_RawPrtReadBlock (Some h) (Some (zeros BOOT_FW_IMGMAX)) (Some BOOT_FW_IMGMAX)
    (bank_lba bank) w = (Ret (SBCOK, Some (bank_image h bank w)), w).
Proof.
  unfold bank_image. pose proof imgmax_range as Hm. pose proof (bank_lba_range bank).
  generalize dependent BOOT_FW_IMGMAX. intros n Hn HR.
  apply RawPrtReadBlock_ok; [split; lia|lia|apply length_zeros; lia|exact HR].
Qed.

Lemma mig_current_ok h bank d0 (w : W) :
  bank_ok h bank w -> zlen d0 = 32 ->
  exists d1 d2 d3, zlen d1 = 32 /\ zlen d2 = 32 /\ zlen d3 = 32 /\
    SHA256 (image (bank_image h bank w) FW_FSBL) = Some d1 /\
    SHA256 (image (bank_image h bank w) FW_SSBL) = Some d2 /\
    SHA256 (image (bank_image h bank w) FW_OS) = Some d3 /\
    mig_current (Some h) bank (d0 ++ zeros 160) w
    = (Ret (SBCOK, Some (bank_image h bank w), d0 ++ d1 ++ d2 ++ d3 ++ zeros 64)%list, w).
Proof.
  intros [HR H1 H2 H3] Hd0. pose proof fw_offsets as (Ho1 & Ho2 & Ho3). unfold mig_current. cbv zeta.
  assert (HB : SBC_RawPrtReadBlock (Some h) (Some (zeros BOOT_FW_IMGMAX)) (Some BOOT_FW_IMGMAX)
                 (bank_lba bank) w = (Ret (SBCOK, Some (bank_image h bank w)), w)).
  { apply bank_read_ok. exact HR. }
  set (fw := bank_image h bank w) in *. clearbody fw.
  destruct (hash_image_ok fw FW_FSBL (d0 ++ zeros 160) 32 w) as (d1 & Hd1 & Hl1 & HI1);
    [lia|assumption|rewrite ?length_app, ?zeros_len; lia|].
  rewrite slot_step in HI1 by (rewrite ?length_app, ?zeros_len; lia).
  change (drop 32 (zeros 160)) with (zeros 128) in HI1.
  destruct (hash_image_ok fw FW_SSBL ((d0 ++ d1) ++ zeros 128) 64 w) as (d2 & Hd2 & Hl2 & HI2);
    [lia|assumption|rewrite ?length_app, ?zeros_len; lia|].
  rewrite slot_step in HI2 by (rewrite ?length_app, ?zeros_len; lia).
  change (drop 32 (zeros 128)) with (zeros 96) in HI2.
  destruct (hash_image_ok fw FW_OS (((d0 ++ d1) ++ d2) ++ zeros 96) 96 w) as (d3 & Hd3 & Hl3 & HI3);
    [lia|assumption|rewrite ?length_app, ?zeros_len; lia|].
  rewrite slot_step in HI3 by (rewrite ?length_app, ?zeros_len; lia).
  change (drop 32 (zeros 96)) with (zeros 64) in HI3.
  exists d1, d2, d3. repeat (split; [assumption|]).
  mgo HB. change (sbc_is SBCOK SBCOK) with true. cbv iota. clear HB.
  change (access (Some fw)) with (@ret W _ fw). eapply bind_run; [reflexivity|cbv beta].
  mgo HI1. change (sbc_is SBCOK SBCOK) with true. cbv iota.
  mgo HI2. change (sbc_is SBCOK SBCOK) with true. cbv iota.
  mgo HI3. change (sbc_is SBCOK SBCOK) with true. cbv iota.
  unfold ret. by rewrite <-!app_assoc.
Qed.

(** Over the first block of the buffer: cleared, then read. *)
Lemma newer_block h bank fw (w : W) :
  readable h (bank_lba bank) 512 w -> 512 <= zlen fw ->
  exists b, List.length b = 512%nat /\ exists fw1, wr fw 0 (zeros 8) = Some fw1 /\
    SBC_RawPrtReadBlock (Some h) (Some fw1) (Some 512) (bank_lba bank) w
    = (Ret (SBCOK, Some (b ++ drop 512 fw)%list), w).
Proof.
  intros HR Hf. pose proof (bank_lba_range bank) as Hb.
  destruct (readable_data h (bank_lba bank) 512 w) as (st & HD & Hs); [split; lia|done|].
  eexists. split; [apply (length_window (disk h w) (bank_lba bank * BlockSize h w) 512)|].
  destruct (wr_ok fw 0 (zeros 8)) as (fw1 & HW & HL); [lia|rewrite zeros_len; lia|].
  exists fw1. split; [done|]. unfold SBC_RawPrtReadBlock. cbn [notnull orb]. mrun.
  change (negb (512 =? 0)) with true. cbv iota. mrun. rewrite Hs.
  apply wr_inv in HW as (_ & _ & ->). rewrite wr_some by (rewrite ?length_window; lia).
  rewrite length_window. change (Z.to_nat 0) with 0%nat. cbn [take app Nat.add]. mrun.
  unfold ret. do 4 f_equal. rewrite !zeros_len, !take_0. change (Z.to_nat 512) with 512%nat.
  cbn [app]. f_equal. rewrite drop_app_ge by (rewrite zeros_len; lia).
  rewrite zeros_len, drop_drop. f_equal.
Qed.

Lemma mig_newer_ok h bank fw d0 d1 d2 d3 (w : W) :
  readable h (bank_lba bank) 512 w -> image_in fw FW_SSBL -> image_in fw FW_OS ->
  zlen d0 = 32 -> zlen d1 = 32 -> zlen d2 = 32 -> zlen d3 = 32 ->
  SHA256 (image fw FW_SSBL) = Some d2 -> SHA256 (image fw FW_OS) = Some d3 ->
  mig_newer (Some h) bank fw (d0 ++ d1 ++ d2 ++ d3 ++ zeros 64) w
  = (Ret (SBCOK, d0 ++ d1 ++ d2 ++ d3 ++ d2 ++ d3)%list, w).
Proof.
  intros HR H2 H3 L0 L1 L2 L3 E2 E3. pose proof fw_offsets as (_ & Ho2 & Ho3).
  assert (Hf : 512 <= zlen fw) by (unfold image_in in *; lia).
  destruct (newer_block h bank fw w HR Hf) as (b & Hb & fw1 & HW & HB).
  unfold mig_newer. rewrite HW. mrun. change (ALIGN_VALUE32 8 SBC_RAWPRT_DFLT_BLK_SZ) with 512.
  cbv zeta. rewrite (bind_eq _ _ _ _ _ HB). clear HB.
  change (sbc_is SBCOK SBCOK) with true. cbv beta iota. mrun.
  assert (HI : forall ofs, 512 <= ofs -> image_in fw ofs -> image_in (b ++ drop 512 fw)%list ofs).
  { intros ofs Ho [Hl Hi]. destruct (image_after_block fw b ofs Hb Ho Hf) as [_ HE].
    split; rewrite HE; [done|]. rewrite length_app, length_drop. lia. }
  assert (HE2 := proj1 (image_after_block fw b FW_SSBL Hb Ho2 Hf)).
  assert (HE3 := proj1 (image_after_block fw b FW_OS Hb Ho3 Hf)).
  set (fw' := (b ++ drop 512 fw)%list) in *.
  destruct (hash_image_ok fw' FW_SSBL ((d0 ++ d1 ++ d2 ++ d3) ++ zeros 64) 128 w)
    as (x2 & Hx2 & Hl2 & HX2);
    [lia|apply HI; [lia|assumption]|rewrite ?length_app, ?zeros_len; lia|].
  rewrite HE2, E2 in Hx2. injection Hx2 as <-.
  rewrite slot_step in HX2 by (rewrite ?length_app, ?zeros_len; lia).
  change (drop 32 (zeros 64)) with (zeros 32) in HX2. rewrite <-!app_assoc in HX2. mrun.
  change (sbc_is SBCOK SBCOK) with true. cbv iota.
  destruct (hash_image_ok fw' FW_OS ((d0 ++ d1 ++ d2 ++ d3 ++ d2) ++ zeros 32) 160 w)
    as (x3 & Hx3 & Hl3 & HX3);
    [lia|apply HI; [lia|assumption]|rewrite ?length_app, ?zeros_len; lia|].
  rewrite HE3, E3 in Hx3. injection Hx3 as <-.
  rewrite slot_step in HX3 by (rewrite ?length_app, ?zeros_len; lia).
  change (drop 32 (zeros 32)) with (@nil Z) in HX3. rewrite app_nil_r, <-!app_assoc in HX3. exact HX3.
Qed.

Lemma migration_run h cur prev info hw out w w1 :
  hw_serials w = (Ret info, w1) -> hw_concat info = Some hw -> hw <> [] ->
  bank_ok h cur w1 -> readable h (bank_lba prev) 512 w1 -> zlen out = 32 ->
  exists d0 d1 d2 d3 key, SHA256 hw = Some d0 /\
    SHA256 (image (bank_image h cur w1) FW_FSBL) = Some d1 /\
    SHA256 (image (bank_image h cur w1) FW_SSBL) = Some d2 /\
    SHA256 (image (bank_image h cur w1) FW_OS) = Some d3 /\
    SHA256 (d0 ++ d1 ++ d2 ++ d3 ++ d2 ++ d3)%list = Some key /\
    SBC_GenMigrationKey (Some h) cur prev out w = (Ret (SBCOK, key), w1).
Proof.
  intros HS Hh Hne HB HR Ho.
  destruct (hash_at_ok hw (zlen hw) (zeros (SBC_AT_HASH_LEN * 6)) 0 w1) as (d0 & E0 & L0 & HA0).
  { destruct hw; [done|cbn [List.length]; lia]. }
  { rewrite zeros_len. change (Z.to_nat (SBC_AT_HASH_LEN * 6)) with 192%nat. lia. }
  rewrite Nat2Z.id, firstn_all in E0.
  change (take 0 (zeros (SBC_AT_HASH_LEN * 6)) ++ d0 ++ drop (0 + 32) (zeros (SBC_AT_HASH_LEN * 6)))%list
    with (d0 ++ zeros 160)%list in HA0.
  destruct (mig_current_ok h cur d0 w1 HB L0) as (d1 & d2 & d3 & L1 & L2 & L3 & E1 & E2 & E3 & HC).
  destruct HB as [_ _ I2 I3]. set (fw := bank_image h cur w1) in *. clearbody fw.
  pose proof (mig_newer_ok h prev fw d0 d1 d2 d3 w1 HR I2 I3 L0 L1 L2 L3 E2 E3) as HN.
  set (key6 := (d0 ++ d1 ++ d2 ++ d3 ++ d2 ++ d3)%list) in *.
  assert (L6 : zlen key6 = 192) by (unfold key6; rewrite !length_app; lia).
  destruct (hash_at_ok key6 192 out 0 w1) as (key & EK & _ & HK); [lia|lia|].
  rewrite firstn_all2 in EK by lia. rewrite (drop_ge out), app_nil_r in HK by lia.
  exists d0, d1, d2, d3, key. repeat (split; [assumption|]).
  unfold SBC_GenMigrationKey. cbn [notnull]. mgo HS.
  mgo (alloc_ok BOOT_FW_IMGMAX w1). mgo (alloc_ok (mbsnl info + mmsnl info + nvmesnl info) w1).
  rewrite Hh. change (access (Some hw)) with (@ret W _ hw). eapply bind_run; [reflexivity|cbv beta].
  mgo (alloc_ok (SBC_AT_HASH_LEN * 6) w1). mgo HA0.
  change (sbc_is SBCOK SBCOK) with true. cbn [negb].
  mgo HC. change (sbc_is SBCOK SBCOK) with true. cbv iota.
  change (access (Some fw)) with (@ret W _ fw). eapply bind_run; [reflexivity|cbv beta].
  mgo HN. change (sbc_is SBCOK SBCOK) with true. cbv iota. exact HK.
Qed.

(** C25: (functional) The migration key the code computes: with the serial numbers
    of the machine and the bank [cur] readable, [SBC_GenMigrationKey] succeeds
    with H(H(hw) || H(FSBL) || H(SSBL) || H(OS) || H(SSBL) || H(OS)), all images
    taken from the current bank.  The images of the newer bank do not enter, against
    the stated H(...||H(Newer SSBL)||H(Newer KERNEL)): a machine with the same
    serial numbers and current bank gets the same key whatever its other bank
    holds, and whichever bank number is given for it. *)
Theorem migration_key_spec h cur prev info hw out w w1 :
  hw_serials w = (Ret info, w1) -> hw_concat info = Some hw -> hw <> [] ->
  bank_ok h cur w1 -> readable h (bank_lba prev) 512 w1 -> zlen out = 32 ->
  exists d0 d1 d2 d3 key, SHA256 hw = Some d0 /\
    SHA256 (image (bank_image h cur w1) FW_FSBL) = Some d1 /\
    SHA256 (image (bank_image h cur w1) FW_SSBL) = Some d2 /\
    SHA256 (image (bank_image h cur w1) FW_OS) = Some d3 /\
    SHA256 (d0 ++ d1 ++ d2 ++ d3 ++ d2 ++ d3)%list = Some key /\
    SBC_GenMigrationKey (Some h) cur prev out w = (Ret (SBCOK, key), w1) /\
    (forall prev' v v1, hw_serials v = (Ret info, v1) -> bank_ok h cur v1 ->
       readable h (bank_lba prev') 512 v1 -> bank_image h cur v1 = bank_image h cur w1 ->
       SBC_GenMigrationKey (Some h) cur prev' out v = (Ret (SBCOK, key), v1)).
Proof.
  intros HS Hh Hne HB HR Ho.
  destruct (migration_run h cur prev info hw out w w1 HS Hh Hne HB HR Ho)
    as (d0 & d1 & d2 & d3 & key & E0 & E1 & E2 & E3 & EK & HK).
  exists d0, d1, d2, d3, key. repeat (split; [assumption|]). intros prev' v v1 HS' HB' HR' HE.
  destruct (migration_run h cur prev' info hw out v v1 HS' Hh Hne HB' HR' Ho)
    as (c0 & c1 & c2 & c3 & key' & F0 & F1 & F2 & F3 & FK & HK').
  rewrite HE in F1, F2, F3. clear HB HB' HE.
  rewrite E0 in F0. rewrite E1 in F1. rewrite E2 in F2. rewrite E3 in F3.
  apply (inj Some) in F0, F1, F2, F3. subst c0 c1 c2 c3. rewrite EK in FK.
  apply (inj Some) in FK. subst key'. exact HK'.
Qed.
End MigrationLaws.

(** ** Where the banks are *)
(** (bounds) Where the images of a bank are: the banks are 128 MB apart
    ([bank_lba], which the migration key reads), but the FSBL and the firmware id
    read the SSBL of bank 2 only 1 MB after that of bank 1: it lies inside bank 1
    and is not the SSBL image of bank 2. *)
Theorem ssbl_bank_stride :
  let ssbl_of bank := bank_lba bank + BOOT_SSBL_OFS / SBC_RAWPRT_DFLT_BLK_SZ in
  ssbl_lba 1 = ssbl_of 1 /\
  ssbl_lba 2 = ssbl_of 1 + 2 ^ 20 / SBC_RAWPRT_DFLT_BLK_SZ /\
  ssbl_of 2 = ssbl_of 1 + BOOT_FW_IMGMAX / SBC_RAWPRT_DFLT_BLK_SZ /\
  bank_lba 1 < ssbl_lba 2 < bank_lba 2.
Proof. vm_compute. repeat split; congruence. Qed.

(** ** Examples *)
Section Examples.
#[local] Existing Instance toy_ssl.
#[local] Existing Instance toy_laws.

(** A machine with a board, a memory and an NVMe serial number, the stages'
    images in bank 1 of the raw partition, the FSBL and the kernel as files. *)
Definition ex_board : bytes := [2; 8; 0; 0; 0; 0; 0; 1].
Definition ex_memory : bytes := ([17; 40] ++ zeros 22 ++ [2] ++ zeros 15)%list.
Definition ex_hw : hw_state :=
  mkHw [(ex_board ++ string_area [[65; 66]])%list;
        (ex_memory ++ string_area [[77]; [67; 68]])%list]
       [(zeros 4 ++ [78; 49] ++ replicate 18 32)%list].
Definition ex_dice : machine :=
  machine_of [disk_with 4096 [];
              disk_with (2 ^ 30)
                [(0, hdr_encode (ex_hdr 1 1 0)); (512, le_bytes 4 40);
                 (512 + BOOT_SSBL_OFS, le_bytes 4 60); (512 + BOOT_OS_OFS, le_bytes 4 70)]]
    [(OSID_KERNEL_PATH, [9; 8; 7]); ("\EFI\BOOT\FSBL.efi", replicate 40 6);
     ("\EFI\rocky\grubx64.efi", [77; 90])]%string ex_hw.

Lemma smbios_serial_spec_witness :
  smbios_sn 17 24 (ex_memory ++ string_area [[77]; [67; 68]])%list (zeros 64, 0)
  = Some ([67; 68] ++ zeros 62, 2)%list.
Proof.
  rewrite (smbios_serial_spec 17 24 ex_memory [[77]; [67; 68]] 2 (zeros 64) 0 [67; 68]);
    first [vm_compute; reflexivity | lia
          | repeat (apply Forall_cons; split); repeat constructor; lia].
Defined.

Lemma nvme_serial_trim_witness :
  c_string (trim_spaces ([78; 49] ++ replicate 18 32) ++ [0])%list = Some [78; 49].
Proof. apply nvme_serial_trim; [repeat constructor; lia|vm_compute; congruence]. Defined.

Lemma fsbl_intg_check_rejects_witness :
  SBC_FSBLIntgCheck (Some 2) (Some [1; 2; 3]) 3 1 BOOT_MODE_NORMAL (ex_machine 1 1 0)
  = (Ret SBCZEROL, ex_machine 1 1 0).
Proof.
  assert (H0 : root_ca_len 2 (ex_machine 1 1 0) = 0) by (vm_compute; reflexivity).
  assert (Hl : 0 <= root_ca_len 2 (ex_machine 1 1 0) <= SYS_SETTING_STORAGE_LEN - 132)
    by (rewrite H0; vm_compute; split; congruence).
  pose proof (fsbl_intg_check_rejects 2 [1; 2; 3] 3 1 BOOT_MODE_NORMAL (ex_machine 1 1 0)
                (or_introl eq_refl) ex_settings_dev Hl) as HF.
  rewrite H0 in HF. exact HF.
Defined.

Lemma gen_fwid_spec_witness :
  exists z id, SHA256 (zeros 32) = Some z /\ SHA256 (replicate 32 1 ++ z)%list = Some id /\
    SBC_GenFWID (Some 2) (replicate 32 1) (zeros 32) 1 1 ex_dice = (Ret (SBCOK, id), ex_dice).
Proof.
  apply (gen_fwid_spec 2 1 1 (replicate 32 1) (zeros 32) ex_dice); [|reflexivity|reflexivity].
  split; [vm_compute; split; congruence|vm_compute; split; congruence| |];
    (apply readable_run; [vm_compute; repeat split; congruence|vm_compute; reflexivity]).
Defined.

Lemma gen_osid_spec_witness :
  exists k id w', same_files view ex_dice w' /\
    SHA256 [9; 8; 7] = Some k /\ SHA256 (replicate 32 1 ++ k)%list = Some id /\
    SBC_GenOSID 5 (replicate 32 1) (zeros 32) ex_dice = (Ret (SBCOK, id), w').
Proof.
  apply (gen_osid_spec 5 0 10 [9; 8; 7] (replicate 32 1) (zeros 32) ex_dice);
    [split; vm_compute; reflexivity|cbn; lia|reflexivity|reflexivity].
Defined.

Definition ex_info : hw_uniqueinfo_t :=
  mkHwInfo ([65; 66] ++ zeros 62)%list 2 ([67; 68] ++ zeros 62)%list 2 ([78; 49] ++ zeros 62)%list 2.

Lemma gen_device_id_spec_witness :
  exists id w', same_files view ex_dice w' /\
    SHA256 ([65; 66; 67; 68; 78; 49] ++ replicate 32 6)%list = Some id /\
    SBC_GenDeviceID (Some (zeros 32)) ex_dice = (Ret (SBCOK, Some id), w').
Proof.
  apply (gen_device_id_spec 10 (replicate 40 6) ex_info [65; 66; 67; 68; 78; 49] (zeros 32)
           ex_dice ex_dice).
  - apply run_ret. vm_compute. reflexivity.
  - vm_compute. reflexivity.
  - split; [by exists []|vm_compute; reflexivity..].
  - cbn. lia.
  - reflexivity.
Defined.

Lemma image_len_window f a ofs :
  0 <= ofs -> ofs + 4 <= BOOT_FW_IMGMAX ->
  image_len (window f a BOOT_FW_IMGMAX) ofs = le_val (window f (a + ofs) 4).
Proof.
  intros Ho Hm. pose proof (rd_window f a BOOT_FW_IMGMAX ofs 4) as HR.
  rewrite rd_some in HR by (rewrite ?zlen_window; pose proof imgmax_range; lia).
  specialize (HR ltac:(lia) ltac:(lia) ltac:(lia)). injection HR as HR.
  unfold image_len. by rewrite <-HR.
Qed.

Lemma image_in_run h bank ofs n (w : machine) :
  0 <= ofs -> ofs + 4 + n <= 134217728 -> 0 < n ->
  le_val (window (disk h w) (bank_lba bank * BlockSize h w + ofs) 4) = n ->
  image_in (bank_image h bank w) ofs.
Proof.
  intros Ho Hf Hn He. pose proof imgmax_range as Hm. change BOOT_FW_IMGMAX with 134217728 in Hm.
  unfold image_in, bank_image. rewrite image_len_window; [|done|].
  - rewrite He. split; [done|]. rewrite zlen_window; change BOOT_FW_IMGMAX with 134217728; lia.
  - change BOOT_FW_IMGMAX with 134217728. lia.
Qed.

(** A bank with images of the given lengths. *)
Lemma bank_ok_run h bank n1 n2 n3 (w : machine) :
  match ramdisk_of h w with Some p => serves p (bank_lba bank) BOOT_FW_IMGMAX | None => false end = true ->
  0 < n1 <= 4194300 -> 0 < n2 <= 4194300 -> 0 < n3 <= 20971516 ->
  map (fun o => le_val (window (disk h w) (bank_lba bank * BlockSize h w + o) 4)) [FW_FSBL; FW_SSBL; FW_OS]
  = [n1; n2; n3] ->
  bank_ok h bank w.
Proof.
  intros Hs H1 H2 H3 HM. injection HM as E1 E2 E3. split.
  - apply readable_serves; [|exact Hs].
    split; [apply bank_lba_range|pose proof imgmax_range; lia].
  - apply (image_in_run _ _ _ n1); [vm_compute; congruence|change FW_FSBL with 0; lia|lia|exact E1].
  - apply (image_in_run _ _ _ n2); [vm_compute; congruence|change FW_SSBL with 4194304; lia|lia|exact E2].
  - apply (image_in_run _ _ _ n3); [vm_compute; congruence|change FW_OS with 8388608; lia|lia|exact E3].
Qed.

Lemma ex_bank_ok : bank_ok 2 1 ex_dice.
Proof. apply (bank_ok_run 2 1 40 60 70); first [lia|vm_compute; reflexivity]. Qed.

Lemma migration_key_spec_witness :
  exists key, SBC_GenMigrationKey (Some 2) 1 2 (zeros 32) ex_dice = (Ret (SBCOK, key), ex_dice).
Proof.
  destruct (migration_key_spec 2 1 2 ex_info [65; 66; 67; 68; 78; 49] (zeros 32) ex_dice ex_dice)
    as (d0 & d1 & d2 & d3 & key & _ & _ & _ & _ & _ & HK & _).
  - apply run_ret. vm_compute. reflexivity.
  - vm_compute. reflexivity.
  - discriminate.
  - exact ex_bank_ok.
  - apply readable_run; [vm_compute; repeat split; congruence|vm_compute; reflexivity].
  - reflexivity.
  - exists key. exact HK.
Defined.
End Examples.
