(* ===== verification/Verify.v ===== *)
(** * Verification of a boot image (SBC_AntiTampering.c)

    [SBC_SSBL_Verify] of the SSBL and [SBC_FSBL_Verify] of the FSBL: the image
    file is read, its trailer gives the lengths of the parts

      payload | base answer | firmware info | certificate | signature | trailer

    and the signature over the payload is checked with the key of the
    certificate in the image. *)
From stdpp Require Import base list strings.
From Stdlib Require Import ZArith Lia String.
From S2P Require Import Prelude Uefi RamDisk Sim RawPrt Crypto BaseAnswer FileCtrl Dice.
#[local] Open Scope Z_scope.

(** [fsbl_bsinfo_t]: the bit fields of the eight bytes. *)
Record fsbl_bsinfo_t := mkBsinfo {
  siglen : Z; fwinfolen : Z; certlen : Z; banswlen : Z; bsinfv : Z; reserv1 : Z; reserv2 : Z
}.

Definition bsinfo_decode (b : bytes) : fsbl_bsinfo_t :=
  let f i n := le_val (take n (drop i b)) in
  mkBsinfo (f 0 1)%nat (f 1 1)%nat (f 2 2)%nat (f 4 1)%nat (f 5 1)%nat (f 6 1)%nat (f 7 1)%nat.

Definition bsinfo_encode (i : fsbl_bsinfo_t) : bytes :=
  (le_bytes 1 (siglen i) ++ le_bytes 1 (fwinfolen i) ++ le_bytes 2 (certlen i) ++
   le_bytes 1 (banswlen i) ++ le_bytes 1 (bsinfv i) ++ le_bytes 1 (reserv1 i) ++
   le_bytes 1 (reserv2 i))%list.

(** [bsinfolen]. *)
Definition parts_len (i : fsbl_bsinfo_t) : Z := siglen i + fwinfolen i + certlen i + banswlen i.

Definition FSBL_VERIFY_PATH : string := "\EFI\rocky\FSBL.efi".
Definition SSBL_VERIFY_PATH : string := "\EFI\boot\FSBL.efi".

Section Verify.
Context {W : Type} `{!Pool W, !FileSys W, !OpenSSL}.

(** The first part of the function: the file in a buffer, or the status it
    leaves with. *)
Definition load_image_file (fblpath : string) : M W (SBCStatus + LV_t) :=
  let! (HandleCount, hndl) := SBC_FindEfiFileSystemProtocol in
  let! (r, size) := SBC_GetFileSize fblpath 0 in
  let rdlv := lv_set_word (mkLV 0 None) size in
  if negb (sbc_is r SBCOK) then ret (inl r)
  else
  let! a := AllocatePool (lv_length rdlv) in
  if negb a then ret (inl SBCNULLP)
  else
  let rdlv := lv_set_value rdlv (Some (zeros (lv_length rdlv))) in
  let! (r, HandleCount) := SBC_FindFileBufHndl (Some fblpath) HandleCount hndl in
  validate sbc_is r SBCOK else inl r in
  let! h := access (hndl !! Z.to_nat HandleCount) in
  let! (retval, rdlv) := SBC_ReadFile h fblpath rdlv in
  ret (if EFI_ERROR retval then inl SBCIO else inr rdlv).

(** The second part: the signature over the payload and the base answer, put
    into [*ansr].  [stk] is what [HashValue] holds before the hash is computed;
    the status of the hash is returned at the end, and not tested before. *)
Definition check_image (rdlv : LV_t) (stk : bytes) (ansr : LV_t) : M W (SBCStatus * LV_t) :=
  let len := lv_length rdlv in
  let! img := access (lv_value rdlv) in
  let! b := access (rd img (u32 (len - FSBL_BNIFO_SIZE)) 8) in
  let bsinfo := bsinfo_decode b in
  let fsbl_len := u32 (len - FSBL_BNIFO_SIZE - parts_len bsinfo) in
  let baseansw := Some (drop (Z.to_nat fsbl_len) img) in
  let certi := Some (drop (Z.to_nat (fsbl_len + banswlen bsinfo + fwinfolen bsinfo)) img) in
  let signature := Some (drop (Z.to_nat (fsbl_len + banswlen bsinfo + fwinfolen bsinfo
                                         + certlen bsinfo)) img) in
  let! (retbool, EcPubKey) := access (EcGetPublicKeyFromX509 certi (certlen bsinfo)) in
  if negb retbool then ret (SBCFAIL, ansr)
  else
  let! (r, HashValue) := SBC_HashCompute (Some img) fsbl_len (Some stk) in
  let! retbool := access (EcDsaVerify EcPubKey CRYPTO_NID_SHA256 HashValue 32
                            signature (siglen bsinfo)) in
  if negb retbool then ret (SBCFAIL, ansr)
  else
  let! a := AllocatePool (banswlen bsinfo) in
  if negb a then ret (SBCNULLP, lv_set_value ansr None)
  else
  let! d := access (rdp baseansw (banswlen bsinfo)) in
  ret (r, lv_set_length (lv_set_value ansr (Some d)) (banswlen bsinfo)).

Definition verify_image (fblpath : string) (stk : bytes) (ansr : LV_t) : M W (SBCStatus * LV_t) :=
  let! r := load_image_file fblpath in
  match r with
  | inl st => ret (st, ansr)
  | inr rdlv => check_image rdlv stk ansr
  end.

(** [SBC_SSBL_Verify (blkhnd, ansr, normbank)] of the SSBL: neither the block
    device nor the bank is used. *)
Definition SBC_SSBL_Verify (blkhnd : option Z) (stk : bytes) (ansr : LV_t) (normbank : Z)
  : M W (SBCStatus * LV_t) := verify_image SSBL_VERIFY_PATH stk ansr.

(** [SBC_FSBL_Verify (blkhnd, ansr, normbank, bm)] of the FSBL. *)
Definition SBC_FSBL_Verify (blkhnd : option Z) (stk : bytes) (ansr : LV_t) (normbank bm : Z)
  : M W (SBCStatus * LV_t) := verify_image FSBL_VERIFY_PATH stk ansr.
End Verify.

(** ** What a successful verification delivers *)
Section Answer.
Context {W : Type} `{!Pool W, !BlockIo W, !FileSys W, !OpenSSL}.

Lemma load_image_error path :
  post (load_image_file (W := W) path) (fun r => match r with inl st => st <> SBCOK | inr _ => True end).
Proof.
  unfold load_image_file. eapply post_bind; [apply post_any|]. intros [n hs] _.
  eapply post_bind; [apply post_any|]. intros [r sz] _. cbv zeta. apply post_if; intros Hr.
  { apply post_ret. apply sbc_is_false. by destruct (sbc_is r SBCOK). }
  eapply post_bind; [apply post_any|]. intros a _. apply post_if; intros _; [by apply post_ret|].
  eapply post_bind; [apply post_any|]. intros [r2 n2] _.
  apply post_if; intros Hr2; [|apply post_ret; by apply sbc_is_false].
  do 2 (eapply post_bind; [apply post_any|]; intros ? _). destruct a1 as [rv lv].
  apply post_ret. by destruct (EFI_ERROR rv).
Qed.

(** The delivered base answer is a buffer of its length. *)
Lemma verify_answer path stk ansr :
  post (verify_image (W := W) path stk ansr)
    (fun r => fst r = SBCOK -> exists msg, lv_value (snd r) = Some msg /\
              0 <= lv_length (snd r) <= zlen msg).
Proof.
  unfold verify_image. eapply post_bind; [apply load_image_error|]. intros [st|lv] Hst.
  { apply post_ret. intros HE. by destruct Hst. }
  unfold check_image. cbv zeta. do 2 (eapply post_bind; [apply post_any|]; intros ? _).
  eapply post_bind; [apply post_any|]. intros [ok key] _. apply post_if; intros _; [by apply post_ret|].
  eapply post_bind; [apply post_any|]. intros [r h] _.
  eapply post_bind; [apply post_any|]. intros ok2 _. apply post_if; intros _; [by apply post_ret|].
  eapply post_bind; [apply post_any|]. intros al _. apply post_if; intros _; [by apply post_ret|].
  eapply post_bind; [apply post_access|]. intros d Hd. apply post_ret. intros _. cbn [snd].
  exists d. split; [done|]. rewrite lv_length_set. apply rdp_length in Hd. rewrite Hd.
  unfold u32. split; [apply Z.mod_pos_bound; lia|]. apply Z.mod_le; lia.
Qed.
End Answer.

(** ** The layout of an image *)
Record parts := mkParts {
  p_payload : bytes; p_answ : bytes; p_fwinfo : bytes; p_cert : bytes; p_sig : bytes; p_trailer : bytes
}.
Definition parts_bytes (p : parts) : bytes :=
  (p_payload p ++ p_answ p ++ p_fwinfo p ++ p_cert p ++ p_sig p ++ p_trailer p)%list.

(** The trailer gives the lengths of the other parts. *)
Record parts_wf (p : parts) : Prop := {
  pw_bytes : all_bytes (p_trailer p);
  pw_trailer : zlen (p_trailer p) = 8;
  pw_answ : zlen (p_answ p) = banswlen (bsinfo_decode (p_trailer p));
  pw_fwinfo : zlen (p_fwinfo p) = fwinfolen (bsinfo_decode (p_trailer p));
  pw_cert : zlen (p_cert p) = certlen (bsinfo_decode (p_trailer p));
  pw_sig : zlen (p_sig p) = siglen (bsinfo_decode (p_trailer p));
  pw_payload : 0 < zlen (p_payload p);
  pw_total : zlen (parts_bytes p) < 2 ^ 31
}.

Section VerifyLaws.
Context {W : Type} `{!Pool W, !PoolOk W, !FileSys W, !FileSysLaws W, !OpenSSL, !OpenSSLLaws}.

(** A 64-, 96-, 128- or 132-byte signature that verifies under the key. *)
Definition signature_ok (k : EC_KEY) (d s : bytes) : bool :=
  negb (zlen s =? 0) && EC_known k && (zlen s =? EC_half k * 2) && ECDSA_do_verify k d s.

Lemma EcDsaVerify_sha256 k d r s rest :
  zlen d = 32 -> zlen s <= 255 ->
  EcDsaVerify (Some k) CRYPTO_NID_SHA256 (Some (d ++ r)%list) 32 (Some (s ++ rest)%list) (zlen s)
  = Some (signature_ok k d s).
Proof.
  intros Hd Hs. unfold EcDsaVerify, signature_ok. cbn [notnull negb orb].
  rewrite (proj2 (Z.ltb_ge INT_MAX (zlen s))) by (unfold INT_MAX; lia). cbn [orb].
  destruct (zlen s =? 0); [done|]. destruct (EC_known k); [|done].
  destruct (zlen s =? EC_half k * 2); [|done]. cbn [negb andb].
  change ((hash_size CRYPTO_NID_SHA256 =? 0) || negb (32 =? hash_size CRYPTO_NID_SHA256)) with false.
  cbv iota. rewrite !rdp_some by (rewrite ?length_app; lia).
  rewrite Nat2Z.id, take_app_length. rewrite take_app_length' by lia. done.
Qed.

(** The verdict on an image with the given parts. *)
Definition verdict (p : parts) (ansr : LV_t) : SBCStatus * LV_t :=
  match X509_ec_key (p_cert p), SHA256 (p_payload p) with
  | Some k, Some d =>
      if signature_ok k d (p_sig p)
      then (SBCOK, lv_set_length (lv_set_value ansr (Some (p_answ p))) (zlen (p_answ p)))
      else (SBCFAIL, ansr)
  | _, _ => (SBCFAIL, ansr)
  end.

Lemma drop_parts (a b : bytes) n : n = zlen a -> drop (Z.to_nat n) (a ++ b)%list = b.
Proof. intros ->. by rewrite Nat2Z.id, drop_app_length. Qed.

Lemma X509_key_run cert rest :
  zlen cert <= 65535 ->
  EcGetPublicKeyFromX509 (Some (cert ++ rest)%list) (zlen cert)
  = Some (match X509_ec_key cert with Some k => (true, Some k) | None => (false, None) end).
Proof.
  intros Hc. unfold EcGetPublicKeyFromX509. cbn [notnull negb orb].
  rewrite (proj2 (Z.ltb_ge INT_MAX (zlen cert))) by (unfold INT_MAX; lia).
  rewrite rdp_some by (rewrite ?length_app; lia). rewrite Nat2Z.id, take_app_length.
  by destruct (X509_ec_key cert).
Qed.

Lemma field_bound (b : bytes) i n : all_bytes b -> 0 <= le_val (take n (drop i b)) < 2 ^ (8 * Z.of_nat n).
Proof.
  intros Hb. assert (Hf : all_bytes (take n (drop i b))) by (by apply Forall_take, Forall_drop).
  pose proof (le_val_bound _ Hf) as [Hl Hu]. split; [done|]. eapply Z.lt_le_trans; [exact Hu|].
  apply Z.pow_le_mono_r; [lia|]. rewrite length_take. lia.
Qed.

Lemma check_image_run p stk ansr (w : W) :
  parts_wf p -> 32 <= zlen stk ->
  check_image (mkLV (zlen (parts_bytes p)) (Some (parts_bytes p))) stk ansr w
  = (Ret (verdict p ansr), w).
Proof.
  intros [Hby Ht Ha Hf Hc Hs Hp Htot] Hstk. destruct p as [pl an fw ce sg tr].
  cbn [p_payload p_answ p_fwinfo p_cert p_sig p_trailer] in *.
  set (i := bsinfo_decode tr) in *.
  pose proof (field_bound tr 0 1 Hby) as B1. pose proof (field_bound tr 2 2 Hby) as B2.
  change (le_val (take 1 (drop 0 tr))) with (siglen i) in B1.
  change (le_val (take 2 (drop 2 tr))) with (certlen i) in B2.
  change (2 ^ (8 * Z.of_nat 1)) with 256 in B1. change (2 ^ (8 * Z.of_nat 2)) with 65536 in B2.
  set (c := parts_bytes (mkParts pl an fw ce sg tr)) in *.
  assert (Hlen : zlen c = zlen pl + zlen an + zlen fw + zlen ce + zlen sg + 8)
    by (unfold c, parts_bytes; cbn; rewrite !length_app; lia).
  assert (Hc1 : c = (pl ++ an ++ fw ++ ce ++ sg ++ tr)%list) by done.
  unfold check_image. unfold lv_length. cbn [lv_word lv_value]. cbv zeta.
  rewrite (u32_small (zlen c)) by lia. mrun.
  assert (Hr : rd c (u32 (zlen c - FSBL_BNIFO_SIZE)) 8 = Some tr).
  { change FSBL_BNIFO_SIZE with 8. rewrite u32_small by lia. rewrite rd_some by lia. f_equal.
    assert (Hc2 : c = ((pl ++ an ++ fw ++ ce ++ sg) ++ tr)%list) by (by rewrite Hc1, <-!app_assoc).
    rewrite Hc2 at 2. rewrite drop_parts by (rewrite !length_app; lia).
    by rewrite firstn_all2 by lia. }
  rewrite Hr. mrun. fold i.
  assert (Hfl : u32 (zlen c - FSBL_BNIFO_SIZE - parts_len i) = zlen pl).
  { change FSBL_BNIFO_SIZE with 8. unfold parts_len. rewrite u32_small; lia. }
  rewrite Hfl.
  assert (Hd1 : drop (Z.to_nat (zlen pl)) c = (an ++ fw ++ ce ++ sg ++ tr)%list)
    by (rewrite Hc1; by apply drop_parts).
  assert (Hd2 : drop (Z.to_nat (zlen pl + banswlen i + fwinfolen i)) c = (ce ++ sg ++ tr)%list).
  { rewrite Hc1, !app_assoc, <-(app_assoc _ ce), <-(app_assoc _ (ce ++ sg)), <-!app_assoc.
    rewrite (app_assoc pl), (app_assoc (pl ++ an)). apply drop_parts. rewrite !length_app. lia. }
  assert (Hd3 : drop (Z.to_nat (zlen pl + banswlen i + fwinfolen i + certlen i)) c = (sg ++ tr)%list).
  { rewrite Hc1, (app_assoc pl), (app_assoc (pl ++ an)), (app_assoc ((pl ++ an) ++ fw)).
    apply drop_parts. rewrite !length_app. lia. }
  rewrite Hd1, Hd2, Hd3, <-Hc, X509_key_run by lia. unfold verdict. cbn [p_cert p_payload p_sig p_answ].
  destruct (HashCompute_ok c (zlen pl) stk w) as (d & Hd & HH); [lia|done|].
  rewrite Nat2Z.id, Hc1, take_app_length in Hd. rewrite Hd.
  pose proof (sha256_length _ _ Hd) as Hdl.
  destruct (X509_ec_key ce) as [k|]; mrun; cbn [negb]; [|done]. mrun.
  rewrite <-Hs, EcDsaVerify_sha256 by lia. mrun.
  destruct (signature_ok k d sg); cbn [negb]; [|done].
  pose proof (alloc_ok (banswlen i) w) as Hal. mrun. cbn [negb].
  rewrite <-Ha, rdp_some by (rewrite ?length_app; lia).
  rewrite Nat2Z.id, take_app_length. by mrun.
Qed.

Lemma load_image_file_ok path i h c w :
  first_file w path i h c -> Forall (fun h => h <> 0) (vols view w) -> zlen c < 2 ^ 32 ->
  exists w', same_files view w w' /\
    load_image_file path w = (Ret (inr (mkLV (zlen c) (Some c))), w').
Proof.
  intros Hf Hnz Hc. unfold load_image_file. pose proof (FindEfiFs_run w) as HL. mrun.
  destruct (GetFileSize_run path 0 i h c w (proj1 Hf) (proj2 Hf)) as (w1 & H1 & HG). mrun.
  change (sbc_is SBCOK SBCOK) with true. cbn [negb]. cbv zeta.
  assert (HW : lv_set_word (mkLV 0 None) (zlen c) = mkLV (zlen c) None).
  { unfold lv_set_word. by rewrite u64_small by lia. }
  rewrite HW. unfold lv_length. cbn [lv_word]. rewrite u32_small by lia.
  pose proof (alloc_ok (zlen c) w1) as Ha. mrun. cbn [negb].
  destruct (first_file_in _ _ _ _ _ Hf) as [Hin Hi].
  apply (first_file_same _ _ _ _ _ _ H1) in Hf as Hf1.
  destruct (FindFileBufHndl_run path w1) as (w2 & H2 & HF).
  { rewrite (proj1 H1). intros HE. by rewrite HE in Hin. } { by rewrite (proj1 H1). }
  rewrite (proj1 Hf1), (proj1 H1) in HF. mrun. change (sbc_is SBCOK SBCOK) with true. cbv iota.
  rewrite Nat2Z.id, Hi. mrun. unfold lv_set_value. cbn [lv_word].
  destruct (ReadFile_whole h path 0 c w2) as (w3 & Hs3 & HR).
  { by rewrite (proj1 H2), (proj1 H1). } { rewrite (proj2 H2). apply Hf1. } { lia. }
  rewrite Z.add_0_l in HR. mrun. exists w3. split; [|done].
  transitivity w2; [by transitivity w1|done].
Qed.

(** C7: (functional) The verdict on a boot image: for an image file with well-formed
    parts on some volume, [SBC_SSBL_Verify] reads the file from the first volume that
    has it and accepts it exactly when the signature part verifies over the hash of
    the payload under the key of the certificate part; then it delivers the base
    answer part.  The certificate is not checked against any other one: the verdict
    is a function of the image alone, whatever the block device and the bank. *)
Theorem ssbl_verify_spec blk stk ansr bank i h p w :
  first_file w SSBL_VERIFY_PATH i h (parts_bytes p) -> Forall (fun h => h <> 0) (vols view w) ->
  parts_wf p -> 32 <= zlen stk ->
  exists w', same_files view w w' /\
    SBC_SSBL_Verify blk stk ansr bank w = (Ret (verdict p ansr), w').
Proof.
  intros Hf Hnz Hp Hs. pose proof (pw_total p Hp) as Htot.
  destruct (load_image_file_ok _ i h _ w Hf Hnz) as (w1 & H1 & HL); [lia|].
  exists w1. split; [done|]. unfold SBC_SSBL_Verify, verify_image. mrun.
  by apply check_image_run.
Qed.

(** C8: (safety) What a successful verification of the first stage guarantees:
    for an image with well-formed parts [SBC_FSBL_Verify] answers SBCOK only if the
    image's own certificate holds an EC key under which its signature verifies over
    the payload hash, and then the delivered base answer is the image's. *)
Theorem fsbl_verify_sound blk stk ansr bank bm i h p w r ansr' w' :
  first_file w FSBL_VERIFY_PATH i h (parts_bytes p) -> Forall (fun h => h <> 0) (vols view w) ->
  parts_wf p -> 32 <= zlen stk ->
  SBC_FSBL_Verify blk stk ansr bank bm w = (Ret (r, ansr'), w') ->
  (r = SBCOK \/ r = SBCFAIL) /\
  (r = SBCOK -> lv_value ansr' = Some (p_answ p) /\ lv_length ansr' = zlen (p_answ p) /\
     exists k d, X509_ec_key (p_cert p) = Some k /\ SHA256 (p_payload p) = Some d /\
       signature_ok k d (p_sig p) = true).
Proof.
  intros Hf Hnz Hp Hs. pose proof (pw_total p Hp) as Htot. pose proof (pw_answ p Hp) as Ha.
  destruct (load_image_file_ok _ i h _ w Hf Hnz) as (w1 & H1 & HL); [lia|].
  unfold SBC_FSBL_Verify, verify_image. mrun. rewrite check_image_run by done.
  intros [= HV _]. unfold verdict in HV.
  destruct (X509_ec_key (p_cert p)) as [k|]; [|injection HV as <- <-; split; [by right|done]].
  destruct (SHA256 (p_payload p)) as [d|]; [|injection HV as <- <-; split; [by right|done]].
  destruct (signature_ok k d (p_sig p)) eqn:E; injection HV as <- <-; [|split; [by right|done]].
  split; [by left|]. intros _. split; [done|]. split; [|eauto].
  rewrite lv_length_set. apply u32_small.
  assert (zlen (p_answ p) <= zlen (parts_bytes p)) by (unfold parts_bytes; rewrite !length_app; lia).
  lia.
Qed.

(** (bounds) An image file shorter than the 8-byte trailer makes the length
    arithmetic wrap around: the verification reads outside the file buffer. *)
Theorem verify_short_image_faults blk stk ansr bank i h c w :
  first_file w SSBL_VERIFY_PATH i h c -> Forall (fun h => h <> 0) (vols view w) ->
  0 < zlen c < FSBL_BNIFO_SIZE ->
  exists w', SBC_SSBL_Verify blk stk ansr bank w = (Fault, w').
Proof.
  intros Hf Hnz Hc. change FSBL_BNIFO_SIZE with 8 in Hc.
  destruct (load_image_file_ok _ i h c w Hf Hnz) as (w1 & H1 & HL); [lia|].
  exists w1. unfold SBC_SSBL_Verify, verify_image. mrun. unfold check_image, lv_length.
  cbn [lv_word lv_value]. cbv zeta. rewrite (u32_small (zlen c)) by lia. mrun.
  rewrite rd_none; [done|]. change FSBL_BNIFO_SIZE with 8. unfold u32.
  rewrite <-(Z_mod_plus_full _ 1), Z.mod_small; lia.
Qed.
End VerifyLaws.

(** ** Examples *)
Section Examples.
#[local] Existing Instance toy_ssl.
#[local] Existing Instance toy_laws.

(** An image that carries its own key. *)
Definition ex_cert : bytes := replicate 64 3.
Definition ex_payload : bytes := [77; 90; 1; 2].
Definition ex_parts : parts :=
  mkParts ex_payload ex_answer [] ex_cert (le_bytes 32 (toy_sum ex_payload) ++ take 32 ex_cert)%list
    (bsinfo_encode (mkBsinfo 64 0 64 8 1 0 0)).
Definition ex_image_machine (img : bytes) : machine :=
  machine_of [disk_with 4096 []; disk_with (2 ^ 30) [(0, hdr_encode (ex_hdr 1 1 0))]]
    [(SSBL_VERIFY_PATH, img); (FSBL_VERIFY_PATH, img)]%string (mkHw [] []).

Lemma ex_parts_wf : parts_wf ex_parts.
Proof.
  split; try (vm_compute; reflexivity).
  apply (bool_decide_unpack (Forall (fun z => 0 <= z /\ z < 2 ^ 8) _)). vm_compute. exact I.
Qed.

Lemma ssbl_verify_spec_witness :
  exists w' a, same_files view (ex_image_machine (parts_bytes ex_parts)) w' /\
    SBC_SSBL_Verify (Some 2) (zeros 256) (mkLV 0 None) 1 (ex_image_machine (parts_bytes ex_parts))
    = (Ret (SBCOK, a), w').
Proof.
  destruct (ssbl_verify_spec (Some 2) (zeros 256) (mkLV 0 None) 1 0 10 ex_parts
              (ex_image_machine (parts_bytes ex_parts))) as (w' & Hs & HV).
  - split; vm_compute; reflexivity.
  - repeat constructor; lia.
  - exact ex_parts_wf.
  - vm_compute. congruence.
  - eexists w', _. split; [exact Hs|]. rewrite HV. vm_compute. reflexivity.
Defined.

Definition ex_fsbl_run : out (SBCStatus * LV_t) * machine :=
  SBC_FSBL_Verify (Some 2) (zeros 256) (mkLV 0 None) 1 1 (ex_image_machine (parts_bytes ex_parts)).

Lemma fsbl_verify_sound_witness :
  exists k d, X509_ec_key ex_cert = Some k /\ SHA256 ex_payload = Some d /\
    signature_ok k d (p_sig ex_parts) = true.
Proof.
  assert (HR : fst ex_fsbl_run = Ret (SBCOK, mkLV 8 (Some ex_answer))) by (vm_compute; reflexivity).
  destruct (fsbl_verify_sound (Some 2) (zeros 256) (mkLV 0 None) 1 1 0 10 ex_parts
              (ex_image_machine (parts_bytes ex_parts)) SBCOK (mkLV 8 (Some ex_answer))
              (snd ex_fsbl_run)) as [_ HV].
  - split; vm_compute; reflexivity.
  - repeat constructor; lia.
  - exact ex_parts_wf.
  - vm_compute. congruence.
  - apply run_ret. exact HR.
  - exact (proj2 (proj2 (HV eq_refl))).
Defined.

Lemma verify_short_image_faults_witness :
  exists w', SBC_SSBL_Verify (Some 2) (zeros 256) (mkLV 0 None) 1 (ex_image_machine [1; 2; 3])
             = (Fault, w').
Proof.
  apply (verify_short_image_faults (Some 2) (zeros 256) (mkLV 0 None) 1 0 10 [1; 2; 3]).
  - split; vm_compute; reflexivity.
  - repeat constructor; lia.
  - vm_compute. split; congruence.
Defined.
End Examples.
