(* ===== verification/SystemControl.v ===== *)
(** * Boot and key modes (SSBL/SBC_SystemControl.c, SBC_BootProc.h)

    The transitions of the boot mode and the key mode that the raw-partition
    header stores, and what each mode does before the operating system is
    started. *)
From stdpp Require Import base list.
From Stdlib Require Import ZArith Lia.
From S2P Require Import Prelude Uefi RamDisk Sim RawPrt Crypto BaseAnswer.
#[local] Open Scope Z_scope.

Inductive boot_st_t := SB_PROC_ST_NRMA | SB_PROC_ST_ABNRAM | SB_PROC_ST_UNKNOWN.

#[global] Instance boot_st_eq_dec : EqDecision boot_st_t.
Proof. solve_decision. Defined.

(** [atp_ident_t]. *)
Record atp_ident_t := mkIdent { devid : bytes; fwid : bytes; osid : bytes; migid : bytes }.
Definition ATP_IDENT_KEY_STG : Z := 32.

(** [boot_proc_t], with the objects its pointers name: the header and the base
    answer of [UefiMain]. *)
Record boot_proc_t := mkProc {
  blkhnd : option Z;
  rawprt_hdr : rawprt_hdr_t;
  baseansr : LV_t;
  keyinfo : atp_ident_t;
  pvs_sw_bnk : Z;
  curr_sw_bnk : Z;
  bm : Z;
  km : Z;
  bootst : boot_st_t
}.
Definition set_hdr (p : boot_proc_t) (h : rawprt_hdr_t) : boot_proc_t :=
  mkProc (blkhnd p) h (baseansr p) (keyinfo p) (pvs_sw_bnk p) (curr_sw_bnk p) (bm p) (km p) (bootst p).
Definition set_bootst (p : boot_proc_t) (s : boot_st_t) : boot_proc_t :=
  mkProc (blkhnd p) (rawprt_hdr p) (baseansr p) (keyinfo p) (pvs_sw_bnk p) (curr_sw_bnk p)
    (bm p) (km p) s.
Definition set_bm_km (p : boot_proc_t) (b k : Z) : boot_proc_t :=
  mkProc (blkhnd p) (rawprt_hdr p) (baseansr p) (keyinfo p) (pvs_sw_bnk p) (curr_sw_bnk p)
    b k (bootst p).

(** [hdr->bootmode = newbm; hdr->keymode = newkey]: 16-bit fields. *)
Definition hdr_modes (h : rawprt_hdr_t) (newbm newkey : Z) : rawprt_hdr_t :=
  set_modes h (u16 newbm) (u16 newkey) (rcvmode h).

Definition st_is (a b : boot_st_t) : bool := bool_decide (a = b).

Section SystemControl.
Context {W : Type} `{!Pool W, !BlockIo W, !Rng W, !OpenSSL}.

(** [SBC_RebootSystem ()], [SBC_ShutdownSystem ()]: ResetSystem does not return. *)
Definition SBC_RebootSystem {A} : M W A := reset ResetCold.
Definition SBC_ShutdownSystem {A} : M W A := reset ResetShutdown.

Definition _check_prev_fw (prev_bnk_id : Z) : bool := negb (prev_bnk_id =? 0).

(** [SBC_BootKeyModeChange (newbm, newkey, priv)]: status and [*priv]; a null
    [priv] is dereferenced. *)
Definition SBC_BootKeyModeChange (newbm newkey : Z) (priv : option boot_proc_t)
  : M W (SBCStatus * boot_proc_t) :=
  let! bp := access priv in
  let hdr := hdr_modes (rawprt_hdr bp) newbm newkey in
  let bp := set_hdr bp hdr in
  validate notnull (blkhnd bp) else (SBCNULLP, bp) in
  let! wrbuf := access (wr (zeros 512) 0 (hdr_encode hdr)) in
  let! r := SBC_RawPrtBlockWrite (blkhnd bp) (Some wrbuf) 512 0 in
  ret (r, bp).

Definition _sbc_abnormal_processing (bp : boot_proc_t) : M W boot_proc_t :=
  if km bp =? KEY_MODE_NORMAL then
    let! (_, bp) :=
      (if negb (_check_prev_fw (pvs_sw_bnk bp))
       then SBC_BootKeyModeChange BOOT_MODE_FACTORY KEY_MODE_UPDATE (Some bp)
       else SBC_BootKeyModeChange BOOT_MODE_RECOVERY KEY_MODE_UPDATE (Some bp)) in
    ret bp
  else ret bp.

Definition _update_behavior_for_km (bp : boot_proc_t) : M W SBCStatus :=
  match bootst bp with
  | SB_PROC_ST_ABNRAM => ret SBCOK
  | SB_PROC_ST_NRMA =>
      SBC_BaseAnswerEncryptStore (blkhnd bp) (lv_value (baseansr bp)) (lv_length (baseansr bp))
        (Some (migid (keyinfo bp))) ATP_IDENT_KEY_STG
  | SB_PROC_ST_UNKNOWN => ret SBCINVPARAM
  end.

Definition SBC_UpdateBootPorcsesing (bp : boot_proc_t) : M W SBCStatus :=
  if km bp =? KEY_MODE_NORMAL then _update_behavior_for_km bp
  else if km bp =? KEY_MODE_BOOT then ret SBCOK
  else if km bp =? KEY_MODE_UPDATE then _update_behavior_for_km bp
  else if km bp =? KEY_MODE_NONE then ret SBCOK
  else ret SBCINVPARAM.

(** [SBC_RecoveryBootProcessing (priv)]: it ends in a reset on every path. *)
Definition SBC_RecoveryBootProcessing (bp : boot_proc_t) : M W unit :=
  if st_is (bootst bp) SB_PROC_ST_ABNRAM then
    let! _ := SBC_BootKeyModeChange BOOT_MODE_FACTORY KEY_MODE_BOOT (Some bp) in
    SBC_RebootSystem
  else if negb (_check_prev_fw (pvs_sw_bnk bp)) then SBC_ShutdownSystem
  else
  let! r := SBC_BaseAnswerEncryptStore (blkhnd bp) (lv_value (baseansr bp))
              (lv_length (baseansr bp)) (Some (osid (keyinfo bp))) BASE_ANS_KEY_STR in
  if negb (sbc_is r SBCOK) then SBC_ShutdownSystem
  else
  match bootst bp with
  | SB_PROC_ST_NRMA =>
      if (km bp =? KEY_MODE_BOOT) || (km bp =? KEY_MODE_UPDATE) || (km bp =? KEY_MODE_NORMAL) then
        let! (r, _) := SBC_BootKeyModeChange BOOT_MODE_NORMAL KEY_MODE_NORMAL (Some bp) in
        if negb (sbc_is r SBCOK) then SBC_ShutdownSystem else SBC_RebootSystem
      else SBC_ShutdownSystem
  | SB_PROC_ST_ABNRAM =>
      let! (r, _) := SBC_BootKeyModeChange BOOT_MODE_FACTORY KEY_MODE_BOOT (Some bp) in
      if negb (sbc_is r SBCOK) then SBC_ShutdownSystem else SBC_RebootSystem
  | SB_PROC_ST_UNKNOWN => SBC_ShutdownSystem
  end.

Definition _update_reset_check_and_behavior (bp : boot_proc_t) : M W unit :=
  if km bp =? KEY_MODE_NORMAL then
    let! _ :=
      (match bootst bp with
       | SB_PROC_ST_NRMA =>
           let! _ := SBC_BootKeyModeChange BOOT_MODE_RECOVERY KEY_MODE_NORMAL (Some bp) in ret tt
       | SB_PROC_ST_ABNRAM =>
           if negb (pvs_sw_bnk bp =? 0)
           then let! _ := SBC_BootKeyModeChange BOOT_MODE_RECOVERY KEY_MODE_UPDATE (Some bp) in ret tt
           else let! _ := SBC_BootKeyModeChange BOOT_MODE_FACTORY KEY_MODE_UPDATE (Some bp) in ret tt
       | SB_PROC_ST_UNKNOWN => ret tt
       end) in
    SBC_RebootSystem
  else ret tt.

Definition SBC_ResetScenario (bp : boot_proc_t) : M W unit :=
  if bm bp =? BOOT_MODE_UPDATE then _update_reset_check_and_behavior bp else ret tt.

(** [SBC_SecureBootCheck (priv)]. *)
Definition SBC_SecureBootCheck (bp : boot_proc_t) : M W SBCStatus :=
  let! r :=
    (if bm bp =? BOOT_MODE_NORMAL then
       if st_is (bootst bp) SB_PROC_ST_ABNRAM then
         let! _ := _sbc_abnormal_processing bp in SBC_RebootSystem
       else ret SBCOK
     else if bm bp =? BOOT_MODE_RECOVERY then
       let! _ := SBC_RecoveryBootProcessing bp in ret SBCOK
     else if bm bp =? BOOT_MODE_UPDATE then SBC_UpdateBootPorcsesing bp
     else ret SBCOK) in
  let! _ := SBC_ResetScenario bp in
  ret r.
End SystemControl.

(** ** Laws *)
Section ModeLaws.
Context {W : Type} `{!Pool W, !PoolOk W, !BlockIo W, !BlockIoLaws W, !Rng W, !RngLaws W,
                     !OpenSSL, !OpenSSLLaws}.

Lemma hdr_modes_wf p b k : hdr_wf p -> hdr_wf (hdr_modes p b k).
Proof. intros []. split; cbn; try done; apply u16_range. Qed.

(** The block [SBC_BootKeyModeChange] writes. *)
Definition hdr_block (p : rawprt_hdr_t) : bytes := hdr_encode p ++ zeros 384.

Lemma hdr_block_len p : hdr_wf p -> zlen (hdr_block p) = 512.
Proof.
  intros Hp. unfold hdr_block. rewrite length_app, length_hdr_encode by done.
  change (length (zeros 384)) with 384%nat. lia.
Qed.

Lemma BootKeyModeChange_run h bp b k w :
  blkhnd bp = Some h -> hdr_wf (rawprt_hdr bp) ->
  exists st w', let p := hdr_modes (rawprt_hdr bp) b k in
    WriteBlocks h 0 (hdr_block p) w = (Ret st, w') /\
    SBC_BootKeyModeChange b k (Some bp) w
    = (Ret (if EFI_ERROR st then SBCIO else SBCOK, set_hdr bp p), w').
Proof.
  intros Hh Hw. set (p := hdr_modes _ _ _).
  assert (Hp : hdr_wf p) by (by apply hdr_modes_wf). pose proof (hdr_block_len p Hp) as Hl.
  destruct (write_total h 0 (hdr_block p) w) as (st & w' & HW); [split; lia|].
  exists st, w'. cbv zeta. split; [done|]. unfold SBC_BootKeyModeChange. mrun. cbv zeta. fold p.
  cbn [blkhnd set_hdr]. rewrite Hh. cbn [notnull].
  assert (HB : wr (zeros 512) 0 (hdr_encode p) = Some (hdr_block p)).
  { rewrite wr_some by (rewrite ?length_hdr_encode by done; try (vm_compute; congruence); lia).
    unfold hdr_block. rewrite length_hdr_encode by done. reflexivity. }
  rewrite HB. mrun.
  assert (HR : SBC_RawPrtBlockWrite (Some h) (Some (hdr_block p)) 512 0 w
               = (Ret (if EFI_ERROR st then SBCIO else SBCOK), w')).
  { rewrite (RawPrtBlockWrite_run h _ 512 0 w (hdr_block p)) by
      (try lia; rewrite <-Hl; apply rd_all). by mrun. }
  by mrun.
Qed.

(** The device carries the partition header and serves its block. *)
Definition hdr_dev (h : Z) (w : W) : Prop := readable h 0 512 w /\ read_only h w = false.

Lemma mode_change_ok h bp b k w :
  blkhnd bp = Some h -> hdr_wf (rawprt_hdr bp) -> hdr_dev h w ->
  let p := hdr_modes (rawprt_hdr bp) b k in
  exists w', SBC_BootKeyModeChange b k (Some bp) w = (Ret (SBCOK, set_hdr bp p), w') /\
    blk_header h w' = p /\ (forall a, 512 <= a -> disk h w' a = disk h w a).
Proof.
  intros Hh Hw [(s & d & HR & Hs) Ho] p.
  destruct (BootKeyModeChange_run h bp b k w Hh Hw) as (st & w' & HW & HC). fold p in HW, HC.
  assert (Hp : hdr_wf p) by (by apply hdr_modes_wf). pose proof (hdr_block_len p Hp) as Hl.
  assert (Hq : blk_req 0 (zlen (hdr_block p))) by (split; lia).
  rewrite <-Hl in HR. pose proof (write_accepts _ _ _ _ _ _ _ _ Hq Ho HR Hs HW) as He.
  rewrite He in HC. exists w'. split; [done|].
  pose proof (write_data _ _ _ _ _ _ Hq HW He) as HD. split.
  - unfold blk_header. rewrite (window_ext _ (put (disk h w) 0 (hdr_block p)))
      by (intros; rewrite HD; done).
    pose proof (rd_window (put (disk h w) 0 (hdr_block p)) 0 (zlen (hdr_block p)) 0 128
                  ltac:(lia) ltac:(lia) ltac:(lia)) as HX.
    rewrite window_put_same, Z.add_0_l in HX.
    unfold hdr_block in HX. rewrite rd_app_l in HX by (rewrite ?length_hdr_encode by done; lia).
    replace 128 with (zlen (hdr_encode p)) in HX at 1 by (rewrite length_hdr_encode by done; lia).
    rewrite rd_all in HX. apply (inj Some) in HX. unfold hdr_block. rewrite <-HX.
    by apply hdr_decode_encode.
  - intros a Ha. rewrite HD. unfold put. by guard_false.
Qed.

(** The rest of the written block, and the other bytes of the medium. *)
Lemma mode_change_rest h bp b k w w' :
  blkhnd bp = Some h -> hdr_wf (rawprt_hdr bp) ->
  SBC_BootKeyModeChange b k (Some bp) w
  = (Ret (SBCOK, set_hdr bp (hdr_modes (rawprt_hdr bp) b k)), w') ->
  (forall a, 128 <= a < 512 -> disk h w' a = 0) /\
  (forall j a, medium j <> medium h \/ origin j + a - origin h < 0 \/ 512 <= origin j + a - origin h ->
     disk j w' a = disk j w a).
Proof.
  intros Hh Hw HC. destruct (BootKeyModeChange_run h bp b k w Hh Hw) as (st & v & HW & HC').
  set (p := hdr_modes _ _ _) in *. cbv zeta in HC', HW. rewrite HC in HC'. injection HC' as He <-.
  assert (Hs : EFI_ERROR st = false) by (by destruct (EFI_ERROR st)).
  assert (Hp : hdr_wf p) by (by apply hdr_modes_wf). pose proof (hdr_block_len p Hp) as Hl.
  assert (Hq : blk_req 0 (zlen (hdr_block p))) by (split; lia). split.
  - intros a Ha. rewrite (write_data _ _ _ _ _ _ Hq HW Hs). unfold put. rewrite Hl. guard_true.
    unfold hdr_block. rewrite lookup_app_r by (rewrite length_hdr_encode by done; lia).
    rewrite length_hdr_encode by done. unfold zeros. rewrite ?drop_replicate.
    rewrite lookup_replicate_2 by lia. done.
  - intros j a Ha. apply (write_local _ _ _ _ _ _ j a Hq HW). lia.
Qed.

(** C10: (functional) Changing the boot and key modes is durable, and replaces one
    block of 512 bytes: on a writable device that serves its first 512 bytes,
    [SBC_BootKeyModeChange] returns SBCOK, the header read back has exactly the new
    modes (16 bits) and the old magic, partition information, recovery mode and
    bank preference, the bytes 128 to 511 behind it become zero whatever they
    were, and no other byte of the device or of another handle of the medium
    changes.  A device that rejects 512-byte transfers keeps its content and the
    caller gets SBCIO. *)
Theorem mode_change_durable h bp b k w :
  blkhnd bp = Some h -> hdr_wf (rawprt_hdr bp) ->
  let p := hdr_modes (rawprt_hdr bp) b k in
  (hdr_dev h w -> exists w',
     SBC_BootKeyModeChange b k (Some bp) w = (Ret (SBCOK, set_hdr bp p), w') /\
     blk_header h w' = p /\ (forall a, 128 <= a < 512 -> disk h w' a = 0) /\
     (forall j a, medium j <> medium h \/ origin j + a - origin h < 0 \/
        512 <= origin j + a - origin h -> disk j w' a = disk j w a)) /\
  (512 mod BlockSize h w <> 0 ->
     SBC_BootKeyModeChange b k (Some bp) w = (Ret (SBCIO, set_hdr bp p), w)).
Proof.
  intros Hh Hw p. split; [intros Hd|intros Hm].
  - destruct (mode_change_ok h bp b k w Hh Hw Hd) as (w' & HC & HB & _). exists w'.
    split; [done|]. split; [done|]. by eapply mode_change_rest.
  - destruct (BootKeyModeChange_run h bp b k w Hh Hw) as (st & w' & HW & HC). fold p in HW, HC.
    assert (Hp : hdr_wf p) by (by apply hdr_modes_wf). pose proof (hdr_block_len p Hp) as Hl.
    destruct (write_bad_size h 0 (hdr_block p) w st w') as [He ->];
      [split; lia|done|by rewrite Hl|]. by rewrite He in HC.
Qed.
End ModeLaws.

(** ** Examples *)
Section Examples.
Definition ex_proc : boot_proc_t :=
  mkProc (Some 2) (ex_hdr 1 1 0) (mkLV 0 None)
    (mkIdent (zeros 32) (zeros 32) (zeros 32) (zeros 32)) 2 1 1 1 SB_PROC_ST_NRMA.

Lemma ex_hdr_wf b k r :
  0 <= b < 2 ^ 16 -> 0 <= k < 2 ^ 16 -> 0 <= r < 2 ^ 16 -> hdr_wf (ex_hdr b k r).
Proof.
  intros Hb Hk Hr. split; cbn [ex_hdr magicid prtinfo reserv bootmode keymode rcvmode bootpres];
    try assumption; try (split; [reflexivity|apply Forall_replicate; vm_compute; split; congruence]).
  vm_compute. split; congruence.
Qed.

Lemma mode_change_durable_witness :
  exists w', SBC_BootKeyModeChange BOOT_MODE_UPDATE KEY_MODE_UPDATE (Some ex_proc) (ex_machine 1 1 0)
             = (Ret (SBCOK, set_hdr ex_proc (ex_hdr BOOT_MODE_UPDATE KEY_MODE_UPDATE 0)), w') /\
    blk_header 2 w' = ex_hdr BOOT_MODE_UPDATE KEY_MODE_UPDATE 0 /\ disk 2 w' 200 = 0.
Proof.
  destruct (mode_change_durable 2 ex_proc BOOT_MODE_UPDATE KEY_MODE_UPDATE (ex_machine 1 1 0))
    as [HD _].
  - reflexivity.
  - apply ex_hdr_wf; lia.
  - destruct HD as (w' & HC & HB & HZ & _).
    + split; [apply readable_run; [split; lia|vm_compute; reflexivity]|vm_compute; reflexivity].
    + exists w'. split; [exact HC|]. split; [exact HB|apply HZ; lia].
Defined.
End Examples.
