(* ===== verification/Ssbl.v ===== *)
(** * The second-stage boot loader (SSBL/SSBL.c)

    [UefiMain] of the SSBL: it finds the raw partition, verifies the first
    stage, derives the DICE identities, and acts on the boot mode until it hands
    over to GRUB or resets the machine.  The abstract boot machine of
    [BootMachine] states which mode leads where, and [UefiMain] refines it. *)
From stdpp Require Import base list strings.
From Stdlib Require Import ZArith Lia String.
From S2P Require Import Prelude Uefi RamDisk Sim RawPrt Crypto BaseAnswer FileCtrl BootImage Dice Verify SystemControl.
#[local] Open Scope Z_scope.

(** [SBC_SWAP_ENDIAN_32 (val)] of SBC_Util.h. *)
Definition SBC_SWAP_ENDIAN_32 (val : Z) : Z :=
  Z.lor (Z.shiftr (Z.land (u32 val) 4278190080) 24)
  (Z.lor (Z.shiftr (Z.land (u32 val) 16711680) 8)
  (Z.lor (u32 (Z.shiftl (Z.land (u32 val) 65280) 8))
         (u32 (Z.shiftl (Z.land (u32 val) 255) 24)))).

(** The bank marked 'C' (current) in the boot preference of the header; 0 when
    neither half is. *)
Definition current_bank (pres : bytes) : Z :=
  let pres_low := SBC_SWAP_ENDIAN_32 (le_val (take 4 pres)) in
  let pres_hi := SBC_SWAP_ENDIAN_32 (le_val (take 4 (drop 4 pres))) in
  if u8 (Z.land pres_low 65535) =? 67 then Z.shiftr (Z.land pres_low 4294901760) 16
  else if u8 (Z.land pres_hi 65535) =? 67 then Z.shiftr (Z.land pres_hi 4294901760) 16
  else 0.

Definition FindPreviouslyBank (bankid : Z) : Z :=
  if bankid =? 1 then 2 else if bankid =? 2 then 1 else 0.

(** What the stack holds in the variables [UefiMain] and its callees do not
    initialise: [baseansr], [diceid], the digest buffer of the verification and
    the padding of two length-value pairs. *)
Record stack_junk := mkJunk {
  j_ansr : Z; j_ident : atp_ident_t; j_hash : bytes; j_pad_os : Z; j_pad_bm : Z
}.

Section Ssbl.
Context {W : Type} `{!Pool W, !BlockIo W, !FileSys W, !ImageSvc W, !HwInfo W, !Rng W, !OpenSSL}.

(** [SBC_DiceKeysGen (ImageHandle, p, normbank, bm)]: status and [*p]. *)
Definition SBC_DiceKeysGen (h_blkio : option Z) (pad : Z) (p : atp_ident_t) (normbank bm : Z)
  : M W (SBCStatus * atp_ident_t) :=
  let! (r, d) := SBC_GenDeviceID (Some (devid p)) in
  let! d := access d in
  let p := mkIdent d (fwid p) (osid p) (migid p) in
  if negb (sbc_is r SBCOK) then ret (r, p)
  else
  let! (r, f) := SBC_GenFWID h_blkio (devid p) (fwid p) normbank bm in
  let p := mkIdent (devid p) f (osid p) (migid p) in
  if negb (sbc_is r SBCOK) then ret (r, p)
  else
  let! (r, o) := SBC_GenOSID pad (fwid p) (osid p) in
  let p := mkIdent (devid p) (fwid p) o (migid p) in
  if negb (sbc_is r SBCOK) then ret (r, p) else ret (SBCOK, p).

(** The [switch (bootmd)] of [UefiMain] (built with _FILE_RD_BM_): the status
    it leaves in [ret]; every other status than SBCOK goes to [errdone]. *)
Definition boot_switch (bp : boot_proc_t) (bootmd : Z) : M W SBCStatus :=
  if bootmd =? BOOT_MODE_NORMAL then
    let bp := set_hdr bp (set_modes (rawprt_hdr bp) (bootmode (rawprt_hdr bp)) KEY_MODE_NORMAL
                            (rcvmode (rawprt_hdr bp))) in
    let! (_, bp) := SBC_BootKeyModeChange BOOT_MODE_NORMAL KEY_MODE_NORMAL (Some bp) in
    SBC_SecureBootCheck bp
  else if bootmd =? BOOT_MODE_FACTORY then
    let! (r, _) := SBC_BootKeyModeChange BOOT_MODE_FACTORY KEY_MODE_NORMAL None in
    let bp := if negb (sbc_is r SBCOK) then set_bootst bp SB_PROC_ST_NRMA else bp in
    if negb (st_is (bootst bp) SB_PROC_ST_NRMA) then ret SBCFAIL else ret r
  else if bootmd =? BOOT_MODE_UPDATE then
    let bp := set_bm_km bp BOOT_MODE_UPDATE KEY_MODE_NORMAL in
    let k := keyinfo bp in
    let! (r, m) := SBC_GenMigrationKey (blkhnd bp) (curr_sw_bnk bp) (pvs_sw_bnk bp) (migid k) in
    let bp := mkProc (blkhnd bp) (rawprt_hdr bp) (baseansr bp)
                (mkIdent (devid k) (fwid k) (osid k) m) (pvs_sw_bnk bp) (curr_sw_bnk bp)
                (bm bp) (km bp) (bootst bp) in
    if negb (sbc_is r SBCOK) then ret r else SBC_SecureBootCheck bp
  else if bootmd =? BOOT_MODE_RECOVERY then SBC_SecureBootCheck bp
  else ret SBCOK.

(** The end of [UefiMain]: GRUB is started; it may come back. *)
Definition boot_grub : M W EFI_STATUS :=
  let! r := SBC_GRUB_LoadAndStart in
  if negb (sbc_is r SBCOK) then SBC_ShutdownSystem else ret EFI_SUCCESS.

(** [UefiMain (ImageHandle, SystemTable)] of the SSBL. *)
Definition UefiMain (j : stack_junk) : M W EFI_STATUS :=
  let! (r, h_blkio, hdr) := SBC_BlkIoHandleInit None blank_hdr in
  if negb (sbc_is r SBCOK) then SBC_ShutdownSystem
  else
  let currbank_id := current_bank (bootpres hdr) in
  let prevbank_id := FindPreviouslyBank currbank_id in
  let! (r, ansr) := SBC_SSBL_Verify h_blkio (j_hash j) (mkLV (j_ansr j) None) currbank_id in
  if negb (sbc_is r SBCOK) then SBC_ShutdownSystem
  else
  let! (r, diceid) := SBC_DiceKeysGen h_blkio (j_pad_os j) (j_ident j) BOOT_MODE_NORMAL
                        currbank_id in
  if negb (sbc_is r SBCOK) then SBC_ShutdownSystem
  else
  let! bootmd := SBC_ReadBootMode (j_pad_bm j) in
  let bootmd := if negb (bootmode hdr =? 0) then bootmode hdr else bootmd in
  let bp := mkProc h_blkio hdr ansr diceid prevbank_id currbank_id (bootmode hdr) (keymode hdr)
              SB_PROC_ST_NRMA in
  let! r := boot_switch bp bootmd in
  if negb (sbc_is r SBCOK) then SBC_ShutdownSystem else boot_grub.
End Ssbl.

(** ** The type of the identities *)
Section Typing.
Context {W : Type} `{!Pool W, !BlockIo W, !FileSys W, !HwInfo W, !OpenSSL, !OpenSSLLaws}.

(** Four [UINT8[32]]. *)
Definition ident_typed (p : atp_ident_t) : Prop :=
  typed 32 (devid p) /\ typed 32 (fwid p) /\ typed 32 (osid p) /\ typed 32 (migid p).

Lemma DiceKeysGen_typed b pad p n md :
  ident_typed p -> post (SBC_DiceKeysGen (W := W) b pad p n md) (fun r => ident_typed (snd r)).
Proof.
  intros (Hd & Hf & Ho & Hm). unfold SBC_DiceKeysGen.
  eapply post_bind; [by eapply GenDeviceID_typed|]. intros [r o] (d & HE & Hd').
  cbn [snd] in HE. subst o. eapply post_bind; [apply post_access|]. intros d' [= <-]. cbv zeta.
  apply post_if; intros _; [by apply post_ret|].
  eapply post_bind; [by eapply GenFWID_typed|]. intros [r2 f] Hf'.
  apply post_if; intros _; [by apply post_ret|].
  eapply post_bind; [by eapply GenOSID_typed|]. intros [r3 os] Ho'.
  apply post_if; intros _; by apply post_ret.
Qed.

End Typing.

(** ** The bank preference *)
Section Banks.
(** The swap reverses the four bytes. *)
Lemma swap32_bytes v :
  0 <= v < 2 ^ 32 ->
  SBC_SWAP_ENDIAN_32 v
  = byte_of v 24 + byte_of v 16 * 2 ^ 8 + byte_of v 8 * 2 ^ 16 + byte_of v 0 * 2 ^ 24.
Proof.
  intros Hv. unfold SBC_SWAP_ENDIAN_32. rewrite (u32_small v) by lia.
  change 4278190080 with (Z.shiftl 255 24). change 16711680 with (Z.shiftl 255 16).
  change 65280 with (Z.shiftl 255 8). change 255 with (Z.shiftl 255 0) at 4.
  rewrite !land_byte by lia. pose proof (byte_range v 0). pose proof (byte_range v 8).
  pose proof (byte_range v 16). pose proof (byte_range v 24).
  rewrite !Z.shiftr_div_pow2, !Z.shiftl_mul_pow2 by lia. rewrite Z.div_mul by lia.
  rewrite (u32_small (byte_of v 8 * 2 ^ 8 * 2 ^ 8)), (u32_small (byte_of v 0 * 2 ^ 0 * 2 ^ 24)) by lia.
  replace (byte_of v 16 * 2 ^ 16 / 2 ^ 8) with (byte_of v 16 * 2 ^ 8)
    by (change (2 ^ 16) with (2 ^ 8 * 2 ^ 8); rewrite Z.mul_assoc, Z.div_mul; lia).
  replace (byte_of v 8 * 2 ^ 8 * 2 ^ 8) with (byte_of v 8 * 2 ^ 16) by lia.
  replace (byte_of v 0 * 2 ^ 0 * 2 ^ 24) with (byte_of v 0 * 2 ^ 24) by lia.
  rewrite !Z.lor_assoc, (lor_low _ _ 8), (lor_low _ _ 16), (lor_low _ _ 24) by lia. done.
Qed.

Lemma swap32_le a b c d :
  all_bytes [a; b; c; d] ->
  SBC_SWAP_ENDIAN_32 (le_val [a; b; c; d]) = d + c * 2 ^ 8 + b * 2 ^ 16 + a * 2 ^ 24.
Proof.
  intros HF. pose proof (le_val_bound _ HF) as Hb. change (2 ^ (8 * zlen [a; b; c; d])) with (2 ^ 32) in Hb.
  rewrite swap32_bytes by done. unfold all_bytes, is_byte in HF.
  repeat match goal with H : Forall _ (_ :: _) |- _ => inversion H; clear H; subst end.
  cbn [le_val]. unfold byte_of.
  replace (a + 2 ^ 8 * (b + 2 ^ 8 * (c + 2 ^ 8 * (d + 2 ^ 8 * 0))))
    with (a + 256 * b + 65536 * c + 16777216 * d) by lia.
  change (2 ^ 24) with 16777216. change (2 ^ 16) with 65536. change (2 ^ 8) with 256.
  change (2 ^ 0) with 1. rewrite Z.div_1_r. Z.div_mod_to_equations. lia.
Qed.

Lemma half_bank a b c d :
  all_bytes [a; b; c; d] ->
  let x := SBC_SWAP_ENDIAN_32 (le_val [a; b; c; d]) in
  u8 (Z.land x 65535) = d /\ Z.shiftr (Z.land x 4294901760) 16 = a * 256 + b.
Proof.
  intros HF x. unfold x. rewrite swap32_le by done. unfold all_bytes, is_byte in HF.
  repeat match goal with H : Forall _ (_ :: _) |- _ => inversion H; clear H; subst end.
  set (y := d + _ + _ + _). rewrite Z.shiftr_land. change (Z.shiftr 4294901760 16) with 65535.
  change 65535 with (Z.ones 16). rewrite !Z.land_ones, Z.shiftr_div_pow2 by lia. unfold u8, y.
  change (2 ^ 24) with 16777216. change (2 ^ 16) with 65536. change (2 ^ 8) with 256 in *.
  split; Z.div_mod_to_equations; lia.
Qed.

End Banks.

(** ** What leaves the block devices alone *)
Section Keeps.
Context {W : Type} `{!Pool W, !BlockIo W, !BlockIoLaws W, !FileSys W, !ImageSvc W, !HwInfo W,
  !Rng W, !OpenSSL, !Frames W}.

Lemma keeps_IsFlieAccess h n : keeps (SBC_IsFlieAccess (W := W) h n).
Proof. unfold SBC_IsFlieAccess. keeps_tac. Qed.
#[local] Hint Resolve keeps_IsFlieAccess : sbc.
Lemma keeps_find_access hs i n st : keeps (find_access (W := W) hs i n st).
Proof. revert i st. induction hs; intros; cbn [find_access]; keeps_tac. Qed.
#[local] Hint Resolve keeps_find_access : sbc.
Lemma keeps_FindEfi : keeps (SBC_FindEfiFileSystemProtocol (W := W)).
Proof. unfold SBC_FindEfiFileSystemProtocol. keeps_tac. Qed.
#[local] Hint Resolve keeps_FindEfi : sbc.
Lemma keeps_GetFileSize n s : keeps (SBC_GetFileSize (W := W) n s).
Proof. unfold SBC_GetFileSize. keeps_tac. Qed.
Lemma keeps_ReadFile h n lv : keeps (SBC_ReadFile (W := W) h n lv).
Proof. unfold SBC_ReadFile. keeps_tac. Qed.
Lemma keeps_FindFileBufHndl p c hs : keeps (SBC_FindFileBufHndl (W := W) p c hs).
Proof. unfold SBC_FindFileBufHndl. keeps_tac. Qed.
Lemma keeps_HashCompute m n d : keeps (SBC_HashCompute (W := W) m n d).
Proof. unfold SBC_HashCompute. keeps_tac. Qed.
#[local] Hint Resolve keeps_GetFileSize keeps_ReadFile keeps_FindFileBufHndl keeps_HashCompute : sbc.
Lemma keeps_hash_at m n b o : keeps (hash_at (W := W) m n b o).
Proof. unfold hash_at. keeps_tac. Qed.
Lemma keeps_RawPrtRead h b n l : keeps (SBC_RawPrtReadBlock (W := W) h b n l).
Proof. unfold SBC_RawPrtReadBlock. keeps_tac. Qed.
#[local] Hint Resolve keeps_hash_at keeps_RawPrtRead : sbc.

Lemma keeps_SSBL_Verify b s a n : keeps (SBC_SSBL_Verify (W := W) b s a n).
Proof.
  unfold SBC_SSBL_Verify, verify_image, load_image_file, check_image. cbv zeta. keeps_tac.
Qed.

Lemma keeps_ReadBootMode pad : keeps (SBC_ReadBootMode (W := W) pad).
Proof. unfold SBC_ReadBootMode, SBC_FileSysFindHndl. cbv zeta. keeps_tac. Qed.

Lemma keeps_hw_serials : keeps (hw_serials (W := W)).
Proof.
  assert (HN : forall hs p, keeps (nvme_loop (W := W) hs p)).
  { induction hs; intros; cbn [nvme_loop]; keeps_tac. }
  unfold hw_serials, _baseboard_sn, _memorydevice_sn, _nvme_get_serial. keeps_tac.
Qed.
#[local] Hint Resolve keeps_hw_serials : sbc.

Lemma keeps_fsbl_load lv : keeps (efi_boot_fsbl_load (W := W) lv).
Proof.
  assert (HR : forall hs, keeps (fsbl_root (W := W) hs)) by (induction hs; cbn [fsbl_root]; keeps_tac).
  assert (HC : forall hs, keeps (close_all (W := W) hs)) by (induction hs; cbn [close_all]; keeps_tac).
  unfold efi_boot_fsbl_load, fsbl_content. cbv zeta. keeps_tac.
Qed.
#[local] Hint Resolve keeps_fsbl_load : sbc.

Lemma keeps_DiceKeysGen b pad p n m : keeps (SBC_DiceKeysGen (W := W) b pad p n m).
Proof.
  unfold SBC_DiceKeysGen, SBC_GenDeviceID, SBC_GenFWID, SBC_GenOSID, _ssbl_image_load,
    _kernel_image_load, derive_id. cbv zeta. keeps_tac.
Qed.

Lemma keeps_GenMigrationKey b c p o : keeps (SBC_GenMigrationKey (W := W) b c p o).
Proof.
  unfold SBC_GenMigrationKey, mig_current, mig_newer, hash_image. cbv zeta. keeps_tac.
Qed.
End Keeps.

(** ** The abstract boot machine *)
Module BootMachine.
(** What one boot finds: did the image verification and the key generation
    succeed, the mode the boot-mode file selects, is there a previous bank,
    could the migration key be computed. *)
Record boot_env := mkEnv {
  e_verified : bool; e_keys : bool; e_file : Z; e_prev : bool; e_migration : bool
}.
Inductive boot_end := Halt | Reboot | Grub | Crash.

(** Boot mode and key mode of the header. *)
Definition modes : Type := Z * Z.

(** The mode of this boot: the file counts only when the header has none. *)
Definition boot_mode (e : boot_env) (m : modes) : Z :=
  if negb (fst m =? 0) then fst m else e_file e.

Definition recovery_key (km : Z) : bool :=
  (km =? KEY_MODE_BOOT) || (km =? KEY_MODE_UPDATE) || (km =? KEY_MODE_NORMAL).

(** One boot: how it ends and the modes it leaves.  A recovery is done only when
    the header asks for it; one that the file selects goes on to GRUB. *)
Definition boot (e : boot_env) (m : modes) : boot_end * modes :=
  if negb (e_verified e && e_keys e) then (Halt, m)
  else if boot_mode e m =? BOOT_MODE_NORMAL then (Grub, (BOOT_MODE_NORMAL, KEY_MODE_NORMAL))
  else if boot_mode e m =? BOOT_MODE_FACTORY then (Crash, m)
  else if boot_mode e m =? BOOT_MODE_UPDATE then
    if e_migration e then (Reboot, (BOOT_MODE_RECOVERY, KEY_MODE_NORMAL)) else (Halt, m)
  else if fst m =? BOOT_MODE_RECOVERY then
    if e_prev e && recovery_key (snd m) then (Reboot, (BOOT_MODE_NORMAL, KEY_MODE_NORMAL))
    else (Halt, m)
  else (Grub, m).

(** A chain of boots, each in its environment, joined by reboots. *)
Inductive boots : list boot_env -> modes -> boot_end -> modes -> Prop :=
| boots_end e m r m' : boot e m = (r, m') -> r <> Reboot -> boots [e] m r m'
| boots_step e es m m1 r m' :
    boot e m = (Reboot, m1) -> boots es m1 r m' -> boots (e :: es) m r m'.

(** The chain is determined by its environments. *)
Lemma boots_unique es m r1 m1 r2 m2 : boots es m r1 m1 -> boots es m r2 m2 -> r1 = r2 /\ m1 = m2.
Proof.
  intros H1. revert r2 m2. induction H1 as [e m r m' HB Hr|e es m ma r m' HB HS IH];
    intros r2 m2 H2; inversion H2; subst;
    try match goal with H : boots [] _ _ _ |- _ => inversion H end.
  - split; congruence.
  - apply IH. match goal with H : boots es ?x _ _ |- boots es ?y _ _ =>
      assert (y = x) as -> by congruence; exact H end.
Qed.
End BootMachine.

(** ** The branches of the switch *)
Section Branches.
Context {W : Type} `{!Pool W, !PoolOk W, !BlockIo W, !BlockIoLaws W, !FileSys W, !ImageSvc W,
  !HwInfo W, !Rng W, !RngLaws W, !OpenSSL, !OpenSSLLaws}.

Lemma first_magic_find (w : W) hs i h hdr :
  list_find (fun h => has_magic w h) hs = Some (i, h) ->
  first_magic w hs None hdr = (SBCOK, Some h, blk_header h w).
Proof.
  revert i hdr. induction hs as [|k hs IH]; intros i hdr; [done|]. cbn [list_find first_magic].
  destruct (has_magic w k) eqn:Hm.
  - rewrite decide_True by done. by intros [= <- <-].
  - rewrite decide_False by (cbn; tauto). intros HF. rewrite fmap_Some in HF.
    destruct HF as ([j k'] & HF & [= -> ->]). by eapply IH.
Qed.

Lemma hdr_dev_below h (w w' : W) : below_settings h w w' -> hdr_dev h w -> hdr_dev h w'.
Proof.
  intros HB [HR Ho]. split; [|by rewrite (bs_ro _ _ _ HB)]. apply (bs_read _ _ _ HB); [split; lia|done].
Qed.

Lemma blk_header_below h (w w' : W) : below_settings h w w' -> blk_header h w' = blk_header h w.
Proof.
  intros HB. unfold blk_header. f_equal. apply window_ext. intros x Hx. apply (bs_disk _ _ _ HB).
  pose proof (block_size_pos h w). change settings_lba with 786433. lia.
Qed.

(** NORMAL: the modes are written, nothing else happens. *)
Lemma switch_normal h bp (w : W) :
  blkhnd bp = Some h -> hdr_wf (rawprt_hdr bp) -> hdr_dev h w ->
  bootst bp = SB_PROC_ST_NRMA -> bm bp = 0 \/ bm bp = BOOT_MODE_NORMAL ->
  exists w', boot_switch bp BOOT_MODE_NORMAL w = (Ret SBCOK, w') /\
    blk_header h w' = hdr_modes (rawprt_hdr bp) BOOT_MODE_NORMAL KEY_MODE_NORMAL.
Proof.
  intros Hh Hw Hd Hs Hbm. unfold boot_switch. rewrite Z.eqb_refl. cbv zeta.
  set (bp1 := set_hdr bp _).
  assert (Hw1 : hdr_wf (rawprt_hdr bp1)) by (destruct Hw; split; cbn; done).
  destruct (mode_change_ok h bp1 BOOT_MODE_NORMAL KEY_MODE_NORMAL w Hh Hw1 Hd) as (w' & HC & HB & _).
  mrun. exists w'. split; [|exact HB].
  unfold SBC_SecureBootCheck, SBC_ResetScenario, st_is. cbn [bm bootst set_hdr bp1].
  unfold bp1. cbn [set_hdr bm bootst]. rewrite Hs.
  by destruct Hbm as [->| ->].
Qed.

(** UPDATE: the base answer is re-encrypted under the migration key; the mode
    becomes RECOVERY and the machine is reset whatever the store returned. *)
Lemma switch_update h bp (w w1 : W) r mk :
  blkhnd bp = Some h -> hdr_wf (rawprt_hdr bp) -> hdr_dev h w1 -> settings_dev h w1 ->
  bootst bp = SB_PROC_ST_NRMA ->
  SBC_GenMigrationKey (Some h) (curr_sw_bnk bp) (pvs_sw_bnk bp) (migid (keyinfo bp)) w
  = (Ret (r, mk), w1) -> List.length mk = 32%nat ->
  (exists msg, lv_value (baseansr bp) = Some msg /\ 0 <= lv_length (baseansr bp) <= zlen msg /\
     lv_length (baseansr bp) <= 256) ->
  (r <> SBCOK -> boot_switch bp BOOT_MODE_UPDATE w = (Ret r, w1)) /\
  (r = SBCOK -> exists w', boot_switch bp BOOT_MODE_UPDATE w = (Reset ResetCold, w') /\
     blk_header h w' = hdr_modes (rawprt_hdr bp) BOOT_MODE_RECOVERY KEY_MODE_NORMAL).
Proof.
  intros Hh Hw Hd Hse Hs HM Hk (msg & Hm & Hl & Hmax).
  unfold boot_switch. change (BOOT_MODE_UPDATE =? BOOT_MODE_NORMAL) with false.
  change (BOOT_MODE_UPDATE =? BOOT_MODE_FACTORY) with false. rewrite Z.eqb_refl. cbv zeta iota.
  cbn [set_bm_km blkhnd curr_sw_bnk pvs_sw_bnk keyinfo]. rewrite Hh. mrun.
  split.
  - intros Hr. destruct (sbc_is r SBCOK) eqn:E; [by apply sbc_is_true in E|done].
  - intros ->. change (sbc_is SBCOK SBCOK) with true. cbn [negb].
    set (bp2 := mkProc _ _ _ _ _ _ _ _ _).
    destruct (EncryptStore_below h msg (lv_length (baseansr bp)) mk ATP_IDENT_KEY_STG w1 Hk Hl Hmax Hse)
      as (r2 & w2 & HE & _ & _ & HB2).
    destruct (mode_change_ok h bp2 BOOT_MODE_RECOVERY KEY_MODE_NORMAL w2) as (w3 & HC & HB3 & _);
      [done|done|by eapply hdr_dev_below|].
    exists w3. split; [|exact HB3].
    assert (HU : SBC_UpdateBootPorcsesing bp2 w1 = (Ret r2, w2)).
    { unfold SBC_UpdateBootPorcsesing, _update_behavior_for_km.
      change (km bp2) with KEY_MODE_NORMAL. change (bootst bp2) with (bootst bp).
      rewrite Z.eqb_refl, Hs. change (baseansr bp2) with (baseansr bp). rewrite Hm. exact HE. }
    assert (HX : _update_reset_check_and_behavior bp2 w2 = (Reset ResetCold, w3)).
    { unfold _update_reset_check_and_behavior. change (km bp2) with KEY_MODE_NORMAL.
      change (bootst bp2) with (bootst bp). rewrite Z.eqb_refl, Hs.
      assert (HY : (let! _ := SBC_BootKeyModeChange BOOT_MODE_RECOVERY KEY_MODE_NORMAL (Some bp2)
                    in ret tt) w2 = (Ret tt, w3)) by (by mrun).
      by mrun. }
    unfold SBC_SecureBootCheck, SBC_ResetScenario. change (bm bp2) with BOOT_MODE_UPDATE.
    change (BOOT_MODE_UPDATE =? BOOT_MODE_NORMAL) with false.
    change (BOOT_MODE_UPDATE =? BOOT_MODE_RECOVERY) with false. rewrite Z.eqb_refl. cbv iota.
    mrun. done.
Qed.

(** RECOVERY: with a previous bank and a key mode of recovery the base answer is
    stored under the OS id and the mode becomes NORMAL; otherwise the machine is
    shut down with its header as it was. *)
Lemma switch_recovery h bp (w : W) :
  blkhnd bp = Some h -> hdr_wf (rawprt_hdr bp) -> hdr_dev h w -> settings_dev h w ->
  bootst bp = SB_PROC_ST_NRMA -> bm bp = BOOT_MODE_RECOVERY ->
  List.length (osid (keyinfo bp)) = 32%nat ->
  (exists msg, lv_value (baseansr bp) = Some msg /\ 0 <= lv_length (baseansr bp) <= zlen msg /\
     lv_length (baseansr bp) <= 256) ->
  exists w',
    if negb (pvs_sw_bnk bp =? 0) && BootMachine.recovery_key (km bp)
    then boot_switch bp BOOT_MODE_RECOVERY w = (Reset ResetCold, w') /\
         blk_header h w' = hdr_modes (rawprt_hdr bp) BOOT_MODE_NORMAL KEY_MODE_NORMAL
    else boot_switch bp BOOT_MODE_RECOVERY w = (Reset ResetShutdown, w') /\
         blk_header h w' = blk_header h w.
Proof.
  intros Hh Hw Hd Hse Hs Hbm Hk (msg & Hm & Hl & Hmax).
  destruct (EncryptStore_below h msg (lv_length (baseansr bp)) (osid (keyinfo bp)) BASE_ANS_KEY_STR w
              Hk Hl Hmax Hse) as (r & w1 & HE & _ & Hro & HB).
  rewrite (Hro (proj2 Hd)) in HE. clear Hro.
  destruct (mode_change_ok h bp BOOT_MODE_NORMAL KEY_MODE_NORMAL w1) as (w2 & HC & HB2 & _);
    [done|done|by eapply hdr_dev_below|].
  rewrite <-Hm, <-Hh in HE.
  assert (HS : forall o w', SBC_RecoveryBootProcessing bp w = (Reset o, w') ->
               boot_switch bp BOOT_MODE_RECOVERY w = (Reset o, w')).
  { intros o w' HX. unfold boot_switch.
    change (BOOT_MODE_RECOVERY =? BOOT_MODE_NORMAL) with false.
    change (BOOT_MODE_RECOVERY =? BOOT_MODE_FACTORY) with false.
    change (BOOT_MODE_RECOVERY =? BOOT_MODE_UPDATE) with false. rewrite Z.eqb_refl.
    unfold SBC_SecureBootCheck. rewrite Hbm.
    change (BOOT_MODE_RECOVERY =? BOOT_MODE_NORMAL) with false. rewrite Z.eqb_refl. cbv iota.
    unfold bind. by rewrite HX. }
  unfold SBC_RecoveryBootProcessing, st_is, _check_prev_fw in HS. rewrite Hs in HS.
  change (bool_decide (SB_PROC_ST_NRMA = SB_PROC_ST_ABNRAM)) with false in HS. cbv iota in HS.
  destruct (pvs_sw_bnk bp =? 0); cbn [negb andb] in *.
  { exists w. split; [by apply HS|done]. }
  rewrite (bind_eq _ _ _ _ _ HE) in HS. change (negb (sbc_is SBCOK SBCOK)) with false in HS.
  cbv iota in HS. unfold BootMachine.recovery_key.
  destruct ((km bp =? KEY_MODE_BOOT) || (km bp =? KEY_MODE_UPDATE) || (km bp =? KEY_MODE_NORMAL)).
  - rewrite (bind_eq _ _ _ _ _ HC) in HS. exists w2. split; [by apply HS|exact HB2].
  - exists w1. split; [by apply HS|by apply blk_header_below].
Qed.

(** RECOVERY of the file: the header has no mode, and nothing is recovered. *)
Lemma switch_file_recovery bp (w : W) :
  bootst bp = SB_PROC_ST_NRMA -> bm bp = 0 -> boot_switch bp BOOT_MODE_RECOVERY w = (Ret SBCOK, w).
Proof.
  intros Hs Hb. unfold boot_switch, SBC_SecureBootCheck, SBC_ResetScenario, st_is. by rewrite Hs, Hb.
Qed.

(** FACTORY: the null private data is dereferenced. *)
Lemma switch_factory bp (w : W) : boot_switch bp BOOT_MODE_FACTORY w = (Fault, w).
Proof. done. Qed.
End Branches.

(** ** Refinement *)
Section Refinement.
Context {W : Type} `{!Pool W, !PoolOk W, !BlockIo W, !BlockIoLaws W, !FileSys W, !ImageSvc W,
  !HwInfo W, !Rng W, !RngLaws W, !OpenSSL, !OpenSSLLaws, !Frames W}.
Import BootMachine.

Definition cur_bank (h : Z) (w : W) : Z := current_bank (bootpres (blk_header h w)).
Definition prev_bank (h : Z) (w : W) : Z := FindPreviouslyBank (cur_bank h w).
Definition modes_of (h : Z) (w : W) : modes :=
  (bootmode (blk_header h w), keymode (blk_header h w)).

(** The partition of the machine: the first block device with the magic,
    writable, with its header and settings area. *)
Record partition (h : Z) (w : W) : Prop := {
  pt_find : exists hs i st, LocateBlk w = (Ret (st, hs), w) /\ Forall (usable w) hs /\
              list_find (fun h => has_magic w h) hs = Some (i, h);
  pt_hdr : hdr_wf (blk_header h w);
  pt_dev : hdr_dev h w;
  pt_settings : settings_dev h w
}.

(** The mode the boot acts on: the one of the file when the header has none. *)
Definition ssbl_mode (h : Z) (w : W) (file : Z) : Z :=
  if negb (bootmode (blk_header h w) =? 0) then bootmode (blk_header h w) else file.

(** What the components the boot runs return: the image verification, the key
    generation, the boot-mode file and the migration key, each only when the
    boot gets there. *)
Record boot_trace (j : stack_junk) (h : Z) (w : W) := mkTrace {
  t_ver : SBCStatus; t_ansr : LV_t; t_w1 : W;
  t_keys : SBCStatus; t_ids : atp_ident_t; t_w2 : W;
  t_file : Z; t_w3 : W;
  t_mig : SBCStatus; t_migid : bytes; t_w4 : W;
  tr_ver : SBC_SSBL_Verify (Some h) (j_hash j) (mkLV (j_ansr j) None) (cur_bank h w) w
           = (Ret (t_ver, t_ansr), t_w1);
  tr_keys : t_ver = SBCOK ->
            SBC_DiceKeysGen (Some h) (j_pad_os j) (j_ident j) BOOT_MODE_NORMAL (cur_bank h w) t_w1
            = (Ret (t_keys, t_ids), t_w2);
  tr_file : t_ver = SBCOK -> t_keys = SBCOK ->
            SBC_ReadBootMode (j_pad_bm j) t_w2 = (Ret t_file, t_w3);
  tr_mig : t_ver = SBCOK -> t_keys = SBCOK -> ssbl_mode h w t_file = BOOT_MODE_UPDATE ->
           SBC_GenMigrationKey (Some h) (cur_bank h w) (prev_bank h w) (migid t_ids) t_w3
           = (Ret (t_mig, t_migid), t_w4);
  (** [diceid] is an [atp_ident_t], whatever its value *)
  tr_junk : ident_typed (j_ident j);
  (** the base answer of the image fits the message of the settings area *)
  tr_ansr : t_ver = SBCOK -> lv_length t_ansr <= 256
}.

Definition env_of {j h w} (t : boot_trace j h w) : boot_env :=
  mkEnv (sbc_is (t_ver _ _ _ t) SBCOK) (sbc_is (t_keys _ _ _ t) SBCOK) (t_file _ _ _ t)
        (negb (prev_bank h w =? 0)) (sbc_is (t_mig _ _ _ t) SBCOK).

(** How a concrete boot shows the end of an abstract one. *)
Definition shows (e : boot_end) (res : out EFI_STATUS * W) (w' : W) : Prop :=
  match e with
  | Halt => res = (Reset ResetShutdown, w')
  | Reboot => res = (Reset ResetCold, w')
  | Crash => res = (Fault, w')
  | Grub => res = boot_grub w'
  end.

Lemma BlkInit_run h w :
  partition h w -> SBC_BlkIoHandleInit None blank_hdr w = (Ret (SBCOK, Some h, blk_header h w), w).
Proof.
  intros [(hs & i & st & HL & HF & Hf) _ _ _]. unfold SBC_BlkIoHandleInit. mrun.
  rewrite blkio_scan_usable by done. by rewrite (first_magic_find w hs i h).
Qed.

(** The process record the switch runs on. *)
Definition proc_of {j h w} (t : boot_trace j h w) : boot_proc_t :=
  mkProc (Some h) (blk_header h w) (t_ansr _ _ _ t) (t_ids _ _ _ t) (prev_bank h w) (cur_bank h w)
    (bootmode (blk_header h w)) (keymode (blk_header h w)) SB_PROC_ST_NRMA.

(** The end of [UefiMain], from the switch on. *)
Definition after_switch (bp : boot_proc_t) (md : Z) : M W EFI_STATUS :=
  let! r := boot_switch bp md in
  if negb (sbc_is r SBCOK) then SBC_ShutdownSystem else boot_grub.

(** Up to the switch. *)
Lemma UefiMain_front j h w (t : boot_trace j h w) :
  partition h w ->
  if e_verified (env_of t) && e_keys (env_of t)
  then UefiMain j w = after_switch (proc_of t) (boot_mode (env_of t) (modes_of h w)) (t_w3 _ _ _ t)
  else exists w', UefiMain j w = (Reset ResetShutdown, w') /\ same_dev w w'.
Proof.
  intros Hp. pose proof (BlkInit_run h w Hp) as HI.
  destruct t as [r1 ansr w1 r2 ids w2 fm w3 r4 mk w4 H1 H2 H3 H4 Hj Ha].
  unfold env_of, proc_of. cbn [e_verified e_keys t_ver t_keys t_w3].
  unfold UefiMain. mrun. change (negb (sbc_is SBCOK SBCOK)) with false. cbv iota zeta.
  fold (cur_bank h w). fold (prev_bank h w). mrun.
  destruct (sbc_is r1 SBCOK) eqn:E1; cbn [negb andb].
  2:{ exists w1. split; [done|]. by eapply keeps_SSBL_Verify. }
  apply sbc_is_true in E1. pose proof (H2 E1) as H2'.
  mrun. destruct (sbc_is r2 SBCOK) eqn:E2; cbn [negb].
  2:{ exists w2. split; [done|]. transitivity w1; [by eapply keeps_SSBL_Verify|].
      by eapply keeps_DiceKeysGen. }
  apply sbc_is_true in E2. pose proof (H3 E1 E2) as H3'. mrun. done.
Qed.

(** What the components of a successful boot leave and deliver. *)
Section Successful.
Context {j : stack_junk} {h : Z} {w : W} (t : boot_trace j h w).
Context (Hv : t_ver _ _ _ t = SBCOK) (Hk : t_keys _ _ _ t = SBCOK).

Lemma trace_kept : same_dev w (t_w3 _ _ _ t).
Proof.
  transitivity (t_w2 _ _ _ t); [transitivity (t_w1 _ _ _ t)|].
  - eapply keeps_SSBL_Verify, tr_ver.
  - by eapply keeps_DiceKeysGen, tr_keys.
  - by eapply keeps_ReadBootMode, tr_file.
Qed.

Lemma trace_ids : ident_typed (t_ids _ _ _ t).
Proof. apply (DiceKeysGen_typed _ _ _ _ _ (tr_junk _ _ _ t) _ _ _ (tr_keys _ _ _ t Hv)). Qed.

Lemma trace_answer :
  exists msg, lv_value (t_ansr _ _ _ t) = Some msg /\
    0 <= lv_length (t_ansr _ _ _ t) <= zlen msg /\ lv_length (t_ansr _ _ _ t) <= 256.
Proof.
  destruct (verify_answer _ _ _ _ _ _ (tr_ver _ _ _ t)) as (msg & Hm & Hl); [done|].
  exists msg. split; [done|]. split; [exact Hl|by apply tr_ansr].
Qed.
End Successful.

Lemma set_modes_id p : set_modes p (bootmode p) (keymode p) (rcvmode p) = p.
Proof. by destruct p. Qed.

(** What a boot leaves of the header: only the modes change. *)
Definition new_header (h : Z) (w w' : W) (m : modes) : Prop :=
  blk_header h w' = set_modes (blk_header h w) (fst m) (snd m) (rcvmode (blk_header h w)).

Lemma new_header_same h w w' : same_dev w w' -> new_header h w w' (modes_of h w).
Proof.
  intros Hs. unfold new_header, modes_of. cbn [fst snd]. rewrite set_modes_id.
  by apply blk_header_below, same_dev_below.
Qed.

(** How the switch shows the end of a boot. *)
Definition switch_shows (e : boot_end) (res : out SBCStatus * W) (w' : W) : Prop :=
  match e with
  | Halt => (exists r, r <> SBCOK /\ res = (Ret r, w')) \/ res = (Reset ResetShutdown, w')
  | Reboot => res = (Reset ResetCold, w')
  | Crash => res = (Fault, w')
  | Grub => res = (Ret SBCOK, w')
  end.

Lemma switch_shows_after e bp md w w' :
  switch_shows e (boot_switch bp md w) w' -> shows e (after_switch bp md w) w'.
Proof.
  unfold after_switch, shows, bind. destruct e; cbn [switch_shows].
  - intros [(r & Hr & ->)| ->]; [|done]. destruct (sbc_is r SBCOK) eqn:E; [|done].
    by apply sbc_is_true in E.
  - by intros ->.
  - by intros ->.
  - by intros ->.
Qed.

Section Switch.
Context {j : stack_junk} {h : Z} {w : W} (t : boot_trace j h w).
Context (Hv : t_ver _ _ _ t = SBCOK) (Hk : t_keys _ _ _ t = SBCOK) (Hp : partition h w).
#[local] Abbreviation w3 := (t_w3 _ _ _ t).

Lemma devices_kept : hdr_dev h w3 /\ settings_dev h w3 /\ below_settings h w w3.
Proof.
  pose proof (same_dev_below h _ _ (trace_kept t Hv Hk)) as B3. destruct Hp as [_ _ Hd Hse].
  split; [by eapply hdr_dev_below|]. split; [by eapply below_settings_dev|done].
Qed.

Lemma simulates_update :
  ssbl_mode h w (t_file _ _ _ t) = BOOT_MODE_UPDATE ->
  let (e, m') := if e_migration (env_of t) then (Reboot, (BOOT_MODE_RECOVERY, KEY_MODE_NORMAL))
                 else (Halt, modes_of h w) in
  exists w', switch_shows e (boot_switch (proc_of t) BOOT_MODE_UPDATE w3) w' /\ new_header h w w' m'.
Proof.
  intros Hmd. destruct devices_kept as (Hd & Hse & _). destruct Hp as [_ Hw _ _].
  pose proof (tr_mig _ _ _ t Hv Hk Hmd) as HM. pose proof (keeps_GenMigrationKey _ _ _ _ _ _ _ HM) as K4.
  pose proof (same_dev_below h _ _ K4) as B4. destruct (trace_ids t Hv) as (_ & _ & _ & Hmi).
  destruct (GenMigrationKey_typed _ _ _ _ _ Hmi _ _ _ HM) as [Hml _].
  destruct (switch_update h (proc_of t) _ _ _ _ eq_refl Hw (hdr_dev_below _ _ _ B4 Hd)
              (below_settings_dev _ _ _ B4 Hse) eq_refl HM Hml (trace_answer t Hv)) as [HN HY].
  cbn [e_migration env_of]. destruct (sbc_is (t_mig _ _ _ t) SBCOK) eqn:EM.
  - destruct (HY (proj1 (sbc_is_true _ _) EM)) as (w' & HS & HH). by exists w'.
  - apply sbc_is_false in EM. exists (t_w4 _ _ _ t). split; [left; eauto|].
    apply new_header_same. by transitivity (t_w3 _ _ _ t); [apply trace_kept|].
Qed.

Lemma simulates_recovery :
  bootmode (blk_header h w) = BOOT_MODE_RECOVERY ->
  let (e, m') := if e_prev (env_of t) && recovery_key (snd (modes_of h w))
                 then (Reboot, (BOOT_MODE_NORMAL, KEY_MODE_NORMAL)) else (Halt, modes_of h w) in
  exists w', switch_shows e (boot_switch (proc_of t) BOOT_MODE_RECOVERY w3) w' /\ new_header h w w' m'.
Proof.
  intros Hmd. destruct devices_kept as (Hd & Hse & B3). destruct Hp as [_ Hw _ _].
  destruct (trace_ids t Hv) as (_ & _ & [Hol _] & _).
  destruct (switch_recovery h (proc_of t) w3 eq_refl Hw Hd Hse eq_refl Hmd Hol (trace_answer t Hv))
    as (w' & HS).
  cbn [e_prev env_of modes_of snd]. cbn [pvs_sw_bnk km proc_of] in HS.
  destruct (negb (prev_bank h w =? 0) && recovery_key (keymode (blk_header h w)));
    destruct HS as [HS HH]; exists w'.
  - split; [exact HS|exact HH].
  - split; [by right|]. unfold new_header, modes_of. cbn [fst snd]. rewrite set_modes_id, HH.
    by apply blk_header_below.
Qed.

Lemma switch_simulates :
  let (e, m') := boot (env_of t) (modes_of h w) in
  exists w', switch_shows e (boot_switch (proc_of t) (ssbl_mode h w (t_file _ _ _ t)) w3) w' /\
    new_header h w w' m'.
Proof.
  destruct devices_kept as (Hd & Hse & _). pose proof Hp as [_ Hw _ _].
  unfold boot. cbn [env_of e_verified e_keys]. rewrite Hv, Hk.
  change (negb (sbc_is SBCOK SBCOK && sbc_is SBCOK SBCOK)) with false. cbv iota.
  change (boot_mode (env_of t) (modes_of h w)) with (ssbl_mode h w (t_file _ _ _ t)).
  assert (Hmd : bootmode (blk_header h w) = 0 \/
    bootmode (blk_header h w) = ssbl_mode h w (t_file _ _ _ t)).
  { unfold ssbl_mode. destruct (bootmode (blk_header h w) =? 0) eqn:E; bool_hyp; auto. }
  pose proof simulates_update as HU. pose proof simulates_recovery as HR.
  set (md := ssbl_mode h w _) in *. clearbody md.
  destruct (md =? BOOT_MODE_NORMAL) eqn:E1; bool_hyp.
  { subst md. destruct (switch_normal h (proc_of t) w3 eq_refl Hw Hd eq_refl Hmd) as (w' & HS & HH).
    cbv iota. exists w'. split; [exact HS|exact HH]. }
  destruct (md =? BOOT_MODE_FACTORY) eqn:E2; bool_hyp.
  { subst md. cbv iota. exists w3. split; [done|]. by apply new_header_same, trace_kept. }
  destruct (md =? BOOT_MODE_UPDATE) eqn:E3; bool_hyp; [subst md; exact (HU eq_refl)|].
  clear HU. cbn [fst modes_of]. destruct (bootmode (blk_header h w) =? BOOT_MODE_RECOVERY) eqn:E4; bool_hyp.
  { assert (md = BOOT_MODE_RECOVERY) as ->
      by (destruct Hmd as [HZ|HZ]; [rewrite E4 in HZ; discriminate HZ|rewrite <-HZ; exact E4]).
    exact (HR E4). }
  clear HR. cbv iota. exists w3. split; [|by apply new_header_same, trace_kept].
  destruct (decide (md = BOOT_MODE_RECOVERY)) as [->|Hne].
  { apply switch_file_recovery; [reflexivity|]. cbn [bm proc_of].
    destruct Hmd as [HZ|HZ]; [exact HZ|by destruct E4]. }
  cbn [switch_shows]. unfold boot_switch.
  by rewrite (proj2 (Z.eqb_neq md BOOT_MODE_NORMAL)), (proj2 (Z.eqb_neq md BOOT_MODE_FACTORY)),
    (proj2 (Z.eqb_neq md BOOT_MODE_UPDATE)), (proj2 (Z.eqb_neq md BOOT_MODE_RECOVERY)) by done.
Qed.
End Switch.

Lemma ssbl_simulates j h w (t : boot_trace j h w) :
  partition h w ->
  let (e, m') := boot (env_of t) (modes_of h w) in
  exists w', shows e (UefiMain j w) w' /\ new_header h w w' m'.
Proof.
  intros Hp. pose proof (UefiMain_front j h w t Hp) as HF.
  destruct (e_verified (env_of t) && e_keys (env_of t)) eqn:Ev.
  - apply andb_prop in Ev as [Hv Hk]. cbn [env_of e_verified e_keys] in Hv, Hk.
    apply sbc_is_true in Hv, Hk. pose proof (switch_simulates t Hv Hk Hp) as HS. rewrite HF.
    destruct (boot _ _) as [e m']. destruct HS as (w' & HS & HN). exists w'. split; [|done].
    by apply switch_shows_after.
  - unfold boot. rewrite Ev. cbn [negb]. destruct HF as (w' & HF & Hk). exists w'.
    split; [done|by apply new_header_same].
Qed.

(** C1: (refinement) The SSBL implements the boot machine: for a machine whose raw
    partition is found and writable, and whatever the image verification, the key
    generation, the boot-mode file and the migration key return, [UefiMain] ends
    as [BootMachine.boot] says (shutdown, reboot, hand-over to GRUB, or the null
    dereference of FACTORY mode), and of the partition header exactly the modes
    are replaced by those of the abstract step. *)
Theorem ssbl_refines j h w (t : boot_trace j h w) :
  partition h w ->
  let (e, m') := boot (env_of t) (modes_of h w) in
  exists w', shows e (UefiMain j w) w' /\ new_header h w w' m'.
Proof. apply ssbl_simulates. Qed.

(** The boots the modes still ask for. *)
Definition boot_rank (e : boot_env) (m : modes) : Z :=
  if boot_mode e m =? BOOT_MODE_UPDATE then 2
  else if fst m =? BOOT_MODE_RECOVERY then 1 else 0.

Lemma boot_rank_reboot e m m' e' :
  boot e m = (Reboot, m') -> boot_rank e' m' < boot_rank e m.
Proof.
  unfold boot. destruct (negb _); [done|]. destruct (boot_mode e m =? BOOT_MODE_NORMAL); [done|].
  destruct (boot_mode e m =? BOOT_MODE_FACTORY); [done|]. unfold boot_rank at 2.
  destruct (boot_mode e m =? BOOT_MODE_UPDATE); [destruct (e_migration e); [by intros [= <-]|done]|].
  destruct (fst m =? BOOT_MODE_RECOVERY); [|done].
  destruct (e_prev e && recovery_key (snd m)); [by intros [= <-]|done].
Qed.

Lemma new_header_modes h w w' m : new_header h w w' m -> modes_of h w' = m.
Proof. intros HN. unfold modes_of. rewrite HN. by destruct m. Qed.

Lemma modes_same h w w' : same_dev w w' -> modes_of h w' = modes_of h w.
Proof. intros Hs. unfold modes_of. by rewrite (blk_header_below h w w' (same_dev_below _ _ _ Hs)). Qed.

(** C4: (termination) The SSBL does not reboot for ever: when a boot ends in a cold
    reset of its own, the rank of the modes it leaves (UPDATE 2, RECOVERY 1, all
    others 0) is smaller than the rank it started with, whatever the next boot
    finds; so at most two such resets follow each other.  Any other boot shuts
    down, starts GRUB or crashes. *)
Theorem ssbl_reboot_progress j h w (t : boot_trace j h w) :
  partition h w ->
  exists w', (exists e, e <> Reboot /\ shows e (UefiMain j w) w') \/
    UefiMain j w = (Reset ResetCold, w') /\
    forall e', 0 <= boot_rank e' (modes_of h w') < boot_rank (env_of t) (modes_of h w).
Proof.
  intros Hp. pose proof (ssbl_simulates j h w t Hp) as HS.
  destruct (boot (env_of t) (modes_of h w)) as [e m'] eqn:EB. destruct HS as (w' & HS & HN).
  exists w'. destruct e; [left; by exists Halt|right|left; by exists Grub|left; by exists Crash].
  split; [exact HS|]. intros e'. rewrite (new_header_modes _ _ _ _ HN). split.
  - unfold boot_rank. repeat case_match; lia.
  - by eapply boot_rank_reboot.
Qed.

(** A boot in which everything the abstract machine asks for succeeds. *)
Definition all_good {j h w} (t : boot_trace j h w) : Prop :=
  e_verified (env_of t) && e_keys (env_of t) && e_prev (env_of t) && e_migration (env_of t) = true.

(** C3: (safety) The SSBL fails secure: when the verification of the first stage or
    the key generation does not return SBCOK, [UefiMain] shuts the machine down
    without handing over to GRUB and without changing any block device; so the
    partition keeps its modes, and the recovery that
    [_sbc_abnormal_processing] would start is not reached. *)
Theorem ssbl_fail_secure j h w (t : boot_trace j h w) :
  partition h w -> t_ver _ _ _ t <> SBCOK \/ t_keys _ _ _ t <> SBCOK ->
  exists w', UefiMain j w = (Reset ResetShutdown, w') /\ same_dev w w'.
Proof.
  intros Hp Hf. pose proof (UefiMain_front j h w t Hp) as HF.
  assert (HE : e_verified (env_of t) && e_keys (env_of t) = false).
  { cbn [env_of e_verified e_keys]. apply andb_false_iff.
    destruct Hf as [Hf|Hf]; [left|right]; apply bool_decide_eq_false; exact Hf. }
  by rewrite HE in HF.
Qed.

(** (functional) An unknown boot mode in the header (none of NORMAL, UPDATE,
    RECOVERY, FACTORY and not 0) boots: after a successful verification and key
    generation [UefiMain] hands over to GRUB with the block devices unchanged,
    where the code announces an abort. *)
Theorem ssbl_unknown_mode_boots j h w (t : boot_trace j h w) :
  partition h w -> t_ver _ _ _ t = SBCOK -> t_keys _ _ _ t = SBCOK ->
  BOOT_MODE_FACTORY < bootmode (blk_header h w) ->
  exists w', UefiMain j w = boot_grub w' /\ same_dev w w'.
Proof.
  intros Hp Hv Hk Hb. pose proof (UefiMain_front j h w t Hp) as HF.
  cbn [env_of e_verified e_keys] in HF. rewrite Hv, Hk in HF.
  change (sbc_is SBCOK SBCOK && sbc_is SBCOK SBCOK) with true in HF. cbv iota in HF.
  exists (t_w3 _ _ _ t). split; [|by apply trace_kept]. rewrite HF. unfold after_switch.
  unfold boot_mode, modes_of. cbn [fst]. set (b := bootmode (blk_header h w)) in *. clearbody b.
  unfold BOOT_MODE_FACTORY in Hb. rewrite (proj2 (Z.eqb_neq b 0)) by lia. cbn [negb].
  unfold boot_switch, BOOT_MODE_NORMAL, BOOT_MODE_FACTORY, BOOT_MODE_UPDATE, BOOT_MODE_RECOVERY.
  rewrite (proj2 (Z.eqb_neq b 1)), (proj2 (Z.eqb_neq b 4)), (proj2 (Z.eqb_neq b 2)),
    (proj2 (Z.eqb_neq b 3)) by lia. done.
Qed.
End Refinement.

(** ** Examples *)
Section Examples.
Import BootMachine.
#[local] Existing Instance toy_ssl.
#[local] Existing Instance toy_laws.

(** A machine with bank 1 current, in the given modes, and the signed image. *)
Definition ex_ssbl_hdr (b k : Z) : rawprt_hdr_t :=
  mkHdr SBC_RAWPRT_MAGIC_ID (zeros 64) (zeros 46) b k 0 [0; 1; 0; 67; 0; 0; 0; 0].
Definition ex_ssbl (img : bytes) (b k : Z) : machine :=
  machine_of [disk_with 4096 [];
              disk_with (2 ^ 30)
                [(0, hdr_encode (ex_ssbl_hdr b k)); (512, le_bytes 4 40);
                 (512 + BOOT_SSBL_OFS, le_bytes 4 60); (512 + BOOT_OS_OFS, le_bytes 4 70)]]
    [(OSID_KERNEL_PATH, [9; 8; 7]); (SSBL_VERIFY_PATH, img); (GRUB_EFI_PATH, [77; 90])]%string ex_hw.
Definition ex_junk : stack_junk :=
  mkJunk 0 (mkIdent (zeros 32) (zeros 32) (zeros 32) (zeros 32)) (zeros 256) 0 0.

(** The runs of the components on such a machine. *)
Definition ex_run1 (w : machine) : out (SBCStatus * LV_t) * machine :=
  SBC_SSBL_Verify (Some 2) (j_hash ex_junk) (mkLV (j_ansr ex_junk) None) (cur_bank 2 w) w.
Definition ex_run2 (w : machine) : out (SBCStatus * atp_ident_t) * machine :=
  SBC_DiceKeysGen (Some 2) (j_pad_os ex_junk) (j_ident ex_junk) BOOT_MODE_NORMAL (cur_bank 2 w)
    (snd (ex_run1 w)).
Definition ex_run3 (w : machine) : out Z * machine :=
  SBC_ReadBootMode (j_pad_bm ex_junk) (snd (ex_run2 w)).
Definition ex_run4 (w : machine) (ids : atp_ident_t) : out (SBCStatus * bytes) * machine :=
  SBC_GenMigrationKey (Some 2) (cur_bank 2 w) (prev_bank 2 w) (migid ids) (snd (ex_run3 w)).
Definition mig_of (r : out (SBCStatus * bytes) * machine) : bytes :=
  match fst r with Ret (_, b) => b | _ => [] end.

Definition ex_end (w : machine) : machine := snd (hw_serials (snd (ex_run3 w))).
Lemma ex_mig_run (w : machine) ids :
  cur_bank 2 w = 1 -> prev_bank 2 w = 2 -> zlen (migid ids) = 32 ->
  fst (hw_serials (snd (ex_run3 w))) = Ret ex_info ->
  bank_ok 2 1 (ex_end w) -> readable 2 (bank_lba 2) 512 (ex_end w) ->
  ex_run4 w ids = (Ret (SBCOK, mig_of (ex_run4 w ids)), ex_end w).
Proof.
  intros Hc Hp Hl Hh HB HR. unfold ex_run4. rewrite Hc, Hp.
  assert (HS : hw_serials (snd (ex_run3 w)) = (Ret ex_info, ex_end w)) by (by apply run_ret).
  destruct (migration_run 2 1 2 ex_info [65; 66; 67; 68; 78; 49] (migid ids) _ _ HS)
    as (d0 & d1 & d2 & d3 & key & _ & _ & _ & _ & EK & HK);
    [vm_compute; reflexivity|discriminate|exact HB|exact HR|exact Hl|].
  rewrite HK. reflexivity.
Qed.

Lemma ex_junk_typed : ident_typed (j_ident ex_junk).
Proof.
  assert (HZ : typed 32 (zeros 32)).
  { split; [reflexivity|]. apply Forall_replicate. vm_compute. split; congruence. }
  repeat split; apply HZ.
Qed.

Definition ex_trace (w : machine) r1 ansr ids fm
    (E1 : fst (ex_run1 w) = Ret (r1, ansr)) (E2 : fst (ex_run2 w) = Ret (SBCOK, ids))
    (E3 : fst (ex_run3 w) = Ret fm)
    (E4 : ex_run4 w ids = (Ret (SBCOK, mig_of (ex_run4 w ids)), ex_end w))
    (Ha : r1 = SBCOK -> lv_length ansr <= 256) : boot_trace ex_junk 2 w :=
  {| t_ver := r1; t_ansr := ansr; t_w1 := snd (ex_run1 w);
     t_keys := SBCOK; t_ids := ids; t_w2 := snd (ex_run2 w);
     t_file := fm; t_w3 := snd (ex_run3 w);
     t_mig := SBCOK; t_migid := mig_of (ex_run4 w ids); t_w4 := ex_end w;
     tr_ver := run_ret _ _ _ E1; tr_keys := fun _ => run_ret _ _ _ E2;
     tr_file := fun _ _ => run_ret _ _ _ E3;
     tr_mig := fun _ _ _ => E4; tr_junk := ex_junk_typed; tr_ansr := Ha |}.

Lemma partition_run (w : machine) :
  m_handles w = [1; 2] -> usable w 1 -> usable w 2 ->
  list_find (fun h => has_magic w h) [1; 2] = Some (1%nat, 2) ->
  hdr_wf (blk_header 2 w) -> hdr_dev 2 w -> settings_dev 2 w -> partition 2 w.
Proof.
  intros Hh U1 U2 Hf Hw Hd Hs. split; [|done..]. exists [1; 2], 1%nat, EFI_SUCCESS.
  split; [cbn; by rewrite Hh|]. split; [|exact Hf].
  apply Forall_cons. split; [exact U1|]. apply Forall_cons. split; [exact U2|]. apply Forall_nil. exact I.
Qed.

Lemma ex_ssbl_hdr_wf b k : 0 <= b < 2 ^ 16 -> 0 <= k < 2 ^ 16 -> hdr_wf (ex_ssbl_hdr b k).
Proof.
  intros Hb Hk. split; cbn [ex_ssbl_hdr magicid prtinfo reserv bootmode keymode rcvmode bootpres].
  all: try (split; [reflexivity|apply Forall_replicate; vm_compute; split; congruence]).
  - vm_compute. split; congruence.
  - exact Hb.
  - exact Hk.
  - lia.
  - split; [reflexivity|]. unfold all_bytes, is_byte. repeat constructor; lia.
Qed.

(** Partition and runs of [ex_ssbl]. *)
Ltac usable_ex := apply usable_run; [vm_compute; reflexivity|vm_compute; split; congruence
                                    |vm_compute; reflexivity].
Ltac partition_ex b k :=
  apply partition_run;
    [reflexivity|usable_ex|usable_ex|vm_compute; reflexivity
    |replace (blk_header _ _) with (ex_ssbl_hdr b k) by (vm_compute; reflexivity);
     apply ex_ssbl_hdr_wf; vm_compute; split; congruence
    |split; [apply readable_run; [split; lia|vm_compute; reflexivity]|vm_compute; reflexivity]
    |apply (settings_dev_run 2 9); [lia|vm_compute; reflexivity|vm_compute; reflexivity]].
Definition ids_of (r : out (SBCStatus * atp_ident_t) * machine) : atp_ident_t :=
  match fst r with Ret (_, k) => k | _ => j_ident ex_junk end.
Definition ansr_of (r : out (SBCStatus * LV_t) * machine) : LV_t :=
  match fst r with Ret (_, a) => a | _ => mkLV 0 None end.
Ltac mig_ex :=
  apply ex_mig_run;
    [vm_compute; reflexivity|vm_compute; reflexivity|vm_compute; reflexivity
    |vm_compute; reflexivity
    |apply (bank_ok_run 2 1 40 60 70); [vm_compute; reflexivity|lia|lia|lia|vm_compute; reflexivity]
    |apply readable_run; [vm_compute; repeat split; congruence|vm_compute; reflexivity]].
Ltac trace_ex w r :=
  apply (ex_trace w r (ansr_of (ex_run1 w)) (ids_of (ex_run2 w)) BOOT_MODE_UNKNOWN);
    [vm_compute; reflexivity|vm_compute; reflexivity|vm_compute; reflexivity|mig_ex
    |let HX := fresh in intros HX; first [discriminate HX|clear HX; vm_compute; discriminate]].

Lemma ex_trace_env w r1 a i fm E1 E2 E3 E4 Ha :
  env_of (ex_trace w r1 a i fm E1 E2 E3 E4 Ha)
  = mkEnv (sbc_is r1 SBCOK) true fm (negb (prev_bank 2 w =? 0)) true.
Proof. reflexivity. Qed.

(** An update: the machine is in UPDATE mode and the image is signed. *)
Definition ex_update : machine := ex_ssbl (parts_bytes ex_parts) BOOT_MODE_UPDATE KEY_MODE_NORMAL.
Lemma ex_update_partition : partition 2 ex_update.
Proof. partition_ex BOOT_MODE_UPDATE KEY_MODE_NORMAL. Qed.
Definition ex_update_trace : boot_trace ex_junk 2 ex_update.
Proof. trace_ex ex_update SBCOK. Defined.
Lemma ex_update_env : env_of ex_update_trace = mkEnv true true BOOT_MODE_UNKNOWN true true.
Proof. etransitivity; [apply ex_trace_env|]. vm_compute. reflexivity. Qed.
Lemma ex_update_modes : modes_of 2 ex_update = (BOOT_MODE_UPDATE, KEY_MODE_NORMAL).
Proof. vm_compute. reflexivity. Qed.

Lemma ssbl_refines_witness :
  exists w', UefiMain ex_junk ex_update = (Reset ResetCold, w') /\
    modes_of 2 w' = (BOOT_MODE_RECOVERY, KEY_MODE_NORMAL).
Proof.
  pose proof (ssbl_refines ex_junk 2 ex_update ex_update_trace ex_update_partition) as HS.
  rewrite ex_update_env, ex_update_modes in HS. cbn in HS. destruct HS as (w' & HU & HN). exists w'. split; [exact HU|]. by apply new_header_modes in HN.
Defined.

Lemma ssbl_reboot_progress_witness :
  exists w', (exists e, e <> Reboot /\ shows e (UefiMain ex_junk ex_update) w') \/
    UefiMain ex_junk ex_update = (Reset ResetCold, w') /\
    forall e', 0 <= boot_rank e' (modes_of 2 w') < 2.
Proof.
  pose proof (ssbl_reboot_progress ex_junk 2 ex_update ex_update_trace ex_update_partition) as HS.
  rewrite ex_update_env, ex_update_modes in HS. exact HS.
Defined.

(** An image whose payload is not the signed one, in NORMAL mode. *)
Definition ex_tampered : machine :=
  ex_ssbl (0 :: drop 1 (parts_bytes ex_parts)) BOOT_MODE_NORMAL KEY_MODE_NORMAL.
Lemma ex_tampered_partition : partition 2 ex_tampered.
Proof. partition_ex BOOT_MODE_NORMAL KEY_MODE_NORMAL. Qed.
Definition ex_tampered_trace : boot_trace ex_junk 2 ex_tampered.
Proof. trace_ex ex_tampered SBCFAIL. Defined.

Lemma ssbl_fail_secure_witness :
  exists w', UefiMain ex_junk ex_tampered = (Reset ResetShutdown, w') /\ same_dev ex_tampered w'.
Proof.
  apply (ssbl_fail_secure ex_junk 2 ex_tampered ex_tampered_trace ex_tampered_partition).
  left. discriminate.
Defined.

(** A header with the boot mode 9. *)
Definition ex_unknown : machine := ex_ssbl (parts_bytes ex_parts) 9 KEY_MODE_NORMAL.
Lemma ex_unknown_partition : partition 2 ex_unknown.
Proof. partition_ex 9 KEY_MODE_NORMAL. Qed.
Definition ex_unknown_trace : boot_trace ex_junk 2 ex_unknown.
Proof. trace_ex ex_unknown SBCOK. Defined.

Lemma ssbl_unknown_mode_boots_witness :
  exists w', UefiMain ex_junk ex_unknown = boot_grub w' /\ same_dev ex_unknown w'.
Proof.
  apply (ssbl_unknown_mode_boots ex_junk 2 ex_unknown ex_unknown_trace ex_unknown_partition).
  - reflexivity.
  - reflexivity.
  - vm_compute. reflexivity.
Defined.

End Examples.
