(* ===== verification/SsblFrame.v ===== *)
(** * What a boot can change (SSBL.c, SBC_SystemControl.c)

    Whatever the verification, the key generation and the services return, a run
    of the SSBL up to the hand-over to GRUB leaves the firmware banks of the
    partition, the other fields of its header and every other block device as
    they were: it writes the header block and the settings area only. *)
From stdpp Require Import base list.
From Stdlib Require Import ZArith Lia.
From S2P Require Import Prelude Uefi RamDisk Sim RawPrt Crypto BaseAnswer FileCtrl BootImage Dice Verify SystemControl Ssbl.
#[local] Open Scope Z_scope.

Section Evolution.
Context {W : Type} `{!Pool W, !BlockIo W, !BlockIoLaws W}.

(** The bytes of the partition the loader writes: its first 512 and the settings
    area. *)
Definition written (h : Z) (w : W) (x : Z) : Prop :=
  0 <= x < 512 \/
  settings_lba * BlockSize h w <= x < settings_lba * BlockSize h w + settings_len h w.

(** From [w] to [w'] only the modes of the header of [h], the rest of its first
    512 bytes and its settings area may have changed, through whichever handle of
    the medium they are seen; what was served is. *)
Record evolves (h : Z) (w w' : W) : Prop := {
  ev_handles : same_handles w w';
  ev_size : forall k, BlockSize k w' = BlockSize k w;
  ev_ro : forall k, read_only k w' = read_only k w;
  ev_bytes : forall k a, medium k <> medium h \/ ~ written h w (origin k + a - origin h) ->
    disk k w' a = disk k w a;
  ev_serves : forall k lba n, blk_req lba n -> readable k lba n w -> readable k lba n w';
  ev_header : exists b k, 0 <= b < 2 ^ 16 /\ 0 <= k < 2 ^ 16 /\
    blk_header h w' = set_modes (blk_header h w) b k (rcvmode (blk_header h w))
}.

(** A partition that can be written. *)
Definition sound (h : Z) (w : W) : Prop :=
  hdr_wf (blk_header h w) /\ hdr_dev h w /\ settings_dev h w.

Lemma evolves_trans h w1 w2 w3 : evolves h w1 w2 -> evolves h w2 w3 -> evolves h w1 w3.
Proof.
  intros [[L1 P1] S1 R1 B1 V1 (b1 & k1 & _ & _ & H1)] [[L2 P2] S2 R2 B2 V2 (b2 & k2 & Hb & Hk & H2)].
  assert (HW : forall x, written h w2 x <-> written h w1 x)
    by (intros x; unfold written, settings_len; by rewrite S1).
  split.
  - split; auto.
  - intros k. by rewrite S2.
  - intros k. by rewrite R2.
  - intros k a Ha. rewrite B2 by (by rewrite HW). by apply B1.
  - auto.
  - exists b2, k2. split; [done|]. split; [done|]. rewrite H2, H1. done.
Qed.

Lemma evolves_same h w w' : sound h w -> same_dev w w' -> evolves h w w'.
Proof.
  intros (Hw & _) [HL HS]. split.
  - exact HL.
  - intros k. apply HS.
  - intros k. apply HS.
  - intros k a _. by rewrite (proj1 (proj2 (HS k))).
  - intros k lba n _ HR. by apply HS.
  - exists (bootmode (blk_header h w)), (keymode (blk_header h w)). destruct Hw.
    split; [done|]. split; [done|]. rewrite set_modes_id. unfold blk_header.
    by rewrite (proj1 (proj2 (HS h))).
Qed.

Lemma evolves_sound h w w' : sound h w -> evolves h w w' -> sound h w'.
Proof.
  intros (Hw & [Hr Ho] & Hs) [_ S R B V (b & k & Hb & Hk & HH)].
  destruct (settings_len_spec h w Hs) as (Hq & _ & _). split; [|split; [split|]].
  - rewrite HH. destruct Hw. by split.
  - apply V; [split; lia|done].
  - by rewrite R.
  - destruct Hs as [Hb2 Hs]. unfold settings_dev, settings_len. rewrite S. split; [done|]. by apply V.
Qed.

(** ** Runs *)
Definition evo {A} (h : Z) (m : M W A) (w : W) : Prop := forall o w', m w = (o, w') -> evolves h w w'.

Lemma evo_keeps {A} h (m : M W A) w : sound h w -> keeps m -> evo h m w.
Proof. intros Hs Hk o w' HE. apply evolves_same; [done|]. by eapply Hk. Qed.

Lemma evo_bind {A B} h (m : M W A) (k : A -> M W B) w :
  evo h m w -> (forall a w', m w = (Ret a, w') -> evolves h w w' -> evo h (k a) w') ->
  evo h (bind m k) w.
Proof.
  intros Hm Hk o w' HE. unfold bind in HE. destruct (m w) as [[a| |r] w1] eqn:Em.
  - pose proof (Hm _ _ Em) as H1. eapply evolves_trans; [exact H1|]. by eapply Hk.
  - injection HE as <- <-. by eapply Hm.
  - injection HE as <- <-. by eapply Hm.
Qed.

Lemma evo_if {A} h (c : bool) (m1 m2 : M W A) w :
  evo h m1 w -> evo h m2 w -> evo h (if c then m1 else m2) w.
Proof. by destruct c. Qed.

Lemma evo_pure {A} h (m : M W A) w : sound h w -> (forall o w', m w = (o, w') -> w' = w) -> evo h m w.
Proof. intros Hs Hp o w' HE. rewrite (Hp _ _ HE). apply evolves_same; [done|]. reflexivity. Qed.

Lemma evo_ret {A} h (a : A) w : sound h w -> evo h (ret a) w.
Proof. intros Hs. apply evo_pure; [done|]. by intros o w' [= <- <-]. Qed.
Lemma evo_reset {A} h r w : sound h w -> evo h (@reset W A r) w.
Proof. intros Hs. apply evo_pure; [done|]. by intros o w' [= <- <-]. Qed.
Lemma evo_access {A} h (x : option A) w : sound h w -> evo h (access x) w.
Proof. intros Hs. apply evo_pure; [done|]. intros o w' HE. destruct x; by injection HE as <- <-. Qed.

(** The settings area lies behind the header block. *)
Lemma settings_above h w :
  sound h w -> 512 <= settings_lba * BlockSize h w /\ 0 <= settings_len h w.
Proof.
  intros (_ & _ & Hs). destruct (settings_len_spec h w Hs) as (Hq & _). pose proof (block_size_pos h w).
  split; [|apply Hq]. change settings_lba with 786433. lia.
Qed.

(** A write of whole regions that the partition may change. *)
Lemma evo_write h lba d w st w' :
  sound h w -> blk_req lba (zlen d) -> WriteBlocks h lba d w = (Ret st, w') ->
  (forall a, lba * BlockSize h w <= a < lba * BlockSize h w + zlen d -> written h w a) ->
  (exists b k, 0 <= b < 2 ^ 16 /\ 0 <= k < 2 ^ 16 /\
     blk_header h w' = set_modes (blk_header h w) b k (rcvmode (blk_header h w))) ->
  evolves h w w'.
Proof.
  intros Hs Hq HW Hin HH.
  split; [by eapply write_handles|intros k; by apply (write_frame _ _ _ _ _ _ k Hq HW)..| | |].
  - intros k a Ha. apply (write_local h lba d w st w' k a Hq HW).
    destruct Ha as [Ha|Ha]; [by left|right]. set (x := origin k + a - origin h) in *.
    destruct (decide (x < lba * BlockSize h w)); [by left|].
    destruct (decide (lba * BlockSize h w + zlen d <= x)); [by right|].
    destruct Ha. apply Hin. lia.
  - intros k lba' n Hq' (s & x & HR & He). eapply write_serves; [exact Hq|exact Hq'|exact HW|exact HR|exact He].
  - exact HH.
Qed.
End Evolution.

(** ** The operations *)
Section Operations.
Context {W : Type} `{!Pool W, !PoolOk W, !BlockIo W, !BlockIoLaws W, !FileSys W, !ImageSvc W,
  !HwInfo W, !Rng W, !RngLaws W, !OpenSSL, !OpenSSLLaws, !Frames W}.
Import BootMachine.

(** The process record holds the handle of the partition and its header, up to
    the modes. *)
Definition bp_ok (h : Z) (bp : boot_proc_t) (w : W) : Prop :=
  blkhnd bp = Some h /\ exists b k, 0 <= b < 2 ^ 16 /\ 0 <= k < 2 ^ 16 /\
    rawprt_hdr bp = set_modes (blk_header h w) b k (rcvmode (blk_header h w)).

Lemma bp_ok_evolves h bp w w' : bp_ok h bp w -> evolves h w w' -> bp_ok h bp w'.
Proof.
  intros (Hh & b & k & Hb & Hk & HE) [_ _ _ _ _ (b' & k' & _ & _ & HH)]. split; [done|].
  exists b, k. split; [done|]. split; [done|]. by rewrite HE, HH.
Qed.

Lemma bp_ok_wf h bp w : sound h w -> bp_ok h bp w -> hdr_wf (rawprt_hdr bp).
Proof. intros (Hw & _) (_ & b & k & Hb & Hk & ->). destruct Hw. by split. Qed.

Lemma evo_mode_change h b k bp w :
  sound h w -> bp_ok h bp w ->
  evo h (SBC_BootKeyModeChange b k (Some bp)) w /\
  forall r bp' w', SBC_BootKeyModeChange b k (Some bp) w = (Ret (r, bp'), w') ->
    bp_ok h bp' w' /\ bm bp' = bm bp /\ bootst bp' = bootst bp.
Proof.
  intros Hs Hb. pose proof (bp_ok_wf _ _ _ Hs Hb) as Hw.
  destruct Hb as (Hh & b0 & k0 & Hb0 & Hk0 & HE). pose proof Hs as (_ & Hd & _).
  destruct (BootKeyModeChange_run h bp b k w Hh Hw) as (st & v & HW & HC).
  destruct (mode_change_ok h bp b k w Hh Hw Hd) as (v' & HC' & HB & _).
  assert (v' = v) as -> by congruence. cbv zeta in HW.
  set (p := hdr_modes (rawprt_hdr bp) b k) in *.
  assert (Hl : zlen (hdr_block p) = 512) by (by apply hdr_block_len, hdr_modes_wf).
  assert (HP : p = set_modes (blk_header h w) (u16 b) (u16 k) (rcvmode (blk_header h w)))
    by (unfold p, hdr_modes; by rewrite HE).
  assert (HV : evolves h w v).
  { eapply evo_write; [done| |exact HW| |].
    - split; lia.
    - unfold written. rewrite Hl. lia.
    - exists (u16 b), (u16 k). split; [apply u16_range|]. split; [apply u16_range|]. by rewrite HB. }
  split.
  - intros o w' HX. rewrite HC' in HX. by injection HX as <- <-.
  - intros r bp' w' HX. rewrite HC' in HX. injection HX as <- <- <-. split; [|done].
    split; [done|]. exists (u16 b), (u16 k). split; [apply u16_range|]. split; [apply u16_range|].
    cbn [rawprt_hdr set_hdr]. by rewrite HB, HP.
Qed.

Lemma header_below h w w' :
  sound h w -> (forall a, a < settings_lba * BlockSize h w -> disk h w' a = disk h w a) ->
  blk_header h w' = blk_header h w.
Proof.
  intros Hs HB. unfold blk_header. f_equal. apply window_ext. intros a Ha. apply HB.
  pose proof (settings_above h w Hs). lia.
Qed.

(** Storing the base answer writes the settings area. *)
Lemma evo_settings_write h buf w :
  sound h w -> evo h (SBC_RawPrtBlockWrite (Some h) (Some buf) (settings_len h w) settings_lba) w.
Proof.
  intros Hs. unfold SBC_RawPrtBlockWrite. apply evo_if; [|by apply evo_ret].
  apply evo_bind; [by apply evo_access|]. intros p w1 [= <- <-] _.
  destruct (rd buf 0 (settings_len h w)) as [d|] eqn:HD; [|by apply evo_pure; [|intros o w' [= <- <-]]].
  apply evo_bind; [by apply evo_access|]. intros d' w1 [= <- <-] _.
  pose proof Hs as (Hw & _ & Hse). destruct (settings_len_spec h w Hse) as (Hq & _).
  pose proof (rd_length _ _ _ _ HD) as HL. rewrite <-HL in Hq.
  destruct (write_total h settings_lba d w Hq) as (st & w1 & HW).
  assert (HV : evolves h w w1).
  { eapply evo_write; [done|exact Hq|exact HW|unfold written; rewrite HL; lia|].
    exists (bootmode (blk_header h w)), (keymode (blk_header h w)). destruct Hw.
    split; [done|]. split; [done|]. rewrite set_modes_id. apply header_below; [done|].
    intros a Ha. eapply write_local_own; [exact Hq|exact HW|by left]. }
  intros o w' HX. unfold bind in HX. rewrite HW in HX. by injection HX as <- <-.
Qed.

Lemma keeps_AESEncrypt c : keeps (SBC_AESEncrypt (W := W) c).
Proof.
  unfold SBC_AESEncrypt, SBC_AESGcmEncrypt, SBC_AES_CBCEncrypt. cbv zeta. keeps_tac.
Qed.

(** One step of a run: the rest starts from a sound state. *)
Ltac evo_step :=
  apply evo_bind; [|let a := fresh "a" in let w := fresh "w" in let HE := fresh "HE" in
    let HV := fresh "HV" in intros a w HE HV;
    match goal with Hs : sound ?h ?v, Hb : bp_ok ?h ?bp ?v |- evo ?h _ w =>
      pose proof (bp_ok_evolves h bp v w Hb HV); pose proof (evolves_sound h v w Hs HV); clear Hs Hb
    | Hs : sound ?h ?v |- evo ?h _ w => pose proof (evolves_sound h v w Hs HV); clear Hs
    end].

Lemma evo_store h p w : sound h w -> evo h (_baseanswer_store (Some h) p) w.
Proof.
  intros Hs. unfold _baseanswer_store. destruct p as [p|]; [|by apply evo_pure; [|intros o w' [= <- <-]]].
  intros o w' HX. cbv zeta in HX. rewrite (bind_eq _ _ _ _ _ (alloc_ok _ w)) in HX. revert o w' HX.
  change (ALIGN_VALUE32 SYS_SETTING_STORAGE_LEN (BlockSize h w)) with (settings_len h w).
  set (n := settings_len h w).
  assert (HL : forall v, evolves h w v -> settings_len h v = n)
    by (intros v HV; unfold n, settings_len; by rewrite (ev_size _ _ _ HV)).
  assert (HG : evo h (let! (r, loadbuf) := SBC_RawPrtReadBlock (Some h) (Some (zeros n)) (Some n) settings_lba in
     if negb (sbc_is r SBCOK) then ret r
     else let! loadbuf := access loadbuf in
          let! loadbuf := access (put_record loadbuf p) in
          SBC_RawPrtBlockWrite (Some h) (Some loadbuf) n settings_lba) w); [|exact HG].
  apply evo_bind; [by apply evo_keeps, keeps_RawPrtRead|]. intros [r lb] w1 _ H1.
  pose proof (evolves_sound _ _ _ Hs H1) as Hs1. apply evo_if; [by apply evo_ret|].
  apply evo_bind; [by apply evo_access|]. intros b w2 HE _.
  assert (w2 = w1) as -> by (destruct lb; by injection HE).
  apply evo_bind; [by apply evo_access|]. intros b' w2 HE' _.
  assert (w2 = w1) as -> by (destruct (put_record b p); by injection HE').
  rewrite <-(HL w1 H1). by apply evo_settings_write.
Qed.

Lemma evo_encrypt_store h msg n key kl w :
  sound h w -> evo h (SBC_BaseAnswerEncryptStore (Some h) msg n key kl) w.
Proof.
  intros Hs. unfold SBC_BaseAnswerEncryptStore. cbv zeta.
  evo_step; [by apply evo_access|]. evo_step; [by apply evo_keeps; [|apply random_keeps]|].
  evo_step; [by apply evo_keeps, keeps_AESEncrypt|]. destruct a1 as [r c].
  apply evo_if; [by apply evo_ret|]. repeat (evo_step; [by apply evo_access|]). by apply evo_store.
Qed.

Lemma evo_mode h b k bp w :
  sound h w -> bp_ok h bp w -> evo h (SBC_BootKeyModeChange b k (Some bp)) w.
Proof. intros Hs Hb. by apply evo_mode_change. Qed.

Lemma evo_store_answer h bp key kl w :
  sound h w -> bp_ok h bp w ->
  evo h (SBC_BaseAnswerEncryptStore (blkhnd bp) (lv_value (baseansr bp)) (lv_length (baseansr bp)) key kl) w.
Proof. intros Hs [-> _]. by apply evo_encrypt_store. Qed.

(** Every path of the mode processing: a mode change, a store, a reset. *)
Ltac evo_leaf :=
  match goal with
  | |- evo _ (ret _) _ => by apply evo_ret
  | |- evo _ (reset _) _ => by apply evo_reset
  | |- evo _ SBC_RebootSystem _ => by apply evo_reset
  | |- evo _ SBC_ShutdownSystem _ => by apply evo_reset
  | |- evo _ (SBC_BootKeyModeChange _ _ (Some _)) _ => by apply evo_mode
  | |- evo _ (SBC_BaseAnswerEncryptStore _ _ _ _ _) _ => by apply evo_store_answer
  end.
Ltac evo_tac :=
  repeat first
    [evo_leaf
    |evo_step
    |match goal with
     | |- evo _ (match ?x with _ => _ end) _ => destruct x
     end].

Lemma evo_secure_check h bp w : sound h w -> bp_ok h bp w -> evo h (SBC_SecureBootCheck bp) w.
Proof.
  intros Hs Hb. unfold SBC_SecureBootCheck, SBC_ResetScenario, _update_reset_check_and_behavior,
    SBC_UpdateBootPorcsesing, _update_behavior_for_km, SBC_RecoveryBootProcessing,
    _sbc_abnormal_processing. evo_tac.
Qed.

Lemma evo_switch h bp md w : sound h w -> bp_ok h bp w -> evo h (boot_switch bp md) w.
Proof.
  intros Hs Hb. unfold boot_switch. repeat apply evo_if; cbv zeta.
  - set (bp1 := set_hdr bp _).
    assert (Hb1 : bp_ok h bp1 w).
    { destruct Hb as (Hh & b & k & Hb & Hk & HE). split; [done|]. exists b, (u16 KEY_MODE_NORMAL).
      split; [done|]. split; [apply u16_range|]. cbn [bp1 rawprt_hdr set_hdr]. by rewrite HE. }
    destruct (evo_mode_change h BOOT_MODE_NORMAL KEY_MODE_NORMAL bp1 w Hs Hb1) as [HM HB].
    apply evo_bind; [exact HM|]. intros [r bp2] w2 HE HV.
    apply evo_secure_check; [by eapply evolves_sound|by apply (HB r)].
  - by apply evo_pure; [|intros o w' [= <- <-]].
  - apply evo_bind; [by apply evo_keeps, keeps_GenMigrationKey|]. intros [r m] w1 _ HV.
    apply (evolves_sound _ _ _ Hs) in HV as Hs1. apply (bp_ok_evolves _ _ _ _ Hb) in HV.
    apply evo_if; [by apply evo_ret|]. apply evo_secure_check; [done|exact HV].
  - by apply evo_secure_check.
  - by apply evo_ret.
Qed.

(** C5: (invariant) Containment: in every run of the SSBL, whatever the
    verification, the keys and the services return, up to its end or to the
    hand-over to GRUB, the only bytes of the machine's media that can change are the
    first 512 bytes of the partition and its settings area, as seen through the
    partition's handle or, shifted by the distance of their origins, through any
    other handle of its medium (the disk it is on, say); media other than the one
    of the partition stay as they were.  So do the firmware banks, and the header
    keeps its magic, its partition information, its recovery mode and its bank
    preference. *)
Theorem ssbl_contained j h w :
  partition h w ->
  exists v, evolves h w v /\ (UefiMain j w = boot_grub v \/ exists o, UefiMain j w = (o, v)).
Proof.
  intros Hp. assert (Hs : sound h w) by (destruct Hp; done).
  pose proof (BlkInit_run h w Hp) as HI. unfold UefiMain. rewrite (bind_eq _ _ _ _ _ HI).
  change (negb (sbc_is SBCOK SBCOK)) with false. cbv iota zeta.
  set (C := fun (w0 : W) (m : M W EFI_STATUS) =>
    exists v, evolves h w v /\ (m w0 = boot_grub v \/ exists o, m w0 = (o, v))).
  assert (HB : forall A (m : M W A) k w0, evolves h w w0 -> evo h m w0 ->
    (forall a w1, evolves h w w1 -> m w0 = (Ret a, w1) -> C w1 (k a)) -> C w0 (bind m k)).
  { intros A m k w0 HV Hm Hk. unfold C, bind. destruct (m w0) as [[a| |r] w1] eqn:Em.
    - apply Hk; [|done]. by eapply evolves_trans, Hm.
    - exists w1. split; [by eapply evolves_trans, Hm|]. right. by eexists.
    - exists w1. split; [by eapply evolves_trans, Hm|]. right. by eexists. }
  assert (HX : forall w0, evolves h w w0 -> C w0 SBC_ShutdownSystem)
    by (intros w0 HV; exists w0; split; [done|right; by eexists]).
  assert (HS : forall w0, evolves h w w0 -> sound h w0) by (intros w0; by apply evolves_sound).
  assert (HR : evolves h w w) by (by apply evolves_same).
  apply HB; [done|by apply evo_keeps, keeps_SSBL_Verify|]. intros [r1 ansr] w1 V1 _.
  destruct (negb _); [by apply HX|].
  apply HB; [done|by apply evo_keeps; [apply HS|apply keeps_DiceKeysGen]|]. intros [r2 ids] w2 V2 _.
  destruct (negb _); [by apply HX|].
  apply HB; [done|by apply evo_keeps; [apply HS|apply keeps_ReadBootMode]|]. intros md w3 V3 _.
  apply HB; [done| |].
  - apply evo_switch; [by apply HS|]. apply (bp_ok_evolves h _ w); [|done]. split; [done|].
    exists (bootmode (blk_header h w)), (keymode (blk_header h w)). destruct Hs as [[] _].
    split; [done|]. split; [done|]. by rewrite set_modes_id.
  - intros r3 w4 V4 _. destruct (negb _); [by apply HX|]. exists w4. split; [done|by left].
Qed.

(** ** From boot to boot *)

(** The handles the search looks at before it finds [h]. *)
Definition before (h : Z) (w : W) (k : Z) : Prop :=
  exists hs i st, LocateBlk w = (Ret (st, hs), w) /\
    list_find (fun h => has_magic w h) hs = Some (i, h) /\ k ∈ take i hs.

(** None of them has its header in the bytes of the partition that the loader
    writes.  (A handle of another medium never has, nor the disk the partition is
    on; a partition nested in the raw partition could.) *)
Definition starts_apart (h : Z) (w : W) : Prop :=
  forall k, before h w k -> medium k = medium h ->
  forall a, 0 <= a < 128 -> ~ written h w (origin k + a - origin h).

(** The partition stays one: it is found at the same handle, and can be written. *)
Lemma partition_kept h w w' :
  partition h w -> sound h w' -> same_handles w w' ->
  (forall k, BlockSize k w' = BlockSize k w) ->
  (forall k lba n, blk_req lba n -> readable k lba n w -> readable k lba n w') ->
  has_magic w' h = has_magic w h -> (forall k, before h w k -> has_magic w' k = has_magic w k) ->
  partition h w' /\ forall k, before h w' k <-> before h w k.
Proof.
  intros Hp (Hw & Hd & Hse) [VL VP] HB HR Hh Hm.
  destruct Hp as [(hs & i & st & HL & HU & HF) _ _ _].
  assert (HF' : list_find (fun h => has_magic w' h) hs = Some (i, h)).
  { apply list_find_Some in HF as (Hi & HP & HN). apply list_find_Some. split; [done|]. split; [by rewrite Hh|].
    intros j y Hj Hlt. rewrite Hm; [by eapply HN|]. exists hs, i, st. split; [done|]. split.
    - apply list_find_Some. auto.
    - apply list_elem_of_lookup. exists j. by rewrite lookup_take_lt. }
  split.
  - split; [|done..]. exists hs, i, st. split; [by apply VL|]. split; [|done].
    eapply Forall_impl; [exact HU|]. intros k (HP & Hb & Hr). rewrite <-(HB k) in Hb.
    split; [by apply VP|]. split; [done|]. rewrite (HB k). apply HR; [|done].
    rewrite (HB k) in Hb. split; lia.
  - intros k. split; intros (hs' & i' & st' & HL' & HX & Hk).
    + rewrite (VL _ HL) in HL'. injection HL' as <- <-. rewrite HF' in HX. injection HX as <-.
      by exists hs, i, st.
    + rewrite HL in HL'. injection HL' as <- <-. rewrite HF in HX. injection HX as <-.
      exists hs, i, st. split; [by apply VL|done].
Qed.

Lemma partition_evolves h w w' :
  partition h w -> starts_apart h w -> evolves h w w' -> partition h w' /\ starts_apart h w'.
Proof.
  intros Hp Ha HV. assert (Hs : sound h w) by (destruct Hp; done).
  destruct (partition_kept h w w' Hp) as [Hp' Hb].
  - by eapply evolves_sound.
  - apply HV.
  - apply HV.
  - apply HV.
  - unfold has_magic. by destruct (ev_header _ _ _ HV) as (b & m & _ & _ & ->).
  - intros k Hk. unfold has_magic, blk_header. do 3 f_equal. apply window_ext. intros a Hx.
    apply (ev_bytes _ _ _ HV). destruct (decide (medium k = medium h)); [right|by left].
    apply Ha; [done|done|lia].
  - split; [done|]. intros k Hk Hm a Hx. apply Hb in Hk. unfold written, settings_len.
    rewrite (ev_size _ _ _ HV h). by apply (Ha k Hk Hm a Hx).
Qed.

Lemma partition_same h w w' :
  partition h w -> same_dev w w' -> partition h w' /\ (starts_apart h w -> starts_apart h w').
Proof.
  intros Hp HS. assert (HV : evolves h w w') by (apply evolves_same; [by destruct Hp|done]).
  destruct (partition_kept h w w' Hp) as [Hp' Hb].
  - eapply evolves_sound; [by destruct Hp|done].
  - apply HV.
  - apply HV.
  - apply HV.
  - unfold has_magic, blk_header. by rewrite (proj1 (proj2 (proj2 HS h))).
  - intros k _. unfold has_magic, blk_header. by rewrite (proj1 (proj2 (proj2 HS k))).
  - split; [done|]. intros Ha k Hk Hm a Hx. apply Hb in Hk. unfold written, settings_len.
    rewrite (ev_size _ _ _ HV h). by apply (Ha k Hk Hm a Hx).
Qed.

(** A boot that ends in the switch leaves a partition. *)
Lemma boot_step j h w (t : boot_trace j h w) e m' :
  partition h w -> starts_apart h w -> boot (env_of t) (modes_of h w) = (e, m') ->
  e_verified (env_of t) && e_keys (env_of t) = true ->
  exists w', shows e (UefiMain j w) w' /\ modes_of h w' = m' /\ partition h w' /\ starts_apart h w'.
Proof.
  intros Hp Ha HB HE. pose proof (UefiMain_front j h w t Hp) as HF. rewrite HE in HF.
  apply andb_prop in HE as [Hv Hk]. cbn [env_of e_verified e_keys] in Hv, Hk.
  apply sbc_is_true in Hv, Hk. pose proof (switch_simulates t Hv Hk Hp) as HS. rewrite HB in HS.
  destruct HS as (w' & HS & HN). exists w'.
  split; [rewrite HF; by apply switch_shows_after|]. split; [by eapply new_header_modes|].
  destruct (partition_same _ _ _ Hp (trace_kept t Hv Hk)) as [Hp3 Ha3].
  apply (partition_evolves _ _ _ Hp3 (Ha3 Ha)).
  assert (Hb : bp_ok h (proc_of t) (t_w3 _ _ _ t)).
  { apply (bp_ok_evolves h _ w); [|apply evolves_same; [by destruct Hp|by apply trace_kept]].
    split; [done|]. exists (bootmode (blk_header h w)), (keymode (blk_header h w)).
    destruct Hp as [_ [] _ _]. split; [done|]. split; [done|]. by rewrite set_modes_id. }
  pose proof (evo_switch h (proc_of t) (ssbl_mode h w (t_file _ _ _ t)) _ ltac:(by destruct Hp3) Hb) as HV.
  destruct e; cbn [switch_shows] in HS; [destruct HS as [(r & _ & HS)|HS]|..]; by eapply HV.
Qed.

(** A boot in which everything the abstract machine asks for succeeds. *)
Definition all_good {j h w} (t : boot_trace j h w) : Prop :=
  e_verified (env_of t) && e_keys (env_of t) = true /\ e_prev (env_of t) = true /\
  e_migration (env_of t) = true.

(** C2: (liveness) An update completes: a machine in UPDATE mode, whose boots verify,
    derive their keys and find both banks, goes through exactly two cold resets,
    with the modes (RECOVERY, NORMAL) and (NORMAL, NORMAL) on the partition, and the
    third boot hands over to GRUB in (NORMAL, NORMAL).  Only the first boot is given
    a partition: the later ones find the one that the boot before left, since no
    handle the search looks at before it starts inside the bytes the loader writes.
    Between the boots the machine may change in any way that keeps its block
    devices. *)
Theorem ssbl_update_completes j1 h w1 (t1 : boot_trace j1 h w1) :
  partition h w1 -> starts_apart h w1 -> all_good t1 ->
  bootmode (blk_header h w1) = BOOT_MODE_UPDATE ->
  exists v1, UefiMain j1 w1 = (Reset ResetCold, v1) /\
    modes_of h v1 = (BOOT_MODE_RECOVERY, KEY_MODE_NORMAL) /\
    forall j2 w2 (t2 : boot_trace j2 h w2), same_dev v1 w2 -> all_good t2 ->
    exists v2, UefiMain j2 w2 = (Reset ResetCold, v2) /\
      modes_of h v2 = (BOOT_MODE_NORMAL, KEY_MODE_NORMAL) /\
      forall j3 w3 (t3 : boot_trace j3 h w3), same_dev v2 w3 -> all_good t3 ->
      exists v3, UefiMain j3 w3 = boot_grub v3 /\ partition h v3 /\
        modes_of h v3 = (BOOT_MODE_NORMAL, KEY_MODE_NORMAL).
Proof.
  intros P1 A1 (G1 & _ & G1m) Hu.
  destruct (boot_step j1 h w1 t1 Reboot (BOOT_MODE_RECOVERY, KEY_MODE_NORMAL) P1 A1)
    as (v1 & S1 & M1 & Q1 & B1).
  { unfold boot, boot_mode. rewrite G1, G1m. cbn [modes_of fst]. by rewrite Hu. }
  { done. }
  exists v1. split; [exact S1|]. split; [exact M1|]. intros j2 w2 t2 K2 (G2 & G2p & _).
  destruct (partition_same _ _ _ Q1 K2) as [P2 A2]. rewrite <-(modes_same h v1 w2 K2) in M1.
  destruct (boot_step j2 h w2 t2 Reboot (BOOT_MODE_NORMAL, KEY_MODE_NORMAL) P2 (A2 B1))
    as (v2 & S2 & M2 & Q2 & B2).
  { unfold boot, boot_mode. by rewrite G2, G2p, M1. }
  { done. }
  exists v2. split; [exact S2|]. split; [exact M2|]. intros j3 w3 t3 K3 (G3 & _).
  destruct (partition_same _ _ _ Q2 K3) as [P3 A3]. rewrite <-(modes_same h v2 w3 K3) in M2.
  destruct (boot_step j3 h w3 t3 Grub (BOOT_MODE_NORMAL, KEY_MODE_NORMAL) P3 (A3 B2))
    as (v3 & S3 & M3 & Q3 & _).
  { unfold boot, boot_mode. by rewrite G3, M2. }
  { done. }
  by exists v3.
Qed.
End Operations.

(** ** Example *)
Section Examples.
#[local] Existing Instance toy_ssl.
#[local] Existing Instance toy_laws.

Lemma ssbl_contained_witness :
  exists v, (forall a, 512 <= a < settings_lba * BlockSize 2 ex_update -> disk 2 v a = disk 2 ex_update a) /\
    (UefiMain ex_junk ex_update = boot_grub v \/ exists o, UefiMain ex_junk ex_update = (o, v)).
Proof.
  destruct (ssbl_contained ex_junk 2 ex_update ex_update_partition) as (v & HV & HU).
  exists v. split; [|exact HU]. intros a Ha. apply (ev_bytes _ _ _ HV). right.
  unfold written. lia.
Defined.

Lemma starts_apart_run (w : machine) :
  m_handles w = [1; 2] -> list_find (fun h => has_magic w h) [1; 2] = Some (1%nat, 2) ->
  starts_apart 2 w.
Proof.
  intros Hh Hf k (hs & i & st & HL & HF & Hk) Hm. cbn in HL. rewrite Hh in HL. injection HL as _ <-.
  rewrite Hf in HF. injection HF as <-. apply list_elem_of_singleton in Hk. subst k. discriminate Hm.
Qed.

Lemma ssbl_update_completes_witness :
  exists v1, UefiMain ex_junk ex_update = (Reset ResetCold, v1) /\
    modes_of 2 v1 = (BOOT_MODE_RECOVERY, KEY_MODE_NORMAL).
Proof.
  destruct (ssbl_update_completes ex_junk 2 ex_update ex_update_trace) as (v1 & HU & HM & _).
  - exact ex_update_partition.
  - apply starts_apart_run; [reflexivity|vm_compute; reflexivity].
  - unfold all_good. rewrite ex_update_env. repeat split; reflexivity.
  - vm_compute. reflexivity.
  - exists v1. split; [exact HU|exact HM].
Defined.
End Examples.
