(* ===== verification/Fsbl.v ===== *)
(** * The first-stage boot loader (FSBL/FSBL.c, FSBL/SBC_AntiTampering.c)

    [UefiMain] of the FSBL verifies its own image, derives the device id, copies
    the SSBL from the raw partition to a file and starts SSBL.efi.  The library
    files the FSBL shares with the SSBL (SBC_FileCtrl.c, SBC_LoadKernelImage.c,
    SBC_CryptAES.c, ...) are the ones modelled for the SSBL.  The build does not
    define _SBC_DEVID_VERIFY_: the calls under it are not part of [UefiMain]. *)
From stdpp Require Import base list strings gmap.
From Stdlib Require Import ZArith Lia String.
From S2P Require Import Prelude Uefi RamDisk Sim RawPrt Crypto Report BaseAnswer FileCtrl BootImage Dice Verify SystemControl Ssbl.
#[local] Open Scope Z_scope.

(** [FindPreviouslyBank (bankid)] of the FSBL. *)
Definition FSBL_FindPreviouslyBank (bankid : Z) : Z :=
  if bankid =? 1 then 2 else if bankid =? 2 then 1 else 4294967295.

Definition SSBL_COPY_PATH : string := "\EFI\boot\SSBL.efi".

(** Uninitialised stack variables: [baseansr], [diceid.devid], the digest buffer
    of the verification, the padding of [wrlv]. *)
Record fsbl_junk := mkFsblJunk {
  fj_ansr : Z; fj_devid : bytes; fj_hash : bytes; fj_pad : Z
}.

Section Fsbl.
Context {W : Type} `{!Pool W, !BlockIo W, !FileSys W, !ImageSvc W, !HwInfo W, !Rng W, !OpenSSL,
  !LogSvc W}.

(** The image at [startlba]: the first block gives the length, then the blocks
    of that length (rounded up) are read: [inl] the status it stops with, or the
    buffer [loadimg]. *)
Definition load_image_blocks (blkhnd : option Z) (startlba : Z) : M W (SBCStatus + bytes) :=
  let! (r, imghdr) := SBC_RawPrtReadBlock blkhnd (Some (zeros SBC_RAWPRT_DFLT_BLK_SZ))
                        (Some SBC_RAWPRT_DFLT_BLK_SZ) startlba in
  if negb (sbc_is r SBCOK) then ret (inl r)
  else
  let! l := access (rdp imghdr 4) in
  let imglen := ALIGN_VALUE32 (le_val l) SBC_RAWPRT_DFLT_BLK_SZ in
  let! a := AllocatePool imglen in
  if negb a then ret (inl SBCNULLP)
  else
  let! (r, loadimg) := SBC_RawPrtReadBlock blkhnd (Some (zeros imglen)) (Some imglen) startlba in
  if negb (sbc_is r SBCOK) then ret (inl r)
  else let! loadimg := access loadimg in ret (inr loadimg).

(** The loop that writes the file: [break] at the first volume that takes it;
    the status of the last attempt. *)
Fixpoint write_loop (hs : list Z) (fname : string) (wrlv : LV_t) (retval : EFI_STATUS)
  : M W EFI_STATUS :=
  match hs with
  | [] => ret retval
  | h :: hs =>
      let! retval := SBC_WriteFile h fname wrlv in
      if EFI_ERROR retval then write_loop hs fname wrlv retval else ret retval
  end.

(** [_lv_set_data (&wrlv, &loadimg[4], imglen - 4)] on the uninitialised [wrlv]. *)
Definition image_lv (pad : Z) (loadimg : bytes) : LV_t :=
  lv_set_length (lv_set_value (mkLV (u32 pad * 2 ^ 32) None) (Some (drop 4 loadimg)))
                (zlen loadimg - 4).

(** [SBC_BootModeNormalAndpUdate (blkhnd, ImageHandle, nrombank)]. *)
Definition SBC_BootModeNormalAndpUdate (pad : Z) (blkhnd : option Z) (nrombank : Z)
  : M W SBCStatus :=
  validate (0 <? nrombank) && (nrombank <? 3) else SBCINVPARAM in
  validate notnull blkhnd else SBCNULLP in
  let! x := load_image_blocks blkhnd (ssbl_lba nrombank) in
  match x with
  | inl r => ret r
  | inr loadimg =>
      let! (hndlcnt, hs) := SBC_FindEfiFileSystemProtocol in
      if hndlcnt <=? 0 then ret SBCIO
      else
      let! retval := write_loop hs SSBL_COPY_PATH (image_lv pad loadimg) EFI_SUCCESS in
      if EFI_ERROR retval then ret SBCNOTFND else SBC_SSBL_LoadAndStart
  end.

(** First block of the factory SSBL. *)
Definition factory_lba : Z := Z.shiftr (Z.lor BOOT_SECTOR3_OFS BOOT_SSBL_OFS) SBC_RAWPRT_DFLT_SHIFT.

(** [SBC_BootModeFactory (blkhnd, ImageHandle)]: [g_blkio] and [tmp] are the
    global [h_blkio] and the static [tmp_prtheader] of FSBL.c. *)
Definition SBC_BootModeFactory (pad : Z) (g_blkio : option Z) (tmp : rawprt_hdr_t)
    (blkhnd : option Z) : M W SBCStatus :=
  validate notnull blkhnd else SBCNULLP in
  let! x := load_image_blocks blkhnd factory_lba in
  match x with
  | inl r => ret r
  | inr loadimg =>
      let! (hndlcnt, hs) := SBC_FindEfiFileSystemProtocol in
      if hndlcnt <=? 0 then ret SBCIO
      else
      let! retval := write_loop hs SSBL_EFI_PATH (image_lv pad loadimg) EFI_SUCCESS in
      if EFI_ERROR retval then ret SBCIO
      else
      if negb (keymode tmp =? KEY_MODE_NORMAL) then
        let tmp := set_modes tmp (bootmode tmp) KEY_MODE_NORMAL (rcvmode tmp) in
        let! r := SBC_RawPrtBlockWrite g_blkio (Some (hdr_encode tmp)) 128 0 in
        validate sbc_is r SBCOK else r in
        SBC_SSBL_LoadAndStart
      else SBC_SSBL_LoadAndStart
  end.

(** [SBC_SSBL_Verify (blkhnd, ansr, nrombank)] of the FSBL.  The trailer is
    copied from four bytes before the end of the buffer on; [after] is what
    follows the buffer in memory. *)
Definition FSBL_SSBL_Verify (blkhnd : option Z) (after : bytes) (nrombank : Z) : M W SBCStatus :=
  let! x := load_image_blocks blkhnd (ssbl_lba nrombank) in
  match x with
  | inl r => ret r
  | inr loadimg =>
      let last_of_fsbl := u32 (zlen loadimg - FSBL_BNIFO_SIZE) in
      let! b := access (rd (loadimg ++ after)%list (4 + last_of_fsbl) 8) in
      let bsinfolen := parts_len (bsinfo_decode b) in
      ret SBCOK
  end.

(** [SBC_DiceKeysGen (ImageHandle, p, normbank, bm)] of the FSBL: only the
    device id. *)
Definition FSBL_DiceKeysGen (devid : bytes) : M W SBCStatus :=
  let! (r, _) := SBC_GenDeviceID (Some devid) in ret r.

(** [if (tmp_prtheader.keymode != KEY_MODE_NORMAL)]: the header is written back,
    whatever the write returns. *)
Definition key_mode_normal (h_blkio : option Z) (tmp : rawprt_hdr_t) : M W rawprt_hdr_t :=
  if negb (keymode tmp =? KEY_MODE_NORMAL) then
    let tmp := set_modes tmp (bootmode tmp) KEY_MODE_NORMAL (rcvmode tmp) in
    let! _ := SBC_RawPrtBlockWrite h_blkio (Some (hdr_encode tmp)) 128 0 in ret tmp
  else ret tmp.

(** The [switch (h_rawprtheader.bootmode)]: [retval], [is_boot_status] and
    [tmp_prtheader] at [errdone]. *)
Definition fsbl_switch (pad : Z) (h_blkio : option Z) (hdr : rawprt_hdr_t) (cur prev : Z)
  : M W (EFI_STATUS * bool * rawprt_hdr_t) :=
  let boot (bank : Z) : M W (EFI_STATUS * bool * rawprt_hdr_t) :=
    let! r := SBC_BootModeNormalAndpUdate pad h_blkio bank in
    if negb (sbc_is r SBCOK) then ret (EFI_INVALID_PARAMETER, false, hdr)
    else ret (EFI_SUCCESS, true, hdr) in
  if bootmode hdr =? BOOT_MODE_NORMAL then boot cur
  else if bootmode hdr =? BOOT_MODE_FACTORY then
    let! tmp := key_mode_normal h_blkio hdr in
    let! _ := SBC_SSBL_LoadAndStart in
    ret (EFI_SUCCESS, true, tmp)
  else if bootmode hdr =? BOOT_MODE_UPDATE then boot cur
  else if bootmode hdr =? BOOT_MODE_RECOVERY then boot prev
  else ret (EFI_SUCCESS, false, hdr).

(** The code at [errdone]. *)
Definition fsbl_errdone (h_blkio : option Z) (hdr tmp : rawprt_hdr_t) (retval : EFI_STATUS)
    (is_boot_status : bool) : M W EFI_STATUS :=
  if (bootmode hdr =? BOOT_MODE_FACTORY) && negb is_boot_status then
    let! _ := key_mode_normal h_blkio tmp in SBC_ShutdownSystem
  else ret retval.

(** [UefiMain (ImageHandle, SystemTable)] of the FSBL.  After a failed search
    for the partition, [ASSERT (ret != SBCOK)] holds and the code goes on.  After
    the verification the base answer is printed as a string, and the result used
    as the format of a log call. *)
Definition FSBL_UefiMain (j : fsbl_junk) : M W EFI_STATUS :=
  let! (_, h_blkio, hdr) := SBC_BlkIoHandleInit None blank_hdr in
  let currbank_id := current_bank (bootpres hdr) in
  let prevbank_id := FSBL_FindPreviouslyBank currbank_id in
  if prevbank_id <? 1 then fsbl_errdone h_blkio hdr hdr EFI_INVALID_PARAMETER true
  else
  let! (r, baseansr) := SBC_FSBL_Verify h_blkio (fj_hash j) (mkLV (fj_ansr j) None) currbank_id
                          (bootmode hdr) in
  if negb (sbc_is r SBCOK) then fsbl_errdone h_blkio hdr hdr EFI_INVALID_PARAMETER false
  else
  let! _ := log_mrgmsg fsbl_ok_format [lv_value baseansr] in
  let! r := FSBL_DiceKeysGen (fj_devid j) in
  if negb (sbc_is r SBCOK) then fsbl_errdone h_blkio hdr hdr EFI_INVALID_PARAMETER false
  else
  let! (retval, ok, tmp) := fsbl_switch (fj_pad j) h_blkio hdr currbank_id prevbank_id in
  fsbl_errdone h_blkio hdr tmp retval ok.
End Fsbl.

(** ** Writing files

    What the code relies on of Open with EFI_FILE_MODE_CREATE and of Write: the
    file that is opened is the named one, a write replaces the bytes at the
    position, and the other files ([same_path] tells which names are one file)
    keep their content. *)
Section WriteView.
Context {W : Type} `{!FileSys W, !FileSysLaws W}.
(** Only the files called [name] changed. *)
Definition touches (sp : string -> string -> bool) (name : string) (w w' : W) : Prop :=
  vols view w' = vols view w /\
  forall v n c, sp n name = false -> vol_node view w v n = Some (Some c) ->
                vol_node view w' v n = Some (Some c).

Lemma touches_refl sp name w : touches sp name w w.
Proof. by split. Qed.
Lemma touches_trans sp name w1 w2 w3 :
  touches sp name w1 w2 -> touches sp name w2 w3 -> touches sp name w1 w3.
Proof. intros [V1 T1] [V2 T2]. split; [congruence|eauto]. Qed.
Lemma touches_same sp name w w' : same_files view w w' -> touches sp name w w'.
Proof. intros [HV HN]. split; [done|]. intros v n c _ Hc. by rewrite HN. Qed.
End WriteView.

Class FileWriteLaws (W : Type) `{!FileSys W, !FileSysLaws W} := {
  same_path : string -> string -> bool;
  fs_open_write : forall r h name w, open_as view w r = Some (NRoot h) ->
    exists st f w',
      FOpen r name (EFI_FILE_MODE_READ + EFI_FILE_MODE_WRITE + EFI_FILE_MODE_CREATE) 0 w
      = (Ret (st, f), w') /\ touches same_path name w w' /\
      (EFI_ERROR st = false ->
         (exists c, open_as view w' f = Some (NFile h name 0) /\
                    vol_node view w' h name = Some (Some c)) \/
         open_as view w' f = Some (NDir h name));
  fs_write : forall f h name pos c d w,
    open_as view w f = Some (NFile h name pos) -> vol_node view w h name = Some (Some c) ->
    0 <= pos ->
    exists st w', FWrite f d w = (Ret st, w') /\ touches same_path name w w' /\
      (EFI_ERROR st = false ->
         vol_node view w' h name
         = Some (Some (take (Z.to_nat pos) c ++ d ++ drop (Z.to_nat pos + List.length d) c)%list));
  fs_write_dir : forall f h name d w, open_as view w f = Some (NDir h name) ->
    exists st w', FWrite f d w = (Ret st, w') /\ touches same_path name w w' /\ EFI_ERROR st = true
}.

Section WriteLaws.
Context {W : Type} `{!Pool W, !FileSys W, !FileSysLaws W, !FileWriteLaws W}.

(** Closing the two handles at the end of an operation. *)
Lemma close_two (f r : Z) {A} (a : A) w name :
  exists w', (FClose f ;! FClose r ;! ret a) w = (Ret a, w') /\ same_files view w w'
             /\ touches same_path name w w'.
Proof.
  destruct (fs_close f w) as (w1 & H1 & S1), (fs_close r w1) as (w2 & H2 & S2).
  exists w2. assert (same_files view w w2) by (by transitivity w1). mrun.
  split; [done|]. split; [done|]. by apply touches_same.
Qed.

(** Up to the write: the volume refuses the file, or it is open at its start. *)
Lemma WriteFile_open h name lv w :
  In h (vols view w) ->
  (exists st w', SBC_WriteFile h name lv w = (Ret st, w') /\ EFI_ERROR st = true /\
                 touches same_path name w w') \/
  exists r f w', touches same_path name w w' /\
    ((exists c, open_as view w' f = Some (NFile h name 0) /\
                vol_node view w' h name = Some (Some c)) \/
     open_as view w' f = Some (NDir h name)) /\
    SBC_WriteFile h name lv w
    = (let! d := access (rdp (lv_value lv) (lv_word lv)) in
       let! st := FWrite f d in FClose f ;! FClose r ;! ret st) w'.
Proof.
  intros Hin. pose proof (fs_protocol h w Hin) as HP.
  destruct (fs_open_volume h w Hin) as (r & w1 & HV & HO & HS).
  destruct (fs_open_write r h name w1 HO) as (st & f & w2 & HF & HT & HOk).
  assert (T2 : touches same_path name w w2)
    by (eapply touches_trans; [by apply touches_same|done]).
  unfold SBC_WriteFile. mrun. do 2 (change (EFI_ERROR EFI_SUCCESS) with false; cbv iota; mrun).
  destruct (EFI_ERROR st) eqn:Es.
  - left. destruct (fs_close r w2) as (w3 & HC & S3). exists st, w3. mrun.
    split; [done|]. split; [done|]. eapply touches_trans; [done|by apply touches_same].
  - right. exists r, f, w2. split; [done|]. split; [by apply HOk|]. done.
Qed.

(** [SBC_WriteFile]: on success the file begins with the data. *)
Lemma WriteFile_run h name lv d w :
  In h (vols view w) -> rdp (lv_value lv) (lv_word lv) = Some d ->
  exists st w', SBC_WriteFile h name lv w = (Ret st, w') /\ touches same_path name w w' /\
    (EFI_ERROR st = false -> exists tail, vol_node view w' h name = Some (Some (d ++ tail)%list)).
Proof.
  intros Hin Hd.
  destruct (WriteFile_open h name lv w Hin) as [(st & w' & HW & He & HT)|(r & f & w1 & T1 & HO & HW)].
  { exists st, w'. split; [done|]. split; [done|]. congruence. }
  rewrite HW. rewrite Hd. mrun. destruct HO as [(c & HO & HN)|HO].
  - destruct (fs_write f h name 0 c d w1 HO HN) as (st & w2 & HWr & T2 & Hc); [lia|]. mrun.
    destruct (close_two f r st w2 name) as (w3 & HC & S3 & T3). exists st, w3.
    split; [done|]. split; [by do 2 (eapply touches_trans; [done|])|].
    intros Hs. exists (drop (0 + List.length d) c). rewrite (proj2 S3). by apply Hc.
  - destruct (fs_write_dir f h name d w1 HO) as (st & w2 & HWr & T2 & He). mrun.
    destruct (close_two f r st w2 name) as (w3 & HC & S3 & T3). exists st, w3.
    split; [done|]. split; [by do 2 (eapply touches_trans; [done|])|]. congruence.
Qed.

(** A length-value pair whose length leaves its buffer is never written. *)
Lemma WriteFile_overrun h name lv w :
  In h (vols view w) -> rdp (lv_value lv) (lv_word lv) = None ->
  exists w', touches same_path name w w' /\
    (SBC_WriteFile h name lv w = (Fault, w') \/
     exists st, SBC_WriteFile h name lv w = (Ret st, w') /\ EFI_ERROR st = true).
Proof.
  intros Hin Hd.
  destruct (WriteFile_open h name lv w Hin) as [(st & w' & HW & He & HT)|(r & f & w1 & T1 & HO & HW)].
  - exists w'. split; [done|]. right. by exists st.
  - exists w1. split; [done|]. left. by rewrite HW, Hd.
Qed.

Lemma write_loop_run hs name lv d w st0 :
  (forall h, In h hs -> In h (vols view w)) -> rdp (lv_value lv) (lv_word lv) = Some d ->
  exists st w', write_loop hs name lv st0 w = (Ret st, w') /\ touches same_path name w w' /\
    (EFI_ERROR st = false -> hs <> [] ->
     exists k tail, In k hs /\ vol_node view w' k name = Some (Some (d ++ tail)%list)).
Proof.
  intros Hin Hd. revert w st0 Hin. induction hs as [|h hs IH]; intros w st0 Hin.
  { exists st0, w. split; [done|]. split; [apply touches_refl|done]. }
  destruct (WriteFile_run h name lv d w) as (st & w1 & HW & T1 & Hs); [by apply Hin; left|done|].
  cbn [write_loop]. mrun. destruct (EFI_ERROR st) eqn:Es.
  - destruct (IH w1 st) as (st' & w2 & HL & T2 & Hk).
    { intros k Hk. rewrite (proj1 T1). apply Hin. by right. }
    exists st', w2. split; [done|]. split; [by eapply touches_trans|]. intros He _.
    destruct hs as [|k hs].
    { cbn in HL. unfold ret in HL. injection HL as <- <-. congruence. }
    destruct Hk as (k' & tail & Hk & Hv); [done|done|]. exists k', tail. split; [by right|done].
  - exists st, w1. split; [done|]. split; [done|]. intros _ _. destruct Hs as [tail Ht]; [done|].
    exists h, tail. split; [by left|done].
Qed.

Lemma write_loop_overrun hs name lv w st0 :
  (forall h, In h hs -> In h (vols view w)) -> rdp (lv_value lv) (lv_word lv) = None -> hs <> [] ->
  exists w', write_loop hs name lv st0 w = (Fault, w') \/
    exists st, write_loop hs name lv st0 w = (Ret st, w') /\ EFI_ERROR st = true.
Proof.
  intros Hin Hd. revert w st0 Hin. induction hs as [|h hs IH]; intros w st0 Hin Hne; [done|].
  destruct (WriteFile_overrun h name lv w) as (w1 & T1 & HW); [by apply Hin; left|done|].
  cbn [write_loop]. destruct HW as [HW|(st & HW & Hs)].
  - exists w1. left. unfold bind. by rewrite HW.
  - mrun. rewrite Hs. destruct hs as [|k hs]; [exists w1; right; by exists st|].
    apply IH; [|done]. intros k' Hk. rewrite (proj1 T1). apply Hin. by right.
Qed.
End WriteLaws.

(** ** Copying and starting the SSBL *)
Section Copy.
Context {W : Type} `{!Pool W, !PoolOk W, !BlockIo W, !BlockIoLaws W, !FileSys W, !FileSysLaws W,
  !FileWriteLaws W, !ImageSvc W, !ImageLaws W}.

(** The blocks of the SSBL image of a bank. *)
Definition ssbl_blocks (h bank : Z) (w : W) : bytes :=
  window (disk h w) (ssbl_lba bank * BlockSize h w) (ALIGN_VALUE32 (ssbl_len h bank w) 512).

Lemma load_image_blocks_ok h bank w :
  ssbl_stored h bank w ->
  512 <= zlen (ssbl_blocks h bank w) < 2 ^ 31 /\
  load_image_blocks (Some h) (ssbl_lba bank) w = (Ret (inr (ssbl_blocks h bank w)), w).
Proof.
  intros [Hq Hl Hr1 Hr2]. unfold ssbl_blocks. set (n := ALIGN_VALUE32 _ _) in *.
  destruct (align_value_spec (ssbl_len h bank w) 9) as [Hm Hn]; [lia..|].
  change (2 ^ 9) with 512 in *. fold n in Hm, Hn.
  assert (Hn2 : 512 <= n < 2 ^ 31).
  { assert (n = 512 * (n / 512)) by (apply Z_div_exact_2; lia). nia. }
  rewrite zlen_window by lia. split; [done|]. unfold load_image_blocks.
  assert (H1 : SBC_RawPrtReadBlock (Some h) (Some (zeros SBC_RAWPRT_DFLT_BLK_SZ))
                 (Some SBC_RAWPRT_DFLT_BLK_SZ) (ssbl_lba bank) w
               = (Ret (SBCOK, Some (window (disk h w) (ssbl_lba bank * BlockSize h w) 512)), w)).
  { apply RawPrtReadBlock_ok; [split; lia|done|reflexivity|done]. }
  mrun. change (sbc_is SBCOK SBCOK) with true. cbn [negb].
  unfold rdp. rewrite rd_window, Z.add_0_r by lia. mrun.
  change (le_val _) with (ssbl_len h bank w). change SBC_RAWPRT_DFLT_BLK_SZ with 512. fold n.
  pose proof (alloc_ok n w) as Ha. mrun. cbn [negb].
  assert (H2 : SBC_RawPrtReadBlock (Some h) (Some (zeros n)) (Some n) (ssbl_lba bank) w
               = (Ret (SBCOK, Some (window (disk h w) (ssbl_lba bank * BlockSize h w) n)), w)).
  { apply RawPrtReadBlock_ok; [split; lia|lia|rewrite length_zeros; lia|done]. }
  mrun. change (sbc_is SBCOK SBCOK) with true. done.
Qed.

(** The length-value pair: its eight length bytes include the padding. *)
Lemma image_lv_read pad img :
  4 <= zlen img < 2 ^ 31 ->
  rdp (lv_value (image_lv pad img)) (lv_word (image_lv pad img))
  = if u32 pad =? 0 then Some (drop 4 img) else None.
Proof.
  intros Hl. pose proof (u32_range pad) as Hp. unfold image_lv, lv_set_length, lv_set_value.
  cbn [lv_value lv_word rdp]. rewrite u64_small, Z.div_mul, (u32_small (zlen img - 4)) by lia.
  assert (Hz : zlen (drop 4 img) = zlen img - 4) by (rewrite length_drop; lia).
  destruct (u32 pad =? 0) eqn:E; bool_hyp.
  - rewrite E, Z.mul_0_l, Z.add_0_l, <-Hz. apply rd_all.
  - unfold rd. rewrite Hz. guard_false. done.
Qed.

(** C29: (functional) What the FSBL copies and what it starts.  With the SSBL image
    of the bank on the partition, [SBC_BootModeNormalAndpUdate] writes the blocks
    after the length field, unverified and with their padding, to
    \EFI\boot\SSBL.efi on a volume that takes them, and then starts
    \EFI\rocky\SSBL.efi, which keeps its content on every volume: the image read
    from the partition is not the image that runs.  When no volume takes the file
    the result is SBCNOTFND.  All this holds only when the uninitialised padding
    of the length happens to be 0; otherwise the write runs over the buffer. *)
Theorem fsbl_copy_not_started pad h bank w :
  1 <= bank <= 2 -> ssbl_stored h bank w -> vols view w <> [] ->
  same_path SSBL_EFI_PATH SSBL_COPY_PATH = false ->
  let res := SBC_BootModeNormalAndpUdate pad (Some h) bank w in
  (u32 pad = 0 -> exists w', vols view w' = vols view w /\
     (forall v c, vol_node view w v SSBL_EFI_PATH = Some (Some c) ->
                  vol_node view w' v SSBL_EFI_PATH = Some (Some c)) /\
     (res = (Ret SBCNOTFND, w') \/
      starts_first SSBL_EFI_PATH SBCFAIL (vols view w) w' res /\
      exists k tail, In k (vols view w) /\
        vol_node view w' k SSBL_COPY_PATH
        = Some (Some (drop 4 (ssbl_blocks h bank w) ++ tail)%list))) /\
  (u32 pad <> 0 -> exists w', res = (Ret SBCNOTFND, w') \/ res = (Fault, w')).
Proof.
  intros Hb Hs Hv Hsp res. destruct (load_image_blocks_ok h bank w Hs) as [Hn HL].
  pose proof (image_lv_read pad (ssbl_blocks h bank w) ltac:(lia)) as Hlv.
  pose proof (FindEfiFs_run w) as HF.
  assert (Hz : 0 < zlen (vols view w)) by (destruct (vols view w); [done|cbn [List.length]; lia]).
  assert (HR : res = (let! retval := write_loop (vols view w) SSBL_COPY_PATH
                        (image_lv pad (ssbl_blocks h bank w)) EFI_SUCCESS in
                      if EFI_ERROR retval then ret SBCNOTFND else SBC_SSBL_LoadAndStart) w).
  { unfold res, SBC_BootModeNormalAndpUdate. guard_true. cbn [notnull]. mrun.
    by guard_false. }
  clearbody res. subst res. split; intros Hp.
  - rewrite (proj2 (Z.eqb_eq _ _) Hp) in Hlv.
    destruct (write_loop_run (vols view w) SSBL_COPY_PATH _ _ w EFI_SUCCESS (fun k Hk => Hk) Hlv)
      as (st & w' & HW & HT & Hk). mrun. exists w'. split; [apply HT|].
    split; [intros v c; by apply HT|]. destruct (EFI_ERROR st) eqn:Es; [by left|right].
    split; [|by apply Hk]. unfold SBC_SSBL_LoadAndStart. pose proof (fs_locate w') as HLo. mrun.
    rewrite (proj1 HT). apply load_loop_run. by intros [].
  - rewrite (proj2 (Z.eqb_neq _ _) Hp) in Hlv.
    destruct (write_loop_overrun (vols view w) SSBL_COPY_PATH _ w EFI_SUCCESS (fun k Hk => Hk) Hlv Hv)
      as (w' & [HW|(st & HW & Hst)]); exists w'; mrun; [by right|left]. by rewrite Hst.
Qed.

(** (error) The FSBL's check of the SSBL checks nothing: once the image can be
    read from the partition, [SBC_SSBL_Verify] of the FSBL returns SBCOK whatever
    the image is, provided four bytes follow the buffer in memory; it copies the
    trailer from beyond the buffer, and faults when nothing follows it. *)
Theorem fsbl_ssbl_verify_accepts_all h bank after w :
  ssbl_stored h bank w ->
  (4 <= zlen after -> FSBL_SSBL_Verify (Some h) after bank w = (Ret SBCOK, w)) /\
  (zlen after < 4 -> FSBL_SSBL_Verify (Some h) after bank w = (Fault, w)).
Proof.
  intros Hs. destruct (load_image_blocks_ok h bank w Hs) as [Hn HL].
  unfold FSBL_SSBL_Verify. mrun. unfold FSBL_BNIFO_SIZE. rewrite u32_small by lia.
  unfold rd. rewrite length_app. split; intros Ha; [guard_true|guard_false]; by mrun.
Qed.
End Copy.

(** ** One boot of the first stage *)
Section Dispatch.
Context {W : Type} `{!Pool W, !BlockIo W, !BlockIoLaws W, !FileSys W, !ImageSvc W, !HwInfo W,
  !Rng W, !OpenSSL, !Frames W, !LogSvc W, !LogSvcOk W}.

#[local] Hint Resolve keeps_FindEfi keeps_GetFileSize keeps_ReadFile keeps_FindFileBufHndl
  keeps_HashCompute keeps_hash_at keeps_hw_serials keeps_fsbl_load keeps_RawPrtRead : sbc.

Lemma keeps_FSBL_Verify b s a n m : keeps (SBC_FSBL_Verify (W := W) b s a n m).
Proof.
  unfold SBC_FSBL_Verify, verify_image, load_image_file, check_image. cbv zeta. keeps_tac.
Qed.
Lemma keeps_FSBL_DiceKeysGen d : keeps (FSBL_DiceKeysGen (W := W) d).
Proof. unfold FSBL_DiceKeysGen, SBC_GenDeviceID. cbv zeta. keeps_tac. Qed.

(** The device takes no 128-byte transfer; with no device, no header is written
    (a write would go through the null handle). *)
Definition header_write_refused (hb : option Z) (hdr : rawprt_hdr_t) (w : W) : Prop :=
  match hb with
  | Some h => 128 mod BlockSize h w <> 0
  | None => bootmode hdr = BOOT_MODE_FACTORY -> keymode hdr = KEY_MODE_NORMAL
  end.

Lemma key_mode_normal_lost hb hdr w :
  hdr_wf hdr -> bootmode hdr = BOOT_MODE_FACTORY -> header_write_refused hb hdr w ->
  key_mode_normal hb hdr w
  = (Ret (set_modes hdr (bootmode hdr) KEY_MODE_NORMAL (rcvmode hdr)), w).
Proof.
  intros Hw Hf Hb. unfold key_mode_normal. destruct (keymode hdr =? KEY_MODE_NORMAL) eqn:E; bool_hyp.
  { cbn [negb]. unfold ret. f_equal. f_equal. destruct hdr. cbn in *. by subst. }
  cbn [negb]. cbv zeta. set (p := set_modes _ _ _ _).
  assert (Hp : hdr_wf p)
    by (destruct Hw; split; cbn; try assumption; vm_compute; split; congruence).
  assert (Hl : zlen (hdr_encode p) = 128) by (rewrite length_hdr_encode by done; lia).
  assert (HX : exists r, SBC_RawPrtBlockWrite hb (Some (hdr_encode p)) 128 0 w = (Ret r, w)).
  { destruct hb as [h|]; [|by destruct E; apply Hb].
    destruct (write_total h 0 (hdr_encode p) w) as (st & w' & HW); [split; lia|].
    destruct (write_bad_size h 0 (hdr_encode p) w st w') as [Hs ->];
      [split; lia|done|by rewrite Hl|].
    rewrite (RawPrtBlockWrite_run h _ 128 0 w (hdr_encode p))
      by (try lia; rewrite <-Hl at 1; apply rd_all).
    eexists. by mrun. }
  destruct HX as [r HX]. by mrun.
Qed.

(** What a boot does once its image is verified and its device id derived. *)
Inductive fsbl_act := StartCopy (bank : Z) | StartFactory | DoNothing.
Definition fsbl_action (hdr : rawprt_hdr_t) : fsbl_act :=
  let cur := current_bank (bootpres hdr) in
  if (bootmode hdr =? BOOT_MODE_NORMAL) || (bootmode hdr =? BOOT_MODE_UPDATE) then StartCopy cur
  else if bootmode hdr =? BOOT_MODE_RECOVERY then StartCopy (FSBL_FindPreviouslyBank cur)
  else if bootmode hdr =? BOOT_MODE_FACTORY then StartFactory else DoNothing.
Definition act_run (pad : Z) (hb : option Z) (a : fsbl_act) : M W EFI_STATUS :=
  match a with
  | StartCopy bank =>
      let! r := SBC_BootModeNormalAndpUdate pad hb bank in
      ret (if sbc_is r SBCOK then EFI_SUCCESS else EFI_INVALID_PARAMETER)
  | StartFactory => let! _ := SBC_SSBL_LoadAndStart in ret EFI_SUCCESS
  | DoNothing => ret EFI_SUCCESS
  end.

Lemma fsbl_prev_positive c : (FSBL_FindPreviouslyBank c <? 1) = false.
Proof. unfold FSBL_FindPreviouslyBank. by repeat case_match. Qed.

(** A verified image delivers a base answer. *)
Lemma verify_answer_of hb stk ansr n m (w : W) a w1 :
  SBC_FSBL_Verify hb stk ansr n m w = (Ret (SBCOK, a), w1) -> exists msg, lv_value a = Some msg.
Proof.
  intros HV. destruct (verify_answer FSBL_VERIFY_PATH stk ansr w (SBCOK, a) w1 HV eq_refl)
    as (msg & Hm & _). by exists msg.
Qed.

(** Two effects that agree in every state. *)
Lemma bind_act {A B C} (m : M W A) (k : A -> M W B) (l : B -> M W C) (n : A -> M W C) w :
  (forall a w, bind (k a) l w = n a w) -> bind (bind m k) l w = bind m n w.
Proof. intros HK. unfold bind in *. destruct (m w) as [[a| |r] w1]; [apply HK|done..]. Qed.

Lemma fsbl_switch_run pad hb hdr w :
  hdr_wf hdr -> header_write_refused hb hdr w ->
  (let! (retval, ok, tmp) := fsbl_switch pad hb hdr (current_bank (bootpres hdr))
                               (FSBL_FindPreviouslyBank (current_bank (bootpres hdr))) in
   fsbl_errdone hb hdr tmp retval ok) w
  = act_run pad hb (fsbl_action hdr) w.
Proof.
  intros Hw Hb. unfold fsbl_switch, fsbl_action, fsbl_errdone.
  assert (HC : forall bank, bootmode hdr <> BOOT_MODE_FACTORY ->
    (let! (retval, ok, tmp) := (let! r := SBC_BootModeNormalAndpUdate pad hb bank in
        if negb (sbc_is r SBCOK) then ret (EFI_INVALID_PARAMETER, false, hdr)
        else ret (EFI_SUCCESS, true, hdr)) in
     fsbl_errdone hb hdr tmp retval ok) w = act_run pad hb (StartCopy bank) w).
  { intros bank Hn. cbn [act_run]. apply bind_act. intros r w1. unfold fsbl_errdone.
    destruct (sbc_is r SBCOK); cbn [negb]; mrun; by guard_false. }
  unfold fsbl_errdone in HC.
  destruct (bootmode hdr =? BOOT_MODE_NORMAL) eqn:E1; bool_hyp;
    [cbn [orb]; apply HC; by rewrite E1|].
  destruct (bootmode hdr =? BOOT_MODE_FACTORY) eqn:E2; bool_hyp.
  - rewrite E2. cbn [orb]. change (BOOT_MODE_FACTORY =? BOOT_MODE_UPDATE) with false.
    change (BOOT_MODE_FACTORY =? BOOT_MODE_RECOVERY) with false.
    change (BOOT_MODE_FACTORY =? BOOT_MODE_FACTORY) with true. cbv iota. cbn [act_run].
    unfold bind at 1. pose proof (key_mode_normal_lost hb hdr w Hw E2 Hb) as HK. mrun.
    unfold bind. by destruct (SBC_SSBL_LoadAndStart w) as [[] ?].
  - cbn [orb]. destruct (bootmode hdr =? BOOT_MODE_UPDATE) eqn:E3; [by apply HC|].
    destruct (bootmode hdr =? BOOT_MODE_RECOVERY) eqn:E4; [by apply HC|].
    mrun. by guard_false.
Qed.

(** C9: (refinement) One boot of the first stage: whatever the search for the
    partition reported ([s]; a failure does not stop it, and it then goes on with
    the header of the last disk it looked at), when its own image verifies, its
    base answer can be reported, and the device id is derived, [FSBL_UefiMain] does
    what the boot mode says: NORMAL and UPDATE copy and start the SSBL of the
    current bank, RECOVERY that of the other bank, FACTORY starts SSBL.efi as it is,
    any other mode ends the boot with EFI_SUCCESS.  When the verification or the
    device id fails, FACTORY shuts the machine down and every other mode returns
    EFI_INVALID_PARAMETER; nothing is started.  When the base answer of the verified
    image has no 16-bit terminator in its buffer, the report reads behind it
    (Fault), in every mode; the theorem is for answers without a per cent sign.
    It is also for disks that take no transfer of 128 bytes
    ([header_write_refused]): on these the key mode that FACTORY writes back is not
    stored, and no block device changes up to the hand-over. *)
Theorem fsbl_dispatch j s hb hdr r1 a r2 w w1 w2 :
  SBC_BlkIoHandleInit None blank_hdr w = (Ret (s, hb, hdr), w) ->
  hdr_wf hdr -> header_write_refused hb hdr w ->
  SBC_FSBL_Verify hb (fj_hash j) (mkLV (fj_ansr j) None) (current_bank (bootpres hdr))
    (bootmode hdr) w = (Ret (r1, a), w1) ->
  FSBL_DiceKeysGen (fj_devid j) w1 = (Ret r2, w2) ->
  (forall msg t, lv_value a = Some msg -> char16_string msg = Some t ->
     forallb Log.literal t = true /\ zlen t <= 7000) ->
  exists w', same_dev w w' /\
    FSBL_UefiMain j w
    = let failed := if bootmode hdr =? BOOT_MODE_FACTORY then (Reset ResetShutdown, w')
                    else (Ret EFI_INVALID_PARAMETER, w') in
      if sbc_is r1 SBCOK then
        match m ← lv_value a; char16_string m with
        | None => (Fault, w')
        | Some _ => if sbc_is r2 SBCOK then act_run (fj_pad j) hb (fsbl_action hdr) w' else failed
        end
      else failed.
Proof.
  intros HI Hw Hb H1 H2 Ht.
  assert (K1 : same_dev w w1) by (by eapply keeps_FSBL_Verify).
  assert (K2 : same_dev w w2) by (transitivity w1; [done|by eapply keeps_FSBL_DiceKeysGen]).
  assert (Hbw : forall v, same_dev w v -> header_write_refused hb hdr v).
  { intros v Kv. destruct hb as [h|]; [|done]. cbn in *. by rewrite (proj1 (proj2 Kv h)). }
  assert (HE : forall v, same_dev w v ->
    fsbl_errdone hb hdr hdr EFI_INVALID_PARAMETER false v
    = if bootmode hdr =? BOOT_MODE_FACTORY then (Reset ResetShutdown, v)
      else (Ret EFI_INVALID_PARAMETER, v)).
  { intros v Kv. unfold fsbl_errdone. destruct (bootmode hdr =? BOOT_MODE_FACTORY) eqn:E; bool_hyp; [|done].
    cbn [negb andb]. pose proof (key_mode_normal_lost hb hdr v Hw E (Hbw v Kv)). by mrun. }
  unfold FSBL_UefiMain. mrun. rewrite fsbl_prev_positive. mrun. cbv zeta.
  destruct (sbc_is r1 SBCOK) eqn:E1; cbn [negb]; [|exists w1; split; [done|by apply HE]].
  apply sbc_is_true in E1 as ->. destruct (verify_answer_of _ _ _ _ _ _ _ _ H1) as (msg & Hm).
  rewrite Hm. cbn [mbind option_bind]. destruct (char16_string msg) as [t|] eqn:Et.
  - destruct (Ht msg t Hm Et) as [L1 L2]. pose proof (log_fsbl_ok t msg w1 Et L1 L2) as HL. mrun.
    destruct (sbc_is r2 SBCOK) eqn:E2; cbn [negb]; [|exists w2; split; [done|by apply HE]].
    exists w2. split; [done|]. apply fsbl_switch_run; auto.
  - exists w1. split; [done|]. unfold bind at 1.
    by rewrite (log_mrgmsg_unterminated _ [Some msg] msg w1) by (done || by left).
Qed.
End Dispatch.

(** ** Examples *)
Section Examples.
#[local] Existing Instance toy_ssl.
#[local] Existing Instance toy_laws.

Lemma touches_insert (w : machine) v path c fopen next :
  touches (fun a b => String.eqb (norm a) (norm b)) path w
    (set_fs w (mkFs (f_vols (m_fs w))
       (<[v := <[norm path := c]> (default (empty : gmap string bytes) (f_files (m_fs w) !! v))]>
          (f_files (m_fs w))) fopen next)).
Proof.
  split; [done|]. intros k n d Hn. cbn. unfold node_at. cbn. apply String.eqb_neq in Hn.
  destruct (decide (k = v)) as [->|Hk]; [|by rewrite lookup_insert_ne by congruence].
  rewrite lookup_insert_eq. destruct (f_files (m_fs w) !! v) as [fs|]; [|done]. cbn.
  rewrite lookup_insert_ne by congruence. destruct (fs !! norm n); [done|]. by case_match.
Qed.

#[export, refine] Instance machine_write_laws : FileWriteLaws machine :=
  {| same_path := fun a b => String.eqb (norm a) (norm b) |}.
Proof.
  - intros r h name w Hr. cbn in Hr |- *. unfold sim_open. rewrite Hr. cbn [join].
    destruct (node_at (m_fs w) h name) as [[c|]|] eqn:E.
    + eexists _, _, _. split; [reflexivity|]. split; [done|]. intros _. left. exists c.
      cbn. by rewrite lookup_insert_eq.
    + eexists _, _, _. split; [reflexivity|]. split; [done|]. intros _. right.
      cbn. by rewrite lookup_insert_eq.
    + change (_ <? EFI_FILE_MODE_CREATE) with false. cbv iota.
      eexists _, _, _. split; [reflexivity|]. split; [apply (touches_insert w h name [])|]. intros _. left.
      exists []. cbn. rewrite lookup_insert_eq. unfold node_at. cbn.
      by rewrite lookup_insert_eq, lookup_insert_eq.
  - intros f h name pos c d w Hf Hn Hp. cbn in Hf, Hn |- *. unfold sim_write. rewrite Hf.
    eexists _, _. split; [reflexivity|]. split; [apply touches_insert|]. intros _.
    unfold node_at in Hn |- *. cbn. rewrite lookup_insert_eq, lookup_insert_eq.
    destruct (f_files (m_fs w) !! h) as [fs|]; [|done]. cbn.
    destruct (fs !! norm name) as [x|]; [by injection Hn as ->|]. by case_match.
  - intros f h name d w Hf. cbn in Hf |- *. unfold sim_write. rewrite Hf.
    eexists _, _. split; [reflexivity|]. split; [apply touches_refl|done].
Defined.

(** The image with a base answer that ends in a terminator. *)
Definition ex_fsbl_parts : parts :=
  mkParts ex_payload (ex_answer ++ [0; 0])%list [] ex_cert
    (le_bytes 32 (toy_sum ex_payload) ++ take 32 ex_cert)%list
    (bsinfo_encode (mkBsinfo 64 0 64 10 1 0 0)).

(** A machine in the given mode, with signed loaders and a volume. *)
Definition ex_fsbl (b k : Z) : machine :=
  machine_of [disk_with 4096 [];
              disk_with (2 ^ 30) [(0, hdr_encode (ex_ssbl_hdr b k));
                                  (512 + BOOT_SSBL_OFS, le_bytes 4 60)]]
    [(FSBL_VERIFY_PATH, parts_bytes ex_fsbl_parts); (SSBL_VERIFY_PATH, replicate 40 6);
     (SSBL_EFI_PATH, [77; 90])]%string ex_hw.
Definition ex_fsbl_junk : fsbl_junk := mkFsblJunk 0 (zeros 32) (zeros 256) 0.

Lemma ex_ssbl_stored : ssbl_stored 2 1 (ex_fsbl BOOT_MODE_NORMAL KEY_MODE_NORMAL).
Proof.
  split; [vm_compute; split; congruence|vm_compute; split; congruence| |];
    (apply readable_run; [vm_compute; repeat split; congruence|vm_compute; reflexivity]).
Qed.

Lemma fsbl_copy_not_started_witness :
  exists w', vols view w' = [10] /\
    vol_node view w' 10 SSBL_EFI_PATH = Some (Some [77; 90]).
Proof.
  destruct (fsbl_copy_not_started 0 2 1 (ex_fsbl BOOT_MODE_NORMAL KEY_MODE_NORMAL)) as [HC _].
  - lia.
  - exact ex_ssbl_stored.
  - discriminate.
  - vm_compute. reflexivity.
  - destruct HC as (w' & HV & HN & _); [reflexivity|]. exists w'. split; [exact HV|].
    apply HN. vm_compute. reflexivity.
Defined.

Lemma fsbl_ssbl_verify_accepts_all_witness :
  FSBL_SSBL_Verify (Some 2) [0; 0; 0; 0] 1 (ex_fsbl BOOT_MODE_NORMAL KEY_MODE_NORMAL)
  = (Ret SBCOK, ex_fsbl BOOT_MODE_NORMAL KEY_MODE_NORMAL).
Proof.
  apply (fsbl_ssbl_verify_accepts_all 2 1 [0; 0; 0; 0] _ ex_ssbl_stored). vm_compute. congruence.
Defined.

(** FACTORY with the key mode BOOT: SSBL.efi runs and the header stays. *)
Definition ex_factory : machine := ex_fsbl BOOT_MODE_FACTORY KEY_MODE_BOOT.
Definition ex_fver : out (SBCStatus * LV_t) * machine :=
  SBC_FSBL_Verify (Some 2) (zeros 256) (mkLV 0 None) 1 BOOT_MODE_FACTORY ex_factory.
Definition ex_fdev : out SBCStatus * machine := FSBL_DiceKeysGen (zeros 32) (snd ex_fver).

Lemma fsbl_dispatch_witness :
  exists w', same_dev ex_factory w' /\
    FSBL_UefiMain ex_fsbl_junk ex_factory = (let! _ := SBC_SSBL_LoadAndStart in ret EFI_SUCCESS) w'.
Proof.
  assert (HI : SBC_BlkIoHandleInit None blank_hdr ex_factory
               = (Ret (SBCOK, Some 2, ex_ssbl_hdr BOOT_MODE_FACTORY KEY_MODE_BOOT), ex_factory)).
  { rewrite (run_ret _ _ (SBCOK, Some 2, ex_ssbl_hdr BOOT_MODE_FACTORY KEY_MODE_BOOT))
      by (vm_compute; reflexivity). reflexivity. }
  apply (fsbl_dispatch ex_fsbl_junk SBCOK (Some 2) (ex_ssbl_hdr BOOT_MODE_FACTORY KEY_MODE_BOOT)
           SBCOK (ansr_of ex_fver) SBCOK ex_factory (snd ex_fver) (snd ex_fdev)).
  - exact HI.
  - apply ex_ssbl_hdr_wf; vm_compute; split; congruence.
  - vm_compute. discriminate.
  - apply run_ret. vm_compute. reflexivity.
  - apply run_ret. vm_compute. reflexivity.
  - intros msg t Hm Ht. vm_compute in Hm. injection Hm as <-. vm_compute in Ht. injection Ht as <-.
    split; [reflexivity|vm_compute; congruence].
Defined.
End Examples.
